(* ===== verification/_CoqProject ===== *)
-Q . S2P
Prelude.v
Unicode.v
Normalize.v
LemmaMap.v
Paradigm.v
Resolver.v
Pipeline.v
PostPass.v
Xml.v
Lsj.v
Tei.v
Texts.v
PyFloat.v
Translations.v
Authors.v
Lookup.v
Alignment.v
Aeschines.v
ImprovedAlignment.v
Reports.v
Assets.v
Batching.v
FixedAlignment.v
Extract.v
AllForms.v
Declension.v
Build.v
