(* ===== verification/Prelude.v ===== *)
(** * A verification library for the data preparation of classicsviewer

    The repository threedlite/classicsviewer builds the SQLite database of
    an Android reader of Greek and Latin classics with the Python scripts
    of [src/data-prep/].  The main one,
    [src/data-prep/create_perseus_database.py], imports the LSJ
    dictionary, the Perseus TEI texts and their English translations, and
    builds the table [lemma_map(word_form, word_normalized, lemma,
    confidence, source, morph_info)] with primary key [(word_form, lemma)],
    which the reader queries when a word is tapped; the other scripts add
    rows to [lemma_map] or repair the line ranges of the translations.
    This development models these scripts as executable Rocq definitions
    translated from the Python, and proves what they do.

    ** The program and how its parts interact

    [create_database] (lines 2725-2830) imports the LSJ entries, inserts
    the rows of the paradigm synthesiser ([create_lemma_mappings], which
    calls [GreekLemmatizer.generate_all_forms]), loads four Wiktionary
    files ([load_wiktionary_mappings]), runs the resolver over every Greek
    headword ([generate_comprehensive_lemmatization]) and deletes the rows
    whose lemma is not a Greek headword ([optimize_lemma_map]).  Every
    insertion is an [INSERT OR IGNORE], so the first writer of a key wins.
    All strings are first passed through a normaliser built on CPython's
    Unicode services (NFD, [unicodedata.combining], [str.lower] with its
    Final_Sigma rule, [str.isalpha]).  The master script
    [build_database.py] runs [create_database] in a subprocess and then
    three passes of its own on [lemma_map]; the stand-alone post-pass
    scripts run on the same table.

    Before the lemmatisation, [create_database] walks the Perseus
    directories ([process_perseus_author]): each work's [__cts__.xml]
    gives its row, [process_text_file] fills [books], [text_lines] and
    [words] from the Greek or Latin TEI file, and [process_translations]
    cuts the English files into [translation_segments] whose line ranges
    point into the Greek lines.  After it, [authors.has_translations] and
    [translation_lookup] are derived from those tables, and the manifest
    and quality report are written.  The repair scripts
    (fix_alignment_post_import.py, fix_translation_alignment_general.py,
    fix_aeschines_*.py, improved_translation_alignment.py) rewrite the
    ranges of [translation_segments] in a built database.

    ** Files, and what each models

    - [Prelude] (this file): Python strings as lists of code points
      ([pystr := list Z]); the decoding [utf8] of Rocq string literals,
      with the notation [γ"..."], so that the tables of the source are
      written with their own characters (the final sigma [ς] stays apart
      from [σ]); the [str] methods the code calls ([startswith],
      [endswith], negative slicing [slice_neg], [replace] as [py_replace]);
      their lemmas, the hint databases [pystr] and the tactic
      [pystr_simpl].
    - [Unicode]: the interface [UnicodeDB] (a [Class]) of the per-code-point
      Unicode data, the laws [UnicodeLaws] the normalisers need, CPython's
      algorithms on top ([nfd]: decomposition and canonical reordering;
      [py_lower]: [str.lower] with Final_Sigma; [split_ws] and [join]),
      and the instance [greek_ucd] generated from Python's unicodedata
      14.0 for the Greek blocks, Latin-1 and Latin Extended-A/B and all
      white space, with [greek_ucd_laws] checked on the table by
      evaluation.
    - [Normalize]: [normalize_greek] (lines 18-36), its guarded copy of
      the Wiktionary extractors, [GreekLemmatizer.normalize_greek] as
      [lemmatizer_normalize] (lines 384-403) and
      [normalize_line_for_search] (lines 38-70).  Theorems: idempotence,
      range closure, distribution over concatenation, irrelevance of the
      Final_Sigma context and of canonical reordering, canonical form of
      the search normaliser, and scenario 1 of the spec.
    - [LemmaMap]: a row, the table as the list of its rows in rowid order,
      the statements [INSERT OR IGNORE] ([insert_or_ignore], [insert_all]),
      [INSERT] (a [sql_error + table] result), [DELETE ... WHERE]; the
      primary-key invariant [pk_ok] preserved by each; the abstraction
      [abs] into a [gmap] and the refinement of first-writer-wins
      insertion; first writer wins over any sequence of inserts.
    - [Paradigm]: Python dictionaries as association lists with the
      semantics of a dict display (a repeated key keeps its first position
      and its last value), the tables of [GreekLemmatizer.__init__] copied
      character for character, [generate_noun_forms],
      [generate_verb_forms], [generate_all_forms] (the final
      [re.match(r'^[α-ωάέήίόύώ]+$')] as [word_re_match], where [$] also
      matches before a final newline), [reverse_lemmatize] (which nothing
      calls) and [create_lemma_mappings].
      Theorems: the final-sigma mismatch of the stem guesser, the
      unreachable irregular verbs, the contract and subscript endings the
      regular expression throws away, the lemma among its own forms.
    - [Resolver]: each rule of the loop body of
      [generate_comprehensive_lemmatization] as a step on the set of found
      lemmas, inside a [Section] over [valid_lemmas]; the confidence
      policy [confidence_of]; the rows and the loop.  The rules are shown
      to only add headwords ([grows], closed under composition and folds),
      which gives soundness; then exact match, the round trip through
      suffix stripping, the confidence table, the [εθ] over-match, the
      patronymics, the rows of the loop, and scenarios 2 and 4.
    - [Pipeline]: the Wiktionary loader over files as [json.load] sees
      them (missing, unreadable, or mappings whose fields are absent,
      [null] or present, each with its own Python behaviour), its counters
      and the state it carries across files; [optimize_lemma_map]; and
      [create_lemma_index], the lemmatisation part of [create_database],
      with the missing LSJ file as the error [NoSuchTable].  Theorems:
      primary key, referential integrity and provenance of every row of
      the index, exact counters, conditional confidence bounds, the empty
      dictionary, and scenario 3.
    - [PostPass]: the scripts add_nu_movable_variants.py,
      add_adverb_mappings.py, add_declension_mappings.py and
      add_inflection_mappings.py, each a function from the table to
      [script_error + (table * counters)] (they commit only at the end, so
      an exception leaves the database as it was), with SQL [LIKE], [IN],
      [DISTINCT] and the [COUNT] guards as SQLite evaluates them.
      Theorems: each script keeps the primary key and only appends; the
      guards make their plain [INSERT]s safe (under the invariant
      [word_normalized = word_form] for the adverb script); completeness
      of the nu-movable pass and the variant it skips for a second lemma;
      the exceptions a malformed JSON mapping raises; exact counters.
    - [Build]: [build_database.py]: [main] as [create_lemma_index]
      followed by [add_wiktionary_inflections],
      [add_greek_wiktionary_declensions] and [add_nu_movable_variants],
      each committing at its end, so that the result is the table and the
      exception that stopped the build, if any.  These passes store the
      raw form in [word_form] and guard on [(word_normalized, lemma)].  A
      generic loop lemma (a [Section] over the body) shows a guarded
      [INSERT] safe when the rows of its form carry [normalize_greek] of
      it ([agrees]).  Theorems: the build runs to its end under that
      condition, keeps the key, only appends rows of the three kinds, and
      leaves every tested pair present; without it, the generated form
      [λογοσοις] makes the build stop with an [IntegrityError].

    - [Xml]: ElementTree elements (tag, attributes, text, children,
      tail) and the [ElementPath] queries the scripts run.
    - [Lsj]: [LSJParser] (lines 73-311), from the parsed XML to the
      dictionary entries; theorems: [parse_lsj_xml] succeeds and the
      index reads the headwords it produces.
    - [Tei]: the shared vocabulary of the text processing (tag tests,
      [str.isdigit], [int()], the sentence splitter) and the corpus
      tables [authors], [works], [books], [text_lines], [words],
      [translation_segments] as lists of rows.
    - [Texts]: [process_text_file] (lines 1465-1687) with its prose,
      drama and poetry paths; every line it inserts belongs to a book.
    - [PyFloat]: binary64 floats from the Standard Library's [SpecFloat]
      (division, multiplication, addition, subtraction, [int()], the exact
      comparisons of an [int] with a [float]) and the sign lemmas the
      range bounds need.
    - [Translations]: [get_text_content], [get_section_line_mapping]
      (bounds, contiguity, and the last line it can miss),
      [extract_translation_segments] and [process_translations] (frame:
      only segments of the work's books are added).
    - [Authors]: [parse_cts_metadata], [process_perseus_author] and the
      author loops of [create_database]; the corpus keeps its keys and
      references.
    - [Lookup]: [has_translations] and [create_translation_lookup_table]
      (lines 2924-3082): every row is valid and every line within 100
      lines of a segment gets one.
    - [Alignment]: fix_alignment_post_import.py and
      fix_translation_alignment_general.py, with the frame relation
      [segments_changed]: the scripts only change the ranges of the
      segments they mean to, within the right books.
    - [Aeschines]: fix_aeschines_simple.py (an instance of the post-import
      fix) and fix_aeschines_alignment.py (segments moved onto lines of
      their book only).
    - [FixedAlignment]: create_perseus_database_fixed.py; its repair
      refines the post-import one on books numbered from 1, keeps
      segments within the book's line count, and misplaces them when the
      numbering starts later; its [main] cannot run.
    - [ImprovedAlignment]: improved_translation_alignment.py; the ranges
      of the paragraph distribution stay within the book's span, and
      [process_translation_improved] appends exactly the segments its
      extraction produced, one row each, all well formed.
    - [Reports]: [generate_manifest] as a JSON value and
      [generate_quality_report] as its lines; the thousands separators
      round-trip, and the manifest's work totals are multiplied by the
      segment fan-out of its join.

    - [Assets]: split_database_for_assets.py, over a store of files
      keyed by [pathlib] paths: the parts concatenate back to the input
      and verify, unless the input is named like its first part, which
      the split then destroys.

    - [Batching]: process_perseus_author_optimized.py: the batched
      inserts equal the line-at-a-time ones, the word offsets delimit
      their words, and the LIMIT/OFFSET loop ends for a positive chunk
      size and never for a negative one.

    - [Extract]: wiktionary-processing/extract_inflection_of_template.py,
      the producer of the first file [Pipeline]'s loader reads: its
      regular expressions are matched greedily and proved equal to their
      backtracking meaning ([match_at_spec]); its pattern test of Greek
      pages is dead; its file has distinct keys and no self-mapping, and
      the loader reads it to the end without error, adding only rows of
      confidence 1 from a word form to a different headword.
    - [AllForms]: wiktionary-processing/extract_all_ancient_greek_forms.py,
      the producer of the second file: its 26 regular expressions are
      compiled from their source text and matched greedily, which is
      proved equal to their meaning ([match_pieces_spec]); a page's
      mappings are its distinct non-empty normalized lemmas; the file's
      strings round-trip through UTF-8; the loader reads it without
      error, adding rows of confidence 0.95, some of which map a word
      form to itself.
    - [Declension]: wiktionary-processing/extract_declension_mappings.py,
      the producer of the fourth file and of the input of
      add_declension_mappings.py: for every pattern of the table
      [get_stem] cuts the ending of its [nom_sg] or [masc_nom_sg] key
      exactly when the word ends with it, every generated form is free
      of the table's parenthesized optional letters and is a prefix of
      the lemma followed by a case ending, and the deduplicated file goes through
      add_declension_mappings.py without an exception, one row per
      mapping; oxytone lemmas get forms built on the whole word.

    Generic pieces the extractors share live in [Prelude]
    ([first_by_key], the first element of each key of a Python dict) and
    in [Pipeline] ([jm_complete] and [load_mappings_complete]: a file
    whose mappings all carry the keys the loader reads is read to the
    end without a failure).

    Errors and exceptions are values: [E + A] with the bind [x ←? m; k],
    loops that stop at the first exception ([fold_err], [map_err]) and
    loops whose rows stay when a [try] catches the exception
    ([fold_exc]).

    ** Bounds and fuel

    No definition needs fuel that can run out: [py_replace] recurses on a
    fuel equal to the length of its input, which bounds the number of
    matches; [Tei.nat_digits] ([str(n)]) on [1 + log2 n], which bounds the
    number of decimal digits ([nat_digits_spec]); every other function is
    structural.  The one loop of the code whose termination depends on
    its input, [generate_lemmatization_in_chunks], takes fuel
    ([Batching.chunks_loop]): one iteration per distinct word and one
    more is enough for a positive chunk size, and no fuel is enough for
    a negative one.  Integers are Python
    integers (unbounded) and code points are [Z]; confidences are [Q],
    which represents the literals 0.9, 0.8, 0.75, 0.7, 0.6 and 0.5
    exactly.  Where the code computes with floats (section ranges,
    proportions, coverage percentages, [round(x, 1)]) they are binary64
    values of [SpecFloat], rounded as CPython rounds them, so the
    off-by-one lines that rounding causes are theorems.  The Unicode table is finite; a code point outside it takes
    the default row (no decomposition, class 0, its own lowercase, not a
    letter), which is what the laws need, and the witnesses only use
    characters of the table.

    ** What is not modelled, and why

    Parsing (of XML by ElementTree, of JSON by [json.load]) is the
    library's: the code is modelled from the parsed values.  Not modelled
    are the HTML formatting details of LSJ senses beyond their text,
    [extract_wiktionary_mappings] (which runs external scripts),
    [compress_and_copy_database] and the other file copies (pure I/O;
    the splitting of the packaged file is modelled in [Assets]),
    clean_wordforms.py (which rewrites another script's source text),
    [add_wiktionary_definitions] of build_database.py (which only adds
    dictionary entries from regular expressions on wiki pages), the
    Wiktionary dump extractors other than the inflection_of, all-forms
    and declension ones (the build reads no file of theirs),
    translation_alignment_patch.py (a
    monkey-patch of a read-only sqlite3 attribute that the build never
    applies), the backup copies and the analysis and packaging scripts,
    and every print.  The loaders are modelled over their inputs, so
    they hold whatever those extractors produce.
*)

From Stdlib Require Export ZArith QArith.
From Stdlib Require String Ascii.
From stdpp Require Export base list gmap strings numbers.

Declare Scope py_scope.
Delimit Scope py_scope with py.
Open Scope Z_scope.

(** ** Python strings *)

(** A Python [str] is a sequence of code points. *)
Abbreviation pystr := (list Z).

(** The byte of an [ascii] character. *)
Definition byte_val (a : Ascii.ascii) : Z := Z.of_N (Ascii.N_of_ascii a).

(** Decoding of a UTF-8 byte string into code points, so that a Python
    literal such as ['ος'] is written [γ"ος"] with the same characters.
    Malformed input is cut short; the literals of the development are
    well formed. *)
Fixpoint utf8 (s : String.string) : pystr :=
  match s with
  | String.EmptyString => []
  | String.String a s1 =>
      let b0 := byte_val a in
      if b0 <? 0x80 then b0 :: utf8 s1
      else match s1 with
           | String.EmptyString => []
           | String.String a1 s2 =>
               let b1 := byte_val a1 - 0x80 in
               if b0 <? 0xE0 then ((b0 - 0xC0) * 64 + b1) :: utf8 s2
               else match s2 with
                    | String.EmptyString => []
                    | String.String a2 s3 =>
                        let b2 := byte_val a2 - 0x80 in
                        if b0 <? 0xF0 then ((b0 - 0xE0) * 4096 + b1 * 64 + b2) :: utf8 s3
                        else match s3 with
                             | String.EmptyString => []
                             | String.String a3 s4 =>
                                 ((b0 - 0xF0) * 262144 + b1 * 4096 + b2 * 64
                                  + (byte_val a3 - 0x80)) :: utf8 s4
                             end
                    end
           end
  end.

Notation "'γ' s" := (utf8 s%string) (at level 1, s at level 0, format "'γ' s") : py_scope.
Open Scope py_scope.

(** [s.startswith(p)] *)
Fixpoint startswith (s p : pystr) : bool :=
  match p, s with
  | [], _ => true
  | c :: p', d :: s' => (c =? d) && startswith s' p'
  | _ :: _, [] => false
  end.

(** [s.endswith(p)] *)
Definition endswith (s p : pystr) : bool := startswith (rev s) (rev p).

(** [s.startswith((p1, p2, ...))] *)
Definition startswith_any (s : pystr) (ps : list pystr) : bool :=
  existsb (startswith s) ps.

(** [s[:-n]]: for [n = 0] Python gives the empty string. *)
Definition slice_neg (s : pystr) (n : nat) : pystr :=
  if (n =? 0)%nat then [] else take (length s - n) s.

(** The truth value of a string: [if s:]. *)
Definition nonempty (s : pystr) : bool := negb (bool_decide (s = [])).

(** [s[-1]] of a non-empty string (the code guards every use). *)
Definition last_char (s : pystr) : option Z := hd_error (rev s).

(** [sub in s] *)
Fixpoint contains (s sub : pystr) : bool :=
  startswith s sub || match s with [] => false | _ :: s' => contains s' sub end.

(** [s.find(sub, start)] for [start >= 0]: the least index [i >= start]
    where [sub] occurs, or [-1]. *)
Fixpoint find_aux (s sub : pystr) (i : Z) : option Z :=
  if startswith s sub then Some i else match s with [] => None | _ :: s' => find_aux s' sub (i + 1) end.

Definition py_find (s sub : pystr) (start : Z) : Z :=
  if Z.of_nat (length s) <? start then -1
  else match find_aux (drop (Z.to_nat start) s) sub start with Some i => i | None => -1 end.

(** [s.split(c)] for a one-character separator. *)
Fixpoint split_on (c : Z) (s : pystr) : list pystr :=
  match s with
  | [] => [[]]
  | x :: s' => let parts := split_on c s' in
               if x =? c then [] :: parts
               else match parts with p :: ps => (x :: p) :: ps | [] => [[x]] end
  end.

(** The order of [ORDER BY] on a text column: SQLite compares the UTF-8
    bytes, which orders code points. *)
Fixpoint pystr_leb (a b : pystr) : bool :=
  match a, b with
  | [], _ => true
  | _ :: _, [] => false
  | x :: a', y :: b' => (x <? y)%Z || ((x =? y)%Z && pystr_leb a' b')
  end.

Definition pystr_le (a b : pystr) : Prop := pystr_leb a b = true.

#[export] Instance pystr_le_dec : RelDecision pystr_le.
Proof. intros a b. unfold pystr_le. apply _. Defined.

(** [s.replace(old, new)] for a non-empty [old]: leftmost, non-overlapping
    occurrences; [fuel] bounds the scan (the length of [s] is enough). *)
Fixpoint replace_fuel (fuel : nat) (old new s : pystr) : pystr :=
  match fuel with
  | O => s
  | S f =>
      match s with
      | [] => []
      | c :: s' =>
          if startswith s old then new ++ replace_fuel f old new (drop (length old) s)
          else c :: replace_fuel f old new s'
      end
  end.

(** With an empty [old], Python inserts [new] around every character. *)
Definition py_replace (s old new : pystr) : pystr :=
  match old with
  | [] => new ++ concat (map (fun c => c :: new) s)
  | _ => replace_fuel (length s) old new s
  end.

(** Python's [float] confidences are kept as exact rationals. *)
#[export] Instance Q_eq_dec : EqDecision Q.
Proof. solve_decision. Defined.

(** ** Lemmas on Python strings *)

Create HintDb pystr discriminated.

Lemma startswith_spec (s p : pystr) :
  startswith s p = true <-> exists r, s = p ++ r.
Proof.
  revert s; induction p as [|c p IH]; intros [|d s]; simpl.
  - split; eauto.
  - split; eauto.
  - split; [discriminate | intros [r Hr]; discriminate].
  - rewrite andb_true_iff, Z.eqb_eq, IH. split.
    + intros [-> [r ->]]; eauto.
    + intros [r Hr]; injection Hr as -> ->; eauto.
Qed.

Lemma startswith_app (p r : pystr) : startswith (p ++ r) p = true.
Proof. apply startswith_spec; eauto. Qed.

Lemma endswith_spec (s p : pystr) :
  endswith s p = true <-> exists r, s = r ++ p.
Proof.
  unfold endswith; rewrite startswith_spec; split.
  - intros [r Hr]. exists (rev r).
    rewrite <- (rev_involutive s), Hr, rev_app_distr, rev_involutive; reflexivity.
  - intros [r ->]. exists (rev r). apply rev_app_distr.
Qed.

Lemma endswith_app (r p : pystr) : endswith (r ++ p) p = true.
Proof. apply endswith_spec; eauto. Qed.

Lemma endswith_false (s p : pystr) :
  endswith s p = false <-> ~ exists r, s = r ++ p.
Proof. rewrite <- endswith_spec. destruct (endswith s p); intuition congruence. Qed.

Lemma slice_neg_app (r p : pystr) :
  p <> [] -> slice_neg (r ++ p) (length p) = r.
Proof.
  intros Hp. unfold slice_neg. destruct p as [|c p]; [congruence|]. simpl.
  rewrite length_app. simpl.
  replace (length r + S (length p) - S (length p))%nat with (length r) by lia.
  apply take_app_length.
Qed.

Lemma length_slice_neg (s : pystr) n :
  (0 < n)%nat -> length (slice_neg s n) = (length s - n)%nat.
Proof.
  intros Hn. unfold slice_neg. destruct (Nat.eqb_spec n 0); [lia|].
  rewrite length_take. lia.
Qed.

(** An [endswith] test followed by the slice that drops the suffix: the
    idiom [if w.endswith(e): stem = w[:-len(e)]] of the source. *)
Lemma endswith_slice (s p : pystr) :
  p <> [] -> endswith s p = true -> s = slice_neg s (length p) ++ p.
Proof.
  intros Hp Hend. apply endswith_spec in Hend as [r ->].
  rewrite slice_neg_app by exact Hp. reflexivity.
Qed.

Lemma nonempty_true s : nonempty s = true <-> s <> [].
Proof. unfold nonempty. rewrite negb_true_iff. by rewrite bool_decide_eq_false. Qed.

Lemma startswith_nil s : startswith s [] = true.
Proof. by destruct s. Qed.

(** [s.replace(a, b)] for one-character [a] and [b] maps each code point. *)
Definition subst_char (a b c : Z) : Z := if c =? a then b else c.

Lemma replace_fuel_single f a b s :
  (length s <= f)%nat -> replace_fuel f [a] [b] s = map (subst_char a b) s.
Proof.
  revert f; induction s as [|c s IH]; intros [|f] Hf; simpl in *; try lia; auto.
  unfold subst_char at 1. rewrite startswith_nil, andb_true_r, (Z.eqb_sym a c), drop_0.
  destruct (c =? a); simpl; rewrite IH by lia; reflexivity.
Qed.

Lemma py_replace_single a b s : py_replace s [a] [b] = map (subst_char a b) s.
Proof. apply replace_fuel_single. lia. Qed.

(** Each step of the scan consumes a character or a whole non-empty
    [old]: two fuels that both cover the string agree. *)
Lemma replace_fuel_stable old new : old <> [] -> forall f1 f2 s,
  (length s <= f1)%nat -> (length s <= f2)%nat -> replace_fuel f1 old new s = replace_fuel f2 old new s.
Proof.
  intros Hold f1. induction f1 as [|g IH]; intros f2 s H1 H2.
  - destruct s; [|simpl in H1; lia]. by destruct f2.
  - destruct s as [|c s']; [by destruct f2|]. destruct f2 as [|h]; [simpl in H2; lia|].
    cbn [replace_fuel]. destruct (startswith (c :: s') old).
    + f_equal. apply IH; rewrite length_drop; destruct old as [|o old]; try done; simpl in *; lia.
    + f_equal. apply IH; simpl in *; lia.
Qed.

(** [py_replace] never runs out of fuel: with a non-empty [old], any
    fuel at least the length of the string gives the result of the fuel
    [length s] that [py_replace] uses, so the scan always reaches the end. *)
Theorem replace_fuel_enough f old new s :
  old <> [] -> (length s <= f)%nat -> replace_fuel f old new s = replace_fuel (length s) old new s.
Proof. intros Hold Hf. by apply replace_fuel_stable. Qed.

Lemma replace_fuel_enough_witness :
  replace_fuel 10 (utf8 "ab") (utf8 "x") (utf8 "cabab") = replace_fuel 5 (utf8 "ab") (utf8 "x") (utf8 "cabab").
Proof. apply (replace_fuel_enough 10 (utf8 "ab") (utf8 "x") (utf8 "cabab")); [discriminate|simpl; lia]. Defined.

(** ** Generic list lemmas *)

Lemma Forall_sub {A} (P Q : A -> Prop) (l : list A) :
  Forall P l -> (forall x, P x -> Q x) -> Forall Q l.
Proof. intros Hl HPQ. induction Hl; constructor; auto. Qed.

Lemma filter_Forall_id {A} (f : A -> bool) (l : list A) :
  Forall (fun x => f x = true) l -> List.filter f l = l.
Proof. induction 1 as [|x l Hx _ IH]; simpl; [done|]. by rewrite Hx, IH. Qed.

Lemma map_Forall_id {A} (f : A -> A) (l : list A) :
  Forall (fun x => f x = x) l -> map f l = l.
Proof. induction 1 as [|x l Hx _ IH]; simpl; [done|]. by rewrite Hx, IH. Qed.

Lemma concat_map_singleton {A} (l : list A) : concat (map (fun x => [x]) l) = l.
Proof. induction l as [|x l IH]; simpl; [done|]. by rewrite IH. Qed.

Lemma filter_concat_map {A B} (f : B -> bool) (g : A -> list B) (l : list A) :
  List.filter f (concat (map g l)) = concat (map (fun x => List.filter f (g x)) l).
Proof. induction l as [|x l IH]; simpl; [done|]. by rewrite filter_app, IH. Qed.

Lemma map_concat_map {A B C} (f : B -> C) (g : A -> list B) (l : list A) :
  map f (concat (map g l)) = concat (map (fun x => map f (g x)) l).
Proof. induction l as [|x l IH]; simpl; [done|]. by rewrite map_app, IH. Qed.

Lemma concat_map_concat_map {A B C} (f : B -> list C) (g : A -> list B) (l : list A) :
  concat (map f (concat (map g l))) = concat (map (fun x => concat (map f (g x))) l).
Proof. induction l as [|x l IH]; simpl; [done|]. by rewrite map_app, concat_app, IH. Qed.

(** If [w ++ d] ends with [p], one of [d] and [p] ends with the other. *)
Lemma endswith_app_false (w d p : pystr) :
  endswith d p = false -> endswith p d = false -> endswith (w ++ d) p = false.
Proof.
  intros H1 H2. destruct (endswith (w ++ d) p) eqn:E; [|done]. exfalso.
  apply endswith_spec in E as [r Hr]. apply app_eq_app in Hr as (k & [[H3 H4] | [H3 H4]]);
    subst; first [rewrite endswith_app in H1 | rewrite endswith_app in H2]; discriminate.
Qed.

(** Membership in a set of strings, decided by evaluation. *)
Lemma gset_elem_compute (x : pystr) (X : gset pystr) : bool_decide (x ∈ X) = true -> x ∈ X.
Proof. apply bool_decide_eq_true. Qed.

Lemma gset_not_elem_compute (x : pystr) (X : gset pystr) : bool_decide (x ∈ X) = false -> x ∉ X.
Proof. apply bool_decide_eq_false. Qed.

Lemma elem_of_rev {A} (x : A) (l : list A) : x ∈ rev l <-> x ∈ l.
Proof. rewrite !list_elem_of_In. symmetry. apply in_rev. Qed.

Lemma rev_nil_iff {A} (l : list A) : rev l = [] <-> l = [].
Proof. split; [|by intros ->]. intros Hr. by rewrite <- (rev_involutive l), Hr. Qed.

Lemma list_elem_compute `{EqDecision A} (x : A) (l : list A) :
  existsb (fun y => bool_decide (x = y)) l = true -> x ∈ l.
Proof.
  rewrite existsb_exists. intros (y & Hy & ->%bool_decide_eq_true). by apply list_elem_of_In.
Qed.

Create Rewrite HintDb pystr.
#[export] Hint Rewrite startswith_app endswith_app : pystr.
#[export] Hint Resolve startswith_app endswith_app : pystr.

(** Unfold the string predicates of a goal down to list equations. *)
Ltac pystr_simpl :=
  repeat match goal with
  | H : endswith _ _ = true |- _ => apply endswith_spec in H as [? H]
  | H : startswith _ _ = true |- _ => apply startswith_spec in H as [? H]
  | |- endswith _ _ = true => apply endswith_spec
  | |- startswith _ _ = true => apply startswith_spec
  end.

(** [min(l)] and [max(l)] of a non-empty list. *)
Lemma foldl_min_elem (x : Z) l : foldl Z.min x l ∈ x :: l.
Proof.
  revert x; induction l as [|y l IH]; intros x; simpl; [by left|].
  specialize (IH (Z.min x y)). apply elem_of_cons in IH as [->|IH]; [|set_solver].
  destruct (Z.min_spec x y) as [[_ ->]|[_ ->]]; set_solver.
Qed.

Lemma foldl_max_elem (x : Z) l : foldl Z.max x l ∈ x :: l.
Proof.
  revert x; induction l as [|y l IH]; intros x; simpl; [by left|].
  specialize (IH (Z.max x y)). apply elem_of_cons in IH as [->|IH]; [|set_solver].
  destruct (Z.max_spec x y) as [[_ ->]|[_ ->]]; set_solver.
Qed.

Lemma foldl_min_le_max (x : Z) l : foldl Z.min x l <= foldl Z.max x l.
Proof.
  enough (forall a b, a <= b -> foldl Z.min a l <= foldl Z.max b l) by (apply H; lia).
  induction l as [|y l IH]; intros a b Hab; simpl; [done|]. apply IH. lia.
Qed.

(** ** Scripts that stop on an exception

    A script that raises leaves the database as it was: its changes are
    only committed at the end.  Such code is a computation in the error
    monad [E + A]. *)

Definition sbind {E A B} (m : E + A) (f : A -> E + B) : E + B :=
  match m with inl e => inl e | inr a => f a end.

Notation "x ←? m ; k" := (sbind m (fun x => k))
  (at level 100, m at next level, right associativity) : py_scope.

Lemma sbind_inr {E A B} (m : E + A) (f : A -> E + B) b :
  sbind m f = inr b <-> exists a, m = inr a /\ f a = inr b.
Proof. destruct m; simpl; split; [discriminate|by intros (? & ? & _)|eauto|by intros (? & [= ->] & ?)]. Qed.

(** A [for] loop whose body may raise. *)
Fixpoint fold_err {E A B} (f : A -> B -> E + A) (l : list B) (a : A) : E + A :=
  match l with
  | [] => inr a
  | b :: l' => sbind (f a b) (fold_err f l')
  end.

Lemma fold_err_app {E A B} (f : A -> B -> E + A) l1 l2 a :
  fold_err f (l1 ++ l2) a = sbind (fold_err f l1 a) (fold_err f l2).
Proof.
  revert a; induction l1 as [|b l1 IH]; intros a; simpl; [done|].
  destruct (f a b); simpl; [done|apply IH].
Qed.

(** [[f(x) for x in l]] (or a loop appending [f(x)]) where [f] may raise. *)
Fixpoint map_err {E A B} (f : A -> E + B) (l : list A) : E + list B :=
  match l with
  | [] => inr []
  | x :: l' => y ←? f x; ys ←? map_err f l'; inr (y :: ys)
  end.

(** The results of [map_err] are those of its body, position by position. *)
Lemma map_err_lookup {E A B} (f : A -> E + B) l ys :
  map_err f l = inr ys -> (length ys = length l)%nat /\
  forall i x, l !! i = Some x -> exists y, ys !! i = Some y /\ f x = inr y.
Proof.
  revert ys; induction l as [|x l IH]; intros ys; simpl; [intros [= <-]; split; [done|by intros ? ? ?]|].
  intros (y & Hy & (ys' & Hys & [= <-])%sbind_inr)%sbind_inr. destruct (IH ys' Hys) as [Hl Hi].
  split; [simpl; lia|]. intros [|i] x'; simpl; [intros [= <-]; eauto|apply Hi].
Qed.

(** A loop that computes each update, which may raise, and applies it
    at once is the list of updates applied after the loop. *)
Lemma fold_err_map_err {E S A U} (f : A -> E + U) (g : S -> U -> S) l st :
  fold_err (fun st x => u ←? f x; inr (g st u)) l st = (us ←? map_err f l; inr (fold_left g us st)).
Proof.
  revert st; induction l as [|x l IH]; intros st; [done|]. simpl.
  destruct (f x) as [e|u]; simpl; [done|]. rewrite IH. by destruct (map_err f l).
Qed.

(** A loop whose body may raise after changing the state: the state the
    body left and the exception, if any, stop the loop; the caller keeps
    the state (nothing is rolled back). *)
Fixpoint fold_exc {E A B} (f : A -> B -> A * option E) (l : list B) (a : A) : A * option E :=
  match l with
  | [] => (a, None)
  | b :: l' => match f a b with (a', Some e) => (a', Some e) | (a', None) => fold_exc f l' a' end
  end.

(** An invariant of the body of a loop that cannot raise. *)
(** [SELECT DISTINCT]: the first occurrence of each tuple, in scan order. *)
Definition sql_distinct `{EqDecision A} (l : list A) : list A :=
  fold_left (fun acc x => if bool_decide (x ∈ acc) then acc else acc ++ [x]) l [].

Lemma sql_distinct_elem `{EqDecision A} (x : A) l : x ∈ sql_distinct l <-> x ∈ l.
Proof.
  unfold sql_distinct.
  assert (forall acc, x ∈ fold_left (fun acc x => if bool_decide (x ∈ acc) then acc else acc ++ [x]) l acc
                      <-> x ∈ acc \/ x ∈ l) as Hgen.
  { induction l as [|y l IH]; intros acc; simpl; [set_solver|].
    rewrite IH. case_bool_decide; set_solver. }
  rewrite Hgen. set_solver.
Qed.


(** [d = {}; for x in l: if key(x) not in d: d[key(x)] = x], then
    [list(d.values())]: the first element of each key, in the order of the
    keys' first occurrences (a dict keeps insertion order). *)
Fixpoint first_by_key `{Countable K} {A} (key : A -> K) (seen : gset K) (l : list A) : list A :=
  match l with
  | [] => []
  | x :: l' =>
      if bool_decide (key x ∈ seen) then first_by_key key seen l'
      else x :: first_by_key key ({[key x]} ∪ seen) l'
  end.

Section FirstByKey.
Context `{Countable K} {A : Type} (key : A -> K).

Lemma elem_of_map_key_iff k (l : list A) : k ∈ map key l <-> exists x, x ∈ l /\ key x = k.
Proof. rewrite list_elem_of_In, in_map_iff. setoid_rewrite list_elem_of_In. naive_solver. Qed.

(** The kept elements have distinct keys, none of them already seen, and
    every new key is kept. *)
Lemma first_by_key_spec seen l :
  NoDup (map key (first_by_key key seen l)) /\
  (forall x, x ∈ first_by_key key seen l -> x ∈ l /\ key x ∉ seen) /\
  (forall k, k ∈ map key l -> k ∉ seen -> k ∈ map key (first_by_key key seen l)).
Proof.
  revert seen; induction l as [|y l IH]; intros seen; simpl.
  - split; [constructor|]. split; [intros x Hx; inversion Hx|]. intros k Hk. inversion Hk.
  - case_bool_decide as Hin.
    + destruct (IH seen) as (H1 & H2 & H3). split; [done|]. split.
      * intros x Hx. destruct (H2 x Hx). split; [by right|done].
      * intros k [->|Hk]%elem_of_cons Hks; [done|auto].
    + destruct (IH ({[key y]} ∪ seen)) as (H1 & H2 & H3). split; [|split].
      * simpl. constructor; [|done]. intros (x & Hx & Hk)%elem_of_map_key_iff.
        destruct (H2 x Hx) as [_ Hn]. apply Hn. rewrite Hk.
        apply elem_of_union_l. by apply elem_of_singleton.
      * intros x [->|Hx]%elem_of_cons; [split; [by left|done]|].
        destruct (H2 x Hx) as [Hx' Hn]. split; [by right|].
        intros Hs. apply Hn. by apply elem_of_union_r.
      * intros k [->|Hk]%elem_of_cons Hks; simpl; [by left|].
        destruct (decide (k = key y)) as [->|Hne]; [by left|right].
        apply H3; [done|]. rewrite not_elem_of_union, not_elem_of_singleton. done.
Qed.

Lemma first_by_key_length seen l : (length (first_by_key key seen l) <= length l)%nat.
Proof.
  revert seen; induction l as [|y l IH]; intros seen; simpl; [lia|].
  case_bool_decide; simpl; [specialize (IH seen)|specialize (IH ({[key y]} ∪ seen))]; lia.
Qed.

Lemma first_by_key_Forall (P : A -> Prop) seen l :
  Forall P l -> Forall P (first_by_key key seen l).
Proof.
  intros Hl. apply Forall_forall. intros x Hx. apply list_elem_of_In in Hx.
  destruct (first_by_key_spec seen l) as (_ & H2 & _). destruct (H2 x Hx) as [Hx' _].
  apply (proj1 (Forall_forall _ _) Hl). by apply list_elem_of_In.
Qed.
End FirstByKey.

Lemma fold_left_inv {S C} (P : S -> Prop) (f : S -> C -> S) l st :
  (forall st x, P st -> P (f st x)) -> P st -> P (fold_left f l st).
Proof. intros Hf. revert st; induction l as [|x l IH]; intros st Hst; [done|]. apply IH, Hf, Hst. Qed.

Lemma foldl_inv {S C} (P : S -> Prop) (f : S -> C -> S) l st :
  (forall st x, P st -> P (f st x)) -> P st -> P (foldl f st l).
Proof. intros Hf. revert st; induction l as [|x l IH]; intros st Hst; [done|]. apply IH, Hf, Hst. Qed.

(** The same, for a body that keeps [P] on the elements of the list. *)
Lemma fold_left_inv_in {S C} (P : S -> Prop) (f : S -> C -> S) l st :
  (forall st x, P st -> x ∈ l -> P (f st x)) -> P st -> P (fold_left f l st).
Proof.
  revert st; induction l as [|x l IH]; intros st Hf Hst; [done|].
  apply IH; [intros; apply Hf; [done|by right]|apply Hf; [done|by left]].
Qed.

(** A preorder that every iteration of a loop respects (on a projection
    [g] of its state) holds between the state before and after the loop,
    also when the loop stops on an exception. *)
Section FoldPreorder.
Context {S A C E : Type} (R : relation A) `{!PreOrder R} (g : S -> A).

Lemma fold_left_rel (f : S -> C -> S) l st :
  (forall st x, R (g st) (g (f st x))) -> R (g st) (g (fold_left f l st)).
Proof.
  intros Hf. revert st; induction l as [|x l IH]; intros st; [reflexivity|].
  cbn [fold_left]. etrans; [apply Hf|apply IH].
Qed.

Lemma fold_exc_rel (f : S -> C -> S * option E) l st :
  (forall st x, R (g st) (g (f st x).1)) -> R (g st) (g (fold_exc f l st).1).
Proof.
  intros Hf. revert st; induction l as [|x l IH]; intros st; [reflexivity|].
  cbn [fold_exc]. pose proof (Hf st x) as Hx. destruct (f st x) as [st' [e|]]; [exact Hx|].
  etrans; [exact Hx|apply IH].
Qed.
End FoldPreorder.

Section FoldErr.
Context {E A B : Type} (f : A -> B -> E + A) (P : A -> Prop).

(** An invariant of the body is an invariant of the loop. *)
Lemma fold_err_inv l a a' :
  (forall x b x', P x -> b ∈ l -> f x b = inr x' -> P x') ->
  P a -> fold_err f l a = inr a' -> P a'.
Proof.
  revert a; induction l as [|b l IH]; intros a Hf Ha; simpl; [by intros [= <-]|].
  destruct (f a b) as [e|x] eqn:E1; simpl; [discriminate|].
  apply IH; [intros; eapply Hf; [..|done]; set_solver|]. eapply Hf; [done|by left|done].
Qed.

(** A body that never raises under an invariant gives a loop that never
    raises. *)
Lemma fold_err_total l a :
  (forall x b, P x -> b ∈ l -> exists x', f x b = inr x' /\ P x') ->
  P a -> exists a', fold_err f l a = inr a' /\ P a'.
Proof.
  revert a; induction l as [|b l IH]; intros a Hf Ha; simpl; [eauto|].
  destruct (Hf a b Ha (list_elem_of_here _ _)) as (x & -> & Hx). simpl.
  apply IH; [intros; apply Hf; [done|set_solver]|done].
Qed.
End FoldErr.

(** A loop whose body raises on none of its items is the plain loop. *)
Lemma fold_err_fold_left {E A B} (f : A -> B -> E + A) (g : A -> B -> A) l a :
  (forall x b, b ∈ l -> f x b = inr (g x b)) -> fold_err f l a = inr (fold_left g l a).
Proof.
  revert a. induction l as [|b l IH]; intros a Hf; [done|]. simpl.
  rewrite Hf by set_solver. apply IH. intros x c Hc. apply Hf. set_solver.
Qed.

(** [omap] of a function that keeps every item is a [map]. *)
Lemma omap_all_Some {A B} (h : A -> option B) (k : A -> B) l :
  (forall x, x ∈ l -> h x = Some (k x)) -> omap h l = map k l.
Proof.
  induction l as [|x l IH]; intros Hh; [done|]. simpl. rewrite Hh by set_solver.
  f_equal. apply IH. intros y Hy. apply Hh. set_solver.
Qed.

(** A property that one iteration establishes and every iteration keeps
    holds at the end of the loop. *)
Lemma fold_err_elem {E A B} (f : A -> B -> E + A) (P Q : A -> Prop) l b0 a a' :
  (forall x b x', P x -> b ∈ l -> f x b = inr x' -> P x') ->
  (forall x b x', P x -> Q x -> b ∈ l -> f x b = inr x' -> Q x') ->
  (forall x x', P x -> f x b0 = inr x' -> Q x') ->
  b0 ∈ l -> P a -> fold_err f l a = inr a' -> Q a'.
Proof.
  intros HP HQ Hb0. revert a; induction l as [|b l IH]; intros a Hin Ha; simpl;
    [by apply elem_of_nil in Hin|].
  destruct (f a b) as [e|x] eqn:E1; simpl; [discriminate|].
  assert (P x) as Hx by (eapply HP; [done|by left|done]).
  apply elem_of_cons in Hin as [->|Hin].
  - intros Hf. apply (fold_err_inv f (fun y => P y /\ Q y) l x a'); [|split; [done|exact (Hb0 a x Ha E1)]|done].
    intros y c y' [Hy HQy] Hc Hy'. split; [eapply HP|eapply HQ]; eauto; set_solver.
  - apply IH; [intros; eapply HP; eauto; set_solver|intros; eapply HQ; eauto; set_solver|done|done].
Qed.
