(* ===== verification/Unicode.v ===== *)
(** * Unicode services of CPython

    The normalisers of the repository call four services of CPython:
    [unicodedata.normalize('NFD', _)], [unicodedata.combining],
    [str.lower] and [str.isalpha] (and [str.split], which uses
    [str.isspace]); the text processing also reads digits ([str.isdigit]
    and [int()], which reads decimal digits).  This file states them as an interface, the class
    [UnicodeDB] of per-code-point data, builds CPython's string-level
    algorithms on it, and gives the laws ([UnicodeLaws]) that the proofs of
    the normalisers use.  The instance [greek_ucd] is generated from
    Python 3.11's unicodedata (Unicode 14.0): it holds every code point of
    the two Greek blocks, every code point whose decomposition or lowercase
    reaches them, the marks those decompose into, Latin-1 and Latin
    Extended-A/B, and every white-space character; any other code point
    gets the default entry (no decomposition, class 0, its own lowercase,
    not alphabetic, not cased, not case-ignorable, not space).  For
    [normalize_greek] the defaults cannot change the result: a code point
    outside the table is outside the Greek blocks and is filtered out. *)

From S2P Require Import Prelude.

(** One row of the Unicode character database. *)
Record ucd_entry := U {
  u_nfd : pystr;     (** full canonical decomposition *)
  u_ccc : Z;         (** canonical combining class *)
  u_lower : pystr;   (** full lowercase mapping (context-free part) *)
  u_alpha : bool;    (** [str.isalpha] *)
  u_cased : bool;    (** Unicode property Cased *)
  u_ci : bool;       (** Unicode property Case_Ignorable *)
  u_space : bool     (** [str.isspace] *)
}.

Class UnicodeDB := {
  ucd_nfd : Z -> pystr;
  ucd_ccc : Z -> Z;
  ucd_lower : Z -> pystr;
  ucd_isalpha : Z -> bool;
  ucd_cased : Z -> bool;
  ucd_case_ignorable : Z -> bool;
  ucd_isspace : Z -> bool;
  ucd_decimal : Z -> option Z;  (** [unicodedata.decimal]: what [int()] reads *)
  ucd_isdigit : Z -> bool       (** [str.isdigit] of one character *)
}.

(** The two blocks the normaliser keeps: [U+0370..U+03FF] and
    [U+1F00..U+1FFF] (create_perseus_database.py:34). *)
Definition in_greek_ranges (c : Z) : bool :=
  ((0x370 <=? c) && (c <=? 0x3FF)) || ((0x1F00 <=? c) && (c <=? 0x1FFF)).

Definition capital_sigma : Z := 0x3A3.
Definition small_final_sigma : Z := 0x3C2.
Definition small_sigma : Z := 0x3C3.

Section Algorithms.
Context `{UnicodeDB}.

(** [unicodedata.combining(c)] is the combining class; the code tests it
    for truth. *)
Definition combining (c : Z) : bool := negb (ucd_ccc c =? 0).

(** Canonical ordering: each maximal run of non-starters is sorted,
    stably, by combining class.  [insert_by_ccc] puts [c] after every
    mark of the run with a class not above its own. *)
Fixpoint insert_by_ccc (c : Z) (run : pystr) : pystr :=
  match run with
  | [] => [c]
  | d :: r => if ucd_ccc c <? ucd_ccc d then c :: d :: r else d :: insert_by_ccc c r
  end.

Fixpoint canonical_order_aux (run s : pystr) : pystr :=
  match s with
  | [] => run
  | c :: s' =>
      if ucd_ccc c =? 0 then run ++ c :: canonical_order_aux [] s'
      else canonical_order_aux (insert_by_ccc c run) s'
  end.

Definition canonical_order (s : pystr) : pystr := canonical_order_aux [] s.

(** [unicodedata.normalize('NFD', s)]: full decomposition of every code
    point, then canonical ordering. *)
Definition nfd (s : pystr) : pystr := canonical_order (concat (map ucd_nfd s)).

(** The Final_Sigma context of CPython's [handle_capital_sigma]
    (Objects/unicodeobject.c): a cased letter before the sigma, skipping
    case-ignorable ones, and no cased letter after it, skipping the same. *)
Fixpoint skip_case_ignorable (s : pystr) : pystr :=
  match s with
  | [] => []
  | c :: s' => if ucd_case_ignorable c then skip_case_ignorable s' else s
  end.

Definition final_sigma (before_rev after : pystr) : bool :=
  match skip_case_ignorable before_rev with
  | c :: _ => ucd_cased c
  | [] => false
  end &&
  match skip_case_ignorable after with
  | c :: _ => negb (ucd_cased c)
  | [] => true
  end.

(** [str.lower]: the capital sigma is lowered by its context, every other
    code point by its full lowercase mapping. *)
Fixpoint lower_aux (before_rev s : pystr) : pystr :=
  match s with
  | [] => []
  | c :: s' =>
      (if c =? capital_sigma
       then [if final_sigma before_rev s' then small_final_sigma else small_sigma]
       else ucd_lower c) ++ lower_aux (c :: before_rev) s'
  end.

Definition py_lower (s : pystr) : pystr := lower_aux [] s.

(** [str.split()] with no argument: the maximal runs of non-space code
    points. *)
Fixpoint split_ws_aux (word s : pystr) : list pystr :=
  match s with
  | [] => match word with [] => [] | _ => [rev word] end
  | c :: s' =>
      if ucd_isspace c
      then match word with [] => split_ws_aux [] s' | _ => rev word :: split_ws_aux [] s' end
      else split_ws_aux (c :: word) s'
  end.

Definition split_ws (s : pystr) : list pystr := split_ws_aux [] s.

(** [sep.join(words)] *)
Fixpoint join (sep : pystr) (ws : list pystr) : pystr :=
  match ws with
  | [] => []
  | [w] => w
  | w :: ws' => w ++ sep ++ join sep ws'
  end.
End Algorithms.

(** ** Properties of the string algorithms *)

Lemma join_head (sep w : pystr) ws : exists r, join sep (w :: ws) = w ++ r.
Proof. destruct ws; simpl; [exists []; by rewrite app_nil_r|eauto]. Qed.

Section AlgorithmFacts.
Context `{UnicodeDB}.

Lemma insert_by_ccc_perm c run : insert_by_ccc c run ≡ₚ c :: run.
Proof.
  induction run as [|d run IH]; simpl; [done|].
  destruct (ucd_ccc c <? ucd_ccc d); [done|].
  rewrite IH. constructor.
Qed.

Lemma canonical_order_aux_perm run s : canonical_order_aux run s ≡ₚ run ++ s.
Proof.
  revert run; induction s as [|c s IH]; intros run; simpl.
  - by rewrite app_nil_r.
  - destruct (ucd_ccc c =? 0).
    + by rewrite IH.
    + rewrite IH, insert_by_ccc_perm. apply Permutation_middle.
Qed.

(** Canonical ordering permutes the code points. *)
Lemma nfd_elem c s : c ∈ nfd s <-> exists d, d ∈ s /\ c ∈ ucd_nfd d.
Proof.
  unfold nfd, canonical_order. rewrite canonical_order_aux_perm. simpl.
  rewrite list_elem_of_In, in_concat. setoid_rewrite in_map_iff.
  setoid_rewrite <- list_elem_of_In. naive_solver.
Qed.

Lemma insert_by_ccc_Forall (P : Z -> Prop) c run :
  P c -> Forall P run -> Forall P (insert_by_ccc c run).
Proof.
  intros Hc Hrun. induction Hrun as [|d run Hd Hrun IH]; simpl; [by constructor|].
  destruct (ucd_ccc c <? ucd_ccc d); by repeat constructor.
Qed.

Lemma filter_nonstarters (run : pystr) :
  Forall (fun c => ucd_ccc c <> 0) run ->
  List.filter (fun c => negb (combining c)) run = [].
Proof.
  induction 1 as [|c run Hc _ IH]; simpl; [done|].
  unfold combining. by rewrite (proj2 (Z.eqb_neq _ _) Hc).
Qed.

Lemma canonical_order_aux_starters run s :
  Forall (fun c => ucd_ccc c <> 0) run ->
  List.filter (fun c => negb (combining c)) (canonical_order_aux run s) =
  List.filter (fun c => negb (combining c)) s.
Proof.
  revert run; induction s as [|c s IH]; intros run Hrun; simpl.
  - by apply filter_nonstarters.
  - unfold combining at 2. destruct (Z.eqb_spec (ucd_ccc c) 0) as [Hc|Hc]; simpl.
    + rewrite filter_app, filter_nonstarters by done. simpl.
      unfold combining at 1. rewrite Hc. simpl. f_equal. by apply IH.
    + apply IH. by apply insert_by_ccc_Forall.
Qed.

Lemma canonical_order_aux_all_starters s :
  Forall (fun c => ucd_ccc c = 0) s -> canonical_order_aux [] s = s.
Proof.
  induction 1 as [|c s Hc _ IH]; simpl; [done|].
  rewrite Hc. simpl. by rewrite IH.
Qed.

(** Where a code point of [str.lower]'s result comes from. *)
Lemma lower_aux_elem b s c :
  c ∈ lower_aux b s ->
  exists d, d ∈ s /\
    ((d = capital_sigma /\ (c = small_final_sigma \/ c = small_sigma)) \/
     (d <> capital_sigma /\ c ∈ ucd_lower d)).
Proof.
  revert b; induction s as [|d s IH]; intros b Hc; simpl in Hc; [set_solver|].
  apply elem_of_app in Hc as [Hc|Hc].
  - exists d. split; [set_solver|].
    destruct (Z.eqb_spec d capital_sigma) as [->|Hne].
    + left. split; [done|]. destruct (final_sigma b s); set_solver.
    + by right.
  - destruct (IH _ Hc) as (d' & Hd' & Hw). exists d'. split; [set_solver|done].
Qed.

Lemma lower_aux_stable b s :
  Forall (fun c => c <> capital_sigma /\ ucd_lower c = [c]) s -> lower_aux b s = s.
Proof.
  intros Hs. revert b; induction Hs as [|c s [Hc Hl] _ IH]; intros b; simpl; [done|].
  rewrite (proj2 (Z.eqb_neq _ _) Hc), Hl. simpl. by rewrite IH.
Qed.
(** The words of [split_ws] are non-empty and made of non-space code
    points of the input: a property of those code points holds of every
    character of every word. *)
Lemma split_ws_aux_Forall (P : Z -> Prop) word s :
  (forall c, c ∈ word -> P c) -> (forall c, c ∈ s -> ucd_isspace c = false -> P c) ->
  Forall (fun w => w <> [] /\ Forall P w) (split_ws_aux word s).
Proof.
  revert word; induction s as [|c s IH]; intros word Hw Hs; simpl.
  - destruct word as [|d word]; constructor; [|constructor].
    split; [by rewrite rev_nil_iff|].
    apply list.Forall_forall. intros x Hx. rewrite elem_of_rev in Hx. by apply Hw.
  - assert (forall x, x ∈ s -> ucd_isspace x = false -> P x) as Hs' by set_solver.
    destruct (ucd_isspace c) eqn:Hc.
    + destruct word as [|d word]; [apply IH; [set_solver|exact Hs']|].
      constructor; [|apply IH; [set_solver|exact Hs']].
      split; [by rewrite rev_nil_iff|].
      apply list.Forall_forall. intros x Hx. rewrite elem_of_rev in Hx. by apply Hw.
    + apply IH; [|exact Hs']. intros x [->|]%elem_of_cons; [|by apply Hw].
      apply Hs; [by left|done].
Qed.

Lemma split_ws_Forall (P : Z -> Prop) s :
  (forall c, c ∈ s -> ucd_isspace c = false -> P c) ->
  Forall (fun w => w <> [] /\ Forall P w) (split_ws s).
Proof. intros Hs. apply split_ws_aux_Forall; [intros c ?%elem_of_nil; done|done]. Qed.
End AlgorithmFacts.

(** The laws of the Unicode data that the normalisers rely on.  Each
    holds of Unicode 14.0; [greek_ucd_laws] checks them on the table. *)
Class UnicodeLaws `{UnicodeDB} := {
  (** the full decomposition is fully decomposed *)
  nfd_stable : forall c d, d ∈ ucd_nfd c -> ucd_nfd d = [d];
  (** lowering a decomposed starter gives decomposed starters that are
      their own lowercase *)
  lower_stable : forall d c,
    ucd_nfd d = [d] -> ucd_ccc d = 0 -> c ∈ ucd_lower d ->
    ucd_nfd c = [c] /\ ucd_ccc c = 0 /\ ucd_lower c = [c];
  (** so is the small sigma that [str.lower] puts for a capital one *)
  sigma_stable : ucd_nfd small_sigma = [small_sigma] /\ ucd_ccc small_sigma = 0 /\
    ucd_lower small_sigma = [small_sigma];
  (** no lowercase mapping produces the capital sigma *)
  lower_no_capital_sigma : forall d, capital_sigma ∉ ucd_lower d;
  (** letters are not white space *)
  alpha_not_space : forall c, ucd_isalpha c = true -> ucd_isspace c = false;
  (** the ASCII space is white space *)
  space_isspace : ucd_isspace 0x20 = true;
  (** the ASCII digits are decimal, with their values *)
  decimal_ascii : forall d, 0 <= d <= 9 -> ucd_decimal (48 + d) = Some d;
  (** a decimal value is a digit value, and a decimal is a digit *)
  decimal_range : forall c d, ucd_decimal c = Some d -> 0 <= d <= 9;
  decimal_isdigit : forall c d, ucd_decimal c = Some d -> ucd_isdigit c = true;
  (** the printable ASCII characters are not white space *)
  ascii_not_space : forall c, 33 <= c <= 126 -> ucd_isspace c = false
}.

(** ** The instance generated from Python's unicodedata *)

Definition default_entry (c : Z) : ucd_entry := U [c] 0 [c] false false false false.

Definition greek_ucd_table : list (Z * ucd_entry) := [
  (0x9, U [0x9] 0 [0x9] false false false true);
  (0xA, U [0xA] 0 [0xA] false false false true);
  (0xB, U [0xB] 0 [0xB] false false false true);
  (0xC, U [0xC] 0 [0xC] false false false true);
  (0xD, U [0xD] 0 [0xD] false false false true);
  (0x1C, U [0x1C] 0 [0x1C] false false false true);
  (0x1D, U [0x1D] 0 [0x1D] false false false true);
  (0x1E, U [0x1E] 0 [0x1E] false false false true);
  (0x1F, U [0x1F] 0 [0x1F] false false false true);
  (0x20, U [0x20] 0 [0x20] false false false true);
  (0x27, U [0x27] 0 [0x27] false false true false);
  (0x2E, U [0x2E] 0 [0x2E] false false true false);
  (0x3A, U [0x3A] 0 [0x3A] false false true false);
  (0x41, U [0x41] 0 [0x61] true true false false);
  (0x42, U [0x42] 0 [0x62] true true false false);
  (0x43, U [0x43] 0 [0x63] true true false false);
  (0x44, U [0x44] 0 [0x64] true true false false);
  (0x45, U [0x45] 0 [0x65] true true false false);
  (0x46, U [0x46] 0 [0x66] true true false false);
  (0x47, U [0x47] 0 [0x67] true true false false);
  (0x48, U [0x48] 0 [0x68] true true false false);
  (0x49, U [0x49] 0 [0x69] true true false false);
  (0x4A, U [0x4A] 0 [0x6A] true true false false);
  (0x4B, U [0x4B] 0 [0x6B] true true false false);
  (0x4C, U [0x4C] 0 [0x6C] true true false false);
  (0x4D, U [0x4D] 0 [0x6D] true true false false);
  (0x4E, U [0x4E] 0 [0x6E] true true false false);
  (0x4F, U [0x4F] 0 [0x6F] true true false false);
  (0x50, U [0x50] 0 [0x70] true true false false);
  (0x51, U [0x51] 0 [0x71] true true false false);
  (0x52, U [0x52] 0 [0x72] true true false false);
  (0x53, U [0x53] 0 [0x73] true true false false);
  (0x54, U [0x54] 0 [0x74] true true false false);
  (0x55, U [0x55] 0 [0x75] true true false false);
  (0x56, U [0x56] 0 [0x76] true true false false);
  (0x57, U [0x57] 0 [0x77] true true false false);
  (0x58, U [0x58] 0 [0x78] true true false false);
  (0x59, U [0x59] 0 [0x79] true true false false);
  (0x5A, U [0x5A] 0 [0x7A] true true false false);
  (0x5E, U [0x5E] 0 [0x5E] false false true false);
  (0x60, U [0x60] 0 [0x60] false false true false);
  (0x61, U [0x61] 0 [0x61] true true false false);
  (0x62, U [0x62] 0 [0x62] true true false false);
  (0x63, U [0x63] 0 [0x63] true true false false);
  (0x64, U [0x64] 0 [0x64] true true false false);
  (0x65, U [0x65] 0 [0x65] true true false false);
  (0x66, U [0x66] 0 [0x66] true true false false);
  (0x67, U [0x67] 0 [0x67] true true false false);
  (0x68, U [0x68] 0 [0x68] true true false false);
  (0x69, U [0x69] 0 [0x69] true true false false);
  (0x6A, U [0x6A] 0 [0x6A] true true false false);
  (0x6B, U [0x6B] 0 [0x6B] true true false false);
  (0x6C, U [0x6C] 0 [0x6C] true true false false);
  (0x6D, U [0x6D] 0 [0x6D] true true false false);
  (0x6E, U [0x6E] 0 [0x6E] true true false false);
  (0x6F, U [0x6F] 0 [0x6F] true true false false);
  (0x70, U [0x70] 0 [0x70] true true false false);
  (0x71, U [0x71] 0 [0x71] true true false false);
  (0x72, U [0x72] 0 [0x72] true true false false);
  (0x73, U [0x73] 0 [0x73] true true false false);
  (0x74, U [0x74] 0 [0x74] true true false false);
  (0x75, U [0x75] 0 [0x75] true true false false);
  (0x76, U [0x76] 0 [0x76] true true false false);
  (0x77, U [0x77] 0 [0x77] true true false false);
  (0x78, U [0x78] 0 [0x78] true true false false);
  (0x79, U [0x79] 0 [0x79] true true false false);
  (0x7A, U [0x7A] 0 [0x7A] true true false false);
  (0x85, U [0x85] 0 [0x85] false false false true);
  (0xA0, U [0xA0] 0 [0xA0] false false false true);
  (0xA8, U [0xA8] 0 [0xA8] false false true false);
  (0xAA, U [0xAA] 0 [0xAA] true true false false);
  (0xAD, U [0xAD] 0 [0xAD] false false true false);
  (0xAF, U [0xAF] 0 [0xAF] false false true false);
  (0xB4, U [0xB4] 0 [0xB4] false false true false);
  (0xB5, U [0xB5] 0 [0xB5] true true false false);
  (0xB7, U [0xB7] 0 [0xB7] false false true false);
  (0xB8, U [0xB8] 0 [0xB8] false false true false);
  (0xBA, U [0xBA] 0 [0xBA] true true false false);
  (0xC0, U [0x41; 0x300] 0 [0xE0] true true false false);
  (0xC1, U [0x41; 0x301] 0 [0xE1] true true false false);
  (0xC2, U [0x41; 0x302] 0 [0xE2] true true false false);
  (0xC3, U [0x41; 0x303] 0 [0xE3] true true false false);
  (0xC4, U [0x41; 0x308] 0 [0xE4] true true false false);
  (0xC5, U [0x41; 0x30A] 0 [0xE5] true true false false);
  (0xC6, U [0xC6] 0 [0xE6] true true false false);
  (0xC7, U [0x43; 0x327] 0 [0xE7] true true false false);
  (0xC8, U [0x45; 0x300] 0 [0xE8] true true false false);
  (0xC9, U [0x45; 0x301] 0 [0xE9] true true false false);
  (0xCA, U [0x45; 0x302] 0 [0xEA] true true false false);
  (0xCB, U [0x45; 0x308] 0 [0xEB] true true false false);
  (0xCC, U [0x49; 0x300] 0 [0xEC] true true false false);
  (0xCD, U [0x49; 0x301] 0 [0xED] true true false false);
  (0xCE, U [0x49; 0x302] 0 [0xEE] true true false false);
  (0xCF, U [0x49; 0x308] 0 [0xEF] true true false false);
  (0xD0, U [0xD0] 0 [0xF0] true true false false);
  (0xD1, U [0x4E; 0x303] 0 [0xF1] true true false false);
  (0xD2, U [0x4F; 0x300] 0 [0xF2] true true false false);
  (0xD3, U [0x4F; 0x301] 0 [0xF3] true true false false);
  (0xD4, U [0x4F; 0x302] 0 [0xF4] true true false false);
  (0xD5, U [0x4F; 0x303] 0 [0xF5] true true false false);
  (0xD6, U [0x4F; 0x308] 0 [0xF6] true true false false);
  (0xD8, U [0xD8] 0 [0xF8] true true false false);
  (0xD9, U [0x55; 0x300] 0 [0xF9] true true false false);
  (0xDA, U [0x55; 0x301] 0 [0xFA] true true false false);
  (0xDB, U [0x55; 0x302] 0 [0xFB] true true false false);
  (0xDC, U [0x55; 0x308] 0 [0xFC] true true false false);
  (0xDD, U [0x59; 0x301] 0 [0xFD] true true false false);
  (0xDE, U [0xDE] 0 [0xFE] true true false false);
  (0xDF, U [0xDF] 0 [0xDF] true true false false);
  (0xE0, U [0x61; 0x300] 0 [0xE0] true true false false);
  (0xE1, U [0x61; 0x301] 0 [0xE1] true true false false);
  (0xE2, U [0x61; 0x302] 0 [0xE2] true true false false);
  (0xE3, U [0x61; 0x303] 0 [0xE3] true true false false);
  (0xE4, U [0x61; 0x308] 0 [0xE4] true true false false);
  (0xE5, U [0x61; 0x30A] 0 [0xE5] true true false false);
  (0xE6, U [0xE6] 0 [0xE6] true true false false);
  (0xE7, U [0x63; 0x327] 0 [0xE7] true true false false);
  (0xE8, U [0x65; 0x300] 0 [0xE8] true true false false);
  (0xE9, U [0x65; 0x301] 0 [0xE9] true true false false);
  (0xEA, U [0x65; 0x302] 0 [0xEA] true true false false);
  (0xEB, U [0x65; 0x308] 0 [0xEB] true true false false);
  (0xEC, U [0x69; 0x300] 0 [0xEC] true true false false);
  (0xED, U [0x69; 0x301] 0 [0xED] true true false false);
  (0xEE, U [0x69; 0x302] 0 [0xEE] true true false false);
  (0xEF, U [0x69; 0x308] 0 [0xEF] true true false false);
  (0xF0, U [0xF0] 0 [0xF0] true true false false);
  (0xF1, U [0x6E; 0x303] 0 [0xF1] true true false false);
  (0xF2, U [0x6F; 0x300] 0 [0xF2] true true false false);
  (0xF3, U [0x6F; 0x301] 0 [0xF3] true true false false);
  (0xF4, U [0x6F; 0x302] 0 [0xF4] true true false false);
  (0xF5, U [0x6F; 0x303] 0 [0xF5] true true false false);
  (0xF6, U [0x6F; 0x308] 0 [0xF6] true true false false);
  (0xF8, U [0xF8] 0 [0xF8] true true false false);
  (0xF9, U [0x75; 0x300] 0 [0xF9] true true false false);
  (0xFA, U [0x75; 0x301] 0 [0xFA] true true false false);
  (0xFB, U [0x75; 0x302] 0 [0xFB] true true false false);
  (0xFC, U [0x75; 0x308] 0 [0xFC] true true false false);
  (0xFD, U [0x79; 0x301] 0 [0xFD] true true false false);
  (0xFE, U [0xFE] 0 [0xFE] true true false false);
  (0xFF, U [0x79; 0x308] 0 [0xFF] true true false false);
  (0x100, U [0x41; 0x304] 0 [0x101] true true false false);
  (0x101, U [0x61; 0x304] 0 [0x101] true true false false);
  (0x102, U [0x41; 0x306] 0 [0x103] true true false false);
  (0x103, U [0x61; 0x306] 0 [0x103] true true false false);
  (0x104, U [0x41; 0x328] 0 [0x105] true true false false);
  (0x105, U [0x61; 0x328] 0 [0x105] true true false false);
  (0x106, U [0x43; 0x301] 0 [0x107] true true false false);
  (0x107, U [0x63; 0x301] 0 [0x107] true true false false);
  (0x108, U [0x43; 0x302] 0 [0x109] true true false false);
  (0x109, U [0x63; 0x302] 0 [0x109] true true false false);
  (0x10A, U [0x43; 0x307] 0 [0x10B] true true false false);
  (0x10B, U [0x63; 0x307] 0 [0x10B] true true false false);
  (0x10C, U [0x43; 0x30C] 0 [0x10D] true true false false);
  (0x10D, U [0x63; 0x30C] 0 [0x10D] true true false false);
  (0x10E, U [0x44; 0x30C] 0 [0x10F] true true false false);
  (0x10F, U [0x64; 0x30C] 0 [0x10F] true true false false);
  (0x110, U [0x110] 0 [0x111] true true false false);
  (0x111, U [0x111] 0 [0x111] true true false false);
  (0x112, U [0x45; 0x304] 0 [0x113] true true false false);
  (0x113, U [0x65; 0x304] 0 [0x113] true true false false);
  (0x114, U [0x45; 0x306] 0 [0x115] true true false false);
  (0x115, U [0x65; 0x306] 0 [0x115] true true false false);
  (0x116, U [0x45; 0x307] 0 [0x117] true true false false);
  (0x117, U [0x65; 0x307] 0 [0x117] true true false false);
  (0x118, U [0x45; 0x328] 0 [0x119] true true false false);
  (0x119, U [0x65; 0x328] 0 [0x119] true true false false);
  (0x11A, U [0x45; 0x30C] 0 [0x11B] true true false false);
  (0x11B, U [0x65; 0x30C] 0 [0x11B] true true false false);
  (0x11C, U [0x47; 0x302] 0 [0x11D] true true false false);
  (0x11D, U [0x67; 0x302] 0 [0x11D] true true false false);
  (0x11E, U [0x47; 0x306] 0 [0x11F] true true false false);
  (0x11F, U [0x67; 0x306] 0 [0x11F] true true false false);
  (0x120, U [0x47; 0x307] 0 [0x121] true true false false);
  (0x121, U [0x67; 0x307] 0 [0x121] true true false false);
  (0x122, U [0x47; 0x327] 0 [0x123] true true false false);
  (0x123, U [0x67; 0x327] 0 [0x123] true true false false);
  (0x124, U [0x48; 0x302] 0 [0x125] true true false false);
  (0x125, U [0x68; 0x302] 0 [0x125] true true false false);
  (0x126, U [0x126] 0 [0x127] true true false false);
  (0x127, U [0x127] 0 [0x127] true true false false);
  (0x128, U [0x49; 0x303] 0 [0x129] true true false false);
  (0x129, U [0x69; 0x303] 0 [0x129] true true false false);
  (0x12A, U [0x49; 0x304] 0 [0x12B] true true false false);
  (0x12B, U [0x69; 0x304] 0 [0x12B] true true false false);
  (0x12C, U [0x49; 0x306] 0 [0x12D] true true false false);
  (0x12D, U [0x69; 0x306] 0 [0x12D] true true false false);
  (0x12E, U [0x49; 0x328] 0 [0x12F] true true false false);
  (0x12F, U [0x69; 0x328] 0 [0x12F] true true false false);
  (0x130, U [0x49; 0x307] 0 [0x69; 0x307] true true false false);
  (0x131, U [0x131] 0 [0x131] true true false false);
  (0x132, U [0x132] 0 [0x133] true true false false);
  (0x133, U [0x133] 0 [0x133] true true false false);
  (0x134, U [0x4A; 0x302] 0 [0x135] true true false false);
  (0x135, U [0x6A; 0x302] 0 [0x135] true true false false);
  (0x136, U [0x4B; 0x327] 0 [0x137] true true false false);
  (0x137, U [0x6B; 0x327] 0 [0x137] true true false false);
  (0x138, U [0x138] 0 [0x138] true true false false);
  (0x139, U [0x4C; 0x301] 0 [0x13A] true true false false);
  (0x13A, U [0x6C; 0x301] 0 [0x13A] true true false false);
  (0x13B, U [0x4C; 0x327] 0 [0x13C] true true false false);
  (0x13C, U [0x6C; 0x327] 0 [0x13C] true true false false);
  (0x13D, U [0x4C; 0x30C] 0 [0x13E] true true false false);
  (0x13E, U [0x6C; 0x30C] 0 [0x13E] true true false false);
  (0x13F, U [0x13F] 0 [0x140] true true false false);
  (0x140, U [0x140] 0 [0x140] true true false false);
  (0x141, U [0x141] 0 [0x142] true true false false);
  (0x142, U [0x142] 0 [0x142] true true false false);
  (0x143, U [0x4E; 0x301] 0 [0x144] true true false false);
  (0x144, U [0x6E; 0x301] 0 [0x144] true true false false);
  (0x145, U [0x4E; 0x327] 0 [0x146] true true false false);
  (0x146, U [0x6E; 0x327] 0 [0x146] true true false false);
  (0x147, U [0x4E; 0x30C] 0 [0x148] true true false false);
  (0x148, U [0x6E; 0x30C] 0 [0x148] true true false false);
  (0x149, U [0x149] 0 [0x149] true true false false);
  (0x14A, U [0x14A] 0 [0x14B] true true false false);
  (0x14B, U [0x14B] 0 [0x14B] true true false false);
  (0x14C, U [0x4F; 0x304] 0 [0x14D] true true false false);
  (0x14D, U [0x6F; 0x304] 0 [0x14D] true true false false);
  (0x14E, U [0x4F; 0x306] 0 [0x14F] true true false false);
  (0x14F, U [0x6F; 0x306] 0 [0x14F] true true false false);
  (0x150, U [0x4F; 0x30B] 0 [0x151] true true false false);
  (0x151, U [0x6F; 0x30B] 0 [0x151] true true false false);
  (0x152, U [0x152] 0 [0x153] true true false false);
  (0x153, U [0x153] 0 [0x153] true true false false);
  (0x154, U [0x52; 0x301] 0 [0x155] true true false false);
  (0x155, U [0x72; 0x301] 0 [0x155] true true false false);
  (0x156, U [0x52; 0x327] 0 [0x157] true true false false);
  (0x157, U [0x72; 0x327] 0 [0x157] true true false false);
  (0x158, U [0x52; 0x30C] 0 [0x159] true true false false);
  (0x159, U [0x72; 0x30C] 0 [0x159] true true false false);
  (0x15A, U [0x53; 0x301] 0 [0x15B] true true false false);
  (0x15B, U [0x73; 0x301] 0 [0x15B] true true false false);
  (0x15C, U [0x53; 0x302] 0 [0x15D] true true false false);
  (0x15D, U [0x73; 0x302] 0 [0x15D] true true false false);
  (0x15E, U [0x53; 0x327] 0 [0x15F] true true false false);
  (0x15F, U [0x73; 0x327] 0 [0x15F] true true false false);
  (0x160, U [0x53; 0x30C] 0 [0x161] true true false false);
  (0x161, U [0x73; 0x30C] 0 [0x161] true true false false);
  (0x162, U [0x54; 0x327] 0 [0x163] true true false false);
  (0x163, U [0x74; 0x327] 0 [0x163] true true false false);
  (0x164, U [0x54; 0x30C] 0 [0x165] true true false false);
  (0x165, U [0x74; 0x30C] 0 [0x165] true true false false);
  (0x166, U [0x166] 0 [0x167] true true false false);
  (0x167, U [0x167] 0 [0x167] true true false false);
  (0x168, U [0x55; 0x303] 0 [0x169] true true false false);
  (0x169, U [0x75; 0x303] 0 [0x169] true true false false);
  (0x16A, U [0x55; 0x304] 0 [0x16B] true true false false);
  (0x16B, U [0x75; 0x304] 0 [0x16B] true true false false);
  (0x16C, U [0x55; 0x306] 0 [0x16D] true true false false);
  (0x16D, U [0x75; 0x306] 0 [0x16D] true true false false);
  (0x16E, U [0x55; 0x30A] 0 [0x16F] true true false false);
  (0x16F, U [0x75; 0x30A] 0 [0x16F] true true false false);
  (0x170, U [0x55; 0x30B] 0 [0x171] true true false false);
  (0x171, U [0x75; 0x30B] 0 [0x171] true true false false);
  (0x172, U [0x55; 0x328] 0 [0x173] true true false false);
  (0x173, U [0x75; 0x328] 0 [0x173] true true false false);
  (0x174, U [0x57; 0x302] 0 [0x175] true true false false);
  (0x175, U [0x77; 0x302] 0 [0x175] true true false false);
  (0x176, U [0x59; 0x302] 0 [0x177] true true false false);
  (0x177, U [0x79; 0x302] 0 [0x177] true true false false);
  (0x178, U [0x59; 0x308] 0 [0xFF] true true false false);
  (0x179, U [0x5A; 0x301] 0 [0x17A] true true false false);
  (0x17A, U [0x7A; 0x301] 0 [0x17A] true true false false);
  (0x17B, U [0x5A; 0x307] 0 [0x17C] true true false false);
  (0x17C, U [0x7A; 0x307] 0 [0x17C] true true false false);
  (0x17D, U [0x5A; 0x30C] 0 [0x17E] true true false false);
  (0x17E, U [0x7A; 0x30C] 0 [0x17E] true true false false);
  (0x17F, U [0x17F] 0 [0x17F] true true false false);
  (0x180, U [0x180] 0 [0x180] true true false false);
  (0x181, U [0x181] 0 [0x253] true true false false);
  (0x182, U [0x182] 0 [0x183] true true false false);
  (0x183, U [0x183] 0 [0x183] true true false false);
  (0x184, U [0x184] 0 [0x185] true true false false);
  (0x185, U [0x185] 0 [0x185] true true false false);
  (0x186, U [0x186] 0 [0x254] true true false false);
  (0x187, U [0x187] 0 [0x188] true true false false);
  (0x188, U [0x188] 0 [0x188] true true false false);
  (0x189, U [0x189] 0 [0x256] true true false false);
  (0x18A, U [0x18A] 0 [0x257] true true false false);
  (0x18B, U [0x18B] 0 [0x18C] true true false false);
  (0x18C, U [0x18C] 0 [0x18C] true true false false);
  (0x18D, U [0x18D] 0 [0x18D] true true false false);
  (0x18E, U [0x18E] 0 [0x1DD] true true false false);
  (0x18F, U [0x18F] 0 [0x259] true true false false);
  (0x190, U [0x190] 0 [0x25B] true true false false);
  (0x191, U [0x191] 0 [0x192] true true false false);
  (0x192, U [0x192] 0 [0x192] true true false false);
  (0x193, U [0x193] 0 [0x260] true true false false);
  (0x194, U [0x194] 0 [0x263] true true false false);
  (0x195, U [0x195] 0 [0x195] true true false false);
  (0x196, U [0x196] 0 [0x269] true true false false);
  (0x197, U [0x197] 0 [0x268] true true false false);
  (0x198, U [0x198] 0 [0x199] true true false false);
  (0x199, U [0x199] 0 [0x199] true true false false);
  (0x19A, U [0x19A] 0 [0x19A] true true false false);
  (0x19B, U [0x19B] 0 [0x19B] true true false false);
  (0x19C, U [0x19C] 0 [0x26F] true true false false);
  (0x19D, U [0x19D] 0 [0x272] true true false false);
  (0x19E, U [0x19E] 0 [0x19E] true true false false);
  (0x19F, U [0x19F] 0 [0x275] true true false false);
  (0x1A0, U [0x4F; 0x31B] 0 [0x1A1] true true false false);
  (0x1A1, U [0x6F; 0x31B] 0 [0x1A1] true true false false);
  (0x1A2, U [0x1A2] 0 [0x1A3] true true false false);
  (0x1A3, U [0x1A3] 0 [0x1A3] true true false false);
  (0x1A4, U [0x1A4] 0 [0x1A5] true true false false);
  (0x1A5, U [0x1A5] 0 [0x1A5] true true false false);
  (0x1A6, U [0x1A6] 0 [0x280] true true false false);
  (0x1A7, U [0x1A7] 0 [0x1A8] true true false false);
  (0x1A8, U [0x1A8] 0 [0x1A8] true true false false);
  (0x1A9, U [0x1A9] 0 [0x283] true true false false);
  (0x1AA, U [0x1AA] 0 [0x1AA] true true false false);
  (0x1AB, U [0x1AB] 0 [0x1AB] true true false false);
  (0x1AC, U [0x1AC] 0 [0x1AD] true true false false);
  (0x1AD, U [0x1AD] 0 [0x1AD] true true false false);
  (0x1AE, U [0x1AE] 0 [0x288] true true false false);
  (0x1AF, U [0x55; 0x31B] 0 [0x1B0] true true false false);
  (0x1B0, U [0x75; 0x31B] 0 [0x1B0] true true false false);
  (0x1B1, U [0x1B1] 0 [0x28A] true true false false);
  (0x1B2, U [0x1B2] 0 [0x28B] true true false false);
  (0x1B3, U [0x1B3] 0 [0x1B4] true true false false);
  (0x1B4, U [0x1B4] 0 [0x1B4] true true false false);
  (0x1B5, U [0x1B5] 0 [0x1B6] true true false false);
  (0x1B6, U [0x1B6] 0 [0x1B6] true true false false);
  (0x1B7, U [0x1B7] 0 [0x292] true true false false);
  (0x1B8, U [0x1B8] 0 [0x1B9] true true false false);
  (0x1B9, U [0x1B9] 0 [0x1B9] true true false false);
  (0x1BA, U [0x1BA] 0 [0x1BA] true true false false);
  (0x1BB, U [0x1BB] 0 [0x1BB] true false false false);
  (0x1BC, U [0x1BC] 0 [0x1BD] true true false false);
  (0x1BD, U [0x1BD] 0 [0x1BD] true true false false);
  (0x1BE, U [0x1BE] 0 [0x1BE] true true false false);
  (0x1BF, U [0x1BF] 0 [0x1BF] true true false false);
  (0x1C0, U [0x1C0] 0 [0x1C0] true false false false);
  (0x1C1, U [0x1C1] 0 [0x1C1] true false false false);
  (0x1C2, U [0x1C2] 0 [0x1C2] true false false false);
  (0x1C3, U [0x1C3] 0 [0x1C3] true false false false);
  (0x1C4, U [0x1C4] 0 [0x1C6] true true false false);
  (0x1C5, U [0x1C5] 0 [0x1C6] true true false false);
  (0x1C6, U [0x1C6] 0 [0x1C6] true true false false);
  (0x1C7, U [0x1C7] 0 [0x1C9] true true false false);
  (0x1C8, U [0x1C8] 0 [0x1C9] true true false false);
  (0x1C9, U [0x1C9] 0 [0x1C9] true true false false);
  (0x1CA, U [0x1CA] 0 [0x1CC] true true false false);
  (0x1CB, U [0x1CB] 0 [0x1CC] true true false false);
  (0x1CC, U [0x1CC] 0 [0x1CC] true true false false);
  (0x1CD, U [0x41; 0x30C] 0 [0x1CE] true true false false);
  (0x1CE, U [0x61; 0x30C] 0 [0x1CE] true true false false);
  (0x1CF, U [0x49; 0x30C] 0 [0x1D0] true true false false);
  (0x1D0, U [0x69; 0x30C] 0 [0x1D0] true true false false);
  (0x1D1, U [0x4F; 0x30C] 0 [0x1D2] true true false false);
  (0x1D2, U [0x6F; 0x30C] 0 [0x1D2] true true false false);
  (0x1D3, U [0x55; 0x30C] 0 [0x1D4] true true false false);
  (0x1D4, U [0x75; 0x30C] 0 [0x1D4] true true false false);
  (0x1D5, U [0x55; 0x308; 0x304] 0 [0x1D6] true true false false);
  (0x1D6, U [0x75; 0x308; 0x304] 0 [0x1D6] true true false false);
  (0x1D7, U [0x55; 0x308; 0x301] 0 [0x1D8] true true false false);
  (0x1D8, U [0x75; 0x308; 0x301] 0 [0x1D8] true true false false);
  (0x1D9, U [0x55; 0x308; 0x30C] 0 [0x1DA] true true false false);
  (0x1DA, U [0x75; 0x308; 0x30C] 0 [0x1DA] true true false false);
  (0x1DB, U [0x55; 0x308; 0x300] 0 [0x1DC] true true false false);
  (0x1DC, U [0x75; 0x308; 0x300] 0 [0x1DC] true true false false);
  (0x1DD, U [0x1DD] 0 [0x1DD] true true false false);
  (0x1DE, U [0x41; 0x308; 0x304] 0 [0x1DF] true true false false);
  (0x1DF, U [0x61; 0x308; 0x304] 0 [0x1DF] true true false false);
  (0x1E0, U [0x41; 0x307; 0x304] 0 [0x1E1] true true false false);
  (0x1E1, U [0x61; 0x307; 0x304] 0 [0x1E1] true true false false);
  (0x1E2, U [0xC6; 0x304] 0 [0x1E3] true true false false);
  (0x1E3, U [0xE6; 0x304] 0 [0x1E3] true true false false);
  (0x1E4, U [0x1E4] 0 [0x1E5] true true false false);
  (0x1E5, U [0x1E5] 0 [0x1E5] true true false false);
  (0x1E6, U [0x47; 0x30C] 0 [0x1E7] true true false false);
  (0x1E7, U [0x67; 0x30C] 0 [0x1E7] true true false false);
  (0x1E8, U [0x4B; 0x30C] 0 [0x1E9] true true false false);
  (0x1E9, U [0x6B; 0x30C] 0 [0x1E9] true true false false);
  (0x1EA, U [0x4F; 0x328] 0 [0x1EB] true true false false);
  (0x1EB, U [0x6F; 0x328] 0 [0x1EB] true true false false);
  (0x1EC, U [0x4F; 0x328; 0x304] 0 [0x1ED] true true false false);
  (0x1ED, U [0x6F; 0x328; 0x304] 0 [0x1ED] true true false false);
  (0x1EE, U [0x1B7; 0x30C] 0 [0x1EF] true true false false);
  (0x1EF, U [0x292; 0x30C] 0 [0x1EF] true true false false);
  (0x1F0, U [0x6A; 0x30C] 0 [0x1F0] true true false false);
  (0x1F1, U [0x1F1] 0 [0x1F3] true true false false);
  (0x1F2, U [0x1F2] 0 [0x1F3] true true false false);
  (0x1F3, U [0x1F3] 0 [0x1F3] true true false false);
  (0x1F4, U [0x47; 0x301] 0 [0x1F5] true true false false);
  (0x1F5, U [0x67; 0x301] 0 [0x1F5] true true false false);
  (0x1F6, U [0x1F6] 0 [0x195] true true false false);
  (0x1F7, U [0x1F7] 0 [0x1BF] true true false false);
  (0x1F8, U [0x4E; 0x300] 0 [0x1F9] true true false false);
  (0x1F9, U [0x6E; 0x300] 0 [0x1F9] true true false false);
  (0x1FA, U [0x41; 0x30A; 0x301] 0 [0x1FB] true true false false);
  (0x1FB, U [0x61; 0x30A; 0x301] 0 [0x1FB] true true false false);
  (0x1FC, U [0xC6; 0x301] 0 [0x1FD] true true false false);
  (0x1FD, U [0xE6; 0x301] 0 [0x1FD] true true false false);
  (0x1FE, U [0xD8; 0x301] 0 [0x1FF] true true false false);
  (0x1FF, U [0xF8; 0x301] 0 [0x1FF] true true false false);
  (0x200, U [0x41; 0x30F] 0 [0x201] true true false false);
  (0x201, U [0x61; 0x30F] 0 [0x201] true true false false);
  (0x202, U [0x41; 0x311] 0 [0x203] true true false false);
  (0x203, U [0x61; 0x311] 0 [0x203] true true false false);
  (0x204, U [0x45; 0x30F] 0 [0x205] true true false false);
  (0x205, U [0x65; 0x30F] 0 [0x205] true true false false);
  (0x206, U [0x45; 0x311] 0 [0x207] true true false false);
  (0x207, U [0x65; 0x311] 0 [0x207] true true false false);
  (0x208, U [0x49; 0x30F] 0 [0x209] true true false false);
  (0x209, U [0x69; 0x30F] 0 [0x209] true true false false);
  (0x20A, U [0x49; 0x311] 0 [0x20B] true true false false);
  (0x20B, U [0x69; 0x311] 0 [0x20B] true true false false);
  (0x20C, U [0x4F; 0x30F] 0 [0x20D] true true false false);
  (0x20D, U [0x6F; 0x30F] 0 [0x20D] true true false false);
  (0x20E, U [0x4F; 0x311] 0 [0x20F] true true false false);
  (0x20F, U [0x6F; 0x311] 0 [0x20F] true true false false);
  (0x210, U [0x52; 0x30F] 0 [0x211] true true false false);
  (0x211, U [0x72; 0x30F] 0 [0x211] true true false false);
  (0x212, U [0x52; 0x311] 0 [0x213] true true false false);
  (0x213, U [0x72; 0x311] 0 [0x213] true true false false);
  (0x214, U [0x55; 0x30F] 0 [0x215] true true false false);
  (0x215, U [0x75; 0x30F] 0 [0x215] true true false false);
  (0x216, U [0x55; 0x311] 0 [0x217] true true false false);
  (0x217, U [0x75; 0x311] 0 [0x217] true true false false);
  (0x218, U [0x53; 0x326] 0 [0x219] true true false false);
  (0x219, U [0x73; 0x326] 0 [0x219] true true false false);
  (0x21A, U [0x54; 0x326] 0 [0x21B] true true false false);
  (0x21B, U [0x74; 0x326] 0 [0x21B] true true false false);
  (0x21C, U [0x21C] 0 [0x21D] true true false false);
  (0x21D, U [0x21D] 0 [0x21D] true true false false);
  (0x21E, U [0x48; 0x30C] 0 [0x21F] true true false false);
  (0x21F, U [0x68; 0x30C] 0 [0x21F] true true false false);
  (0x220, U [0x220] 0 [0x19E] true true false false);
  (0x221, U [0x221] 0 [0x221] true true false false);
  (0x222, U [0x222] 0 [0x223] true true false false);
  (0x223, U [0x223] 0 [0x223] true true false false);
  (0x224, U [0x224] 0 [0x225] true true false false);
  (0x225, U [0x225] 0 [0x225] true true false false);
  (0x226, U [0x41; 0x307] 0 [0x227] true true false false);
  (0x227, U [0x61; 0x307] 0 [0x227] true true false false);
  (0x228, U [0x45; 0x327] 0 [0x229] true true false false);
  (0x229, U [0x65; 0x327] 0 [0x229] true true false false);
  (0x22A, U [0x4F; 0x308; 0x304] 0 [0x22B] true true false false);
  (0x22B, U [0x6F; 0x308; 0x304] 0 [0x22B] true true false false);
  (0x22C, U [0x4F; 0x303; 0x304] 0 [0x22D] true true false false);
  (0x22D, U [0x6F; 0x303; 0x304] 0 [0x22D] true true false false);
  (0x22E, U [0x4F; 0x307] 0 [0x22F] true true false false);
  (0x22F, U [0x6F; 0x307] 0 [0x22F] true true false false);
  (0x230, U [0x4F; 0x307; 0x304] 0 [0x231] true true false false);
  (0x231, U [0x6F; 0x307; 0x304] 0 [0x231] true true false false);
  (0x232, U [0x59; 0x304] 0 [0x233] true true false false);
  (0x233, U [0x79; 0x304] 0 [0x233] true true false false);
  (0x234, U [0x234] 0 [0x234] true true false false);
  (0x235, U [0x235] 0 [0x235] true true false false);
  (0x236, U [0x236] 0 [0x236] true true false false);
  (0x237, U [0x237] 0 [0x237] true true false false);
  (0x238, U [0x238] 0 [0x238] true true false false);
  (0x239, U [0x239] 0 [0x239] true true false false);
  (0x23A, U [0x23A] 0 [0x2C65] true true false false);
  (0x23B, U [0x23B] 0 [0x23C] true true false false);
  (0x23C, U [0x23C] 0 [0x23C] true true false false);
  (0x23D, U [0x23D] 0 [0x19A] true true false false);
  (0x23E, U [0x23E] 0 [0x2C66] true true false false);
  (0x23F, U [0x23F] 0 [0x23F] true true false false);
  (0x240, U [0x240] 0 [0x240] true true false false);
  (0x241, U [0x241] 0 [0x242] true true false false);
  (0x242, U [0x242] 0 [0x242] true true false false);
  (0x243, U [0x243] 0 [0x180] true true false false);
  (0x244, U [0x244] 0 [0x289] true true false false);
  (0x245, U [0x245] 0 [0x28C] true true false false);
  (0x246, U [0x246] 0 [0x247] true true false false);
  (0x247, U [0x247] 0 [0x247] true true false false);
  (0x248, U [0x248] 0 [0x249] true true false false);
  (0x249, U [0x249] 0 [0x249] true true false false);
  (0x24A, U [0x24A] 0 [0x24B] true true false false);
  (0x24B, U [0x24B] 0 [0x24B] true true false false);
  (0x24C, U [0x24C] 0 [0x24D] true true false false);
  (0x24D, U [0x24D] 0 [0x24D] true true false false);
  (0x24E, U [0x24E] 0 [0x24F] true true false false);
  (0x24F, U [0x24F] 0 [0x24F] true true false false);
  (0x2B9, U [0x2B9] 0 [0x2B9] true false true false);
  (0x300, U [0x300] 230 [0x300] false false true false);
  (0x301, U [0x301] 230 [0x301] false false true false);
  (0x304, U [0x304] 230 [0x304] false false true false);
  (0x306, U [0x306] 230 [0x306] false false true false);
  (0x308, U [0x308] 230 [0x308] false false true false);
  (0x313, U [0x313] 230 [0x313] false false true false);
  (0x314, U [0x314] 230 [0x314] false false true false);
  (0x342, U [0x342] 230 [0x342] false false true false);
  (0x345, U [0x345] 240 [0x345] false false true false);
  (0x370, U [0x370] 0 [0x371] true true false false);
  (0x371, U [0x371] 0 [0x371] true true false false);
  (0x372, U [0x372] 0 [0x373] true true false false);
  (0x373, U [0x373] 0 [0x373] true true false false);
  (0x374, U [0x2B9] 0 [0x374] true false true false);
  (0x375, U [0x375] 0 [0x375] false false true false);
  (0x376, U [0x376] 0 [0x377] true true false false);
  (0x377, U [0x377] 0 [0x377] true true false false);
  (0x37A, U [0x37A] 0 [0x37A] true false true false);
  (0x37B, U [0x37B] 0 [0x37B] true true false false);
  (0x37C, U [0x37C] 0 [0x37C] true true false false);
  (0x37D, U [0x37D] 0 [0x37D] true true false false);
  (0x37E, U [0x3B] 0 [0x37E] false false false false);
  (0x37F, U [0x37F] 0 [0x3F3] true true false false);
  (0x384, U [0x384] 0 [0x384] false false true false);
  (0x385, U [0xA8; 0x301] 0 [0x385] false false true false);
  (0x386, U [0x391; 0x301] 0 [0x3AC] true true false false);
  (0x387, U [0xB7] 0 [0x387] false false true false);
  (0x388, U [0x395; 0x301] 0 [0x3AD] true true false false);
  (0x389, U [0x397; 0x301] 0 [0x3AE] true true false false);
  (0x38A, U [0x399; 0x301] 0 [0x3AF] true true false false);
  (0x38C, U [0x39F; 0x301] 0 [0x3CC] true true false false);
  (0x38E, U [0x3A5; 0x301] 0 [0x3CD] true true false false);
  (0x38F, U [0x3A9; 0x301] 0 [0x3CE] true true false false);
  (0x390, U [0x3B9; 0x308; 0x301] 0 [0x390] true true false false);
  (0x391, U [0x391] 0 [0x3B1] true true false false);
  (0x392, U [0x392] 0 [0x3B2] true true false false);
  (0x393, U [0x393] 0 [0x3B3] true true false false);
  (0x394, U [0x394] 0 [0x3B4] true true false false);
  (0x395, U [0x395] 0 [0x3B5] true true false false);
  (0x396, U [0x396] 0 [0x3B6] true true false false);
  (0x397, U [0x397] 0 [0x3B7] true true false false);
  (0x398, U [0x398] 0 [0x3B8] true true false false);
  (0x399, U [0x399] 0 [0x3B9] true true false false);
  (0x39A, U [0x39A] 0 [0x3BA] true true false false);
  (0x39B, U [0x39B] 0 [0x3BB] true true false false);
  (0x39C, U [0x39C] 0 [0x3BC] true true false false);
  (0x39D, U [0x39D] 0 [0x3BD] true true false false);
  (0x39E, U [0x39E] 0 [0x3BE] true true false false);
  (0x39F, U [0x39F] 0 [0x3BF] true true false false);
  (0x3A0, U [0x3A0] 0 [0x3C0] true true false false);
  (0x3A1, U [0x3A1] 0 [0x3C1] true true false false);
  (0x3A3, U [0x3A3] 0 [0x3C3] true true false false);
  (0x3A4, U [0x3A4] 0 [0x3C4] true true false false);
  (0x3A5, U [0x3A5] 0 [0x3C5] true true false false);
  (0x3A6, U [0x3A6] 0 [0x3C6] true true false false);
  (0x3A7, U [0x3A7] 0 [0x3C7] true true false false);
  (0x3A8, U [0x3A8] 0 [0x3C8] true true false false);
  (0x3A9, U [0x3A9] 0 [0x3C9] true true false false);
  (0x3AA, U [0x399; 0x308] 0 [0x3CA] true true false false);
  (0x3AB, U [0x3A5; 0x308] 0 [0x3CB] true true false false);
  (0x3AC, U [0x3B1; 0x301] 0 [0x3AC] true true false false);
  (0x3AD, U [0x3B5; 0x301] 0 [0x3AD] true true false false);
  (0x3AE, U [0x3B7; 0x301] 0 [0x3AE] true true false false);
  (0x3AF, U [0x3B9; 0x301] 0 [0x3AF] true true false false);
  (0x3B0, U [0x3C5; 0x308; 0x301] 0 [0x3B0] true true false false);
  (0x3B1, U [0x3B1] 0 [0x3B1] true true false false);
  (0x3B2, U [0x3B2] 0 [0x3B2] true true false false);
  (0x3B3, U [0x3B3] 0 [0x3B3] true true false false);
  (0x3B4, U [0x3B4] 0 [0x3B4] true true false false);
  (0x3B5, U [0x3B5] 0 [0x3B5] true true false false);
  (0x3B6, U [0x3B6] 0 [0x3B6] true true false false);
  (0x3B7, U [0x3B7] 0 [0x3B7] true true false false);
  (0x3B8, U [0x3B8] 0 [0x3B8] true true false false);
  (0x3B9, U [0x3B9] 0 [0x3B9] true true false false);
  (0x3BA, U [0x3BA] 0 [0x3BA] true true false false);
  (0x3BB, U [0x3BB] 0 [0x3BB] true true false false);
  (0x3BC, U [0x3BC] 0 [0x3BC] true true false false);
  (0x3BD, U [0x3BD] 0 [0x3BD] true true false false);
  (0x3BE, U [0x3BE] 0 [0x3BE] true true false false);
  (0x3BF, U [0x3BF] 0 [0x3BF] true true false false);
  (0x3C0, U [0x3C0] 0 [0x3C0] true true false false);
  (0x3C1, U [0x3C1] 0 [0x3C1] true true false false);
  (0x3C2, U [0x3C2] 0 [0x3C2] true true false false);
  (0x3C3, U [0x3C3] 0 [0x3C3] true true false false);
  (0x3C4, U [0x3C4] 0 [0x3C4] true true false false);
  (0x3C5, U [0x3C5] 0 [0x3C5] true true false false);
  (0x3C6, U [0x3C6] 0 [0x3C6] true true false false);
  (0x3C7, U [0x3C7] 0 [0x3C7] true true false false);
  (0x3C8, U [0x3C8] 0 [0x3C8] true true false false);
  (0x3C9, U [0x3C9] 0 [0x3C9] true true false false);
  (0x3CA, U [0x3B9; 0x308] 0 [0x3CA] true true false false);
  (0x3CB, U [0x3C5; 0x308] 0 [0x3CB] true true false false);
  (0x3CC, U [0x3BF; 0x301] 0 [0x3CC] true true false false);
  (0x3CD, U [0x3C5; 0x301] 0 [0x3CD] true true false false);
  (0x3CE, U [0x3C9; 0x301] 0 [0x3CE] true true false false);
  (0x3CF, U [0x3CF] 0 [0x3D7] true true false false);
  (0x3D0, U [0x3D0] 0 [0x3D0] true true false false);
  (0x3D1, U [0x3D1] 0 [0x3D1] true true false false);
  (0x3D2, U [0x3D2] 0 [0x3D2] true true false false);
  (0x3D3, U [0x3D2; 0x301] 0 [0x3D3] true true false false);
  (0x3D4, U [0x3D2; 0x308] 0 [0x3D4] true true false false);
  (0x3D5, U [0x3D5] 0 [0x3D5] true true false false);
  (0x3D6, U [0x3D6] 0 [0x3D6] true true false false);
  (0x3D7, U [0x3D7] 0 [0x3D7] true true false false);
  (0x3D8, U [0x3D8] 0 [0x3D9] true true false false);
  (0x3D9, U [0x3D9] 0 [0x3D9] true true false false);
  (0x3DA, U [0x3DA] 0 [0x3DB] true true false false);
  (0x3DB, U [0x3DB] 0 [0x3DB] true true false false);
  (0x3DC, U [0x3DC] 0 [0x3DD] true true false false);
  (0x3DD, U [0x3DD] 0 [0x3DD] true true false false);
  (0x3DE, U [0x3DE] 0 [0x3DF] true true false false);
  (0x3DF, U [0x3DF] 0 [0x3DF] true true false false);
  (0x3E0, U [0x3E0] 0 [0x3E1] true true false false);
  (0x3E1, U [0x3E1] 0 [0x3E1] true true false false);
  (0x3E2, U [0x3E2] 0 [0x3E3] true true false false);
  (0x3E3, U [0x3E3] 0 [0x3E3] true true false false);
  (0x3E4, U [0x3E4] 0 [0x3E5] true true false false);
  (0x3E5, U [0x3E5] 0 [0x3E5] true true false false);
  (0x3E6, U [0x3E6] 0 [0x3E7] true true false false);
  (0x3E7, U [0x3E7] 0 [0x3E7] true true false false);
  (0x3E8, U [0x3E8] 0 [0x3E9] true true false false);
  (0x3E9, U [0x3E9] 0 [0x3E9] true true false false);
  (0x3EA, U [0x3EA] 0 [0x3EB] true true false false);
  (0x3EB, U [0x3EB] 0 [0x3EB] true true false false);
  (0x3EC, U [0x3EC] 0 [0x3ED] true true false false);
  (0x3ED, U [0x3ED] 0 [0x3ED] true true false false);
  (0x3EE, U [0x3EE] 0 [0x3EF] true true false false);
  (0x3EF, U [0x3EF] 0 [0x3EF] true true false false);
  (0x3F0, U [0x3F0] 0 [0x3F0] true true false false);
  (0x3F1, U [0x3F1] 0 [0x3F1] true true false false);
  (0x3F2, U [0x3F2] 0 [0x3F2] true true false false);
  (0x3F3, U [0x3F3] 0 [0x3F3] true true false false);
  (0x3F4, U [0x3F4] 0 [0x3B8] true true false false);
  (0x3F5, U [0x3F5] 0 [0x3F5] true true false false);
  (0x3F7, U [0x3F7] 0 [0x3F8] true true false false);
  (0x3F8, U [0x3F8] 0 [0x3F8] true true false false);
  (0x3F9, U [0x3F9] 0 [0x3F2] true true false false);
  (0x3FA, U [0x3FA] 0 [0x3FB] true true false false);
  (0x3FB, U [0x3FB] 0 [0x3FB] true true false false);
  (0x3FC, U [0x3FC] 0 [0x3FC] true true false false);
  (0x3FD, U [0x3FD] 0 [0x37B] true true false false);
  (0x3FE, U [0x3FE] 0 [0x37C] true true false false);
  (0x3FF, U [0x3FF] 0 [0x37D] true true false false);
  (0x1680, U [0x1680] 0 [0x1680] false false false true);
  (0x1F00, U [0x3B1; 0x313] 0 [0x1F00] true true false false);
  (0x1F01, U [0x3B1; 0x314] 0 [0x1F01] true true false false);
  (0x1F02, U [0x3B1; 0x313; 0x300] 0 [0x1F02] true true false false);
  (0x1F03, U [0x3B1; 0x314; 0x300] 0 [0x1F03] true true false false);
  (0x1F04, U [0x3B1; 0x313; 0x301] 0 [0x1F04] true true false false);
  (0x1F05, U [0x3B1; 0x314; 0x301] 0 [0x1F05] true true false false);
  (0x1F06, U [0x3B1; 0x313; 0x342] 0 [0x1F06] true true false false);
  (0x1F07, U [0x3B1; 0x314; 0x342] 0 [0x1F07] true true false false);
  (0x1F08, U [0x391; 0x313] 0 [0x1F00] true true false false);
  (0x1F09, U [0x391; 0x314] 0 [0x1F01] true true false false);
  (0x1F0A, U [0x391; 0x313; 0x300] 0 [0x1F02] true true false false);
  (0x1F0B, U [0x391; 0x314; 0x300] 0 [0x1F03] true true false false);
  (0x1F0C, U [0x391; 0x313; 0x301] 0 [0x1F04] true true false false);
  (0x1F0D, U [0x391; 0x314; 0x301] 0 [0x1F05] true true false false);
  (0x1F0E, U [0x391; 0x313; 0x342] 0 [0x1F06] true true false false);
  (0x1F0F, U [0x391; 0x314; 0x342] 0 [0x1F07] true true false false);
  (0x1F10, U [0x3B5; 0x313] 0 [0x1F10] true true false false);
  (0x1F11, U [0x3B5; 0x314] 0 [0x1F11] true true false false);
  (0x1F12, U [0x3B5; 0x313; 0x300] 0 [0x1F12] true true false false);
  (0x1F13, U [0x3B5; 0x314; 0x300] 0 [0x1F13] true true false false);
  (0x1F14, U [0x3B5; 0x313; 0x301] 0 [0x1F14] true true false false);
  (0x1F15, U [0x3B5; 0x314; 0x301] 0 [0x1F15] true true false false);
  (0x1F18, U [0x395; 0x313] 0 [0x1F10] true true false false);
  (0x1F19, U [0x395; 0x314] 0 [0x1F11] true true false false);
  (0x1F1A, U [0x395; 0x313; 0x300] 0 [0x1F12] true true false false);
  (0x1F1B, U [0x395; 0x314; 0x300] 0 [0x1F13] true true false false);
  (0x1F1C, U [0x395; 0x313; 0x301] 0 [0x1F14] true true false false);
  (0x1F1D, U [0x395; 0x314; 0x301] 0 [0x1F15] true true false false);
  (0x1F20, U [0x3B7; 0x313] 0 [0x1F20] true true false false);
  (0x1F21, U [0x3B7; 0x314] 0 [0x1F21] true true false false);
  (0x1F22, U [0x3B7; 0x313; 0x300] 0 [0x1F22] true true false false);
  (0x1F23, U [0x3B7; 0x314; 0x300] 0 [0x1F23] true true false false);
  (0x1F24, U [0x3B7; 0x313; 0x301] 0 [0x1F24] true true false false);
  (0x1F25, U [0x3B7; 0x314; 0x301] 0 [0x1F25] true true false false);
  (0x1F26, U [0x3B7; 0x313; 0x342] 0 [0x1F26] true true false false);
  (0x1F27, U [0x3B7; 0x314; 0x342] 0 [0x1F27] true true false false);
  (0x1F28, U [0x397; 0x313] 0 [0x1F20] true true false false);
  (0x1F29, U [0x397; 0x314] 0 [0x1F21] true true false false);
  (0x1F2A, U [0x397; 0x313; 0x300] 0 [0x1F22] true true false false);
  (0x1F2B, U [0x397; 0x314; 0x300] 0 [0x1F23] true true false false);
  (0x1F2C, U [0x397; 0x313; 0x301] 0 [0x1F24] true true false false);
  (0x1F2D, U [0x397; 0x314; 0x301] 0 [0x1F25] true true false false);
  (0x1F2E, U [0x397; 0x313; 0x342] 0 [0x1F26] true true false false);
  (0x1F2F, U [0x397; 0x314; 0x342] 0 [0x1F27] true true false false);
  (0x1F30, U [0x3B9; 0x313] 0 [0x1F30] true true false false);
  (0x1F31, U [0x3B9; 0x314] 0 [0x1F31] true true false false);
  (0x1F32, U [0x3B9; 0x313; 0x300] 0 [0x1F32] true true false false);
  (0x1F33, U [0x3B9; 0x314; 0x300] 0 [0x1F33] true true false false);
  (0x1F34, U [0x3B9; 0x313; 0x301] 0 [0x1F34] true true false false);
  (0x1F35, U [0x3B9; 0x314; 0x301] 0 [0x1F35] true true false false);
  (0x1F36, U [0x3B9; 0x313; 0x342] 0 [0x1F36] true true false false);
  (0x1F37, U [0x3B9; 0x314; 0x342] 0 [0x1F37] true true false false);
  (0x1F38, U [0x399; 0x313] 0 [0x1F30] true true false false);
  (0x1F39, U [0x399; 0x314] 0 [0x1F31] true true false false);
  (0x1F3A, U [0x399; 0x313; 0x300] 0 [0x1F32] true true false false);
  (0x1F3B, U [0x399; 0x314; 0x300] 0 [0x1F33] true true false false);
  (0x1F3C, U [0x399; 0x313; 0x301] 0 [0x1F34] true true false false);
  (0x1F3D, U [0x399; 0x314; 0x301] 0 [0x1F35] true true false false);
  (0x1F3E, U [0x399; 0x313; 0x342] 0 [0x1F36] true true false false);
  (0x1F3F, U [0x399; 0x314; 0x342] 0 [0x1F37] true true false false);
  (0x1F40, U [0x3BF; 0x313] 0 [0x1F40] true true false false);
  (0x1F41, U [0x3BF; 0x314] 0 [0x1F41] true true false false);
  (0x1F42, U [0x3BF; 0x313; 0x300] 0 [0x1F42] true true false false);
  (0x1F43, U [0x3BF; 0x314; 0x300] 0 [0x1F43] true true false false);
  (0x1F44, U [0x3BF; 0x313; 0x301] 0 [0x1F44] true true false false);
  (0x1F45, U [0x3BF; 0x314; 0x301] 0 [0x1F45] true true false false);
  (0x1F48, U [0x39F; 0x313] 0 [0x1F40] true true false false);
  (0x1F49, U [0x39F; 0x314] 0 [0x1F41] true true false false);
  (0x1F4A, U [0x39F; 0x313; 0x300] 0 [0x1F42] true true false false);
  (0x1F4B, U [0x39F; 0x314; 0x300] 0 [0x1F43] true true false false);
  (0x1F4C, U [0x39F; 0x313; 0x301] 0 [0x1F44] true true false false);
  (0x1F4D, U [0x39F; 0x314; 0x301] 0 [0x1F45] true true false false);
  (0x1F50, U [0x3C5; 0x313] 0 [0x1F50] true true false false);
  (0x1F51, U [0x3C5; 0x314] 0 [0x1F51] true true false false);
  (0x1F52, U [0x3C5; 0x313; 0x300] 0 [0x1F52] true true false false);
  (0x1F53, U [0x3C5; 0x314; 0x300] 0 [0x1F53] true true false false);
  (0x1F54, U [0x3C5; 0x313; 0x301] 0 [0x1F54] true true false false);
  (0x1F55, U [0x3C5; 0x314; 0x301] 0 [0x1F55] true true false false);
  (0x1F56, U [0x3C5; 0x313; 0x342] 0 [0x1F56] true true false false);
  (0x1F57, U [0x3C5; 0x314; 0x342] 0 [0x1F57] true true false false);
  (0x1F59, U [0x3A5; 0x314] 0 [0x1F51] true true false false);
  (0x1F5B, U [0x3A5; 0x314; 0x300] 0 [0x1F53] true true false false);
  (0x1F5D, U [0x3A5; 0x314; 0x301] 0 [0x1F55] true true false false);
  (0x1F5F, U [0x3A5; 0x314; 0x342] 0 [0x1F57] true true false false);
  (0x1F60, U [0x3C9; 0x313] 0 [0x1F60] true true false false);
  (0x1F61, U [0x3C9; 0x314] 0 [0x1F61] true true false false);
  (0x1F62, U [0x3C9; 0x313; 0x300] 0 [0x1F62] true true false false);
  (0x1F63, U [0x3C9; 0x314; 0x300] 0 [0x1F63] true true false false);
  (0x1F64, U [0x3C9; 0x313; 0x301] 0 [0x1F64] true true false false);
  (0x1F65, U [0x3C9; 0x314; 0x301] 0 [0x1F65] true true false false);
  (0x1F66, U [0x3C9; 0x313; 0x342] 0 [0x1F66] true true false false);
  (0x1F67, U [0x3C9; 0x314; 0x342] 0 [0x1F67] true true false false);
  (0x1F68, U [0x3A9; 0x313] 0 [0x1F60] true true false false);
  (0x1F69, U [0x3A9; 0x314] 0 [0x1F61] true true false false);
  (0x1F6A, U [0x3A9; 0x313; 0x300] 0 [0x1F62] true true false false);
  (0x1F6B, U [0x3A9; 0x314; 0x300] 0 [0x1F63] true true false false);
  (0x1F6C, U [0x3A9; 0x313; 0x301] 0 [0x1F64] true true false false);
  (0x1F6D, U [0x3A9; 0x314; 0x301] 0 [0x1F65] true true false false);
  (0x1F6E, U [0x3A9; 0x313; 0x342] 0 [0x1F66] true true false false);
  (0x1F6F, U [0x3A9; 0x314; 0x342] 0 [0x1F67] true true false false);
  (0x1F70, U [0x3B1; 0x300] 0 [0x1F70] true true false false);
  (0x1F71, U [0x3B1; 0x301] 0 [0x1F71] true true false false);
  (0x1F72, U [0x3B5; 0x300] 0 [0x1F72] true true false false);
  (0x1F73, U [0x3B5; 0x301] 0 [0x1F73] true true false false);
  (0x1F74, U [0x3B7; 0x300] 0 [0x1F74] true true false false);
  (0x1F75, U [0x3B7; 0x301] 0 [0x1F75] true true false false);
  (0x1F76, U [0x3B9; 0x300] 0 [0x1F76] true true false false);
  (0x1F77, U [0x3B9; 0x301] 0 [0x1F77] true true false false);
  (0x1F78, U [0x3BF; 0x300] 0 [0x1F78] true true false false);
  (0x1F79, U [0x3BF; 0x301] 0 [0x1F79] true true false false);
  (0x1F7A, U [0x3C5; 0x300] 0 [0x1F7A] true true false false);
  (0x1F7B, U [0x3C5; 0x301] 0 [0x1F7B] true true false false);
  (0x1F7C, U [0x3C9; 0x300] 0 [0x1F7C] true true false false);
  (0x1F7D, U [0x3C9; 0x301] 0 [0x1F7D] true true false false);
  (0x1F80, U [0x3B1; 0x313; 0x345] 0 [0x1F80] true true false false);
  (0x1F81, U [0x3B1; 0x314; 0x345] 0 [0x1F81] true true false false);
  (0x1F82, U [0x3B1; 0x313; 0x300; 0x345] 0 [0x1F82] true true false false);
  (0x1F83, U [0x3B1; 0x314; 0x300; 0x345] 0 [0x1F83] true true false false);
  (0x1F84, U [0x3B1; 0x313; 0x301; 0x345] 0 [0x1F84] true true false false);
  (0x1F85, U [0x3B1; 0x314; 0x301; 0x345] 0 [0x1F85] true true false false);
  (0x1F86, U [0x3B1; 0x313; 0x342; 0x345] 0 [0x1F86] true true false false);
  (0x1F87, U [0x3B1; 0x314; 0x342; 0x345] 0 [0x1F87] true true false false);
  (0x1F88, U [0x391; 0x313; 0x345] 0 [0x1F80] true true false false);
  (0x1F89, U [0x391; 0x314; 0x345] 0 [0x1F81] true true false false);
  (0x1F8A, U [0x391; 0x313; 0x300; 0x345] 0 [0x1F82] true true false false);
  (0x1F8B, U [0x391; 0x314; 0x300; 0x345] 0 [0x1F83] true true false false);
  (0x1F8C, U [0x391; 0x313; 0x301; 0x345] 0 [0x1F84] true true false false);
  (0x1F8D, U [0x391; 0x314; 0x301; 0x345] 0 [0x1F85] true true false false);
  (0x1F8E, U [0x391; 0x313; 0x342; 0x345] 0 [0x1F86] true true false false);
  (0x1F8F, U [0x391; 0x314; 0x342; 0x345] 0 [0x1F87] true true false false);
  (0x1F90, U [0x3B7; 0x313; 0x345] 0 [0x1F90] true true false false);
  (0x1F91, U [0x3B7; 0x314; 0x345] 0 [0x1F91] true true false false);
  (0x1F92, U [0x3B7; 0x313; 0x300; 0x345] 0 [0x1F92] true true false false);
  (0x1F93, U [0x3B7; 0x314; 0x300; 0x345] 0 [0x1F93] true true false false);
  (0x1F94, U [0x3B7; 0x313; 0x301; 0x345] 0 [0x1F94] true true false false);
  (0x1F95, U [0x3B7; 0x314; 0x301; 0x345] 0 [0x1F95] true true false false);
  (0x1F96, U [0x3B7; 0x313; 0x342; 0x345] 0 [0x1F96] true true false false);
  (0x1F97, U [0x3B7; 0x314; 0x342; 0x345] 0 [0x1F97] true true false false);
  (0x1F98, U [0x397; 0x313; 0x345] 0 [0x1F90] true true false false);
  (0x1F99, U [0x397; 0x314; 0x345] 0 [0x1F91] true true false false);
  (0x1F9A, U [0x397; 0x313; 0x300; 0x345] 0 [0x1F92] true true false false);
  (0x1F9B, U [0x397; 0x314; 0x300; 0x345] 0 [0x1F93] true true false false);
  (0x1F9C, U [0x397; 0x313; 0x301; 0x345] 0 [0x1F94] true true false false);
  (0x1F9D, U [0x397; 0x314; 0x301; 0x345] 0 [0x1F95] true true false false);
  (0x1F9E, U [0x397; 0x313; 0x342; 0x345] 0 [0x1F96] true true false false);
  (0x1F9F, U [0x397; 0x314; 0x342; 0x345] 0 [0x1F97] true true false false);
  (0x1FA0, U [0x3C9; 0x313; 0x345] 0 [0x1FA0] true true false false);
  (0x1FA1, U [0x3C9; 0x314; 0x345] 0 [0x1FA1] true true false false);
  (0x1FA2, U [0x3C9; 0x313; 0x300; 0x345] 0 [0x1FA2] true true false false);
  (0x1FA3, U [0x3C9; 0x314; 0x300; 0x345] 0 [0x1FA3] true true false false);
  (0x1FA4, U [0x3C9; 0x313; 0x301; 0x345] 0 [0x1FA4] true true false false);
  (0x1FA5, U [0x3C9; 0x314; 0x301; 0x345] 0 [0x1FA5] true true false false);
  (0x1FA6, U [0x3C9; 0x313; 0x342; 0x345] 0 [0x1FA6] true true false false);
  (0x1FA7, U [0x3C9; 0x314; 0x342; 0x345] 0 [0x1FA7] true true false false);
  (0x1FA8, U [0x3A9; 0x313; 0x345] 0 [0x1FA0] true true false false);
  (0x1FA9, U [0x3A9; 0x314; 0x345] 0 [0x1FA1] true true false false);
  (0x1FAA, U [0x3A9; 0x313; 0x300; 0x345] 0 [0x1FA2] true true false false);
  (0x1FAB, U [0x3A9; 0x314; 0x300; 0x345] 0 [0x1FA3] true true false false);
  (0x1FAC, U [0x3A9; 0x313; 0x301; 0x345] 0 [0x1FA4] true true false false);
  (0x1FAD, U [0x3A9; 0x314; 0x301; 0x345] 0 [0x1FA5] true true false false);
  (0x1FAE, U [0x3A9; 0x313; 0x342; 0x345] 0 [0x1FA6] true true false false);
  (0x1FAF, U [0x3A9; 0x314; 0x342; 0x345] 0 [0x1FA7] true true false false);
  (0x1FB0, U [0x3B1; 0x306] 0 [0x1FB0] true true false false);
  (0x1FB1, U [0x3B1; 0x304] 0 [0x1FB1] true true false false);
  (0x1FB2, U [0x3B1; 0x300; 0x345] 0 [0x1FB2] true true false false);
  (0x1FB3, U [0x3B1; 0x345] 0 [0x1FB3] true true false false);
  (0x1FB4, U [0x3B1; 0x301; 0x345] 0 [0x1FB4] true true false false);
  (0x1FB6, U [0x3B1; 0x342] 0 [0x1FB6] true true false false);
  (0x1FB7, U [0x3B1; 0x342; 0x345] 0 [0x1FB7] true true false false);
  (0x1FB8, U [0x391; 0x306] 0 [0x1FB0] true true false false);
  (0x1FB9, U [0x391; 0x304] 0 [0x1FB1] true true false false);
  (0x1FBA, U [0x391; 0x300] 0 [0x1F70] true true false false);
  (0x1FBB, U [0x391; 0x301] 0 [0x1F71] true true false false);
  (0x1FBC, U [0x391; 0x345] 0 [0x1FB3] true true false false);
  (0x1FBD, U [0x1FBD] 0 [0x1FBD] false false true false);
  (0x1FBE, U [0x3B9] 0 [0x1FBE] true true false false);
  (0x1FBF, U [0x1FBF] 0 [0x1FBF] false false true false);
  (0x1FC0, U [0x1FC0] 0 [0x1FC0] false false true false);
  (0x1FC1, U [0xA8; 0x342] 0 [0x1FC1] false false true false);
  (0x1FC2, U [0x3B7; 0x300; 0x345] 0 [0x1FC2] true true false false);
  (0x1FC3, U [0x3B7; 0x345] 0 [0x1FC3] true true false false);
  (0x1FC4, U [0x3B7; 0x301; 0x345] 0 [0x1FC4] true true false false);
  (0x1FC6, U [0x3B7; 0x342] 0 [0x1FC6] true true false false);
  (0x1FC7, U [0x3B7; 0x342; 0x345] 0 [0x1FC7] true true false false);
  (0x1FC8, U [0x395; 0x300] 0 [0x1F72] true true false false);
  (0x1FC9, U [0x395; 0x301] 0 [0x1F73] true true false false);
  (0x1FCA, U [0x397; 0x300] 0 [0x1F74] true true false false);
  (0x1FCB, U [0x397; 0x301] 0 [0x1F75] true true false false);
  (0x1FCC, U [0x397; 0x345] 0 [0x1FC3] true true false false);
  (0x1FCD, U [0x1FBF; 0x300] 0 [0x1FCD] false false true false);
  (0x1FCE, U [0x1FBF; 0x301] 0 [0x1FCE] false false true false);
  (0x1FCF, U [0x1FBF; 0x342] 0 [0x1FCF] false false true false);
  (0x1FD0, U [0x3B9; 0x306] 0 [0x1FD0] true true false false);
  (0x1FD1, U [0x3B9; 0x304] 0 [0x1FD1] true true false false);
  (0x1FD2, U [0x3B9; 0x308; 0x300] 0 [0x1FD2] true true false false);
  (0x1FD3, U [0x3B9; 0x308; 0x301] 0 [0x1FD3] true true false false);
  (0x1FD6, U [0x3B9; 0x342] 0 [0x1FD6] true true false false);
  (0x1FD7, U [0x3B9; 0x308; 0x342] 0 [0x1FD7] true true false false);
  (0x1FD8, U [0x399; 0x306] 0 [0x1FD0] true true false false);
  (0x1FD9, U [0x399; 0x304] 0 [0x1FD1] true true false false);
  (0x1FDA, U [0x399; 0x300] 0 [0x1F76] true true false false);
  (0x1FDB, U [0x399; 0x301] 0 [0x1F77] true true false false);
  (0x1FDD, U [0x1FFE; 0x300] 0 [0x1FDD] false false true false);
  (0x1FDE, U [0x1FFE; 0x301] 0 [0x1FDE] false false true false);
  (0x1FDF, U [0x1FFE; 0x342] 0 [0x1FDF] false false true false);
  (0x1FE0, U [0x3C5; 0x306] 0 [0x1FE0] true true false false);
  (0x1FE1, U [0x3C5; 0x304] 0 [0x1FE1] true true false false);
  (0x1FE2, U [0x3C5; 0x308; 0x300] 0 [0x1FE2] true true false false);
  (0x1FE3, U [0x3C5; 0x308; 0x301] 0 [0x1FE3] true true false false);
  (0x1FE4, U [0x3C1; 0x313] 0 [0x1FE4] true true false false);
  (0x1FE5, U [0x3C1; 0x314] 0 [0x1FE5] true true false false);
  (0x1FE6, U [0x3C5; 0x342] 0 [0x1FE6] true true false false);
  (0x1FE7, U [0x3C5; 0x308; 0x342] 0 [0x1FE7] true true false false);
  (0x1FE8, U [0x3A5; 0x306] 0 [0x1FE0] true true false false);
  (0x1FE9, U [0x3A5; 0x304] 0 [0x1FE1] true true false false);
  (0x1FEA, U [0x3A5; 0x300] 0 [0x1F7A] true true false false);
  (0x1FEB, U [0x3A5; 0x301] 0 [0x1F7B] true true false false);
  (0x1FEC, U [0x3A1; 0x314] 0 [0x1FE5] true true false false);
  (0x1FED, U [0xA8; 0x300] 0 [0x1FED] false false true false);
  (0x1FEE, U [0xA8; 0x301] 0 [0x1FEE] false false true false);
  (0x1FEF, U [0x60] 0 [0x1FEF] false false true false);
  (0x1FF2, U [0x3C9; 0x300; 0x345] 0 [0x1FF2] true true false false);
  (0x1FF3, U [0x3C9; 0x345] 0 [0x1FF3] true true false false);
  (0x1FF4, U [0x3C9; 0x301; 0x345] 0 [0x1FF4] true true false false);
  (0x1FF6, U [0x3C9; 0x342] 0 [0x1FF6] true true false false);
  (0x1FF7, U [0x3C9; 0x342; 0x345] 0 [0x1FF7] true true false false);
  (0x1FF8, U [0x39F; 0x300] 0 [0x1F78] true true false false);
  (0x1FF9, U [0x39F; 0x301] 0 [0x1F79] true true false false);
  (0x1FFA, U [0x3A9; 0x300] 0 [0x1F7C] true true false false);
  (0x1FFB, U [0x3A9; 0x301] 0 [0x1F7D] true true false false);
  (0x1FFC, U [0x3A9; 0x345] 0 [0x1FF3] true true false false);
  (0x1FFD, U [0xB4] 0 [0x1FFD] false false true false);
  (0x1FFE, U [0x1FFE] 0 [0x1FFE] false false true false);
  (0x2000, U [0x2002] 0 [0x2000] false false false true);
  (0x2001, U [0x2003] 0 [0x2001] false false false true);
  (0x2002, U [0x2002] 0 [0x2002] false false false true);
  (0x2003, U [0x2003] 0 [0x2003] false false false true);
  (0x2004, U [0x2004] 0 [0x2004] false false false true);
  (0x2005, U [0x2005] 0 [0x2005] false false false true);
  (0x2006, U [0x2006] 0 [0x2006] false false false true);
  (0x2007, U [0x2007] 0 [0x2007] false false false true);
  (0x2008, U [0x2008] 0 [0x2008] false false false true);
  (0x2009, U [0x2009] 0 [0x2009] false false false true);
  (0x200A, U [0x200A] 0 [0x200A] false false false true);
  (0x2028, U [0x2028] 0 [0x2028] false false false true);
  (0x2029, U [0x2029] 0 [0x2029] false false false true);
  (0x202F, U [0x202F] 0 [0x202F] false false false true);
  (0x205F, U [0x205F] 0 [0x205F] false false false true);
  (0x2126, U [0x3A9] 0 [0x3C9] true true false false);
  (0x3000, U [0x3000] 0 [0x3000] false false false true)
].

Definition greek_ucd_map : gmap Z ucd_entry := list_to_map greek_ucd_table.

Definition ucd_entry_of (c : Z) : ucd_entry :=
  match greek_ucd_map !! c with Some e => e | None => default_entry c end.

(** The decimal digits of the table's domain are the ASCII ones; its
    other digits ([str.isdigit] but not decimal) are the superscripts
    [U+00B2], [U+00B3] and [U+00B9]. *)
Definition decimal_of (c : Z) : option Z :=
  if (0x30 <=? c) && (c <=? 0x39) then Some (c - 0x30) else None.

Definition isdigit_of (c : Z) : bool :=
  match decimal_of c with
  | Some _ => true
  | None => (c =? 0xB2) || (c =? 0xB3) || (c =? 0xB9)
  end.

#[export] Instance greek_ucd : UnicodeDB := {
  ucd_nfd c := u_nfd (ucd_entry_of c);
  ucd_ccc c := u_ccc (ucd_entry_of c);
  ucd_lower c := u_lower (ucd_entry_of c);
  ucd_isalpha c := u_alpha (ucd_entry_of c);
  ucd_cased c := u_cased (ucd_entry_of c);
  ucd_case_ignorable c := u_ci (ucd_entry_of c);
  ucd_isspace c := u_space (ucd_entry_of c);
  ucd_decimal c := decimal_of c;
  ucd_isdigit c := isdigit_of c
}.

(** ** The laws hold of the generated instance *)

(** A property of every row of the table, decided by evaluation. *)
Definition table_forall (P : Z -> ucd_entry -> bool) : bool :=
  forallb (fun '(c, e) => P c e) greek_ucd_table.

Lemma table_forall_lookup P c e :
  table_forall P = true -> greek_ucd_map !! c = Some e -> P c e = true.
Proof.
  unfold table_forall. intros Hall Hl.
  apply elem_of_list_to_map_2, list_elem_of_In in Hl.
  rewrite forallb_forall in Hall. exact (Hall _ Hl).
Qed.

(** Case analysis on the row of a code point: a row of the table, or the
    default row. *)
Lemma ucd_entry_of_cases c :
  (exists e, greek_ucd_map !! c = Some e /\ ucd_entry_of c = e) \/
  (greek_ucd_map !! c = None /\ ucd_entry_of c = default_entry c).
Proof. unfold ucd_entry_of. destruct (greek_ucd_map !! c); eauto. Qed.

Definition stable_b (c : Z) : bool :=
  bool_decide (ucd_nfd c = [c]) && (ucd_ccc c =? 0) && bool_decide (ucd_lower c = [c]).

Lemma stable_b_spec c :
  stable_b c = true -> ucd_nfd c = [c] /\ ucd_ccc c = 0 /\ ucd_lower c = [c].
Proof.
  unfold stable_b. intros Hc.
  apply andb_true_iff in Hc as [[Hc1 Hc2]%andb_true_iff Hc3].
  apply bool_decide_eq_true in Hc1, Hc3. apply Z.eqb_eq in Hc2. auto.
Qed.

Definition row_nfd_ok (_ : Z) (e : ucd_entry) : bool :=
  forallb (fun d => bool_decide (ucd_nfd d = [d])) (u_nfd e).

Definition row_lower_ok (d : Z) (e : ucd_entry) : bool :=
  implb (bool_decide (ucd_nfd d = [d]) && (u_ccc e =? 0))
    (forallb stable_b (u_lower e)).

Definition row_no_sigma (_ : Z) (e : ucd_entry) : bool :=
  negb (existsb (Z.eqb capital_sigma) (u_lower e)).

Definition row_alpha_space (_ : Z) (e : ucd_entry) : bool :=
  negb (u_alpha e && u_space e).

Lemma greek_ucd_rows :
  table_forall row_nfd_ok = true /\ table_forall row_lower_ok = true /\
  table_forall row_no_sigma = true /\ table_forall row_alpha_space = true /\
  stable_b small_sigma = true.
Proof. vm_compute. repeat split. Qed.

Lemma capital_sigma_in_table : is_Some (greek_ucd_map !! capital_sigma).
Proof. vm_compute. eauto. Qed.

Ltac ucd_unfold H :=
  cbn [ucd_nfd ucd_ccc ucd_lower ucd_isalpha ucd_cased ucd_case_ignorable ucd_isspace
       greek_ucd u_nfd u_ccc u_lower u_alpha u_space default_entry] in H.

#[export] Instance greek_ucd_laws : UnicodeLaws.
Proof.
  destruct greek_ucd_rows as (Hnfd & Hlow & Hsig & Hsp & Hsm). split.
  - intros c d Hd. ucd_unfold Hd.
    destruct (ucd_entry_of_cases c) as [(e & Hl & He) | (Hl & He)]; rewrite He in Hd.
    + pose proof (table_forall_lookup _ _ _ Hnfd Hl) as Hok.
      unfold row_nfd_ok in Hok. rewrite forallb_forall in Hok.
      apply list_elem_of_In, Hok, bool_decide_eq_true in Hd. exact Hd.
    + ucd_unfold Hd. apply list_elem_of_singleton in Hd as ->.
      cbn [ucd_nfd greek_ucd]. unfold ucd_entry_of. rewrite Hl. reflexivity.
  - intros d c Hd Hccc Hc. ucd_unfold Hccc. ucd_unfold Hc.
    destruct (ucd_entry_of_cases d) as [(e & Hl & He) | (Hl & He)]; rewrite He in Hc, Hccc.
    + pose proof (table_forall_lookup _ _ _ Hlow Hl) as Hok.
      unfold row_lower_ok in Hok.
      rewrite (bool_decide_eq_true_2 _ Hd), Hccc in Hok. cbn [andb implb Z.eqb] in Hok.
      rewrite forallb_forall in Hok.
      apply list_elem_of_In, Hok in Hc. by apply stable_b_spec.
    + ucd_unfold Hc. apply list_elem_of_singleton in Hc as ->.
      cbn [ucd_nfd ucd_ccc ucd_lower greek_ucd]. unfold ucd_entry_of. rewrite Hl. auto.
  - by apply stable_b_spec.
  - intros d Hd. ucd_unfold Hd.
    destruct (ucd_entry_of_cases d) as [(e & Hl & He) | (Hl & He)]; rewrite He in Hd.
    + pose proof (table_forall_lookup _ _ _ Hsig Hl) as Hok.
      unfold row_no_sigma in Hok. apply negb_true_iff in Hok.
      apply list_elem_of_In in Hd.
      assert (existsb (Z.eqb capital_sigma) (u_lower e) = true) as Hex
        by (apply existsb_exists; exists capital_sigma; rewrite Z.eqb_refl; auto).
      congruence.
    + ucd_unfold Hd. apply list_elem_of_singleton in Hd as <-.
      destruct capital_sigma_in_table as [x Hx]. congruence.
  - intros c Ha. ucd_unfold Ha. cbn [ucd_isspace greek_ucd].
    destruct (ucd_entry_of_cases c) as [(e & Hl & He) | (Hl & He)]; rewrite He in *.
    + pose proof (table_forall_lookup _ _ _ Hsp Hl) as Hok.
      unfold row_alpha_space in Hok. rewrite Ha in Hok. cbn [andb negb] in Hok.
      apply negb_true_iff in Hok. exact Hok.
    + ucd_unfold Ha. discriminate Ha.
  - vm_compute. reflexivity.
  - intros d Hd. cbn [ucd_decimal greek_ucd]. unfold decimal_of.
    replace ((0x30 <=? 48 + d) && (48 + d <=? 0x39)) with true by (symmetry; apply andb_true_iff; lia).
    f_equal. lia.
  - intros c d. cbn [ucd_decimal greek_ucd]. unfold decimal_of.
    destruct ((0x30 <=? c) && (c <=? 0x39)) eqn:E; [|discriminate].
    apply andb_true_iff in E as [E1 E2]. apply Z.leb_le in E1, E2. intros [= <-]. lia.
  - intros c d. cbn [ucd_decimal ucd_isdigit greek_ucd]. unfold isdigit_of. by intros ->.
  - intros c Hc.
    assert (Forall (fun n : nat => ucd_isspace (33 + Z.of_nat n) = false) (seq 0 94)) as Hall
      by (apply (bool_decide_unpack _); vm_compute; reflexivity).
    rewrite list.Forall_forall in Hall. replace c with (33 + Z.of_nat (Z.to_nat (c - 33))) by lia.
    apply Hall, list_elem_of_In, in_seq. lia.
Qed.
