(* ===== verification/Normalize.v ===== *)
(** * The normalisers

    [normalize_greek] (create_perseus_database.py:18-36, and the same body
    in build_database.py, add_adverb_mappings.py, perseus_db_functions.py
    and most Wiktionary extractors), its variant with an empty-string guard
    (extract_declension_mappings.py:14 and four other extractors), the
    lemmatiser's own [GreekLemmatizer.normalize_greek] (lines 384-403),
    which keeps non-Greek letters, and [normalize_line_for_search]
    (lines 38-70).  All are stated over any [UnicodeDB]; the theorems
    assume its [UnicodeLaws]. *)

From S2P Require Import Prelude Unicode.

Section Normalizers.
Context `{UnicodeDB}.

(** The characters the module-level normaliser keeps (line 34). *)
Definition keep_greek (c : Z) : bool := ucd_isalpha c && in_greek_ranges c.

(** [text.replace('ς', 'σ')] *)
Definition fold_final_sigma (text : pystr) : pystr := py_replace text γ"ς" γ"σ".

(** create_perseus_database.py:18-36 *)
Definition normalize_greek (text : pystr) : pystr :=
  let text := nfd text in
  let text := List.filter (fun c => negb (combining c)) text in
  let text := py_lower text in
  let text := fold_final_sigma text in
  List.filter keep_greek text.

(** extract_declension_mappings.py:14-23: the same body behind
    [if not text: return ""]. *)
Definition normalize_greek_guarded (text : pystr) : pystr :=
  match text with
  | [] => []
  | _ => normalize_greek text
  end.

(** GreekLemmatizer.normalize_greek, lines 384-403: no filter at the end. *)
Definition lemmatizer_normalize (text : pystr) : pystr :=
  match text with
  | [] => []
  | _ =>
      let text := nfd text in
      let text := List.filter (fun c => negb (combining c)) text in
      let text := py_lower text in
      fold_final_sigma text
  end.

Definition space : Z := 0x20.

(** normalize_line_for_search, lines 38-70: letters are kept, every other
    code point becomes a space, and runs of spaces collapse. *)
Definition normalize_line_for_search (text : pystr) (language : String.string) : pystr :=
  match text with
  | [] => []
  | _ =>
      if String.eqb language "greek" then
        let text := nfd text in
        let text := List.filter (fun c => negb (combining c)) text in
        let text := py_lower text in
        let text := fold_final_sigma text in
        let normalized := map (fun c => if ucd_isalpha c then c else space) text in
        join [space] (split_ws normalized)
      else join [space] (split_ws (py_lower text))
  end.
End Normalizers.

(** ** Theorems *)

Lemma small_sigma_neq : small_sigma <> capital_sigma /\ small_sigma <> small_final_sigma.
Proof. unfold small_sigma, capital_sigma, small_final_sigma. lia. Qed.

Section NormalizerTheorems.
Context `{UnicodeDB}.

Lemma fold_final_sigma_map s :
  fold_final_sigma s = map (subst_char small_final_sigma small_sigma) s.
Proof. apply py_replace_single. Qed.

(** [str.lower] without its context rule: a capital sigma always becomes
    the medial small sigma. *)
Definition lower_context_free (c : Z) : pystr :=
  if c =? capital_sigma then [small_sigma] else ucd_lower c.

(** The per-code-point reference normaliser. *)
Definition normalize_char (c : Z) : pystr :=
  List.filter keep_greek
    (map (subst_char small_final_sigma small_sigma)
       (concat (map lower_context_free
          (List.filter (fun d => negb (combining d)) (ucd_nfd c))))).

(** The Final_Sigma rule of [str.lower] never shows after the
    normaliser's [replace('ς', 'σ')]: lowering with the context rule and
    then folding the final sigma equals lowering every capital sigma to
    [σ]. *)
Lemma fold_lower_context_free s :
  fold_final_sigma (py_lower s) = fold_final_sigma (concat (map lower_context_free s)).
Proof.
  rewrite !fold_final_sigma_map. unfold py_lower. generalize (@nil Z) as b.
  induction s as [|c s IH]; intros b; simpl; [done|].
  rewrite !map_app, IH. f_equal. unfold lower_context_free.
  destruct (c =? capital_sigma); [|done].
  by destruct (final_sigma b s).
Qed.

(** Canonical reordering is invisible to the normaliser: once the
    combining marks are dropped, NFD is the concatenation of the
    per-code-point decompositions. *)
Lemma nfd_starters s :
  List.filter (fun c => negb (combining c)) (nfd s) =
  List.filter (fun c => negb (combining c)) (concat (map ucd_nfd s)).
Proof. unfold nfd, canonical_order. by apply canonical_order_aux_starters. Qed.

(** The normaliser is the concatenation of the reference normaliser over
    the code points of its input. *)
Theorem normalize_greek_concat s :
  normalize_greek s = concat (map normalize_char s).
Proof.
  unfold normalize_greek. rewrite nfd_starters, fold_lower_context_free.
  rewrite filter_concat_map, concat_map_concat_map, fold_final_sigma_map,
    map_concat_map, filter_concat_map.
  reflexivity.
Qed.

(** Normalising a text word by word, or a line piece by piece, gives
    the normalised whole: the normaliser is a monoid morphism. *)
Theorem normalize_greek_app s t :
  normalize_greek (s ++ t) = normalize_greek s ++ normalize_greek t.
Proof. by rewrite !normalize_greek_concat, map_app, concat_app. Qed.

Lemma normalize_greek_guarded_eq s : normalize_greek_guarded s = normalize_greek s.
Proof. by destruct s. Qed.

(** The module-level normaliser is the lemmatiser's followed by the
    Greek-letter filter. *)
Lemma normalize_greek_lemmatizer s :
  normalize_greek s = List.filter keep_greek (lemmatizer_normalize s).
Proof. by destruct s. Qed.
(** The lemmatiser's normal form never holds a final sigma. *)
Lemma lemmatizer_normalize_no_final_sigma s : small_final_sigma ∉ lemmatizer_normalize s.
Proof.
  destruct s as [|x s]; [apply not_elem_of_nil|].
  unfold lemmatizer_normalize. rewrite fold_final_sigma_map.
  intros (c & Hc & _)%list_elem_of_In%in_map_iff. revert Hc. unfold subst_char.
  pose proof small_sigma_neq. destruct (Z.eqb_spec c small_final_sigma); naive_solver.
Qed.
End NormalizerTheorems.

Section NormalizerLaws.
Context `{UnicodeLaws}.

Definition stable (c : Z) : Prop := ucd_nfd c = [c] /\ ucd_ccc c = 0 /\ ucd_lower c = [c].

(** What every code point of a normalised string satisfies. *)
Definition normal_char (c : Z) : Prop :=
  stable c /\ c <> capital_sigma /\ c <> small_final_sigma /\ keep_greek c = true.


Lemma subst_final_sigma_stable c :
  stable c -> c <> capital_sigma ->
  stable (subst_char small_final_sigma small_sigma c) /\
  subst_char small_final_sigma small_sigma c <> capital_sigma /\
  subst_char small_final_sigma small_sigma c <> small_final_sigma.
Proof.
  intros Hc Hne. unfold subst_char. pose proof small_sigma_neq.
  destruct (Z.eqb_spec c small_final_sigma) as [->|Hf]; [|done].
  split; [apply sigma_stable | done].
Qed.

(** What every code point of the lemmatiser's normal form satisfies. *)
Lemma lemmatizer_normalize_chars s c :
  c ∈ lemmatizer_normalize s -> stable c /\ c <> capital_sigma /\ c <> small_final_sigma.
Proof.
  destruct s as [|x s]; [by intros ?%elem_of_nil|].
  unfold lemmatizer_normalize. rewrite fold_final_sigma_map.
  intros Hc. apply list_elem_of_In, in_map_iff in Hc as (c' & <- & Hc').
  apply list_elem_of_In, lower_aux_elem in Hc' as (d & Hd & Hcase).
  apply list_elem_of_In, filter_In in Hd as [Hd Hnc].
  unfold combining in Hnc. rewrite negb_involutive in Hnc. apply Z.eqb_eq in Hnc.
  apply list_elem_of_In, nfd_elem in Hd as (e & _ & Hde).
  pose proof (nfd_stable _ _ Hde) as Hdst.
  destruct Hcase as [(_ & Hc') | (_ & Hc')].
  - assert (subst_char small_final_sigma small_sigma c' = small_sigma) as ->
      by (unfold subst_char; destruct Hc' as [->| ->]; [by rewrite Z.eqb_refl|done]).
    pose proof small_sigma_neq. split; [apply sigma_stable|naive_solver].
  - pose proof (lower_stable _ _ Hdst Hnc Hc') as Hst.
    assert (c' <> capital_sigma) by (intros ->; by eapply lower_no_capital_sigma).
    by apply subst_final_sigma_stable.
Qed.

Lemma normalize_greek_chars s c : c ∈ normalize_greek s -> normal_char c.
Proof.
  rewrite normalize_greek_lemmatizer.
  intros Hc. apply list_elem_of_In, filter_In in Hc as [Hc Hkeep].
  apply list_elem_of_In, lemmatizer_normalize_chars in Hc. unfold normal_char. naive_solver.
Qed.

Lemma normalize_greek_fixed s : Forall normal_char s -> normalize_greek s = s.
Proof.
  intros Hs. unfold normalize_greek, nfd, canonical_order.
  assert (map ucd_nfd s = map (fun c => [c]) s) as ->
    by (apply map_ext_Forall; apply (Forall_sub _ _ _ Hs); by intros c [[? _] _]).
  rewrite concat_map_singleton, canonical_order_aux_all_starters
    by (apply (Forall_sub _ _ _ Hs); by intros c [(_ & ? & _) _]).
  rewrite (filter_Forall_id (fun c => negb (combining c)) s)
    by (apply (Forall_sub _ _ _ Hs); intros c [(_ & Hc & _) _]; unfold combining;
        by rewrite Hc).
  unfold py_lower. rewrite lower_aux_stable
    by (apply (Forall_sub _ _ _ Hs); by intros c [(_ & _ & ?) [? _]]).
  rewrite fold_final_sigma_map, (map_Forall_id _ s)
    by (apply (Forall_sub _ _ _ Hs); intros c (_ & _ & Hc & _); unfold subst_char;
        by rewrite (proj2 (Z.eqb_neq _ _) Hc)).
  apply filter_Forall_id. apply (Forall_sub _ _ _ Hs). by intros c (_ & _ & _ & ?).
Qed.

(** C4: The normaliser is idempotent (spec section 8). *)
Theorem normalize_greek_idempotent s :
  normalize_greek (normalize_greek s) = normalize_greek s.
Proof.
  apply normalize_greek_fixed, Forall_forall. intros c Hc.
  apply (normalize_greek_chars s), list_elem_of_In, Hc.
Qed.

(** C5: Range closure (spec section 8): a normalised string holds only
    letters of the two Greek blocks, no combining mark, and no final
    sigma. *)
Theorem normalize_greek_range s c :
  c ∈ normalize_greek s ->
  in_greek_ranges c = true /\ ucd_isalpha c = true /\ combining c = false /\
  c <> small_final_sigma.
Proof.
  intros Hc. destruct (normalize_greek_chars s c Hc) as ((_ & Hccc & _) & _ & Hf & Hk).
  unfold keep_greek in Hk. apply andb_true_iff in Hk as [Ha Hg].
  unfold combining. rewrite Hccc. done.
Qed.
(** [normalize_line_for_search] leaves a line in canonical form: the
    words of the result are non-empty, hold no white space and are joined
    by single spaces, so there is no leading, trailing or doubled space;
    for Greek every character of a word is a letter. *)
Theorem normalize_line_for_search_words s language :
  exists ws, normalize_line_for_search s language = join [space] ws /\
    Forall (fun w => w <> [] /\ Forall (fun c => ucd_isspace c = false /\
      (String.eqb language "greek" = true -> ucd_isalpha c = true)) w) ws.
Proof.
  destruct s as [|x s]; [by exists []|].
  unfold normalize_line_for_search. destruct (String.eqb language "greek") eqn:Hg.
  - eexists; split; [reflexivity|]. apply split_ws_Forall.
    intros c Hc Hsp. apply list_elem_of_In, in_map_iff in Hc as (d & <- & _).
    split; [done|intros _]. destruct (ucd_isalpha d) eqn:Ha; [done|].
    unfold space in Hsp. by rewrite space_isspace in Hsp.
  - eexists; split; [reflexivity|]. apply split_ws_Forall.
    intros c _ Hsp. split; [done|discriminate].
Qed.
End NormalizerLaws.

(** Scenario 1 of the spec: [normalize("Μῆνιν") = "μηνιν"] with the
    Unicode 14.0 data. *)
Example normalize_menin : normalize_greek γ"Μῆνιν" = γ"μηνιν".
Proof. vm_compute. reflexivity. Qed.

(** ** Witnesses, with the Unicode 14.0 data *)

Lemma normalize_greek_idempotent_witness :
  normalize_greek (normalize_greek γ"Ἀχιλῆος") = normalize_greek γ"Ἀχιλῆος".
Proof. exact (normalize_greek_idempotent γ"Ἀχιλῆος"). Defined.

Lemma normalize_greek_range_witness :
  0x3BC ∈ normalize_greek γ"Μῆνιν" /\
  in_greek_ranges 0x3BC = true /\ ucd_isalpha 0x3BC = true /\ combining 0x3BC = false /\
  0x3BC <> small_final_sigma.
Proof.
  assert (0x3BC ∈ normalize_greek γ"Μῆνιν") as Hc
    by (apply list_elem_compute; vm_compute; reflexivity).
  split; [exact Hc|]. exact (normalize_greek_range γ"Μῆνιν" 0x3BC Hc).
Defined.

Lemma normalize_line_for_search_words_witness :
  exists ws, normalize_line_for_search γ"Μῆνιν ἄειδε, θεά," "greek" = join [space] ws /\
    Forall (fun w => w <> [] /\ Forall (fun c => ucd_isspace c = false /\
      (String.eqb "greek" "greek" = true -> ucd_isalpha c = true)) w) ws.
Proof. exact (normalize_line_for_search_words γ"Μῆνιν ἄειδε, θεά," "greek"). Defined.
