(* ===== verification/LemmaMap.v ===== *)
(** * The [lemma_map] table and the SQL statements run on it

    create_perseus_database.py:2753-2762 creates

      [CREATE TABLE lemma_map (word_form TEXT NOT NULL, word_normalized
       TEXT NOT NULL, lemma TEXT NOT NULL, confidence REAL DEFAULT 1.0,
       source TEXT, morph_info TEXT, PRIMARY KEY (word_form, lemma))]

    The table is modelled as the list of its rows in rowid order; the
    primary key is not built into the type but enforced by the statements,
    as SQLite does, so that its invariant can be stated and proved.  The
    statements the scripts issue are [INSERT OR IGNORE] (every loader of
    create_perseus_database.py), plain [INSERT] (the post-passes, which
    raise [sqlite3.IntegrityError] on a duplicate key), [DELETE ... WHERE]
    and [SELECT ... WHERE word_form = ?].  The abstract specification is a
    finite map from keys to rows with first-writer-wins insertion; the list
    implementation refines it. *)

From S2P Require Import Prelude.

(** One row; [NULL] columns are [None]. *)
Record row := Row {
  word_form : pystr;
  word_normalized : pystr;
  lemma : pystr;
  confidence : option Q;
  source : option String.string;
  morph_info : option String.string
}.

Definition row_key (r : row) : pystr * pystr := (word_form r, lemma r).

(** A row of [dictionary_entries] (lines 2733-2744), with the columns the
    lemmatisation reads; LSJParser yields entries of the same shape. *)
Record dict_entry := DictEntry {
  headword : pystr;
  headword_normalized : pystr;
  language : String.string
}.

(** [SELECT DISTINCT headword_normalized FROM dictionary_entries
    WHERE language = 'greek'] as a set. *)
Definition greek_headwords (d : list dict_entry) : gset pystr :=
  list_to_set (map headword_normalized
    (List.filter (fun e => String.eqb (language e) "greek") d)).

(** The rows of the table in rowid order. *)
Abbreviation table := (list row).

Definition key_in (k : pystr * pystr) (t : table) : bool :=
  existsb (fun r => bool_decide (row_key r = k)) t.

(** [INSERT OR IGNORE INTO lemma_map ...]; the boolean is
    [cursor.rowcount > 0]. *)
Definition insert_or_ignore (r : row) (t : table) : table * bool :=
  if key_in (row_key r) t then (t, false) else (t ++ [r], true).

(** What a plain [INSERT] raises. *)
Inductive sql_error :=
  | UniqueViolation (k : pystr * pystr).

(** [INSERT INTO lemma_map ...]: [sqlite3.IntegrityError] on a key that is
    already present. *)
Definition insert (r : row) (t : table) : sql_error + table :=
  if key_in (row_key r) t then inl (UniqueViolation (row_key r)) else inr (t ++ [r]).

(** [DELETE FROM lemma_map WHERE p]; the number is [cursor.rowcount]. *)
Definition delete_where (p : row -> bool) (t : table) : table * nat :=
  (List.filter (fun r => negb (p r)) t, length (List.filter p t)).

(** [SELECT ... FROM lemma_map WHERE word_form = ?] *)
Definition rows_of_form (w : pystr) (t : table) : list row :=
  List.filter (fun r => bool_decide (word_form r = w)) t.

(** A sequence of [INSERT OR IGNORE] statements. *)
Definition insert_all (rs : list row) (t : table) : table :=
  fold_left (fun t r => fst (insert_or_ignore r t)) rs t.

(** ** Invariant: the primary key *)

Definition pk_ok (t : table) : Prop := NoDup (map row_key t).

Lemma key_in_spec k t : key_in k t = true <-> k ∈ map row_key t.
Proof.
  unfold key_in. rewrite existsb_exists, list_elem_of_In, in_map_iff.
  split.
  - intros (r & H1 & H2). apply bool_decide_eq_true in H2. eauto.
  - intros (r & H1 & H2). exists r. split; [done|]. by apply bool_decide_eq_true.
Qed.

Lemma key_in_false k t : key_in k t = false <-> k ∉ map row_key t.
Proof. rewrite <- key_in_spec. destruct (key_in k t); intuition congruence. Qed.

Lemma pk_ok_snoc t r : pk_ok t -> row_key r ∉ map row_key t -> pk_ok (t ++ [r]).
Proof.
  unfold pk_ok. rewrite map_app. simpl. intros Hnd Hr.
  apply list.NoDup_app. split; [done|]. split; [|apply NoDup_singleton].
  intros k Hk ->%list_elem_of_singleton. done.
Qed.

Lemma insert_or_ignore_pk r t : pk_ok t -> pk_ok (fst (insert_or_ignore r t)).
Proof.
  unfold insert_or_ignore. destruct (key_in (row_key r) t) eqn:E; simpl; [done|].
  intros Hpk. apply pk_ok_snoc; [done|]. by apply key_in_false.
Qed.

Lemma insert_pk r t t' : pk_ok t -> insert r t = inr t' -> pk_ok t'.
Proof.
  unfold insert. destruct (key_in (row_key r) t) eqn:E; intros Hpk [=<-].
  apply pk_ok_snoc; [done|]. by apply key_in_false.
Qed.

Lemma delete_where_pk p t : pk_ok t -> pk_ok (fst (delete_where p t)).
Proof.
  unfold pk_ok, delete_where; simpl. intros Hnd.
  induction t as [|r t IH]; simpl; [done|].
  apply list.NoDup_cons in Hnd as [Hr Hnd].
  destruct (p r); simpl; [by apply IH|].
  apply list.NoDup_cons. split; [|by apply IH].
  intros Hin. apply Hr. apply list_elem_of_In in Hin as (r' & Hk & Hr')%in_map_iff.
  apply list_elem_of_In, in_map_iff. exists r'. split; [done|].
  by apply filter_In in Hr' as [? _].
Qed.

Lemma insert_all_rows rs t r : r ∈ insert_all rs t -> r ∈ t \/ r ∈ rs.
Proof.
  revert t; induction rs as [|r' rs IH]; intros t; simpl; [by left|].
  intros [Hr|Hr]%IH; [|set_solver].
  unfold insert_or_ignore in Hr. destruct (key_in (row_key r') t); simpl in Hr; [by left|].
  apply elem_of_app in Hr as [|?%list_elem_of_singleton]; set_solver.
Qed.

Lemma insert_all_pk rs t : pk_ok t -> pk_ok (insert_all rs t).
Proof.
  revert t; induction rs as [|r rs IH]; intros t Hpk; simpl; [done|].
  apply IH, insert_or_ignore_pk, Hpk.
Qed.

Lemma insert_or_ignore_keys r t k :
  k ∈ map row_key t \/ k = row_key r -> k ∈ map row_key (fst (insert_or_ignore r t)).
Proof.
  unfold insert_or_ignore. destruct (key_in (row_key r) t) eqn:E; simpl.
  - intros [| ->]; [done|]. by apply key_in_spec.
  - rewrite map_app, elem_of_app. intros [| ->]; [by left|right; by left].
Qed.

(** After a sequence of [INSERT OR IGNORE], every key of the old table and
    of the inserted rows is present. *)
Lemma insert_all_keys rs t k :
  k ∈ map row_key t \/ k ∈ map row_key rs -> k ∈ map row_key (insert_all rs t).
Proof.
  revert t; induction rs as [|r rs IH]; intros t; simpl.
  - intros [|Hk]; [done|by apply elem_of_nil in Hk].
  - intros Hk. apply IH. rewrite elem_of_cons in Hk.
    destruct Hk as [Hk|[Hk|Hk]]; [left; apply insert_or_ignore_keys ..|right]; auto.
Qed.

Lemma pk_ok_compute t : bool_decide (NoDup (map row_key t)) = true -> pk_ok t.
Proof. apply bool_decide_eq_true. Qed.

Create HintDb lemma_map discriminated.
#[export] Hint Resolve insert_or_ignore_pk insert_pk delete_where_pk insert_all_pk : lemma_map.

(** ** The abstract table: a first-writer-wins map *)

Definition find_key (k : pystr * pystr) (t : table) : option row :=
  List.find (fun r => bool_decide (row_key r = k)) t.

(** The map the table stands for: each key to its row. *)
Definition abs (t : table) : gmap (pystr * pystr) row :=
  list_to_map (map (fun r => (row_key r, r)) t).

(** The specification of [INSERT OR IGNORE]: a key already present keeps
    its row. *)
Definition spec_insert (r : row) (m : gmap (pystr * pystr) row) : gmap (pystr * pystr) row :=
  match m !! row_key r with
  | Some _ => m
  | None => <[row_key r := r]> m
  end.

Lemma abs_lookup t k : abs t !! k = find_key k t.
Proof.
  unfold abs, find_key. induction t as [|r t IH]; simpl; [apply lookup_empty|].
  rewrite lookup_insert. case_bool_decide as Hk; case_decide; congruence.
Qed.

Lemma find_key_app k t1 t2 :
  find_key k (t1 ++ t2) = match find_key k t1 with Some r => Some r | None => find_key k t2 end.
Proof. unfold find_key. induction t1 as [|r t1 IH]; simpl; [done|]. by case_bool_decide. Qed.

Lemma find_key_some k t : key_in k t = true -> is_Some (find_key k t).
Proof.
  unfold key_in, find_key. induction t as [|r t IH]; simpl; [discriminate|].
  case_bool_decide; simpl; eauto.
Qed.

Lemma find_key_none k t : key_in k t = false -> find_key k t = None.
Proof.
  unfold key_in, find_key. induction t as [|r t IH]; simpl; [done|].
  case_bool_decide; simpl; [discriminate|]. exact IH.
Qed.

(** C3: [INSERT OR IGNORE] on the list of rows implements the
    first-writer-wins map: the abstraction of the new table is the
    specified insertion into the abstraction of the old one. *)
Theorem insert_or_ignore_refines r t :
  abs (fst (insert_or_ignore r t)) = spec_insert r (abs t).
Proof.
  unfold insert_or_ignore, spec_insert. rewrite abs_lookup.
  destruct (key_in (row_key r) t) eqn:E; simpl.
  - by destruct (find_key_some _ _ E) as [x ->].
  - rewrite (find_key_none _ _ E). apply map_eq. intros k.
    rewrite abs_lookup, lookup_insert, abs_lookup, find_key_app.
    unfold find_key at 2; simpl.
    destruct (find_key k t) eqn:Ek; repeat case_decide; repeat case_bool_decide;
      subst; try congruence.
    by rewrite (find_key_none _ _ E) in Ek.
Qed.

(** C2: First writer wins: after any sequence of [INSERT OR IGNORE], the
    row of a key is the first row with that key among the old rows and the
    inserted ones, in order (spec section 4.4). *)
Theorem insert_all_first_writer_wins rs t k :
  find_key k (insert_all rs t) = find_key k (t ++ rs).
Proof.
  revert t; induction rs as [|r rs IH]; intros t; simpl.
  - by rewrite app_nil_r.
  - rewrite IH. unfold insert_or_ignore.
    destruct (key_in (row_key r) t) eqn:E; simpl.
    + rewrite !find_key_app. destruct (find_key k t) eqn:Ek; [done|].
      unfold find_key at 2; simpl. case_bool_decide; [|done].
      subst k. by destruct (find_key_some _ _ E) as [x Hx]; congruence.
    + by rewrite <- app_assoc.
Qed.
