(* ===== verification/Paradigm.v ===== *)
(** * The paradigm synthesiser: [GreekLemmatizer]

    create_perseus_database.py:313-609.  The class holds eight tables,
    built in [__init__], and the methods [generate_noun_forms],
    [generate_verb_forms], [generate_all_forms] and [reverse_lemmatize];
    [create_lemma_mappings] turns the synthesiser's forms into rows of
    [lemma_map].  The tables are copied character for character from the
    source: in particular the endings written with a final sigma [ς] keep
    it, although the lemmatiser normalises every [ς] to [σ] before it
    compares anything.  Python dictionaries are association lists built
    with Python's semantics for a dictionary display, and Python sets are
    stdpp [gset]s. *)

From S2P Require Import Prelude Unicode Normalize LemmaMap.

(** ** Python dictionaries *)

Section Dict.
Context {K V : Type} `{EqDecision K}.

(** [d[k] = v]: a present key keeps its position and takes the new
    value; a new key goes last. *)
Fixpoint dict_set (k : K) (v : V) (d : list (K * V)) : list (K * V) :=
  match d with
  | [] => [(k, v)]
  | (k', v') :: d' => if decide (k = k') then (k, v) :: d' else (k', v') :: dict_set k v d'
  end.

(** A dictionary display [{k1: v1, k2: v2, ...}], or [{**d1, **d2}]. *)
Definition dict_of_literal (l : list (K * V)) : list (K * V) :=
  fold_left (fun d '(k, v) => dict_set k v d) l [].

(** [d.get(k)] *)
Definition dict_get (k : K) (d : list (K * V)) : option V :=
  snd <$> List.find (fun kv => bool_decide (fst kv = k)) d.
End Dict.

(** [d[k]] for a key the code knows is present. *)
Definition dict_index (d : list (pystr * list pystr)) (k : pystr) : list pystr :=
  default [] (dict_get k d).

(** [self.first_decl_endings], create_perseus_database.py:318-324 *)
Definition first_decl_endings_literal : list (pystr * list pystr) := [
    (γ"α_long", [γ"α"; γ"ας"; γ"ᾳ"; γ"αν"; γ"α"; γ"αι"; γ"ων"; γ"αις"; γ"ας"]);
    (γ"α_short", [γ"α"; γ"ης"; γ"ῃ"; γ"αν"; γ"α"; γ"αι"; γ"ων"; γ"αις"; γ"ας"]);
    (γ"η", [γ"η"; γ"ης"; γ"ῃ"; γ"ην"; γ"η"; γ"αι"; γ"ων"; γ"αις"; γ"ας"])
  ].

(** [self.second_decl_endings], create_perseus_database.py:327-332 *)
Definition second_decl_endings_literal : list (pystr * list pystr) := [
    (γ"ος", [γ"ος"; γ"ου"; γ"ῳ"; γ"ον"; γ"ε"; γ"οι"; γ"ων"; γ"οις"; γ"ους"]);
    (γ"ον", [γ"ον"; γ"ου"; γ"ῳ"; γ"ον"; γ"ον"; γ"α"; γ"ων"; γ"οις"; γ"α"])
  ].

(** [self.third_decl_endings], create_perseus_database.py:335-340 *)
Definition third_decl_endings_literal : list (pystr * list pystr) := [
    (γ"consonant", [γ""; γ"ος"; γ"ι"; γ"α"; γ""; γ"ες"; γ"ων"; γ"σι"; γ"ας"]);
    (γ"sigma", [γ"ς"; γ"ους"; γ"ει"; γ"η"; γ"ες"; γ"η"; γ"ων"; γ"εσι"; γ"ας"]);
    (γ"neuter_τ", [γ""; γ"τος"; γ"τι"; γ""; γ""; γ"τα"; γ"των"; γ"σι"; γ"τα"])
  ].

(** [self.present_endings], create_perseus_database.py:343-350 *)
Definition present_endings_literal : list (pystr * list pystr) := [
    (γ"ω_active", [γ"ω"; γ"εις"; γ"ει"; γ"ομεν"; γ"ετε"; γ"ουσι"]);
    (γ"ω_middle", [γ"ομαι"; γ"ῃ"; γ"εται"; γ"ομεθα"; γ"εσθε"; γ"ονται"]);
    (γ"μι_active", [γ"μι"; γ"ς"; γ"σι"; γ"μεν"; γ"τε"; γ"ασι"]);
    (γ"contract_α", [γ"ῶ"; γ"ᾷς"; γ"ᾷ"; γ"ῶμεν"; γ"ᾶτε"; γ"ῶσι"]);
    (γ"contract_ε", [γ"ῶ"; γ"εῖς"; γ"εῖ"; γ"οῦμεν"; γ"εῖτε"; γ"οῦσι"]);
    (γ"contract_ο", [γ"ῶ"; γ"οῖς"; γ"οῖ"; γ"οῦμεν"; γ"οῦτε"; γ"οῦσι"])
  ].

(** [self.imperfect_endings], create_perseus_database.py:353-356 *)
Definition imperfect_endings_literal : list (pystr * list pystr) := [
    (γ"active", [γ"ον"; γ"ες"; γ"ε"; γ"ομεν"; γ"ετε"; γ"ον"]);
    (γ"middle", [γ"ομην"; γ"ου"; γ"ετο"; γ"ομεθα"; γ"εσθε"; γ"οντο"])
  ].

(** [self.aorist_endings], create_perseus_database.py:359-363 *)
Definition aorist_endings_literal : list (pystr * list pystr) := [
    (γ"weak_active", [γ"α"; γ"ας"; γ"ε"; γ"αμεν"; γ"ατε"; γ"αν"]);
    (γ"weak_middle", [γ"αμην"; γ"ω"; γ"ατο"; γ"αμεθα"; γ"ασθε"; γ"αντο"]);
    (γ"strong_active", [γ"ον"; γ"ες"; γ"ε"; γ"ομεν"; γ"ετε"; γ"ον"])
  ].

(** [self.irregular_verbs], create_perseus_database.py:366-371 *)
Definition irregular_verbs_literal : list (pystr * list pystr) := [
    (γ"εἰμι", [γ"εἰμι"; γ"εἶ"; γ"ἐστι"; γ"ἐσμεν"; γ"ἐστε"; γ"εἰσι"; γ"ἦν"; γ"ἦς"; γ"ἦν"; γ"ἦμεν"; γ"ἦτε"; γ"ἦσαν"]);
    (γ"φημι", [γ"φημι"; γ"φῃς"; γ"φησι"; γ"φαμεν"; γ"φατε"; γ"φασι"]);
    (γ"οἶδα", [γ"οἶδα"; γ"οἶσθα"; γ"οἶδε"; γ"ἴσμεν"; γ"ἴστε"; γ"ἴσασι"]);
    (γ"εἶμι", [γ"εἶμι"; γ"εἶ"; γ"εἶσι"; γ"ἴμεν"; γ"ἴτε"; γ"ἴασι"])
  ].

(** [self.contractions], create_perseus_database.py:374-382 *)
Definition contractions_literal : list (pystr * list pystr) := [
    (γ"ου", [γ"εου"; γ"οου"]);
    (γ"ω", [γ"εω"; γ"αω"; γ"οω"]);
    (γ"ᾳ", [γ"αει"; γ"αῃ"]);
    (γ"ει", [γ"εει"]);
    (γ"οι", [γ"εοι"; γ"οοι"]);
    (γ"ῃ", [γ"εῃ"]);
    (γ"ου", [γ"εου"])
  ].

Definition present_endings := dict_of_literal present_endings_literal.
Definition imperfect_endings := dict_of_literal imperfect_endings_literal.
Definition aorist_endings := dict_of_literal aorist_endings_literal.
Definition irregular_verbs := dict_of_literal irregular_verbs_literal.
Definition contractions := dict_of_literal contractions_literal.

(** [{**self.first_decl_endings, **self.second_decl_endings,
    **self.third_decl_endings}] (line 411) *)
Definition noun_declensions : list (pystr * list pystr) :=
  dict_of_literal (dict_of_literal first_decl_endings_literal ++
                   dict_of_literal second_decl_endings_literal ++
                   dict_of_literal third_decl_endings_literal).

Section Synthesiser.
Context `{UnicodeDB}.

(** The stem guessed from the nominative, lines 412-421: an [elif]
    chain on the normalised lemma. *)
Definition noun_stem_guess (nl : pystr) : list pystr :=
  if endswith nl γ"ος" then [slice_neg nl 2]
  else if endswith nl γ"η" then [slice_neg nl 1]
  else if endswith nl γ"α" then [slice_neg nl 1]
  else if endswith nl γ"ον" then [slice_neg nl 2]
  else [].

(** Lines 423-429: every ending of one declension on every stem of at
    least two characters. *)
Definition decline (stems endings : list pystr) : list pystr :=
  concat (map (fun stem =>
    if (2 <=? length stem)%nat
    then map (fun ending => match ending with [] => stem | _ => stem ++ ending end) endings
    else []) stems).

(** [generate_noun_forms], lines 405-431 *)
Definition generate_noun_forms (lemma : pystr) : gset pystr :=
  let normalized_lemma := lemmatizer_normalize lemma in
  list_to_set (concat (map (fun '(_, endings) =>
    decline (normalized_lemma :: noun_stem_guess normalized_lemma) endings)
    noun_declensions)).

(** The stem and type of a verb, lines 445-457. *)
Definition verb_stem (nl : pystr) : pystr * option pystr :=
  if endswith nl γ"ω" then (slice_neg nl 1, Some γ"ω")
  else if endswith nl γ"μι" then (slice_neg nl 2, Some γ"μι")
  else if endswith nl γ"ειν" then (slice_neg nl 3, Some γ"ω")
  else (nl, None).

Definition suffixed (stem : pystr) (endings : list pystr) : list pystr :=
  map (fun ending => stem ++ ending) endings.

(** Contract verbs, lines 469-480. *)
Definition contract_forms (stem : pystr) : list pystr :=
  if endswith stem γ"α" then suffixed (slice_neg stem 1) (dict_index present_endings γ"contract_α")
  else if endswith stem γ"ε" then suffixed (slice_neg stem 1) (dict_index present_endings γ"contract_ε")
  else if endswith stem γ"ο" then suffixed (slice_neg stem 1) (dict_index present_endings γ"contract_ο")
  else [].

Definition vowels : list pystr := [γ"α"; γ"ε"; γ"η"; γ"ι"; γ"ο"; γ"υ"; γ"ω"].

(** Lines 487-490: the syllabic augment on a consonant-initial stem. *)
Definition augment (stem : pystr) : pystr :=
  if startswith_any stem vowels then stem else γ"ε" ++ stem.

(** [generate_verb_forms], lines 434-503 *)
Definition generate_verb_forms (lemma : pystr) : gset pystr :=
  let normalized_lemma := lemmatizer_normalize lemma in
  match dict_get normalized_lemma irregular_verbs with
  | Some forms => list_to_set (map lemmatizer_normalize forms)
  | None =>
      let '(stem, verb_type) := verb_stem normalized_lemma in
      match verb_type with
      | None => ∅
      | Some vt =>
          if (length stem <? 2)%nat then ∅
          else
            let present :=
              if bool_decide (vt = γ"ω")
              then suffixed stem (dict_index present_endings γ"ω_active") ++
                   suffixed stem (dict_index present_endings γ"ω_middle") ++
                   contract_forms stem
              else if bool_decide (vt = γ"μι")
              then suffixed stem (dict_index present_endings γ"μι_active")
              else [] in
            let augmented_stem := augment stem in
            list_to_set (present ++
              suffixed augmented_stem (dict_index imperfect_endings γ"active") ++
              suffixed augmented_stem (dict_index imperfect_endings γ"middle") ++
              suffixed (augmented_stem ++ γ"σ") (dict_index aorist_endings γ"weak_active") ++
              suffixed augmented_stem (dict_index aorist_endings γ"strong_active"))
      end
  end.

(** The character class of [re.match(r'^[α-ωάέήίόύώ]+$', form)]. *)
Definition in_word_class (c : Z) : bool :=
  ((0x3B1 <=? c) && (c <=? 0x3C9)) || existsb (Z.eqb c) [0x3AC; 0x3AD; 0x3AE; 0x3AF; 0x3CC; 0x3CD; 0x3CE].

(** The regular expression of line 522: [$] also matches before a final
    newline. *)
Definition word_re_match (form : pystr) : bool :=
  let body := match rev form with d :: r => if d =? 0x0A then rev r else form | [] => form end in
  bool_decide (body <> []) && forallb in_word_class body.

(** [pos_hint == 'verb' or pos_hint is None] (line 513) *)
Definition verb_hint (pos_hint : option String.string) : bool :=
  bool_decide (pos_hint = Some "verb"%string \/ pos_hint = None).

(** [pos_hint == 'noun' or pos_hint == 'adjective' or pos_hint is None]
    (line 516) *)
Definition noun_hint (pos_hint : option String.string) : bool :=
  bool_decide (pos_hint = Some "noun"%string \/ pos_hint = Some "adjective"%string \/
               pos_hint = None).

(** [generate_all_forms], lines 505-525; [pos_hint] is [None] or the
    string the caller passes. *)
Definition generate_all_forms (lemma : pystr) (pos_hint : option String.string) : gset pystr :=
  let forms : gset pystr :=
    {[ lemmatizer_normalize lemma ]} ∪
    (if verb_hint pos_hint then generate_verb_forms lemma else ∅) ∪
    (if noun_hint pos_hint then generate_noun_forms lemma else ∅) in
  filter (fun form => (2 <= length form)%nat /\ word_re_match form = true) forms.
End Synthesiser.

(** [create_lemma_mappings], lines 575-609: every generated form other
    than the headword itself, with confidence 0.8 and source
    ['generated']; the rows are inserted by [INSERT OR IGNORE] without
    [morph_info]. *)
Definition create_lemma_mappings `{UnicodeDB} (lsj_entries : list dict_entry) : list row :=
  concat (map (fun entry =>
    map (fun form => Row form form (headword_normalized entry) (Some (4 # 5))
                         (Some "generated"%string) None)
      (List.filter (fun form => negb (bool_decide (form = headword_normalized entry)))
         (elements (generate_all_forms (headword entry) None))))
    lsj_entries).

(** [reverse_lemmatize], lines 527-573: the candidate lemmas of a word.
    The two [elif] chains are tested on the normalised word; the result
    [list(set(candidates))] is a set. *)
Section ReverseLemmatizer.
Context `{UnicodeDB}.

Definition noun_candidates (normalized : pystr) : list pystr :=
  let stem := slice_neg normalized 2 in
  if endswith normalized γ"ου" then [stem ++ γ"ος"; stem ++ γ"η"; stem ++ γ"ον"]
  else if endswith normalized γ"ων" then [stem ++ γ"ος"; stem ++ γ"η"; stem ++ γ"ον"]
  else if endswith normalized γ"ας" then [stem ++ γ"α"; stem ++ γ"ης"]
  else if endswith normalized γ"αι" then [stem ++ γ"α"; stem ++ γ"η"; stem ++ γ"ος"]
  else [].

Definition verb_candidates (normalized : pystr) : list pystr :=
  if endswith normalized γ"ει" then [slice_neg normalized 2 ++ γ"ω"]
  else if endswith normalized γ"ουσι" then [slice_neg normalized 4 ++ γ"ω"]
  else if endswith normalized γ"ομεν" then [slice_neg normalized 4 ++ γ"ω"]
  else if endswith normalized γ"ετε" then [slice_neg normalized 3 ++ γ"ω"]
  else if endswith normalized γ"εις" then [slice_neg normalized 3 ++ γ"ω"]
  else if endswith normalized γ"ον" then
    (slice_neg normalized 2 ++ γ"ω") ::
    (if startswith normalized γ"ε" && (3 <? length normalized)%nat
     then [drop 1 (slice_neg normalized 2) ++ γ"ω"] else [])
  else [].

(** The loop over [self.contractions.items()], in the order of the dict. *)
Definition contraction_candidates (normalized : pystr) : list pystr :=
  concat (map (fun '(contracted, expansions) =>
    if contains normalized contracted
    then map (fun expansion => py_replace normalized contracted expansion) expansions
    else []) contractions).

Definition reverse_lemmatize (word : pystr) : gset pystr :=
  let normalized := lemmatizer_normalize word in
  list_to_set (normalized :: noun_candidates normalized ++ verb_candidates normalized ++
               contraction_candidates normalized).
End ReverseLemmatizer.

(** ** Theorems *)

Lemma word_re_match_bad s c :
  c ∈ s -> in_word_class c = false -> c <> 0x0A -> word_re_match s = false.
Proof.
  intros Hc Hcl Hnl. unfold word_re_match.
  assert (c ∈ match rev s with d :: r => if d =? 0x0A then rev r else s | [] => s end) as Hb.
  { destruct (rev s) as [|d r] eqn:Hr; [done|].
    assert (s = rev r ++ [d]) as Hs by (rewrite <- (rev_involutive s), Hr; done).
    destruct (Z.eqb_spec d 0x0A) as [->|]; [|done].
    rewrite Hs in Hc. apply elem_of_app in Hc as [?|?%list_elem_of_singleton]; [done|lia]. }
  destruct (forallb in_word_class _) eqn:E; [|by rewrite andb_false_r].
  rewrite forallb_forall in E. apply list_elem_of_In, E in Hb. congruence.
Qed.

Section SynthesiserTheorems.
Context `{UnicodeDB}.

Lemma generate_all_forms_elem lemma h f :
  f ∈ generate_all_forms lemma h <->
  (f = lemmatizer_normalize lemma \/
   (verb_hint h = true /\ f ∈ generate_verb_forms lemma) \/
   (noun_hint h = true /\ f ∈ generate_noun_forms lemma)) /\
  (2 <= length f)%nat /\ word_re_match f = true.
Proof.
  unfold generate_all_forms. rewrite elem_of_filter, !elem_of_union, elem_of_singleton.
  destruct (verb_hint h), (noun_hint h);
    rewrite ?elem_of_empty; intuition congruence.
Qed.

(** The synthesiser emits only strings of letters of [α-ω] and the seven
    accented vowels (a final newline apart). *)
Lemma generate_all_forms_class lemma h f c :
  f ∈ generate_all_forms lemma h -> c ∈ f -> in_word_class c = true \/ c = 0x0A.
Proof.
  intros (_ & _ & Hre)%generate_all_forms_elem Hc.
  destruct (in_word_class c) eqn:E; [by left|right].
  destruct (Z.eqb_spec c 0x0A) as [|Hne]; [done|].
  by rewrite (word_re_match_bad f c Hc E Hne) in Hre.
Qed.

Definition subscript_or_circumflex_endings : list pystr :=
  dict_index present_endings γ"contract_α" ++ dict_index present_endings γ"contract_ε" ++
  dict_index present_endings γ"contract_ο" ++ [γ"ῳ"; γ"ῃ"; γ"ᾳ"].

Definition has_bad_char (e : pystr) : bool :=
  existsb (fun c => negb (in_word_class c) && negb (c =? 0x0A)) e.

Lemma has_bad_char_spec e :
  has_bad_char e = true -> exists c, c ∈ e /\ in_word_class c = false /\ c <> 0x0A.
Proof.
  unfold has_bad_char. rewrite existsb_exists. intros (c & Hc & Hb).
  apply andb_true_iff in Hb as [H1 H2]. apply negb_true_iff in H1, H2.
  apply Z.eqb_neq in H2. exists c. split; [by apply list_elem_of_In|done].
Qed.

Lemma subscript_or_circumflex_bad : forallb has_bad_char subscript_or_circumflex_endings = true.
Proof. vm_compute. reflexivity. Qed.

(** C31: The final filter of line 522 only lets through letters of
    [α-ω] and the seven accented vowels, so no form ending in one of the
    contract-verb present endings (written with circumflexes and iota
    subscripts) or in a dative singular -ῳ, -ῃ, -ᾳ is ever generated,
    whatever the lemma and the hint. *)
Theorem generate_all_forms_no_contract lemma h stem e :
  e ∈ subscript_or_circumflex_endings -> stem ++ e ∉ generate_all_forms lemma h.
Proof.
  intros He Hf. pose proof subscript_or_circumflex_bad as Hbad.
  rewrite forallb_forall in Hbad.
  destruct (has_bad_char_spec e (Hbad e (proj1 (list_elem_of_In _ _) He)))
    as (c & Hc & Hcl & Hnl).
  destruct (generate_all_forms_class lemma h (stem ++ e) c Hf) as [|]; [set_solver|congruence|done].
Qed.
End SynthesiserTheorems.

Section SynthesiserOs.
Context `{UnicodeDB}.

(** On a normal form ending in [σ], none of the four tests of the stem
    guess succeeds: the first compares the literal final [ς]. *)
Lemma noun_stem_guess_os nl : endswith nl γ"οσ" = true -> noun_stem_guess nl = [].
Proof.
  intros [r ->]%endswith_spec. unfold noun_stem_guess, endswith.
  rewrite !rev_app_distr. reflexivity.
Qed.

Lemma decline_single_elem nl endings f :
  f ∈ decline [nl] endings -> startswith f nl = true.
Proof.
  unfold decline. cbn [map concat]. rewrite app_nil_r.
  destruct (2 <=? length nl)%nat; [|by intros ?%elem_of_nil].
  intros (e & He & _)%list_elem_of_In%in_map_iff. subst f.
  destruct e; [|apply startswith_app]. apply startswith_spec. exists []. by rewrite app_nil_r.
Qed.

(** For a lemma whose normal form ends in -οσ (every noun or
    adjective in -ος), every noun form the synthesiser generates starts
    with the whole lemma: the ending -ος is never stripped, because
    line 415 tests [endswith('ος')] with a final sigma on a string whose
    sigmas were all made medial. *)
Theorem noun_forms_keep_os lemma f :
  endswith (lemmatizer_normalize lemma) γ"οσ" = true ->
  f ∈ generate_noun_forms lemma -> startswith f (lemmatizer_normalize lemma) = true.
Proof.
  intros Hos. unfold generate_noun_forms. rewrite (noun_stem_guess_os _ Hos).
  intros Hf. apply elem_of_list_to_set, list_elem_of_In, in_concat in Hf
    as (l & Hl & Hf). apply in_map_iff in Hl as ([name endings] & <- & _).
  by apply (decline_single_elem _ endings), list_elem_of_In.
Qed.

(** The normalised lemma is among its own forms exactly when it
    passes the final filter (at least two characters of the class); the
    spec's "the lemma form itself is always included" does not hold for
    one-letter lemmas. *)
Theorem generate_all_forms_lemma lemma h :
  lemmatizer_normalize lemma ∈ generate_all_forms lemma h <->
  (2 <= length (lemmatizer_normalize lemma))%nat /\
  word_re_match (lemmatizer_normalize lemma) = true.
Proof. rewrite generate_all_forms_elem. intuition auto. Qed.
End SynthesiserOs.

(** Scenario 2 of the spec fails: the synthesiser does not produce the
    genitive [λογου] of [λόγος]; it produces [λογοσου] instead. *)
Example logos_genitive_not_generated :
  γ"λογου" ∉ generate_all_forms γ"λόγος" None /\ γ"λογοσου" ∈ generate_all_forms γ"λόγος" None.
Proof.
  split.
  - apply gset_not_elem_compute. vm_compute. reflexivity.
  - apply gset_elem_compute. vm_compute. reflexivity.
Qed.

Lemma dict_get_key {K V} `{EqDecision K} (k : K) (d : list (K * V)) v :
  dict_get k d = Some v -> k ∈ map fst d.
Proof.
  unfold dict_get. intros (kv & Hf & _)%fmap_Some.
  apply find_some in Hf as [Hin Hk]. apply bool_decide_eq_true in Hk.
  apply list_elem_of_In, in_map_iff. eauto.
Qed.

Section DictFacts.
Context {K V : Type} `{EqDecision K}.

Lemma dict_set_elem (k : K) (v : V) d kv : kv ∈ dict_set k v d -> kv = (k, v) \/ kv ∈ d.
Proof.
  induction d as [|[k' v'] d IH]; simpl; [set_solver|].
  case_decide; [set_solver|]. intros [->|Hkv]%elem_of_cons; [set_solver|].
  destruct (IH Hkv); set_solver.
Qed.

Lemma dict_set_keys (k : K) (v : V) d : map fst (dict_set k v d) ⊆ k :: map fst d.
Proof.
  intros x (kv & <- & Hkv)%list_elem_of_In%in_map_iff.
  apply list_elem_of_In, dict_set_elem in Hkv as [->|Hkv]; [by left|].
  right. apply list_elem_of_In, in_map_iff. exists kv. split; [done|by apply list_elem_of_In].
Qed.

Lemma dict_set_nodup (k : K) (v : V) d : NoDup (map fst d) -> NoDup (map fst (dict_set k v d)).
Proof.
  induction d as [|[k' v'] d IH]; simpl; intros Hnd; [apply NoDup_singleton|].
  apply list.NoDup_cons in Hnd as [Hk' Hnd]. case_decide as Hk; simpl.
  - subst. by apply list.NoDup_cons.
  - apply list.NoDup_cons. split; [|by apply IH].
    intros Hin%dict_set_keys. set_solver.
Qed.

(** The items of a dict built from a display are items of the display. *)
Lemma dict_of_literal_elem (l : list (K * V)) kv : kv ∈ dict_of_literal l -> kv ∈ l.
Proof.
  unfold dict_of_literal.
  assert (forall acc, kv ∈ fold_left (fun d '(k, v) => dict_set k v d) l acc -> kv ∈ acc \/ kv ∈ l)
    as Hgen.
  { induction l as [|[k v] l IH]; intros acc; simpl; [auto|].
    intros [[->|Hkv]%dict_set_elem|Hkv]%IH; set_solver. }
  intros [?%elem_of_nil|]%Hgen; done.
Qed.

(** Its keys are distinct. *)
Lemma dict_of_literal_nodup (l : list (K * V)) : NoDup (map fst (dict_of_literal l)).
Proof.
  unfold dict_of_literal.
  assert (forall acc, NoDup (map fst acc) ->
    NoDup (map fst (fold_left (fun d '(k, v) => dict_set k v d) l acc))) as Hgen.
  { induction l as [|[k v] l IH]; intros acc Hacc; simpl; [done|]. by apply IH, dict_set_nodup. }
  apply Hgen. constructor.
Qed.
End DictFacts.

Definition has_unstable_char (k : pystr) : bool :=
  existsb (fun c => negb (bool_decide (ucd_nfd c = [c]))) k.

Lemma unstable_not_normal k s :
  has_unstable_char k = true -> k = lemmatizer_normalize s -> False.
Proof.
  unfold has_unstable_char. rewrite existsb_exists. intros (c & Hc & Hu) ->.
  apply negb_true_iff, bool_decide_eq_false in Hu.
  apply Hu, (lemmatizer_normalize_chars s c), list_elem_of_In, Hc.
Qed.

(** Three of the four irregular verbs are unreachable: their keys are
    written with breathings and accents, and no normal form holds such a
    character, so only [φημι] ever takes the verbatim paradigm. *)
Theorem irregular_verbs_unreachable lemma :
  dict_get (lemmatizer_normalize lemma) irregular_verbs = None \/
  lemmatizer_normalize lemma = γ"φημι".
Proof.
  destruct (dict_get (lemmatizer_normalize lemma) irregular_verbs) as [v|] eqn:E; [|by left].
  right. apply dict_get_key in E.
  assert (map fst irregular_verbs = [γ"εἰμι"; γ"φημι"; γ"οἶδα"; γ"εἶμι"]) as Hk
    by reflexivity.
  rewrite Hk in E. clear Hk.
  repeat apply elem_of_cons in E as [E|E]; try (by apply elem_of_nil in E);
    try done; exfalso; symmetry in E; (eapply unstable_not_normal; [|exact E]);
    vm_compute; reflexivity.
Qed.

(** The verbatim paradigm of [εἰμί] never reaches the index: [ἐστι] is
    not among its forms. *)
Example eimi_paradigm_unused : γ"εστι" ∉ generate_all_forms γ"εἰμί" None.
Proof. apply gset_not_elem_compute. vm_compute. reflexivity. Qed.

(** The tests [endswith('ας')] and [endswith('εις')] of
    [reverse_lemmatize] never hold: the normalised word has no final
    sigma. *)
Lemma reverse_lemmatize_sigma_tests `{UnicodeDB} word :
  endswith (lemmatizer_normalize word) γ"ας" = false /\
  endswith (lemmatizer_normalize word) γ"εις" = false.
Proof.
  pose proof (lemmatizer_normalize_no_final_sigma word) as Hs.
  split; apply endswith_false; intros [r Hr]; apply Hs; rewrite Hr;
    apply elem_of_app; right; apply list_elem_compute; vm_compute; reflexivity.
Qed.

(** [reverse_lemmatize('λόγου')] proposes [λογος] with a final sigma,
    which is the normal form of no headword, and not [λογοσ]: the noun
    candidates of lines 541-548 are written with [ς]. *)
Example reverse_lemmatize_logou :
  reverse_lemmatize γ"λόγου" = list_to_set [γ"λογου"; γ"λογος"; γ"λογη"; γ"λογον"; γ"λογεου"] /\
  γ"λογοσ" ∉ reverse_lemmatize γ"λόγου".
Proof.
  split; [vm_compute; reflexivity|]. apply gset_not_elem_compute. vm_compute. reflexivity.
Qed.

(** ** Witnesses *)

Lemma generate_all_forms_no_contract_witness :
  γ"ῳ" ∈ subscript_or_circumflex_endings /\ γ"λογ" ++ γ"ῳ" ∉ generate_all_forms γ"λόγος" None.
Proof.
  assert (γ"ῳ" ∈ subscript_or_circumflex_endings) as He
    by (apply list_elem_compute; vm_compute; reflexivity).
  split; [exact He|]. exact (generate_all_forms_no_contract γ"λόγος" None γ"λογ" _ He).
Defined.

Lemma noun_forms_keep_os_witness :
  endswith (lemmatizer_normalize γ"λόγος") γ"οσ" = true /\
  γ"λογοσου" ∈ generate_noun_forms γ"λόγος" /\
  startswith γ"λογοσου" (lemmatizer_normalize γ"λόγος") = true.
Proof.
  assert (endswith (lemmatizer_normalize γ"λόγος") γ"οσ" = true) as H1
    by (vm_compute; reflexivity).
  assert (γ"λογοσου" ∈ generate_noun_forms γ"λόγος") as H2
    by (apply gset_elem_compute; vm_compute; reflexivity).
  split; [exact H1|]. split; [exact H2|]. exact (noun_forms_keep_os γ"λόγος" _ H1 H2).
Defined.
