(* ===== verification/Resolver.v ===== *)
(** * The candidate resolver: [generate_comprehensive_lemmatization]

    create_perseus_database.py:2230-2436.  For each word the loop builds
    the set [found_lemmas] by a sequence of rules, each trying candidate
    strings and keeping those that are dictionary headwords
    ([valid_lemmas]); then every found lemma is inserted with a confidence
    that depends on the word and the lemma, not on the rule that found it
    (lines 2411-2429).  [found_lemmas] models the loop body, one definition
    per rule, composed in the order of the source; [confidence_of] models
    the confidence policy; [resolve_rows] the rows inserted. *)

From S2P Require Import Prelude Unicode Normalize LemmaMap Paradigm.

(** Lines 2257-2274 *)
Definition endings_to_remove : list pystr :=
  [γ"ων"; γ"ου"; γ"ω"; γ"ον"; γ"ε"; γ"α"; γ"ασ"; γ"ησ"; γ"η"; γ"αν"; γ"ην";
   γ"οι"; γ"ων"; γ"οισ"; γ"ουσ"; γ"αι"; γ"ων"; γ"αισ"; γ"ασ";
   γ"οσ"; γ"εσ"; γ"ι"; γ"σι"; γ"των"; γ"τοσ"; γ"τησ"; γ"τον"; γ"την"; γ"τα"; γ"ται";
   γ"ει"; γ"εισ"; γ"ομεν"; γ"ετε"; γ"ουσι"; γ"ουσιν";
   γ"ομαι"; γ"εται"; γ"ομεθα"; γ"εσθε"; γ"ονται";
   γ"σω"; γ"σεισ"; γ"σει"; γ"σομεν"; γ"σετε"; γ"σουσι";
   γ"σα"; γ"σασ"; γ"σε"; γ"σαμεν"; γ"σατε"; γ"σαν";
   γ"κα"; γ"κασ"; γ"κε"; γ"καμεν"; γ"κατε"; γ"κασι";
   γ"μενοσ"; γ"μενη"; γ"μενον"; γ"μενου"; γ"μενησ"; γ"μενω";
   γ"ντοσ"; γ"ντι"; γ"ντα"; γ"ντεσ"; γ"ντων";
   γ"θεισ"; γ"θεντοσ"; γ"θεντι"; γ"θεντα"; γ"θεντεσ"; γ"θεντων";
   γ"θεισα"; γ"θεισαν"; γ"θεν"; γ"θεντα"].

(** Line 2277 *)
Definition dict_endings : list pystr := [γ"οσ"; γ"η"; γ"ον"; γ"α"; γ"ω"; γ"ημι"; γ"μι"].

(** Lines 2342-2356 *)
Definition patronymic_endings : list (pystr * pystr) :=
  [(γ"ιδησ", γ"ευσ"); (γ"ιαδησ", γ"ευσ"); (γ"ιδου", γ"ευσ"); (γ"ιαδεω", γ"ευσ");
   (γ"ιδη", γ"ευσ"); (γ"ιαδη", γ"ευσ"); (γ"ιδα", γ"ευσ"); (γ"ιαδα", γ"ευσ");
   (γ"ιδησ", γ"οσ"); (γ"ιαδησ", γ"οσ"); (γ"ιδησ", γ"ησ"); (γ"ιαδησ", γ"ησ")].

Section Resolver.
(** [valid_lemmas], the set of Greek headwords (lines 2245-2251). *)
Variable valid_lemmas : gset pystr.

(** [if candidate in valid_lemmas: found_lemmas.add(candidate)] *)
Definition add_if_valid (candidate : pystr) (found : gset pystr) : gset pystr :=
  if bool_decide (candidate ∈ valid_lemmas) then {[candidate]} ∪ found else found.

(** The same test on each candidate of a loop, in order. *)
Definition add_all_valid (candidates : list pystr) (found : gset pystr) : gset pystr :=
  fold_left (fun f c => add_if_valid c f) candidates found.

(** Lines 2289-2290: the word itself. *)
Definition rule_exact (word : pystr) (found : gset pystr) : gset pystr :=
  add_if_valid word found.

(** Lines 2293-2296: a dictionary ending added to the word as it is. *)
Definition rule_suffix_add (word : pystr) (found : gset pystr) : gset pystr :=
  add_all_valid (map (fun d => word ++ d) dict_endings) found.

(** Lines 2299-2310: an inflectional ending stripped, when at least three
    characters remain; the bare stem and the stem with each dictionary
    ending are tried. *)
Definition strip_one (word : pystr) (found : gset pystr) (ending : pystr) : gset pystr :=
  if endswith word ending && (length ending + 2 <? length word)%nat then
    let stem := slice_neg word (length ending) in
    add_all_valid (map (fun d => stem ++ d) dict_endings) (add_if_valid stem found)
  else found.

Definition rule_strip (word : pystr) (found : gset pystr) : gset pystr :=
  fold_left (strip_one word) endings_to_remove found.

(** Lines 2313-2322: the augment [ε] removed; every word in [εθ] also
    proposes [τιθημι]. *)
Definition rule_augment (word : pystr) (found : gset pystr) : gset pystr :=
  if startswith word γ"ε" && (3 <? length word)%nat then
    let found := add_if_valid (drop 1 word) found in
    if startswith word γ"εθ" then add_if_valid γ"τιθημι" found else found
  else found.

(** Lines 2325-2338: aorist passive participles in -θεισ. *)
Definition rule_aorist_passive (word : pystr) (found : gset pystr) : gset pystr :=
  if endswith word γ"θεισ" && (4 <? length word)%nat then
    let stem := slice_neg word 4 in
    let found :=
      if endswith stem γ"ω" then add_if_valid (slice_neg stem 1 ++ γ"οω") found else found in
    add_all_valid (map (fun ve => stem ++ ve) [γ"ω"; γ"εω"; γ"αω"; γ"οω"; γ"υω"]) found
  else found.

(** One patronymic pattern, lines 2359-2390. *)
Definition patronymic_one (word : pystr) (found : gset pystr) (pat : pystr * pystr) : gset pystr :=
  let '(pat_ending, name_ending) := pat in
  if endswith word pat_ending && (length pat_ending + 2 <? length word)%nat then
    let base := slice_neg word (length pat_ending) in
    let found :=
      if endswith base γ"η" && bool_decide (name_ending = γ"ευσ") then
        add_if_valid (slice_neg base 1 ++ name_ending) found
      else if endswith base γ"ε" && bool_decide (name_ending = γ"ευσ") then
        add_if_valid (base ++ γ"υσ") found
      else if endswith base γ"η" then
        add_if_valid (slice_neg base 1 ++ γ"ε" ++ name_ending) found
      else found in
    let found := add_if_valid (base ++ name_ending) found in
    let patronymic_nom :=
      if endswith word γ"ου" || endswith word γ"εω" then slice_neg word 1 ++ γ"σ" else word in
    let patronymic_nom :=
      if endswith patronymic_nom γ"ησ" then slice_neg patronymic_nom 1 ++ γ"σ"
      else patronymic_nom in
    add_if_valid patronymic_nom found
  else found.

Definition rule_patronymic (word : pystr) (found : gset pystr) : gset pystr :=
  fold_left (patronymic_one word) patronymic_endings found.

(** Lines 2394-2403: genitives in -ηοσ of names in -ευσ, with the
    consonant doubled after [λ μ ν ρ]. *)
Definition rule_eos (word : pystr) (found : gset pystr) : gset pystr :=
  if endswith word γ"ηοσ" then
    let base := slice_neg word 3 in
    let found := add_if_valid (base ++ γ"ευσ") found in
    match last_char base with
    | Some c => if existsb (Z.eqb c) γ"λμνρ" then add_if_valid (base ++ [c] ++ γ"ευσ") found
                else found
    | None => found
    end
  else found.

(** The loop body up to line 2403: [found_lemmas] of one word. *)
Definition found_lemmas (word : pystr) : gset pystr :=
  rule_eos word (rule_patronymic word (rule_aorist_passive word
    (rule_augment word (rule_strip word (rule_suffix_add word (rule_exact word ∅)))))).
End Resolver.

(** The confidence of a found lemma, lines 2411-2422. *)
Definition confidence_of (word lemma : pystr) : Q :=
  if bool_decide (lemma = word) then 9 # 10
  else if bool_decide (word ++ γ"οσ" = lemma \/ word ++ γ"η" = lemma \/ word ++ γ"ον" = lemma)
  then 7 # 10
  else if endswith lemma γ"ευσ" && existsb (fun pat => endswith word pat.1) patronymic_endings
  then 3 # 4
  else if (length lemma <? length word)%nat then 3 # 5
  else 1 # 2.

(** The rows inserted for one word, lines 2424-2429, in the iteration order
    of the set. *)
Definition resolve_rows (valid_lemmas : gset pystr) (word : pystr) : list row :=
  map (fun l => Row word word l (Some (confidence_of word l)) (Some "algorithmic"%string) None)
    (elements (found_lemmas valid_lemmas word)).

(** The loop of lines 2282-2424 over [all_words]. *)
Definition generate_comprehensive_lemmatization (all_words : list pystr)
    (valid_lemmas : gset pystr) (t : table) : table :=
  fold_left (fun t word => insert_all (resolve_rows valid_lemmas word) t) all_words t.

(** ** How the rules grow the set *)

Section Grows.
Variable valid_lemmas : gset pystr.

(** A step of the loop body: it only adds, and only headwords. *)
Definition grows (step : gset pystr -> gset pystr) : Prop :=
  forall F, F ⊆ step F /\ step F ⊆ F ∪ valid_lemmas.

Lemma add_if_valid_spec c F x :
  x ∈ add_if_valid valid_lemmas c F <-> (x = c /\ c ∈ valid_lemmas) \/ x ∈ F.
Proof. unfold add_if_valid. case_bool_decide; set_solver. Qed.

Lemma grows_add_if_valid c : grows (add_if_valid valid_lemmas c).
Proof. intros F. split; intros x; rewrite ?add_if_valid_spec; set_solver. Qed.

Lemma grows_id : grows (fun F => F).
Proof. intros F. set_solver. Qed.

Lemma grows_compose f g : grows f -> grows g -> grows (fun F => g (f F)).
Proof. intros Hf Hg F. destruct (Hf F), (Hg (f F)). set_solver. Qed.

Lemma grows_if (b : bool) f g : grows f -> grows g -> grows (fun F => if b then f F else g F).
Proof. by destruct b. Qed.

Lemma grows_fold {A} (g : gset pystr -> A -> gset pystr) (l : list A) :
  (forall a, grows (fun F => g F a)) -> grows (fun F => fold_left g l F).
Proof.
  intros Hg. induction l as [|a l IH]; simpl; [apply grows_id|].
  apply (grows_compose (fun F => g F a)); [apply Hg|exact IH].
Qed.

Lemma grows_add_all_valid cs : grows (add_all_valid valid_lemmas cs).
Proof.
  apply (grows_fold (fun f c => add_if_valid valid_lemmas c f)). intros c.
  apply grows_add_if_valid.
Qed.

Lemma add_all_valid_spec cs F x :
  x ∈ add_all_valid valid_lemmas cs F <-> (x ∈ cs /\ x ∈ valid_lemmas) \/ x ∈ F.
Proof.
  revert F; induction cs as [|c cs IH]; intros F; simpl.
  - set_solver.
  - rewrite IH, add_if_valid_spec. set_solver.
Qed.

Lemma add_if_valid_sub c F : F ⊆ add_if_valid valid_lemmas c F.
Proof. apply grows_add_if_valid. Qed.

Lemma add_if_valid_bound c X G : X ⊆ G ∪ valid_lemmas -> add_if_valid valid_lemmas c X ⊆ G ∪ valid_lemmas.
Proof. intros HX. destruct (grows_add_if_valid c X) as [_ H]. set_solver. Qed.

Lemma add_all_valid_sub cs F : F ⊆ add_all_valid valid_lemmas cs F.
Proof. apply grows_add_all_valid. Qed.

Lemma add_all_valid_bound cs X G :
  X ⊆ G ∪ valid_lemmas -> add_all_valid valid_lemmas cs X ⊆ G ∪ valid_lemmas.
Proof. intros HX. destruct (grows_add_all_valid cs X) as [_ H]. set_solver. Qed.

(** A step of a [for] loop adds its element's candidate whatever the set
    before it, so the whole loop does. *)
Lemma fold_grows_elem {A} (g : gset pystr -> A -> gset pystr) (l : list A) a x F :
  (forall b, grows (fun F => g F b)) -> a ∈ l -> (forall F, x ∈ g F a) ->
  x ∈ fold_left g l F.
Proof.
  intros Hg Ha Hx. revert F; induction l as [|b l IH]; intros F; [set_solver|].
  simpl. apply elem_of_cons in Ha as [<-|Ha].
  - destruct (grows_fold g l Hg (g F a)) as [Hsub _]. apply Hsub, Hx.
  - by apply IH.
Qed.
End Grows.

Create HintDb resolver discriminated.
#[export] Hint Resolve grows_add_if_valid grows_add_all_valid grows_id grows_compose grows_if
  : resolver.

(** Prove [grows] of a rule: unfold it to compositions of additions. *)
Ltac grows_tac :=
  intros ?F; repeat (case_match || destruct (_ && _)%bool);
  (split;
   [ repeat first [ reflexivity
                  | etrans; [|apply add_if_valid_sub]
                  | etrans; [|apply add_all_valid_sub] ]
   | repeat first [apply add_if_valid_bound | apply add_all_valid_bound]; set_solver ]).

Section RuleGrowth.
Variable valid_lemmas : gset pystr.
Variable word : pystr.

Lemma grows_strip_one e : grows valid_lemmas (fun F => strip_one valid_lemmas word F e).
Proof. unfold strip_one. grows_tac. Qed.

Lemma grows_patronymic_one pat :
  grows valid_lemmas (fun F => patronymic_one valid_lemmas word F pat).
Proof. unfold patronymic_one. grows_tac. Qed.

Lemma grows_rules :
  grows valid_lemmas (rule_exact valid_lemmas word) /\
  grows valid_lemmas (rule_suffix_add valid_lemmas word) /\
  grows valid_lemmas (rule_strip valid_lemmas word) /\
  grows valid_lemmas (rule_augment valid_lemmas word) /\
  grows valid_lemmas (rule_aorist_passive valid_lemmas word) /\
  grows valid_lemmas (rule_patronymic valid_lemmas word) /\
  grows valid_lemmas (rule_eos valid_lemmas word).
Proof.
  split; [apply grows_add_if_valid|]. split; [apply grows_add_all_valid|].
  split; [apply grows_fold, grows_strip_one|].
  split; [unfold rule_augment; grows_tac|].
  split; [unfold rule_aorist_passive; grows_tac|].
  split; [apply grows_fold, grows_patronymic_one|].
  unfold rule_eos; grows_tac.
Qed.

(** Every rule after the exact match only adds to the set. *)
Lemma found_lemmas_after_strip F :
  rule_strip valid_lemmas word F ⊆
  rule_eos valid_lemmas word (rule_patronymic valid_lemmas word
    (rule_aorist_passive valid_lemmas word (rule_augment valid_lemmas word
      (rule_strip valid_lemmas word F)))).
Proof.
  destruct grows_rules as (_ & _ & _ & Ha & Hp & Hpat & He).
  pose proof (grows_compose _ _ _ (grows_compose _ _ _ (grows_compose _ _ _ Ha Hp) Hpat) He)
    as Hall.
  apply (Hall _).
Qed.
End RuleGrowth.

(** ** Theorems *)

Section ResolverTheorems.
Variable valid_lemmas : gset pystr.

Lemma found_lemmas_grows word :
  found_lemmas valid_lemmas word ⊆ valid_lemmas /\
  rule_strip valid_lemmas word (rule_suffix_add valid_lemmas word
    (rule_exact valid_lemmas word ∅)) ⊆ found_lemmas valid_lemmas word.
Proof.
  destruct (grows_rules valid_lemmas word) as (H1 & H2 & H3 & H4 & H5 & H6 & H7).
  pose proof (grows_compose _ _ _ (grows_compose _ _ _ (grows_compose _ _ _
    (grows_compose _ _ _ (grows_compose _ _ _ (grows_compose _ _ _ H1 H2) H3) H4) H5) H6) H7)
    as Hall.
  destruct (Hall ∅) as [_ Hsub]. split; [set_solver|].
  apply found_lemmas_after_strip.
Qed.

(** C6: Soundness of the resolver: every lemma it proposes for a word is
    a dictionary headword; a transformation that reaches no headword is
    dropped without error. *)
Theorem found_lemmas_sound word l :
  l ∈ found_lemmas valid_lemmas word -> l ∈ valid_lemmas.
Proof. intros Hl. by apply (proj1 (found_lemmas_grows word)). Qed.

(** Exact match: a word that is a headword is among its own lemmas
    (rule 1), and its row has confidence 0.9. *)
Theorem found_lemmas_exact word :
  word ∈ valid_lemmas ->
  word ∈ found_lemmas valid_lemmas word /\ confidence_of word word = 9 # 10.
Proof.
  intros Hw. split.
  - apply (proj2 (found_lemmas_grows word)). unfold rule_strip.
    apply (grows_fold valid_lemmas); [apply grows_strip_one|].
    apply grows_add_all_valid. unfold rule_exact. apply add_if_valid_spec. left. done.
  - unfold confidence_of. by rewrite bool_decide_eq_true_2.
Qed.

Lemma strip_one_elem word e F x :
  endswith word e = true -> (length e + 2 < length word)%nat ->
  (x = slice_neg word (length e) \/ exists d, d ∈ dict_endings /\ x = slice_neg word (length e) ++ d) ->
  x ∈ valid_lemmas -> x ∈ strip_one valid_lemmas word F e.
Proof.
  intros He Hlen Hx Hv. unfold strip_one. rewrite He.
  rewrite (proj2 (Nat.ltb_lt _ _) Hlen). cbn [andb]. cbv zeta.
  rewrite add_all_valid_spec, add_if_valid_spec.
  destruct Hx as [->|(d & Hd & ->)]; [by right; left|].
  left. split; [|done]. apply list_elem_of_In, in_map_iff. exists d.
  split; [done|]. by apply list_elem_of_In.
Qed.

(** Suffix stripping: a word made of a stem of at least three characters
    and one of the inflectional endings of lines 2257-2274 resolves to
    the stem, and to the stem with any dictionary ending, whenever that
    is a headword. *)
Theorem found_lemmas_strip stem e x :
  e ∈ endings_to_remove -> (3 <= length stem)%nat ->
  (x = stem \/ exists d, d ∈ dict_endings /\ x = stem ++ d) ->
  x ∈ valid_lemmas -> x ∈ found_lemmas valid_lemmas (stem ++ e).
Proof.
  intros He Hs Hx Hv.
  assert (e <> []) as Hne.
  { assert (Forall (fun e => e <> []) endings_to_remove) as Hall
      by (repeat constructor; vm_compute; discriminate).
    rewrite list.Forall_forall in Hall. by apply Hall. }
  apply (proj2 (found_lemmas_grows (stem ++ e))). unfold rule_strip.
  apply (fold_grows_elem valid_lemmas _ _ e); [apply grows_strip_one|done|].
  intros F. apply strip_one_elem; [apply endswith_app| |by rewrite slice_neg_app|done].
  rewrite length_app. lia.
Qed.
End ResolverTheorems.

(** ** The confidence policy *)

Lemma confidence_of_bounds word lemma :
  (1 # 2 <= confidence_of word lemma)%Q /\ (confidence_of word lemma <= 1)%Q.
Proof.
  unfold confidence_of.
  repeat match goal with |- context [if ?b then _ else _] => destruct b end;
    split; vm_compute; congruence.
Qed.

(** The confidence table (lines 2408-2417): every row the resolver
    inserts has one of five confidences. *)
Theorem confidence_of_table word lemma :
  confidence_of word lemma ∈ [9 # 10; 7 # 10; 3 # 4; 3 # 5; 1 # 2].
Proof.
  unfold confidence_of.
  repeat match goal with |- context [if ?b then _ else _] => destruct b end; set_solver.
Qed.

Lemma app_ne_self (w d : pystr) : d <> [] -> w ++ d <> w.
Proof. intros Hd Heq. apply (f_equal length) in Heq. rewrite length_app in Heq. destruct d; [done|simpl in Heq; lia]. Qed.

(** The suffix-addition rule (line 2293) tries seven dictionary
    endings, but only [-οσ], [-η] and [-ον] get the confidence 0.7 of an
    elided form; a lemma found by adding [-α], [-ω], [-ημι] or [-μι] gets
    0.5, the default of "other transformations". *)
Theorem suffix_add_confidence w :
  (forall d, d ∈ [γ"οσ"; γ"η"; γ"ον"] -> confidence_of w (w ++ d) = 7 # 10) /\
  (forall d, d ∈ [γ"α"; γ"ω"; γ"ημι"; γ"μι"] -> confidence_of w (w ++ d) = 1 # 2).
Proof.
  split; intros d Hd; unfold confidence_of;
    (rewrite bool_decide_eq_false_2 by (apply app_ne_self; intros ->; set_solver));
    repeat (apply elem_of_cons in Hd as [-> | Hd]); try (by apply elem_of_nil in Hd).
  all: try (rewrite bool_decide_eq_true_2 by auto; reflexivity).
  all: rewrite bool_decide_eq_false_2
         by (intros [H|[H|H]]; apply app_inv_head in H; vm_compute in H; discriminate).
  all: rewrite endswith_app_false by (vm_compute; reflexivity); cbn [andb].
  all: match goal with |- context [(length ?x <? length ?y)%nat] =>
         destruct (Nat.ltb_spec (length x) (length y)) as [Hl|]; [|reflexivity] end.
  all: rewrite length_app in Hl; cbn in Hl; lia.
Qed.

(** ** Roundtrip with the synthesiser and the special rules *)

Section ResolverRoundtrip.
Variable valid_lemmas : gset pystr.

(** C7: Roundtrip (spec section 8): a stem of at least three characters
    followed by any inflectional ending the resolver knows (lines
    2257-2274) resolves back to the stem, and to the stem with any
    dictionary ending, whenever that is a headword; the row has a
    confidence of at least 0.5. *)
Theorem resolve_roundtrip stem e x :
  e ∈ endings_to_remove -> (3 <= length stem)%nat ->
  (x = stem \/ exists d, d ∈ dict_endings /\ x = stem ++ d) -> x ∈ valid_lemmas ->
  x ∈ found_lemmas valid_lemmas (stem ++ e) /\ (1 # 2 <= confidence_of (stem ++ e) x)%Q.
Proof.
  intros He Hlen Hx Hv. split; [|apply confidence_of_bounds].
  by apply found_lemmas_strip.
Qed.

Lemma after_augment word F :
  rule_augment valid_lemmas word F ⊆
  rule_eos valid_lemmas word (rule_patronymic valid_lemmas word
    (rule_aorist_passive valid_lemmas word (rule_augment valid_lemmas word F))).
Proof.
  destruct (grows_rules valid_lemmas word) as (_ & _ & _ & _ & Hp & Hpat & He).
  apply (grows_compose _ _ _ (grows_compose _ _ _ Hp Hpat) He).
Qed.

(** The hard-coded exception of lines 2320-2322 for [ἔθηκε] fires for
    every word of more than three letters that begins with [εθ]: each
    such word is mapped to [τιθημι] whenever that verb is a headword. *)
Theorem tithemi_for_every_eth word :
  startswith word γ"εθ" = true -> (3 < length word)%nat -> γ"τιθημι" ∈ valid_lemmas ->
  γ"τιθημι" ∈ found_lemmas valid_lemmas word.
Proof.
  intros Heth Hlen Ht. apply after_augment. unfold rule_augment.
  assert (startswith word γ"ε" = true) as He.
  { apply startswith_spec in Heth as [r ->]. by apply startswith_spec; eexists. }
  rewrite He, (proj2 (Nat.ltb_lt _ _) Hlen), Heth. cbn [andb]. cbv zeta.
  apply add_if_valid_spec. by left.
Qed.

(** Patronymics: the patronymic [n-ειδησ] of a name [n-ευσ] (as
    [ατρειδησ] of [ατρευσ]) resolves to the name with confidence 0.75. *)
Theorem patronymic_eidis n :
  (2 <= length n)%nat -> n ++ γ"ευσ" ∈ valid_lemmas ->
  n ++ γ"ευσ" ∈ found_lemmas valid_lemmas (n ++ γ"ειδησ") /\
  confidence_of (n ++ γ"ειδησ") (n ++ γ"ευσ") = 3 # 4.
Proof.
  intros Hlen Hv. split.
  - destruct (grows_rules valid_lemmas (n ++ γ"ειδησ")) as (_ & _ & _ & _ & _ & _ & He).
    apply (proj1 (He _)). unfold rule_patronymic.
    apply (fold_grows_elem valid_lemmas _ _ (γ"ιδησ", γ"ευσ"));
      [apply grows_patronymic_one | by left |].
    intros F. unfold patronymic_one.
    assert (n ++ γ"ειδησ" = (n ++ γ"ε") ++ γ"ιδησ") as Hw by (by rewrite <- app_assoc).
    rewrite Hw, endswith_app, slice_neg_app by discriminate.
    rewrite (proj2 (Nat.ltb_lt _ _)) by (rewrite !length_app; simpl; lia).
    cbn [andb]. cbv zeta.
    assert (endswith (n ++ γ"ε") γ"η" = false) as ->
      by (unfold endswith; rewrite rev_app_distr; reflexivity).
    rewrite endswith_app. cbn [andb]. rewrite bool_decide_eq_true_2 by done.
    assert ((n ++ γ"ε") ++ γ"υσ" = n ++ γ"ευσ") as Heq by (rewrite <- app_assoc; reflexivity).
    rewrite Heq, !add_if_valid_spec. naive_solver.
  - unfold confidence_of.
    rewrite bool_decide_eq_false_2
      by (intros Heq%app_inv_head; discriminate).
    rewrite bool_decide_eq_false_2
      by (intros [Heq | [Heq | Heq]]; apply (f_equal length) in Heq;
          rewrite !length_app in Heq; simpl in Heq; lia).
    rewrite endswith_app. cbn [andb].
    assert (existsb (fun pat => endswith (n ++ γ"ειδησ") pat.1) patronymic_endings = true)
      as -> by (apply existsb_exists; exists (γ"ιδησ", γ"ευσ"); split; [by left|];
                apply endswith_spec; exists (n ++ γ"ε"); by rewrite <- app_assoc).
    reflexivity.
Qed.
End ResolverRoundtrip.

(** ** The loop over the headwords *)

Lemma resolve_rows_elem V w r :
  r ∈ resolve_rows V w ->
  word_form r = w /\ word_normalized r = w /\ lemma r ∈ found_lemmas V w /\
  confidence r = Some (confidence_of w (lemma r)) /\
  source r = Some "algorithmic"%string /\ morph_info r = None.
Proof.
  unfold resolve_rows. intros (l & <- & Hl)%list_elem_of_In%in_map_iff. cbn.
  repeat split. by apply elem_of_elements, list_elem_of_In.
Qed.

Lemma resolve_rows_keys V w l : l ∈ found_lemmas V w -> (w, l) ∈ map row_key (resolve_rows V w).
Proof.
  intros Hl. unfold resolve_rows. rewrite map_map. apply list_elem_of_In, in_map_iff.
  exists l. split; [done|]. by apply list_elem_of_In, elem_of_elements.
Qed.

Lemma generate_comprehensive_lemmatization_rows ws V t r :
  r ∈ generate_comprehensive_lemmatization ws V t ->
  r ∈ t \/ exists w, w ∈ ws /\ r ∈ resolve_rows V w.
Proof.
  unfold generate_comprehensive_lemmatization. revert t.
  induction ws as [|w ws IH]; intros t; simpl; [auto|].
  intros [[Hr|Hr]%insert_all_rows|(w' & Hw' & Hr)]%IH; [by left|right ..].
  - exists w. split; [by left|done].
  - exists w'. split; [by right|done].
Qed.

Lemma generate_comprehensive_lemmatization_keys ws V t k :
  k ∈ map row_key t -> k ∈ map row_key (generate_comprehensive_lemmatization ws V t).
Proof.
  unfold generate_comprehensive_lemmatization. revert t.
  induction ws as [|w ws IH]; intros t Hk; simpl; [done|]. apply IH, insert_all_keys. by left.
Qed.

Lemma generate_comprehensive_lemmatization_pk ws V t :
  pk_ok t -> pk_ok (generate_comprehensive_lemmatization ws V t).
Proof.
  unfold generate_comprehensive_lemmatization. revert t.
  induction ws as [|w ws IH]; intros t Hpk; simpl; [done|]. by apply IH, insert_all_pk.
Qed.

(** C8: The loop over the words (lines 2282-2424) keeps the primary key,
    adds only resolver rows (for a word of the loop, a lemma the rules
    found, the policy's confidence, the source ['algorithmic']), and leaves
    a row for every lemma the rules find for every word. *)
Theorem generate_comprehensive_lemmatization_spec ws V t :
  pk_ok t ->
  pk_ok (generate_comprehensive_lemmatization ws V t) /\
  (forall r, r ∈ generate_comprehensive_lemmatization ws V t ->
    r ∈ t \/
    (word_form r ∈ ws /\ word_normalized r = word_form r /\
     lemma r ∈ found_lemmas V (word_form r) /\
     confidence r = Some (confidence_of (word_form r) (lemma r)) /\
     source r = Some "algorithmic"%string /\ morph_info r = None)) /\
  (forall w l, w ∈ ws -> l ∈ found_lemmas V w ->
    (w, l) ∈ map row_key (generate_comprehensive_lemmatization ws V t)).
Proof.
  intros Hpk. split; [by apply generate_comprehensive_lemmatization_pk|]. split.
  - intros r [|(w & Hw & (<- & Hr)%resolve_rows_elem)]%generate_comprehensive_lemmatization_rows;
      [by left|by right].
  - unfold generate_comprehensive_lemmatization. clear Hpk. revert t.
    induction ws as [|w ws IH]; intros t w' l Hw Hl; [by apply elem_of_nil in Hw|].
    simpl. apply elem_of_cons in Hw as [->|Hw].
    + apply generate_comprehensive_lemmatization_keys, insert_all_keys.
      right. by apply resolve_rows_keys.
    + by apply IH.
Qed.

(** ** Scenarios *)

(** Scenario 2 of the spec, resolver side: [λογου] resolves to
    [λογοσ] by stripping [-ου], but with confidence 0.5, not 0.6: the
    policy gives 0.6 only to a lemma shorter than the word. *)
Example resolve_logou :
  resolve_rows (list_to_set [γ"λογοσ"]) γ"λογου" =
  [Row γ"λογου" γ"λογου" γ"λογοσ" (Some (1 # 2)) (Some "algorithmic"%string) None].
Proof. vm_compute. reflexivity. Qed.

(** Scenario 4 of the spec: a form none of whose candidates is a
    headword resolves to the empty set, not to an error. *)
Theorem resolve_nonexistent valid_lemmas :
  γ"ξψζ" ∉ valid_lemmas -> (forall d, d ∈ dict_endings -> γ"ξψζ" ++ d ∉ valid_lemmas) ->
  found_lemmas valid_lemmas γ"ξψζ" = ∅.
Proof.
  intros Hw Hd.
  assert (found_lemmas valid_lemmas γ"ξψζ" =
          add_all_valid valid_lemmas (map (fun d => γ"ξψζ" ++ d) dict_endings)
            (add_if_valid valid_lemmas γ"ξψζ" ∅)) as -> by reflexivity.
  apply set_eq. intros x. rewrite add_all_valid_spec, add_if_valid_spec. split; [|set_solver].
  intros [[(d & <- & Hin)%list_elem_of_In%in_map_iff Hv] | [[-> Hv] | Hx]];
    exfalso; [apply (Hd d); [by apply list_elem_of_In|done] | by apply Hw | set_solver].
Qed.

(** The round trip of spec section 8 (a synthesised form resolves
    back to its headword) fails: the noun endings are written with a final
    sigma, the class of line 522 admits it, and the resolver's endings are
    written with [σ], so [λογοσοις] is generated for [λόγος] and resolves
    to nothing. *)
Example synthesize_resolve_roundtrip_fails :
  γ"λογοσοις" ∈ generate_all_forms γ"λόγος" None /\
  found_lemmas {[ γ"λογοσ" ]} γ"λογοσοις" = ∅.
Proof.
  split; [apply gset_elem_compute; vm_compute; reflexivity|].
  vm_compute. reflexivity.
Qed.

Definition sample_headwords : gset pystr :=
  list_to_set [γ"λογοσ"; γ"ατρευσ"; γ"τιθημι"; γ"εθνοσ"; γ"μαλα"].

Lemma found_lemmas_sound_witness :
  γ"λογοσ" ∈ found_lemmas sample_headwords γ"λογου" /\ γ"λογοσ" ∈ sample_headwords.
Proof.
  assert (H : γ"λογοσ" ∈ found_lemmas sample_headwords γ"λογου")
    by (apply gset_elem_compute; vm_compute; reflexivity).
  exact (conj H (found_lemmas_sound sample_headwords γ"λογου" γ"λογοσ" H)).
Defined.

Lemma found_lemmas_exact_witness :
  γ"εθνοσ" ∈ found_lemmas sample_headwords γ"εθνοσ" /\ confidence_of γ"εθνοσ" γ"εθνοσ" = 9 # 10.
Proof.
  apply (found_lemmas_exact sample_headwords γ"εθνοσ").
  apply gset_elem_compute; vm_compute; reflexivity.
Defined.

Lemma resolve_roundtrip_witness :
  γ"λογοσ" ∈ found_lemmas sample_headwords (γ"λογ" ++ γ"ων") /\
  (1 # 2 <= confidence_of (γ"λογ" ++ γ"ων") γ"λογοσ")%Q.
Proof.
  apply (resolve_roundtrip sample_headwords γ"λογ" γ"ων" γ"λογοσ").
  - by left.
  - simpl; lia.
  - right. exists γ"οσ". split; [by left|reflexivity].
  - apply gset_elem_compute; vm_compute; reflexivity.
Defined.

Lemma tithemi_for_every_eth_witness : γ"τιθημι" ∈ found_lemmas sample_headwords γ"εθνοσ".
Proof.
  apply tithemi_for_every_eth.
  - reflexivity.
  - simpl; lia.
  - apply gset_elem_compute; vm_compute; reflexivity.
Defined.

Lemma patronymic_eidis_witness :
  γ"ατρ" ++ γ"ευσ" ∈ found_lemmas sample_headwords (γ"ατρ" ++ γ"ειδησ") /\
  confidence_of (γ"ατρ" ++ γ"ειδησ") (γ"ατρ" ++ γ"ευσ") = 3 # 4.
Proof.
  apply patronymic_eidis.
  - simpl; lia.
  - apply gset_elem_compute; vm_compute; reflexivity.
Defined.

Lemma resolve_nonexistent_witness : found_lemmas sample_headwords γ"ξψζ" = ∅.
Proof.
  apply resolve_nonexistent.
  - apply gset_not_elem_compute; vm_compute; reflexivity.
  - intros d Hd. apply gset_not_elem_compute.
    repeat (apply elem_of_cons in Hd as [-> | Hd]; [vm_compute; reflexivity|]).
    by apply elem_of_nil in Hd.
Defined.

Lemma generate_comprehensive_lemmatization_spec_witness :
  pk_ok [] /\
  pk_ok (generate_comprehensive_lemmatization [γ"λογοσ"; γ"εθνοσ"] sample_headwords []) /\
  (forall r, r ∈ generate_comprehensive_lemmatization [γ"λογοσ"; γ"εθνοσ"] sample_headwords [] ->
    r ∈ [] \/
    (word_form r ∈ [γ"λογοσ"; γ"εθνοσ"] /\ word_normalized r = word_form r /\
     lemma r ∈ found_lemmas sample_headwords (word_form r) /\
     confidence r = Some (confidence_of (word_form r) (lemma r)) /\
     source r = Some "algorithmic"%string /\ morph_info r = None)) /\
  (forall w l, w ∈ [γ"λογοσ"; γ"εθνοσ"] -> l ∈ found_lemmas sample_headwords w ->
    (w, l) ∈ map row_key (generate_comprehensive_lemmatization [γ"λογοσ"; γ"εθνοσ"] sample_headwords [])).
Proof.
  assert (pk_ok []) as Hpk by constructor.
  split; [exact Hpk|]. exact (generate_comprehensive_lemmatization_spec _ _ [] Hpk).
Defined.
