(* ===== verification/Pipeline.v ===== *)
(** * The index builder: [create_database] and its loaders

    The lemmatisation part of [create_database]
    (create_perseus_database.py:2726-2830): the LSJ entries are inserted
    into [dictionary_entries] and the synthesiser's rows into [lemma_map],
    then [load_wiktionary_mappings] (lines 2114-2228) loads the four
    Wiktionary files in a fixed order, [generate_comprehensive_lemmatization]
    resolves every headword, and [optimize_lemma_map] (lines 2438-2471)
    deletes the rows whose lemma has no Greek dictionary entry.

    A Wiktionary file is modelled after [json.load]: missing, unreadable,
    or a list of mapping objects; each field of a mapping is absent, [null]
    or a value, because the code treats the three differently (an absent
    ['lemma'] aborts the rest of the file, an absent ['word_form'] is a
    caught [KeyError], a [null] ['word_form'] is skipped by [OR IGNORE] as a
    NOT NULL violation, a [null] ['confidence'] is stored as [NULL]). *)

From S2P Require Import Prelude Unicode Normalize LemmaMap Paradigm Resolver.
From stdpp Require Import sorting.

(** A field of a JSON object. *)
Inductive jval (A : Type) :=
  | JAbsent
  | JNull
  | JVal (a : A).
Arguments JAbsent {A}.
Arguments JNull {A}.
Arguments JVal {A} a.

Record json_mapping := JsonMapping {
  jm_word_form : jval pystr;
  jm_lemma : jval pystr;
  jm_confidence : jval Q;
  jm_source : jval String.string;
  jm_morph_info : jval String.string;
  jm_morph_type : jval String.string
}.

(** What [json.load] and [data.get('mappings', [])] give for one file. *)
Inductive mapping_file :=
  | FileMissing
  | FileUnreadable
  | FileLoaded (mappings : list json_mapping).

(** [mapping.get(k)] *)
Definition jget {A} (v : jval A) : option A :=
  match v with JVal a => Some a | _ => None end.

(** [mapping.get('morph_info') or mapping.get('morph_type')]: an empty
    string is false in Python. *)
Definition morph_of (m : json_mapping) : option String.string :=
  match jm_morph_info m with
  | JVal s => if String.eqb s "" then jget (jm_morph_type m) else Some s
  | _ => jget (jm_morph_type m)
  end.

(** The outcome of one mapping, lines 2165-2197. *)
Inductive mapping_outcome :=
  | Inserted          (** [cursor.rowcount > 0] *)
  | Duplicate         (** ignored by [OR IGNORE] *)
  | NoLemma           (** lemma not a headword, or [null] *)
  | Failed            (** [KeyError] caught by the inner [except] *)
  | Aborted.          (** [KeyError] on ['lemma']: the file is abandoned *)

(** One mapping: the validation of line 2167, then the [INSERT OR IGNORE]
    of lines 2173-2184. *)
Definition load_one (valid_lemmas : gset pystr) (m : json_mapping) (t : table)
    : mapping_outcome * table :=
  match jm_lemma m with
  | JAbsent => (Aborted, t)
  | JNull => (NoLemma, t)
  | JVal l =>
      if bool_decide (l ∈ valid_lemmas) then
        match jm_word_form m, jm_confidence m, jm_source m with
        | JAbsent, _, _ | _, JAbsent, _ | _, _, JAbsent => (Failed, t)
        | JNull, _, _ => (Duplicate, t)
        | JVal w, c, s =>
            let '(t', added) := insert_or_ignore (Row w w l (jget c) (jget s) (morph_of m)) t in
            (if added then Inserted else Duplicate, t')
        end
      else (NoLemma, t)
  end.

(** The counters of lines 2161-2163, and the warnings. *)
Record load_counts := LoadCounts {
  inserted : nat;
  skipped_duplicate : nat;
  skipped_no_lemma : nat;
  failed : nat
}.

Definition count (o : mapping_outcome) (c : load_counts) : load_counts :=
  match o with
  | Inserted => LoadCounts (S (inserted c)) (skipped_duplicate c) (skipped_no_lemma c) (failed c)
  | Duplicate => LoadCounts (inserted c) (S (skipped_duplicate c)) (skipped_no_lemma c) (failed c)
  | NoLemma => LoadCounts (inserted c) (skipped_duplicate c) (S (skipped_no_lemma c)) (failed c)
  | Failed => LoadCounts (inserted c) (skipped_duplicate c) (skipped_no_lemma c) (S (failed c))
  | Aborted => c
  end.

(** The loop of lines 2166-2197; [true] when the file was abandoned. *)
Fixpoint load_mappings (valid_lemmas : gset pystr) (ms : list json_mapping) (t : table)
    (c : load_counts) : table * load_counts * bool :=
  match ms with
  | [] => (t, c, false)
  | m :: ms' =>
      let '(o, t') := load_one valid_lemmas m t in
      match o with
      | Aborted => (t', c, true)
      | _ => load_mappings valid_lemmas ms' t' (count o c)
      end
  end.

(** The state carried across files: the table, [total_loaded] and
    [valid_lemmas] (lines 2127-2128). *)
Record load_state := LoadState {
  ls_table : table;
  ls_total_loaded : nat;
  ls_valid : gset pystr
}.

(** One file, lines 2130-2208: [valid_lemmas] is queried while nothing
    has been loaded; [total_loaded] grows only when the file is read to the
    end. *)
Definition load_file (dictionary : list dict_entry) (st : load_state) (f : mapping_file)
    : load_state :=
  match f with
  | FileMissing | FileUnreadable | FileLoaded [] => st
  | FileLoaded ms =>
      let valid :=
        if (ls_total_loaded st =? 0)%nat then greek_headwords dictionary else ls_valid st in
      let '(t, c, aborted) := load_mappings valid ms (ls_table st) (LoadCounts 0 0 0 0) in
      LoadState t (if aborted then ls_total_loaded st else ls_total_loaded st + inserted c) valid
  end.

(** [load_wiktionary_mappings], lines 2114-2228, over the files in the
    order of lines 2119-2124. *)
Definition load_wiktionary_mappings (dictionary : list dict_entry) (files : list mapping_file)
    (t : table) : table :=
  ls_table (fold_left (load_file dictionary) files (LoadState t 0 ∅)).

(** [optimize_lemma_map], lines 2438-2471: the [DELETE] of line 2445. *)
Definition optimize_lemma_map (dictionary : list dict_entry) (t : table) : table * nat :=
  delete_where (fun r => negb (bool_decide (lemma r ∈ greek_headwords dictionary))) t.

(** Lines 2237-2243: the distinct Greek headwords, sorted. *)
Definition all_headwords (dictionary : list dict_entry) : list pystr :=
  merge_sort pystr_le (elements (greek_headwords dictionary)).

(** What the build can stop on. *)
Inductive build_error :=
  | NoSuchTable (name : String.string).

(** The lemmatisation part of [create_database], lines 2726-2830.  [lsj]
    is [None] when the LSJ file is missing: then neither
    [dictionary_entries] nor [lemma_map] is created, every Wiktionary file
    fails on its first query, and the uncaught [OperationalError] of
    line 2237 stops the build. *)
Definition create_lemma_index `{UnicodeDB} (lsj : option (list dict_entry))
    (files : list mapping_file) : build_error + (list dict_entry * table) :=
  match lsj with
  | None => inl (NoSuchTable "dictionary_entries")
  | Some lsj_entries =>
      let dictionary := lsj_entries in
      let t := insert_all (create_lemma_mappings lsj_entries) [] in
      let t := load_wiktionary_mappings dictionary files t in
      let t := generate_comprehensive_lemmatization (all_headwords dictionary)
                 (greek_headwords dictionary) t in
      inr (dictionary, fst (optimize_lemma_map dictionary t))
  end.

(** ** The Wiktionary loader *)

(** The rows a loader may add: a mapping's row, with a headword lemma. *)
Definition json_row_of (valid_lemmas : gset pystr) (ms : list json_mapping) (r : row) : Prop :=
  lemma r ∈ valid_lemmas /\
  exists m, m ∈ ms /\ confidence r = jget (jm_confidence m) /\
    jm_confidence m <> JAbsent /\
    jm_lemma m = JVal (lemma r) /\ jm_word_form m = JVal (word_form r).

Lemma insert_or_ignore_rows r0 t r : r ∈ fst (insert_or_ignore r0 t) -> r ∈ t \/ r = r0.
Proof.
  unfold insert_or_ignore. destruct (key_in (row_key r0) t); simpl; [auto|].
  intros [| ->%list_elem_of_singleton]%elem_of_app; auto.
Qed.

Lemma load_one_cases V m t :
  snd (load_one V m t) = t \/
  exists r0, snd (load_one V m t) = fst (insert_or_ignore r0 t) /\ json_row_of V [m] r0.
Proof.
  unfold load_one. destruct (jm_lemma m) as [| |l] eqn:El; [by left ..|].
  case_bool_decide as Hv; [|by left].
  destruct (jm_word_form m) as [| |w] eqn:Ew; [by left|..];
    destruct (jm_confidence m) as [| |c] eqn:Ec; try (by left);
    destruct (jm_source m) as [| |s] eqn:Es; try (by left).
  all: right; match goal with |- context [insert_or_ignore ?R ?T] =>
    exists R; split; [destruct (insert_or_ignore R T); reflexivity|] end.
  all: split; [done|]; exists m; split; [by left|]; simpl; rewrite ?Ec;
    repeat split; auto; discriminate.
Qed.

Lemma load_one_spec V m t o t' :
  load_one V m t = (o, t') ->
  pk_ok t -> pk_ok t' /\ forall r, r ∈ t' -> r ∈ t \/ json_row_of V [m] r.
Proof.
  intros Hl Hpk. destruct (load_one_cases V m t) as [Ht | (r0 & Ht & Hr0)];
    rewrite Hl in Ht; simpl in Ht; subst t'.
  - auto.
  - split; [by apply insert_or_ignore_pk|]. intros r [| ->]%insert_or_ignore_rows; auto.
Qed.

Lemma load_mappings_spec V ms t c t' c' ab :
  load_mappings V ms t c = (t', c', ab) ->
  pk_ok t -> pk_ok t' /\ forall r, r ∈ t' -> r ∈ t \/ json_row_of V ms r.
Proof.
  revert t c; induction ms as [|m ms IH]; intros t c Hl Hpk; simpl in Hl.
  - injection Hl as <- _ _. auto.
  - destruct (load_one V m t) as [o t1] eqn:E1.
    destruct (load_one_spec V m t o t1 E1 Hpk) as [Hpk1 Hr1].
    assert (forall r, json_row_of V [m] r -> json_row_of V (m :: ms) r)
      as Hw by (intros r (? & m' & Hm' & ?); split; [done|]; exists m'; set_solver).
    assert (forall r, json_row_of V ms r -> json_row_of V (m :: ms) r)
      as Hw' by (intros r (? & m' & Hm' & ?); split; [done|]; exists m'; set_solver).
    destruct o; try (injection Hl as <- _ _; split; [done|]; intros r [|]%Hr1; auto; fail).
    all: destruct (IH _ _ Hl Hpk1) as [Hpk' Hr']; split; [done|].
    all: intros r [[|]%Hr1|]%Hr'; auto.
Qed.

(** The invariant of the loader's state: [valid_lemmas] is the set of
    headwords as soon as it is used. *)
Definition load_state_ok (dictionary : list dict_entry) (st : load_state) : Prop :=
  ls_total_loaded st = 0%nat \/ ls_valid st = greek_headwords dictionary.

Definition loaded_row (dictionary : list dict_entry) (files : list mapping_file) (r : row) : Prop :=
  exists ms, FileLoaded ms ∈ files /\ json_row_of (greek_headwords dictionary) ms r.

Lemma load_file_spec dictionary files st f :
  load_state_ok dictionary st -> pk_ok (ls_table st) ->
  f ∈ files ->
  load_state_ok dictionary (load_file dictionary st f) /\
  pk_ok (ls_table (load_file dictionary st f)) /\
  forall r, r ∈ ls_table (load_file dictionary st f) ->
    r ∈ ls_table st \/ loaded_row dictionary files r.
Proof.
  intros Hok Hpk Hf. destruct f as [| |[|m ms]]; cbn [load_file]; [auto ..|].
  set (valid := if (ls_total_loaded st =? 0)%nat then greek_headwords dictionary else ls_valid st).
  assert (valid = greek_headwords dictionary) as Hv.
  { unfold valid. destruct (Nat.eqb_spec (ls_total_loaded st) 0); [done|].
    destruct Hok; [lia|done]. }
  destruct (load_mappings valid (m :: ms) (ls_table st) (LoadCounts 0 0 0 0))
    as [[t c] ab] eqn:El.
  destruct (load_mappings_spec _ _ _ _ _ _ _ El Hpk) as [Hpk' Hr]. cbn [ls_table ls_valid ls_total_loaded].
  split; [by right|]. split; [done|].
  intros r [|Hj]%Hr; [by left|right]. exists (m :: ms). split; [done|]. by rewrite <- Hv.
Qed.

Lemma load_files_spec dictionary files fs st :
  fs ⊆ files -> load_state_ok dictionary st -> pk_ok (ls_table st) ->
  pk_ok (ls_table (fold_left (load_file dictionary) fs st)) /\
  forall r, r ∈ ls_table (fold_left (load_file dictionary) fs st) ->
    r ∈ ls_table st \/ loaded_row dictionary files r.
Proof.
  revert st. induction fs as [|f fs IH]; intros st Hsub Hok Hpk0; simpl; [split; auto|].
  destruct (load_file_spec dictionary files st f Hok Hpk0) as (Hok1 & Hpk1 & Hr1);
    [set_solver|].
  destruct (IH (load_file dictionary st f)) as [Hpk2 Hr2]; [set_solver|done|done|].
  split; [done|]. intros r [[|]%Hr1|]%Hr2; auto.
Qed.

(** C9: The Wiktionary loader keeps the primary key, and every row it
    adds carries a dictionary headword as its lemma and the confidence of
    a mapping of one of the files: the headword set it validates against
    is the dictionary's whenever it is used, although the code queries it
    only while [total_loaded] is 0 (line 2154). *)
Theorem load_wiktionary_mappings_spec dictionary files t :
  pk_ok t ->
  pk_ok (load_wiktionary_mappings dictionary files t) /\
  forall r, r ∈ load_wiktionary_mappings dictionary files t -> r ∈ t \/ loaded_row dictionary files r.
Proof. intros Hpk. apply load_files_spec; [done|by left|done]. Qed.

(** ** Counters *)

Definition total (c : load_counts) : nat :=
  inserted c + skipped_duplicate c + skipped_no_lemma c + failed c.

Lemma load_one_length V m t :
  length (snd (load_one V m t)) =
  length t + (if fst (load_one V m t) is Inserted then 1 else 0)%nat.
Proof.
  unfold load_one. destruct (jm_lemma m); simpl; [lia ..|].
  case_bool_decide; [|simpl; lia].
  destruct (jm_word_form m), (jm_confidence m), (jm_source m); simpl; try lia.
  all: unfold insert_or_ignore; destruct key_in; simpl; rewrite ?length_app; simpl; lia.
Qed.

Lemma count_total o c : o <> Aborted -> total (count o c) = S (total c).
Proof. unfold total; destruct o; simpl; lia || done. Qed.

Lemma count_inserted o c : inserted (count o c) = (inserted c + if o is Inserted then 1 else 0)%nat.
Proof. destruct o; simpl; lia. Qed.

(** The loader's counters are exact: the number of rows a file adds
    is the [inserted] counter (which [total_loaded] accumulates), and when
    the file is read to the end the four counters add up to the number of
    its mappings. *)
Theorem load_mappings_counts V ms t c :
  let '(t', c', aborted) := load_mappings V ms t c in
  (length t' + inserted c = length t + inserted c')%nat /\
  (aborted = false -> total c' = (total c + length ms)%nat).
Proof.
  revert t c; induction ms as [|m ms IH]; intros t c; simpl; [split; lia|].
  pose proof (load_one_length V m t) as Hl.
  destruct (load_one V m t) as [o t1]; simpl in Hl.
  destruct o; [..|split; [lia|discriminate]].
  all: lazymatch goal with |- context [load_mappings ?A ?B ?T ?C] =>
    specialize (IH T C); destruct (load_mappings A B T C) as [[t' c'] ab] end.
  all: rewrite count_inserted in IH; rewrite count_total in IH by discriminate.
  all: destruct IH as [IH1 IH2]; split; [lia|intros Hab; rewrite (IH2 Hab); lia].
Qed.

(** ** Files whose mappings all carry the keys the loader reads *)

(** A mapping with [word_form], [confidence] and [source] present and a
    non-null [lemma]: the loader neither abandons the file on it nor
    counts it as failed. *)
Definition jm_complete (m : json_mapping) : Prop :=
  (exists l, jm_lemma m = JVal l) /\
  jm_word_form m <> JAbsent /\ jm_confidence m <> JAbsent /\ jm_source m <> JAbsent.

Lemma load_one_complete V m t :
  jm_complete m -> fst (load_one V m t) <> Aborted /\ fst (load_one V m t) <> Failed.
Proof.
  intros ([l Hl] & Hw & Hc & Hs). unfold load_one. rewrite Hl. case_bool_decide; [|done].
  destruct (jm_word_form m), (jm_confidence m), (jm_source m); try congruence; try done.
  all: by destruct (insert_or_ignore _ _) as [t' []].
Qed.

Lemma load_mappings_complete V ms t c :
  Forall jm_complete ms ->
  let '(t', c', aborted) := load_mappings V ms t c in aborted = false /\ failed c' = failed c.
Proof.
  intros Hms. revert t c; induction Hms as [|m ms Hm Hms IH]; intros t c; simpl; [done|].
  destruct (load_one_complete V m t Hm) as [Ha Hf].
  destruct (load_one V m t) as [o t1]; simpl in Ha, Hf.
  destruct o; try contradiction.
  all: lazymatch goal with |- context [load_mappings ?A ?B ?T ?C] =>
    specialize (IH T C); destruct (load_mappings A B T C) as [[t' c'] ab] end.
  all: destruct IH as [? Hc']; split; [done|by rewrite Hc'].
Qed.

(** A mapping of a file the loader added as a row, with its fields. *)
Lemma load_mappings_row V ms t c t' c' ab r :
  load_mappings V ms t c = (t', c', ab) -> pk_ok t -> r ∈ t' ->
  r ∈ t \/ (lemma r ∈ V /\ exists m, m ∈ ms /\ confidence r = jget (jm_confidence m) /\
              jm_lemma m = JVal (lemma r) /\ jm_word_form m = JVal (word_form r)).
Proof.
  intros El Hpk Hr. destruct (load_mappings_spec _ _ _ _ _ _ _ El Hpk) as [_ HR].
  destruct (HR r Hr) as [|(Hv & m & Hm & Hc & _ & Hl & Hw)]; [by left|right].
  split; [done|]. exists m. auto.
Qed.

(** ** The index *)

Lemma optimize_lemma_map_spec d t r :
  r ∈ fst (optimize_lemma_map d t) <-> r ∈ t /\ lemma r ∈ greek_headwords d.
Proof.
  unfold optimize_lemma_map, delete_where; simpl.
  rewrite !list_elem_of_In, filter_In, negb_involutive. by rewrite bool_decide_eq_true.
Qed.

Lemma all_headwords_elem d w : w ∈ all_headwords d <-> w ∈ greek_headwords d.
Proof. unfold all_headwords. by rewrite merge_sort_Permutation, elem_of_elements. Qed.

(** Where a row of the index comes from. *)
Definition algorithmic_row (dictionary : list dict_entry) (r : row) : Prop :=
  word_form r ∈ greek_headwords dictionary /\
  lemma r ∈ found_lemmas (greek_headwords dictionary) (word_form r) /\
  confidence r = Some (confidence_of (word_form r) (lemma r)) /\
  source r = Some "algorithmic"%string.

Section Index.
Context `{UnicodeDB}.

Lemma create_lemma_index_some lsj files :
  create_lemma_index (Some lsj) files =
  inr (lsj, fst (optimize_lemma_map lsj
    (generate_comprehensive_lemmatization (all_headwords lsj) (greek_headwords lsj)
      (load_wiktionary_mappings lsj files (insert_all (create_lemma_mappings lsj) []))))).
Proof. reflexivity. Qed.

Lemma lemma_index_spec lsj files :
  let t := fst (optimize_lemma_map lsj
    (generate_comprehensive_lemmatization (all_headwords lsj) (greek_headwords lsj)
      (load_wiktionary_mappings lsj files (insert_all (create_lemma_mappings lsj) [])))) in
  pk_ok t /\
  forall r, r ∈ t -> lemma r ∈ greek_headwords lsj /\
    (r ∈ create_lemma_mappings lsj \/ loaded_row lsj files r \/ algorithmic_row lsj r).
Proof.
  assert (pk_ok (insert_all (create_lemma_mappings lsj) [])) as Hpk0
    by (apply insert_all_pk; constructor).
  destruct (load_files_spec lsj files files
    (LoadState (insert_all (create_lemma_mappings lsj) []) 0 ∅)) as [Hpk1 Hr1];
    [done|by left|done|].
  fold (load_wiktionary_mappings lsj files (insert_all (create_lemma_mappings lsj) []))
    in Hpk1, Hr1.
  split; [by apply delete_where_pk, generate_comprehensive_lemmatization_pk|].
  intros r [Hr Hl]%optimize_lemma_map_spec. split; [done|].
  apply generate_comprehensive_lemmatization_rows in Hr
    as [[[Hg|Hg]%insert_all_rows|]%Hr1|(w & Hw & Hr)].
  - by apply elem_of_nil in Hg.
  - by left.
  - by right; left.
  - apply resolve_rows_elem in Hr as (<- & _ & Hf & Hc & Hs & _).
    right; right. repeat split; [by apply all_headwords_elem|done..].
Qed.

(** C1: With the LSJ file present the build succeeds, and its
    [lemma_map] keeps the primary key, holds only rows whose lemma is a
    Greek headword (referential integrity, spec section 8), and every row
    is a synthesised one, a row of a Wiktionary mapping, or a resolver
    row for a headword. *)
Theorem create_lemma_index_sound lsj files :
  exists t, create_lemma_index (Some lsj) files = inr (lsj, t) /\ pk_ok t /\
  forall r, r ∈ t -> lemma r ∈ greek_headwords lsj /\
    (r ∈ create_lemma_mappings lsj \/ loaded_row lsj files r \/ algorithmic_row lsj r).
Proof.
  rewrite create_lemma_index_some. eexists; split; [reflexivity|]. apply lemma_index_spec.
Qed.

Lemma create_lemma_mappings_row lsj r :
  r ∈ create_lemma_mappings lsj ->
  confidence r = Some (4 # 5) /\ source r = Some "generated"%string.
Proof.
  unfold create_lemma_mappings.
  intros Hr. apply list_elem_of_In, in_concat in Hr as (l & Hl & Hx).
  apply in_map_iff in Hl as (e & <- & _). by apply in_map_iff in Hx as (f & <- & _).
Qed.

(** The confidences a set of Wiktionary files carries: a mapping with a
    [null] confidence would be stored as [NULL]. *)
Definition feed_confidence_ok (files : list mapping_file) : Prop :=
  forall ms m, FileLoaded ms ∈ files -> m ∈ ms ->
    match jm_confidence m with
    | JAbsent => True
    | JNull => False
    | JVal q => (0 <= q <= 1)%Q
    end.

(** C10: Confidence bounds (spec section 8): when every Wiktionary mapping
    carries a confidence in [0, 1], every row of the index has a
    confidence in [0, 1]. *)
Theorem create_lemma_index_confidence lsj files :
  feed_confidence_ok files ->
  exists t, create_lemma_index (Some lsj) files = inr (lsj, t) /\
  forall r, r ∈ t -> exists q, confidence r = Some q /\ (0 <= q <= 1)%Q.
Proof.
  intros Hf. rewrite create_lemma_index_some. eexists; split; [reflexivity|].
  destruct (lemma_index_spec lsj files) as [_ Hr]. intros r (_ & [Hg|[Hl|Ha]])%Hr.
  - destruct (create_lemma_mappings_row lsj r Hg) as [-> _].
    eexists; split; [done|]. split; vm_compute; congruence.
  - destruct Hl as (ms & Hms & _ & m & Hm & -> & Hna & _).
    specialize (Hf ms m Hms Hm). destruct (jm_confidence m); [done..|eauto].
  - destruct Ha as (_ & _ & -> & _). eexists; split; [done|].
    destruct (confidence_of_bounds (word_form r) (lemma r)) as [Hlo Hhi].
    split; [|done]. apply (Qle_trans _ (1 # 2)); [by vm_compute|done].
Qed.

(** An LSJ file with no entry builds an empty index silently: every
    Wiktionary mapping and every resolver row is discarded (spec section 7
    expects the build to refuse an empty dictionary). *)
Theorem create_lemma_index_empty_dictionary files :
  create_lemma_index (Some []) files = inr ([], []).
Proof.
  rewrite create_lemma_index_some. destruct (lemma_index_spec [] files) as [_ Hr].
  do 3 f_equal. revert Hr. cbv zeta. destruct (fst _) as [|r t]; [done|]. intros Hr.
  destruct (Hr r (list_elem_of_here _ _)) as [Hl _]. by apply elem_of_empty in Hl.
Qed.
End Index.

(** ** Scenarios *)

Definition feed_mapping (w l : pystr) (c : Q) (src : String.string) : json_mapping :=
  JsonMapping (JVal w) (JVal l) (JVal c) (JVal src) JAbsent JAbsent.

Definition mala_lsj : list dict_entry := [DictEntry γ"μάλα" γ"μαλα" "greek"].

Definition mala_feeds : list mapping_file :=
  [FileLoaded [feed_mapping γ"μαλιστα" γ"μαλα" (9 # 10) "wiktionary_adverbs"];
   FileLoaded [feed_mapping γ"μαλιστα" γ"μαλα" (1 # 2) "wiktionary_declensions"]].

(** Scenario 3 of the spec: two feeds propose (μαλιστα, μαλα) with
    confidences 0.9 and then 0.5; the index keeps the first. *)
Example mala_first_writer_wins :
  match create_lemma_index (Some mala_lsj) mala_feeds with
  | inr (_, t) => option_map confidence (find_key (γ"μαλιστα", γ"μαλα") t)
  | inl _ => None
  end = Some (Some (9 # 10)).
Proof. vm_compute. reflexivity. Qed.

Lemma create_lemma_index_confidence_witness :
  feed_confidence_ok mala_feeds /\
  exists t, create_lemma_index (Some mala_lsj) mala_feeds = inr (mala_lsj, t) /\
    forall r, r ∈ t -> exists q, confidence r = Some q /\ (0 <= q <= 1)%Q.
Proof.
  assert (feed_confidence_ok mala_feeds) as Hf.
  { intros ms m Hms Hm. unfold mala_feeds in Hms. rewrite !elem_of_cons, elem_of_nil in Hms.
    destruct Hms as [Hms|[Hms|[]]]; inversion Hms; subst;
      apply list_elem_of_singleton in Hm; subst; cbn; split; vm_compute; congruence. }
  split; [exact Hf|]. exact (create_lemma_index_confidence mala_lsj mala_feeds Hf).
Defined.

Lemma load_wiktionary_mappings_spec_witness :
  pk_ok [] /\
  pk_ok (load_wiktionary_mappings mala_lsj mala_feeds []) /\
  forall r, r ∈ load_wiktionary_mappings mala_lsj mala_feeds [] ->
    r ∈ [] \/ loaded_row mala_lsj mala_feeds r.
Proof.
  assert (pk_ok []) as Hpk by constructor.
  split; [exact Hpk|]. exact (load_wiktionary_mappings_spec mala_lsj mala_feeds [] Hpk).
Defined.
