(* ===== verification/PostPass.v ===== *)
(** * The post-passes on [lemma_map]

    Four scripts of [src/data-prep/] run on the built database and add
    rows to [lemma_map] with plain [INSERT] statements guarded by a
    [SELECT]:

    - add_nu_movable_variants.py adds the variant with or without a final
      nu of third-person verb forms;
    - add_adverb_mappings.py adds a fixed list of adverbs, pronouns,
      particles, elided prepositions and Roman names;
    - add_declension_mappings.py and add_inflection_mappings.py add the
      mappings of two Wiktionary JSON files.

    Each script commits only at the end, so a script that raises leaves
    the database as it was: a script is a function [table -> script_error
    + (table * counters)].  The SQL [LIKE] of the nu-movable queries is
    modelled as SQLite evaluates it (['%'], ['_'], ASCII case folding, a
    [NULL] operand never matching); [SELECT DISTINCT] keeps the first
    occurrence of each tuple; without [ORDER BY] the rows come in rowid
    order. *)

From S2P Require Import Prelude Unicode Normalize LemmaMap Paradigm Resolver Pipeline.

(** What stops a script: an uncaught [KeyError] on a JSON mapping, an
    [sqlite3.IntegrityError] (a primary-key or [NOT NULL] violation), or a
    [TypeError] (a [null] passed where a string is needed). *)
Inductive script_error :=
  | KeyError (key : String.string)
  | IntegrityError (e : sql_error)
  | NotNullViolation (column : String.string)
  | TypeError (what : String.string).

Definition sql_err {A} (r : sql_error + A) : script_error + A :=
  match r with inl e => inl (IntegrityError e) | inr a => inr a end.

(** ** SQL [LIKE] *)

(** SQLite folds the case of ASCII letters only. *)
Definition ascii_fold (c : Z) : Z := if (65 <=? c) && (c <=? 90) then c + 32 else c.

(** [s LIKE p] with no [ESCAPE]: ['%'] matches any run of characters,
    ['_'] exactly one. *)
Fixpoint sql_like (p s : pystr) {struct p} : bool :=
  match p with
  | [] => match s with [] => true | _ => false end
  | c :: p' =>
      if c =? 37 then
        (fix go (s : pystr) : bool :=
           sql_like p' s || match s with [] => false | _ :: s' => go s' end) s
      else if c =? 95 then
        match s with [] => false | _ :: s' => sql_like p' s' end
      else
        match s with [] => false | d :: s' => (ascii_fold c =? ascii_fold d) && sql_like p' s' end
  end.

(** A [TEXT] column that may be [NULL] in [LIKE] and [IN]. *)
Definition like_opt (x : option String.string) (p : pystr) : bool :=
  match x with Some v => sql_like p (utf8 v) | None => false end.

Definition in_sources (x : option String.string) (l : list String.string) : bool :=
  match x with Some v => existsb (String.eqb v) l | None => false end.

(** [SELECT COUNT( * ) FROM lemma_map WHERE word_form = ?] *)
Definition count_form (w : pystr) (t : table) : nat := length (rows_of_form w t).

(** [SELECT COUNT( * ) FROM lemma_map WHERE word_form = ? AND lemma = ?] *)
Definition count_key (k : pystr * pystr) (t : table) : nat :=
  length (List.filter (fun r => bool_decide (row_key r = k)) t).

(** ** add_nu_movable_variants.py *)

Definition nm_tuple : Type := pystr * pystr * option String.string * option String.string.

#[export] Instance nm_tuple_eq_dec : EqDecision nm_tuple.
Proof. unfold nm_tuple. apply _. Defined.

Definition nm_project (r : row) : nm_tuple := (word_form r, lemma r, morph_info r, source r).

(** [morph_info LIKE '%3%s%' OR morph_info LIKE '%3%p%' OR morph_info
    LIKE 'third%'] *)
Definition third_person (m : option String.string) : bool :=
  like_opt m γ"%3%s%" || like_opt m γ"%3%p%" || like_opt m γ"third%".

(** The query of lines 18-23. *)
Definition verb_forms_query (t : table) : list nm_tuple :=
  sql_distinct (map nm_project (List.filter (fun r =>
    in_sources (source r)
      ["algorithmic"; "enwiktionary:ancient-greek"; "wiktionary:inflection_of"]%string &&
    third_person (morph_info r)) t)).

Definition nu_variant_row (variant l : pystr) (conf : Q) (m : option String.string) : row :=
  Row variant variant l (Some conf) (Some "generated:nu-movable"%string) m.

(** Lines 37-44: the variant is inserted when no row has it as its form. *)
Definition add_variant (variant l : pystr) (conf : Q) (m : option String.string)
    (st : table * nat) : sql_error + (table * nat) :=
  let '(t, added) := st in
  if (count_form variant t =? 0)%nat then
    t' ←? insert (nu_variant_row variant l conf m) t ; inr (t', S added)
  else inr (t, added).

(** The body of the loop of lines 30-56. *)
Definition nu_movable_step (st : table * nat) (x : nm_tuple) : sql_error + (table * nat) :=
  let '(w, l, m, _) := x in
  if endswith w γ"ε" && negb (endswith w γ"εν") then add_variant (w ++ γ"ν") l (9 # 10) m st
  else if endswith w γ"εν" then add_variant (slice_neg w 1) l (9 # 10) m st
  else inr st.

(** The query of lines 60-66. *)
Definition epsilon_forms_query (t : table) : list nm_tuple :=
  sql_distinct (map nm_project (List.filter (fun r =>
    sql_like γ"%ε" (word_form r) && (3 <? length (word_form r))%nat &&
    in_sources (source r) ["algorithmic"; "enwiktionary:ancient-greek"]%string) t)).

(** [morph_info if morph_info else "3 s (nu-movable)"] *)
Definition default_morph (m : option String.string) : option String.string :=
  match m with
  | Some s => if String.eqb s "" then Some "3 s (nu-movable)"%string else Some s
  | None => Some "3 s (nu-movable)"%string
  end.

(** The body of the loop of lines 70-81. *)
Definition epsilon_step (st : table * nat) (x : nm_tuple) : sql_error + (table * nat) :=
  let '(w, l, m, _) := x in add_variant (w ++ γ"ν") l (4 # 5) (default_morph m) st.

(** [main], lines 12-83: the second query sees the rows the first loop
    added. *)
Definition add_nu_movable_variants (t : table) : script_error + (table * nat) :=
  sql_err (st ←? fold_err nu_movable_step (verb_forms_query t) (t, 0%nat) ;
           fold_err epsilon_step (epsilon_forms_query st.1) st).

(** ** add_adverb_mappings.py *)

(** Lines 25-35 *)
Definition adverb_mappings : list (pystr * pystr * String.string) :=
  [(γ"κακωσ", γ"κακοσ", "adverb");
   (γ"ορθωσ", γ"ορθοσ", "adverb");
   (γ"καλωσ", γ"καλοσ", "adverb");
   (γ"ευ", γ"ευσ", "adverb");
   (γ"σαφωσ", γ"σαφησ", "adverb");
   (γ"αληθωσ", γ"αληθησ", "adverb");
   (γ"ομοιωσ", γ"ομοιοσ", "adverb");
   (γ"ηττον", γ"ησσων", "adverb_comparative");
   (γ"μαλλον", γ"μαλα", "adverb_comparative")]%string.

(** Lines 38-43 *)
Definition superlative_mappings : list (pystr * pystr * String.string) :=
  [(γ"μαλιστα", γ"μαλα", "adverb_superlative");
   (γ"πρωτον", γ"πρωτοσ", "neuter_acc_sg");
   (γ"πρωτοσ", γ"πρωτοσ", "lemma");
   (γ"μεγιστον", γ"μεγασ", "superlative_neut_acc_sg")]%string.

(** Lines 46-61 *)
Definition pronoun_mappings : list (pystr * pystr * String.string) :=
  [(γ"ημιν", γ"εγω", "1p_dat_pl");
   (γ"ημασ", γ"εγω", "1p_acc_pl");
   (γ"ημεισ", γ"εγω", "1p_nom_pl");
   (γ"υμιν", γ"συ", "2p_dat_pl");
   (γ"υμασ", γ"συ", "2p_acc_pl");
   (γ"υμεισ", γ"συ", "2p_nom_pl");
   (γ"υμων", γ"συ", "2p_gen_pl");
   (γ"εμοι", γ"εγω", "1s_dat");
   (γ"εμε", γ"εγω", "1s_acc");
   (γ"μου", γ"εγω", "1s_gen");
   (γ"μοι", γ"εγω", "1s_dat");
   (γ"σου", γ"συ", "2s_gen");
   (γ"σοι", γ"συ", "2s_dat");
   (γ"σε", γ"συ", "2s_acc")]%string.

(** Lines 64-71 *)
Definition particle_mappings : list (pystr * pystr * String.string) :=
  [(γ"ουχ", γ"ου", "negative_rough");
   (γ"ουχι", γ"ου", "negative_emphatic");
   (γ"μη", γ"μη", "negative_subjunctive");
   (γ"μητ", γ"μη", "negative_elided");
   (γ"ουκ", γ"ου", "negative_smooth");
   (γ"ουδ", γ"ουδε", "conjunction_elided")]%string.

(** Lines 74-83 *)
Definition preposition_mappings : list (pystr * pystr * String.string) :=
  [(γ"υπ", γ"υπο", "preposition_elided");
   (γ"απ", γ"απο", "preposition_elided");
   (γ"εφ", γ"επι", "preposition_elided_rough");
   (γ"επ", γ"επι", "preposition_elided");
   (γ"εξ", γ"εκ", "preposition_prevocalic");
   (γ"εισ", γ"εισ", "preposition_acc");
   (γ"εκ", γ"εκ", "preposition_gen");
   (γ"προσ", γ"προσ", "preposition_acc")]%string.

(** Lines 86-97 *)
Definition particle_conj_mappings : list (pystr * pystr * String.string) :=
  [(γ"αυταρ", γ"αυταρ", "particle");
   (γ"μεντοι", γ"μεντοι", "particle");
   (γ"εγωγε", γ"εγω", "pronoun_emphatic");
   (γ"καθαπερ", γ"καθαπερ", "conjunction");
   (γ"επειδη", γ"επειδη", "conjunction");
   (γ"ωστ", γ"ωστε", "conjunction_elided");
   (γ"τοδ", γ"οδε", "demonstrative_neut_acc");
   (γ"ταδ", γ"οδε", "demonstrative_neut_acc_pl");
   (γ"τουτ", γ"ουτοσ", "demonstrative_neut_nom_acc");
   (γ"ταλλα", γ"αλλοσ", "pronoun_neut_acc_pl_crasis")]%string.

(** Lines 100-107 *)
Definition verb_mappings : list (pystr * pystr * String.string) :=
  [(γ"εχοντα", γ"εχω", "participle_pres_act_masc_acc_sg");
   (γ"εχοντεσ", γ"εχω", "participle_pres_act_masc_nom_pl");
   (γ"πραττειν", γ"πρασσω", "infinitive_pres_act");
   (γ"χαιρειν", γ"χαιρω", "infinitive_pres_act");
   (γ"φρονειν", γ"φρονεω", "infinitive_pres_act");
   (γ"γενομενησ", γ"γιγνομαι", "participle_aor_mid_fem_gen_sg")]%string.

(** Lines 131-138 *)
Definition roman_names : list (pystr * pystr * String.string) :=
  [(γ"ρωμαιων", γ"ρωμαιοσ", "proper_noun_gen_pl");
   (γ"καισαροσ", γ"καισαρ", "proper_noun_gen_sg");
   (γ"καισαρ", γ"καισαρ", "proper_noun_nom");
   (γ"πομπηιον", γ"πομπηιοσ", "proper_noun_acc_sg");
   (γ"πομπηιοσ", γ"πομπηιοσ", "proper_noun_nom");
   (γ"πομπηιου", γ"πομπηιοσ", "proper_noun_gen_sg")]%string.

(** Lines 110-112 *)
Definition all_mappings : list (pystr * pystr * String.string) :=
  adverb_mappings ++ superlative_mappings ++ pronoun_mappings ++ particle_mappings ++
  preposition_mappings ++ particle_conj_mappings ++ verb_mappings.

(** [SELECT 1 FROM lemma_map WHERE word_normalized = ? AND lemma = ?]:
    the guard tests [word_normalized], not the key column [word_form]. *)
Definition exists_normalized (w l : pystr) (t : table) : bool :=
  existsb (fun r => bool_decide (word_normalized r = w /\ lemma r = l)) t.

(** The body of the loops of lines 116-128 and 140-151. *)
Definition manual_step (src : String.string) (conf : Q) (st : table * nat)
    (x : pystr * pystr * String.string) : sql_error + (table * nat) :=
  let '(t, count) := st in
  let '(w, l, m) := x in
  if exists_normalized w l t then inr st
  else t' ←? insert (Row w w l (Some conf) (Some src) (Some m)) t ; inr (t', S count).

(** [add_morphological_mappings], lines 18-154; the dictionary check of
    lines 157-172 only prints. *)
Definition add_morphological_mappings (t : table) : script_error + (table * nat) :=
  sql_err (st ←? fold_err (manual_step "manual_common_forms" (1 # 1)) all_mappings (t, 0%nat) ;
           fold_err (manual_step "proper_nouns" (9 # 10)) roman_names st).

(** ** JSON fields read by the two Wiktionary post-passes *)

(** [mapping[k]]: [KeyError] on an absent key, [None] for [null]. *)
Definition jreq {A} (k : String.string) (v : jval A) : script_error + option A :=
  match v with JAbsent => inl (KeyError k) | JNull => inr None | JVal a => inr (Some a) end.

(** [mapping.get(k, d)] *)
Definition jget_or {A} (d : A) (v : jval A) : option A :=
  match v with JAbsent => Some d | JNull => None | JVal a => Some a end.

(** A plain [INSERT] whose [word_form] or [lemma] may be [NULL]: the [NOT
    NULL] constraints are checked in column order before the key. *)
Definition insert_nullable (w l : option pystr) (conf : option Q)
    (src morph : option String.string) (t : table) : script_error + table :=
  match w, l with
  | None, _ => inl (NotNullViolation "lemma_map.word_form")
  | _, None => inl (NotNullViolation "lemma_map.lemma")
  | Some w, Some l => sql_err (insert (Row w w l conf src morph) t)
  end.

(** [SELECT COUNT( * ) ... WHERE word_form = ? AND lemma = ?] with
    parameters that may be [NULL] ([= NULL] is never true). *)
Definition count_key_opt (w l : option pystr) (t : table) : nat :=
  match w, l with Some w, Some l => count_key (w, l) t | _, _ => 0%nat end.

(** ** add_declension_mappings.py *)

Record decl_mapping := DeclMapping {
  dm_word_form : jval pystr;
  dm_lemma : jval pystr;
  dm_case : jval String.string;
  dm_source : jval String.string;
  dm_confidence : jval Q
}.

(** The counters [added] and [skipped]. *)
Definition decl_state : Type := table * nat * nat.

(** The body of the loop of lines 36-71. *)
Definition decl_step (st : decl_state) (m : decl_mapping) : script_error + decl_state :=
  let '(t, added, skipped) := st in
  w ←? jreq "word_form" (dm_word_form m) ;
  l ←? jreq "lemma" (dm_lemma m) ;
  if (0 <? count_key_opt w l t)%nat then inr (t, added, S skipped)
  else
    t' ←? insert_nullable w l (jget_or (9 # 10) (dm_confidence m))
            (jget_or "elwiktionary:declension:unknown"%string (dm_source m))
            (jget_or ""%string (dm_case m)) t ;
    inr (t', S added, skipped).

(** [main], lines 10-74, over the list of mappings selected at lines
    19-23. *)
Definition add_declension_mappings (mappings_list : list decl_mapping) (t : table)
    : script_error + decl_state :=
  fold_err decl_step mappings_list (t, 0%nat, 0%nat).

(** ** add_inflection_mappings.py *)

Record infl_info := InflInfo {
  ii_lemma_normalized : jval pystr;
  ii_morphology : jval (list String.string)
}.

(** [';'.join(info['morphology'])] when the list is non-empty. *)
Definition morph_join (v : jval (list String.string)) : option String.string :=
  match v with JVal (m :: ms) => Some (String.concat ";" (m :: ms)) | _ => None end.

(** The body of the loop of lines 29-59; the omitted [confidence] column
    takes its default 1.0. *)
Definition infl_step (st : decl_state) (x : pystr * infl_info) : script_error + decl_state :=
  let '(t, added, skipped) := st in
  let '(w, info) := x in
  l ←? jreq "lemma_normalized" (ii_lemma_normalized info) ;
  if (0 <? count_key_opt (Some w) l t)%nat then inr (t, added, S skipped)
  else
    t' ←? insert_nullable (Some w) l (Some (1 # 1)) (Some "wiktionary:inflection_of"%string)
            (morph_join (ii_morphology info)) t ;
    inr (t', S added, skipped).

(** [main], lines 10-62: [json.load] turns the members of the JSON object
    into a dict (a repeated key keeps its first position and its last
    value), whose items the loop visits. *)
Definition add_inflection_mappings (members : list (pystr * infl_info)) (t : table)
    : script_error + decl_state :=
  fold_err infl_step (dict_of_literal members) (t, 0%nat, 0%nat).

(** ** The guards and the plain [INSERT] *)

(** Every row's [word_normalized] is its [word_form]: all the loaders of
    the build and of the post-passes insert rows of that shape. *)
Definition normalized_consistent (t : table) : Prop :=
  Forall (fun r => word_normalized r = word_form r) t.

Lemma insert_fresh r t : key_in (row_key r) t = false -> insert r t = inr (t ++ [r]).
Proof. unfold insert. by intros ->. Qed.

Lemma count_form_zero w l t : count_form w t = 0%nat -> key_in (w, l) t = false.
Proof.
  unfold count_form, rows_of_form. intros Hc. apply key_in_false.
  intros (r & Hk & Hr)%list_elem_of_In%in_map_iff. unfold row_key in Hk. simplify_eq.
  apply length_zero_iff_nil in Hc.
  assert (In r (List.filter (fun r' => bool_decide (word_form r' = word_form r)) t)) as Hin
    by (apply filter_In; split; [done|by apply bool_decide_eq_true]).
  by rewrite Hc in Hin.
Qed.

Lemma count_form_pos w t : count_form w t <> 0%nat -> exists r, r ∈ t /\ word_form r = w.
Proof.
  unfold count_form, rows_of_form. intros Hc.
  destruct (List.filter _ t) as [|r rs] eqn:Hf; [done|].
  assert (In r (List.filter (fun r' => bool_decide (word_form r' = w)) t)) as Hin
    by (rewrite Hf; by left).
  apply filter_In in Hin as [Hin Hw]. apply bool_decide_eq_true in Hw.
  exists r. split; [by apply list_elem_of_In|done].
Qed.

Lemma count_key_zero k t : count_key k t = 0%nat -> key_in k t = false.
Proof.
  unfold count_key, key_in. intros Hc%length_zero_iff_nil.
  apply not_true_is_false. intros (r & Hr & Hk)%existsb_exists.
  assert (In r (List.filter (fun r' => bool_decide (row_key r' = k)) t)) as Hin
    by (by apply filter_In).
  by rewrite Hc in Hin.
Qed.

Lemma count_key_pos k t : count_key k t <> 0%nat -> k ∈ map row_key t.
Proof.
  unfold count_key. intros Hc. destruct (List.filter _ t) as [|r rs] eqn:Hf; [done|].
  assert (In r (List.filter (fun r' => bool_decide (row_key r' = k)) t)) as Hin
    by (rewrite Hf; by left).
  apply filter_In in Hin as [Hin Hk]. apply bool_decide_eq_true in Hk.
  apply list_elem_of_In, in_map_iff. eauto.
Qed.

Lemma exists_normalized_false w l t :
  normalized_consistent t -> exists_normalized w l t = false -> key_in (w, l) t = false.
Proof.
  unfold normalized_consistent, exists_normalized, key_in. intros Hc He.
  apply not_true_is_false. intros (r & Hr & Hk)%existsb_exists.
  apply bool_decide_eq_true in Hk. unfold row_key in Hk. simplify_eq.
  rewrite list.Forall_forall in Hc.
  assert (existsb (fun r' => bool_decide (word_normalized r' = word_form r /\ lemma r' = lemma r)) t = true)
    as Hex by (apply existsb_exists; exists r; split; [done|];
               apply bool_decide_eq_true; split; [apply Hc, list_elem_of_In|]; done).
  congruence.
Qed.

Lemma normalized_consistent_snoc t r :
  normalized_consistent t -> word_normalized r = word_form r -> normalized_consistent (t ++ [r]).
Proof. intros Ht Hr. apply Forall_app. split; [done|]. by constructor. Qed.

Create HintDb post_pass discriminated.
#[export] Hint Resolve normalized_consistent_snoc pk_ok_snoc : post_pass.

(** ** The nu-movable pass *)

Lemma add_variant_spec v l c m t n :
  pk_ok t ->
  exists t' n', add_variant v l c m (t, n) = inr (t', n') /\ pk_ok t' /\
    (t' = t \/ t' = t ++ [nu_variant_row v l c m]) /\ exists r, r ∈ t' /\ word_form r = v.
Proof.
  intros Hpk. unfold add_variant. destruct (count_form v t =? 0)%nat eqn:Hc.
  - apply Nat.eqb_eq in Hc. pose proof (count_form_zero v l t Hc) as Hk.
    rewrite insert_fresh by done. simpl.
    do 2 eexists. split; [reflexivity|]. split; [by apply pk_ok_snoc, key_in_false|].
    split; [by right|]. exists (nu_variant_row v l c m). split; [set_solver|done].
  - apply Nat.eqb_neq, count_form_pos in Hc. eauto 10.
Qed.

(** A row the pass may add: a nu variant of a form of the table, under a
    lemma of the table. *)
Definition nu_row (t0 : table) (r : row) : Prop :=
  source r = Some "generated:nu-movable"%string /\ word_normalized r = word_form r /\
  exists r0, r0 ∈ t0 /\ lemma r0 = lemma r.

(** The invariant of both loops of the pass. *)
Definition nu_inv (t0 : table) (st : table * nat) : Prop :=
  pk_ok st.1 /\ t0 `prefix_of` st.1 /\ forall r, r ∈ st.1 -> r ∈ t0 \/ nu_row t0 r.

Lemma nu_inv_add_variant t0 v l c m st :
  (exists r0, r0 ∈ t0 /\ lemma r0 = l) -> nu_inv t0 st ->
  exists st', add_variant v l c m st = inr st' /\ nu_inv t0 st' /\ st.1 `prefix_of` st'.1 /\
    exists r, r ∈ st'.1 /\ word_form r = v.
Proof.
  destruct st as [t n]. intros Hl (Hpk & Hpre & Hr).
  destruct (add_variant_spec v l c m t n Hpk) as (t' & n' & Hadd & Hpk' & Ht & Hv).
  rewrite Hadd. exists (t', n'). cbn [fst]. split; [done|]. split; [|split; [|exact Hv]].
  - destruct Ht as [-> | ->]; [done|]. split; [done|]. split; [by apply prefix_app_r|].
    intros r [Hr' | ->%list_elem_of_singleton]%elem_of_app; [by apply Hr|].
    right. split; [done|]. split; done.
  - destruct Ht as [-> | ->]; [done|]. by exists [nu_variant_row v l c m].
Qed.

Lemma nm_query_elem p t x :
  x ∈ sql_distinct (map nm_project (List.filter p t)) -> exists r, r ∈ t /\ nm_project r = x.
Proof.
  rewrite sql_distinct_elem. intros (r & <- & Hr)%list_elem_of_In%in_map_iff.
  apply filter_In in Hr as [Hr _]. exists r. split; [by apply list_elem_of_In|done].
Qed.

(** One iteration of either loop keeps the invariant and only appends. *)
Definition nu_step_ok (f : table * nat -> nm_tuple -> sql_error + (table * nat))
    (t0 : table) (st : table * nat) (x : nm_tuple) : Prop :=
  exists st', f st x = inr st' /\ nu_inv t0 st' /\ st.1 `prefix_of` st'.1.

Lemma nu_movable_step_inv t0 st (x : nm_tuple) :
  (exists r0, r0 ∈ t0 /\ lemma r0 = x.1.1.2) -> nu_inv t0 st -> nu_step_ok nu_movable_step t0 st x.
Proof.
  destruct x as [[[w l] m] s]. cbn [fst snd]. intros Hl Hinv. unfold nu_step_ok, nu_movable_step.
  destruct (endswith w γ"ε" && negb (endswith w γ"εν")).
  - destruct (nu_inv_add_variant t0 (w ++ γ"ν") l (9 # 10) m st Hl Hinv) as (st' & ? & ? & ? & _).
    eauto.
  - destruct (endswith w γ"εν"); [|by exists st].
    destruct (nu_inv_add_variant t0 (slice_neg w 1) l (9 # 10) m st Hl Hinv) as (st' & ? & ? & ? & _).
    eauto.
Qed.

Lemma epsilon_step_inv t0 st (x : nm_tuple) :
  (exists r0, r0 ∈ t0 /\ lemma r0 = x.1.1.2) -> nu_inv t0 st -> nu_step_ok epsilon_step t0 st x.
Proof.
  destruct x as [[[w l] m] s]. cbn [fst snd]. intros Hl Hinv. unfold nu_step_ok, epsilon_step.
  destruct (nu_inv_add_variant t0 (w ++ γ"ν") l (4 # 5) (default_morph m) st Hl Hinv)
    as (st' & ? & ? & ? & _). eauto.
Qed.

(** The lemma of a tuple of either query is a lemma of the original table. *)
Lemma nu_query_lemma t0 st p x :
  nu_inv t0 st -> x ∈ sql_distinct (map nm_project (List.filter p st.1)) ->
  exists r0, r0 ∈ t0 /\ lemma r0 = x.1.1.2.
Proof.
  intros (_ & _ & Hr) (r & Hr1 & <-)%nm_query_elem. cbn.
  destruct (Hr r Hr1) as [|(_ & _ & r0 & ? & ?)]; eauto.
Qed.

Lemma nu_loop_spec f t0 l st :
  (forall st x, nu_inv t0 st -> x ∈ l -> nu_step_ok f t0 st x) ->
  nu_inv t0 st -> exists st', fold_err f l st = inr st' /\ nu_inv t0 st' /\ st.1 `prefix_of` st'.1.
Proof.
  intros Hf Hst.
  destruct (fold_err_total f (fun st' => nu_inv t0 st' /\ st.1 `prefix_of` st'.1) l st)
    as (st' & ? & ? & ?); [|split; [done|reflexivity]|eauto].
  intros x b [Hx Hpre] Hb. destruct (Hf x b Hx Hb) as (x' & ? & ? & ?).
  exists x'. split; [done|]. split; [done|by transitivity x.1].
Qed.

(** The nu-movable pass never raises: the [COUNT] guard keeps its
    plain [INSERT]s off every existing key.  It keeps the primary key,
    only appends, and every row it adds is a ['generated:nu-movable'] row
    whose [word_normalized] is its form and whose lemma is a lemma of the
    table (so it keeps referential integrity). *)
Theorem add_nu_movable_variants_spec t :
  pk_ok t ->
  exists t' n, add_nu_movable_variants t = inr (t', n) /\ pk_ok t' /\ t `prefix_of` t' /\
    forall r, r ∈ t' -> r ∈ t \/ nu_row t r.
Proof.
  intros Hpk. assert (nu_inv t (t, 0%nat)) as H0 by (split; [done|split; [done|auto]]).
  destruct (nu_loop_spec nu_movable_step t (verb_forms_query t) (t, 0%nat)) as (st1 & E1 & H1 & _);
    [intros st x Hst Hx; apply nu_movable_step_inv; [|done];
     unfold verb_forms_query in Hx; eapply nu_query_lemma; [exact H0|exact Hx]|done|].
  destruct (nu_loop_spec epsilon_step t (epsilon_forms_query st1.1) st1) as (st2 & E2 & H2 & _);
    [intros st x Hst Hx; apply epsilon_step_inv; [|done];
     unfold epsilon_forms_query in Hx; eapply nu_query_lemma; [exact H1|exact Hx]|done|].
  unfold add_nu_movable_variants. rewrite E1. simpl. rewrite E2. simpl.
  destruct st2 as [t' n]. destruct H2 as (? & ? & ?). by exists t', n.
Qed.

Lemma nu_step_det f t0 st x st' :
  nu_step_ok f t0 st x -> f st x = inr st' -> nu_inv t0 st' /\ st.1 `prefix_of` st'.1.
Proof. intros (st'' & E & ? & ?) E'. rewrite E in E'. by injection E' as <-. Qed.

Lemma has_form_prefix (v : pystr) (t t' : table) :
  t `prefix_of` t' -> (exists r, r ∈ t /\ word_form r = v) -> exists r, r ∈ t' /\ word_form r = v.
Proof. intros [u ->] (r & Hr & Hv). exists r. split; [set_solver|done]. Qed.

(** Completeness of the nu-movable pass: every third-person form
    [w] in -ε (not -εν) that the first query selects has a row of form
    [wν] after the pass, inserted by the pass or already there. *)
Theorem nu_movable_variant_present t w l m s :
  pk_ok t -> (w, l, m, s) ∈ verb_forms_query t ->
  endswith w γ"ε" && negb (endswith w γ"εν") = true ->
  exists t' n, add_nu_movable_variants t = inr (t', n) /\
    exists r, r ∈ t' /\ word_form r = w ++ γ"ν".
Proof.
  intros Hpk Hx Hw. assert (nu_inv t (t, 0%nat)) as H0 by (split; [done|split; [done|auto]]).
  assert (forall st x, nu_inv t st -> x ∈ verb_forms_query t -> nu_step_ok nu_movable_step t st x)
    as Hs1 by (intros st x Hst Hx'; apply nu_movable_step_inv; [|done];
               unfold verb_forms_query in Hx'; eapply nu_query_lemma; [exact H0|exact Hx']).
  destruct (nu_loop_spec nu_movable_step t (verb_forms_query t) (t, 0%nat) Hs1 H0)
    as (st1 & E1 & H1 & _).
  set (Q := fun st : table * nat => exists r, r ∈ st.1 /\ word_form r = w ++ γ"ν").
  assert (Q st1) as HQ1.
  { apply (fold_err_elem nu_movable_step (nu_inv t) Q (verb_forms_query t) (w, l, m, s) (t, 0%nat));
      [| |intros st st' Hst E|done|done|done].
    - intros st x st' Hst Hx' E. by apply (nu_step_det _ _ _ _ _ (Hs1 st x Hst Hx') E).
    - intros st x st' Hst HQ Hx' E. destruct (nu_step_det _ _ _ _ _ (Hs1 st x Hst Hx') E).
      by apply (has_form_prefix _ st.1).
    - unfold nu_movable_step in E. rewrite Hw in E.
      assert (exists r0, r0 ∈ t /\ lemma r0 = l) as Hl
        by (unfold verb_forms_query in Hx; apply (nu_query_lemma t (t, 0%nat) _ _ H0 Hx)).
      destruct (nu_inv_add_variant t (w ++ γ"ν") l (9 # 10) m st Hl Hst) as (st'' & E' & _ & _ & Hv).
      rewrite E in E'. by injection E' as <-. }
  assert (forall st x, nu_inv t st -> x ∈ epsilon_forms_query st1.1 -> nu_step_ok epsilon_step t st x)
    as Hs2 by (intros st x Hst Hx'; apply epsilon_step_inv; [|done];
               unfold epsilon_forms_query in Hx'; eapply nu_query_lemma; [exact H1|exact Hx']).
  destruct (nu_loop_spec epsilon_step t (epsilon_forms_query st1.1) st1 Hs2 H1) as (st2 & E2 & H2 & _).
  assert (Q st2) as HQ2.
  { apply (fold_err_inv epsilon_step (fun st => nu_inv t st /\ Q st) (epsilon_forms_query st1.1) st1);
      [|by split|done].
    intros st x st' [Hst HQ] Hx' E. destruct (nu_step_det _ _ _ _ _ (Hs2 st x Hst Hx') E).
    split; [done|]. by apply (has_form_prefix _ st.1). }
  unfold add_nu_movable_variants. rewrite E1. simpl. rewrite E2. simpl.
  destruct st2 as [t' n]. by exists t', n.
Qed.

(** ** The manual mappings *)

Definition manual_inv (t0 : table) (st : table * nat) : Prop :=
  pk_ok st.1 /\ normalized_consistent st.1 /\ t0 `prefix_of` st.1.

Lemma manual_step_spec src conf st x :
  pk_ok st.1 -> normalized_consistent st.1 ->
  exists st', manual_step src conf st x = inr st' /\ pk_ok st'.1 /\
    normalized_consistent st'.1 /\ st.1 `prefix_of` st'.1 /\
    exists r, r ∈ st'.1 /\ word_normalized r = x.1.1 /\ lemma r = x.1.2.
Proof.
  destruct st as [t n], x as [[w l] m]. cbn [fst snd]. intros Hpk Hc. unfold manual_step.
  destruct (exists_normalized w l t) eqn:He.
  - exists (t, n). split; [done|]. do 3 (split; [done|]).
    unfold exists_normalized in He. apply existsb_exists in He as (r & Hr & Hb).
    apply bool_decide_eq_true in Hb as [Hw Hl]. exists r. split; [by apply list_elem_of_In|done].
  - pose proof (exists_normalized_false w l t Hc He) as Hk.
    rewrite insert_fresh by done. simpl. eexists; split; [reflexivity|]. cbn [fst].
    split; [by apply pk_ok_snoc, key_in_false|].
    split; [by apply normalized_consistent_snoc|]. split; [by exists [Row w w l (Some conf) (Some src) (Some m)]|].
    eexists. split; [apply elem_of_app; right; by left|done].
Qed.

Lemma keys_prefix (t t' : table) k : t `prefix_of` t' -> k ∈ map row_key t -> k ∈ map row_key t'.
Proof. intros [u ->] Hk. rewrite map_app. set_solver. Qed.

Lemma manual_loop_spec src conf L st :
  pk_ok st.1 -> normalized_consistent st.1 ->
  exists st', fold_err (manual_step src conf) L st = inr st' /\ pk_ok st'.1 /\
    normalized_consistent st'.1 /\ st.1 `prefix_of` st'.1 /\
    forall x, x ∈ L -> (x.1.1, x.1.2) ∈ map row_key st'.1.
Proof.
  revert st; induction L as [|x L IH]; intros st Hpk Hc; simpl.
  - exists st. split; [done|]. do 3 (split; [done|]). intros x ?%elem_of_nil. done.
  - destruct (manual_step_spec src conf st x Hpk Hc) as (st1 & -> & Hpk1 & Hc1 & Hpre1 & r & Hr & Hw & Hl).
    destruct (IH st1 Hpk1 Hc1) as (st2 & E2 & Hpk2 & Hc2 & Hpre2 & Hall). simpl.
    exists st2. split; [done|]. do 2 (split; [done|]). split; [by transitivity st1.1|].
    intros y [->|Hy]%elem_of_cons; [|by apply Hall].
    apply (keys_prefix st1.1); [done|]. apply list_elem_of_In, in_map_iff. exists r.
    split; [|by apply list_elem_of_In]. unfold row_key. rewrite <- Hw, <- Hl.
    unfold normalized_consistent in Hc1. rewrite list.Forall_forall in Hc1. by rewrite Hc1.
Qed.

(** Under the invariant that [word_normalized] is [word_form] (which
    every loader keeps), the manual mappings never raise, although the
    guard of lines 118-121 tests [word_normalized] and not the key; they
    keep the primary key and the invariant, and afterwards every listed
    pair, from the lexical lists and the Roman names, is a key of the
    table, whether or not its lemma is a dictionary headword. *)
Theorem add_morphological_mappings_spec t :
  pk_ok t -> normalized_consistent t ->
  exists t' n, add_morphological_mappings t = inr (t', n) /\ pk_ok t' /\
    normalized_consistent t' /\ t `prefix_of` t' /\
    forall w l m, (w, l, m) ∈ all_mappings ++ roman_names -> (w, l) ∈ map row_key t'.
Proof.
  intros Hpk Hc.
  destruct (manual_loop_spec "manual_common_forms" (1 # 1) all_mappings (t, 0%nat) Hpk Hc)
    as (st1 & E1 & Hpk1 & Hc1 & Hpre1 & Hall1).
  destruct (manual_loop_spec "proper_nouns" (9 # 10) roman_names st1 Hpk1 Hc1)
    as ([t' n] & E2 & Hpk2 & Hc2 & Hpre2 & Hall2).
  unfold add_morphological_mappings. rewrite E1. cbn [sbind]. rewrite E2. cbn [sql_err].
  exists t', n. split; [done|]. do 2 (split; [done|]). split; [by transitivity st1.1|].
  intros w l m [Hx|Hx]%elem_of_app; [|exact (Hall2 _ Hx)].
  apply (keys_prefix st1.1); [done|exact (Hall1 _ Hx)].
Qed.

(** ** The two Wiktionary post-passes *)

(** A loop over JSON mappings whose body, on a well-formed mapping, never
    raises, keeps the key, appends, counts the mapping once as added or
    skipped, and leaves a property [K] of it that later appends keep. *)
Lemma counted_loop_spec {X} (f : decl_state -> X -> script_error + decl_state)
    (ok : X -> Prop) (K : X -> table -> Prop) (R : row -> Prop) L st :
  (forall x t t', K x t -> t `prefix_of` t' -> K x t') ->
  (forall st x, pk_ok st.1.1 -> ok x ->
     exists st', f st x = inr st' /\ pk_ok st'.1.1 /\ st.1.1 `prefix_of` st'.1.1 /\
       (st'.1.2 + st'.2 = S (st.1.2 + st.2))%nat /\ K x st'.1.1 /\
       forall r, r ∈ st'.1.1 -> r ∈ st.1.1 \/ R r) ->
  pk_ok st.1.1 -> Forall ok L ->
  exists st', fold_err f L st = inr st' /\ pk_ok st'.1.1 /\ st.1.1 `prefix_of` st'.1.1 /\
    (st'.1.2 + st'.2 = st.1.2 + st.2 + length L)%nat /\ (forall x, x ∈ L -> K x st'.1.1) /\
    forall r, r ∈ st'.1.1 -> r ∈ st.1.1 \/ R r.
Proof.
  intros HK Hf. revert st; induction L as [|x L IH]; intros st Hpk HL; simpl.
  - exists st. split; [done|]. split; [done|]. split; [done|]. split; [lia|].
    split; [intros x ?%elem_of_nil; done|auto].
  - apply list.Forall_cons in HL as [Hx HL].
    destruct (Hf st x Hpk Hx) as (st1 & -> & Hpk1 & Hpre1 & Hc1 & HK1 & HR1). simpl.
    destruct (IH st1 Hpk1 HL) as (st2 & E2 & Hpk2 & Hpre2 & Hc2 & Hall & HR2).
    exists st2. split; [done|]. split; [done|]. split; [by transitivity st1.1.1|].
    split; [lia|]. split; [intros y [->|Hy]%elem_of_cons; [by apply (HK x st1.1.1)|by apply Hall]|].
    intros r [Hr|]%HR2; [|by right]. by apply HR1.
Qed.

(** A mapping with a [word_form] and a [lemma], neither [null]. *)
Definition decl_ok (m : decl_mapping) : Prop :=
  exists w l, dm_word_form m = JVal w /\ dm_lemma m = JVal l.

Definition decl_key_in (m : decl_mapping) (t : table) : Prop :=
  forall w l, dm_word_form m = JVal w -> dm_lemma m = JVal l -> (w, l) ∈ map row_key t.

Lemma key_guard_step (w l : pystr) (t : table) (added skipped : nat) (r : row) :
  row_key r = (w, l) -> pk_ok t ->
  exists st', (if (0 <? count_key (w, l) t)%nat then inr (t, added, S skipped)
               else t' ←? sql_err (insert r t) ; inr (t', S added, skipped)) = inr st' /\
    pk_ok st'.1.1 /\ t `prefix_of` st'.1.1 /\ (st'.1.2 + st'.2 = S (added + skipped))%nat /\
    (w, l) ∈ map row_key st'.1.1 /\ forall r', r' ∈ st'.1.1 -> r' ∈ t \/ r' = r.
Proof.
  intros Hr Hpk. destruct (0 <? count_key (w, l) t)%nat eqn:Hc.
  - apply Nat.ltb_lt in Hc. eexists. split; [reflexivity|]. cbn [fst snd].
    split; [done|]. split; [done|]. split; [lia|]. split; [apply count_key_pos; lia|auto].
  - apply Nat.ltb_ge in Hc. assert (count_key (w, l) t = 0%nat) as Hc0 by lia.
    pose proof (count_key_zero _ _ Hc0) as Hk. rewrite <- Hr in Hk.
    rewrite insert_fresh by done. cbn [sql_err sbind]. eexists. split; [reflexivity|]. cbn [fst snd].
    split; [by apply pk_ok_snoc, key_in_false|]. split; [by exists [r]|]. split; [lia|].
    split; [rewrite map_app, <- Hr; set_solver|].
    intros r' [| ->%list_elem_of_singleton]%elem_of_app; auto.
Qed.

Lemma decl_step_spec st m :
  pk_ok st.1.1 -> decl_ok m ->
  exists st', decl_step st m = inr st' /\ pk_ok st'.1.1 /\ st.1.1 `prefix_of` st'.1.1 /\
    (st'.1.2 + st'.2 = S (st.1.2 + st.2))%nat /\ decl_key_in m st'.1.1 /\
    forall r, r ∈ st'.1.1 -> r ∈ st.1.1 \/ word_normalized r = word_form r.
Proof.
  destruct st as [[t a] k]. cbn [fst snd]. intros Hpk (w & l & Hw & Hl). unfold decl_step.
  rewrite Hw, Hl. cbn [jreq sbind count_key_opt insert_nullable].
  destruct (key_guard_step w l t a k
    (Row w w l (jget_or (9 # 10) (dm_confidence m))
       (jget_or "elwiktionary:declension:unknown"%string (dm_source m))
       (jget_or ""%string (dm_case m))) eq_refl Hpk) as (st' & E & ? & ? & ? & Hk & Hr).
  exists st'. split; [exact E|]. do 3 (split; [done|]). split.
  - intros w' l' Hw' Hl'. rewrite Hw in Hw'. rewrite Hl in Hl'. by simplify_eq.
  - intros r [| ->]%Hr; auto.
Qed.

(** C32: On mappings that all have a non-null [word_form] and [lemma],
    add_declension_mappings.py never raises; it keeps the primary key,
    only appends, counts each mapping once as added or skipped, and
    afterwards every mapping's pair is a key of the table. *)
Theorem add_declension_mappings_spec ms t :
  pk_ok t -> Forall decl_ok ms ->
  exists t' added skipped, add_declension_mappings ms t = inr (t', added, skipped) /\
    pk_ok t' /\ t `prefix_of` t' /\ (added + skipped = length ms)%nat /\
    forall m, m ∈ ms -> decl_key_in m t'.
Proof.
  intros Hpk Hms.
  destruct (counted_loop_spec decl_step decl_ok decl_key_in
    (fun r => word_normalized r = word_form r) ms (t, 0%nat, 0%nat))
    as ([[t' a] k] & E & ? & ? & Hc & ? & _); [|intros; by apply decl_step_spec|done|done|].
  - intros m t1 t2 Hk Hpre w l Hw Hl. by apply (keys_prefix t1), Hk.
  - exists t', a, k. cbn in Hc. split; [exact E|]. do 2 (split; [done|]). split; [lia|done].
Qed.

(** C33: The first malformed mapping stops add_declension_mappings.py
    with the exception Python raises there: a [KeyError] for an absent
    [word_form] or [lemma], an [IntegrityError] for a [null] one (a [null]
    key matches no row, so the guard lets the [INSERT] run).  The script
    commits only at the end, so nothing of the file is stored. *)
Theorem add_declension_mappings_error ms1 m ms2 t :
  pk_ok t -> Forall decl_ok ms1 ->
  (dm_word_form m = JAbsent ->
     add_declension_mappings (ms1 ++ m :: ms2) t = inl (KeyError "word_form")) /\
  (dm_word_form m <> JAbsent -> dm_lemma m = JAbsent ->
     add_declension_mappings (ms1 ++ m :: ms2) t = inl (KeyError "lemma")) /\
  (dm_word_form m = JNull -> dm_lemma m <> JAbsent ->
     add_declension_mappings (ms1 ++ m :: ms2) t = inl (NotNullViolation "lemma_map.word_form")) /\
  (forall w, dm_word_form m = JVal w -> dm_lemma m = JNull ->
     add_declension_mappings (ms1 ++ m :: ms2) t = inl (NotNullViolation "lemma_map.lemma")).
Proof.
  intros Hpk Hms.
  destruct (counted_loop_spec decl_step decl_ok decl_key_in
    (fun r => word_normalized r = word_form r) ms1 (t, 0%nat, 0%nat))
    as ([[t1 a] k] & E & _); [|intros; by apply decl_step_spec|done|done|].
  { intros m' t1 t2 Hk Hpre w l Hw Hl. by apply (keys_prefix t1), Hk. }
  unfold add_declension_mappings. rewrite fold_err_app, E. cbn [sbind fold_err].
  unfold decl_step. split; [|split; [|split]].
  - by intros ->.
  - intros Hw ->. by destruct (dm_word_form m).
  - intros -> Hl. by destruct (dm_lemma m).
  - by intros w -> ->.
Qed.

Definition infl_ok (x : pystr * infl_info) : Prop :=
  exists l, ii_lemma_normalized x.2 = JVal l.

Definition infl_key_in (x : pystr * infl_info) (t : table) : Prop :=
  forall l, ii_lemma_normalized x.2 = JVal l -> (x.1, l) ∈ map row_key t.

(** The rows add_inflection_mappings.py writes. *)
Definition infl_row (r : row) : Prop :=
  word_normalized r = word_form r /\ confidence r = Some (1 # 1) /\
  source r = Some "wiktionary:inflection_of"%string.

Lemma infl_step_spec st x :
  pk_ok st.1.1 -> infl_ok x ->
  exists st', infl_step st x = inr st' /\ pk_ok st'.1.1 /\ st.1.1 `prefix_of` st'.1.1 /\
    (st'.1.2 + st'.2 = S (st.1.2 + st.2))%nat /\ infl_key_in x st'.1.1 /\
    forall r, r ∈ st'.1.1 -> r ∈ st.1.1 \/ infl_row r.
Proof.
  destruct st as [[t a] k], x as [w info]. cbn [fst snd]. intros Hpk (l & Hl). unfold infl_step.
  cbn [snd] in Hl. rewrite Hl. cbn [jreq sbind count_key_opt insert_nullable].
  destruct (key_guard_step w l t a k
    (Row w w l (Some (1 # 1)) (Some "wiktionary:inflection_of"%string)
       (morph_join (ii_morphology info))) eq_refl Hpk) as (st' & E & ? & ? & ? & Hk & Hr).
  exists st'. split; [exact E|]. do 3 (split; [done|]). split.
  - intros l' Hl'. cbn [snd] in Hl'. rewrite Hl in Hl'. by simplify_eq.
  - intros r [| ->]%Hr; [by left|right]. done.
Qed.

(** C34: When every entry of the JSON object has a non-null
    [lemma_normalized], add_inflection_mappings.py never raises; it keeps
    the primary key, only appends, counts each distinct key of the object
    once (a repeated key is one dict item, with its last value), leaves
    every item's pair as a key of the table, and every row it adds has the
    column default 1.0 as its confidence. *)
Theorem add_inflection_mappings_spec members t :
  pk_ok t -> Forall infl_ok members ->
  exists t' added skipped, add_inflection_mappings members t = inr (t', added, skipped) /\
    pk_ok t' /\ t `prefix_of` t' /\
    (added + skipped = length (dict_of_literal members))%nat /\
    NoDup (map fst (dict_of_literal members)) /\
    (forall x, x ∈ dict_of_literal members -> infl_key_in x t') /\
    (forall r, r ∈ t' -> r ∈ t \/ infl_row r).
Proof.
  intros Hpk Hms.
  assert (Forall infl_ok (dict_of_literal members)) as Hd
    by (apply list.Forall_forall; intros x Hx%dict_of_literal_elem;
        by apply (proj1 (list.Forall_forall _ _) Hms)).
  destruct (counted_loop_spec infl_step infl_ok infl_key_in infl_row (dict_of_literal members)
    (t, 0%nat, 0%nat)) as ([[t' a] k] & E & ? & ? & Hc & ? & ?);
    [|intros; by apply infl_step_spec|done|done|].
  - intros x t1 t2 Hk Hpre l Hl. by apply (keys_prefix t1), Hk.
  - exists t', a, k. cbn in Hc. split; [exact E|]. do 2 (split; [done|]). split; [lia|].
    split; [apply dict_of_literal_nodup|]. done.
Qed.

(** ** Scenarios and witnesses *)

Definition aor (w l : pystr) : row :=
  Row w w l (Some (1 # 2)) (Some "algorithmic"%string) (Some "3 s aor"%string).

(** Two lemmas share the form [ειπε]. *)
Definition eipe_table : table := [aor γ"ειπε" γ"ειπον"; aor γ"ειπε" γ"λεγω"].

(** The guard of line 37 counts the rows of the variant's form
    whatever their lemma, so once [ειπεν] is added for one lemma of
    [ειπε] it is never added for the other. *)
Example nu_movable_second_lemma_skipped :
  match add_nu_movable_variants eipe_table with
  | inr (t, _) => (γ"ειπεν", γ"ειπον") ∈ map row_key t /\ (γ"ειπεν", γ"λεγω") ∉ map row_key t
  | inl _ => False
  end.
Proof.
  vm_compute. split; [apply list_elem_compute; vm_compute; reflexivity|].
  intros Hin. repeat (apply elem_of_cons in Hin as [Hin|Hin]; [discriminate Hin|]).
  by apply elem_of_nil in Hin.
Qed.

Lemma add_nu_movable_variants_spec_witness :
  pk_ok eipe_table /\
  exists t' n, add_nu_movable_variants eipe_table = inr (t', n) /\ pk_ok t' /\
    eipe_table `prefix_of` t' /\ forall r, r ∈ t' -> r ∈ eipe_table \/ nu_row eipe_table r.
Proof.
  assert (pk_ok eipe_table) as Hpk by (apply pk_ok_compute; vm_compute; reflexivity).
  split; [exact Hpk|]. exact (add_nu_movable_variants_spec eipe_table Hpk).
Defined.

Lemma nu_movable_variant_present_witness :
  pk_ok eipe_table /\
  (γ"ειπε", γ"ειπον", Some "3 s aor"%string, Some "algorithmic"%string) ∈ verb_forms_query eipe_table /\
  endswith γ"ειπε" γ"ε" && negb (endswith γ"ειπε" γ"εν") = true /\
  exists t' n, add_nu_movable_variants eipe_table = inr (t', n) /\
    exists r, r ∈ t' /\ word_form r = γ"ειπε" ++ γ"ν".
Proof.
  assert (pk_ok eipe_table) as Hpk by (apply pk_ok_compute; vm_compute; reflexivity).
  assert ((γ"ειπε", γ"ειπον", Some "3 s aor"%string, Some "algorithmic"%string)
    ∈ verb_forms_query eipe_table) as Hx by (apply list_elem_compute; vm_compute; reflexivity).
  assert (endswith γ"ειπε" γ"ε" && negb (endswith γ"ειπε" γ"εν") = true) as Hw
    by (vm_compute; reflexivity).
  split; [exact Hpk|]. split; [exact Hx|]. split; [exact Hw|].
  exact (nu_movable_variant_present eipe_table _ _ _ _ Hpk Hx Hw).
Defined.

Lemma add_morphological_mappings_spec_witness :
  pk_ok eipe_table /\ normalized_consistent eipe_table /\
  exists t' n, add_morphological_mappings eipe_table = inr (t', n) /\ pk_ok t' /\
    normalized_consistent t' /\ eipe_table `prefix_of` t' /\
    forall w l m, (w, l, m) ∈ all_mappings ++ roman_names -> (w, l) ∈ map row_key t'.
Proof.
  assert (pk_ok eipe_table) as Hpk by (apply pk_ok_compute; vm_compute; reflexivity).
  assert (normalized_consistent eipe_table) as Hc
    by repeat constructor.
  split; [exact Hpk|]. split; [exact Hc|]. exact (add_morphological_mappings_spec eipe_table Hpk Hc).
Defined.

Definition decl_sample : list decl_mapping :=
  [DeclMapping (JVal γ"λογου") (JVal γ"λογοσ") (JVal "gen sg"%string) JAbsent (JVal (9 # 10));
   DeclMapping (JVal γ"λογου") (JVal γ"λογοσ") JAbsent JAbsent JAbsent].

Lemma add_declension_mappings_spec_witness :
  pk_ok eipe_table /\ Forall decl_ok decl_sample /\
  exists t' added skipped, add_declension_mappings decl_sample eipe_table = inr (t', added, skipped) /\
    pk_ok t' /\ eipe_table `prefix_of` t' /\ (added + skipped = length decl_sample)%nat /\
    forall m, m ∈ decl_sample -> decl_key_in m t'.
Proof.
  assert (pk_ok eipe_table) as Hpk by (apply pk_ok_compute; vm_compute; reflexivity).
  assert (Forall decl_ok decl_sample) as Hms
    by (repeat constructor; do 2 eexists; split; reflexivity).
  split; [exact Hpk|]. split; [exact Hms|]. exact (add_declension_mappings_spec _ _ Hpk Hms).
Defined.

Lemma add_declension_mappings_error_witness :
  pk_ok eipe_table /\ Forall decl_ok decl_sample /\
  add_declension_mappings (decl_sample ++
    [DeclMapping JAbsent (JVal γ"λογοσ") JAbsent JAbsent JAbsent]) eipe_table = inl (KeyError "word_form").
Proof.
  assert (pk_ok eipe_table) as Hpk by (apply pk_ok_compute; vm_compute; reflexivity).
  assert (Forall decl_ok decl_sample) as Hms
    by (repeat constructor; do 2 eexists; split; reflexivity).
  split; [exact Hpk|]. split; [exact Hms|].
  exact (proj1 (add_declension_mappings_error decl_sample
    (DeclMapping JAbsent (JVal γ"λογοσ") JAbsent JAbsent JAbsent) [] eipe_table Hpk Hms) eq_refl).
Defined.

Definition infl_sample : list (pystr * infl_info) :=
  [(γ"λογου", InflInfo (JVal γ"λογοσ") (JVal ["gen"; "sg"]%string));
   (γ"ειπεν", InflInfo (JVal γ"λεγω") (JVal []));
   (γ"λογου", InflInfo (JVal γ"λογοσ") JAbsent)].

Lemma add_inflection_mappings_spec_witness :
  pk_ok eipe_table /\ Forall infl_ok infl_sample /\
  exists t' added skipped, add_inflection_mappings infl_sample eipe_table = inr (t', added, skipped) /\
    pk_ok t' /\ eipe_table `prefix_of` t' /\
    (added + skipped = length (dict_of_literal infl_sample))%nat /\
    NoDup (map fst (dict_of_literal infl_sample)) /\
    (forall x, x ∈ dict_of_literal infl_sample -> infl_key_in x t') /\
    (forall r, r ∈ t' -> r ∈ eipe_table \/ infl_row r).
Proof.
  assert (pk_ok eipe_table) as Hpk by (apply pk_ok_compute; vm_compute; reflexivity).
  assert (Forall infl_ok infl_sample) as Hms by (repeat constructor; eexists; reflexivity).
  split; [exact Hpk|]. split; [exact Hms|]. exact (add_inflection_mappings_spec _ _ Hpk Hms).
Defined.
