(* ===== verification/Xml.v ===== *)
(** * ElementTree documents and the queries the scripts run on them

    create_perseus_database.py reads the LSJ dictionary and the TEI texts
    with [xml.etree.ElementTree].  An element is modelled as ElementTree
    stores it: its tag, its attributes in document order, its [text]
    (the characters before its first child, [None] when there are none),
    its children and its [tail] (the characters after its end tag, up to
    the next tag).  Parsing is the library's and is not modelled: the
    scripts are modelled from the parsed tree.

    The queries are those of [xml.etree.ElementPath] for the paths the
    code uses: [.//t] (every descendant with tag [t], in document order,
    the context element excluded), [t] as a child step, [[@k="v"]], and
    [find] as the first result of [findall].  [str.strip] is modelled
    with the white space of the Unicode interface. *)

From S2P Require Import Prelude Unicode.

(** An ElementTree element. *)
Inductive element := Element {
  tag : String.string;
  attrib : list (String.string * pystr);
  text : option pystr;
  children : list element;
  tail : option pystr
}.

(** [elem.get(k)]: attribute names are unique in a parsed element. *)
Definition elem_get (e : element) (k : String.string) : option pystr :=
  match List.find (fun kv => String.eqb kv.1 k) (attrib e) with
  | Some (_, v) => Some v
  | None => None
  end.

(** [elem.get(k, d)] *)
Definition elem_get_or (e : element) (k : String.string) (d : pystr) : pystr :=
  match elem_get e k with Some v => v | None => d end.

(** [s or ''] for the optional [text] and [tail]: [if elem.text:] treats
    [None] and the empty string alike. *)
Definition opt_str (s : option pystr) : pystr := match s with Some v => v | None => [] end.

(** [elem.iter()]: the element and its descendants in document order. *)
Fixpoint iter (e : element) : list element :=
  match e with
  | Element _ _ _ cs _ =>
      e :: (fix go (l : list element) : list element :=
              match l with [] => [] | c :: l' => iter c ++ go l' end) cs
  end.

(** [.//t] from one element: [elem.iter(t)] without the element itself. *)
Definition descendants (e : element) : list element := List.tl (iter e).

Definition has_tag (t : String.string) (e : element) : bool := String.eqb (tag e) t.

(** The steps of an ElementPath, each from the list of context elements. *)
Definition step_desc (t : String.string) (ctx : list element) : list element :=
  concat (map (fun e => List.filter (has_tag t) (descendants e)) ctx).

Definition step_child (t : String.string) (ctx : list element) : list element :=
  concat (map (fun e => List.filter (has_tag t) (children e)) ctx).

Definition step_attr (k : String.string) (v : pystr) (ctx : list element) : list element :=
  List.filter (fun e => bool_decide (elem_get e k = Some v)) ctx.

(** [elem.find(path)]: the first element [findall] would return. *)
Definition find_first (l : list element) : option element := hd_error l.

Section Strip.
Context `{UnicodeDB}.

(** [s.strip()]: white space removed at both ends. *)
Definition lstrip (s : pystr) : pystr :=
  (fix go (s : pystr) : pystr :=
     match s with [] => [] | c :: s' => if ucd_isspace c then go s' else s end) s.

Definition py_strip (s : pystr) : pystr := rev (lstrip (rev (lstrip s))).

(** [LSJParser.extract_text_content], lines 85-107: the element's text,
    then for each child its own (stripped) content and its tail, the
    whole stripped. *)
Fixpoint extract_text_content (e : element) : pystr :=
  match e with
  | Element _ _ txt cs _ =>
      py_strip (opt_str txt ++
        (fix go (l : list element) : pystr :=
           match l with
           | [] => []
           | c :: l' => extract_text_content c ++ opt_str (tail c) ++ go l'
           end) cs)
  end.
End Strip.

(** [''.join(elem.itertext())]: all the text of an element, the
    reference for [extract_text_content]. *)
Fixpoint itertext (e : element) : pystr :=
  match e with
  | Element _ _ txt cs _ =>
      opt_str txt ++
        (fix go (l : list element) : pystr :=
           match l with [] => [] | c :: l' => itertext c ++ opt_str (tail c) ++ go l' end) cs
  end.

(** ** Induction on elements and their children *)

Section ElementInd.
Variable P : element -> Prop.
Hypothesis P_elem : forall t a x cs tl, Forall P cs -> P (Element t a x cs tl).

Fixpoint element_ind' (e : element) : P e :=
  match e with
  | Element t a x cs tl =>
      P_elem t a x cs tl
        ((fix go (l : list element) : Forall P l :=
            match l with
            | [] => @List.Forall_nil _ P
            | c :: l' => @List.Forall_cons _ P c l' (element_ind' c) (go l')
            end) cs)
  end.
End ElementInd.

Section StripFacts.
Context `{UnicodeDB}.

Definition not_space (c : Z) : bool := negb (ucd_isspace c).

Lemma lstrip_nonspace s : List.filter not_space (lstrip s) = List.filter not_space s.
Proof.
  unfold lstrip. induction s as [|c s IH]; [done|]. cbn -[List.filter].
  destruct (ucd_isspace c) eqn:E; [|done]. rewrite IH. simpl. unfold not_space. by rewrite E.
Qed.

Lemma filter_rev_comm (f : Z -> bool) (l : pystr) : List.filter f (rev l) = rev (List.filter f l).
Proof.
  induction l as [|c l IH]; [done|]. simpl. rewrite filter_app, IH. simpl.
  destruct (f c); simpl; [done|by rewrite app_nil_r].
Qed.

(** [strip] only removes white space. *)
Lemma py_strip_nonspace s : List.filter not_space (py_strip s) = List.filter not_space s.
Proof.
  unfold py_strip. rewrite filter_rev_comm, lstrip_nonspace, filter_rev_comm, lstrip_nonspace.
  apply rev_involutive.
Qed.

Lemma lstrip_head s c s' : lstrip s = c :: s' -> ucd_isspace c = false.
Proof.
  unfold lstrip. induction s as [|d s IH]; [done|]. cbn.
  destruct (ucd_isspace d) eqn:E; [exact IH|]. by intros [= <- _].
Qed.

Lemma lstrip_suffix s : exists p, s = p ++ lstrip s.
Proof.
  unfold lstrip. induction s as [|d s IH]; [by exists []|]. cbn.
  destruct (ucd_isspace d); [destruct IH as [p Hp]; exists (d :: p); simpl; by f_equal|by exists []].
Qed.

(** A stripped string neither starts nor ends with white space. *)
Lemma py_strip_ends s :
  py_strip s = [] \/
  exists c d m m', py_strip s = c :: m /\ rev (py_strip s) = d :: m' /\
    ucd_isspace c = false /\ ucd_isspace d = false.
Proof.
  unfold py_strip.
  destruct (lstrip (rev (lstrip s))) as [|d r] eqn:E; [by left|right].
  assert (exists c m, rev (d :: r) = c :: m) as (c & m & Hc).
  { destruct (rev (d :: r)) as [|c m] eqn:Hr; [|eauto].
    apply (f_equal length) in Hr. rewrite length_rev in Hr. discriminate. }
  exists c, d, m, r. split; [done|]. split; [apply rev_involutive|]. split; [|by apply (lstrip_head _ _ _ E)].
  destruct (lstrip_suffix (rev (lstrip s))) as [p Hp]. rewrite E in Hp.
  apply (f_equal (@rev Z)) in Hp. rewrite rev_involutive, rev_app_distr, Hc in Hp.
  destruct (lstrip s) as [|c' s'] eqn:Es; [simpl in E; discriminate|].
  simpl in Hp. injection Hp as Hcc _. subst c'. exact (lstrip_head s c s' Es).
Qed.

Lemma filter_app_nonspace (a b : pystr) :
  List.filter not_space (a ++ b) = List.filter not_space a ++ List.filter not_space b.
Proof. apply filter_app. Qed.

(** Up to white space, [extract_text_content] is all the text of the
    element: the strips at every level only remove white space. *)
Lemma extract_text_content_nonspace e :
  List.filter not_space (extract_text_content e) = List.filter not_space (itertext e).
Proof.
  induction e as [t a x cs tl Hcs] using element_ind'. simpl.
  rewrite py_strip_nonspace, !filter_app. f_equal.
  induction Hcs as [|c cs Hc Hcs IH]; [done|]. rewrite !filter_app, Hc, IH. done.
Qed.
End StripFacts.
