(* ===== verification/Lsj.v ===== *)
(** * The LSJ dictionary parser: LSJParser of create_perseus_database.py

    [LSJParser] (lines 73-311) reads the Perseus LSJ XML: it replaces a
    table of character entities in the raw text, parses it with
    [ET.fromstring] (a parameter here: the library parser, [None] when it
    raises), and turns every [entry] element of type [main] into a
    dictionary entry: the headword from [form/orth[@lang="greek"]] or,
    failing that, from the Beta Code [key] attribute ([parse_entry_key]),
    the etymology, and the senses with a translation, formatted as HTML
    and as plain text.  [create_database] (lines 2773-2787) inserts the
    entries into [dictionary_entries]; the lemmatisation reads their
    [headword], [headword_normalized] and [language] ([lsj_dictionary]).
    The [entry_xml] column ([ET.tostring]) is not modelled. *)

From S2P Require Import Prelude Unicode Normalize LemmaMap Paradigm Resolver Pipeline Xml.

(** A sense as [parse_sense] returns it (a dict of five strings). *)
Record sense := Sense {
  s_level : pystr;
  s_n : pystr;
  s_translation : pystr;
  s_usage : pystr;
  s_examples : pystr
}.

(** An entry as [parse_lsj_xml] returns it, without [entry_xml]. *)
Record lsj_entry := LsjEntry {
  le_headword : pystr;
  le_headword_normalized : pystr;
  le_language : String.string;
  le_entry_html : pystr;
  le_entry_plain : pystr;
  le_source : String.string
}.

(** The [entity_replacements] dict of lines 228-242, in its order. *)
Definition entity_replacements : list (pystr * pystr) :=
  [(γ"&lpar;", γ"("); (γ"&rpar;", γ")"); (γ"&mdash;", γ"—"); (γ"&equals;", γ"=");
   (γ"&ast;", γ"*"); (γ"&dagger;", γ"†"); (γ"&colon;", γ":"); (γ"&agrave;", γ"à");
   (γ"&eacute;", γ"é"); (γ"&breve;", γ"˘"); (γ"&macr;", γ"¯"); (γ"&quest;", γ"?");
   (γ"&plus;", γ"+")].

(** Lines 244-245 *)
Definition replace_entities (xml_content : pystr) : pystr :=
  fold_left (fun s er => py_replace s er.1 er.2) entity_replacements xml_content.

(** The double quote, which a Rocq string literal cannot hold alone. *)
Definition dq : pystr := [34].

(** The literal [<name class="cls">] of the f-strings. *)
Definition open_tag (name cls : String.string) : pystr :=
  γ"<" ++ utf8 name ++ γ" class=" ++ dq ++ utf8 cls ++ dq ++ γ">".

Section LSJParser.
Context `{UnicodeDB}.

(** [parse_entry_key], lines 109-122: Beta Code marks to Greek marks. *)
Definition parse_entry_key (key : pystr) : pystr :=
  match key with
  | [] => []
  | _ =>
      let key := py_replace key γ")" [0x1FFE] in  (* GREEK DASIA *)
      let key := py_replace key γ"(" [0x1FBF] in  (* GREEK PSILI *)
      let key := py_replace key γ"/" [0x301] in   (* COMBINING ACUTE ACCENT *)
      let key := py_replace key γ"\" [0x300] in   (* COMBINING GRAVE ACCENT *)
      let key := py_replace key γ"=" [0x342] in   (* COMBINING GREEK PERISPOMENI *)
      py_replace key γ"|" γ"ι"
  end.

Definition texts_of (l : list element) : list pystr :=
  List.filter nonempty (map extract_text_content l).

(** [parse_sense], lines 124-161 *)
Definition parse_sense (sense_elem : element) : sense :=
  Sense (elem_get_or sense_elem "level" γ"0") (elem_get_or sense_elem "n" [])
    (join γ"; " (texts_of (step_child "tr" (step_desc "trans" [sense_elem]))))
    (join γ", " (texts_of (step_desc "usg" [sense_elem])))
    (join γ" | " (texts_of (step_attr "lang" γ"greek" (step_desc "foreign" [sense_elem])))).

(** The loop body of lines 174-195: one sense. *)
Definition sense_html (several : bool) (s : sense) : pystr :=
  open_tag "div" "sense" ++
  (if several && nonempty (s_n s)
   then open_tag "span" "sense-number" ++ s_n s ++ γ".</span> " else []) ++
  (if nonempty (s_translation s)
   then open_tag "span" "translation" ++ s_translation s ++ γ"</span>" else []) ++
  (if nonempty (s_usage s)
   then γ" " ++ open_tag "span" "usage" ++ γ"(" ++ s_usage s ++ γ")</span>" else []) ++
  (if nonempty (s_examples s)
   then open_tag "div" "examples" ++ s_examples s ++ γ"</div>" else []) ++
  γ"</div>".

(** [format_entry_html], lines 163-198 *)
Definition format_entry_html (headword : pystr) (senses : list sense) (etymology : pystr) : pystr :=
  join [10]
    ([open_tag "div" "headword" ++ γ"<strong>" ++ headword ++ γ"</strong></div>"] ++
     (if nonempty etymology then [open_tag "div" "etymology" ++ γ"<em>" ++ etymology ++ γ"</em></div>"]
      else []) ++
     map (sense_html (1 <? length senses)%nat) senses).

(** [format_entry_plain], lines 200-216 *)
Definition format_entry_plain (headword : pystr) (senses : list sense) (etymology : pystr) : pystr :=
  join γ" "
    ([headword] ++ (if nonempty etymology then [etymology] else []) ++
     concat (map (fun s => List.filter nonempty [s_translation s; s_usage s; s_examples s]) senses)).

(** [x.find(path)] followed by [extract_text_content] when found. *)
Definition found_text (l : list element) : pystr :=
  match find_first l with Some e => extract_text_content e | None => [] end.

(** The loop body of lines 257-304: one [entry] element. *)
Definition parse_entry (entry_elem : element) : option lsj_entry :=
  let key := elem_get_or entry_elem "key" [] in
  let headword := found_text (step_attr "lang" γ"greek" (step_child "orth" (step_desc "form" [entry_elem]))) in
  let headword := if negb (nonempty headword) && nonempty key then parse_entry_key key else headword in
  if negb (nonempty headword) then None else
  let etymology := found_text (step_desc "etym" [entry_elem]) in
  let senses := List.filter (fun s => nonempty (s_translation s)) (map parse_sense (step_desc "sense" [entry_elem])) in
  match senses with
  | [] => None
  | _ => Some (LsjEntry headword (normalize_greek headword) "greek"
                 (format_entry_html headword senses etymology)
                 (format_entry_plain headword senses etymology) "LSJ")
  end.

(** The [entry] elements of type [main], line 257. *)
Definition main_entries (root : element) : list element :=
  step_attr "type" γ"main" (step_desc "entry" [root]).

Variable fromstring : pystr -> option element.

(** [parse_lsj_xml], lines 218-311: the file's contents ([None] when it
    cannot be read), the entities replaced, parsed, the entries kept. *)
Definition parse_lsj_xml (file : option pystr) : list lsj_entry :=
  match file with
  | None => []
  | Some xml_content =>
      match fromstring (replace_entities xml_content) with
      | None => []
      | Some root => omap parse_entry (main_entries root)
      end
  end.

(** The columns of [dictionary_entries] the lemmatisation reads. *)
Definition lsj_dict_entry (e : lsj_entry) : dict_entry :=
  DictEntry (le_headword e) (le_headword_normalized e) (le_language e).

(** Lines 2728-2787: [None] when the LSJ file does not exist; then the
    tables are not created. *)
Definition lsj_dictionary (lsj_file : option (option pystr)) : option (list dict_entry) :=
  match lsj_file with
  | None => None
  | Some file => Some (map lsj_dict_entry (parse_lsj_xml file))
  end.
End LSJParser.

(** ** The entries the parser returns *)

Section Entries.
Context `{UnicodeDB}.

(** What an entry of the parser is: a non-empty headword, its normal
    form, the constant columns, and a plain text that starts with the
    headword, built from at least one sense with a translation. *)
Definition lsj_entry_ok (x : lsj_entry) : Prop :=
  le_headword x <> [] /\ le_headword_normalized x = normalize_greek (le_headword x) /\
  le_language x = "greek"%string /\ le_source x = "LSJ"%string /\
  (exists r, le_entry_plain x = le_headword x ++ r) /\
  exists senses etymology, senses <> [] /\ Forall (fun s => s_translation s <> []) senses /\
    le_entry_html x = format_entry_html (le_headword x) senses etymology /\
    le_entry_plain x = format_entry_plain (le_headword x) senses etymology.

Lemma parse_entry_ok e x : parse_entry e = Some x -> lsj_entry_ok x.
Proof.
  unfold parse_entry.
  set (hw := if negb (nonempty _) && _ then _ else _).
  destruct (nonempty hw) eqn:Ehw; cbn [negb]; [|discriminate].
  set (senses := List.filter _ _). destruct senses as [|s0 ss] eqn:Es; [discriminate|].
  intros [= <-]. apply nonempty_true in Ehw.
  split; [done|]. split; [done|]. split; [done|]. split; [done|].
  split; [apply join_head|].
  eexists (s0 :: ss), _. split; [done|]. split; [|done].
  rewrite <- Es. apply list.Forall_forall. intros s Hs%list_elem_of_In.
  apply filter_In in Hs as [_ Hs]. by apply nonempty_true.
Qed.

(** Every entry the parser returns is well formed, and there is
    at most one per [entry] element of type [main], in their order. *)
Lemma parse_lsj_xml_ok fromstring file :
  Forall lsj_entry_ok (parse_lsj_xml fromstring file) /\
  forall root, file <> None -> fromstring (replace_entities (opt_str file)) = Some root ->
    parse_lsj_xml fromstring file = omap parse_entry (main_entries root).
Proof.
  unfold parse_lsj_xml. split.
  - destruct file as [c|]; [|constructor]. destruct (fromstring _) as [root|]; [|constructor].
    apply list.Forall_forall. intros x (e & _ & Hx)%list_elem_of_omap. by apply (parse_entry_ok e).
  - intros root Hf Hr. destruct file as [c|]; [|done]. simpl in Hr. by rewrite Hr.
Qed.
End Entries.

(** ** Headwords read from a Beta Code key *)

(** The six replacements of [parse_entry_key], one code point each. *)
Definition beta_mark (c : Z) : Z :=
  subst_char 124 0x3B9 (subst_char 61 0x342 (subst_char 92 0x300
    (subst_char 47 0x301 (subst_char 40 0x1FBF (subst_char 41 0x1FFE c))))).

Lemma parse_entry_key_map `{UnicodeDB} key : key <> [] -> parse_entry_key key = map beta_mark key.
Proof.
  destruct key as [|c key]; [done|]. intros _. unfold parse_entry_key.
  change (γ")") with [41]. change (γ"(") with [40]. change (γ"/") with [47].
  change (γ"\") with [92]. change (γ"=") with [61]. change (γ"|") with [124].
  change (γ"ι") with [0x3B9].
  rewrite !py_replace_single, !map_map. reflexivity.
Qed.

(** On an ASCII code point, the marks and the normaliser leave an iota
    for [|] and nothing else: checked on the 128 code points. *)
Lemma beta_mark_ascii c :
  0 <= c < 128 -> normalize_char (beta_mark c) = if c =? 124 then [0x3B9] else [].
Proof.
  intros Hc.
  assert (Forall (fun n : nat => normalize_char (beta_mark (Z.of_nat n)) =
            if Z.of_nat n =? 124 then [0x3B9] else []) (seq 0 128)) as Hall
    by (apply (bool_decide_unpack _); vm_compute; reflexivity).
  rewrite list.Forall_forall in Hall. rewrite <- (Z2Nat.id c) by lia.
  apply Hall, list_elem_of_In, in_seq. lia.
Qed.

(** A headword that [parse_entry_key] makes from a key in ASCII Beta Code
    keeps its Latin letters, which [normalize_greek] drops: its normal
    form holds one [ι] per [|] of the key and nothing else. *)
Theorem parse_entry_key_ascii key :
  Forall (fun c => 0 <= c < 128) key ->
  normalize_greek (parse_entry_key key) = repeat 0x3B9 (length (List.filter (fun c => c =? 124) key)).
Proof.
  intros Hk. destruct key as [|c0 key0]; [reflexivity|].
  rewrite parse_entry_key_map by discriminate. rewrite normalize_greek_concat, map_map.
  revert Hk. generalize (c0 :: key0) as key. intros key Hk.
  induction Hk as [|c key Hc Hk IH]; [reflexivity|].
  rewrite map_cons. cbn [concat List.filter]. rewrite beta_mark_ascii by exact Hc. rewrite IH.
  destruct (c =? 124); reflexivity.
Qed.

Lemma greek_headwords_elem d w :
  w ∈ greek_headwords d <-> exists e, e ∈ d /\ language e = "greek"%string /\ headword_normalized e = w.
Proof.
  unfold greek_headwords. rewrite elem_of_list_to_set, list_elem_of_In, in_map_iff.
  split.
  - intros (e & <- & (He & Hl)%filter_In). apply String.eqb_eq in Hl.
    exists e. split; [by apply list_elem_of_In|done].
  - intros (e & He%list_elem_of_In & Hl & <-). exists e. split; [done|].
    apply filter_In. split; [done|]. by apply String.eqb_eq.
Qed.

Section FromXml.
Context `{UnicodeDB}.

(** The index built from a parsed LSJ file: it keeps the key and every
    lemma is the normal form of the headword of a parsed entry. *)
Lemma lsj_index_lemmas fromstring file files :
  exists t, create_lemma_index (lsj_dictionary fromstring (Some file)) files =
      inr (map lsj_dict_entry (parse_lsj_xml fromstring file), t) /\ pk_ok t /\
    forall r, r ∈ t -> exists x, x ∈ parse_lsj_xml fromstring file /\ lsj_entry_ok x /\
      lemma r = normalize_greek (le_headword x).
Proof.
  assert (Forall lsj_entry_ok (parse_lsj_xml fromstring file)) as Hok.
  { unfold parse_lsj_xml. destruct file as [c|]; [|constructor]. destruct (fromstring _) as [root|]; [|constructor].
    apply list.Forall_forall. intros x (e & _ & Hx)%list_elem_of_omap. by apply (parse_entry_ok e). }
  destruct (lemma_index_spec (map lsj_dict_entry (parse_lsj_xml fromstring file)) files) as [Hpk Hrows].
  eexists. split; [apply create_lemma_index_some|]. split; [exact Hpk|].
  intros r Hr. destruct (Hrows r Hr) as [Hl _].
  apply greek_headwords_elem in Hl as (d & (x & -> & Hx)%list_elem_of_fmap & _ & Hn).
  exists x. pose proof (proj1 (list.Forall_forall _ _) Hok x Hx) as Hxok.
  split; [done|]. split; [done|]. rewrite <- Hn. apply Hxok.
Qed.
End FromXml.

(** ** Examples *)

(** An entry with no [orth] whose Beta Code key is [lo/gos]. *)
Definition key_only_entry : element :=
  Element "entry" [("key"%string, γ"lo/gos"); ("type"%string, γ"main")] None
    [Element "sense" [("n"%string, γ"A")] None
       [Element "trans" [] None [Element "tr" [] (Some γ"word") [] None] None] None] None.

(** In Beta Code [)] is the smooth breathing and [(] the rough one;
    [parse_entry_key] maps [)] to U+1FFE GREEK DASIA, the rough breathing,
    and [(] to U+1FBF GREEK PSILI, the smooth one. *)
Example parse_entry_key_breathings :
  parse_entry_key γ"a)" = [97; 0x1FFE] /\ parse_entry_key γ"a(" = [97; 0x1FBF].
Proof. split; reflexivity. Qed.

(** The entry of [key_only_entry] is kept with the headword [lógos]
    and an empty normal form. *)
Example key_only_entry_parsed :
  option_map le_headword (parse_entry key_only_entry) = Some (γ"lo" ++ [0x301] ++ γ"gos") /\
  option_map le_headword_normalized (parse_entry key_only_entry) = Some [].
Proof. split; vm_compute; reflexivity. Qed.

(** White space at the edges of a child is stripped with it, so the words
    around an inline element run together: [<tr>to<i> speak </i>well</tr>]
    gives [tospeakwell], where its text is [to speak well]. *)
Example extract_text_content_merges :
  let e := Element "tr" [] (Some γ"to") [Element "i" [] (Some γ" speak ") [] (Some γ"well")] None in
  extract_text_content e = γ"tospeakwell" /\ itertext e = γ"to speak well".
Proof. split; vm_compute; reflexivity. Qed.

Lemma parse_entry_key_ascii_witness :
  Forall (fun c => 0 <= c < 128) γ"lo/gos" /\ normalize_greek (parse_entry_key γ"lo/gos") = [].
Proof.
  split; [apply (bool_decide_unpack _); vm_compute; reflexivity|].
  apply (parse_entry_key_ascii γ"lo/gos"). apply (bool_decide_unpack _). vm_compute. reflexivity.
Defined.
