(* ===== verification/Tei.v ===== *)
(** * Shared pieces of the Perseus text processing

    The functions of create_perseus_database.py that read the TEI texts
    and translations (lines 611-1815) share a vocabulary: tests on tags
    ([elem.tag.endswith('p')], ['title' in elem.tag.lower()]) and on
    attributes, Python's [str.isdigit], [int()], [str()] and the format
    [{:03d}], the sentence splitter [re.split(r'[.!?·;]\s+', text)], the
    filters of editorial notes, and the tables the texts fill: [authors],
    [works], [books], [text_lines], [words] and [translation_segments]
    (lines 2507-2606).  This file holds them; the tables are lists of rows
    in rowid order, as in [LemmaMap]. *)

From S2P Require Import Prelude Unicode Normalize Xml.

(** ** Tags and attributes *)

(** The text of an [ET.tostring] column: the element itself stands for
    its serialisation, which is not modelled; the prose paths store ['']. *)
Inductive xml_column :=
  | XmlText (s : pystr)
  | XmlOf (e : element).

Section Vocabulary.
Context `{UnicodeDB}.

(** [elem.tag.endswith(s)]: a suffix of the tag, so that [sp] ends with
    [p] and [label] with [l]. *)
Definition tag_ends (e : element) (s : String.string) : bool := endswith (utf8 (tag e)) (utf8 s).

(** [s in elem.tag.lower()] *)
Definition tag_has (e : element) (s : String.string) : bool := contains (py_lower (utf8 (tag e))) (utf8 s).

(** [elem.get(k) == v] *)
Definition attr_is (e : element) (k : String.string) (v : pystr) : bool :=
  bool_decide (elem_get e k = Some v).

(** [elem.get(k) in [v1, ...]] *)
Definition attr_in (e : element) (k : String.string) (vs : list pystr) : bool :=
  match elem_get e k with Some v => bool_decide (v ∈ vs) | None => false end.

(** [elem.get(k, '').lower() == v] *)
Definition attr_lower_is (e : element) (k : String.string) (v : pystr) : bool :=
  bool_decide (py_lower (elem_get_or e k []) = v).

(** [div] elements of type [textpart] and a subtype of [vs]. *)
Definition is_textpart (e : element) (vs : list pystr) : bool :=
  tag_ends e "div" && attr_is e "type" γ"textpart" && attr_in e "subtype" vs.

(** [div.get('subtype', '').lower() == 'book'] *)
Definition is_book_div (e : element) : bool :=
  tag_ends e "div" && attr_is e "type" γ"textpart" && attr_lower_is e "subtype" γ"book".

Definition sections_chapters : list pystr := [γ"section"; γ"chapter"].

(** ** Numbers *)

(** [s.isdigit()]: non-empty and every character a digit. *)
Definition py_isdigit (s : pystr) : bool :=
  match s with [] => false | _ => forallb ucd_isdigit s end.

(** The digits of [int()] in base 10: decimal digits with single
    underscores between them. *)
Fixpoint digits_aux (s : pystr) (acc : list Z) : option (list Z) :=
  match s with
  | [] => Some (rev acc)
  | c :: s' =>
      match ucd_decimal c with
      | Some d => digits_aux s' (d :: acc)
      | None =>
          if c =? 95 then
            match s' with
            | c2 :: _ => if ucd_decimal c2 is Some _ then digits_aux s' acc else None
            | [] => None
            end
          else None
      end
  end.

Definition parse_digits (s : pystr) : option (list Z) :=
  match s with
  | c :: _ => if ucd_decimal c is Some _ then digits_aux s [] else None
  | [] => None
  end.

Definition digits_value (ds : list Z) : Z := fold_left (fun acc d => acc * 10 + d) ds 0.

(** The optional sign of [int()]. *)
Definition sign_split (s : pystr) : bool * pystr :=
  match s with
  | c :: r => if c =? 45 then (true, r) else if c =? 43 then (false, r) else (false, s)
  | [] => (false, [])
  end.

(** [int(s)]: [None] where Python raises [ValueError]. *)
Definition py_int (s : pystr) : option Z :=
  let s := py_strip s in
  let '(neg, body) := sign_split s in
  match parse_digits body with
  | Some ds => Some (if neg then - digits_value ds else digits_value ds)
  | None => None
  end.
End Vocabulary.

(** [str(n)] of a non-negative integer, [fuel] bounding its digits. *)
Fixpoint digits_fuel (fuel : nat) (n : Z) (acc : pystr) : pystr :=
  match fuel with
  | O => acc
  | S f => let acc := (48 + n mod 10) :: acc in if n <? 10 then acc else digits_fuel f (n / 10) acc
  end.

Definition nat_digits (n : Z) : pystr := digits_fuel (S (Z.to_nat (Z.log2 n))) n [].

(** [str(n)] *)
Definition py_str_Z (n : Z) : pystr := if n <? 0 then 45 :: nat_digits (- n) else nat_digits n.

(** [f"{n:03d}"]: at least three characters, zeros after the sign. *)
Definition fmt03d (n : Z) : pystr :=
  let d := nat_digits (Z.abs n) in
  let width := if n <? 0 then 2%nat else 3%nat in
  (if n <? 0 then [45] else []) ++ repeat 48 (width - length d) ++ d.

Section Sentences.
Context `{UnicodeDB}.

(** The classes of the two splitters: [[.!?·;]] for Greek, [[.!?]] for
    Latin ([·] is U+00B7). *)
Definition greek_stops : list Z := [46; 33; 63; 0xB7; 59].
Definition latin_stops : list Z := [46; 33; 63].

Definition stops_of (language : String.string) : list Z :=
  if String.eqb language "greek" then greek_stops else latin_stops.

Definition next_is_space (s : pystr) : bool :=
  match s with d :: _ => ucd_isspace d | [] => false end.

(** [re.split(r'[P]\s+', text)]: a separator is a character of [P]
    followed by the longest run of white space; [skip] is set while the
    run of a separator is consumed. *)
Fixpoint split_stops_aux (P : list Z) (skip : bool) (cur : pystr) (s : pystr) : list pystr :=
  match s with
  | [] => [rev cur]
  | c :: s' =>
      if skip && ucd_isspace c then split_stops_aux P true cur s'
      else if bool_decide (c ∈ P) && next_is_space s' then rev cur :: split_stops_aux P true [] s'
      else split_stops_aux P false (c :: cur) s'
  end.

Definition split_stops (P : list Z) (text : pystr) : list pystr := split_stops_aux P false [] text.

(** [re.match(r'^[A-Z]:', s)] *)
Definition note_prefix (s : pystr) : bool :=
  match s with c :: 58 :: _ => (65 <=? c) && (c <=? 90) | _ => false end.

(** The filter of lines 1275-1281 (and 1365-1371): long enough, and not
    an editorial note; [with_id] adds the test on [id.], which the
    filter of lines 1418-1423 lacks. *)
Definition keep_sentence (min_len : nat) (with_id : bool) (s : pystr) : bool :=
  (min_len <? length s)%nat && negb (note_prefix s) &&
  negb (startswith s γ"em.") && negb (startswith s γ"add.") &&
  negb (contains s γ"Nauck") && negb (contains s γ"Mullach") &&
  negb (with_id && startswith s γ"id.").
End Sentences.

(** ** The tables *)

Record author_row := AuthorRow {
  a_id : pystr; a_name : pystr; a_name_alt : option pystr; a_language : String.string;
  a_has_translations : Z
}.

Record work_row := WorkRow {
  wk_id : pystr; wk_author_id : pystr; wk_title : pystr; wk_title_alt : option pystr;
  wk_title_english : pystr; wk_type : pystr; wk_urn : pystr; wk_description : pystr
}.

Record book_row := BookRow {
  b_id : pystr; b_work_id : pystr; b_number : Z; b_label : pystr;
  b_start_line : Z; b_end_line : Z; b_line_count : Z
}.

Record line_row := LineRow {
  l_book_id : pystr; l_number : Z; l_text : pystr; l_xml : xml_column; l_speaker : option pystr
}.

Record word_row := WordRow {
  w_word : pystr; w_normalized : pystr; w_book_id : pystr; w_line : Z; w_position : Z
}.

Record segment_row := SegmentRow {
  sg_book_id : pystr; sg_start : Z; sg_end : Z; sg_text : pystr; sg_translator : pystr;
  sg_speaker : option pystr
}.

(** The text tables of the database. *)
Record corpus := Corpus {
  authors : list author_row;
  works : list work_row;
  books : list book_row;
  text_lines : list line_row;
  words : list word_row;
  segments : list segment_row
}.

Definition empty_corpus : corpus := Corpus [] [] [] [] [] [].

Definition set_books (db : corpus) (bs : list book_row) : corpus :=
  Corpus (authors db) (works db) bs (text_lines db) (words db) (segments db).

(** [INSERT OR IGNORE INTO books]: the key is [id]. *)
Definition insert_book_or_ignore (b : book_row) (db : corpus) : corpus :=
  if existsb (fun b' => bool_decide (b_id b' = b_id b)) (books db) then db
  else set_books db (books db ++ [b]).

(** [INSERT OR REPLACE INTO books]: the old row is deleted, the new one
    appended. *)
Definition insert_book_or_replace (b : book_row) (db : corpus) : corpus :=
  set_books db (List.filter (fun b' => negb (bool_decide (b_id b' = b_id b))) (books db) ++ [b]).

(** [INSERT (OR IGNORE) INTO text_lines]: no key but the row id; every
    column the code passes as [NOT NULL] is set. *)
Definition insert_line (r : line_row) (db : corpus) : corpus :=
  Corpus (authors db) (works db) (books db) (text_lines db ++ [r]) (words db) (segments db).

(** [DELETE FROM text_lines WHERE book_id = ?] *)
Definition delete_lines (book_id : pystr) (db : corpus) : corpus :=
  Corpus (authors db) (works db) (books db)
    (List.filter (fun r => negb (bool_decide (l_book_id r = book_id))) (text_lines db))
    (words db) (segments db).

Definition insert_word (r : word_row) (db : corpus) : corpus :=
  Corpus (authors db) (works db) (books db) (text_lines db) (words db ++ [r]) (segments db).

(** [INSERT OR IGNORE INTO translation_segments]: no key but the row id. *)
Definition insert_segment (r : segment_row) (db : corpus) : corpus :=
  Corpus (authors db) (works db) (books db) (text_lines db) (words db) (segments db ++ [r]).

Section Words.
Context `{UnicodeDB}.

(** The words of one line (lines 1449-1461 and their copies):
    [line['text'].split()], numbered from 1, normalised with
    [normalize_greek] or [lower()], kept when the normal form is not
    empty. *)
Definition word_rows (language : String.string) (book_id : pystr) (line_number : Z) (text : pystr)
    : list word_row :=
  omap (fun iw : nat * pystr =>
          let '(i, w) := iw in
          let norm := if String.eqb language "greek" then normalize_greek w else py_lower w in
          match norm with
          | [] => None
          | _ => Some (WordRow w norm book_id line_number (Z.of_nat (S i)))
          end)
    (imap pair (split_ws text)).

Definition insert_words (language : String.string) (book_id : pystr) (line_number : Z) (text : pystr)
    (db : corpus) : corpus :=
  fold_left (fun db r => insert_word r db) (word_rows language book_id line_number text) db.

(** A line inserted with its words, as every text path does. *)
Definition insert_line_words (language : String.string) (r : line_row) (db : corpus) : corpus :=
  insert_words language (l_book_id r) (l_number r) (l_text r) (insert_line r db).
End Words.

(** ** Numbers: [int()] reads back [str()] and [{:03d}] *)

Lemma digits_value_snoc ds d : digits_value (ds ++ [d]) = digits_value ds * 10 + d.
Proof. unfold digits_value. by rewrite fold_left_app. Qed.

(** [str(n)] of a non-negative [n]: ASCII digits whose value is [n]. *)
Lemma digits_fuel_S f n acc :
  digits_fuel (S f) n acc =
  if n <? 10 then (48 + n mod 10) :: acc else digits_fuel f (n / 10) ((48 + n mod 10) :: acc).
Proof. reflexivity. Qed.

Lemma digits_fuel_spec f n acc :
  0 <= n < 10 ^ Z.of_nat (S f) ->
  exists ds, ds <> [] /\ Forall (fun d => 0 <= d <= 9) ds /\ digits_value ds = n /\
    digits_fuel (S f) n acc = map (fun d => 48 + d) ds ++ acc.
Proof.
  revert n acc; induction f as [|f IH]; intros n acc Hn.
  - simpl in Hn. simpl. replace (n <? 10) with true by (symmetry; apply Z.ltb_lt; lia).
    exists [n]. split; [done|]. split; [constructor; [lia|constructor]|].
    split; [done|]. simpl. by rewrite Z.mod_small by lia.
  - rewrite digits_fuel_S. destruct (n <? 10) eqn:E.
    + apply Z.ltb_lt in E. exists [n]. split; [done|]. split; [constructor; [lia|constructor]|].
      split; [done|]. simpl. by rewrite Z.mod_small by lia.
    + apply Z.ltb_ge in E.
      destruct (IH (n / 10) ((48 + n mod 10) :: acc)) as (ds & Hne & Hds & Hv & ->).
      { split; [apply Z.div_pos; lia|]. apply Z.div_lt_upper_bound; [lia|].
        rewrite (Nat2Z.inj_succ (S f)), Z.pow_succ_r in Hn by lia. lia. }
      exists (ds ++ [n mod 10]). split; [by destruct ds|].
      split; [apply Forall_app; split; [done|constructor; [pose proof (Z.mod_pos_bound n 10); lia|constructor]]|].
      split; [rewrite digits_value_snoc, Hv; pose proof (Z.div_mod n 10); lia|].
      by rewrite map_app, <- app_assoc.
Qed.

Lemma nat_digits_spec n :
  0 <= n ->
  exists ds, ds <> [] /\ Forall (fun d => 0 <= d <= 9) ds /\ digits_value ds = n /\
    nat_digits n = map (fun d => 48 + d) ds.
Proof.
  intros Hn. unfold nat_digits.
  destruct (digits_fuel_spec (Z.to_nat (Z.log2 n)) n [] ) as (ds & ? & ? & ? & E).
  - split; [done|]. destruct (Z.eq_dec n 0) as [->|Hn0]; [simpl; lia|].
    pose proof (Z.log2_spec n ltac:(lia)) as [_ Hlt].
    rewrite Nat2Z.inj_succ, Z2Nat.id by apply Z.log2_nonneg.
    eapply Z.lt_le_trans; [exact Hlt|]. apply Z.pow_le_mono_l. split; [lia|lia].
  - exists ds. rewrite E, app_nil_r. auto.
Qed.

Lemma digits_value_zeros k ds : digits_value (repeat 0 k ++ ds) = digits_value ds.
Proof.
  unfold digits_value. rewrite fold_left_app. f_equal.
  induction k as [|k IH]; [done|]. exact IH.
Qed.

Section NumberLaws.
Context `{UnicodeLaws}.

Lemma ascii_digits_not_space ds :
  Forall (fun d => 0 <= d <= 9) ds -> Forall (fun c => ucd_isspace c = false) (map (fun d => 48 + d) ds).
Proof.
  induction 1 as [|d ds Hd Hds IH]; simpl; constructor; [apply ascii_not_space; lia|done].
Qed.

Lemma lstrip_nospace s : Forall (fun c => ucd_isspace c = false) s -> lstrip s = s.
Proof. destruct s as [|c s]; [done|]. intros [Hc _]%list.Forall_cons. cbn. by rewrite Hc. Qed.

Lemma py_strip_nospace s : Forall (fun c => ucd_isspace c = false) s -> py_strip s = s.
Proof.
  intros Hs. unfold py_strip. rewrite (lstrip_nospace s Hs), (lstrip_nospace (rev s)).
  - apply rev_involutive.
  - by apply Forall_rev.
Qed.

Lemma digits_aux_ascii ds acc :
  Forall (fun d => 0 <= d <= 9) ds -> digits_aux (map (fun d => 48 + d) ds) acc = Some (rev acc ++ ds).
Proof.
  revert acc; induction ds as [|d ds IH]; intros acc Hds; simpl; [by rewrite app_nil_r|].
  apply list.Forall_cons in Hds as [Hd Hds]. rewrite decimal_ascii by done.
  rewrite IH by done. simpl. by rewrite <- app_assoc.
Qed.

Lemma parse_digits_ascii ds :
  ds <> [] -> Forall (fun d => 0 <= d <= 9) ds -> parse_digits (map (fun d => 48 + d) ds) = Some ds.
Proof.
  intros Hne Hds. destruct ds as [|d ds']; [done|]. unfold parse_digits. cbn [map].
  apply list.Forall_cons in Hds as [Hd Hds']. rewrite decimal_ascii by done.
  rewrite <- (map_cons (fun d => 48 + d)). by rewrite digits_aux_ascii by (by constructor).
Qed.

Lemma py_int_digits ds :
  ds <> [] -> Forall (fun d => 0 <= d <= 9) ds ->
  py_int (map (fun d => 48 + d) ds) = Some (digits_value ds).
Proof.
  intros Hne Hds. unfold py_int. rewrite py_strip_nospace by (by apply ascii_digits_not_space).
  destruct ds as [|d ds']; [done|]. cbn [map sign_split].
  pose proof (proj1 (list.Forall_cons _ _ _) Hds) as [Hd _].
  replace (48 + d =? 45) with false by (symmetry; apply Z.eqb_neq; lia).
  replace (48 + d =? 43) with false by (symmetry; apply Z.eqb_neq; lia).
  rewrite <- (map_cons (fun d => 48 + d)). by rewrite parse_digits_ascii.
Qed.

Lemma py_int_neg_digits ds :
  ds <> [] -> Forall (fun d => 0 <= d <= 9) ds ->
  py_int (45 :: map (fun d => 48 + d) ds) = Some (- digits_value ds).
Proof.
  intros Hne Hds. unfold py_int. rewrite py_strip_nospace.
  - cbn [sign_split Z.eqb]. simpl. by rewrite parse_digits_ascii.
  - constructor; [apply ascii_not_space; lia|by apply ascii_digits_not_space].
Qed.

(** [int(str(n)) == n] *)
Theorem py_int_str n : py_int (py_str_Z n) = Some n.
Proof.
  unfold py_str_Z. destruct (n <? 0) eqn:E.
  - apply Z.ltb_lt in E. destruct (nat_digits_spec (- n)) as (ds & Hne & Hds & Hv & ->); [lia|].
    rewrite py_int_neg_digits by done. f_equal. lia.
  - apply Z.ltb_ge in E. destruct (nat_digits_spec n) as (ds & Hne & Hds & Hv & ->); [lia|].
    rewrite py_int_digits by done. by f_equal.
Qed.

(** [int(f"{n:03d}") == n]: a book id keeps its book number. *)
Theorem py_int_fmt03d n : py_int (fmt03d n) = Some n.
Proof.
  unfold fmt03d. destruct (nat_digits_spec (Z.abs n)) as (ds & Hne & Hds & Hv & ->); [lia|].
  set (k := Nat.sub (if n <? 0 then 2%nat else 3%nat) (length (map (fun d => 48 + d) ds))).
  replace (repeat 48 k ++ map (fun d => 48 + d) ds) with (map (fun d => 48 + d) (repeat 0 k ++ ds))
    by (rewrite map_app, map_repeat; do 2 f_equal).
  assert (Forall (fun d => 0 <= d <= 9) (repeat 0 k ++ ds)) as Hz
    by (apply Forall_app; split; [clear; induction k; constructor; [lia|done]|done]).
  assert (repeat 0 k ++ ds <> []) as Hnz by (destruct k; [done|discriminate]).
  destruct (n <? 0) eqn:E; cbn [app].
  - rewrite py_int_neg_digits, digits_value_zeros by done. apply Z.ltb_lt in E. f_equal. lia.
  - rewrite py_int_digits, digits_value_zeros by done. apply Z.ltb_ge in E. f_equal. lia.
Qed.
End NumberLaws.

(** ** The sentence splitter puts the text back together *)

(** The pieces with the separators between them. *)
Fixpoint weave (ps seps : list pystr) : pystr :=
  match ps, seps with
  | p :: ps', sep :: seps' => p ++ sep ++ weave ps' seps'
  | p :: _, [] => p
  | [], _ => []
  end.

Section Splitter.
Context `{UnicodeDB}.

(** A separator of [re.split(r'[P]\s+', _)]: a character of [P] and a
    non-empty run of white space. *)
Definition sep_ok (P : list Z) (sep : pystr) : Prop :=
  exists c ws, sep = c :: ws /\ c ∈ P /\ ws <> [] /\ Forall (fun d => ucd_isspace d = true) ws.

Definition starts_nonspace (s : pystr) : Prop :=
  match s with d :: _ => ucd_isspace d = false | [] => True end.

Lemma split_stops_aux_spec P s : forall skip cur,
  (skip = true -> cur = []) ->
  exists lead rest seps,
    s = lead ++ rest /\ Forall (fun d => ucd_isspace d = true) lead /\
    (skip = false -> lead = []) /\ (skip = true -> starts_nonspace rest) /\
    length (split_stops_aux P skip cur s) = S (length seps) /\ Forall (sep_ok P) seps /\
    weave (split_stops_aux P skip cur s) seps = rev cur ++ rest.
Proof.
  induction s as [|c s IH]; intros skip cur Hcur; cbn [split_stops_aux].
  { exists [], [], []. repeat split; try done. simpl. by rewrite app_nil_r. }
  destruct (skip && ucd_isspace c) eqn:E1.
  - apply andb_true_iff in E1 as [-> Hc]. rewrite (Hcur eq_refl).
    destruct (IH true [] (fun _ => eq_refl)) as (lead & rest & seps & -> & Hl & _ & Hmax & Hlen & Hs & Hw).
    exists (c :: lead), rest, seps. split; [done|]. split; [by constructor|].
    split; [discriminate|]. auto.
  - destruct (bool_decide (c ∈ P) && next_is_space s) eqn:E2.
    + apply andb_true_iff in E2 as [Hc%bool_decide_eq_true Hn].
      destruct (IH true [] (fun _ => eq_refl)) as (lead & rest & seps & -> & Hl & _ & Hmax & Hlen & Hs & Hw).
      exists [], (c :: lead ++ rest), ((c :: lead) :: seps). split; [done|].
      split; [constructor|]. split; [done|].
      split; [intros ->; simpl in E1; cbn; by destruct (ucd_isspace c)|].
      split; [simpl; by rewrite Hlen|]. split.
      * constructor; [|done]. exists c, lead. split; [done|]. split; [done|]. split; [|done].
        intros ->. specialize (Hmax eq_refl). unfold starts_nonspace in Hmax.
        destruct rest as [|d rest]; cbn in Hn; congruence.
      * cbn [weave]. rewrite Hw. simpl. done.
    + destruct (IH false (c :: cur) ltac:(intros Hf; discriminate Hf)) as (lead & rest & seps & -> & Hl & Hl0 & _ & Hlen & Hs & Hw).
      rewrite (Hl0 eq_refl) in *. exists [], (c :: rest), seps. split; [done|].
      split; [constructor|]. split; [done|].
      split; [intros ->; simpl in E1; cbn; by destruct (ucd_isspace c)|].
      split; [done|]. split; [done|]. rewrite Hw. simpl. by rewrite <- app_assoc.
Qed.

(** [re.split] loses nothing: the text is its pieces with the separators
    between them, each separator a stop and a run of white space. *)
Theorem split_stops_roundtrip P text :
  exists seps, length (split_stops P text) = S (length seps) /\ Forall (sep_ok P) seps /\
    weave (split_stops P text) seps = text.
Proof.
  destruct (split_stops_aux_spec P text false [] ltac:(intros Hf; discriminate Hf))
    as (lead & rest & seps & -> & _ & Hl0 & _ & Hlen & Hs & Hw).
  rewrite (Hl0 eq_refl) in *. exists seps. split; [exact Hlen|]. split; [exact Hs|]. exact Hw.
Qed.
End Splitter.

(** ** Every text line belongs to a book *)

(** [SELECT 1 FROM books WHERE id = ?] *)
Definition has_book (db : corpus) (id : pystr) : bool :=
  existsb (fun b => bool_decide (b_id b = id)) (books db).

(** The foreign key of [text_lines.book_id] (line 2566), which SQLite
    does not enforce by default. *)
Definition lines_have_books (db : corpus) : Prop :=
  Forall (fun r => has_book db (l_book_id r) = true) (text_lines db).

(** A change of the tables that keeps every book and adds lines only to
    books it has. *)
Definition extends (db db' : corpus) : Prop :=
  (forall id, has_book db id = true -> has_book db' id = true) /\
  (forall r, r ∈ text_lines db' -> r ∈ text_lines db \/ has_book db' (l_book_id r) = true).

#[export] Instance extends_preorder : PreOrder extends.
Proof.
  split.
  - intros db. split; [done|]. by left.
  - intros db1 db2 db3 [Hb12 Hl12] [Hb23 Hl23]. split; [auto|].
    intros r [Hr|Hr]%Hl23; [|by right]. destruct (Hl12 r Hr) as [|Hb]; [by left|right; auto].
Qed.

Lemma lines_have_books_extends db db' : lines_have_books db -> extends db db' -> lines_have_books db'.
Proof.
  intros Hdb [Hb Hl]. apply list.Forall_forall. intros r [Hr|Hr]%Hl; [|done].
  apply Hb. by apply (proj1 (list.Forall_forall _ _) Hdb).
Qed.

Lemma has_book_spec db id : has_book db id = true <-> exists b, b ∈ books db /\ b_id b = id.
Proof.
  unfold has_book. rewrite existsb_exists. split.
  - intros (b & Hb & Hid%bool_decide_eq_true). exists b. by rewrite list_elem_of_In.
  - intros (b & Hb & Hid). exists b. rewrite <- list_elem_of_In. split; [done|by apply bool_decide_eq_true].
Qed.

Lemma insert_book_or_ignore_extends b db :
  extends db (insert_book_or_ignore b db) /\ has_book (insert_book_or_ignore b db) (b_id b) = true.
Proof.
  unfold insert_book_or_ignore. destruct (existsb _ _) eqn:E; [split; [reflexivity|exact E]|].
  split; [split|].
  - intros id (b' & Hb' & <-)%has_book_spec. apply has_book_spec. exists b'. cbn. set_solver.
  - intros r Hr. by left.
  - apply has_book_spec. exists b. cbn. set_solver.
Qed.

Lemma insert_book_or_replace_extends b db :
  extends db (insert_book_or_replace b db) /\ has_book (insert_book_or_replace b db) (b_id b) = true.
Proof.
  assert (has_book (insert_book_or_replace b db) (b_id b) = true) as Hb
    by (apply has_book_spec; exists b; cbn; set_solver).
  split; [split|done].
  - intros id (b' & Hb' & <-)%has_book_spec.
    destruct (decide (b_id b' = b_id b)) as [->|Hne]; [done|].
    apply has_book_spec. exists b'. split; [|done]. cbn. apply elem_of_app. left.
    apply list_elem_of_In, filter_In. split; [by apply list_elem_of_In|].
    by rewrite bool_decide_eq_false_2.
  - intros r Hr. by left.
Qed.

Lemma delete_lines_extends id db : extends db (delete_lines id db).
Proof.
  split; [done|]. intros r Hr. left. cbn in Hr.
  apply list_elem_of_In, filter_In in Hr as [Hr _]. by apply list_elem_of_In.
Qed.

Lemma insert_line_extends r db : has_book db (l_book_id r) = true -> extends db (insert_line r db).
Proof.
  intros Hb. split; [done|]. intros r' Hr'. cbn in Hr'.
  apply elem_of_app in Hr' as [| ->%list_elem_of_singleton]; [by left|by right].
Qed.

Section WordFrame.
Context `{UnicodeDB}.

Lemma insert_words_books language id n t db :
  books (insert_words language id n t db) = books db /\ text_lines (insert_words language id n t db) = text_lines db.
Proof.
  unfold insert_words. generalize (word_rows language id n t). intros ws.
  revert db; induction ws as [|w ws IH]; intros db; [done|]. cbn [fold_left].
  destruct (IH (insert_word w db)) as [-> ->]. done.
Qed.

Lemma insert_words_extends language id n t db : extends db (insert_words language id n t db).
Proof.
  destruct (insert_words_books language id n t db) as [Hb Hl].
  split; [unfold has_book; by rewrite Hb|]. rewrite Hl. by left.
Qed.

Lemma insert_line_words_extends language r db :
  has_book db (l_book_id r) = true -> extends db (insert_line_words language r db).
Proof.
  intros Hb. unfold insert_line_words. etrans; [by apply insert_line_extends|apply insert_words_extends].
Qed.
End WordFrame.

Lemma py_int_fmt03d_witness : py_int (fmt03d 7) = Some 7 /\ py_int (fmt03d (-12)) = Some (-12).
Proof. split; [apply (py_int_fmt03d 7)|apply (py_int_fmt03d (-12))]. Defined.
