(* ===== verification/Texts.v ===== *)
(** * The Greek and Latin texts: process_text_file and the prose paths

    [process_text_file] (create_perseus_database.py:1465-1687) parses one
    TEI file and fills [books], [text_lines] and [words] by one of four
    paths: prose ([process_prose_text], lines 1314-1463, which hands works
    with book divisions to [process_prose_with_books], lines 1227-1312),
    drama (one book, lines sorted by their [n]), poetry by book divisions,
    and poetry as a single book.  Its [try] catches every exception, so
    the rows inserted before an exception stay: the model returns the
    tables and the exception, if any. *)

From Stdlib Require Import Sorting.Sorted.
From S2P Require Import Prelude Unicode Normalize Xml Tei.

(** What [process_text_file] catches. *)
Inductive text_error :=
  | ParseError                 (** [ET.parse] raised *)
  | ValueError (s : pystr).    (** [int(s)] raised *)

(** A line before insertion: its number, text, XML and speaker. *)
Record pending_line := PLine {
  pl_number : Z;
  pl_text : pystr;
  pl_xml : xml_column;
  pl_speaker : option pystr
}.

Section Texts.
Context `{UnicodeDB}.

(** [''.join(p.itertext()).strip()] *)
Definition p_text (p : element) : pystr := py_strip (itertext p).

(** The sentences of one paragraph (lines 1262-1288): a text longer than
    5 characters, split, each piece stripped and filtered. *)
Definition para_sentences (language : String.string) (p : element) : list pystr :=
  let text := p_text p in
  if (5 <? length text)%nat then
    List.filter (keep_sentence 10 true) (map py_strip (split_stops (stops_of language) text))
  else [].

(** The sentences of the paragraphs of a section, in document order. *)
Definition section_sentences (language : String.string) (sec : element) : list pystr :=
  concat (map (para_sentences language) (List.filter (fun p => tag_ends p "p") (iter sec))).

(** Lines numbered from [start + 1]. *)
Definition number_from (start : Z) (texts : list pystr) : list pending_line :=
  imap (fun i s => PLine (start + Z.of_nat (S i)) s (XmlText []) None) texts.

(** [re.sub(r'\s+', ' ', text)] *)
Fixpoint collapse_ws_aux (in_ws : bool) (s : pystr) : pystr :=
  match s with
  | [] => []
  | c :: s' =>
      if ucd_isspace c then (if in_ws then collapse_ws_aux true s' else 32 :: collapse_ws_aux true s')
      else c :: collapse_ws_aux false s'
  end.

Definition collapse_ws (s : pystr) : pystr := collapse_ws_aux false s.

(** Lines 1384-1394: a section without paragraphs contributes its own
    text (the only element of [elem.iter()] that passes the test, since
    no descendant ends with [p]). *)
Definition direct_text (sec : element) : pystr :=
  collapse_ws (join γ" " (List.filter nonempty
    (imap (fun i te =>
             if (tag_ends te "p" || (tag_ends te "div" && bool_decide (i = 0%nat))) &&
                negb (tag_ends te "note" || tag_ends te "milestone")
             then py_strip (opt_str (text te)) else [])
       (iter sec)))).

(** Lines 1397-1407: the texts of the children that are not notes,
    milestones or anchored. *)
Definition children_text (sec : element) : pystr :=
  collapse_ws (join γ" " (List.filter nonempty
    (map (fun c =>
            if tag_ends c "note" || tag_ends c "milestone" ||
               existsb (fun kv => String.eqb kv.1 "anchored") (attrib c)
            then [] else py_strip (itertext c))
       (children sec)))).

(** Lines 1381-1429: the sentences of a section without paragraphs. *)
Definition bare_section_sentences (language : String.string) (sec : element) : list pystr :=
  let text := direct_text sec in
  let text := if (length text <? 20)%nat then children_text sec else text in
  if (20 <? length text)%nat then
    List.filter (keep_sentence 20 false) (map py_strip (split_stops (stops_of language) text))
  else [].

(** One section of [process_prose_text] (lines 1338-1429). *)
Definition prose_section_sentences (language : String.string) (sec : element) : list pystr :=
  if existsb (fun p => tag_ends p "p") (iter sec) then section_sentences language sec
  else bare_section_sentences language sec.
End Texts.

Section Processing.
Context `{UnicodeDB}.

(** The lines of one book of [process_prose_with_books] (lines
    1253-1288): the sentences of every section or chapter of the book, in
    the order of [book_div.iter()]; a paragraph inside nested sections is
    read once for each of them. *)
Definition prose_book_sentences (language : String.string) (book_div : element) : list pystr :=
  concat (map (section_sentences language)
    (List.filter (fun e => is_textpart e sections_chapters) (iter book_div))).

Definition insert_plain_lines (book_id : pystr) (ls : list pending_line) (db : corpus) : corpus :=
  fold_left (fun db pl => insert_line (LineRow book_id (pl_number pl) (pl_text pl) (pl_xml pl) (pl_speaker pl)) db)
    ls db.

Definition insert_lines_words (language : String.string) (book_id : pystr) (ls : list pending_line)
    (db : corpus) : corpus :=
  fold_left (fun db pl =>
      insert_line_words language (LineRow book_id (pl_number pl) (pl_text pl) (pl_xml pl) (pl_speaker pl)) db)
    ls db.

(** The loop body of lines 1234-1309; the state is the tables and
    [books_processed]. *)
Definition prose_book_step (work_id : pystr) (language : String.string) (st : corpus * Z)
    (book_div : element) : corpus * Z :=
  let '(db, n) := st in
  if is_book_div book_div then
    let book_n := elem_get_or book_div "n" (py_str_Z (n + 1)) in
    let book_num := match py_int book_n with Some k => k | None => n + 1 end in
    let book_id := work_id ++ γ"." ++ fmt03d book_num in
    let ls := number_from 0 (prose_book_sentences language book_div) in
    let db := match ls with
              | [] => db
              | _ =>
                  let len := Z.of_nat (length ls) in
                  insert_plain_lines book_id ls
                    (delete_lines book_id
                      (insert_book_or_replace
                        (BookRow book_id work_id book_num (γ"Book " ++ py_str_Z book_num) 1 len len) db))
              end in
    (db, n + 1)
  else (db, n).

(** [process_prose_with_books], lines 1227-1312: no [words] rows. *)
Definition process_prose_with_books (root : element) (work_id : pystr) (language : String.string)
    (db : corpus) : corpus :=
  fst (fold_left (prose_book_step work_id language) (iter root) (db, 0)).

(** [process_prose_text], lines 1314-1463 *)
Definition process_prose_text (root : element) (work_id : pystr) (language : String.string)
    (db : corpus) : corpus :=
  if existsb is_book_div (iter root) then process_prose_with_books root work_id language db
  else
    let book_id := work_id ++ γ".001" in
    let ls := number_from 0 (concat (map (prose_section_sentences language)
                (List.filter (fun e => is_textpart e sections_chapters) (iter root)))) in
    match ls with
    | [] => db
    | _ =>
        let len := Z.of_nat (length ls) in
        insert_lines_words language book_id ls
          (insert_book_or_ignore (BookRow book_id work_id 1 γ"Complete Text" 1 len len) db)
    end.

(** The texts a line is dropped for (lines 1522, 1593 and 1646). *)
Definition drama_skips : list pystr := [γ"Gregory Crane"; γ"pointer pattern"; γ"This pointer"].
Definition poem_skips : list pystr := [γ"Gregory Crane"; γ"pointer pattern"].

Definition skipped (skips : list pystr) (t : pystr) : bool := existsb (contains t) skips.

(** The loop body of lines 1512-1528: the current speaker and the lines
    so far; [int(line_n)] raises on a digit that is not decimal. *)
Definition drama_step (st : option pystr * list pending_line) (e : element)
    : (option pystr * list pending_line) * option text_error :=
  let '(speaker, acc) := st in
  let speaker := if tag_ends e "speaker" then text e else speaker in
  if tag_ends e "l" then
    match elem_get e "n" with
    | Some line_n =>
        if nonempty line_n && py_isdigit line_n then
          let t := p_text e in
          if nonempty t && negb (skipped drama_skips t) then
            match py_int line_n with
            | Some k => ((speaker, acc ++ [PLine k t (XmlOf e) speaker]), None)
            | None => ((speaker, acc), Some (ValueError line_n))
            end
          else ((speaker, acc), None)
        else ((speaker, acc), None)
    | None => ((speaker, acc), None)
    end
  else ((speaker, acc), None).

(** [lines.sort(key=lambda x: x['number'])]: Python's sort is stable. *)
Fixpoint insert_by_number (x : pending_line) (l : list pending_line) : list pending_line :=
  match l with
  | [] => [x]
  | y :: l' => if pl_number x <? pl_number y then x :: l else y :: insert_by_number x l'
  end.

Definition sort_by_number (l : list pending_line) : list pending_line :=
  fold_left (fun acc x => insert_by_number x acc) l [].

(** The drama path, lines 1505-1565. *)
Definition process_drama (root : element) (work_id : pystr) (language : String.string) (db : corpus)
    : corpus * option text_error :=
  match fold_exc drama_step (iter root) (None, []) with
  | (_, Some err) => (db, Some err)
  | ((_, ls), None) =>
      let ls := sort_by_number ls in
      let book_id := work_id ++ γ".001" in
      match ls with
      | [] => (db, None)
      | _ =>
          let len := Z.of_nat (length ls) in
          (insert_lines_words language book_id ls
             (insert_book_or_ignore (BookRow book_id work_id 1 γ"Complete Text" 1 len len) db), None)
      end
  end.

(** The lines of a book of verse (lines 1588-1598 and 1641-1651): every
    [l] or [line] element counts, the kept ones carry their count. *)
Definition verse_lines (div : element) : list pending_line :=
  omap (fun ix : nat * element =>
          let '(i, x) := ix in
          let t := p_text x in
          if nonempty t && negb (skipped poem_skips t)
          then Some (PLine (Z.of_nat (S i)) t (XmlOf x) None) else None)
    (imap pair (List.filter (fun x => tag_ends x "l" || tag_ends x "line") (iter div))).

(** The loop body of lines 1571-1634; the state is the tables and
    [books_processed]. *)
Definition verse_book_step (work_id : pystr) (language : String.string) (st : corpus * Z)
    (div : element) : (corpus * Z) * option text_error :=
  let '(db, n) := st in
  if tag_ends div "div" && attr_is div "type" γ"textpart" && attr_lower_is div "subtype" γ"book" then
    let div_n := elem_get_or div "n" [] in
    match (if py_isdigit div_n then py_int div_n else Some (n + 1)) with
    | None => ((db, n), Some (ValueError div_n))
    | Some book_num =>
        let book_id := work_id ++ γ"." ++ fmt03d book_num in
        match verse_lines div with
        | [] => ((db, n), None)
        | ls =>
            let len := Z.of_nat (length ls) in
            ((insert_lines_words language book_id ls
                (insert_book_or_ignore
                   (BookRow book_id work_id book_num (γ"Book " ++ py_str_Z book_num) 1 len len) db),
              n + 1), None)
        end
    end
  else ((db, n), None).

(** Lines 1636-1682: the whole text as one book when no book was kept. *)
Definition verse_single_book (root : element) (work_id : pystr) (language : String.string)
    (db : corpus) : corpus :=
  let book_id := work_id ++ γ".001" in
  match verse_lines root with
  | [] => db
  | ls =>
      let len := Z.of_nat (length ls) in
      insert_lines_words language book_id ls
        (insert_book_or_ignore (BookRow book_id work_id 1 γ"Book 1" 1 len len) db)
  end.

Definition drama_authors : list pystr := [γ"tlg0085"; γ"tlg0011"; γ"tlg0006"; γ"tlg0019"].
Definition prose_authors : list pystr :=
  [γ"tlg0007"; γ"tlg0016"; γ"tlg0003"; γ"tlg0032"; γ"tlg0059"; γ"tlg0086"].

(** [s.split(sep)[0]] for a one-character separator. *)
Fixpoint before_char (sep : Z) (s : pystr) : pystr :=
  match s with [] => [] | c :: s' => if c =? sep then [] else c :: before_char sep s' end.

(** [work_id.split('.')[0]] *)
Definition author_of_work (work_id : pystr) : pystr := before_char 46 work_id.

Definition count_where (f : element -> bool) (root : element) : nat := length (List.filter f (iter root)).

(** Lines 1487-1499 *)
Definition is_prose_text (root : element) (work_id : pystr) : bool :=
  let p_count := count_where (fun e => tag_ends e "p") root in
  let l_count := count_where (fun e => tag_ends e "l") root in
  let section_count := count_where (fun e => is_textpart e sections_chapters) root in
  bool_decide (author_of_work work_id ∈ prose_authors) ||
  ((0 <? p_count)%nat && (l_count * 2 <? p_count)%nat) ||
  ((0 <? section_count)%nat && (0 <? p_count)%nat && (section_count <=? p_count)%nat).

(** [process_text_file], lines 1465-1687; [parsed] is [ET.parse]'s tree,
    [None] when it raises. *)
Definition process_text_file (parsed : option element) (work_id : pystr) (language : String.string)
    (db : corpus) : corpus * option text_error :=
  match parsed with
  | None => (db, Some ParseError)
  | Some root =>
      if bool_decide (work_id = γ"tlg0086.tlg035") then (process_prose_with_books root work_id language db, None)
      else if is_prose_text root work_id then (process_prose_text root work_id language db, None)
      else if bool_decide (author_of_work work_id ∈ drama_authors) then process_drama root work_id language db
      else
        match fold_exc (verse_book_step work_id language) (iter root) (db, 0) with
        | ((db', _), Some err) => (db', Some err)
        | ((db', n), None) => (if n =? 0 then verse_single_book root work_id language db' else db', None)
        end
  end.
End Processing.

(** ** The drama lines are sorted stably *)

Definition le_number (x y : pending_line) : Prop := pl_number x <= pl_number y.

Definition with_number (k : Z) (l : list pending_line) : list pending_line :=
  List.filter (fun y => pl_number y =? k) l.

Lemma insert_by_number_perm x l : insert_by_number x l ≡ₚ x :: l.
Proof.
  induction l as [|y l IH]; simpl; [done|].
  destruct (pl_number x <? pl_number y); [done|].
  rewrite IH. apply Permutation_swap.
Qed.

Lemma insert_by_number_sorted x l :
  StronglySorted le_number l -> StronglySorted le_number (insert_by_number x l).
Proof.
  induction 1 as [|y l Hl IH Hy]; simpl; [repeat constructor|].
  destruct (pl_number x <? pl_number y) eqn:E.
  - apply Z.ltb_lt in E. constructor; [by constructor|].
    constructor; [unfold le_number; lia|].
    eapply list.Forall_impl; [exact Hy|]. unfold le_number. lia.
  - apply Z.ltb_ge in E. constructor; [exact IH|].
    apply list.Forall_forall. intros z Hz%(elem_of_Permutation_proper _ _ _ (insert_by_number_perm x l)).
    apply elem_of_cons in Hz as [->|Hz]; [unfold le_number; lia|].
    by apply (proj1 (list.Forall_forall _ _) Hy).
Qed.

Lemma with_number_none k l :
  Forall (fun z => k < pl_number z) l -> with_number k l = [].
Proof.
  induction 1 as [|z l Hz Hl IH]; simpl; [done|].
  by replace (pl_number z =? k) with false by (symmetry; apply Z.eqb_neq; lia).
Qed.

(** Among the lines of one number, insertion puts the new line last. *)
Lemma with_number_cons k y l :
  with_number k (y :: l) = (if pl_number y =? k then [y] else []) ++ with_number k l.
Proof. unfold with_number. cbn [List.filter]. by destruct (pl_number y =? k). Qed.

Lemma with_number_app k a b : with_number k (a ++ b) = with_number k a ++ with_number k b.
Proof. apply filter_app. Qed.

Lemma insert_by_number_filter k x l :
  StronglySorted le_number l ->
  with_number k (insert_by_number x l) =
  with_number k l ++ (if pl_number x =? k then [x] else []).
Proof.
  induction 1 as [|y l Hl IH Hy]; [reflexivity|].
  cbn [insert_by_number]. destruct (pl_number x <? pl_number y) eqn:E.
  - apply Z.ltb_lt in E. rewrite (with_number_cons k x (y :: l)).
    destruct (pl_number x =? k) eqn:Ex; [|by rewrite app_nil_r].
    apply Z.eqb_eq in Ex. rewrite (with_number_none k (y :: l)); [done|].
    constructor; [lia|]. eapply list.Forall_impl; [exact Hy|]. unfold le_number. lia.
  - rewrite !with_number_cons, IH. by rewrite app_assoc.
Qed.

Lemma sort_by_number_aux l acc :
  StronglySorted le_number acc ->
  let r := fold_left (fun acc x => insert_by_number x acc) l acc in
  StronglySorted le_number r /\ r ≡ₚ acc ++ l /\ forall k, with_number k r = with_number k (acc ++ l).
Proof.
  revert acc; induction l as [|x l IH]; intros acc Hacc; simpl; [rewrite app_nil_r; auto|].
  destruct (IH (insert_by_number x acc)) as (Hs & Hp & Hf); [by apply insert_by_number_sorted|].
  split; [done|]. split.
  - rewrite Hp, insert_by_number_perm. apply Permutation_middle.
  - intros k. rewrite Hf, !with_number_app, insert_by_number_filter, with_number_cons by done.
    by rewrite <- app_assoc.
Qed.

(** [lines.sort(key=...)] gives the lines in order of their numbers,
    loses none, and keeps the lines of one number in document order
    (Python's sort is stable). *)
Theorem sort_by_number_spec l :
  StronglySorted le_number (sort_by_number l) /\ sort_by_number l ≡ₚ l /\
  forall k, with_number k (sort_by_number l) = with_number k l.
Proof. apply (sort_by_number_aux l []). constructor. Qed.

(** ** Every path inserts a book before its lines *)

Section Integrity.
Context `{UnicodeDB}.

Lemma extends_has_book db db' id : extends db db' -> has_book db id = true -> has_book db' id = true.
Proof. intros [Hb _]. apply Hb. Qed.

Lemma has_book_delete_lines id db x : has_book (delete_lines id db) x = has_book db x.
Proof. reflexivity. Qed.

Lemma insert_plain_lines_extends id ls db :
  has_book db id = true -> extends db (insert_plain_lines id ls db).
Proof.
  unfold insert_plain_lines. revert db; induction ls as [|pl ls IH]; intros db Hb; [reflexivity|].
  cbn [fold_left]. pose proof (insert_line_extends (LineRow id (pl_number pl) (pl_text pl) (pl_xml pl) (pl_speaker pl)) db Hb) as He.
  etrans; [exact He|]. apply IH. by apply (extends_has_book db).
Qed.

Lemma insert_lines_words_extends language id ls db :
  has_book db id = true -> extends db (insert_lines_words language id ls db).
Proof.
  unfold insert_lines_words. revert db; induction ls as [|pl ls IH]; intros db Hb; [reflexivity|].
  cbn [fold_left].
  pose proof (insert_line_words_extends language (LineRow id (pl_number pl) (pl_text pl) (pl_xml pl) (pl_speaker pl)) db Hb) as He.
  etrans; [exact He|]. apply IH. by apply (extends_has_book db).
Qed.

(** A book inserted first: the rest of the change starts from a table
    that has it. *)
Ltac book_first ext := etrans; [eapply (proj1 (ext _ _))|].
Ltac book_present ext :=
  match goal with |- has_book (_ ?b ?db) _ = true => exact (proj2 (ext b db)) end.

Lemma fold_left_extends {A} (f : corpus * Z -> A -> corpus * Z) l st :
  (forall st x, extends st.1 (f st x).1) -> extends st.1 (fold_left f l st).1.
Proof. apply (fold_left_rel extends fst). Qed.

Lemma fold_exc_extends {A E} (f : corpus * Z -> A -> (corpus * Z) * option E) l st :
  (forall st x, extends st.1 (f st x).1.1) -> extends st.1 (fold_exc f l st).1.1.
Proof. apply (fold_exc_rel extends fst). Qed.

Lemma prose_book_step_extends work_id language st e :
  extends st.1 (prose_book_step work_id language st e).1.
Proof.
  destruct st as [db n]. unfold prose_book_step. cbn [fst].
  destruct (is_book_div e); [|reflexivity]. cbn [fst].
  destruct (number_from 0 _) as [|pl ls] eqn:E; [reflexivity|].
  book_first insert_book_or_replace_extends. etrans; [apply delete_lines_extends|].
  apply insert_plain_lines_extends. rewrite has_book_delete_lines.
  book_present insert_book_or_replace_extends.
Qed.

Lemma process_prose_with_books_extends root work_id language db :
  extends db (process_prose_with_books root work_id language db).
Proof. apply (fold_left_extends _ _ (db, 0)). apply prose_book_step_extends. Qed.

Lemma process_prose_text_extends root work_id language db :
  extends db (process_prose_text root work_id language db).
Proof.
  unfold process_prose_text. destruct (existsb _ _); [apply process_prose_with_books_extends|].
  destruct (number_from 0 _); [reflexivity|].
  book_first insert_book_or_ignore_extends.
  apply insert_lines_words_extends. book_present insert_book_or_ignore_extends.
Qed.

Lemma process_drama_extends root work_id language db :
  extends db (process_drama root work_id language db).1.
Proof.
  unfold process_drama. destruct (fold_exc _ _ _) as [[? ls] [e|]]; [reflexivity|].
  destruct (sort_by_number ls); [reflexivity|]. cbn [fst].
  book_first insert_book_or_ignore_extends.
  apply insert_lines_words_extends. book_present insert_book_or_ignore_extends.
Qed.

Lemma verse_book_step_extends work_id language st e :
  extends st.1 (verse_book_step work_id language st e).1.1.
Proof.
  destruct st as [db n]. unfold verse_book_step. cbn [fst].
  destruct (_ && _ && _); [|reflexivity].
  destruct (if py_isdigit _ then _ else _) as [book_num|]; [|reflexivity].
  destruct (verse_lines e); [reflexivity|]. cbn [fst].
  book_first insert_book_or_ignore_extends.
  apply insert_lines_words_extends. book_present insert_book_or_ignore_extends.
Qed.

Lemma verse_single_book_extends root work_id language db :
  extends db (verse_single_book root work_id language db).
Proof.
  unfold verse_single_book. destruct (verse_lines root); [reflexivity|].
  book_first insert_book_or_ignore_extends.
  apply insert_lines_words_extends. book_present insert_book_or_ignore_extends.
Qed.

Lemma process_text_file_extends parsed work_id language db :
  extends db (process_text_file parsed work_id language db).1.
Proof.
  unfold process_text_file. destruct parsed as [root|]; [|reflexivity].
  destruct (bool_decide _); [apply process_prose_with_books_extends|].
  destruct (is_prose_text _ _); [apply process_prose_text_extends|].
  destruct (bool_decide _); [apply process_drama_extends|].
  pose proof (fold_exc_extends (verse_book_step work_id language) (iter root) (db, 0)
                (verse_book_step_extends work_id language)) as He.
  destruct (fold_exc _ _ _) as [[db' n] [e|]]; [exact He|]. cbn [fst] in *.
  destruct (n =? 0); [|exact He]. etrans; [exact He|apply verse_single_book_extends].
Qed.
End Integrity.

(** ** The books a text adds are books of its work *)

(** A change of the tables that keeps [authors] and [works] and whose
    new [books] rows are rows of [work_id]. *)
Definition books_from (work_id : pystr) (db db' : corpus) : Prop :=
  authors db' = authors db /\ works db' = works db /\
  forall b, b ∈ books db' -> b ∈ books db \/ b_work_id b = work_id.

#[export] Instance books_from_preorder work_id : PreOrder (books_from work_id).
Proof.
  split; [intros db; split; [done|]; split; [done|]; intros b Hb; by left|].
  intros db1 db2 db3 (A12 & W12 & H12) (A23 & W23 & H23).
  split; [congruence|]. split; [congruence|]. intros b [Hb|Hb]%H23; [apply H12, Hb|by right].
Qed.

(** The three tables as they were. *)
Lemma same_from work_id db db' :
  authors db' = authors db -> works db' = works db -> books db' = books db -> books_from work_id db db'.
Proof. intros Ha Hw Hb. split; [done|]. split; [done|]. intros b Hb'. left. by rewrite <- Hb. Qed.

Lemma insert_book_or_ignore_from work_id b db :
  b_work_id b = work_id -> books_from work_id db (insert_book_or_ignore b db).
Proof.
  intros Hw. unfold insert_book_or_ignore. destruct (existsb _ _); [reflexivity|].
  split; [done|]. split; [done|]. intros b' Hb'.
  cbn in Hb'. apply elem_of_app in Hb' as [| ->%list_elem_of_singleton]; [by left|by right].
Qed.

Lemma insert_book_or_replace_from work_id b db :
  b_work_id b = work_id -> books_from work_id db (insert_book_or_replace b db).
Proof.
  intros Hw. split; [done|]. split; [done|].
  intros b' Hb'. cbn in Hb'. apply elem_of_app in Hb' as [Hb'| ->%list_elem_of_singleton]; [|by right].
  left. apply list_elem_of_In, filter_In in Hb' as [Hb' _]. by apply list_elem_of_In.
Qed.

Section WorkBooks.
Context `{UnicodeDB}.

Lemma insert_plain_lines_from work_id id ls db : books_from work_id db (insert_plain_lines id ls db).
Proof.
  apply (fold_left_rel (books_from work_id) (fun d => d)). intros d pl. by apply same_from.
Qed.

Lemma insert_lines_words_from work_id language id ls db :
  books_from work_id db (insert_lines_words language id ls db).
Proof.
  apply (fold_left_rel (books_from work_id) (fun d => d)). intros d pl. unfold insert_line_words.
  generalize (LineRow id (pl_number pl) (pl_text pl) (pl_xml pl) (pl_speaker pl)). intros r.
  etrans; [by apply (same_from _ d (insert_line r d))|].
  unfold insert_words. apply (fold_left_rel (books_from work_id) (fun d => d)).
  intros d' w. by apply same_from.
Qed.

(** A book of the work inserted, then its lines (and words). *)
Lemma book_lines_words_from work_id language id ls b db :
  b_work_id b = work_id ->
  books_from work_id db (insert_lines_words language id ls (insert_book_or_ignore b db)).
Proof. intros Hw. etrans; [by apply insert_book_or_ignore_from|apply insert_lines_words_from]. Qed.

Lemma book_replace_lines_from work_id id id' ls b db :
  b_work_id b = work_id ->
  books_from work_id db (insert_plain_lines id ls (delete_lines id' (insert_book_or_replace b db))).
Proof.
  intros Hw. etrans; [by apply insert_book_or_replace_from|].
  etrans; [by apply (same_from _ _ (delete_lines id' (insert_book_or_replace b db)))|].
  apply insert_plain_lines_from.
Qed.

Lemma process_text_file_books_from parsed work_id language db :
  books_from work_id db (process_text_file parsed work_id language db).1.
Proof.
  unfold process_text_file. destruct parsed as [root|]; [|reflexivity].
  assert (forall db, books_from work_id db (process_prose_with_books root work_id language db)) as Hwb.
  { intros db0. apply (fold_left_rel (books_from work_id) fst _ _ (db0, 0)).
    intros [db1 n] e. unfold prose_book_step. cbn [fst]. destruct (is_book_div e); [|reflexivity].
    destruct (number_from 0 _); [reflexivity|]. by apply book_replace_lines_from. }
  destruct (bool_decide _); [apply Hwb|].
  destruct (is_prose_text _ _).
  { unfold process_prose_text. destruct (existsb _ _); [apply Hwb|].
    destruct (number_from 0 _); [reflexivity|]. by apply book_lines_words_from. }
  destruct (bool_decide _).
  { unfold process_drama. destruct (fold_exc _ _ _) as [[? ls] [e|]]; [reflexivity|].
    destruct (sort_by_number ls); [reflexivity|]. by apply book_lines_words_from. }
  assert (forall st x, books_from work_id st.1 (verse_book_step work_id language st x).1.1) as Hstep.
  { intros [db1 k] x. unfold verse_book_step. cbn [fst].
    destruct (_ && _ && _); [|reflexivity].
    destruct (if py_isdigit _ then _ else _); [|reflexivity].
    destruct (verse_lines x); [reflexivity|]. by apply book_lines_words_from. }
  pose proof (fold_exc_rel (books_from work_id) fst _ (iter root) (db, 0) Hstep) as He.
  destruct (fold_exc _ _ _) as [[db' n] [e|]]; [exact He|]. cbn [fst] in *.
  destruct (n =? 0); [|exact He]. etrans; [exact He|].
  unfold verse_single_book. destruct (verse_lines root); [reflexivity|]. by apply book_lines_words_from.
Qed.
End WorkBooks.

Section Frames.
Context `{UnicodeDB}.

Lemma insert_plain_lines_words id ls d : words (insert_plain_lines id ls d) = words d.
Proof.
  unfold insert_plain_lines. revert d; induction ls as [|x xs IH]; intros d; [done|].
  cbn [fold_left]. by rewrite IH.
Qed.

(** [process_prose_with_books] inserts no [words] rows (lines 1290-1309
    have no loop over the words, unlike the other paths). *)
Lemma process_prose_with_books_words root work_id language db :
  words (process_prose_with_books root work_id language db) = words db.
Proof.
  unfold process_prose_with_books.
  assert (forall l st, words (fold_left (prose_book_step work_id language) l st).1 = words st.1) as Hg.
  { induction l as [|e l IH]; intros [db0 n]; [done|]. cbn [fold_left]. rewrite IH.
    unfold prose_book_step. destruct (is_book_div e); [|done]. cbn [fst].
    destruct (number_from 0 _) as [|pl ls]; [done|]. by rewrite insert_plain_lines_words. }
  apply (Hg (iter root) (db, 0)).
Qed.
End Frames.

(** ** Examples on small documents *)

Definition el (t : String.string) (attrs : list (String.string * pystr)) (txt : option pystr)
    (cs : list element) : element := Element t attrs txt cs None.

Definition book_div (n : pystr) (cs : list element) : element :=
  el "div" [("type"%string, γ"textpart"); ("subtype"%string, γ"book"); ("n"%string, n)] None cs.

Definition verse (t : pystr) : element := el "l" [] (Some t) [].

(** A book of three [l] elements, the second empty. *)
Definition gap_doc : element :=
  el "TEI" [] None [book_div γ"1" [verse γ"μῆνιν ἄειδε"; el "l" [] None []; verse γ"θεὰ Πηληϊάδεω"]].

(** A second book numbered with the superscript two, which [isdigit]
    accepts and [int()] rejects. *)
Definition superscript_doc : element :=
  el "TEI" [] None [book_div γ"1" [verse γ"μῆνιν ἄειδε"]; book_div [0xB2] [verse γ"θεὰ"]].

(** C25: Whatever path a text takes, and even when it raises part way, every
    line of [text_lines] belongs to a row of [books] afterwards. *)
Theorem process_text_file_lines_have_books parsed work_id language db :
  lines_have_books db -> lines_have_books (process_text_file parsed work_id language db).1.
Proof. intros Hdb. eapply lines_have_books_extends; [exact Hdb|apply process_text_file_extends]. Qed.

(** In a book of verse, [line_num] counts every [l] element, also the
    empty ones it skips, while [end_line] and [line_count] are the number
    of lines kept: the last line of [gap_doc] is numbered 3 in a book that
    ends at line 2. *)
Example verse_line_numbers_exceed_end :
  let r := process_text_file (Some gap_doc) γ"tlg0012.tlg001" "greek" empty_corpus in
  map b_end_line (books r.1) = [2] /\ map l_number (text_lines r.1) = [1; 3] /\ r.2 = None.
Proof. vm_compute. auto. Qed.

(** A book numbered [²] passes [isdigit] and makes [int()] raise: the
    exception is caught by [process_text_file], after the first book has
    been inserted, and the rest of the work is lost. *)
Example verse_superscript_book_error :
  let r := process_text_file (Some superscript_doc) γ"tlg0012.tlg001" "greek" empty_corpus in
  map b_id (books r.1) = [γ"tlg0012.tlg001.001"] /\ r.2 = Some (ValueError [0xB2]).
Proof. vm_compute. auto. Qed.

Lemma process_text_file_lines_have_books_witness :
  lines_have_books (process_text_file (Some gap_doc) γ"tlg0012.tlg001" "greek" empty_corpus).1.
Proof.
  apply (process_text_file_lines_have_books (Some gap_doc) γ"tlg0012.tlg001" "greek" empty_corpus).
  constructor.
Defined.
