(* ===== verification/PyFloat.v ===== *)
(** * Python floats

    [get_section_line_mapping] (create_perseus_database.py, lines
    691-734) computes line ranges with Python floats: [max_line /
    max_section], [(section_num - 1) * lines_per_section] and [int()] of
    the product.  CPython's [float] is IEEE 754 binary64 with rounding to
    nearest, ties to even; it is modelled with the Standard Library's
    executable specification of that arithmetic ([SpecFloat], with
    precision 53 and maximal exponent 1024), so that no axiom is needed
    and the witnesses compute.

    - [float(n)] of an [int] is the correctly rounded value of [n]
      ([binary_normalize]);
    - [a / b] of two [int]s is modelled as the division of [float(a)] by
      [float(b)]: CPython divides the exact integers and rounds once,
      which is the same when both are below 2^53 (line numbers);
    - [n * x] of an [int] and a [float] is [float(n) * x];
    - [int(x)] truncates toward zero and raises [OverflowError] on an
      infinity and [ValueError] on a NaN;
    - [n < x] between an [int] and a [float] is exact in Python, and so
      here.

    The lemmas follow the sign bit through rounding, which is what the
    bounds of the section ranges need. *)

From Corelib Require Import Floats.SpecFloat.
From S2P Require Import Prelude.

Definition f64_prec : Z := 53.
Definition f64_emax : Z := 1024.

(** [float(n)] *)
Definition py_float (n : Z) : spec_float := binary_normalize f64_prec f64_emax n 0 false.

Definition py_fdiv (x y : spec_float) : spec_float := SFdiv f64_prec f64_emax x y.
Definition py_fmul (x y : spec_float) : spec_float := SFmul f64_prec f64_emax x y.

Definition py_fadd (x y : spec_float) : spec_float := SFadd f64_prec f64_emax x y.

(** [a / b] between two [int]s. *)
Definition py_int_truediv (a b : Z) : spec_float := py_fdiv (py_float a) (py_float b).

(** [n * x] for an [int] [n] and a [float] [x]. *)
Definition py_int_fmul (n : Z) (x : spec_float) : spec_float := py_fmul (py_float n) x.

(** The exceptions of [int(x)]. *)
Inductive float_exc := FloatOverflowError | FloatValueError.

(** The magnitude of a finite float, truncated toward zero. *)
Definition trunc_mag (m : positive) (e : Z) : Z :=
  if 0 <=? e then Z.pos m * 2 ^ e else Z.pos m / 2 ^ (- e).

(** [int(x)] *)
Definition py_int_of_float (x : spec_float) : float_exc + Z :=
  match x with
  | S754_zero _ => inr 0
  | S754_infinity _ => inl FloatOverflowError
  | S754_nan => inl FloatValueError
  | S754_finite s m e => inr (if s then - trunc_mag m e else trunc_mag m e)
  end.

(** [n < x] for an [int] [n] and a [float] [x], compared exactly. *)
Definition py_lt_int_float (n : Z) (x : spec_float) : bool :=
  match x with
  | S754_zero _ => n <? 0
  | S754_infinity s => negb s
  | S754_nan => false
  | S754_finite s m e =>
      let v := if s then Z.neg m else Z.pos m in
      if 0 <=? e then n <? v * 2 ^ e else n * 2 ^ (- e) <? v
  end.

(** ** The sign bit

    A float carries its sign bit, which rounding keeps: a float whose
    bit is clear is not negative and one whose bit is set is not
    positive (a NaN has either). *)

Definition has_sign (b : bool) (x : spec_float) : bool :=
  match x with
  | S754_zero s | S754_infinity s | S754_finite s _ _ => Bool.eqb s b
  | S754_nan => true
  end.

Lemma binary_round_aux_sign s m e l :
  has_sign s (binary_round_aux f64_prec f64_emax s m e l) = true.
Proof.
  unfold binary_round_aux.
  destruct (shr_fexp _ _ _ _ _) as [r1 e1].
  destruct (shr_fexp _ _ _ _ _) as [r2 e2].
  destruct (shr_m r2); simpl; [by destruct s| |done].
  destruct (_ <=? _); simpl; by destruct s.
Qed.

Create HintDb pyfloat.
#[export] Hint Resolve binary_round_aux_sign : pyfloat.

Lemma py_float_sign n : has_sign (n <? 0) (py_float n) = true.
Proof.
  unfold py_float, binary_normalize. destruct n as [|p|p]; [done| |];
    unfold binary_round; destruct (shl_align _ _ _); auto with pyfloat.
Qed.

Lemma py_float_sign_of n b : (n <? 0) = b -> has_sign b (py_float n) = true.
Proof. intros <-. apply py_float_sign. Qed.

(** Division and multiplication give the exclusive or of the signs. *)
Ltac sign_cases :=
  intros sx sy x y;
  destruct sx, sy, x as [[]|[]| |[] mx ex], y as [[]|[]| |[] my ey]; simpl; try done; intros _ _.

Lemma py_fdiv_sign : forall sx sy x y,
  has_sign sx x = true -> has_sign sy y = true -> has_sign (xorb sx sy) (py_fdiv x y) = true.
Proof.
  unfold py_fdiv, SFdiv. sign_cases;
    destruct (SFdiv_core_binary _ _ _ _ _ _) as [[mz ez] lz]; auto with pyfloat.
Qed.

Lemma py_fmul_sign : forall sx sy x y,
  has_sign sx x = true -> has_sign sy y = true -> has_sign (xorb sx sy) (py_fmul x y) = true.
Proof. unfold py_fmul, SFmul. sign_cases; auto with pyfloat. Qed.

Lemma trunc_mag_nonneg m e : 0 <= trunc_mag m e.
Proof.
  unfold trunc_mag. destruct (0 <=? e) eqn:E.
  - apply Z.leb_le in E. apply Z.mul_nonneg_nonneg; [lia|by apply Z.pow_nonneg].
  - apply Z.div_pos; [lia|apply Z.pow_pos_nonneg; lia].
Qed.

(** [int(x)] of a float with a clear sign bit is not negative. *)
Lemma py_int_of_float_nonneg x k : has_sign false x = true -> py_int_of_float x = inr k -> 0 <= k.
Proof.
  destruct x as [s|s| |s m e]; simpl; try discriminate; [by intros _ [= <-]|].
  destruct s; [discriminate|]. intros _ [= <-]. apply trunc_mag_nonneg.
Qed.

(** A non-negative [int] is never below a float whose sign bit is set. *)
Lemma py_lt_int_float_signed n x : 0 <= n -> has_sign true x = true -> py_lt_int_float n x = false.
Proof.
  intros Hn. destruct x as [s|s| |s m e]; simpl; try done; destruct s; try done; intros _.
  - apply Z.ltb_ge; lia.
  - destruct (0 <=? e) eqn:E; apply Z.ltb_ge.
    + apply Z.leb_le in E. pose proof (Z.pow_pos_nonneg 2 e ltac:(lia) E). nia.
    + pose proof (Z.pow_pos_nonneg 2 (- e) ltac:(lia) ltac:(lia)). nia.
Qed.

(** [int(n * (a / b))] of non-negative integers is not negative. *)
Lemma py_int_ratio_nonneg n a b k :
  0 <= n -> 0 <= a -> 0 <= b ->
  py_int_of_float (py_int_fmul n (py_int_truediv a b)) = inr k -> 0 <= k.
Proof.
  intros Hn Ha Hb. apply py_int_of_float_nonneg.
  unfold py_int_fmul, py_int_truediv.
  assert (forall z, 0 <= z -> has_sign false (py_float z) = true) as Hf
    by (intros z Hz; apply py_float_sign_of, Z.ltb_ge, Hz).
  apply (py_fmul_sign false false); [by apply Hf|].
  apply (py_fdiv_sign false false); by apply Hf.
Qed.

(** [a / b] of a negative [int] by a positive one has its sign bit set. *)
Lemma py_int_truediv_neg a b : a < 0 -> 0 < b -> has_sign true (py_int_truediv a b) = true.
Proof.
  intros Ha Hb. unfold py_int_truediv.
  apply (py_fdiv_sign true false).
  - by apply py_float_sign_of, Z.ltb_lt.
  - apply py_float_sign_of, Z.ltb_ge; lia.
Qed.

(** ** Comparisons of a float with an [int]

    Python compares a float and an [int] exactly (a NaN is unordered). *)
Definition float_cmp_int (x : spec_float) (n : Z) : option comparison :=
  match x with
  | S754_zero _ => Some (Z.compare 0 n)
  | S754_infinity s => Some (if s then Lt else Gt)
  | S754_nan => None
  | S754_finite s m e =>
      let v := if s then Z.neg m else Z.pos m in
      Some (if 0 <=? e then Z.compare (v * 2 ^ e) n else Z.compare v (n * 2 ^ (- e)))
  end.

(** [x < n], [x > n], [x <= n], [x >= n] *)
Definition py_float_lt_int (x : spec_float) (n : Z) : bool := bool_decide (float_cmp_int x n = Some Lt).
Definition py_float_gt_int (x : spec_float) (n : Z) : bool := bool_decide (float_cmp_int x n = Some Gt).
Definition py_float_le_int (x : spec_float) (n : Z) : bool :=
  match float_cmp_int x n with Some Lt | Some Eq => true | _ => false end.
Definition py_float_ge_int (x : spec_float) (n : Z) : bool :=
  match float_cmp_int x n with Some Gt | Some Eq => true | _ => false end.

(** The literal [0.8]: the correctly rounded quotient of 4 by 5, whose
    bits are those of the literal (0x3FE999999999999A). *)
Definition py_0_8 : spec_float := py_fdiv (py_float 4) (py_float 5).

Definition py_fsub (x y : spec_float) : spec_float := SFsub f64_prec f64_emax x y.

(** The literal [1.5], exact. *)
Definition py_1_5 : spec_float := py_fdiv (py_float 3) (py_float 2).
