(* ===== verification/Translations.v ===== *)
(** * The English translations: extract_translation_segments and process_translations

    [process_translations] (create_perseus_database.py:1009-1226) reads
    every [*eng*.xml] file of a work, finds its translator, decides
    whether the translation is prose, drama or books, and hands each
    book (or the whole translation) to [extract_translation_segments]
    (lines 736-968).  That function cuts the element into segments by
    speakers, by milestones, by sections, by paragraphs and by lines,
    maps section numbers to line ranges with [get_section_line_mapping]
    (lines 691-734, Python floats), and inserts every segment into
    [translation_segments].  [get_text_content] (lines 662-689) is the
    text of an element without its editorial children.

    The [hash] of a string, which [extract_translation_segments] uses for
    a non-numeric milestone, is a [Variable]: CPython randomises it per
    process.  Each file's exceptions are caught at line 1224; the rows
    inserted before them stay. *)

From Corelib Require Import Floats.SpecFloat.
From S2P Require Import Prelude Unicode Normalize Xml Tei Texts PyFloat.

(** What a translation file can raise before its [except]. *)
Inductive trans_error :=
  | TParseError                    (** [ET.parse] raised *)
  | TValueError (s : pystr)        (** [int(s)] raised *)
  | TFloatError (e : float_exc).   (** [int(x)] of a float raised *)

(** A segment before insertion. *)
Record tsegment := TSeg {
  ts_start : Z;
  ts_end : Z;
  ts_text : pystr;
  ts_translator : pystr;
  ts_speaker : option pystr
}.

(** [range(a, b)] *)
Definition py_range (a b : Z) : list Z := seqZ a (b - a).

(** [max(l, default=d)] *)
Definition max_default (d : Z) (l : list Z) : Z :=
  match l with [] => d | x :: l' => fold_left Z.max l' x end.

(** [int(s)] as a computation that raises. *)
Definition int_or_raise `{UnicodeDB} (s : pystr) : trans_error + Z :=
  match py_int s with Some k => inr k | None => inl (TValueError s) end.

(** ** get_text_content, lines 662-689 *)

(** [tag.split('}')[-1] if '}' in tag else tag]: the name without its
    namespace. *)
Definition local_name (t : String.string) : pystr := rev (before_char 125 (rev (utf8 t))).

Definition excluded_tags : list pystr := [γ"note"; γ"foreign"; γ"ref"; γ"bibl"].

Definition is_excluded (t : String.string) : bool := bool_decide (local_name t ∈ excluded_tags).

Section TextContent.
Context `{UnicodeDB}.

Fixpoint get_text_content (e : element) : pystr :=
  match e with
  | Element t _ txt cs _ =>
      if is_excluded t then []
      else py_strip (opt_str txt ++
        (fix go (l : list element) : pystr :=
           match l with
           | [] => []
           | c :: l' => (if is_excluded (tag c) then [] else get_text_content c) ++ opt_str (tail c) ++ go l'
           end) cs)
  end.
End TextContent.

(** ** get_section_line_mapping, lines 691-734 *)

(** The [line_number]s of a book, for
    [SELECT COUNT( * ), MAX(CAST(line_number as INTEGER)) ... WHERE book_id = ?]. *)
Definition book_line_numbers (db : corpus) (book_id : pystr) : list Z :=
  map l_number (List.filter (fun r => bool_decide (l_book_id r = book_id)) (text_lines db)).

(** SQL [MAX]: [NULL] on no row. *)
Definition sql_max (l : list Z) : option Z :=
  match l with [] => None | x :: l' => Some (fold_left Z.max l' x) end.

(** The range of one section: [int((s - 1) * lps) + 1] to
    [int(s * lps)], the end clamped to [max_line]. *)
Definition section_entry (max_line : Z) (lps : spec_float) (s : Z) : float_exc + (Z * Z) :=
  a ←? py_int_of_float (py_int_fmul (s - 1) lps);
  b ←? py_int_of_float (py_int_fmul s lps);
  inr (a + 1, if max_line <? b then max_line else b).

(** [section_map[section_num] = (start_line, end_line)] *)
Definition section_step (max_line : Z) (lps : spec_float) (m : gmap Z (Z * Z)) (s : Z)
    : float_exc + gmap Z (Z * Z) :=
  v ←? section_entry max_line lps s; inr (<[s := v]> m).

(** The loop of lines 712-717 (and 726-731). *)
Definition fill_sections (max_line max_section : Z) : float_exc + gmap Z (Z * Z) :=
  fold_err (section_step max_line (py_int_truediv max_line max_section)) (py_range 1 (max_section + 1)) ∅.

Definition get_section_line_mapping (db : corpus) (book_id : pystr) (max_section : Z)
    (segment_count : option Z) : float_exc + gmap Z (Z * Z) :=
  let nums := book_line_numbers db book_id in
  match sql_max nums with
  | None => inr ∅
  | Some max_line =>
      if (length nums =? 0)%nat || (max_line =? 0) || (max_section =? 0) then inr ∅
      else if match segment_count with Some c => negb (c =? 0) && (max_section =? c) | None => false end &&
              py_lt_int_float max_section (py_int_truediv max_line 2)
      then fill_sections max_line max_section
      else if py_lt_int_float max_section (py_int_truediv max_line 3) && (max_section <? 200)
      then fill_sections max_line max_section
      else inr ∅
  end.

(** ** extract_translation_segments, lines 736-968 *)

Definition milestone_units : list pystr := [γ"line"; γ"card"; γ"section"; γ"chapter"].

(** [elem.tag.endswith('milestone') and elem.get('unit') in [...]] *)
Definition is_milestone (e : element) : bool := tag_ends e "milestone" && attr_in e "unit" milestone_units.

Section Segments.
Context `{UnicodeDB}.
(** [hash(s)] of a string: fixed within a process, random across them. *)
Variable str_hash : pystr -> Z.

(** [re.match(r'(\d+)', n)]: the leading decimal digits. *)
Fixpoint leading_digits (s : pystr) : list Z :=
  match s with
  | c :: s' => match ucd_decimal c with Some d => d :: leading_digits s' | None => [] end
  | [] => []
  end.

(** The number of a milestone, lines 830-844: [int(n)], else its leading
    digits, else [hash(n) % 10000]. *)
Definition milestone_number (n : pystr) : Z :=
  match py_int n with
  | Some k => k
  | None =>
      match leading_digits n with
      | [] => str_hash n mod 10000
      | ds => digits_value ds
      end
  end.

(** The milestones of a paragraph, lines 827-844. *)
Definition para_milestones (para : element) : list Z :=
  omap (fun c => if is_milestone c then
                   match elem_get_or c "n" [] with [] => None | n => Some (milestone_number n) end
                 else None)
    (iter para).

(** [get_text_content(e).strip()] *)
Definition content (e : element) : pystr := py_strip (get_text_content e).

(** The speaker path, lines 744-800: the state is [current_speaker],
    [current_lines] and [segments]. *)
Definition speaker_flush (translator : pystr) (sp : option pystr) (cur : list (Z * pystr))
    (segs : list tsegment) : list tsegment :=
  match sp, cur with
  | Some s, (a, _) :: _ =>
      if nonempty s then
        let b := match list.last cur with Some (b, _) => b | None => a end in
        segs ++ [TSeg a b (join γ" " (map snd cur)) translator (Some s)]
      else segs
  | _, _ => segs
  end.

Definition truthy (sp : option pystr) : bool := match sp with Some s => nonempty s | None => false end.

Definition speaker_step (translator : pystr)
    (st : option pystr * list (Z * pystr) * list tsegment) (e : element)
    : trans_error + (option pystr * list (Z * pystr) * list tsegment) :=
  let '(sp, cur, segs) := st in
  if tag_ends e "speaker" then
    let '(cur', segs') :=
      if truthy sp && negb (bool_decide (cur = [])) then ([], speaker_flush translator sp cur segs)
      else (cur, segs) in
    inr (match text e with Some t => if nonempty t then Some (py_strip t) else None | None => None end,
         cur', segs')
  else if tag_ends e "l" && truthy sp then
    let n := elem_get_or e "n" [] in
    if nonempty n && py_isdigit n then
      let t := content e in
      if nonempty t then k ←? int_or_raise n; inr (sp, cur ++ [(k, t)], segs) else inr st
    else inr st
  else inr st.

Definition speaker_segments (translator : pystr) (book_elem : element) : trans_error + list tsegment :=
  st ←? fold_err (speaker_step translator) (iter book_elem) (None, [], []);
  let '(sp, cur, segs) := st in
  inr (speaker_flush translator sp cur segs).

(** The milestone path, lines 819-858. *)
Definition milestone_segments (translator : pystr) (book_elem : element) : list tsegment :=
  omap (fun para =>
          let ms := para_milestones para in
          let t := content para in
          match ms with
          | m0 :: _ =>
              if nonempty t then
                let mlast := match list.last ms with Some x => x | None => m0 end in
                Some (TSeg m0 (if (1 <? length ms)%nat then mlast else m0) t translator None)
              else None
          | [] => None
          end)
    (List.filter (fun p => tag_ends p "p") (iter book_elem)).

(** The sections of lines 859-879. *)
Definition section_step_seg (translator : pystr) (segs : list tsegment) (e : element)
    : trans_error + list tsegment :=
  let n := elem_get_or e "n" [] in
  if py_isdigit n then
    k ←? int_or_raise n;
    let t := content e in
    inr (if nonempty t then segs ++ [TSeg k k t translator None] else segs)
  else inr segs.

Definition section_segments (translator : pystr) (book_elem : element) : trans_error + list tsegment :=
  fold_err (section_step_seg translator) (List.filter (fun e => is_textpart e sections_chapters) (iter book_elem)) [].

(** The paragraphs of lines 880-892, numbered from 1. *)
Definition para_segments (translator : pystr) (book_elem : element) : list tsegment :=
  imap (fun i t => TSeg (Z.of_nat (S i)) (Z.of_nat (S i)) t translator None)
    (List.filter (fun t => (20 <? length t)%nat)
       (map content (List.filter (fun p => tag_ends p "p") (iter book_elem)))).

(** The lines of the poems of lines 898-919, numbered from 1. *)
Definition poem_line_segments (translator : pystr) (poems : list element) : list tsegment :=
  imap (fun i t => TSeg (Z.of_nat (S i)) (Z.of_nat (S i)) t translator None)
    (List.filter nonempty
       (map content (concat (map (fun d => List.filter (fun e => tag_ends e "l") (iter d)) poems)))).

(** The numbered lines of lines 920-933: [int(n)] only for a line with
    text. *)
Definition line_step (translator : pystr) (segs : list tsegment) (e : element) : trans_error + list tsegment :=
  if tag_ends e "l" then
    let n := elem_get_or e "n" [] in
    if nonempty n && py_isdigit n then
      let t := content e in
      if nonempty t then k ←? int_or_raise n; inr (segs ++ [TSeg k k t translator None]) else inr segs
    else inr segs
  else inr segs.

Definition line_segments (translator : pystr) (book_elem : element) (segs : list tsegment)
    : trans_error + list tsegment :=
  match List.filter (fun d => is_textpart d [γ"poem"]) (iter book_elem) with
  | [] => fold_err (line_step translator) (iter book_elem) segs
  | poems => inr (segs ++ poem_line_segments translator poems)
  end.

(** Lines 744-933: the segments of an element, before insertion. *)
Definition collect_segments (translator : pystr) (book_elem : element) : trans_error + list tsegment :=
  segs ←? (if existsb (fun e => tag_ends e "speaker") (iter book_elem)
           then speaker_segments translator book_elem else inr []);
  segs ←? (if negb (bool_decide (segs = [])) then inr segs
           else if existsb is_milestone (iter book_elem) then inr (milestone_segments translator book_elem)
           else if existsb (fun e => is_textpart e sections_chapters) (iter book_elem)
           then section_segments translator book_elem
           else inr (para_segments translator book_elem));
  if (length segs <? 50)%nat then line_segments translator book_elem segs else inr segs.

(** Lines 947-949: a section number found in the map becomes its range. *)
Definition apply_section_map (m : gmap Z (Z * Z)) (sg : tsegment) : Z * Z :=
  if bool_decide (m = ∅) then (ts_start sg, ts_end sg)
  else match m !! ts_start sg with Some ab => ab | None => (ts_start sg, ts_end sg) end.

(** [INSERT OR IGNORE INTO translation_segments], lines 951-955: the
    table has no key but the row id, and every [NOT NULL] column is set,
    so the row is always inserted. *)
Definition insert_tsegment (book_id : pystr) (m : gmap Z (Z * Z)) (db : corpus) (sg : tsegment) : corpus :=
  let '(a, b) := apply_section_map m sg in
  insert_segment (SegmentRow book_id a b (ts_text sg) (ts_translator sg) (ts_speaker sg)) db.

(** [extract_translation_segments]: the tables and [inserted_count]. *)
Definition extract_translation_segments (book_elem : element) (book_id translator : pystr) (db : corpus)
    : trans_error + (corpus * Z) :=
  segs ←? collect_segments translator book_elem;
  let max_section := max_default 0 (map ts_start segs) in
  m ←? (match get_section_line_mapping db book_id max_section (Some (Z.of_nat (length segs))) with
        | inl e => inl (TFloatError e) | inr m => inr m end);
  inr (fold_left (insert_tsegment book_id m) segs db, Z.of_nat (length segs)).
End Segments.

(** ** process_prose_translation, lines 970-1007

    Not called anywhere in the script: sections of subtype [section]
    whose [n] is an [int] (a [ValueError] skips the section), with the
    text of their paragraphs. *)
Section ProseTranslation.
Context `{UnicodeDB}.

Definition prose_translation_section (e : element) : option (Z * pystr) :=
  match py_int (elem_get_or e "n" []) with
  | None => None
  | Some k =>
      let t := foldl (fun acc p => acc ++ p ++ γ" ") []
                 (List.filter nonempty (map p_text (List.filter (fun p => tag_ends p "p") (iter e)))) in
      if nonempty (py_strip t) then Some (k, py_strip t) else None
  end.

Definition process_prose_translation (root : element) (book_id translator : pystr) (db : corpus) : corpus :=
  fold_left (fun db '(k, t) => insert_segment (SegmentRow book_id k k t translator None) db)
    (omap prose_translation_section (List.filter (fun e => is_textpart e [γ"section"]) (iter root))) db.
End ProseTranslation.

(** ** The translator, lines 1024-1112 *)

Definition skip_names : list pystr := [γ"lisa cerrato"; γ"william merrill"; γ"elli mylonas"; γ"david smith"].

(** [filename_mappings], lines 1068-1096. *)
Definition filename_mappings : list (pystr * pystr) := [
  (γ"tlg0012.tlg001.perseus-eng3.xml", γ"Samuel Butler");
  (γ"tlg0012.tlg001.perseus-eng4.xml", γ"A. T. Murray");
  (γ"tlg0012.tlg002.perseus-eng3.xml", γ"Samuel Butler");
  (γ"tlg0012.tlg002.perseus-eng4.xml", γ"A. T. Murray");
  (γ"tlg0016.tlg001.perseus-eng2.xml", γ"A. D. Godley");
  (γ"tlg0032.tlg001.perseus-eng2.xml", γ"H. G. Dakyns");
  (γ"tlg0032.tlg002.perseus-eng2.xml", γ"H. G. Dakyns");
  (γ"tlg0032.tlg006.perseus-eng2.xml", γ"H. G. Dakyns");
  (γ"tlg0032.tlg007.perseus-eng2.xml", γ"H. G. Dakyns");
  (γ"tlg0086.tlg003.perseus-eng2.xml", γ"Frederic G. Kenyon");
  (γ"tlg0086.tlg025.perseus-eng2.xml", γ"Hugh Tredennick");
  (γ"tlg0086.tlg010.perseus-eng2.xml", γ"Harris Rackham");
  (γ"tlg0086.tlg038.perseus-eng2.xml", γ"John Henry Freese");
  (γ"tlg0086.tlg034.perseus-eng2.xml", γ"William Hamilton Fyfe");
  (γ"tlg0086.tlg035.perseus-eng2.xml", γ"Harris Rackham");
  (γ"tlg0086.tlg009.perseus-eng2.xml", γ"Harris Rackham");
  (γ"tlg0086.tlg029.perseus-eng2.xml", γ"George Cyril Armstrong");
  (γ"tlg0086.tlg045.perseus-eng2.xml", γ"H. Rackham");
  (γ"tlg0007.tlg051.perseus-eng1.xml", γ"Bernadotte Perrin");
  (γ"tlg0007.tlg052.perseus-eng1.xml", γ"Bernadotte Perrin");
  (γ"phi0893.phi004.perseus-eng2.xml", γ"Christopher Smart")].

Section Translator.
Context `{UnicodeDB}.

(** The falsy values [None] and [''] of [translator] are both [[]]. *)

(** 1. An editor with [role="translator"] and a text. *)
Definition translator_editor (root : element) : pystr :=
  match List.find (fun e => tag_has e "editor" && attr_is e "role" γ"translator" && nonempty (opt_str (text e)))
          (iter root) with
  | Some e => py_strip (opt_str (text e))
  | None => []
  end.

Definition is_skip_name (t : pystr) : bool := existsb (contains (py_lower t)) skip_names.

(** The inner loop of lines 1044-1049: the last name with a text is kept
    when every name is one of [skip_names]. *)
Fixpoint pick_name (names : list element) (cur : pystr) : pystr :=
  match names with
  | [] => cur
  | n :: ns =>
      if tag_ends n "name" && nonempty (opt_str (text n)) then
        let t := py_strip (opt_str (text n)) in
        if is_skip_name t then pick_name ns t else t
      else pick_name ns cur
  end.

(** 2. A [respStmt] that mentions a translation. *)
Fixpoint translator_resp (resps : list element) (cur : pystr) : pystr :=
  match resps with
  | [] => cur
  | r :: rs =>
      if tag_ends r "respStmt" then
        let cur' := if contains (py_lower (itertext r)) γ"translat" then pick_name (iter r) cur else cur in
        if nonempty cur' then cur' else translator_resp rs cur'
      else translator_resp rs cur
  end.

(** 3. An author whose role mentions [trans]. *)
Definition translator_author (root : element) : pystr :=
  match List.find (fun e => tag_ends e "author" && contains (py_lower (elem_get_or e "role" [])) γ"trans" &&
                            nonempty (opt_str (text e)))
          (iter root) with
  | Some e => py_strip (opt_str (text e))
  | None => []
  end.

(** 4. The file name. *)
Definition translator_of_filename (filename : pystr) : pystr :=
  match List.find (fun kv => bool_decide (kv.1 = filename)) filename_mappings with
  | Some (_, t) => t
  | None =>
      if contains (py_lower filename) γ"butler" then γ"Samuel Butler"
      else if contains (py_lower filename) γ"murray" then γ"A. T. Murray"
      else if contains (py_lower filename) γ"jowett" then γ"Benjamin Jowett"
      else []
  end.

Definition find_translator (filename : pystr) (root : element) : pystr :=
  let t := translator_editor root in
  let t := if nonempty t then t else translator_resp (iter root) t in
  let t := if nonempty t then t else translator_author root in
  let t := if nonempty t then t
           else if contains filename γ"eng" then translator_of_filename filename else t in
  if nonempty t then t else γ"Unknown".
End Translator.

(** ** process_translations, lines 1009-1226 *)

(** [glob("*eng*.xml")] over the names of a directory: [*] matches any
    characters, but not a leading [.]. *)
Definition eng_glob (name : pystr) : bool :=
  negb (startswith name γ".") && endswith name γ".xml" &&
  contains (take (length name - 4) name) γ"eng".

(** The first [div] of [type="translation"]. *)
Definition translation_div (root : element) : option element :=
  List.find (fun d => tag_ends d "div" && attr_is d "type" γ"translation") (iter root).

Definition first_body (root : element) : option element := List.find (fun b => tag_ends b "body") (iter root).

Section Process.
Context `{UnicodeDB}.
Variable str_hash : pystr -> Z.

(** One call of [extract_translation_segments]: the tables it leaves and
    the exception it raised, if any. *)
Definition extract_call (e : element) (book_id translator : pystr) (db : corpus) : corpus * option trans_error :=
  match extract_translation_segments str_hash e book_id translator db with
  | inl err => (db, Some err)
  | inr (db', _) => (db', None)
  end.

(** The translation as the single book [.001] (lines 1140-1177 and
    1214-1222): its translation [div], else its first [body]. *)
Definition extract_whole (work_id translator : pystr) (root : element) (db : corpus) : corpus * option trans_error :=
  let book_id := work_id ++ γ".001" in
  match translation_div root with
  | Some d => extract_call d book_id translator db
  | None => match first_body root with Some b => extract_call b book_id translator db | None => (db, None) end
  end.

(** One book of lines 1193-1211: [book_counter] counts the book
    divisions, and a non-numeric [n] takes the counter as number. *)
Definition trans_book_step (work_id translator : pystr) (st : corpus * Z) (bd : element)
    : (corpus * Z) * option trans_error :=
  let '(db, counter) := st in
  let counter := counter + 1 in
  let book_num := match py_int (elem_get_or bd "n" γ"1") with Some k => k | None => counter end in
  let '(db', err) := extract_call bd (work_id ++ γ"." ++ fmt03d book_num) translator db in
  ((db', counter), err).

(** Lines 1178-1222: the books of the translation [div] (or of the whole
    file), else the whole translation. *)
Definition translation_books (work_id translator : pystr) (root : element) (db : corpus)
    : corpus * option trans_error :=
  let search_root := match translation_div root with Some d => d | None => root end in
  match List.filter is_book_div (iter search_root) with
  | [] => extract_whole work_id translator root db
  | bds => let '((db', _), err) := fold_exc (trans_book_step work_id translator) bds (db, 0) in (db', err)
  end.

(** The body of the [try] of lines 1020-1222, for one file and its
    parsed tree ([None] when [ET.parse] raises). *)
Definition process_translation_file (work_id : pystr) (file : pystr * option element) (db : corpus)
    : corpus * option trans_error :=
  match file.2 with
  | None => (db, Some TParseError)
  | Some root =>
      let translator := find_translator file.1 root in
      let has_books := existsb is_book_div (iter root) in
      let p_count := count_where (fun e => tag_ends e "p") root in
      let l_count := count_where (fun e => tag_ends e "l") root in
      let is_prose := negb has_books && (0 <? p_count)%nat && (l_count * 2 <? p_count)%nat in
      let is_drama := negb has_books && bool_decide (author_of_work work_id ∈ drama_authors) in
      if is_prose || is_drama then extract_whole work_id translator root db
      else translation_books work_id translator root db
  end.

(** [process_translations]: every file of the listing that the glob
    keeps, in the listing's order; each file's exception is caught. *)
Definition process_translations (work_id : pystr) (listing : list (pystr * option element)) (db : corpus)
    : corpus :=
  fold_left (fun db file => (process_translation_file work_id file db).1)
    (List.filter (fun file => eng_glob file.1) listing) db.
End Process.

(** ** Sample documents *)

(** A book [b] of 49 lines. *)
Definition sample_lines_db : corpus :=
  Corpus [] [] [BookRow γ"b" γ"w" 1 γ"Book 1" 1 49 49]
    (map (fun i => LineRow γ"b" (Z.of_nat (S i)) γ"x" (XmlText []) None) (seq 0 49)) [] [].

Definition milestone (n : pystr) : element :=
  el "milestone" [("unit"%string, γ"section"); ("n"%string, n)] None [].

Definition para (cs : list element) (t : pystr) : element := Element "p" [] (Some t) cs None.

(** Two paragraphs whose milestones are [A] and [12b]. *)
Definition milestone_doc : element :=
  el "div" [] None [para [milestone γ"A"] γ"In the beginning"; para [milestone γ"12b"] γ"Then more"].

Definition numbered_line (n t : pystr) : element := el "l" [("n"%string, n)] (Some t) [].

(** Two speeches of a play. *)
Definition speaker_doc : element :=
  el "div" [] None [el "speaker" [] (Some γ" Chorus ") []; numbered_line γ"3" γ"Sing";
    numbered_line γ"4" γ"Dance"; el "speaker" [] (Some γ"Zeus") []; numbered_line γ"2" γ"No"].

(** A header whose only translator name is one of [skip_names]. *)
Definition resp_doc : element :=
  el "TEI" [] None [el "respStmt" [] None [el "resp" [] (Some γ"translated by") [];
                                           el "name" [] (Some γ"Lisa Cerrato") []]].

Definition trans_book (n : pystr) (cs : list element) : element :=
  el "div" [("type"%string, γ"textpart"); ("subtype"%string, γ"book"); ("n"%string, n)] None cs.

(** A translation in two books, of a work whose text has one. *)
Definition two_book_translation : element :=
  el "TEI" [] None [el "body" [] None [trans_book γ"1" [numbered_line γ"1" γ"Sing, goddess"];
                                       trans_book γ"2" [numbered_line γ"1" γ"Tell me, muse"]]].

Definition one_book_db : corpus :=
  Corpus [] [] [BookRow γ"tlg0012.tlg001.001" γ"tlg0012.tlg001" 1 γ"Book 1" 1 1 1]
    [LineRow γ"tlg0012.tlg001.001" 1 γ"μῆνιν ἄειδε" (XmlText []) None] [] [].

(** ** The section map *)

Lemma py_range_elem a b s : s ∈ py_range a b <-> a <= s < b.
Proof. unfold py_range. rewrite elem_of_seqZ. lia. Qed.

(** The loop that fills a dict: every key of the loop gets its entry,
    every other key keeps its value. *)
Lemma fold_insert_lookup {E} (entry : Z -> E + (Z * Z)) l (m0 m : gmap Z (Z * Z)) :
  fold_err (fun m s => v ←? entry s; inr (<[s := v]> m)) l m0 = inr m ->
  forall s, (s ∈ l -> exists v, entry s = inr v /\ m !! s = Some v) /\ (s ∉ l -> m !! s = m0 !! s).
Proof.
  revert m0; induction l as [|b l IH]; intros m0 Hf s; simpl in Hf.
  - injection Hf as <-. split; [intros Hs; by apply elem_of_nil in Hs|done].
  - destruct (entry b) as [e|v] eqn:Eb; simpl in Hf; [discriminate|].
    destruct (IH _ Hf s) as [Hin Hout]. split.
    + intros Hs. destruct (decide (s ∈ l)) as [Hl|Hl]; [by apply Hin|].
      apply elem_of_cons in Hs as [->|Hs]; [|done].
      exists v. split; [done|]. rewrite Hout by done. apply lookup_insert_eq.
    + intros Hs. rewrite Hout by set_solver. apply lookup_insert_ne. set_solver.
Qed.

Lemma fill_sections_lookup ml ms m s :
  fill_sections ml ms = inr m ->
  (1 <= s <= ms -> exists v, section_entry ml (py_int_truediv ml ms) s = inr v /\ m !! s = Some v) /\
  (~ (1 <= s <= ms) -> m !! s = None).
Proof.
  intros Hf. destruct (fold_insert_lookup _ _ _ _ Hf s) as [Hin Hout].
  split; intros Hs; [apply Hin|rewrite Hout; [apply lookup_empty|]]; rewrite py_range_elem; lia.
Qed.

(** The guards of lines 703 and 708/722: the map is filled only when
    [max_section] is below a fraction of [max_line]. *)
Lemma get_section_line_mapping_cases db book_id ms cnt m :
  get_section_line_mapping db book_id ms cnt = inr m -> m = ∅ \/
  exists ml k, sql_max (book_line_numbers db book_id) = Some ml /\ fill_sections ml ms = inr m /\
    0 < k /\ py_lt_int_float ms (py_int_truediv ml k) = true.
Proof.
  unfold get_section_line_mapping.
  destruct (sql_max _) as [ml|]; [|intros [= <-]; by left].
  destruct (_ || _ || _); [intros [= <-]; by left|].
  destruct (_ && py_lt_int_float ms (py_int_truediv ml 2)) eqn:E2;
    [apply andb_true_iff in E2 as [_ E2]; intros Hf; right; exists ml, 2; auto with lia|].
  destruct (py_lt_int_float ms (py_int_truediv ml 3) && _) eqn:E3; [|intros [= <-]; by left].
  apply andb_true_iff in E3 as [E3 _]. intros Hf; right; exists ml, 3; auto with lia.
Qed.

(** One entry of a filled map. *)
Lemma section_entry_bounds ml ms s a b :
  1 <= s -> s <= ms -> 0 <= ml ->
  section_entry ml (py_int_truediv ml ms) s = inr (a, b) -> 1 <= a /\ b <= ml.
Proof.
  intros Hs Hms Hml. unfold section_entry.
  destruct (py_int_of_float (py_int_fmul (s - 1) _)) as [|a0] eqn:Ea; [discriminate|]. simpl.
  destruct (py_int_of_float (py_int_fmul s _)) as [|b0]; [discriminate|]. simpl.
  intros [= <- <-]. apply py_int_ratio_nonneg in Ea; [|lia..].
  split; [lia|]. destruct (ml <? b0) eqn:E; [lia|]. apply Z.ltb_ge in E. lia.
Qed.

(** C26: Every range of the section map lies in the book: its section is
    between 1 and [max_section], it starts at line 1 or later and ends
    at [MAX(line_number)] or before, whatever the float rounding. *)
Theorem get_section_line_mapping_bounds db book_id ms cnt m s a b :
  get_section_line_mapping db book_id ms cnt = inr m -> m !! s = Some (a, b) ->
  exists ml, sql_max (book_line_numbers db book_id) = Some ml /\ 1 <= s <= ms /\ 1 <= a /\ b <= ml.
Proof.
  intros Hg Hs. destruct (get_section_line_mapping_cases _ _ _ _ _ Hg) as [->|(ml & k & Hml & Hf & Hk & Hlt)];
    [by rewrite lookup_empty in Hs|].
  destruct (decide (1 <= s <= ms)) as [Hr|Hr]; [|by rewrite (proj2 (fill_sections_lookup _ _ _ s Hf) Hr) in Hs].
  destruct (proj1 (fill_sections_lookup _ _ _ s Hf) Hr) as ([a' b'] & He & Hs'). rewrite Hs in Hs'.
  injection Hs' as <- <-. exists ml. split; [done|]. split; [done|].
  destruct (Z_lt_ge_dec ml 0) as [Hneg|Hpos].
  - rewrite py_lt_int_float_signed in Hlt; [discriminate|lia|by apply py_int_truediv_neg].
  - eapply section_entry_bounds; [..|exact He]; lia.
Qed.

(** Two consecutive entries meet: both ends are the float [s * lps]. *)
Lemma section_entry_meet ml lps s a b a' b' :
  section_entry ml lps s = inr (a, b) -> section_entry ml lps (s + 1) = inr (a', b') -> a' = b + 1 \/ b = ml.
Proof.
  unfold section_entry. replace (s + 1 - 1) with s by lia.
  destruct (py_int_of_float (py_int_fmul (s - 1) _)); [discriminate|]. simpl.
  destruct (py_int_of_float (py_int_fmul s _)) as [|x]; [discriminate|]. simpl.
  destruct (py_int_of_float (py_int_fmul (s + 1) _)); [discriminate|]. simpl.
  intros [= _ <-] [= <- _]. destruct (ml <? x); [by right|by left].
Qed.

(** Consecutive sections meet: section [s + 1] starts on the line
    after the end of section [s], unless that end was clamped to the last
    line; the two ends are the same float product [s * lps]. *)
Theorem get_section_line_mapping_contiguous db book_id ms cnt m s a b a' b' :
  get_section_line_mapping db book_id ms cnt = inr m ->
  m !! s = Some (a, b) -> m !! (s + 1) = Some (a', b') ->
  a' = b + 1 \/ sql_max (book_line_numbers db book_id) = Some b.
Proof.
  intros Hg Hs Hs1. destruct (get_section_line_mapping_cases _ _ _ _ _ Hg) as [->|(ml & k & Hml & Hf & _)];
    [by rewrite lookup_empty in Hs|].
  destruct (decide (1 <= s + 1 <= ms)) as [Hr|Hr];
    [|by rewrite (proj2 (fill_sections_lookup _ _ _ _ Hf) Hr) in Hs1].
  destruct (decide (1 <= s <= ms)) as [Hr0|Hr0];
    [|by rewrite (proj2 (fill_sections_lookup _ _ _ _ Hf) Hr0) in Hs].
  destruct (proj1 (fill_sections_lookup _ _ _ _ Hf) Hr) as (v1 & He1 & Hl1).
  destruct (proj1 (fill_sections_lookup _ _ _ _ Hf) Hr0) as (v0 & He0 & Hl0).
  rewrite Hs in Hl0. rewrite Hs1 in Hl1. injection Hl0 as <-. injection Hl1 as <-.
  destruct (section_entry_meet _ _ _ _ _ _ _ He0 He1) as [->| ->]; [by left|by right].
Qed.

(** ** What extract_translation_segments inserts *)

Lemma join_nonempty sep w ws : w <> [] -> join sep (w :: ws) <> [].
Proof. intros Hw. destruct (join_head sep w ws) as [r ->]. by intros [-> _]%app_eq_nil. Qed.

Section SegmentFacts.
Context `{UnicodeDB}.
Variable str_hash : pystr -> Z.
Variable translator : pystr.

(** A segment as the code builds it: a text and the translator. *)
Definition seg_ok (sg : tsegment) : Prop := ts_text sg <> [] /\ ts_translator sg = translator.

Lemma speaker_flush_ok sp cur segs :
  Forall (fun l => l.2 <> []) cur -> Forall seg_ok segs -> Forall seg_ok (speaker_flush translator sp cur segs).
Proof.
  intros Hcur Hsegs. unfold speaker_flush.
  destruct sp as [s|]; [|done]. destruct cur as [|[a t] cur']; [done|].
  destruct (nonempty s); [|done]. apply Forall_app; split; [done|].
  constructor; [|done]. split; [|done]. cbn [ts_text map snd].
  apply join_nonempty. by inversion Hcur.
Qed.

Definition speaker_inv (st : option pystr * list (Z * pystr) * list tsegment) : Prop :=
  Forall (fun l => l.2 <> []) st.1.2 /\ Forall seg_ok st.2.

Lemma speaker_step_ok st e st' : speaker_inv st -> speaker_step translator st e = inr st' -> speaker_inv st'.
Proof.
  destruct st as [[sp cur] segs]. intros [Hcur Hsegs]. unfold speaker_step.
  destruct (tag_ends e "speaker").
  - destruct (truthy sp && _); intros [= <-]; split; simpl; auto using speaker_flush_ok.
  - destruct (tag_ends e "l" && truthy sp); [|by intros [= <-]].
    destruct (nonempty _ && py_isdigit _); [|by intros [= <-]].
    destruct (nonempty (content e)) eqn:Et; [|by intros [= <-]].
    destruct (int_or_raise _); simpl; [discriminate|]. intros [= <-].
    split; [|done]. apply Forall_app; split; [done|]. constructor; [|done]. by apply nonempty_true.
Qed.

Lemma speaker_segments_ok e segs : speaker_segments translator e = inr segs -> Forall seg_ok segs.
Proof.
  unfold speaker_segments.
  destruct (fold_err _ _ _) as [|[[sp cur] segs0]] eqn:E; simpl; [discriminate|]. intros [= <-].
  assert (speaker_inv (sp, cur, segs0)) as [Hc Hs];
    [|by apply speaker_flush_ok].
  apply (fold_err_inv (speaker_step translator) speaker_inv (iter e) (None, [], [])); [|split; constructor|exact E].
  intros x b x' Hx _. by apply speaker_step_ok.
Qed.

Lemma milestone_segments_ok e : Forall seg_ok (milestone_segments str_hash translator e).
Proof.
  unfold milestone_segments. apply Forall_forall. intros sg Hsg. apply list_elem_of_In, list_elem_of_omap in Hsg as (p & _ & Hp).
  destruct (para_milestones str_hash p); [discriminate|]. destruct (nonempty (content p)) eqn:Et; [|discriminate].
  injection Hp as <-. split; [by apply nonempty_true|done].
Qed.

Lemma section_segments_ok e segs : section_segments translator e = inr segs -> Forall seg_ok segs.
Proof.
  apply (fold_err_inv _ (Forall seg_ok)); [|constructor].
  intros x b x' Hx _. unfold section_step_seg.
  destruct (py_isdigit _); [|by intros [= <-]]. destruct (int_or_raise _); simpl; [discriminate|].
  destruct (nonempty (content b)) eqn:Et; intros [= <-]; [|done].
  apply Forall_app; split; [done|]. constructor; [|done]. split; [by apply nonempty_true|done].
Qed.

Lemma para_segments_ok e : Forall seg_ok (para_segments translator e).
Proof.
  unfold para_segments. apply Forall_forall. intros sg Hsg. apply list_elem_of_In, elem_of_lookup_imap in Hsg as (i & t & -> & Hi).
  apply list_elem_of_lookup_2, list_elem_of_In, filter_In in Hi as [_ Hi]. split; [|done]. simpl.
  intros ->. apply Nat.ltb_lt in Hi. simpl in Hi. lia.
Qed.

Lemma line_segments_ok e segs segs' :
  Forall seg_ok segs -> line_segments translator e segs = inr segs' -> Forall seg_ok segs'.
Proof.
  intros Hsegs. unfold line_segments. destruct (List.filter _ _) as [|d ds].
  - apply (fold_err_inv _ (Forall seg_ok)); [|done].
    intros x b x' Hx _. unfold line_step.
    destruct (tag_ends b "l"); [|by intros [= <-]]. destruct (nonempty _ && py_isdigit _); [|by intros [= <-]].
    destruct (nonempty (content b)) eqn:Et; [|by intros [= <-]].
    destruct (int_or_raise _); simpl; [discriminate|]. intros [= <-].
    apply Forall_app; split; [done|]. constructor; [|done]. split; [by apply nonempty_true|done].
  - intros [= <-]. apply Forall_app; split; [done|].
    apply Forall_forall. intros sg Hsg. apply list_elem_of_In, elem_of_lookup_imap in Hsg as (i & t & -> & Hi).
    apply list_elem_of_lookup_2, list_elem_of_In, filter_In in Hi as [_ Hi]. split; [by apply nonempty_true|done].
Qed.

Lemma collect_segments_ok e segs : collect_segments str_hash translator e = inr segs -> Forall seg_ok segs.
Proof.
  unfold collect_segments. intros Hc.
  apply sbind_inr in Hc as (s0 & E0 & Hc). apply sbind_inr in Hc as (s1 & E1 & Hc).
  assert (Forall seg_ok s0) as H0.
  { destruct (existsb (fun e => tag_ends e "speaker") (iter e));
      [by apply speaker_segments_ok in E0|by injection E0 as <-]. }
  assert (Forall seg_ok s1) as H1.
  { destruct (negb (bool_decide (s0 = []))); [by injection E1 as <-|].
    destruct (existsb is_milestone (iter e)); [injection E1 as <-; apply milestone_segments_ok|].
    destruct (existsb (fun e => is_textpart e sections_chapters) (iter e));
      [by apply section_segments_ok in E1|injection E1 as <-; apply para_segments_ok]. }
  destruct (length s1 <? 50)%nat; [by apply line_segments_ok in Hc|by injection Hc as <-].
Qed.
End SegmentFacts.

(** The row [insert_tsegment] appends. *)
Definition tsegment_row (book_id : pystr) (m : gmap Z (Z * Z)) (sg : tsegment) : segment_row :=
  let '(a, b) := apply_section_map m sg in
  SegmentRow book_id a b (ts_text sg) (ts_translator sg) (ts_speaker sg).

Lemma insert_tsegments book_id m segs db :
  fold_left (insert_tsegment book_id m) segs db =
  Corpus (authors db) (works db) (books db) (text_lines db) (words db)
    (segments db ++ map (tsegment_row book_id m) segs).
Proof.
  revert db; induction segs as [|sg segs IH]; intros db; simpl.
  - rewrite app_nil_r. by destruct db.
  - rewrite IH. unfold insert_tsegment, tsegment_row. destruct (apply_section_map m sg). simpl.
    by rewrite <- app_assoc.
Qed.

(** C18: [extract_translation_segments] only appends to
    [translation_segments]: as many rows as it returns, each of the
    book it was given, with a non-empty text and the translator; the
    other tables are untouched. *)
Theorem extract_translation_segments_spec `{UnicodeDB} str_hash e book_id translator db db' k :
  extract_translation_segments str_hash e book_id translator db = inr (db', k) ->
  exists rows, db' = Corpus (authors db) (works db) (books db) (text_lines db) (words db) (segments db ++ rows) /\
    Z.of_nat (length rows) = k /\
    Forall (fun r => sg_book_id r = book_id /\ sg_text r <> [] /\ sg_translator r = translator) rows.
Proof.
  unfold extract_translation_segments. intros Hx.
  apply sbind_inr in Hx as (segs & Hsegs & Hx). apply sbind_inr in Hx as (m & _ & [= <- <-]).
  apply collect_segments_ok in Hsegs.
  exists (map (tsegment_row book_id m) segs). rewrite insert_tsegments, length_map.
  split; [done|]. split; [done|].
  induction Hsegs as [|sg segs [Ht Htr] _ IH]; simpl; constructor; [|exact IH].
  unfold tsegment_row. by destruct (apply_section_map m sg).
Qed.

(** ** process_translations only adds segments of the work *)

(** The tables after a translation pass: only [translation_segments]
    grows, by rows with a text whose book id is one of the work's. *)
Definition seg_extends (work_id : pystr) (db db' : corpus) : Prop :=
  authors db' = authors db /\ works db' = works db /\ books db' = books db /\
  text_lines db' = text_lines db /\ words db' = words db /\
  exists rows, segments db' = segments db ++ rows /\
    Forall (fun r => sg_text r <> [] /\ exists sfx, sg_book_id r = work_id ++ γ"." ++ sfx) rows.

#[export] Instance seg_extends_preorder work_id : PreOrder (seg_extends work_id).
Proof.
  split.
  - intros db. do 5 (split; [done|]). exists []. by rewrite app_nil_r.
  - intros x y z (H1 & H2 & H3 & H4 & H5 & r1 & E1 & F1) (G1 & G2 & G3 & G4 & G5 & r2 & E2 & F2).
    do 5 (split; [congruence|]). exists (r1 ++ r2). rewrite E2, E1, app_assoc.
    split; [done|by apply Forall_app].
Qed.

Section TranslationFrame.
Context `{UnicodeDB}.
Variable str_hash : pystr -> Z.
Variable work_id : pystr.

Lemma extract_call_extends e sfx translator db :
  seg_extends work_id db (extract_call str_hash e (work_id ++ γ"." ++ sfx) translator db).1.
Proof.
  unfold extract_call.
  destruct (extract_translation_segments _ _ _ _ _) as [err|[db' k]] eqn:E; [reflexivity|].
  apply extract_translation_segments_spec in E as (rows & -> & _ & Hrows). simpl.
  do 5 (split; [done|]). exists rows. split; [done|].
  eapply Forall_impl; [|exact Hrows]. intros r (Hb & Ht & _). eauto.
Qed.

Lemma extract_whole_extends translator root db :
  seg_extends work_id db (extract_whole str_hash work_id translator root db).1.
Proof.
  unfold extract_whole. change (work_id ++ γ".001") with (work_id ++ γ"." ++ γ"001").
  destruct (translation_div root); [apply extract_call_extends|].
  destruct (first_body root); [apply extract_call_extends|reflexivity].
Qed.

Lemma translation_books_extends translator root db :
  seg_extends work_id db (translation_books str_hash work_id translator root db).1.
Proof.
  unfold translation_books. destruct (List.filter _ _) as [|bd bds]; [apply extract_whole_extends|].
  pose proof (fold_exc_rel (seg_extends work_id) fst (trans_book_step str_hash work_id translator)
                (bd :: bds) (db, 0)) as Hf.
  destruct (fold_exc _ _ _) as [[db' n] err]. apply Hf.
  intros [db0 c] x. unfold trans_book_step. destruct (extract_call _ _ _ _ _) as [db1 e1] eqn:E.
  simpl. change db1 with (db1, e1).1. rewrite <- E. apply extract_call_extends.
Qed.

Lemma process_translation_file_extends file db :
  seg_extends work_id db (process_translation_file str_hash work_id file db).1.
Proof.
  unfold process_translation_file. destruct file.2 as [root|]; [|reflexivity].
  destruct (_ || _); [apply extract_whole_extends|apply translation_books_extends].
Qed.
End TranslationFrame.

(** C17: [process_translations] leaves [authors], [works], [books],
    [text_lines] and [words] as they were and only appends rows to
    [translation_segments], each with a text and a book id of the work,
    whatever the files and whatever they raise. *)
Theorem process_translations_frame `{UnicodeDB} str_hash work_id listing db :
  seg_extends work_id db (process_translations str_hash work_id listing db).
Proof.
  apply (fold_left_rel (seg_extends work_id) id). intros db0 file.
  apply process_translation_file_extends.
Qed.

(** ** What the model shows on small documents *)

(** [int(s * (max_line / max_section))] may round the last section's
    end below [max_line]: with 49 lines and 11 sections the last section
    ends at line 48 and no section reaches line 49. *)
Example section_map_misses_last_line :
  match get_section_line_mapping sample_lines_db γ"b" 11 (Some 11) with
  | inr m => m !! 11 = Some (45, 48) /\ map_Forall (fun _ ab => ab.2 < 49) m
  | inl _ => False
  end.
Proof.
  destruct (get_section_line_mapping _ _ _ _) eqn:E; vm_compute in E; [discriminate|]. injection E as <-.
  split; [reflexivity|]. apply map_Forall_to_list. vm_compute. repeat constructor.
Qed.

(** A milestone whose [n] has no leading digit is numbered
    [hash(n) % 10000], so the start line of its segment depends on the
    hash of the process. *)
Example milestone_number_hash_dependent :
  sum_map id (map ts_start) (collect_segments (fun _ => 7) γ"T" milestone_doc) = inr [7; 12] /\
  sum_map id (map ts_start) (collect_segments (fun _ => 123456) γ"T" milestone_doc) = inr [3456; 12].
Proof. split; vm_compute; reflexivity. Qed.

(** In a play with fewer than 50 speeches, the line pass of lines
    896-933 runs after the speaker pass: every line is inserted a second
    time, as a segment of its own without speaker. *)
Example speaker_lines_duplicated :
  sum_map id (map (fun sg => (ts_start sg, ts_end sg, ts_text sg, ts_speaker sg)))
    (collect_segments (fun _ => 0) γ"T" speaker_doc) =
  inr [(3, 4, γ"Sing Dance", Some γ"Chorus"); (2, 2, γ"No", Some γ"Zeus");
       (3, 3, γ"Sing", None); (4, 4, γ"Dance", None); (2, 2, γ"No", None)].
Proof. vm_compute. reflexivity. Qed.

(** The filter of lines 1046-1048 does not filter: when every name
    of a [respStmt] is one of [skip_names], the last one is kept as the
    translator. *)
Example translator_skip_name_kept : find_translator γ"x.xml" resp_doc = γ"Lisa Cerrato".
Proof. vm_compute. reflexivity. Qed.

(** A translation with more books than the text inserts segments of a
    book that has no row in [books]: nothing checks the foreign key. *)
Example segments_of_missing_book :
  let db := process_translations (fun _ => 0) γ"tlg0012.tlg001"
              [(γ"tlg0012.tlg001.perseus-eng3.xml", Some two_book_translation)] one_book_db in
  map sg_book_id (segments db) = [γ"tlg0012.tlg001.001"; γ"tlg0012.tlg001.002"] /\
  map sg_translator (segments db) = [γ"Samuel Butler"; γ"Samuel Butler"] /\
  has_book db γ"tlg0012.tlg001.002" = false.
Proof. vm_compute. auto. Qed.

Lemma get_section_line_mapping_bounds_witness :
  match get_section_line_mapping sample_lines_db γ"b" 11 (Some 11) with
  | inr m => exists ml, sql_max (book_line_numbers sample_lines_db γ"b") = Some ml /\
               1 <= 11 <= 11 /\ 1 <= 45 /\ 48 <= ml
  | inl _ => False
  end.
Proof.
  destruct (get_section_line_mapping _ _ _ _) as [e|m] eqn:E; [vm_compute in E; discriminate|].
  apply (get_section_line_mapping_bounds _ _ _ _ m 11 45 48 E).
  vm_compute in E. injection E as <-. vm_compute. reflexivity.
Defined.

Lemma get_section_line_mapping_contiguous_witness :
  match get_section_line_mapping sample_lines_db γ"b" 11 (Some 11) with
  | inr m => 45 = 44 + 1 \/ sql_max (book_line_numbers sample_lines_db γ"b") = Some 44
  | inl _ => False
  end.
Proof.
  destruct (get_section_line_mapping _ _ _ _) as [e|m] eqn:E; [vm_compute in E; discriminate|].
  apply (get_section_line_mapping_contiguous _ _ _ _ m 10 41 44 45 48 E);
    vm_compute in E; injection E as <-; vm_compute; reflexivity.
Defined.

Lemma extract_translation_segments_spec_witness :
  match extract_translation_segments (fun _ => 7) milestone_doc γ"b" γ"T" empty_corpus with
  | inr (db', k) =>
      exists rows, db' = Corpus [] [] [] [] [] ([] ++ rows) /\ Z.of_nat (length rows) = k /\
        Forall (fun r => sg_book_id r = γ"b" /\ sg_text r <> [] /\ sg_translator r = γ"T") rows
  | inl _ => False
  end.
Proof.
  destruct (extract_translation_segments _ _ _ _ _) as [e|[db' k]] eqn:E; [vm_compute in E; discriminate|].
  exact (extract_translation_segments_spec _ _ _ _ _ _ _ E).
Defined.
