(* ===== verification/Authors.v ===== *)
(** * Authors and works: process_perseus_author and the author loops of create_database

    [create_database] (create_perseus_database.py:2473-2962) discovers
    the Greek author directories of [canonical-greekLit/data] (lines
    2629-2651), keeps a subset of them in the test phases (lines
    2655-2676), and hands each, in the order of their names, to
    [process_perseus_author] (lines 1689-1815); then the three Latin
    authors (lines 2710-2723).  [process_perseus_author] inserts the
    author, reads every work directory's [__cts__.xml] with
    [parse_cts_metadata] (lines 611-660), inserts the work, and runs
    [process_text_file] and [process_translations] on it; an author
    without a processed work is deleted again.

    The file system is an input: a directory is a list of entries, a
    file comes with the result of [ET.parse] on it ([None] when it
    raises).  Listing order is the file system's, as [iterdir] gives it. *)

From stdpp Require Import sorting.
From S2P Require Import Prelude Unicode Normalize LemmaMap Paradigm Resolver Pipeline Xml Tei Texts PyFloat Translations.

(** A directory entry: a file with [ET.parse] of it, or a directory. *)
Inductive fs_entry :=
  | FsFile (name : pystr) (parsed : option element)
  | FsDir (name : pystr) (entries : list fs_entry).

(** The files of a directory, with their parse results. *)
Definition dir_files (es : list fs_entry) : list (pystr * option element) :=
  omap (fun e => match e with FsFile n p => Some (n, p) | FsDir _ _ => None end) es.

(** [(d / name).exists()] for a file, and [ET.parse] of it. *)
Definition find_file (name : pystr) (es : list fs_entry) : option (option element) :=
  match List.find (fun f => bool_decide (f.1 = name)) (dir_files es) with
  | Some (_, p) => Some p
  | None => None
  end.

(** [d.glob("*.xml")]: [*] does not match a leading dot. *)
Definition xml_glob (name : pystr) : bool := negb (startswith name γ".") && endswith name γ".xml".

(** ** parse_cts_metadata, lines 611-660 *)

(** The values of [work_info.get(...)]: [None] both for a missing key and
    for an element without text. *)
Record work_info := WorkInfo {
  wi_title_english : option pystr;
  wi_title_latin : option pystr;
  wi_title_greek : option pystr;
  wi_urn : pystr;
  wi_type : pystr
}.

Definition xml_lang : String.string := "{http://www.w3.org/XML/1998/namespace}lang".

(** [elem.get(xml:lang, elem.get('lang', 'unk'))] *)
Definition lang_of (e : element) : pystr :=
  match elem_get e xml_lang with Some v => v | None => elem_get_or e "lang" γ"unk" end.

(** Lines 621-630: the last title of each language wins, also one
    without text. *)
Definition title_step (st : option pystr * option pystr * option pystr) (e : element)
    : option pystr * option pystr * option pystr :=
  let '(te, tl, tg) := st in
  if tag_has e "title" then
    let lang := lang_of e in
    if bool_decide (lang = γ"eng") then (text e, tl, tg)
    else if bool_decide (lang = γ"lat") then (te, text e, tg)
    else if bool_decide (lang ∈ [γ"grc"; γ"greek"]) then (te, tl, text e)
    else st
  else st.

(** Lines 636-641: the first English [label] with a text. *)
Definition translation_label (e : element) : option pystr :=
  match List.find (fun l => tag_has l "label" && bool_decide (lang_of l = γ"eng") && truthy (text l)) (iter e) with
  | Some l => text l
  | None => None
  end.

(** Lines 633-642 *)
Definition label_step (te : option pystr) (e : element) : option pystr :=
  if tag_has e "translation" then match translation_label e with Some t => Some t | None => te end else te.

(** Lines 645-651: the [urn] of the root, else of the first element
    whose tag mentions [work] (the root itself when its tag does). *)
Definition cts_urn (root : element) : pystr :=
  let urn := elem_get_or root "urn" [] in
  if nonempty urn then urn
  else match List.find (fun e => tag_has e "work") (iter root) with
       | Some e => elem_get_or e "urn" []
       | None => urn
       end.

Definition parse_cts_metadata (parsed : option element) : option work_info :=
  match parsed with
  | None => None
  | Some root =>
      let '(te, tl, tg) := foldl title_step (None, None, None) (iter root) in
      let te := foldl label_step te (iter root) in
      Some (WorkInfo te tl tg (cts_urn root) γ"text")
  end.

(** ** process_perseus_author, lines 1689-1815 *)

(** Lines 1695-1709: the text of the first [groupname], else the id. *)
Definition author_name_of (author_id : pystr) (cts : option (option element)) : pystr :=
  match cts with
  | Some (Some root) =>
      match List.find (fun e => tag_has e "groupname") (iter root) with
      | Some e => if truthy (text e) then opt_str (text e) else author_id
      | None => author_id
      end
  | _ => author_id
  end.

(** [latin_to_english], lines 1741-1756. *)
Definition latin_to_english : list (pystr * pystr) := [
  (γ"Carmina", γ"Odes"); (γ"Epistulae", γ"Epistles"); (γ"Sermones", γ"Satires");
  (γ"Epodi", γ"Epodes"); (γ"De Bello Gallico", γ"The Gallic War");
  (γ"De Bello Civili", γ"The Civil War"); (γ"Metamorphoses", γ"Metamorphoses");
  (γ"Fasti", γ"Fasti"); (γ"Tristia", γ"Tristia"); (γ"Ex Ponto", γ"Letters from Pontus");
  (γ"Heroides", γ"Heroides"); (γ"Amores", γ"The Loves");
  (γ"Remedia Amoris", γ"The Cure for Love"); (γ"Medicamina Faciei Femineae", γ"Cosmetics for Ladies")].

(** [a or b] of two [work_info] values. *)
Definition or_else (a : option pystr) (b : pystr) : pystr := if truthy a then opt_str a else b.

(** Lines 1737-1760: English title, else Latin, else the directory name;
    a Latin title alone is translated by [latin_to_english]. *)
Definition title_english_of (wi : work_info) (work_num : pystr) : pystr :=
  let t := or_else (wi_title_english wi) (or_else (wi_title_latin wi) work_num) in
  if negb (truthy (wi_title_english wi)) then
    match List.find (fun kv => bool_decide (kv.1 = t)) latin_to_english with Some (_, en) => en | None => t end
  else t.

(** Lines 1771-1778: a Perseus file in the language. *)
Definition suitable_text (language : String.string) (name : pystr) : bool :=
  contains name γ"perseus" &&
  ((contains name γ"grc" && String.eqb language "greek") || (contains name γ"lat" && String.eqb language "latin")).

(** [INSERT OR IGNORE INTO authors]: the key is [id]. *)
Definition insert_author_or_ignore (a : author_row) (db : corpus) : corpus :=
  if existsb (fun a' => bool_decide (a_id a' = a_id a)) (authors db) then db
  else Corpus (authors db ++ [a]) (works db) (books db) (text_lines db) (words db) (segments db).

(** [INSERT OR IGNORE INTO works]: the key is [id]. *)
Definition insert_work_or_ignore (w : work_row) (db : corpus) : corpus :=
  if existsb (fun w' => bool_decide (wk_id w' = wk_id w)) (works db) then db
  else Corpus (authors db) (works db ++ [w]) (books db) (text_lines db) (words db) (segments db).

(** [DELETE FROM authors WHERE id = ?] *)
Definition delete_author (id : pystr) (db : corpus) : corpus :=
  Corpus (List.filter (fun a => negb (bool_decide (a_id a = id))) (authors db))
    (works db) (books db) (text_lines db) (words db) (segments db).

Section Author.
Context `{UnicodeDB}.
Variable str_hash : pystr -> Z.

(** The body of the loop of lines 1720-1810; the state is the tables
    and [works_processed]. *)
Definition process_work (author_id author_name : pystr) (language : String.string)
    (st : corpus * Z) (e : fs_entry) : corpus * Z :=
  let '(db, n) := st in
  match e with
  | FsFile _ _ => st
  | FsDir work_num es =>
      if startswith work_num γ"__" then st else
      let work_id := author_id ++ γ"." ++ work_num in
      match find_file γ"__cts__.xml" es with
      | None => st
      | Some cts =>
          match parse_cts_metadata cts with
          | None => st
          | Some wi =>
              let title_english := title_english_of wi work_num in
              let text_files := List.filter (fun f => xml_glob f.1 && negb (startswith f.1 γ"__")) (dir_files es) in
              match text_files with
              | [] => st
              | _ =>
                  match List.find (fun f => suitable_text language f.1) text_files with
                  | None => st
                  | Some (_, parsed) =>
                      let db := insert_work_or_ignore
                        (WorkRow work_id author_id
                           (or_else (wi_title_greek wi) (or_else (wi_title_latin wi) title_english))
                           (wi_title_latin wi) title_english (wi_type wi) (wi_urn wi)
                           (title_english ++ γ" by " ++ author_name)) db in
                      let db := (process_text_file parsed work_id language db).1 in
                      (process_translations str_hash work_id (dir_files es) db, n + 1)
                  end
              end
          end
      end
  end.

Definition process_perseus_author (language : String.string) (author_id : pystr) (es : list fs_entry)
    (db : corpus) : corpus :=
  let author_name := author_name_of author_id (find_file γ"__cts__.xml" es) in
  let db := insert_author_or_ignore (AuthorRow author_id author_name None language 0) db in
  let '(db, works_processed) := fold_left (process_work author_id author_name language) es (db, 0) in
  if works_processed =? 0 then delete_author author_id db else db.
End Author.

(** ** The author loops of create_database *)

(** The sub-directories of a directory, by name. *)
Definition subdirs (es : list fs_entry) : list (pystr * list fs_entry) :=
  omap (fun e => match e with FsDir n es' => Some (n, es') | FsFile _ _ => None end) es.

(** [greek_dir / author_id]: the first directory of that name. *)
Definition find_dir (name : pystr) (es : list fs_entry) : option (list fs_entry) :=
  match List.find (fun d => bool_decide (d.1 = name)) (subdirs es) with Some (_, es') => Some es' | None => None end.

(** Lines 2629-2651: the keys of [greek_authors], the directories whose
    name starts with [tlg] (a [dict], so each name once). *)
Definition greek_author_ids (greek : list fs_entry) : list pystr :=
  remove_dups (List.filter (fun n => startswith n γ"tlg") (map fst (subdirs greek))).

(** [phase_limits], lines 2657-2658. *)
Definition phase_limit (phase : String.string) : option nat :=
  if String.eqb phase "test" then Some 30%nat else if String.eqb phase "medium" then Some 60%nat else None.

Definition priority_authors : list pystr :=
  [γ"tlg0012"; γ"tlg0085"; γ"tlg0011"; γ"tlg0006"; γ"tlg0019"; γ"tlg0007"; γ"tlg0016"; γ"tlg0003";
   γ"tlg0032"; γ"tlg0059"; γ"tlg0086"; γ"tlg0020"; γ"tlg0033"; γ"tlg0026"].

(** Lines 2660-2675: the priority authors first, then the others in
    order, up to the limit. *)
(** [selected[id] = ...] on a [dict] used for its keys. *)
Definition dict_add (id : pystr) (sel : list pystr) : list pystr :=
  if bool_decide (id ∈ sel) then sel else sel ++ [id].

Definition select_phase (limit : option nat) (ids : list pystr) : list pystr :=
  match limit with
  | None => ids
  | Some k =>
      let sel := foldl (fun sel id => if bool_decide (id ∈ ids) && (length sel <? k)%nat then dict_add id sel else sel)
                   [] priority_authors in
      foldl (fun sel id => if negb (bool_decide (id ∈ sel)) && (length sel <? k)%nat then dict_add id sel else sel)
        sel (merge_sort pystr_le ids)
  end.

(** The Latin authors of lines 2710-2714, in the order of the literal. *)
Definition latin_authors : list pystr := [γ"phi0959"; γ"phi0690"; γ"phi0893"].

Section CreateCorpus.
Context `{UnicodeDB}.
Variable str_hash : pystr -> Z.

(** Lines 2679-2723 from the empty tables: each selected Greek author in
    the order of [sorted(greek_authors.items())], then each Latin author
    whose directory exists.  Nothing in [process_perseus_author] raises,
    so the [try] of line 2688 catches nothing. *)
Definition create_corpus (phase : String.string) (greek latin : list fs_entry) : corpus :=
  let ids := merge_sort pystr_le (select_phase (phase_limit phase) (greek_author_ids greek)) in
  let db := fold_left (fun db id =>
                         match find_dir id greek with
                         | Some es => process_perseus_author str_hash "greek" id es db
                         | None => db
                         end) ids empty_corpus in
  fold_left (fun db id =>
               match find_dir id latin with
               | Some es => process_perseus_author str_hash "latin" id es db
               | None => db
               end) latin_authors db.
End CreateCorpus.

(** ** A sample data directory *)

(** The [__cts__.xml] of a work: a Greek title, no [urn]. *)
Definition sample_work_cts : element :=
  el "{http://chs.harvard.edu/xmlns/cts}work" [] None
    [el "{http://chs.harvard.edu/xmlns/cts}title" [(xml_lang, γ"grc")] (Some γ"Ἰλιάς") []].

Definition sample_author_cts : element :=
  el "{http://chs.harvard.edu/xmlns/cts}textgroup" [] None
    [el "{http://chs.harvard.edu/xmlns/cts}groupname" [] (Some γ"Homer") []].

(** [tlg0012] with one work, its Greek text and an English translation;
    [tlg9999] with a work that has no text. *)
Definition sample_greek : list fs_entry :=
  [FsDir γ"tlg9999" [FsDir γ"tlg001" [FsFile γ"__cts__.xml" (Some sample_work_cts)]];
   FsDir γ"tlg0012" [FsFile γ"__cts__.xml" (Some sample_author_cts);
     FsDir γ"tlg001" [FsFile γ"__cts__.xml" (Some sample_work_cts);
                      FsFile γ"tlg0012.tlg001.perseus-grc2.xml" (Some gap_doc);
                      FsFile γ"tlg0012.tlg001.perseus-eng3.xml" (Some two_book_translation)]]].

(** ** The foreign keys of the text tables *)

Definition has_author (db : corpus) (id : pystr) : bool := existsb (fun a => bool_decide (a_id a = id)) (authors db).
Definition has_work (db : corpus) (id : pystr) : bool := existsb (fun w => bool_decide (wk_id w = id)) (works db).

(** [works.author_id] and [books.work_id] (lines 2531 and 2550), which
    SQLite does not enforce by default, with [text_lines.book_id]. *)
Definition works_have_authors (db : corpus) : Prop :=
  Forall (fun w => has_author db (wk_author_id w) = true) (works db).
Definition books_have_works (db : corpus) : Prop :=
  Forall (fun b => has_work db (b_work_id b) = true) (books db).
Definition corpus_integrity (db : corpus) : Prop :=
  works_have_authors db /\ books_have_works db /\ lines_have_books db.

Lemma existsb_id_spec {A} (f : A -> pystr) (l : list A) id :
  existsb (fun x => bool_decide (f x = id)) l = true <-> exists x, x ∈ l /\ f x = id.
Proof.
  rewrite existsb_exists. setoid_rewrite list_elem_of_In.
  split; intros (x & Hx & E); exists x; split; try done; by apply bool_decide_eq_true in E || apply bool_decide_eq_true.
Qed.

(** The keys depend on the tables they read only. *)
Lemma corpus_integrity_eq db db' :
  authors db' = authors db -> works db' = works db -> books db' = books db -> text_lines db' = text_lines db ->
  corpus_integrity db -> corpus_integrity db'.
Proof.
  intros Ha Hw Hb Hl (HA & HW & HL). unfold corpus_integrity, works_have_authors, books_have_works,
    lines_have_books, has_author, has_work, has_book. by rewrite Ha, Hw, Hb, Hl.
Qed.

Lemma insert_author_or_ignore_ok a db :
  corpus_integrity db -> corpus_integrity (insert_author_or_ignore a db) /\
  has_author (insert_author_or_ignore a db) (a_id a) = true /\ works (insert_author_or_ignore a db) = works db.
Proof.
  intros Hdb. unfold insert_author_or_ignore. destruct (existsb _ _) eqn:E; [done|].
  assert (forall id, has_author db id = true -> has_author (Corpus (authors db ++ [a]) (works db) (books db)
            (text_lines db) (words db) (segments db)) id = true) as Hmono.
  { intros id. unfold has_author. cbn. rewrite existsb_app. intros ->. done. }
  split; [|split; [|done]].
  - destruct Hdb as (HA & HW & HL). split; [|exact (conj HW HL)].
    eapply Forall_impl; [|exact HA]. intros w. apply Hmono.
  - unfold has_author. cbn. rewrite existsb_app. apply orb_true_iff. right. simpl.
    by rewrite bool_decide_eq_true_2.
Qed.

Lemma insert_work_or_ignore_ok w db :
  corpus_integrity db -> has_author db (wk_author_id w) = true ->
  corpus_integrity (insert_work_or_ignore w db) /\ has_work (insert_work_or_ignore w db) (wk_id w) = true /\
  authors (insert_work_or_ignore w db) = authors db /\
  (forall x, x ∈ works (insert_work_or_ignore w db) -> x ∈ works db \/ x = w).
Proof.
  intros (HA & HW & HL) Ha. unfold insert_work_or_ignore.
  destruct (existsb _ _) eqn:E; [split; [done|]; split; [exact E|]; split; [done|]; by left|].
  split; [|split; [|split; [done|]]].
  - split; [|split].
    + apply Forall_app. split; [exact HA|by constructor].
    + eapply Forall_impl; [|exact HW]. intros b. unfold has_work. cbn. rewrite existsb_app. by intros ->.
    + exact HL.
  - unfold has_work. cbn. rewrite existsb_app. apply orb_true_iff. right. simpl. by rewrite bool_decide_eq_true_2.
  - intros x Hx. cbn in Hx. apply elem_of_app in Hx as [|Hx%list_elem_of_singleton]; [by left|by right].
Qed.

Lemma delete_author_ok id db :
  corpus_integrity db -> (forall w, w ∈ works db -> wk_author_id w <> id) ->
  corpus_integrity (delete_author id db).
Proof.
  intros (HA & HW & HL) Hfresh. split; [|exact (conj HW HL)].
  apply list.Forall_forall. intros w Hw.
  pose proof (proj1 (list.Forall_forall _ _) HA w Hw) as Ha.
  apply existsb_id_spec in Ha as (a & Ha & Eid). apply existsb_id_spec. exists a. split; [|done].
  cbn. apply list_elem_of_In, filter_In. split; [by apply list_elem_of_In|].
  rewrite bool_decide_eq_false_2; [done|]. rewrite Eid. by apply Hfresh.
Qed.

Section AuthorFacts.
Context `{UnicodeDB}.
Variable str_hash : pystr -> Z.
Variable author_id : pystr.

(** The invariant of the loop over the work directories, [db0] being
    the tables before the author. *)
Definition work_inv (db0 : corpus) (st : corpus * Z) : Prop :=
  corpus_integrity st.1 /\ has_author st.1 author_id = true /\ 0 <= st.2 /\
  (st.2 = 0 -> forall w, w ∈ works st.1 -> wk_author_id w <> author_id) /\
  (forall w, w ∈ works st.1 -> w ∈ works db0 \/ wk_author_id w = author_id).

(** One work: the work row, then the text and the translations. *)
Lemma work_tables_ok work_id language parsed listing w db :
  wk_id w = work_id -> wk_author_id w = author_id -> corpus_integrity db -> has_author db author_id = true ->
  let db' := process_translations str_hash work_id listing
               (process_text_file parsed work_id language (insert_work_or_ignore w db)).1 in
  corpus_integrity db' /\ has_author db' author_id = true /\
  (forall x, x ∈ works db' -> x ∈ works db \/ x = w).
Proof.
  intros Hid Ha Hdb Hauth db'.
  destruct (insert_work_or_ignore_ok w db Hdb ltac:(by rewrite Ha)) as (Hdb1 & Hw1 & Ha1 & Hws1).
  set (db1 := insert_work_or_ignore w db) in *.
  destruct (process_text_file_books_from parsed work_id language db1) as (Ha2 & Hw2 & Hb2).
  pose proof (process_text_file_extends parsed work_id language db1) as Hext.
  set (db2 := (process_text_file parsed work_id language db1).1) in *.
  destruct (process_translations_frame str_hash work_id listing db2) as (Ha3 & Hw3 & Hb3 & Hl3 & _).
  assert (corpus_integrity db2) as Hdb2.
  { destruct Hdb1 as (HA & HW & HL). split; [|split].
    - unfold works_have_authors, has_author. by rewrite Ha2, Hw2.
    - apply list.Forall_forall. intros b [Hb|Hb]%Hb2; unfold has_work; rewrite Hw2.
      + exact (proj1 (list.Forall_forall _ _) HW b Hb).
      + rewrite Hb, <- Hid. exact Hw1.
    - by apply (lines_have_books_extends db1). }
  split; [by apply (corpus_integrity_eq db2)|]. split.
  - unfold has_author. subst db'. rewrite Ha3, Ha2, Ha1. exact Hauth.
  - intros x Hx. subst db'. rewrite Hw3, Hw2 in Hx. by apply Hws1.
Qed.

Lemma process_work_inv db0 author_name language st e :
  work_inv db0 st -> work_inv db0 (process_work str_hash author_id author_name language st e).
Proof.
  destruct st as [db n]. intros (Hdb & Hauth & Hn & Hz & Hws). unfold process_work.
  destruct e as [|work_num es]; [done|].
  destruct (startswith _ _); [done|]. destruct (find_file _ _) as [cts|]; [|done].
  destruct (parse_cts_metadata cts) as [wi|]; [|done].
  destruct (List.filter _ _) as [|f fs]; [done|]. destruct (List.find _ _) as [[fname parsed]|]; [|done].
  cbn [fst snd] in *.
  match goal with
  | |- work_inv _ (process_translations _ ?wid ?l (process_text_file ?p _ ?lang (insert_work_or_ignore ?w _)).1, _) =>
      destruct (work_tables_ok wid lang p l w db eq_refl eq_refl Hdb Hauth) as (Hdb' & Hauth' & Hws')
  end.
  split; [exact Hdb'|]. split; [exact Hauth'|]. cbn [snd]. split; [lia|]. split; [lia|].
  intros w Hw. destruct (Hws' w Hw) as [Hw0| ->]; [by apply Hws|by right].
Qed.
End AuthorFacts.

(** An author whose id no work carries yet keeps the keys, and adds
    only works of its own. *)
Lemma process_perseus_author_ok `{UnicodeDB} str_hash language author_id es db :
  corpus_integrity db -> (forall w, w ∈ works db -> wk_author_id w <> author_id) ->
  corpus_integrity (process_perseus_author str_hash language author_id es db) /\
  (forall w, w ∈ works (process_perseus_author str_hash language author_id es db) ->
     w ∈ works db \/ wk_author_id w = author_id).
Proof.
  intros Hdb Hfresh. unfold process_perseus_author.
  set (author_name := author_name_of author_id (find_file γ"__cts__.xml" es)).
  set (a := AuthorRow author_id author_name None language 0).
  destruct (insert_author_or_ignore_ok a db Hdb) as (Hdb1 & Hauth1 & Hw1).
  set (db1 := insert_author_or_ignore a db) in *.
  assert (work_inv author_id db (db1, 0)) as H0.
  { split; [done|]. split; [done|]. cbn [fst snd]. rewrite Hw1. split; [lia|].
    split; [intros _; exact Hfresh|]. intros w Hw; by left. }
  pose proof (fold_left_inv (work_inv author_id db) (process_work str_hash author_id author_name language) es
                (db1, 0) (fun st e => process_work_inv str_hash author_id db author_name language st e) H0) as Hinv.
  destruct (fold_left _ es (db1, 0)) as [db2 n] eqn:E.
  destruct Hinv as (Hdb2 & _ & Hn & Hz & Hws).
  destruct (n =? 0) eqn:En; [|split; [exact Hdb2|exact Hws]].
  apply Z.eqb_eq in En. split; [apply delete_author_ok; [exact Hdb2|by apply Hz]|exact Hws].
Qed.

(** ** The author loops keep the keys *)

(** A loop over distinct author ids, each step adding works of its own
    id only. *)
Lemma authors_loop_ok (f : pystr -> corpus -> corpus) l db done :
  (forall id db, corpus_integrity db -> (forall w, w ∈ works db -> wk_author_id w <> id) ->
     corpus_integrity (f id db) /\ forall w, w ∈ works (f id db) -> w ∈ works db \/ wk_author_id w = id) ->
  NoDup l -> (forall id, id ∈ l -> id ∉ done) ->
  corpus_integrity db -> (forall w, w ∈ works db -> wk_author_id w ∈ done) ->
  corpus_integrity (fold_left (fun db id => f id db) l db) /\
  (forall w, w ∈ works (fold_left (fun db id => f id db) l db) -> wk_author_id w ∈ done ++ l).
Proof.
  intros Hf. revert db done; induction l as [|id l IH]; intros db done Hnd Hl Hdb Hw.
  - split; [done|]. intros w Hw'. rewrite app_nil_r. by apply Hw.
  - apply list.NoDup_cons in Hnd as [Hid Hnd]. cbn [fold_left].
    destruct (Hf id db Hdb) as [Hdb' Hw'].
    { intros w Hw0 Heq. apply (Hl id); [by left|]. rewrite <- Heq. by apply Hw. }
    destruct (IH (f id db) (done ++ [id]) Hnd) as [H1 H2]; [| exact Hdb' | |].
    + intros id' Hin Hdone. apply elem_of_app in Hdone as [Hd| ->%list_elem_of_singleton]; [|done].
      by apply (Hl id'); [right|].
    + intros w [Hw0| ->]%Hw'; apply elem_of_app; [left; by apply Hw|right; by left].
    + split; [done|]. intros w Hw0. rewrite <- app_assoc in H2. by apply H2.
Qed.

Lemma dict_add_nodup id sel : NoDup sel -> NoDup (dict_add id sel).
Proof.
  intros Hs. unfold dict_add. case_bool_decide; [done|].
  apply list.NoDup_app. split; [done|]. split; [set_solver|apply list.NoDup_singleton].
Qed.

Lemma dict_add_elem id sel x : x ∈ dict_add id sel -> x ∈ sel \/ x = id.
Proof. unfold dict_add. case_bool_decide; [by left|]. rewrite elem_of_app, list_elem_of_singleton. tauto. Qed.

(** The selection of a phase: distinct ids, all of the directory. *)
Lemma select_phase_ok limit ids :
  NoDup ids -> NoDup (select_phase limit ids) /\ forall x, x ∈ select_phase limit ids -> x ∈ ids.
Proof.
  intros Hnd. destruct limit as [k|]; [|done]. cbn [select_phase].
  set (P sel := NoDup sel /\ forall x, x ∈ sel -> x ∈ ids).
  assert (forall g l sel, (forall id s, id ∈ l -> g id s = true -> id ∈ ids) -> P sel ->
            P (foldl (fun sel id => if g id sel then dict_add id sel else sel) sel l)) as Hloop.
  { intros g l. induction l as [|id l IH]; intros sel Hg [Hs Hsub]; [done|]. cbn [foldl]. apply IH.
    - intros id' s Hid'. apply Hg. by right.
    - destruct (g id sel) eqn:E; [|done]. split; [by apply dict_add_nodup|].
      intros x [Hx| ->]%dict_add_elem; [by apply Hsub|]. apply (Hg id sel); [by left|done]. }
  apply Hloop; [|apply Hloop; [|split; [constructor|set_solver]]].
  - intros id s Hid _. by rewrite merge_sort_Permutation in Hid.
  - intros id s _ [Hin _]%andb_true_iff. by apply bool_decide_eq_true in Hin.
Qed.

Lemma greek_author_ids_ok greek :
  NoDup (greek_author_ids greek) /\ forall x, x ∈ greek_author_ids greek -> startswith x γ"tlg" = true.
Proof.
  unfold greek_author_ids. split; [apply NoDup_remove_dups|].
  intros x Hx. rewrite elem_of_remove_dups in Hx. apply list_elem_of_In, filter_In in Hx as [_ Hx]. exact Hx.
Qed.

Lemma latin_authors_ok : NoDup latin_authors /\ Forall (fun x => startswith x γ"tlg" = false) latin_authors.
Proof. split; [apply (bool_decide_eq_true_1 (NoDup latin_authors)); vm_compute; reflexivity|repeat constructor]. Qed.

(** C16: The author loops of [create_database] keep the three foreign keys
    of the text tables: every work has its author, every book its work,
    every line its book, whatever the directories hold, whatever the
    phase, and although an author without works is deleted again. *)
Theorem create_corpus_integrity `{UnicodeDB} str_hash phase greek latin :
  corpus_integrity (create_corpus str_hash phase greek latin).
Proof.
  unfold create_corpus.
  set (ids := merge_sort pystr_le (select_phase (phase_limit phase) (greek_author_ids greek))).
  destruct (greek_author_ids_ok greek) as [Hnd Htlg].
  destruct (select_phase_ok (phase_limit phase) _ Hnd) as [Hnd' Hsub].
  assert (NoDup ids /\ forall x, x ∈ ids -> startswith x γ"tlg" = true) as [Hids Hpre].
  { unfold ids. rewrite merge_sort_Permutation. split; [done|]. intros x Hx.
    rewrite merge_sort_Permutation in Hx. by apply Htlg, Hsub. }
  assert (forall lang src id db, corpus_integrity db -> (forall w, w ∈ works db -> wk_author_id w <> id) ->
     let db' := match find_dir id src with Some es => process_perseus_author str_hash lang id es db | None => db end in
     corpus_integrity db' /\ forall w, w ∈ works db' -> w ∈ works db \/ wk_author_id w = id) as Hstep.
  { intros lang src id db Hdb Hf. simpl. destruct (find_dir id src) as [es|];
      [by apply process_perseus_author_ok|split; [done|]; by left]. }
  destruct (authors_loop_ok _ ids empty_corpus [] (Hstep "greek"%string greek) Hids) as [Hg1 Hg2];
    [set_solver|repeat split; constructor|intros w Hw; by apply elem_of_nil in Hw|].
  destruct latin_authors_ok as [Hlnd Hlpre].
  apply (authors_loop_ok _ latin_authors _ ([] ++ ids) (Hstep "latin"%string latin) Hlnd); [|exact Hg1|exact Hg2].
  intros id Hl Hin. apply (proj1 (list.Forall_forall _ _) Hlpre) in Hl. rewrite Hpre in Hl; [discriminate|].
  by rewrite app_nil_l in Hin.
Qed.

(** On a sample directory: the author without a text is deleted
    again, the work gets its Greek title, and its [urn] is the empty
    string: [parse_cts_metadata] always sets the key, so the default
    [urn:cts:greekLit:...] of line 1798 is never used. *)
Example create_corpus_sample :
  let db := create_corpus (fun _ => 0) "full" sample_greek [] in
  map a_id (authors db) = [γ"tlg0012"] /\ map a_name (authors db) = [γ"Homer"] /\
  map (fun w => (wk_id w, wk_title w, wk_urn w)) (works db) = [(γ"tlg0012.tlg001", γ"Ἰλιάς", [])] /\
  map b_id (books db) = [γ"tlg0012.tlg001.001"] /\
  map sg_book_id (segments db) = [γ"tlg0012.tlg001.001"; γ"tlg0012.tlg001.002"].
Proof. vm_compute. auto 6. Qed.
