(* ===== verification/Lookup.v ===== *)
(** * The end of create_database: has_translations and the translation lookup table

    After the index is built, [create_database] sets
    [authors.has_translations] for every author with a translated line
    (create_perseus_database.py:2922-2937) and builds [translation_lookup]
    with [create_translation_lookup_table] (lines 2963-3085): for every
    book that has lines and segments, each segment is mapped to the lines
    of its range, proportionally when the translation is numbered by
    sections, and every line still without a segment gets the nearest
    segment within 100 lines.  The table is a set of
    [(book_id, line_number, segment_id)], its primary key.

    A segment's [id] is its [AUTOINCREMENT] rowid: segments are never
    deleted, so the [n]-th inserted row has id [n].  The call at line
    2954 catches every exception; the inserts of the function are then
    rolled back by [conn.close()] (its only commit is at its end), while
    the table itself was created outside a transaction and stays, empty. *)

From stdpp Require Import sorting.
From S2P Require Import Prelude Unicode Tei PyFloat Translations.

(** ** has_translations, lines 2922-2937 *)

(** SQLite's [TRIM(s)]: spaces only, at both ends. *)
Definition sql_trim (s : pystr) : pystr :=
  let drop_sp := fix go (s : pystr) : pystr := match s with c :: s' => if c =? 32 then go s' else s | [] => [] end in
  rev (drop_sp (rev (drop_sp s))).

(** The authors of the [UPDATE]'s sub-query: an author with a work with a
    book with a segment whose text is longer than 10 once trimmed. *)
Definition translated_author (db : corpus) (a : author_row) : bool :=
  existsb (fun w =>
    bool_decide (wk_author_id w = a_id a) &&
    existsb (fun b =>
      bool_decide (b_work_id b = wk_id w) &&
      existsb (fun sg => bool_decide (sg_book_id sg = b_id b) && (10 <? length (sql_trim (sg_text sg)))%nat)
        (segments db))
      (books db))
    (works db).

Definition update_has_translations (db : corpus) : corpus :=
  Corpus (map (fun a => if translated_author db a
                        then AuthorRow (a_id a) (a_name a) (a_name_alt a) (a_language a) 1 else a) (authors db))
    (works db) (books db) (text_lines db) (words db) (segments db).

(** ** create_translation_lookup_table, lines 2963-3085 *)

(** [translation_segments] with the ids of its rows. *)
Definition segment_ids (db : corpus) : list (Z * segment_row) := imap (fun i r => (Z.of_nat (S i), r)) (segments db).

(** [SELECT id, start_line, end_line ... WHERE book_id = ? ORDER BY
    start_line]: SQLite sorts the rows it scans in rowid order, and its
    sorter keeps that order between equal keys. *)
Definition start_le (x y : Z * Z * Z) : Prop := x.1.2 <= y.1.2.

#[export] Instance start_le_dec : RelDecision start_le.
Proof. intros x y. unfold start_le. apply _. Defined.

Definition book_segments (db : corpus) (book_id : pystr) : list (Z * Z * Z) :=
  merge_sort start_le
    (omap (fun ir : Z * segment_row =>
             if bool_decide (sg_book_id ir.2 = book_id) then Some (ir.1, sg_start ir.2, sg_end ir.2) else None)
       (segment_ids db)).

(** The query of lines 2984-2991: a book with lines and segments, the
    number of its distinct line numbers, the least and the greatest. *)
Definition translated_book (db : corpus) (b : book_row) : option (pystr * Z * Z * Z) :=
  match book_line_numbers db (b_id b) with
  | [] => None
  | n0 :: ns =>
      if existsb (fun sg => bool_decide (sg_book_id sg = b_id b)) (segments db) then
        Some (b_id b, Z.of_nat (size (list_to_set (n0 :: ns) : gset Z)), foldl Z.min n0 ns, foldl Z.max n0 ns)
      else None
  end.

Definition lookup_row : Type := pystr * Z * Z.

(** The proportional range of a segment, lines 3019-3024. *)
Definition proportional_range (min_line max_line max_trans start end_ : Z) : float_exc + (Z * Z) :=
  let proportion_start := py_int_truediv (start - 1) max_trans in
  let proportion_end := py_int_truediv end_ max_trans in
  a ←? py_int_of_float (py_fadd (py_float min_line) (py_fmul proportion_start (py_float (max_line - min_line))));
  b ←? py_int_of_float (py_fadd (py_float min_line) (py_fmul proportion_end (py_float (max_line - min_line))));
  inr (a, b).

(** The lines of [range(a, b + 1)] that the book has, with the segment. *)
Definition map_range (book_id : pystr) (valid : gset Z) (sid a b : Z) : gset lookup_row :=
  list_to_set (map (fun l => (book_id, l, sid)) (List.filter (fun l => bool_decide (l ∈ valid)) (py_range a (b + 1)))).

(** The first loop, lines 3017-3044. *)
Definition map_segment (book_id : pystr) (valid : gset Z) (needs_mapping : bool) (min_line max_line max_trans : Z)
    (t : gset lookup_row) (seg : Z * Z * Z) : float_exc + gset lookup_row :=
  let '(sid, start, end_) := seg in
  if needs_mapping && (max_trans <? 500) && (0 <? max_trans) then
    ab ←? proportional_range min_line max_line max_trans start end_;
    inr (t ∪ map_range book_id valid sid ab.1 ab.2)
  else inr (t ∪ map_range book_id valid sid start end_).

(** The nearest segment of lines 3057-3064: the first of the least
    distance, if below 100. *)
Definition nearest_segment (segs : list (Z * Z * Z)) (l : Z) : option Z :=
  (foldl (fun (acc : option Z * option Z) (seg : Z * Z * Z) =>
            let '(best, min_dist) := acc in
            let '(sid, start, end_) := seg in
            let dist := Z.min (Z.abs (l - start)) (Z.abs (l - end_)) in
            if match min_dist with Some m => dist <? m | None => true end && (dist <? 100)
            then (Some sid, Some dist) else acc)
         (None, None) segs).1.

(** The body of the loop of lines 2996-3078 for one book. *)
Definition lookup_book (db : corpus) (t : gset lookup_row) (bk : pystr * Z * Z * Z) : float_exc + gset lookup_row :=
  let '(book_id, line_count, min_line, max_line) := bk in
  let segs := book_segments db book_id in
  match segs with
  | [] => inr t
  | s0 :: _ =>
      let valid : gset Z := list_to_set (book_line_numbers db book_id) in
      let max_trans := foldl Z.max s0.2 (map snd segs) in
      let needs_mapping := py_lt_int_float max_trans (py_int_truediv max_line 2) || (max_line * 2 <? max_trans) in
      t ←? fold_err (map_segment book_id valid needs_mapping min_line max_line max_trans) segs t;
      let mapped : gset Z := set_map (fun r : lookup_row => r.1.2) (filter (fun r : lookup_row => r.1.1 = book_id) t) in
      let unmapped := valid ∖ mapped in
      inr (t ∪ list_to_set (omap (fun l => match nearest_segment segs l with
                                          | Some sid => if bool_decide (sid = 0) then None else Some (book_id, l, sid)
                                          | None => None
                                          end) (elements unmapped)))
  end.

(** [create_translation_lookup_table] under the [try] of line 2953: the
    table after the call, empty when the call raised. *)
Definition create_translation_lookup_table (db : corpus) : gset lookup_row :=
  match fold_err (lookup_book db) (omap (translated_book db) (books db)) ∅ with
  | inr t => t
  | inl _ => ∅
  end.

(** ** Every row of translation_lookup is a line and a segment of its book *)

(** The two foreign keys of [translation_lookup] (lines 2975-2976). *)
Definition lookup_valid (db : corpus) (r : lookup_row) : Prop :=
  r.1.2 ∈ book_line_numbers db r.1.1 /\ exists sg, (r.2, sg) ∈ segment_ids db /\ sg_book_id sg = r.1.1.

Lemma book_segments_elem db book_id seg :
  seg ∈ book_segments db book_id -> exists sg, (seg.1.1, sg) ∈ segment_ids db /\ sg_book_id sg = book_id.
Proof.
  unfold book_segments. rewrite merge_sort_Permutation. intros ([i sg] & Hin & Hf)%list_elem_of_omap.
  simpl in Hf. case_bool_decide; [|discriminate]. injection Hf as <-. by exists sg.
Qed.

Lemma segment_ids_pos db i sg : (i, sg) ∈ segment_ids db -> 0 < i.
Proof. unfold segment_ids. intros (k & x & [= -> _] & _)%elem_of_lookup_imap. lia. Qed.

Lemma map_range_elem book_id valid sid a b r :
  r ∈ map_range book_id valid sid a b -> r.1.1 = book_id /\ r.1.2 ∈ valid /\ r.2 = sid.
Proof.
  unfold map_range. rewrite elem_of_list_to_set, list_elem_of_fmap.
  intros (l & -> & Hl). apply list_elem_of_In, filter_In in Hl as [_ Hl].
  by apply bool_decide_eq_true in Hl.
Qed.

(** The segment [nearest_segment] picks is one of the list, at a distance
    below 100; it picks one whenever one is that close. *)
Lemma nearest_segment_spec segs l :
  (forall sid, nearest_segment segs l = Some sid -> exists seg, seg ∈ segs /\ seg.1.1 = sid) /\
  ((exists seg, seg ∈ segs /\ Z.min (Z.abs (l - seg.1.2)) (Z.abs (l - seg.2)) < 100) ->
   exists sid, nearest_segment segs l = Some sid).
Proof.
  unfold nearest_segment.
  assert (forall acc, (forall sid, acc.1 = Some sid -> exists seg, seg ∈ segs /\ seg.1.1 = sid) ->
            (acc.1 = None <-> acc.2 = None) ->
            forall rest, (forall seg, seg ∈ rest -> seg ∈ segs) ->
            let r := foldl (fun (acc : option Z * option Z) (seg : Z * Z * Z) =>
                   let '(best, min_dist) := acc in let '(sid, start, end_) := seg in
                   let dist := Z.min (Z.abs (l - start)) (Z.abs (l - end_)) in
                   if match min_dist with Some m => dist <? m | None => true end && (dist <? 100)
                   then (Some sid, Some dist) else acc) acc rest in
            (forall sid, r.1 = Some sid -> exists seg, seg ∈ segs /\ seg.1.1 = sid) /\
            ((exists seg, seg ∈ rest /\ Z.min (Z.abs (l - seg.1.2)) (Z.abs (l - seg.2)) < 100) \/ acc.1 <> None ->
             exists sid, r.1 = Some sid)) as Hgen.
  { intros acc Hacc Hnn rest. revert acc Hacc Hnn. induction rest as [|[[sid st] en] rest IH];
      intros [best md] Hacc Hnn Hsub; simpl.
    - split; [done|]. intros [(seg & Hs & _)|Hb]; [by apply elem_of_nil in Hs|]. destruct best; [eauto|done].
    - set (dist := Z.min (Z.abs (l - st)) (Z.abs (l - en))).
      destruct (match md with Some m => dist <? m | None => true end && (dist <? 100)) eqn:E.
      + destruct (IH (Some sid, Some dist)) as [H1 H2]; [|done|set_solver|].
        { intros s [= <-]. exists (sid, st, en). split; [apply Hsub; by left|done]. }
        split; [done|]. intros _. apply H2. by right.
      + destruct (IH (best, md)) as [H1 H2]; [done|done|set_solver|]. split; [done|].
        intros [(seg & [->|Hs]%elem_of_cons & Hd)|Hb]; apply H2; [|by left; eauto|by right].
        simpl in *. destruct md as [m|].
        * right. destruct best; [done|]. simpl in Hnn. discriminate (proj1 Hnn eq_refl).
        * apply andb_false_iff in E as [E|E]; [done|]. apply Z.ltb_ge in E. subst dist. lia. }
  destruct (Hgen (None, None) ltac:(done) ltac:(done) segs ltac:(done)) as [H1 H2].
  split; [exact H1|]. intros Hex. apply H2. by left.
Qed.

Lemma map_segment_mono book_id valid nm mn mx mt t seg t' :
  map_segment book_id valid nm mn mx mt t seg = inr t' -> t ⊆ t'.
Proof.
  destruct seg as [[sid st] en]. unfold map_segment.
  destruct (_ && _ && _); [|intros [= <-]; set_solver].
  intros (ab & _ & [= <-])%sbind_inr. set_solver.
Qed.

Lemma map_segment_valid db book_id nm mn mx mt t seg t' :
  seg ∈ book_segments db book_id -> set_Forall (lookup_valid db) t ->
  map_segment book_id (list_to_set (book_line_numbers db book_id)) nm mn mx mt t seg = inr t' ->
  set_Forall (lookup_valid db) t'.
Proof.
  intros Hseg Ht. destruct (book_segments_elem _ _ _ Hseg) as (sg & Hsg & Hb).
  destruct seg as [[sid st] en]. simpl in Hsg.
  assert (forall a b, set_Forall (lookup_valid db)
            (t ∪ map_range book_id (list_to_set (book_line_numbers db book_id)) sid a b)) as Hu.
  { intros a b r [Hr|Hr]%elem_of_union; [by apply Ht|].
    apply map_range_elem in Hr as (Hrb & Hrl & Hrs). rewrite elem_of_list_to_set in Hrl.
    split; [by rewrite Hrb|]. exists sg. by rewrite Hrs, Hrb. }
  unfold map_segment. destruct (_ && _ && _); [|intros [= <-]; apply Hu].
  intros (ab & _ & [= <-])%sbind_inr. apply Hu.
Qed.

(** One book keeps the rows valid and only adds rows. *)
Lemma lookup_book_valid db t bk t' :
  set_Forall (lookup_valid db) t -> lookup_book db t bk = inr t' -> set_Forall (lookup_valid db) t' /\ t ⊆ t'.
Proof.
  destruct bk as [[[book_id cnt] mn] mx]. intros Ht. unfold lookup_book.
  destruct (book_segments db book_id) as [|s0 rest] eqn:Es; [intros [= <-]; done|].
  intros (t1 & Hf & [= <-])%sbind_inr.
  assert (set_Forall (lookup_valid db) t1 /\ t ⊆ t1) as [Ht1 Hsub].
  { refine (fold_err_inv _ (fun x => set_Forall (lookup_valid db) x /\ t ⊆ x) _ t t1 _ _ Hf); [|done].
    intros x seg x' [Hx Hsx] Hseg Hstep. rewrite <- Es in Hseg. split.
    - by eapply map_segment_valid.
    - etrans; [exact Hsx|]. by eapply map_segment_mono. }
  split; [|set_solver].
  intros r [Hr|Hr]%elem_of_union; [by apply Ht1|].
  apply elem_of_list_to_set, list_elem_of_omap in Hr as (l & Hl & Hr).
  destruct (nearest_segment (s0 :: rest) l) as [sid|] eqn:En; [|discriminate].
  case_bool_decide; [discriminate|]. injection Hr as <-.
  apply elem_of_elements, elem_of_difference in Hl as [Hl _]. rewrite elem_of_list_to_set in Hl.
  destruct (proj1 (nearest_segment_spec _ l) sid En) as (seg & Hseg & <-). rewrite <- Es in Hseg.
  destruct (book_segments_elem _ _ _ Hseg) as (sg & Hsg & Hb). split; [done|]. by exists sg.
Qed.

(** C19: Every row of [translation_lookup] is a line of [text_lines] and a
    segment of [translation_segments], both of the row's book: the two
    foreign keys of the table hold, whatever the float arithmetic does
    (the table is empty when it raised). *)
Theorem create_translation_lookup_table_valid db :
  set_Forall (lookup_valid db) (create_translation_lookup_table db).
Proof.
  unfold create_translation_lookup_table.
  destruct (fold_err _ _ _) as [e|t] eqn:E; [apply set_Forall_empty|].
  refine (fold_err_inv _ (set_Forall (lookup_valid db)) _ ∅ t _ _ E); [|apply set_Forall_empty].
  intros x bk x' Hx _ Hs. by apply (lookup_book_valid db x bk x').
Qed.

(** ** Every line near a segment gets one *)

Lemma book_segments_of db sg :
  sg ∈ segments db -> exists i, (i, sg_start sg, sg_end sg) ∈ book_segments db (sg_book_id sg).
Proof.
  intros (k & Hk)%list_elem_of_lookup. exists (Z.of_nat (S k)).
  unfold book_segments. rewrite merge_sort_Permutation, list_elem_of_omap.
  exists (Z.of_nat (S k), sg). split; [|by rewrite bool_decide_eq_true_2].
  apply list_elem_of_lookup. exists k. unfold segment_ids. by rewrite list_lookup_imap, Hk.
Qed.

Lemma lookup_book_mono db t bk t' : lookup_book db t bk = inr t' -> t ⊆ t'.
Proof.
  destruct bk as [[[book_id cnt] mn] mx]. unfold lookup_book.
  destruct (book_segments db book_id) as [|s0 rest]; [by intros [= <-]|].
  intros (t1 & Hf & [= <-])%sbind_inr.
  enough (t ⊆ t1) by set_solver.
  refine (fold_err_inv _ (fun x => t ⊆ x) _ t t1 _ _ Hf); [|done].
  intros x seg x' Hx _ Hs. etrans; [exact Hx|]. by eapply map_segment_mono.
Qed.

(** A line of a book with a segment within 100 lines has a row once the
    book is processed: it was mapped by a range, or gets the nearest
    segment, whose id is not 0. *)
Lemma lookup_book_covers db t book_id cnt mn mx t' l seg :
  lookup_book db t (book_id, cnt, mn, mx) = inr t' ->
  l ∈ book_line_numbers db book_id -> seg ∈ book_segments db book_id ->
  Z.min (Z.abs (l - seg.1.2)) (Z.abs (l - seg.2)) < 100 ->
  exists sid, (book_id, l, sid) ∈ t'.
Proof.
  intros Hl_book Hl Hseg Hd. revert Hl_book. unfold lookup_book.
  destruct (book_segments db book_id) as [|s0 rest] eqn:Es; [by apply elem_of_nil in Hseg|].
  intros (t1 & _ & [= <-])%sbind_inr.
  set (mapped := set_map _ _ : gset Z).
  destruct (decide (l ∈ mapped)) as [Hm|Hm].
  - apply elem_of_map in Hm as (r & -> & (Hb & Hr)%elem_of_filter).
    exists r.2. destruct r as [[b' l'] s']. simpl in *. subst b'. set_solver.
  - destruct (proj2 (nearest_segment_spec (s0 :: rest) l) ltac:(eauto)) as [sid Hsid].
    destruct (proj1 (nearest_segment_spec _ l) sid Hsid) as (seg' & Hseg' & <-).
    rewrite <- Es in Hseg'. destruct (book_segments_elem _ _ _ Hseg') as (sg & Hsg & _).
    pose proof (segment_ids_pos _ _ _ Hsg).
    exists seg'.1.1. apply elem_of_union_r, elem_of_list_to_set, list_elem_of_omap.
    exists l. rewrite Hsid, bool_decide_eq_false_2 by lia. split; [|done].
    apply elem_of_elements, elem_of_difference. by rewrite elem_of_list_to_set.
Qed.

Lemma translated_book_of db b l sg :
  l ∈ book_line_numbers db (b_id b) -> sg ∈ segments db -> sg_book_id sg = b_id b ->
  exists cnt mn mx, translated_book db b = Some (b_id b, cnt, mn, mx).
Proof.
  intros Hl Hsg Hb. unfold translated_book.
  destruct (book_line_numbers db (b_id b)) as [|n0 ns]; [by apply elem_of_nil in Hl|].
  assert (existsb (fun sg => bool_decide (sg_book_id sg = b_id b)) (segments db) = true) as ->.
  { apply existsb_exists. exists sg. split; [by apply list_elem_of_In|by apply bool_decide_eq_true_2]. }
  eauto.
Qed.

(** C20: Unless the float arithmetic raised, every line of a book with
    translation segments that lies within 100 lines of one of them (of
    its start or of its end) has a row in [translation_lookup]. *)
Theorem create_translation_lookup_table_complete db t b l sg :
  fold_err (lookup_book db) (omap (translated_book db) (books db)) ∅ = inr t ->
  b ∈ books db -> l ∈ book_line_numbers db (b_id b) ->
  sg ∈ segments db -> sg_book_id sg = b_id b -> Z.min (Z.abs (l - sg_start sg)) (Z.abs (l - sg_end sg)) < 100 ->
  exists sid, (b_id b, l, sid) ∈ create_translation_lookup_table db.
Proof.
  intros Hf Hb Hl Hsg Hsb Hd. unfold create_translation_lookup_table. rewrite Hf.
  destruct (translated_book_of db b l sg Hl Hsg Hsb) as (cnt & mn & mx & Htb).
  destruct (book_segments_of db sg Hsg) as [i Hi]. rewrite Hsb in Hi.
  refine (fold_err_elem _ (fun _ => True) (fun x => exists sid, (b_id b, l, sid) ∈ x) _
            (b_id b, cnt, mn, mx) ∅ t _ _ _ _ I Hf); [done| |..].
  - intros x bk x' _ [sid Hx] _ Hs. exists sid. by eapply lookup_book_mono.
  - intros x x' _ Hs. by eapply lookup_book_covers.
  - apply list_elem_of_omap. eauto.
Qed.

(** ** A book whose translation is numbered by sections *)

(** A book of 100 lines and a translation in three one-line sections:
    the section numbers are far below half the line count, so the
    segments are spread proportionally over the book. *)
Definition db100 : corpus :=
  Corpus [] [] [BookRow γ"b" γ"w" 1 γ"Book 1" 1 100 100]
    (map (fun i => LineRow γ"b" (Z.of_nat (S i)) γ"x" (XmlText []) None) (seq 0 100)) []
    [SegmentRow γ"b" 1 1 γ"first" γ"T" None; SegmentRow γ"b" 2 2 γ"second" γ"T" None;
     SegmentRow γ"b" 3 3 γ"third" γ"T" None].

Lemma create_translation_lookup_table_complete_witness :
  exists t, fold_err (lookup_book db100) (omap (translated_book db100) (books db100)) ∅ = inr t /\
  exists sid, (γ"b", 50, sid) ∈ create_translation_lookup_table db100.
Proof.
  assert (match fold_err (lookup_book db100) (omap (translated_book db100) (books db100)) ∅ with
          | inr _ => True | inl _ => False end) as Hok by (vm_compute; exact I).
  destruct (fold_err (lookup_book db100) (omap (translated_book db100) (books db100)) ∅) as [e|t] eqn:E;
    [contradiction|].
  exists t. split; [done|].
  apply (create_translation_lookup_table_complete db100 t (BookRow γ"b" γ"w" 1 γ"Book 1" 1 100 100) 50
           (SegmentRow γ"b" 2 2 γ"second" γ"T" None)); [exact E| | | |done|vm_compute; done].
  - apply list_elem_of_In. vm_compute. tauto.
  - apply (bool_decide_unpack _). vm_compute. done.
  - apply list_elem_of_In. vm_compute. tauto.
Defined.

(** The proportional ranges overlap at their ends: [int()] of the
    end of one section and of the start of the next are the same line,
    which lines 3027-3034 map to both segments (lines 34 and 67 of a
    100-line book in three sections have two rows each). *)
Example lookup_boundary_lines_doubled :
  (γ"b", 34, 1) ∈ create_translation_lookup_table db100 /\
  (γ"b", 34, 2) ∈ create_translation_lookup_table db100 /\
  (γ"b", 67, 2) ∈ create_translation_lookup_table db100 /\
  (γ"b", 67, 3) ∈ create_translation_lookup_table db100.
Proof. split_and!; apply (bool_decide_unpack _); vm_compute; done. Qed.
