(* ===== verification/Alignment.v ===== *)
(** * The translation alignment repair scripts

    Two scripts repair the line ranges of [translation_segments] in a
    built database, where a translation numbered by sections had its
    section numbers stored as line numbers:

    - fix_alignment_post_import.py ([fix_alignments]): for every book
      whose translation reaches less than half of its lines, with as many
      segments as its last section number, each one-line segment
      [(s, s)] becomes the range of section [s] of [get_section_line_mapping];
    - fix_translation_alignment_general.py: [analyze_book_alignment]
      classifies each translated book ([correct], [section_as_line],
      [partial_translation], [reference_system], [unknown]);
      [fix_section_as_line_alignment] and [fix_reference_system_alignment]
      compute the new ranges, and [apply_fixes] applies them.

    The database is the corpus of Tei.v; a segment's id is its rowid
    ([Lookup.segment_ids]).  The floats are those of PyFloat.v: coverage
    percentages, ratios and their [int()].  A script that raises stops
    before its commit: the database is then unchanged. *)

From Corelib Require Import Floats.SpecFloat.
From stdpp Require Import sorting.
From S2P Require Import Prelude Unicode Tei PyFloat Translations Lookup.

(** What the scripts raise: [None > 0] of a book without lines, or
    [int()] of an infinite or NaN float. *)
Inductive fix_error := FixTypeError | FixFloatError (e : float_exc).

Definition fix_int (x : spec_float) : fix_error + Z :=
  match py_int_of_float x with inl e => inl (FixFloatError e) | inr k => inr k end.

(** [UPDATE translation_segments SET start_line = ?, end_line = ? WHERE id = ?] *)
Definition update_segment (db : corpus) (u : Z * Z * Z) : corpus :=
  let '(new_start, new_end, sid) := u in
  Corpus (authors db) (works db) (books db) (text_lines db) (words db)
    (imap (fun i sg => if Z.of_nat (S i) =? sid
                       then SegmentRow (sg_book_id sg) new_start new_end (sg_text sg) (sg_translator sg) (sg_speaker sg)
                       else sg) (segments db)).

(** The segments of a book with their ids, in rowid order. *)
Definition book_segment_rows (db : corpus) (book_id : pystr) : list (Z * segment_row) :=
  List.filter (fun ir => bool_decide (sg_book_id ir.2 = book_id)) (segment_ids db).

(** ** fix_translation_alignment_general.py *)

Inductive alignment_type := Correct | SectionAsLine | PartialTranslation | ReferenceSystem | UnknownAlignment.

#[export] Instance alignment_type_eq_dec : EqDecision alignment_type.
Proof. solve_decision. Defined.

(** The dictionary [analyze_book_alignment] returns. *)
Record analysis := Analysis {
  an_book_id : pystr;
  an_total_lines : Z;
  an_max_line : Z;
  an_segment_count : Z;
  an_max_trans : Z;
  an_coverage : spec_float;
  an_type : alignment_type
}.

(** [coverage = (max_trans / max_line * 100) if max_line > 0 else 0]: the
    [int] 0 compares as the float 0. *)
Definition coverage_of (max_trans max_line : Z) : spec_float :=
  if 0 <? max_line then py_fmul (py_int_truediv max_trans max_line) (py_float 100) else py_float 0.

(** [any('-' in str(s) for s in sample_starts)] *)
Definition bekker_pattern (sample_starts : list Z) : bool :=
  existsb (fun s => contains (py_str_Z s) [45]) sample_starts.

(** The patterns of lines 54-108. *)
Definition classify (max_line segment_count max_trans single_line_segments : Z) (sample_starts : list Z)
    (coverage : spec_float) : alignment_type :=
  if py_float_gt_int coverage 80 then Correct
  else if py_float_lt_int coverage 50 && (max_trans =? segment_count) && (max_trans * 2 <? max_line)
  then SectionAsLine
  else if py_float_ge_int coverage 50 && py_float_le_int coverage 80 then
    if py_float_lt_int (py_int_fmul segment_count py_0_8) single_line_segments
    then PartialTranslation else Correct
  else
    let huge_numbers := existsb (fun s => max_line * 10 <? s) sample_starts in
    if bekker_pattern sample_starts || huge_numbers then ReferenceSystem
    else if py_float_lt_int coverage 30 then SectionAsLine
    else UnknownAlignment.

(** [analyze_book_alignment], lines 22-118: [None] for a book without
    segments; the comparison [max_line > 0] raises [TypeError] when the
    book has no text line ([MAX] is [NULL]).  The sample of five starts
    is taken without [ORDER BY], in rowid order. *)
Definition analyze_book_alignment (db : corpus) (book_id : pystr) : fix_error + option analysis :=
  let nums := book_line_numbers db book_id in
  let segs := book_segment_rows db book_id in
  match segs with
  | [] => inr None
  | ir0 :: _ =>
      match sql_max nums with
      | None => inl FixTypeError
      | Some max_line =>
          let segment_count := Z.of_nat (length segs) in
          let max_trans := max_default (sg_end ir0.2) (map (fun ir => sg_end ir.2) segs) in
          let coverage := coverage_of max_trans max_line in
          let single := Z.of_nat (length (List.filter (fun ir => sg_end ir.2 =? sg_start ir.2) segs)) in
          let sample := firstn 5 (map (fun ir => sg_start ir.2) segs) in
          inr (Some (Analysis book_id (Z.of_nat (length nums)) max_line segment_count max_trans coverage
                       (classify max_line segment_count max_trans single sample coverage)))
      end
  end.

(** [fix_section_as_line_alignment], lines 120-165: the segments in
    [ORDER BY start_line], each [(start, end)] becoming
    [(int((start - 1) * lps) + 1, min(int(end * lps), max_line))]. *)
Definition section_as_line_update (max_line : Z) (lps : spec_float) (seg : Z * Z * Z) : fix_error + (Z * Z * Z) :=
  let '(sid, start, end_) := seg in
  a ←? fix_int (py_int_fmul (start - 1) lps);
  b ←? fix_int (py_int_fmul end_ lps);
  inr (a + 1, if max_line <? b then max_line else b, sid).

Definition fix_section_as_line_alignment (db : corpus) (book_id : pystr) (an : analysis)
    : fix_error + list (Z * Z * Z) :=
  if py_float_gt_int (an_coverage an) 50 then inr [] else
  let max_section := an_max_trans an in
  let max_line := an_max_line an in
  if (max_section =? 0) || (max_line =? 0) then inr [] else
  let lps := py_int_truediv max_line max_section in
  if py_float_lt_int lps 2 then inr [] else
  map_err (section_as_line_update max_line lps) (book_segments db book_id).

(** [fix_reference_system_alignment], lines 167-200: the [i]-th segment in
    [ORDER BY id] gets [(int(i * lps) + 1, min(int((i + 1) * lps), max_line))],
    the range of section [i + 1] of [section_entry]. *)
Definition reference_update (max_line : Z) (lps : spec_float) (i_sid : Z * Z) : fix_error + (Z * Z * Z) :=
  ab ←? (match section_entry max_line lps (i_sid.1 + 1) with inl e => inl (FixFloatError e) | inr ab => inr ab end);
  inr (ab.1, ab.2, i_sid.2).

Definition fix_reference_system_alignment (db : corpus) (book_id : pystr) (an : analysis)
    : fix_error + list (Z * Z * Z) :=
  let segment_count := an_segment_count an in
  let max_line := an_max_line an in
  if (segment_count =? 0) || (max_line =? 0) then inr [] else
  let lps := py_int_truediv max_line segment_count in
  map_err (reference_update max_line lps)
    (imap (fun i ir => (Z.of_nat i, ir.1)) (book_segment_rows db book_id)).

(** The books of lines 208-221: [books JOIN works JOIN authors] with a
    segment, as [(b.id, w.title, a.name)].  [works.id] and [authors.id]
    are primary keys, so the join finds at most one work and one author
    and [DISTINCT] removes nothing. *)
Definition alignment_book (db : corpus) (b : book_row) : option (pystr * pystr * pystr) :=
  w ← List.find (fun w => bool_decide (wk_id w = b_work_id b)) (works db);
  a ← List.find (fun a => bool_decide (a_id a = wk_author_id w)) (authors db);
  if existsb (fun sg => bool_decide (sg_book_id sg = b_id b)) (segments db)
  then Some (b_id b, wk_title w, a_name a) else None.

(** [ORDER BY a.name, w.title], ties in scan order. *)
Definition name_title_le (x y : pystr * pystr * pystr) : Prop :=
  pystr_leb x.2 y.2 && (negb (pystr_leb y.2 x.2) || pystr_leb x.1.2 y.1.2) = true.

#[export] Instance name_title_le_dec : RelDecision name_title_le.
Proof. intros x y. unfold name_title_le. apply _. Defined.

Definition alignment_books (db : corpus) : list (pystr * pystr * pystr) :=
  merge_sort name_title_le (omap (alignment_book db) (books db)).

(** A book to fix, with its analysis. *)
Record fix_book := FixBook { fb_book_id : pystr; fb_work : pystr; fb_author : pystr; fb_analysis : analysis }.

(** The analysis loop, lines 227-239. *)
Definition analysis_step (db : corpus) (acc : list fix_book) (row : pystr * pystr * pystr)
    : fix_error + list fix_book :=
  let '(book_id, work_title, author_name) := row in
  r ←? analyze_book_alignment db book_id;
  match r with
  | None => inr acc
  | Some an => if decide (an_type an = Correct) then inr acc else inr (acc ++ [FixBook book_id work_title author_name an])
  end.

(** [fixes_by_type[t]] *)
Definition fixes_of (t : alignment_type) (fixes : list fix_book) : list fix_book :=
  List.filter (fun fb => bool_decide (an_type (fb_analysis fb) = t)) fixes.

(** The updates of the books of one pattern, lines 266-289: only the
    first three books of each list are fixed. *)
Definition collect_updates (fixer : corpus -> pystr -> analysis -> fix_error + list (Z * Z * Z)) (db : corpus)
    (fbs : list fix_book) : fix_error + list (Z * Z * Z) :=
  fold_err (fun acc fb => u ←? fixer db (fb_book_id fb) (fb_analysis fb); inr (acc ++ u)) (firstn 3 fbs) [].

(** [apply_fixes], lines 202-306: the analysis, the updates of the
    section-as-line books, then those of the reference-system books, and
    the [UPDATE]s in order, committed together. *)
Definition apply_fixes (apply : bool) (db : corpus) : fix_error + corpus :=
  fixes ←? fold_err (analysis_step db) (alignment_books db) [];
  let sal := fixes_of SectionAsLine fixes in
  let rs := fixes_of ReferenceSystem fixes in
  if (length sal + length rs =? 0)%nat then inr db
  else if apply then
    u1 ←? collect_updates fix_section_as_line_alignment db sal;
    u2 ←? collect_updates fix_reference_system_alignment db rs;
    inr (fold_left update_segment (u1 ++ u2) db)
  else inr db.

(** ** fix_alignment_post_import.py *)

(** The books of lines 21-31: [(b.id, MAX(line_number), MAX(end_line),
    COUNT(segments))] for every book with a segment, in [books] order. *)
Definition post_import_book (db : corpus) (b : book_row) : option (pystr * option Z * option Z * Z) :=
  let segs := book_segment_rows db (b_id b) in
  match segs with
  | [] => None
  | _ => Some (b_id b, sql_max (book_line_numbers db (b_id b)), sql_max (map (fun ir => sg_end ir.2) segs),
               Z.of_nat (length segs))
  end.

(** The one-line segments of a book, [ORDER BY start_line]. *)
Definition one_line_segments (db : corpus) (book_id : pystr) : list (Z * Z * Z) :=
  List.filter (fun seg => seg.1.2 =? seg.2) (book_segments db book_id).

(** The new range of a one-line segment: section [start_line] of
    [section_entry], lines 58-63. *)
Definition post_import_update (max_line : Z) (lps : spec_float) (seg : Z * Z * Z) : fix_error + (Z * Z * Z) :=
  ab ←? (match section_entry max_line lps seg.1.2 with inl e => inl (FixFloatError e) | inr ab => inr ab end);
  inr (ab.1, ab.2, seg.1.1).

(** The body of the loop of lines 34-71 for one book: the [UPDATE]s are
    run one after the other on the current database. *)
Definition post_import_step (db : corpus) (bk : pystr * option Z * option Z * Z) : fix_error + corpus :=
  match bk with
  | (book_id, Some max_line, Some max_trans, trans_count) =>
      if (max_line =? 0) || (max_trans =? 0) then inr db else
      let coverage := py_fmul (py_int_truediv max_trans max_line) (py_float 100) in
      if py_float_lt_int coverage 50 && (max_trans =? trans_count) && (max_trans * 2 <? max_line) then
        let lps := py_int_truediv max_line max_trans in
        fold_err (fun db seg => u ←? post_import_update max_line lps seg; inr (update_segment db u))
          (one_line_segments db book_id) db
      else inr db
  | _ => inr db
  end.

(** [fix_alignments], lines 11-78. *)
Definition fix_alignments (db : corpus) : fix_error + corpus :=
  fold_err post_import_step (omap (post_import_book db) (books db)) db.

(** ** The Bekker check reads only signs *)

Lemma contains_char_absent (s : pystr) (x : Z) : x ∉ s -> contains s [x] = false.
Proof.
  induction s as [|c s IH]; [done|]. intros Hx. simpl.
  rewrite IH by set_solver. destruct (Z.eqb_spec x c); [set_solver|done].
Qed.

(** [str(s)] of an [INTEGER] start line holds a ['-'] only when the
    number is negative: the check meant for Bekker references such as
    [1218-1] never fires on the non-negative line numbers the import
    stores. *)
Theorem bekker_pattern_nonneg (starts : list Z) :
  Forall (fun s => 0 <= s) starts -> bekker_pattern starts = false.
Proof.
  intros Hs. apply not_true_iff_false. unfold bekker_pattern. rewrite existsb_exists.
  intros (s & Hin & Hc). apply list_elem_of_In in Hin.
  apply list.Forall_forall with (x := s) in Hs; [|done].
  destruct (nat_digits_spec s Hs) as (ds & _ & Hds & _ & Hn).
  revert Hc. unfold py_str_Z. rewrite (proj2 (Z.ltb_ge s 0) Hs), Hn, contains_char_absent; [done|].
  intros (d & Hd & Hdin)%list_elem_of_fmap. apply list.Forall_forall with (x := d) in Hds; [lia|done].
Qed.

(** ** Which segments the scripts change *)

(** [db'] is [db] with at most the line ranges of some segments changed,
    each changed segment [sg'] of id [i] satisfying [Q i sg']. *)
Definition segments_changed (Q : Z -> segment_row -> Prop) (db db' : corpus) : Prop :=
  authors db' = authors db /\ works db' = works db /\ books db' = books db /\
  text_lines db' = text_lines db /\ words db' = words db /\
  length (segments db') = length (segments db) /\
  forall i sg sg', segments db !! i = Some sg -> segments db' !! i = Some sg' ->
    sg_book_id sg' = sg_book_id sg /\ sg_text sg' = sg_text sg /\ sg_translator sg' = sg_translator sg /\
    sg_speaker sg' = sg_speaker sg /\ (sg' = sg \/ Q (Z.of_nat (S i)) sg').

Section Changed.
Variable Q : Z -> segment_row -> Prop.

Lemma segments_changed_refl db : segments_changed Q db db.
Proof. do 6 (split; [done|]). intros i sg sg' H1 H2. rewrite H1 in H2. injection H2 as ->. auto 10. Qed.

Lemma segments_changed_trans db1 db2 db3 :
  segments_changed Q db1 db2 -> segments_changed Q db2 db3 -> segments_changed Q db1 db3.
Proof.
  intros (A1 & W1 & B1 & L1 & Wd1 & N1 & H1) (A2 & W2 & B2 & L2 & Wd2 & N2 & H2).
  split_and!; try congruence. intros i sg sg'' Hi Hi''.
  destruct (lookup_lt_is_Some_2 (segments db2) i) as [sg' Hi'].
  { apply lookup_lt_Some in Hi. lia. }
  destruct (H1 i sg sg' Hi Hi') as (? & ? & ? & ? & E1). destruct (H2 i sg' sg'' Hi' Hi'') as (? & ? & ? & ? & E2).
  split_and!; try congruence. destruct E2 as [->|E2]; [done|by right].
Qed.

(** One [UPDATE ... WHERE id = sid] whose new row satisfies [Q]. *)
Lemma update_segment_changed db a b sid :
  (forall i sg, segments db !! i = Some sg -> Z.of_nat (S i) = sid ->
     Q sid (SegmentRow (sg_book_id sg) a b (sg_text sg) (sg_translator sg) (sg_speaker sg))) ->
  segments_changed Q db (update_segment db (a, b, sid)).
Proof.
  intros HQ. unfold update_segment. do 5 (split; [done|]). split; [simpl; by rewrite length_imap|].
  intros i sg sg' Hi. cbn [segments]. rewrite list_lookup_imap, Hi.
  destruct (Z.of_nat (S i) =? sid) eqn:E; intros [= <-]; [|auto 10]. apply Z.eqb_eq in E.
  cbn [sg_book_id sg_text sg_translator sg_speaker]. split_and!; try done. right. rewrite E. by apply (HQ i).
Qed.

(** A sequence of such [UPDATE]s. *)
Lemma fold_update_changed db us :
  (forall u, u ∈ us -> forall i sg, segments db !! i = Some sg -> Z.of_nat (S i) = u.2 ->
     Q u.2 (SegmentRow (sg_book_id sg) u.1.1 u.1.2 (sg_text sg) (sg_translator sg) (sg_speaker sg))) ->
  segments_changed Q db (fold_left update_segment us db).
Proof.
  intros Hus. apply (fold_left_inv_in (segments_changed Q db)); [|apply segments_changed_refl].
  intros db' [[a b] sid] Hc Hin. eapply segments_changed_trans; [exact Hc|].
  apply update_segment_changed. intros i sg' Hi' Hid.
  destruct Hc as (_ & _ & _ & _ & _ & N & Hc).
  destruct (lookup_lt_is_Some_2 (segments db) i) as [sg Hi]; [apply lookup_lt_Some in Hi'; lia|].
  destruct (Hc i sg sg' Hi Hi') as (-> & -> & -> & -> & _).
  exact (Hus _ Hin i sg Hi Hid).
Qed.
End Changed.

Lemma segment_ids_elem db k sg :
  (k, sg) ∈ segment_ids db <-> exists i, k = Z.of_nat (S i) /\ segments db !! i = Some sg.
Proof.
  unfold segment_ids. rewrite elem_of_lookup_imap. split.
  - intros (i & x & [= -> ->] & Hi). eauto.
  - intros (i & -> & Hi). eauto.
Qed.

Lemma clamp_le (ml b : Z) : (if ml <? b then ml else b) <= ml.
Proof. destruct (Z.ltb_spec ml b); lia. Qed.

(** An update of [fix_section_as_line_alignment] is for a segment of the
    book and ends at the book's last line or before. *)
Lemma fix_section_as_line_alignment_updates db book_id an us u :
  fix_section_as_line_alignment db book_id an = inr us -> u ∈ us ->
  (exists sg, (u.2, sg) ∈ segment_ids db /\ sg_book_id sg = book_id) /\ u.1.2 <= an_max_line an.
Proof.
  unfold fix_section_as_line_alignment.
  repeat (case_match; [intros [= <-]; by intros ?%elem_of_nil|]).
  intros Hm Hu. apply list_elem_of_lookup in Hu as [k Hk].
  destruct (map_err_lookup _ _ _ Hm) as [Hl Hi].
  destruct (lookup_lt_is_Some_2 (book_segments db book_id) k) as [seg Hseg]; [apply lookup_lt_Some in Hk; lia|].
  destruct (Hi k seg Hseg) as (u' & Hk' & Hu). rewrite Hk in Hk'. injection Hk' as <-.
  destruct seg as [[sid st] en]. revert Hu. unfold section_as_line_update.
  intros (a & _ & (b & _ & [= <-])%sbind_inr)%sbind_inr. split; [|apply clamp_le].
  apply (book_segments_elem db book_id (sid, st, en)). by eapply list_elem_of_lookup_2.
Qed.

(** The same for [fix_reference_system_alignment]. *)
Lemma fix_reference_system_alignment_updates db book_id an us u :
  fix_reference_system_alignment db book_id an = inr us -> u ∈ us ->
  (exists sg, (u.2, sg) ∈ segment_ids db /\ sg_book_id sg = book_id) /\ u.1.2 <= an_max_line an.
Proof.
  unfold fix_reference_system_alignment.
  case_match; [intros [= <-]; by intros ?%elem_of_nil|].
  intros Hm Hu. apply list_elem_of_lookup in Hu as [k Hk].
  destruct (map_err_lookup _ _ _ Hm) as [Hl Hi]. rewrite length_imap in Hl.
  destruct (lookup_lt_is_Some_2 (book_segment_rows db book_id) k) as [ir Hir]; [apply lookup_lt_Some in Hk; lia|].
  destruct (Hi k (Z.of_nat k, ir.1)) as (u' & Hk' & Hu); [by rewrite list_lookup_imap, Hir|].
  rewrite Hk in Hk'. injection Hk' as <-. revert Hu. unfold reference_update.
  intros (ab & Hab & [= <-])%sbind_inr. split.
  - exists ir.2. apply list_elem_of_lookup_2 in Hir. unfold book_segment_rows in Hir.
    apply list_elem_of_In, filter_In in Hir as [Hir Hb]. apply bool_decide_eq_true in Hb.
    split; [|done]. destruct ir; by apply list_elem_of_In.
  - destruct (section_entry _ _ _) as [|[a b]] eqn:E; [discriminate|]. injection Hab as <-.
    revert E. unfold section_entry. intros (a0 & _ & (b0 & _ & [= <- <-])%sbind_inr)%sbind_inr. apply clamp_le.
Qed.

(** Every update [collect_updates] returns comes from one of the first
    three books. *)
Lemma collect_updates_from fixer db fbs us (R : fix_book -> Z * Z * Z -> Prop) :
  (forall fb us' u, fixer db (fb_book_id fb) (fb_analysis fb) = inr us' -> u ∈ us' -> R fb u) ->
  collect_updates fixer db fbs = inr us -> forall u, u ∈ us -> exists fb, fb ∈ take 3 fbs /\ R fb u.
Proof.
  intros HR Hc. unfold collect_updates in Hc.
  refine (fold_err_inv _ (fun acc => forall u, u ∈ acc -> exists fb, fb ∈ take 3 fbs /\ R fb u) _ [] us _ _ Hc);
    [|by intros ? ?%elem_of_nil].
  intros acc fb acc' Hacc Hfb (us' & Hus' & [= <-])%sbind_inr u [Hu|Hu]%elem_of_app; [by apply Hacc|eauto].
Qed.

(** The books of the analysis loop are analysed and not correct. *)
Lemma analysis_fixes db rows fixes fb :
  fold_err (analysis_step db) rows [] = inr fixes -> fb ∈ fixes ->
  analyze_book_alignment db (fb_book_id fb) = inr (Some (fb_analysis fb)) /\ an_type (fb_analysis fb) <> Correct.
Proof.
  intros Hf. revert fb.
  refine (fold_err_inv _ (fun acc => forall fb, fb ∈ acc -> analyze_book_alignment db (fb_book_id fb) = inr (Some (fb_analysis fb))
                                       /\ an_type (fb_analysis fb) <> Correct) _ [] fixes _ _ Hf);
    [|by intros ? ?%elem_of_nil].
  intros acc [[book_id t] n] acc' Hacc _. unfold analysis_step.
  intros (r & Hr & Hs)%sbind_inr. destruct r as [an|]; [|injection Hs as <-; exact Hacc].
  case_decide as Hc; [injection Hs as <-; exact Hacc|]. injection Hs as <-.
  intros fb [Hfb| ->%list_elem_of_singleton]%elem_of_app; [by apply Hacc|done].
Qed.

Lemma fixes_of_elem t fixes fb : fb ∈ take 3 (fixes_of t fixes) -> fb ∈ fixes /\ an_type (fb_analysis fb) = t.
Proof.
  intros (k & Hfb & _)%elem_of_take. apply list_elem_of_lookup_2 in Hfb. unfold fixes_of in Hfb.
  apply list_elem_of_In, filter_In in Hfb as [Hfb Ht]. apply bool_decide_eq_true in Ht.
  split; [by apply list_elem_of_In|done].
Qed.

(** What the changed segments of [apply_fixes] satisfy: their book was
    analysed as [section_as_line] or [reference_system], and the new range
    ends within the book. *)
Definition fixed_segment (db : corpus) (sid : Z) (sg : segment_row) : Prop :=
  exists an, analyze_book_alignment db (sg_book_id sg) = inr (Some an) /\
    (an_type an = SectionAsLine \/ an_type an = ReferenceSystem) /\ sg_end sg <= an_max_line an.

(** C40: [apply_fixes] changes nothing but line ranges of translation
    segments, and only in books that [analyze_book_alignment] classifies
    as [section_as_line] or [reference_system]: a book analysed as
    [correct], [partial_translation] or [unknown] keeps its segments, and
    every changed segment ends at or before its book's last line. *)
Theorem apply_fixes_changes ap db db' :
  apply_fixes ap db = inr db' -> segments_changed (fixed_segment db) db db'.
Proof.
  unfold apply_fixes. intros (fixes & Hf & Hr)%sbind_inr.
  destruct (_ =? 0)%nat; [injection Hr as <-; apply segments_changed_refl|].
  destruct ap; [|injection Hr as <-; apply segments_changed_refl].
  apply sbind_inr in Hr as (u1 & H1 & (u2 & H2 & [= <-])%sbind_inr).
  apply fold_update_changed. intros u Hu i sg Hi Hid.
  assert (exists fb, an_type (fb_analysis fb) ∈ [SectionAsLine; ReferenceSystem] /\ fb ∈ fixes /\
            (exists sg0, (u.2, sg0) ∈ segment_ids db /\ sg_book_id sg0 = fb_book_id fb) /\
            u.1.2 <= an_max_line (fb_analysis fb)) as (fb & Ht & Hfb & (sg0 & Hsg0 & Hb) & Hend).
  { apply elem_of_app in Hu as [Hu|Hu].
    - destruct (collect_updates_from _ _ _ _ _ (fun fb us' u Hus Hu => fix_section_as_line_alignment_updates _ _ _ _ u Hus Hu) H1 u Hu)
        as (fb & (Hfb & Ht)%fixes_of_elem & HR).
      exists fb. rewrite Ht. split_and!; [by left|done|apply HR..].
    - destruct (collect_updates_from _ _ _ _ _ (fun fb us' u Hus Hu => fix_reference_system_alignment_updates _ _ _ _ u Hus Hu) H2 u Hu)
        as (fb & (Hfb & Ht)%fixes_of_elem & HR).
      exists fb. rewrite Ht. split_and!; [by right; left|done|apply HR..]. }
  apply segment_ids_elem in Hsg0 as (j & Hj & Hsj). rewrite <- Hid in Hj.
  assert (j = i) as -> by lia. rewrite Hi in Hsj. injection Hsj as <-.
  destruct (analysis_fixes _ _ _ _ Hf Hfb) as [Han _].
  exists (fb_analysis fb). cbn [sg_book_id sg_end]. rewrite Hb. split_and!; [done| |done].
  apply elem_of_cons in Ht as [->| ->%list_elem_of_singleton]; auto.
Qed.

(** [int(0 * x)] is 0 when it does not raise. *)
Lemma py_int_fmul_zero x k : py_int_of_float (py_int_fmul 0 x) = inr k -> k = 0.
Proof. destruct x as [[]|[]| |[] m e]; by intros [= <-]. Qed.

(** The update of the [i]-th segment, position by position. *)
Lemma reference_updates_at db book_id an us k u :
  fix_reference_system_alignment db book_id an = inr us -> us !! k = Some u ->
  exists ir, book_segment_rows db book_id !! k = Some ir /\
    section_entry (an_max_line an) (py_int_truediv (an_max_line an) (an_segment_count an)) (Z.of_nat k + 1)
      = inr (u.1.1, u.1.2) /\ u.2 = ir.1.
Proof.
  unfold fix_reference_system_alignment. case_match; [intros [= <-]; by rewrite lookup_nil|].
  intros Hm Hk. destruct (map_err_lookup _ _ _ Hm) as [Hl Hi]. rewrite length_imap in Hl.
  destruct (lookup_lt_is_Some_2 (book_segment_rows db book_id) k) as [ir Hir]; [apply lookup_lt_Some in Hk; lia|].
  destruct (Hi k (Z.of_nat k, ir.1)) as (u' & Hk' & Hu); [by rewrite list_lookup_imap, Hir|].
  rewrite Hk in Hk'. injection Hk' as <-. exists ir. split; [done|]. revert Hu. unfold reference_update. simpl.
  destruct (section_entry _ _ _) as [|[a b]]; [discriminate|]. by intros [= <-].
Qed.

(** [fix_reference_system_alignment] spreads the segments of a book,
    in id order, over consecutive ranges: the first starts on line 1 and
    each one starts on the line after the end of the previous one,
    unless that end was clamped to the last line. *)
Theorem fix_reference_system_alignment_contiguous db book_id an us :
  fix_reference_system_alignment db book_id an = inr us ->
  (forall a b sid, us !! 0%nat = Some (a, b, sid) -> a = 1) /\
  (forall k a b sid a' b' sid', us !! k = Some (a, b, sid) -> us !! S k = Some (a', b', sid') ->
     a' = b + 1 \/ b = an_max_line an).
Proof.
  intros Hf. split.
  - intros a b sid H0. destruct (reference_updates_at _ _ _ _ _ _ Hf H0) as (? & _ & He & _).
    revert He. unfold section_entry. simpl.
    intros (a0 & Ha0%py_int_fmul_zero & (b0 & _ & [= <- _])%sbind_inr)%sbind_inr. lia.
  - intros k a b sid a' b' sid' Hk HSk.
    destruct (reference_updates_at _ _ _ _ _ _ Hf Hk) as (? & _ & He & _).
    destruct (reference_updates_at _ _ _ _ _ _ Hf HSk) as (? & _ & He' & _).
    rewrite Nat2Z.inj_succ, <- Z.add_1_r in He'. exact (section_entry_meet _ _ _ _ _ _ _ He He').
Qed.

(** ** What fix_alignments changes *)

Lemma segments_changed_same_book Q db d1 d2 i s1 s2 :
  segments_changed Q db d1 -> segments_changed Q db d2 ->
  segments d1 !! i = Some s1 -> segments d2 !! i = Some s2 -> sg_book_id s1 = sg_book_id s2.
Proof.
  intros (_ & _ & _ & _ & _ & N1 & H1) (_ & _ & _ & _ & _ & N2 & H2) Hs1 Hs2.
  destruct (lookup_lt_is_Some_2 (segments db) i) as [s0 Hs0]; [apply lookup_lt_Some in Hs1; lia|].
  destruct (H1 i s0 s1 Hs0 Hs1) as [-> _]. by destruct (H2 i s0 s2 Hs0 Hs2) as [-> _].
Qed.

(** The new range of a segment ends at the book's last line or before. *)
Definition ends_in_book (db : corpus) (sid : Z) (sg : segment_row) : Prop :=
  exists ml, sql_max (book_line_numbers db (sg_book_id sg)) = Some ml /\ sg_end sg <= ml.

(** The [UPDATE]s of one book keep the segments within the books. *)
Lemma post_import_step_changed db dc bk dn :
  bk ∈ omap (post_import_book db) (books db) -> segments_changed (ends_in_book db) db dc ->
  post_import_step dc bk = inr dn -> segments_changed (ends_in_book db) db dn.
Proof.
  intros (b & _ & Hb)%list_elem_of_omap Hc. unfold post_import_book in Hb.
  destruct (book_segment_rows db (b_id b)); [discriminate|]. injection Hb as <-.
  unfold post_import_step.
  destruct (sql_max (book_line_numbers db (b_id b))) as [ml|] eqn:Hml; [|by intros [= <-]].
  destruct (_ || _); [by intros [= <-]|]. destruct (_ && _ && _); [|by intros [= <-]].
  intros Hf. refine (fold_err_inv _ (segments_changed (ends_in_book db) db) _ dc dn _ Hc Hf).
  intros dx seg dy Hx Hseg (u & Hu & [= <-])%sbind_inr.
  eapply segments_changed_trans; [exact Hx|]. destruct u as [[a e] sid].
  apply update_segment_changed. intros i sg Hi Hid.
  revert Hu. unfold post_import_update.
  intros (ab & Hab & [= <- <- <-])%sbind_inr.
  destruct (section_entry _ _ _) as [|[a0 b0]] eqn:E; [discriminate|]. injection Hab as <-.
  unfold one_line_segments in Hseg. apply list_elem_of_In, filter_In in Hseg as [Hseg _].
  apply list_elem_of_In, book_segments_elem in Hseg as (sg0 & Hsg0 & Hb0).
  apply segment_ids_elem in Hsg0 as (j & Hj & Hsj). assert (j = i) as -> by lia.
  exists ml. cbn [sg_book_id sg_end].
  rewrite <- (segments_changed_same_book _ _ _ _ _ _ _ Hc Hx Hsj Hi), Hb0. split; [done|].
  revert E. unfold section_entry. intros (? & _ & (? & _ & [= _ <-])%sbind_inr)%sbind_inr. apply clamp_le.
Qed.

(** C21: [fix_alignments] changes nothing but line ranges of translation
    segments, and every segment it changes ends at or before the last
    line of its book. *)
Theorem fix_alignments_changes db db' :
  fix_alignments db = inr db' -> segments_changed (ends_in_book db) db db'.
Proof.
  unfold fix_alignments. intros Hf.
  refine (fold_err_inv _ (segments_changed (ends_in_book db) db) _ db db' _ (segments_changed_refl _ db) Hf).
  intros dc bk dn Hc Hbk Hs. by eapply post_import_step_changed.
Qed.

(** ** Samples *)

Definition lines_of (b : pystr) (n : nat) : list line_row :=
  map (fun i => LineRow b (Z.of_nat (S i)) γ"x" (XmlText []) None) (seq 0 n).

Definition sections_of (b : pystr) (n : nat) : list segment_row :=
  map (fun i => SegmentRow b (Z.of_nat (S i)) (Z.of_nat (S i)) γ"text" γ"T" None) (seq 0 n).

(** A work of four books of 100 lines, each translated in three sections
    stored as lines 1 to 3. *)
Definition four_books : corpus :=
  Corpus [AuthorRow γ"a" γ"Aeschines" None "greek" 0]
    [WorkRow γ"w" γ"a" γ"Speeches" None γ"Speeches" γ"prose" γ"u" γ"d"]
    (map (fun b => BookRow b γ"w" 1 γ"Book" 1 100 100) [γ"b1"; γ"b2"; γ"b3"; γ"b4"])
    (concat (map (fun b => lines_of b 100) [γ"b1"; γ"b2"; γ"b3"; γ"b4"])) []
    (concat (map (fun b => sections_of b 3) [γ"b1"; γ"b2"; γ"b3"; γ"b4"])).

(** A book of 49 lines whose translation starts with a negative number. *)
Definition signed_db : corpus :=
  Corpus [AuthorRow γ"a" γ"Aristotle" None "greek" 0]
    [WorkRow γ"w" γ"a" γ"Ethics" None γ"Ethics" γ"prose" γ"u" γ"d"]
    [BookRow γ"b" γ"w" 1 γ"Book" 1 49 49] (lines_of γ"b" 49) []
    (SegmentRow γ"b" (-1) (-1) γ"text" γ"T" None ::
     map (fun i => SegmentRow γ"b" (Z.of_nat i + 3) (Z.of_nat i + 3) γ"text" γ"T" None) (seq 0 10)).

(** The same book translated with Bekker-like numbers 1000 to 1010. *)
Definition bekker_db : corpus :=
  Corpus [AuthorRow γ"a" γ"Aristotle" None "greek" 0]
    [WorkRow γ"w" γ"a" γ"Ethics" None γ"Ethics" γ"prose" γ"u" γ"d"]
    [BookRow γ"b" γ"w" 1 γ"Book" 1 49 49] (lines_of γ"b" 49) []
    (map (fun i => SegmentRow γ"b" (1000 + Z.of_nat i) (1000 + Z.of_nat i) γ"text" γ"T" None) (seq 0 11)).

Definition seg_ranges (r : fix_error + corpus) : list (Z * Z) :=
  match r with inr db => map (fun sg => (sg_start sg, sg_end sg)) (segments db) | inl _ => [] end.

Lemma bekker_pattern_nonneg_witness : bekker_pattern [1; 2; 3] = false.
Proof. apply bekker_pattern_nonneg. repeat constructor; lia. Defined.

Lemma apply_fixes_changes_witness :
  exists db', apply_fixes true four_books = inr db' /\ segments_changed (fixed_segment four_books) four_books db'.
Proof.
  assert (match apply_fixes true four_books with inr _ => True | inl _ => False end) as Hok by (vm_compute; exact I).
  destruct (apply_fixes true four_books) as [e|db'] eqn:E; [contradiction|].
  exists db'. split; [done|]. exact (apply_fixes_changes true four_books db' E).
Defined.

Lemma fix_alignments_changes_witness :
  exists db', fix_alignments four_books = inr db' /\ segments_changed (ends_in_book four_books) four_books db'.
Proof.
  assert (match fix_alignments four_books with inr _ => True | inl _ => False end) as Hok by (vm_compute; exact I).
  destruct (fix_alignments four_books) as [e|db'] eqn:E; [contradiction|].
  exists db'. split; [done|]. exact (fix_alignments_changes four_books db' E).
Defined.

(** The analysis of [signed_db]'s book. *)
Definition signed_analysis : analysis :=
  match analyze_book_alignment signed_db γ"b" with
  | inr (Some an) => an
  | _ => Analysis [] 0 0 0 0 (py_float 0) Correct
  end.

Lemma fix_reference_system_alignment_contiguous_witness :
  exists us, fix_reference_system_alignment signed_db γ"b" signed_analysis = inr us /\
    forall k a b sid a' b' sid', us !! k = Some (a, b, sid) -> us !! S k = Some (a', b', sid') ->
      a' = b + 1 \/ b = an_max_line signed_analysis.
Proof.
  assert (match fix_reference_system_alignment signed_db γ"b" signed_analysis with inr _ => True | inl _ => False end)
    as Hok by (vm_compute; exact I).
  destruct (fix_reference_system_alignment signed_db γ"b" signed_analysis) as [e|us] eqn:F; [contradiction|].
  exists us. split; [done|]. exact (proj2 (fix_reference_system_alignment_contiguous _ _ _ _ F)).
Defined.

(** [apply_fixes] repairs only the first three books of each
    pattern: the four books are all [section_as_line], the segments of
    the first three are spread over lines 1-100 and those of the fourth
    stay at lines 1, 2 and 3. *)
Example apply_fixes_first_three_only :
  option_map an_type (match analyze_book_alignment four_books γ"b4" with inr r => r | inl _ => None end)
    = Some SectionAsLine /\
  seg_ranges (apply_fixes true four_books) =
    [(1, 33); (34, 66); (67, 100); (1, 33); (34, 66); (67, 100); (1, 33); (34, 66); (67, 100);
     (1, 1); (2, 2); (3, 3)].
Proof. split; vm_compute; reflexivity. Qed.

(** A translation numbered like Bekker references, far beyond the
    lines of the book, is classified [correct]: its coverage exceeds 80%
    before the check for huge numbers is reached. *)
Example bekker_numbers_classified_correct :
  option_map an_type (match analyze_book_alignment bekker_db γ"b" with inr r => r | inl _ => None end)
    = Some Correct /\ apply_fixes true bekker_db = inr bekker_db.
Proof. split; vm_compute; reflexivity. Qed.

(** A translated book without text lines makes
    [analyze_book_alignment] compare [None > 0]: the script stops with
    [TypeError], even in its dry run. *)
Example analyze_book_without_lines :
  apply_fixes false (Corpus [AuthorRow γ"a" γ"A" None "greek" 0]
                       [WorkRow γ"w" γ"a" γ"T" None γ"T" γ"prose" γ"u" γ"d"]
                       [BookRow γ"b" γ"w" 1 γ"Book" 1 0 0] [] [] (sections_of γ"b" 2))
  = inl FixTypeError.
Proof. vm_compute. reflexivity. Qed.

(** The ranges [fix_reference_system_alignment] computes for 11
    segments of a 49-line book end at line 48: [int(11 * (49 / 11))] is
    48 in binary64, and line 49 is in no range. *)
Example reference_fix_misses_last_line :
  an_type signed_analysis = ReferenceSystem /\
  seg_ranges (apply_fixes true signed_db) =
    [(1, 4); (5, 8); (9, 13); (14, 17); (18, 22); (23, 26); (27, 31); (32, 35); (36, 40); (41, 44); (45, 48)].
Proof. split; vm_compute; reflexivity. Qed.
