(* ===== verification/Aeschines.v ===== *)
(** * The two repair scripts for the speeches of Aeschines

    - fix_aeschines_simple.py ([fix_aeschines_simple]): for the book
      tlg0026.tlg001.001, when its translation ends at line 196 and its
      text at line 866, each one-line segment [(s, s)] becomes the range of
      section [s] of 196 over 866 lines;
    - fix_aeschines_alignment.py ([fix_aeschines_alignment]): for the
      three books of tlg0026, the Greek text of the book is joined into
      one string, each [section] div of the Greek TEI file is located in
      it by its first words, and a one-line segment numbered like a
      section gets the first and last of the lines that section covers.

    Both run on the corpus of Tei.v with the [UPDATE] of Alignment.v.
    The Greek TEI file is an input: missing, unparsable ([ET.parse]
    raises and the script stops) or its parsed root. *)

From Corelib Require Import Floats.SpecFloat.
From stdpp Require Import sorting.
From S2P Require Import Prelude Unicode Xml Tei PyFloat Translations Lookup Alignment.

(** ** fix_aeschines_simple.py *)

Definition timarchus : pystr := γ"tlg0026.tlg001.001".

(** [fix_aeschines_simple], lines 20-146: the updates are computed, also
    in a dry run, and applied together. *)
Definition fix_aeschines_simple (apply_fix : bool) (db : corpus) : fix_error + corpus :=
  let max_line := sql_max (book_line_numbers db timarchus) in
  let max_translated := sql_max (map (fun ir => sg_end ir.2) (book_segment_rows db timarchus)) in
  if bool_decide (max_translated = Some 196) && bool_decide (max_line = Some 866) then
    let lps := py_int_truediv 866 196 in
    updates ←? map_err (post_import_update 866 lps) (one_line_segments db timarchus);
    inr (if apply_fix then fold_left update_segment updates db else db)
  else inr db.

(** ** fix_aeschines_alignment.py *)

(** The Greek TEI file of a book. *)
Inductive xml_file := XmlMissing | XmlParseError | XmlParsed (root : element).

Definition aeschines_books : list pystr := [γ"tlg0026.tlg001.001"; γ"tlg0026.tlg002.001"; γ"tlg0026.tlg003.001"].

(** [book_id.rsplit('.', 1)[0]] *)
Definition rsplit_head (c : Z) (s : pystr) : pystr :=
  let parts := split_on c s in
  match parts with [_] => s | _ => join [c] (removelast parts) end.

(** The path of lines 44-45. *)
Definition greek_path (book_id : pystr) : pystr :=
  let work_id := rsplit_head 46 book_id in
  γ"../data-sources/canonical-greekLit/data/tlg0026/" ++ nth 1 (split_on 46 work_id) [] ++ γ"/" ++
    work_id ++ γ".perseus-grc2.xml".

(** [SELECT line_number, line_text ... ORDER BY CAST(line_number as INTEGER)] *)
Definition line_num_le (x y : Z * pystr) : Prop := x.1 <= y.1.

#[export] Instance line_num_le_dec : RelDecision line_num_le.
Proof. intros x y. unfold line_num_le. apply _. Defined.

Definition sorted_lines (db : corpus) (book_id : pystr) : list (Z * pystr) :=
  merge_sort line_num_le
    (map (fun r => (l_number r, l_text r)) (List.filter (fun r => bool_decide (l_book_id r = book_id)) (text_lines db))).

(** [line_positions] and [full_text], lines 57-61: the offset of each line
    in the joined text, in increasing order. *)
Definition line_positions (lines : list (Z * pystr)) : list (Z * Z) * pystr :=
  foldl (fun (acc : list (Z * Z) * pystr) (l : Z * pystr) =>
           (acc.1 ++ [(Z.of_nat (length acc.2), l.1)], acc.2 ++ l.2 ++ [32])) ([], []) lines.

Definition tei_div : String.string := "{http://www.tei-c.org/ns/1.0}div".

(** [root.findall('.//tei:div[@type="textpart"][@subtype="section"]', ns)] *)
Definition section_divs (root : element) : list element :=
  step_attr "subtype" γ"section" (step_attr "type" γ"textpart" (step_desc tei_div [root])).

Section Sections.
Context `{UnicodeDB}.

Definition section_text (e : element) : pystr := py_strip (itertext e).

(** [' '.join(text.split()[:k])] *)
Definition first_words (k : nat) (s : pystr) : pystr := join [32] (firstn k (split_ws s)).

(** The line of [start_pos]: the last line whose offset is not after it
    (the loop of lines 96-101 that breaks on the first later offset). *)
Definition start_line_of (positions : list (Z * Z)) (start_pos : Z) : option Z :=
  hd_error (rev (map snd (List.filter (fun p => p.1 <=? start_pos) positions))).

(** The end of a section: where the first words of the next section occur
    after [start_pos], or the end of the text (lines 103-115). *)
Definition end_pos_of (full : pystr) (next : option element) (start_pos : Z) : Z :=
  match next with
  | Some nx =>
      let next_text := section_text nx in
      if nonempty next_text then
        let e := py_find full (first_words 5 next_text) (start_pos + 1) in
        if e =? -1 then Z.of_nat (length full) else e
      else Z.of_nat (length full)
  | None => Z.of_nat (length full)
  end.

(** The body of the loop of lines 69-127 for section [i]. *)
Definition section_lines_step (full : pystr) (positions : list (Z * Z)) (sections : list element)
    (m : gmap Z (list Z)) (i_sec : nat * element) : gmap Z (list Z) :=
  let '(i, sec) := i_sec in
  match elem_get sec "n" with
  | Some n =>
      if nonempty n then
        match py_int n with
        | Some section_num =>
            let text := section_text sec in
            if nonempty text then
              let sp := py_find full (first_words 5 text) 0 in
              let start_pos := if sp =? -1 then py_find full (first_words 3 text) 0 else sp in
              if 0 <=? start_pos then
                let start_line := start_line_of positions start_pos in
                let end_pos := end_pos_of full (sections !! S i) start_pos in
                let nums := map snd (List.filter (fun p => (start_pos <=? p.1) && (p.1 <? end_pos)) positions) in
                match nums, start_line with
                | _ :: _, _ => <[section_num := nums]> m
                | [], Some sl => if negb (sl =? 0) then <[section_num := [sl]]> m else m
                | [], None => m
                end
              else m
            else m
        | None => m
        end
      else m
  | None => m
  end.

(** [section_lines] of a book. *)
Definition section_lines (db : corpus) (book_id : pystr) (root : element) : gmap Z (list Z) :=
  let pf := line_positions (sorted_lines db book_id) in
  let sections := section_divs root in
  foldl (section_lines_step pf.2 pf.1 sections) ∅ (imap pair sections).

(** The fixes of one book, lines 130-156: a one-line segment whose
    number is a section gets the least and greatest line of the section. *)
Definition section_fix (sl : gmap Z (list Z)) (seg : Z * Z * Z) : option (Z * Z * Z) :=
  let '(sid, start, end_) := seg in
  if start =? end_ then
    match sl !! start with
    | Some (l0 :: ls) => Some (foldl Z.min l0 ls, foldl Z.max l0 ls, sid)
    | _ => None
    end
  else None.

(** The body of the book loop, lines 30-160. *)
Definition aeschines_book_step (fs : pystr -> xml_file) (db : corpus) (fixes : list (Z * Z * Z)) (book_id : pystr)
    : unit + list (Z * Z * Z) :=
  match fs (greek_path book_id) with
  | XmlMissing => inr fixes
  | XmlParseError => inl tt
  | XmlParsed root =>
      let sl := section_lines db book_id root in
      inr (fixes ++ omap (section_fix sl) (book_segments db book_id))
  end.

(** [fix_aeschines_alignment], lines 12-185. *)
Definition fix_aeschines_alignment (dry_run : bool) (fs : pystr -> xml_file) (db : corpus) : unit + corpus :=
  fixes ←? fold_err (aeschines_book_step fs db) aeschines_books [];
  inr (if negb dry_run && negb (bool_decide (fixes = [])) then fold_left update_segment fixes db else db).
End Sections.

(** ** fix_aeschines_simple is the post-import fix of one book *)

(** When the book has 196 segments, [fix_aeschines_simple] does what
    the loop body of [fix_alignments] does for that book: the same
    [UPDATE]s of its one-line segments. *)
Theorem fix_aeschines_simple_is_post_import db :
  sql_max (book_line_numbers db timarchus) = Some 866 ->
  sql_max (map (fun ir => sg_end ir.2) (book_segment_rows db timarchus)) = Some 196 ->
  length (book_segment_rows db timarchus) = 196%nat ->
  fix_aeschines_simple true db = post_import_step db (timarchus, Some 866, Some 196, 196).
Proof.
  intros Hml Hmt Hn. unfold fix_aeschines_simple, post_import_step. rewrite Hml, Hmt.
  assert (py_float_lt_int (py_fmul (py_int_truediv 196 866) (py_float 100)) 50 = true) as Hc
    by (vm_compute; reflexivity).
  rewrite Hc. simpl. by rewrite fold_err_map_err.
Qed.

(** ** fix_aeschines_alignment moves segments onto lines of their book *)

Lemma line_positions_snd lines : map snd (line_positions lines).1 = map fst lines.
Proof.
  unfold line_positions.
  enough (forall acc, map snd (foldl (fun (acc : list (Z * Z) * pystr) (l : Z * pystr) =>
           (acc.1 ++ [(Z.of_nat (length acc.2), l.1)], acc.2 ++ l.2 ++ [32])) acc lines).1 = map snd acc.1 ++ map fst lines)
    as H by apply H.
  induction lines as [|l lines IH]; intros acc; cbn [foldl]; [by rewrite app_nil_r|].
  rewrite IH. cbn [fst]. rewrite map_app, <- app_assoc. done.
Qed.

Lemma sorted_lines_numbers db book_id x : x ∈ map fst (sorted_lines db book_id) -> x ∈ book_line_numbers db book_id.
Proof.
  unfold sorted_lines, book_line_numbers. rewrite merge_sort_Permutation, map_map. done.
Qed.

Section AlignmentFacts.
Context `{UnicodeDB}.

(** Every section of [section_lines] has lines, all of them in [B]. *)
Definition sections_ok (B : list Z) (m : gmap Z (list Z)) : Prop :=
  forall k l, m !! k = Some l -> l <> [] /\ forall x, x ∈ l -> x ∈ B.

Lemma sections_ok_insert B m k l :
  sections_ok B m -> l <> [] -> (forall x, x ∈ l -> x ∈ B) -> sections_ok B (<[k := l]> m).
Proof. intros Hm Hl HB k' l' [[<- <-]|[_ Hk]]%lookup_insert_Some; [done|exact (Hm k' l' Hk)]. Qed.

Lemma filter_snd_elem (f : Z * Z -> bool) (ps : list (Z * Z)) x :
  x ∈ map snd (List.filter f ps) -> x ∈ map snd ps.
Proof.
  intros (p & -> & Hp)%list_elem_of_fmap. apply list_elem_of_In, filter_In in Hp as [Hp _].
  apply list_elem_of_fmap. exists p. split; [done|by apply list_elem_of_In].
Qed.

Lemma start_line_of_elem ps sp sl : start_line_of ps sp = Some sl -> sl ∈ map snd ps.
Proof.
  unfold start_line_of. destruct (rev _) as [|y r] eqn:E; [discriminate|]. intros [= ->].
  apply (filter_snd_elem (fun p => p.1 <=? sp)). rewrite <- elem_of_rev, E. by left.
Qed.

Lemma section_lines_step_ok B full ps sections m i_sec :
  (forall x, x ∈ map snd ps -> x ∈ B) -> sections_ok B m -> sections_ok B (section_lines_step full ps sections m i_sec).
Proof.
  intros Hps Hm. destruct i_sec as [i sec]. unfold section_lines_step.
  repeat (case_match; try exact Hm); apply sections_ok_insert; try done;
    first [intros x ->%list_elem_of_singleton; apply Hps; by eapply start_line_of_elem
          |match goal with Hn : map snd (List.filter _ _) = _ :: _ |- _ => rewrite <- Hn end;
           intros x Hx; apply Hps; exact (filter_snd_elem _ _ _ Hx)].
Qed.

Lemma section_lines_ok db book_id root : sections_ok (book_line_numbers db book_id) (section_lines db book_id root).
Proof.
  unfold section_lines. apply (foldl_inv (sections_ok (book_line_numbers db book_id))); [|done].
  intros m i_sec Hm. apply section_lines_step_ok; [|done].
  intros x. rewrite line_positions_snd. apply sorted_lines_numbers.
Qed.

(** A fix moves a segment of the book onto two lines of the book, in order. *)
Lemma section_fix_ok db book_id root seg a b sid :
  seg ∈ book_segments db book_id -> section_fix (section_lines db book_id root) seg = Some (a, b, sid) ->
  (exists sg, (sid, sg) ∈ segment_ids db /\ sg_book_id sg = book_id) /\
  a ∈ book_line_numbers db book_id /\ b ∈ book_line_numbers db book_id /\ a <= b.
Proof.
  intros Hseg. destruct seg as [[sid0 st] en]. unfold section_fix.
  destruct (st =? en); [|discriminate].
  destruct (section_lines db book_id root !! st) as [[|l0 ls]|] eqn:E; try discriminate.
  intros [= <- <- <-]. destruct (section_lines_ok db book_id root st _ E) as [_ Hl].
  split; [apply (book_segments_elem db book_id (sid0, st, en) Hseg)|].
  split_and!; [apply Hl, foldl_min_elem|apply Hl, foldl_max_elem|apply foldl_min_le_max].
Qed.

(** A fix of the book loop is for a segment of one of the three books,
    and moves it onto two lines of that book, in order. *)
Definition fix_ok (db : corpus) (u : Z * Z * Z) : Prop :=
  exists book_id, book_id ∈ aeschines_books /\
    (exists sg0, (u.2, sg0) ∈ segment_ids db /\ sg_book_id sg0 = book_id) /\
    u.1.1 ∈ book_line_numbers db book_id /\ u.1.2 ∈ book_line_numbers db book_id /\ u.1.1 <= u.1.2.

Lemma aeschines_fixes_ok fs db fixes :
  fold_err (aeschines_book_step fs db) aeschines_books [] = inr fixes -> forall u, u ∈ fixes -> fix_ok db u.
Proof.
  intros Hf. refine (fold_err_inv _ (fun acc => forall u, u ∈ acc -> fix_ok db u) _ [] fixes _ _ Hf);
    [|by intros ? ?%elem_of_nil].
  intros acc book_id acc' Hacc Hb. unfold aeschines_book_step.
  destruct (fs _) as [| |root]; [by intros [= <-]|discriminate|]. intros [= <-].
  intros u [Hu|Hu]%elem_of_app; [by apply Hacc|].
  apply list_elem_of_omap in Hu as (seg & Hseg & Hfix). destruct u as [[a b] sid].
  exists book_id. split; [done|]. exact (section_fix_ok _ _ _ _ _ _ _ Hseg Hfix).
Qed.

(** What a repaired segment satisfies: its book is one of the three, and
    its new range starts and ends on lines of that book. *)
Definition moved_onto_lines (db : corpus) (sid : Z) (sg : segment_row) : Prop :=
  sg_book_id sg ∈ aeschines_books /\ sg_start sg ∈ book_line_numbers db (sg_book_id sg) /\
  sg_end sg ∈ book_line_numbers db (sg_book_id sg) /\ sg_start sg <= sg_end sg.

(** C30: [fix_aeschines_alignment] changes nothing but the line ranges of
    translation segments of the three books of Aeschines, and every range
    it writes starts and ends on lines of the segment's book, the start
    not after the end. *)
Theorem fix_aeschines_alignment_changes dry_run fs db db' :
  fix_aeschines_alignment dry_run fs db = inr db' -> segments_changed (moved_onto_lines db) db db'.
Proof.
  unfold fix_aeschines_alignment. intros (fixes & Hf & [= <-])%sbind_inr.
  destruct (_ && _); [|apply segments_changed_refl].
  apply fold_update_changed. intros u Hu i sg Hi Hid.
  destruct (aeschines_fixes_ok _ _ _ Hf u Hu) as (book_id & Hb & (sg0 & Hsg0 & Hb0) & Ha & Hz & Hle).
  apply segment_ids_elem in Hsg0 as (j & Hj & Hsj). assert (j = i) as -> by lia.
  rewrite Hi in Hsj. injection Hsj as <-. unfold moved_onto_lines. cbn. rewrite Hb0. auto.
Qed.
End AlignmentFacts.

(** ** Samples *)

Definition timarchus_db : corpus :=
  Corpus [] [] [BookRow timarchus γ"tlg0026.tlg001" 1 γ"Book 1" 1 866 866]
    (lines_of timarchus 866) [] (sections_of timarchus 196).

Lemma fix_aeschines_simple_is_post_import_witness :
  fix_aeschines_simple true timarchus_db = post_import_step timarchus_db (timarchus, Some 866, Some 196, 196).
Proof. apply fix_aeschines_simple_is_post_import; vm_compute; reflexivity. Defined.

(** A [section] div of the Greek text. *)
Definition section_div (n t : pystr) : element :=
  Element tei_div [("type"%string, γ"textpart"); ("subtype"%string, γ"section"); ("n"%string, n)] (Some t) [] None.

Definition tei_root (sections : list element) : element :=
  Element "{http://www.tei-c.org/ns/1.0}TEI" [] None sections None.

(** The speech as three lines and two one-line segments numbered like
    its sections. *)
Definition speech_db (l1 l2 l3 : pystr) : corpus :=
  Corpus [] [] [BookRow timarchus γ"tlg0026.tlg001" 1 γ"Book 1" 1 3 3]
    [LineRow timarchus 1 l1 (XmlText []) None; LineRow timarchus 2 l2 (XmlText []) None;
     LineRow timarchus 3 l3 (XmlText []) None] []
    [SegmentRow timarchus 1 1 γ"first" γ"T" None; SegmentRow timarchus 2 2 γ"second" γ"T" None].

Definition speech_fs (root : element) (p : pystr) : xml_file :=
  if bool_decide (p = greek_path timarchus) then XmlParsed root else XmlMissing.

Definition speech_ok_db : corpus := speech_db γ"alpha beta gamma" γ"delta epsilon" γ"zeta eta".
Definition speech_ok_fs : pystr -> xml_file :=
  speech_fs (tei_root [section_div γ"1" γ"alpha beta gamma delta epsilon"; section_div γ"2" γ"zeta eta"]).

Lemma fix_aeschines_alignment_changes_witness :
  exists db', fix_aeschines_alignment false speech_ok_fs speech_ok_db = inr db' /\
    segments_changed (moved_onto_lines speech_ok_db) speech_ok_db db'.
Proof.
  assert (match fix_aeschines_alignment false speech_ok_fs speech_ok_db with inr _ => True | inl _ => False end)
    as Hok by (vm_compute; exact I).
  destruct (fix_aeschines_alignment false speech_ok_fs speech_ok_db) as [e|db'] eqn:E; [contradiction|].
  exists db'. split; [done|]. exact (fix_aeschines_alignment_changes false speech_ok_fs speech_ok_db db' E).
Defined.

(** The first section ends on line 2 and the second is line 3. *)
Example fix_aeschines_alignment_sample :
  seg_ranges (match fix_aeschines_alignment false speech_ok_fs speech_ok_db with
              | inr d => inr d | inl _ => inl FixTypeError end) = [(1, 2); (3, 3)].
Proof. vm_compute. reflexivity. Qed.

(** A section is found by its first five words, else by its first
    three: when the Greek div of section 2 has a word the stored lines
    lack, its opening formula is found at the start of the speech, and
    both segments are moved onto the whole book (lines 1 to 3). *)
Example section_found_at_earlier_formula :
  seg_ranges (match fix_aeschines_alignment false
                      (speech_fs (tei_root [section_div γ"1" γ"o andres athenaioi kai alpha";
                                            section_div γ"2" γ"o andres athenaioi gamma beta"]))
                      (speech_db γ"o andres athenaioi kai" γ"alpha" γ"o andres athenaioi beta") with
              | inr d => inr d | inl _ => inl FixTypeError end) = [(1, 3); (1, 3)].
Proof. vm_compute. reflexivity. Qed.
