(* ===== verification/ImprovedAlignment.v ===== *)
(** * improved_translation_alignment.py

    An alternative alignment of a prose translation on the structure of
    its Greek text, which create_perseus_database.py does not call:

    - [extract_structure_from_greek_text] maps references of the Greek
      text (Bekker [page:line], [chapter.subchapter], [chapter] or
      [section]) to line ranges estimated from the length of their text;
    - [extract_translation_segments_improved] cuts the translation by the
      same references, or distributes its paragraphs evenly;
    - [get_improved_section_mapping] spreads section-numbered segments
      over the lines of the book;
    - [process_translation_improved] composes them and inserts the
      segments into [translation_segments].

    The elements are those of Xml.v; the dictionary of references is a
    [gmap] from strings; the floats are those of PyFloat.v. *)

From Corelib Require Import Floats.SpecFloat.
From stdpp Require Import sorting.
From S2P Require Import Prelude Unicode Xml Tei PyFloat Translations.

(** What the functions raise: [current_page] read before a Bekker page
    milestone assigned it ([UnboundLocalError]). *)
Inductive improved_error := UnboundCurrentPage.

Definition is_bekker (e : element) : bool := tag_ends e "milestone" && attr_is e "resp" γ"Bekker".

(** [f"{page}:{line}"] and [f"{chapter}.{sub}"] *)
Definition bekker_ref (page line : pystr) : pystr := page ++ [58] ++ line.
Definition chapter_ref (chapter sub : pystr) : pystr := chapter ++ [46] ++ sub.

(** [root.findall('.//div[@type="textpart"][@subtype=s]')]: the tag is
    the bare [div], without the TEI namespace. *)
Definition textpart_divs (subtype : pystr) (e : element) : list element :=
  step_attr "subtype" subtype (step_attr "type" γ"textpart" (step_desc "div" [e])).

(** [elem.tag.endswith('div') and type == 'textpart' and subtype == 'section'] *)
Definition is_section_div (e : element) : bool :=
  tag_ends e "div" && attr_is e "type" γ"textpart" && attr_is e "subtype" γ"section".

Section Improved.
Context `{UnicodeDB}.

(** [''.join(elem.itertext()).strip()] *)
Definition elem_text (e : element) : pystr := py_strip (itertext e).

(** [max(1, len(text) // 100)] *)
Definition line_estimate (e : element) : Z := Z.max 1 (Z.of_nat (length (elem_text e)) / 100).

(** ** extract_structure_from_greek_text, lines 12-93 *)

(** The Bekker milestone loop, lines 22-29: [(current_page, refs)]. *)
Definition bekker_step (acc : improved_error + (option pystr * list (pystr * pystr))) (e : element)
    : improved_error + (option pystr * list (pystr * pystr)) :=
  st ←? acc;
  let '(page, refs) := st in
  if is_bekker e then
    let unit := elem_get e "unit" in
    let n := elem_get_or e "n" [] in
    if bool_decide (unit = Some γ"page") then inr (Some n, refs)
    else if bool_decide (unit = Some γ"line") && nonempty n then
      match page with Some p => inr (page, refs ++ [(p, n)]) | None => inl UnboundCurrentPage end
    else inr st
  else inr st.

(** Lines 31-40: [613 // len(refs)] lines per reference. *)
Definition bekker_structure (refs : list (pystr * pystr)) : gmap pystr (Z * Z) :=
  let lpb := Z.max 1 (613 / Z.of_nat (length refs)) in
  foldl (fun m (i_r : nat * (pystr * pystr)) =>
           let '(i, (page, line)) := i_r in
           <[bekker_ref page line := (Z.of_nat i * lpb + 1, (Z.of_nat i + 1) * lpb)]> m)
        ∅ (imap pair refs).

(** One range after [current_line], lines 59-61 and 66-67. *)
Definition add_range (key : pystr) (lc : Z) (st : gmap pystr (Z * Z) * Z) : gmap pystr (Z * Z) * Z :=
  (<[key := (st.2, st.2 + lc - 1)]> st.1, st.2 + lc).

(** The chapter loop, lines 43-67. *)
Definition chapter_step (st : gmap pystr (Z * Z) * Z) (chapter : element) : gmap pystr (Z * Z) * Z :=
  let chapter_n := elem_get_or chapter "n" [] in
  match textpart_divs γ"subchapter" chapter with
  | [] => add_range chapter_n (line_estimate chapter) st
  | subs => foldl (fun st sub => add_range (chapter_ref chapter_n (elem_get_or sub "n" [])) (line_estimate sub) st) st subs
  end.

(** The sections of lines 74-83: [(n, line_count)] of each section div with an [n]. *)
Definition greek_sections (root : element) : list (pystr * Z) :=
  omap (fun e => if is_section_div e then
                   let n := elem_get_or e "n" [] in if nonempty n then Some (n, line_estimate e) else None
                 else None) (iter root).

Definition extract_structure_from_greek_text (root : element) : improved_error + gmap pystr (Z * Z) :=
  st ←? foldl bekker_step (inr (None, [])) (iter root);
  let refs := st.2 in
  if negb (bool_decide (refs = [])) then inr (bekker_structure refs) else
  let chapters := foldl chapter_step (∅, 1) (textpart_divs γ"chapter" root) in
  if negb (bool_decide (chapters.1 = ∅)) then inr chapters.1 else
  let secs := greek_sections root in
  if negb (bool_decide (secs = [])) then inr (foldl (fun st s => add_range s.1 s.2 st) (chapters.1, 1) secs).1
  else inr ∅.

(** ** extract_translation_segments_improved, lines 95-234 *)

Definition tseg_of (gs : gmap pystr (Z * Z)) (translator ref text : pystr) : option tsegment :=
  match gs !! ref with Some (a, b) => Some (TSeg a b text translator None) | None => None end.

(** The Bekker loop of the translation, lines 109-127: [(current_page,
    current_bekker, current_text, segments)].  A page milestone flushes
    the current segment without starting a new one. *)
Definition trans_bekker_step (acc : improved_error + (option pystr * option pystr * list pystr * list (pystr * pystr)))
    (e : element) : improved_error + (option pystr * option pystr * list pystr * list (pystr * pystr)) :=
  st ←? acc;
  let '(page, cur, texts, segs) := st in
  if is_bekker e then
    let segs := match cur with
                | Some c => if nonempty c && negb (bool_decide (texts = [])) then segs ++ [(c, join [32] texts)] else segs
                | None => segs
                end in
    let unit := elem_get e "unit" in
    let n := elem_get_or e "n" [] in
    if bool_decide (unit = Some γ"page") then inr (Some n, cur, texts, segs)
    else if bool_decide (unit = Some γ"line") then
      match page with Some p => inr (page, Some (bekker_ref p n), [], segs) | None => inl UnboundCurrentPage end
    else inr (page, cur, texts, segs)
  else if tag_ends e "p" && match cur with Some c => nonempty c | None => false end then
    let t := elem_text e in
    inr (page, cur, if nonempty t then texts ++ [t] else texts, segs)
  else inr st.

(** Lines 129-130: the last segment. *)
Definition flush_bekker (cur : option pystr) (texts : list pystr) (segs : list (pystr * pystr)) : list (pystr * pystr) :=
  match cur with
  | Some c => if nonempty c && negb (bool_decide (texts = [])) then segs ++ [(c, join [32] texts)] else segs
  | None => segs
  end.

(** The chapter segments, lines 147-175. *)
Definition chapter_segments (gs : gmap pystr (Z * Z)) (translator : pystr) (chapter : element) : list tsegment :=
  let chapter_n := elem_get_or chapter "n" [] in
  match textpart_divs γ"subchapter" chapter with
  | [] => let t := elem_text chapter in if nonempty t then option_list (tseg_of gs translator chapter_n t) else []
  | subs => omap (fun sub => let t := elem_text sub in
                    if nonempty t then tseg_of gs translator (chapter_ref chapter_n (elem_get_or sub "n" [])) t else None) subs
  end.

(** The section segments, lines 183-197. *)
Definition section_segments_improved (gs : gmap pystr (Z * Z)) (translator : pystr) (root : element) : list tsegment :=
  omap (fun e => if is_section_div e then
                   let t := elem_text e in if nonempty t then tseg_of gs translator (elem_get_or e "n" []) t else None
                 else None) (iter root).

(** The paragraphs of lines 204-209: the text of every element whose tag
    ends with [p], when longer than 20 characters. *)
Definition long_paragraphs (root : element) : list pystr :=
  omap (fun e => if tag_ends e "p" then let t := elem_text e in
                   if (20 <? length t)%nat then Some t else None else None) (iter root).

(** Lines 212-220: the least and the greatest line of the Greek ranges. *)
Definition line_span (gs : gmap pystr (Z * Z)) : option (Z * Z) :=
  match concat (map (fun ab => py_range ab.1 (ab.2 + 1)) (map snd (map_to_list gs))) with
  | [] => None
  | l0 :: ls => Some (foldl Z.min l0 ls, foldl Z.max l0 ls)
  end.

(** Lines 211-232: the paragraphs spread evenly over the Greek lines. *)
Definition distribute_paragraphs (gs : gmap pystr (Z * Z)) (translator : pystr) (paras : list pystr) : list tsegment :=
  if bool_decide (paras = []) || bool_decide (gs = ∅) then [] else
  match line_span gs with
  | None => []
  | Some (min_line, max_line) =>
      let lpp := Z.max 1 ((max_line - min_line + 1) / Z.of_nat (length paras)) in
      imap (fun i t => let s := min_line + Z.of_nat i * lpp in TSeg s (Z.min max_line (s + lpp - 1)) t translator None) paras
  end.

Definition extract_translation_segments_improved (trans_elem : element) (gs : gmap pystr (Z * Z)) (translator : pystr)
    : improved_error + list tsegment :=
  st ←? foldl trans_bekker_step (inr (None, None, [], [])) (iter trans_elem);
  let '(_, cur, texts, segs) := st in
  let bsegs := flush_bekker cur texts segs in
  if negb (bool_decide (bsegs = [])) then inr (omap (fun rt => tseg_of gs translator rt.1 rt.2) bsegs) else
  let csegs := concat (map (chapter_segments gs translator) (textpart_divs γ"chapter" trans_elem)) in
  if negb (bool_decide (csegs = [])) then inr csegs else
  let ssegs := section_segments_improved gs translator trans_elem in
  if negb (bool_decide (ssegs = [])) then inr ssegs else
  inr (distribute_paragraphs gs translator (long_paragraphs trans_elem)).
(** ** get_improved_section_mapping, lines 236-289 *)

Definition tstart_le (x y : tsegment) : Prop := ts_start x <= ts_start y.

#[export] Instance tstart_le_dec : RelDecision tstart_le.
Proof. intros x y. unfold tstart_le. apply _. Defined.

(** The loop of lines 275-285: [current_line] is a float from its first
    addition on; [int(1)] of the [int] 1 is the same as of the float. *)
Definition improved_map_step (max_line : Z) (lps : spec_float) (acc : float_exc + (gmap Z (Z * Z) * spec_float))
    (seg : tsegment) : float_exc + (gmap Z (Z * Z) * spec_float) :=
  st ←? acc;
  let '(m, cur) := st in
  a ←? py_int_of_float cur;
  b ←? py_int_of_float (py_fsub (py_fadd cur lps) (py_float 1));
  inr (<[ts_start seg := (a, if max_line <? b then max_line else b)]> m, py_fadd cur lps).

Definition get_improved_section_mapping (db : corpus) (book_id : pystr) (segs : list tsegment)
    : float_exc + gmap Z (Z * Z) :=
  let nums := book_line_numbers db book_id in
  match sql_max nums with
  | None => inr ∅
  | Some max_line =>
      if bool_decide (segs = []) then inr ∅ else
      let segment_nums := List.filter (fun s => py_lt_int_float s (py_int_truediv max_line 3)) (map ts_start segs) in
      match segment_nums with
      | [] => inr ∅
      | n0 :: ns =>
          let max_segment := foldl Z.max n0 ns in
          if py_lt_int_float max_segment (py_int_truediv max_line 2) &&
             py_float_ge_int (py_fmul (py_float (Z.of_nat (length segs))) py_1_5) max_segment then
            let lps := py_int_truediv (Z.of_nat (length nums)) (Z.of_nat (length segs)) in
            r ←? foldl (improved_map_step max_line lps) (inr (∅, py_float 1)) (merge_sort tstart_le segs);
            inr r.1
          else inr ∅
      end
  end.

(** ** process_translation_improved, lines 292-332 *)

Inductive process_error := PImproved (e : improved_error) | PFloat (e : float_exc).

Definition process_translation_improved (greek_root trans_root : element) (book_id translator : pystr)
    (db : corpus) : process_error + (corpus * Z) :=
  gs ←? (match extract_structure_from_greek_text greek_root with inl e => inl (PImproved e) | inr g => inr g end);
  segs ←? (match extract_translation_segments_improved trans_root gs translator with
           | inl e => inl (PImproved e) | inr s => inr s end);
  if bool_decide (segs = []) then inr (db, 0) else
  m ←? (match get_improved_section_mapping db book_id segs with inl e => inl (PFloat e) | inr m => inr m end);
  inr (fold_left (insert_tsegment book_id m) segs db, Z.of_nat (length segs)).

(** ** The paragraphs fall within the Greek lines when they are fewer *)

Lemma line_span_le gs lo hi : line_span gs = Some (lo, hi) -> lo <= hi.
Proof. unfold line_span. case_match; [discriminate|]. intros [= <- <-]. apply foldl_min_le_max. Qed.

(** When there are no more paragraphs than Greek lines, the
    paragraph fallback gives each paragraph a non-empty range within the
    lines of the Greek structure. *)
Theorem distribute_paragraphs_bounds gs translator paras lo hi s :
  line_span gs = Some (lo, hi) -> (Z.of_nat (length paras) <= hi - lo + 1) ->
  s ∈ distribute_paragraphs gs translator paras -> lo <= ts_start s <= ts_end s /\ ts_end s <= hi.
Proof.
  intros Hspan Hn. pose proof (line_span_le _ _ _ Hspan) as Hlh. unfold distribute_paragraphs.
  destruct (bool_decide (paras = []) || _); [by intros ?%elem_of_nil|]. rewrite Hspan.
  intros (i & t & -> & Hi)%elem_of_lookup_imap. apply lookup_lt_Some in Hi. simpl.
  set (n := Z.of_nat (length paras)) in *. assert (0 < n) by lia.
  set (q := (hi - lo + 1) / n).
  assert (1 <= q) by (apply Z.div_le_lower_bound; lia).
  assert (n * q <= hi - lo + 1) by (apply Z.mul_div_le; lia).
  rewrite Z.max_r by lia. nia.
Qed.
End Improved.

(** ** What process_translation_improved inserts *)

(** A segment the functions return: non-empty text, the translator, no speaker. *)
Definition tseg_ok (translator : pystr) (s : tsegment) : Prop :=
  ts_text s <> [] /\ ts_translator s = translator /\ ts_speaker s = None.

Lemma tseg_of_ok gs translator r t s : t <> [] -> tseg_of gs translator r t = Some s -> tseg_ok translator s.
Proof. unfold tseg_of. destruct (gs !! r) as [[a b]|]; [|discriminate]. intros Ht [= <-]. done. Qed.

Lemma nonempty_ne s : nonempty s = true -> s <> [].
Proof. apply nonempty_true. Qed.

Lemma join_texts_nonempty (texts : list pystr) :
  texts <> [] -> Forall (fun t => t <> []) texts -> join [32] texts <> [].
Proof. destruct texts as [|t ts]; [done|]. intros _ Ht. inversion Ht. by apply join_nonempty. Qed.

Section ImprovedFacts.
Context `{UnicodeDB}.

(** The state of the translation's Bekker loop: the texts gathered and
    the segments flushed are non-empty. *)
Definition bekker_state_ok (acc : improved_error + (option pystr * option pystr * list pystr * list (pystr * pystr))) : Prop :=
  match acc with
  | inr (_, _, texts, segs) => Forall (fun t => t <> []) texts /\ Forall (fun rt => rt.2 <> []) segs
  | inl _ => True
  end.

Lemma flush_bekker_ok cur texts segs :
  Forall (fun t => t <> []) texts -> Forall (fun rt => rt.2 <> []) segs ->
  Forall (fun rt => rt.2 <> []) (flush_bekker cur texts segs).
Proof.
  intros Ht Hs. unfold flush_bekker. destruct cur as [c|]; [|done].
  destruct (nonempty c && _) eqn:E; [|done]. apply andb_true_iff in E as [_ E].
  apply Forall_app; split; [done|]. constructor; [|done]. simpl.
  apply join_texts_nonempty; [|done]. intros ->. by rewrite bool_decide_eq_true_2 in E.
Qed.

Lemma trans_bekker_step_ok acc e : bekker_state_ok acc -> bekker_state_ok (trans_bekker_step acc e).
Proof.
  destruct acc as [err|[[[page cur] texts] segs]]; [done|]. intros [Ht Hs]. unfold trans_bekker_step. simpl.
  destruct (is_bekker e).
  - pose proof (flush_bekker_ok cur texts segs Ht Hs) as Hf. unfold flush_bekker in Hf.
    repeat case_match; simpl; auto.
  - repeat case_match; simpl; auto;
      first [by rewrite andb_false_r in *
            |split; [|done]; apply Forall_app; split; [done|]; constructor; [by apply nonempty_ne|done]].
Qed.

(** Every segment [extract_translation_segments_improved] returns has a
    non-empty text, the translator and no speaker. *)
Lemma extract_translation_segments_improved_ok trans_elem gs translator segs :
  extract_translation_segments_improved trans_elem gs translator = inr segs -> Forall (tseg_ok translator) segs.
Proof.
  unfold extract_translation_segments_improved.
  pose proof (foldl_inv bekker_state_ok trans_bekker_step (iter trans_elem) (inr (None, None, [], []))
                trans_bekker_step_ok (conj (Forall_nil _) (Forall_nil _))) as Hinv.
  destruct (foldl trans_bekker_step _ _) as [err|[[[page cur] texts] bsegs]]; [discriminate|].
  destruct Hinv as [Ht Hs]. simpl. pose proof (flush_bekker_ok cur texts bsegs Ht Hs) as Hf.
  case_match; [intros [= <-]|].
  { apply list.Forall_forall. intros s (rt & Hrt & Hs')%list_elem_of_omap.
    eapply tseg_of_ok; [|exact Hs']. apply list.Forall_forall with (x := rt) in Hf; [exact Hf|done]. }
  case_match; [intros [= <-]|].
  { apply list.Forall_forall. intros s Hs'. apply list_elem_of_In in Hs'.
    apply in_concat in Hs' as (l & (c & <- & _)%in_map_iff & Hin). revert Hin. unfold chapter_segments.
    case_match.
    - case_match; [|done]. destruct (tseg_of _ _ _ _) eqn:E; [|done]. intros [<-|[]].
      eapply tseg_of_ok; [by apply nonempty_ne|exact E].
    - intros (sub & _ & Hsub)%list_elem_of_In%list_elem_of_omap. revert Hsub.
      case_match; [|done]. apply tseg_of_ok. by apply nonempty_ne. }
  case_match; [intros [= <-]|].
  { apply list.Forall_forall. intros s (e & _ & Hs')%list_elem_of_omap. revert Hs'.
    destruct (is_section_div e); [|intros Hc; simpl in Hc; discriminate]. cbv zeta. destruct (nonempty (elem_text e)) eqn:En; [|intros Hc; simpl in Hc; discriminate].
    apply tseg_of_ok. by apply nonempty_ne. }
  intros [= <-]. apply list.Forall_forall. intros s. unfold distribute_paragraphs.
  case_match; [by intros ?%elem_of_nil|]. destruct (line_span gs) as [[lo hi]|]; [|by intros ?%elem_of_nil].
  intros (i & t & -> & Hi)%elem_of_lookup_imap. apply list_elem_of_lookup_2 in Hi.
  unfold long_paragraphs in Hi. apply list_elem_of_omap in Hi as (e & _ & Ht').
  revert Ht'. repeat case_match; try done. intros [= <-]. split; [|done].
  simpl. intros Hnil.
  match goal with Hl : (20 <? length _)%nat = true |- _ => rewrite Hnil in Hl; discriminate end.
Qed.

(** C24: [process_translation_improved] appends to
    [translation_segments] exactly the segments
    [extract_translation_segments_improved] extracted from the
    translation, in their order, one row each, placed by the section
    mapping [get_improved_section_mapping] computed for them (none is
    computed when there are no segments); every segment is of the book,
    has a non-empty text, the translator and no speaker; the returned
    count is their number and the other tables are unchanged. *)
Theorem process_translation_improved_inserts greek_root trans_root book_id translator db db' k :
  process_translation_improved greek_root trans_root book_id translator db = inr (db', k) ->
  exists gs segs m,
    extract_structure_from_greek_text greek_root = inr gs /\
    extract_translation_segments_improved trans_root gs translator = inr segs /\
    (segs = [] \/ get_improved_section_mapping db book_id segs = inr m) /\
    db' = Corpus (authors db) (works db) (books db) (text_lines db) (words db)
                 (segments db ++ map (tsegment_row book_id m) segs) /\
    k = Z.of_nat (length segs) /\ Forall (tseg_ok translator) segs.
Proof.
  unfold process_translation_improved.
  destruct (extract_structure_from_greek_text greek_root) as [|gs] eqn:Eg; [discriminate|]. cbn [sbind].
  destruct (extract_translation_segments_improved _ _ _) as [|segs] eqn:E; [discriminate|]. cbn [sbind].
  pose proof (extract_translation_segments_improved_ok _ _ _ _ E) as Hok.
  case_bool_decide as Hnil; intros Hr.
  - injection Hr as <- <-. subst. exists gs, [], ∅. rewrite app_nil_r. destruct db. naive_solver.
  - apply sbind_inr in Hr as (m & Hm & [= <- <-]).
    destruct (get_improved_section_mapping db book_id segs) eqn:Em; [discriminate|]. injection Hm as ->.
    exists gs, segs, m. rewrite insert_tsegments. naive_solver.
Qed.
End ImprovedFacts.


(** ** Samples *)

Definition tei_tag (t : String.string) : String.string := ("{http://www.tei-c.org/ns/1.0}" ++ t)%string.

Definition bekker_ms (unit n : pystr) : element :=
  Element (tei_tag "milestone") [("resp"%string, γ"Bekker"); ("unit"%string, unit); ("n"%string, n)] None [] None.

Definition tei_p (t : pystr) : element := Element (tei_tag "p") [] (Some t) [] None.

Definition tei_body (cs : list element) : element := Element (tei_tag "body") [] None cs None.

Definition textpart (tg : String.string) (subtype n t : pystr) : element :=
  Element tg [("type"%string, γ"textpart"); ("subtype"%string, subtype); ("n"%string, n)] (Some t) [] None.

(** Greek text with the Bekker lines 1094a1 and 1094a5. *)
Definition greek_bekker : element := tei_body [bekker_ms γ"page" γ"1094a"; bekker_ms γ"line" γ"1"; bekker_ms γ"line" γ"5"].

Lemma distribute_paragraphs_bounds_witness :
  Forall (fun s => 1 <= ts_start s <= ts_end s /\ ts_end s <= 10)
    (distribute_paragraphs (<[γ"1" := (1, 10)]> ∅) γ"T" [γ"a"; γ"b"; γ"c"]).
Proof.
  apply list.Forall_forall. intros s.
  apply distribute_paragraphs_bounds; vm_compute; [reflexivity|discriminate].
Defined.

Lemma process_translation_improved_inserts_witness :
  exists db' k, process_translation_improved greek_bekker
                  (tei_body [bekker_ms γ"page" γ"1094a"; bekker_ms γ"line" γ"1"; tei_p γ"first"])
                  γ"b" γ"T" (Corpus [] [] [] [] [] []) = inr (db', k) /\
  exists gs segs m,
    extract_structure_from_greek_text greek_bekker = inr gs /\
    extract_translation_segments_improved
      (tei_body [bekker_ms γ"page" γ"1094a"; bekker_ms γ"line" γ"1"; tei_p γ"first"]) gs γ"T" = inr segs /\
    (segs = [] \/ get_improved_section_mapping (Corpus [] [] [] [] [] []) γ"b" segs = inr m) /\
    db' = Corpus [] [] [] [] [] ([] ++ map (tsegment_row γ"b" m) segs) /\
    k = Z.of_nat (length segs) /\ Forall (tseg_ok γ"T") segs.
Proof.
  eexists _, _. split; [vm_compute; reflexivity|].
  apply (process_translation_improved_inserts greek_bekker
           (tei_body [bekker_ms γ"page" γ"1094a"; bekker_ms γ"line" γ"1"; tei_p γ"first"]) γ"b" γ"T"
           (Corpus [] [] [] [] [] [])).
  vm_compute. reflexivity.
Defined.

(** A Bekker page milestone flushes the current segment without
    starting a new one: the text before a page break is emitted twice,
    once alone and once joined to the text after the break, both under
    the reference [1094a:1], whose range is a share of a fixed 613
    lines. *)
Example page_milestone_duplicates_text :
  match extract_structure_from_greek_text greek_bekker with
  | inr gs => extract_translation_segments_improved
                (tei_body [bekker_ms γ"page" γ"1094a"; bekker_ms γ"line" γ"1"; tei_p γ"first";
                           bekker_ms γ"page" γ"1094b"; tei_p γ"second"]) gs γ"T"
  | inl e => inl e
  end = inr [TSeg 1 306 γ"first" γ"T" None; TSeg 1 306 γ"first second" γ"T" None].
Proof. vm_compute. reflexivity. Qed.

(** A Bekker line milestone before any page milestone reads the
    unassigned [current_page]: [UnboundLocalError]. *)
Example bekker_line_before_page :
  extract_structure_from_greek_text (tei_body [bekker_ms γ"line" γ"1"]) = inl UnboundCurrentPage.
Proof. vm_compute. reflexivity. Qed.

(** The chapter query names the bare [div]: chapters of a TEI document,
    whose tags carry the TEI namespace, give no structure, while bare
    [div]s do. *)
Example namespaced_chapters_ignored :
  extract_structure_from_greek_text
    (tei_body [textpart (tei_tag "div") γ"chapter" γ"1" γ"abc"; textpart (tei_tag "div") γ"chapter" γ"2" γ"def"]) = inr ∅ /\
  (match extract_structure_from_greek_text
           (tei_body [textpart "div" γ"chapter" γ"1" γ"abc"; textpart "div" γ"chapter" γ"2" γ"def"]) with
   | inr m => m !! γ"2" | inl _ => None end) = Some (2, 2).
Proof. split; vm_compute; reflexivity. Qed.

(** With more paragraphs than lines the last range is inverted. *)
Example paragraphs_inverted_range :
  map (fun s => (ts_start s, ts_end s)) (distribute_paragraphs (<[γ"1" := (1, 2)]> ∅) γ"T" [γ"a"; γ"b"; γ"c"])
  = [(1, 1); (2, 2); (3, 2)].
Proof. vm_compute. reflexivity. Qed.
