(* ===== verification/Reports.v ===== *)
(** * The manifest and the quality report

    At its end [create_database] calls [generate_manifest]
    (create_perseus_database.py, lines 1816-1940), which writes a JSON
    summary of the database, and [generate_quality_report] (lines
    1942-2067), which writes a text report, one line per work or book.
    Both only read the database.

    The manifest is a JSON value ([json]); the report is the list of its
    lines.  The time stamp of [datetime.now()] is an input, and so are
    the two tables the corpus of Tei.v does not hold: [dictionary_entries]
    as the languages of its rows and [lemma_map] as its number of rows. *)

From Corelib Require Import Floats.SpecFloat.
From stdpp Require Import sorting.
From S2P Require Import Prelude Unicode Tei PyFloat Translations.

(** A JSON value as [json.dump] writes it. *)
Inductive json :=
  | JNull
  | JInt (n : Z)
  | JFloat (x : spec_float)
  | JStr (s : pystr)
  | JList (l : list json)
  | JObj (kvs : list (pystr * json)).

(** ** Python's [round(x, 1)] and [f"{n:,}"] *)

(** The integer nearest to [num / den], ties to even ([den > 0]). *)
Definition div_round_even (num den : Z) : Z :=
  let q := num / den in
  let r := num mod den in
  match Z.compare (2 * r) den with
  | Lt => q
  | Gt => q + 1
  | Eq => if Z.even q then q else q + 1
  end.

(** [round(x, 1)]: the exact value times 10, rounded half to even, then
    the float nearest to a tenth of it. *)
Definition py_round1 (x : spec_float) : spec_float :=
  match x with
  | S754_finite s m e =>
      let k := if 0 <=? e then Z.pos m * 2 ^ e * 10 else div_round_even (Z.pos m * 10) (2 ^ (- e)) in
      let f := py_fdiv (py_float k) (py_float 10) in
      if s then SFopp f else f
  | _ => x
  end.

(** Digits in groups of three, from the right. *)
Fixpoint group3 (rev_digits : pystr) : pystr :=
  match rev_digits with
  | a :: b :: c :: (_ :: _) as rest => a :: b :: c :: 44 :: group3 rest
  | ds => ds
  end.

(** [f"{n:,}"] *)
Definition fmt_thousands (n : Z) : pystr :=
  (if n <? 0 then [45] else []) ++ rev (group3 (rev (nat_digits (Z.abs n)))).

(** ** generate_manifest *)

(** [SELECT language, COUNT( * ) FROM dictionary_entries GROUP BY language]:
    one row per language, in the order of the language. *)
Definition group_counts (langs : list pystr) : list (pystr * Z) :=
  map (fun k => (k, Z.of_nat (length (List.filter (fun l => bool_decide (l = k)) langs))))
    (merge_sort pystr_le (remove_dups langs)).

Definition books_of_work (db : corpus) (work_id : pystr) : list book_row :=
  List.filter (fun b => bool_decide (b_work_id b = work_id)) (books db).

Definition segments_of_book (db : corpus) (book_id : pystr) : list segment_row :=
  List.filter (fun sg => bool_decide (sg_book_id sg = book_id)) (segments db).

(** [SUM(x)]: [NULL] on no row. *)
Definition sql_sum (l : list Z) : option Z := match l with [] => None | _ => Some (fold_right Z.add 0 l) end.

(** [x or 0] of a [SUM] *)
Definition or_zero (x : option Z) : Z := match x with Some n => n | None => 0 end.

(** Lines 1855-1865: the works, and those with a book with a segment. *)
Definition works_with_translations (db : corpus) : Z :=
  Z.of_nat (length (List.filter (fun w => existsb (fun b => bool_decide (segments_of_book db (b_id b) <> []))
                                                  (books_of_work db (wk_id w))) (works db))).

Definition translation_coverage (db : corpus) : json :=
  let total := Z.of_nat (length (remove_dups (map wk_id (works db)))) in
  if 0 <? total then JFloat (py_round1 (py_fmul (py_int_truediv (works_with_translations db) total) (py_float 100)))
  else JInt 0.

(** The book rows of the query of lines 1892-1903: the works [LEFT
    JOIN] books [LEFT JOIN] segments gives each book once per segment
    of it (once when it has none), and [SUM(b.line_count)] adds them all. *)
Definition work_join_lines (db : corpus) (work_id : pystr) : list Z :=
  concat (map (fun b => replicate (Nat.max 1 (length (segments_of_book db (b_id b)))) (b_line_count b))
              (books_of_work db work_id)).

(** [COUNT(DISTINCT ts.translator)] over the segments of the work's books. *)
Definition translator_count (db : corpus) (work_id : pystr) : Z :=
  Z.of_nat (length (remove_dups (concat (map (fun b => map sg_translator (segments_of_book db (b_id b)))
                                             (books_of_work db work_id))))).

Definition book_number_le (x y : book_row) : Prop := b_number x <= b_number y.

#[export] Instance book_number_le_dec : RelDecision book_number_le.
Proof. intros x y. unfold book_number_le. apply _. Defined.

(** Lines 1915-1929: the books of a work, [ORDER BY book_number]. *)
Definition manifest_books (db : corpus) (work_id : pystr) : json :=
  JList (map (fun b => JObj [(γ"number", JInt (b_number b)); (γ"label", JStr (b_label b));
                             (γ"line_count", JInt (b_line_count b))])
             (merge_sort book_number_le (books_of_work db work_id))).

Definition work_id_le (x y : work_row) : Prop := pystr_le (wk_id x) (wk_id y).

#[export] Instance work_id_le_dec : RelDecision work_id_le.
Proof. intros x y. unfold work_id_le. apply _. Defined.

(** Lines 1891-1931: the works of an author, [ORDER BY w.id]. *)
Definition manifest_work (db : corpus) (w : work_row) : json :=
  JObj [(γ"id", JStr (wk_id w)); (γ"title", JStr (wk_title w)); (γ"title_english", JStr (wk_title_english w));
        (γ"book_count", JInt (Z.of_nat (length (books_of_work db (wk_id w)))));
        (γ"total_lines", JInt (or_zero (sql_sum (work_join_lines db (wk_id w)))));
        (γ"translator_count", JInt (translator_count db (wk_id w)));
        (γ"books", manifest_books db (wk_id w))].

Definition works_of_author (db : corpus) (author_id : pystr) : list work_row :=
  List.filter (fun w => bool_decide (wk_author_id w = author_id)) (works db).

(** Lines 1867-1889: the author rows, [ORDER BY a.language, a.name]. *)
Definition author_le (x y : author_row) : Prop :=
  let lx := utf8 (a_language x) in let ly := utf8 (a_language y) in
  pystr_leb lx ly && (negb (pystr_leb ly lx) || pystr_leb (a_name x) (a_name y)) = true.

#[export] Instance author_le_dec : RelDecision author_le.
Proof. intros x y. unfold author_le. apply _. Defined.

Definition manifest_author (db : corpus) (a : author_row) : json :=
  let ws := works_of_author db (a_id a) in
  let bs := concat (map (fun w => books_of_work db (wk_id w)) ws) in
  JObj [(γ"id", JStr (a_id a)); (γ"name", JStr (a_name a)); (γ"language", JStr (utf8 (a_language a)));
        (γ"work_count", JInt (Z.of_nat (length ws)));
        (γ"total_books", JInt (Z.of_nat (length bs)));
        (γ"total_lines", JInt (or_zero (sql_sum (map b_line_count bs))));
        (γ"works", JList (map (manifest_work db) (merge_sort work_id_le ws)))].

(** [generate_manifest], lines 1816-1940: the dictionary as the languages
    of its entries, the lemma map as its number of rows. *)
Definition generate_manifest (now : pystr) (dict_langs : list pystr) (lemma_count : Z) (db : corpus) : json :=
  JObj [(γ"generated_at", JStr now); (γ"database_version", JStr γ"2.0");
        (γ"statistics", JObj [
           (γ"total_authors", JInt (Z.of_nat (length (authors db))));
           (γ"total_works", JInt (Z.of_nat (length (works db))));
           (γ"total_books", JInt (Z.of_nat (length (books db))));
           (γ"total_lines", JInt (Z.of_nat (length (text_lines db))));
           (γ"total_translation_segments", JInt (Z.of_nat (length (segments db))));
           (γ"total_dictionary_entries", JInt (Z.of_nat (length dict_langs)));
           (γ"total_lemma_mappings", JInt lemma_count);
           (γ"dictionary_by_language", JObj (map (fun kc => (kc.1, JInt kc.2)) (group_counts dict_langs)));
           (γ"works_with_translations", JInt (works_with_translations db));
           (γ"translation_coverage_percent", translation_coverage db)]);
        (γ"authors", JList (map (manifest_author db) (merge_sort author_le (authors db))))].

(** ** generate_quality_report *)

(** A row of the query of lines 1982-1997. *)
Record report_row := ReportRow {
  r_author : pystr; r_work_title : pystr; r_book_number : Z; r_book_label : pystr;
  r_line_count : Z; r_book_id : pystr; r_work_id : pystr
}.

(** [authors JOIN works JOIN books]: each book with its work and author
    (both primary keys), in [books] order. *)
Definition report_join (db : corpus) : list report_row :=
  omap (fun b =>
          w ← List.find (fun w => bool_decide (wk_id w = b_work_id b)) (works db);
          a ← List.find (fun a => bool_decide (a_id a = wk_author_id w)) (authors db);
          Some (ReportRow (a_name a) (wk_title_english w) (b_number b) (b_label b) (b_line_count b) (b_id b) (wk_id w)))
       (books db).

(** [ORDER BY a.name, w.title_english, b.book_number], ties in join order. *)
Definition report_le (x y : report_row) : Prop :=
  let k1 := pystr_leb (r_author x) (r_author y) in
  let k1' := pystr_leb (r_author y) (r_author x) in
  let k2 := pystr_leb (r_work_title x) (r_work_title y) in
  let k2' := pystr_leb (r_work_title y) (r_work_title x) in
  k1 && (negb k1' || (k2 && (negb k2' || (r_book_number x <=? r_book_number y)))) = true.

#[export] Instance report_le_dec : RelDecision report_le.
Proof. intros x y. unfold report_le. apply _. Defined.

Definition report_rows (db : corpus) : list report_row := merge_sort report_le (report_join db).

(** The translations of a book, lines 2000-2018: one entry per
    translator, in the order of the translator, with its number of
    segments. *)
Definition book_translations (db : corpus) (book_id : pystr) : list (pystr * Z) :=
  group_counts (map sg_translator (segments_of_book db book_id)).

(** [f"{tr} {n} segments"], joined by commas. *)
Definition translations_line (author title : pystr) (trs : list (pystr * Z)) : pystr :=
  author ++ γ" / " ++ title ++ γ" translations: " ++
    join γ", " (map (fun tn => tn.1 ++ γ" " ++ py_str_Z tn.2 ++ γ" segments") trs).

(** The state of the loop of lines 2023-2061: the lines so far, the
    current author and work, and [book_count]. *)
Record report_state := ReportState {
  rs_lines : list pystr; rs_author : option pystr; rs_work : option pystr; rs_book_count : Z
}.

Definition report_step (db : corpus) (st : report_state) (r : report_row) : report_state :=
  let name := r_author r in
  let title := r_work_title r in
  (* author header, lines 2030-2035 *)
  let '(lines, cur_author, cur_work) :=
    if bool_decide (rs_author st = Some name) then (rs_lines st, rs_author st, rs_work st)
    else ((rs_lines st ++ (if bool_decide (rs_author st = None) then [] else [[]])) ++ [γ"[" ++ name ++ γ"]"],
          Some name, None) in
  (* work line, lines 2038-2050 *)
  let '(lines, cur_work, book_count) :=
    if bool_decide (cur_work = Some (r_work_id r)) then (lines, cur_work, rs_book_count st)
    else
      let bs := books_of_work db (r_work_id r) in
      let book_count := Z.of_nat (length bs) in
      (lines ++ [if book_count =? 1
                 then name ++ γ" / " ++ title ++ γ" - " ++ fmt_thousands (r_line_count r) ++ γ" lines"
                 else name ++ γ" / " ++ title ++ γ" - " ++ fmt_thousands (or_zero (sql_sum (map b_line_count bs))) ++
                        γ" lines total"],
       Some (r_work_id r), book_count) in
  (* book line, lines 2053-2054 *)
  let lines := if 1 <? book_count
               then lines ++ [name ++ γ" / " ++ title ++ γ" / " ++ r_book_label r ++ γ" - " ++
                              fmt_thousands (r_line_count r) ++ γ" lines"]
               else lines in
  (* translations, lines 2057-2061 *)
  let trs := book_translations db (r_book_id r) in
  let lines := if bool_decide (trs = []) then lines else lines ++ [translations_line name title trs] in
  ReportState lines cur_author cur_work book_count.

(** The header, lines 1947-1980. *)
Definition report_header (now : pystr) (total_dict lemma_count : Z) (db : corpus) : list pystr :=
  [γ"=== PERSEUS TEXTS DATABASE QUALITY REPORT ==="; γ"Generated: " ++ now; [];
   γ"Total Authors: " ++ py_str_Z (Z.of_nat (length (authors db)));
   γ"Total Works: " ++ py_str_Z (Z.of_nat (length (works db)));
   γ"Total Books: " ++ py_str_Z (Z.of_nat (length (books db)));
   γ"Total Lines: " ++ fmt_thousands (Z.of_nat (length (text_lines db)))] ++
  (if 0 <? total_dict then [γ"Dictionary Entries: " ++ fmt_thousands total_dict;
                            γ"Lemma Mappings: " ++ fmt_thousands lemma_count] else []) ++
  [[]; γ"=== DETAILED BREAKDOWN ==="; []].

(** [generate_quality_report], lines 1942-2064: the lines of the file. *)
Definition generate_quality_report (now : pystr) (total_dict lemma_count : Z) (db : corpus) : list pystr :=
  rs_lines (foldl (report_step db) (ReportState (report_header now total_dict lemma_count db) None None 0)
                  (report_rows db)).

(** ** The thousands separator *)

Definition not_comma (c : Z) : bool := negb (c =? 44).

Lemma group3_not_comma l : List.filter not_comma (group3 l) = List.filter not_comma l.
Proof.
  enough (forall n l, (length l <= n)%nat -> List.filter not_comma (group3 l) = List.filter not_comma l) by eauto.
  clear l. induction n as [|n IH]; intros l Hl; [destruct l; [done|simpl in Hl; lia]|].
  destruct l as [|a [|b [|c [|d rest]]]]; try done. simpl in Hl.
  change (group3 (a :: b :: c :: d :: rest)) with (([a; b; c] ++ [44]) ++ group3 (d :: rest)).
  change (List.filter not_comma (a :: b :: c :: d :: rest)) with (List.filter not_comma ([a; b; c] ++ d :: rest)).
  rewrite !filter_app, IH by (simpl; lia).
  assert (List.filter not_comma [44] = []) as -> by reflexivity. by rewrite app_nil_r.
Qed.

Lemma filter_rev_not_comma (l : pystr) : List.filter not_comma (rev l) = rev (List.filter not_comma l).
Proof.
  induction l as [|x l IH]; [done|]. simpl. rewrite filter_app, IH. simpl.
  destruct (not_comma x); simpl; [done|by rewrite app_nil_r].
Qed.

Lemma nat_digits_not_comma n : 0 <= n -> List.filter not_comma (nat_digits n) = nat_digits n.
Proof.
  intros Hn. destruct (nat_digits_spec n Hn) as (ds & _ & Hds & _ & ->).
  induction Hds as [|d ds Hd Hds IH]; [done|]. simpl. rewrite IH.
  unfold not_comma. by rewrite (proj2 (Z.eqb_neq (48 + d) 44)) by lia.
Qed.

(** Removing the separators from [f"{n:,}"] gives [str(n)], so the
    report's numbers read back as the counts they print. *)
Theorem fmt_thousands_roundtrip n : List.filter not_comma (fmt_thousands n) = py_str_Z n.
Proof.
  unfold fmt_thousands, py_str_Z. rewrite filter_app, filter_rev_not_comma, group3_not_comma,
    filter_rev_not_comma, rev_involutive, nat_digits_not_comma by lia.
  destruct (n <? 0) eqn:E; simpl.
  - apply Z.ltb_lt in E. by rewrite Z.abs_neq by lia.
  - apply Z.ltb_ge in E. by rewrite Z.abs_eq by lia.
Qed.

(** ** Samples *)

Definition sample_author : author_row := AuthorRow γ"a" γ"Sappho" None "greek" 0.

(** A work of one book of 10 lines with three translation segments. *)
Definition fanout_db : corpus :=
  Corpus [sample_author] [WorkRow γ"w" γ"a" γ"Poems" None γ"Poems" γ"verse" γ"u" γ"d"]
    [BookRow γ"b" γ"w" 1 γ"Book 1" 1 10 10] [] []
    [SegmentRow γ"b" 1 3 γ"one" γ"T" None; SegmentRow γ"b" 4 6 γ"two" γ"T" None;
     SegmentRow γ"b" 7 10 γ"three" γ"T" None].

(** The works query of the manifest joins the translation segments
    to the books before [SUM(b.line_count)]: a book of 10 lines with
    three segments counts 30 lines for its work, while the author, whose
    query has no such join, has 10. *)
Example manifest_work_lines_multiplied :
  manifest_author fanout_db sample_author =
  JObj [(γ"id", JStr γ"a"); (γ"name", JStr γ"Sappho"); (γ"language", JStr γ"greek");
        (γ"work_count", JInt 1); (γ"total_books", JInt 1); (γ"total_lines", JInt 10);
        (γ"works", JList [JObj [(γ"id", JStr γ"w"); (γ"title", JStr γ"Poems"); (γ"title_english", JStr γ"Poems");
                                 (γ"book_count", JInt 1); (γ"total_lines", JInt 30); (γ"translator_count", JInt 1);
                                 (γ"books", JList [JObj [(γ"number", JInt 1); (γ"label", JStr γ"Book 1");
                                                         (γ"line_count", JInt 10)]])]])].
Proof. vm_compute. reflexivity. Qed.

(** [round(1 / 3 * 100, 1)] is the double nearest to 33.3, 0x4040A66666666666. *)
Example manifest_coverage_rounded :
  translation_coverage (Corpus [] [WorkRow γ"w" γ"a" γ"P" None γ"P" γ"verse" γ"u" γ"d";
                                    WorkRow γ"x" γ"a" γ"Q" None γ"Q" γ"verse" γ"u" γ"d";
                                    WorkRow γ"y" γ"a" γ"R" None γ"R" γ"verse" γ"u" γ"d"]
                          (books fanout_db) [] [] (segments fanout_db))
  = JFloat (S754_finite false 4686558362232422 (-47)).
Proof. vm_compute. reflexivity. Qed.

(** Two works of an author with the same English title, two books each. *)
Definition same_title_db : corpus :=
  Corpus [sample_author]
    [WorkRow γ"w1" γ"a" γ"Fr. A" None γ"Fragments" γ"verse" γ"u" γ"d";
     WorkRow γ"w2" γ"a" γ"Fr. B" None γ"Fragments" γ"verse" γ"u" γ"d"]
    [BookRow γ"b1" γ"w1" 1 γ"Book 1" 1 5 5; BookRow γ"b2" γ"w1" 2 γ"Book 2" 1 5 5;
     BookRow γ"c1" γ"w2" 1 γ"Book 1" 1 7 7; BookRow γ"c2" γ"w2" 2 γ"Book 2" 1 7 7] [] [] [].

(** The report sorts by author, English title and book number, so the
    books of two works with the same English title alternate, and each
    work's heading is printed twice. *)
Example report_same_title_interleaved :
  generate_quality_report γ"now" 0 0 same_title_db =
  report_header γ"now" 0 0 same_title_db ++
  [γ"[Sappho]";
   γ"Sappho / Fragments - 10 lines total"; γ"Sappho / Fragments / Book 1 - 5 lines";
   γ"Sappho / Fragments - 14 lines total"; γ"Sappho / Fragments / Book 1 - 7 lines";
   γ"Sappho / Fragments - 10 lines total"; γ"Sappho / Fragments / Book 2 - 5 lines";
   γ"Sappho / Fragments - 14 lines total"; γ"Sappho / Fragments / Book 2 - 7 lines"].
Proof. vm_compute. reflexivity. Qed.
