(* ===== verification/Assets.v ===== *)
(** * Splitting the packaged database: split_database_for_assets.py

    Play Asset Delivery limits a pack to 512 MB, so the compressed
    database is cut into parts by [split_file] (lines 11-74): the parts
    [<stem>.part001], [<stem>.part002], ... of [chunk_size_mb] MB each,
    written next to the input or into [output_dir], and a manifest
    [<stem>.manifest.json] that lists them.  [verify_split] (lines
    76-127) reads the manifest back, concatenates the parts it lists and
    accepts them when their SHA-256 is that of the original file or when
    their total size is the size the manifest records; [main] (lines
    129-161) dispatches on the command line.

    The file system is a store from paths to contents.  A path is the
    tuple of its [pathlib] parts, so that [Path("a//b/")] and
    [Path("a/b")] are the same path, as [pathlib] makes them.  A content is
    raw bytes or the value a [json.dump] wrote: [json.load] gives that
    value back, while the bytes of such a file ([json_dumps]) and
    [json.load] of raw bytes ([json_parse]) are the JSON library's, and
    [sha256] is [hashlib]'s hex digest: all three are [Variable]s.  The
    input file is read through its open file object: each
    [infile.read(chunk_size)] reads the current content of the path at
    the current offset, so a part written over the input is seen by the
    later reads.  [chunk_size] is a multiple of [io.DEFAULT_BUFFER_SIZE],
    so [BufferedReader] reads it directly and keeps no read-ahead.

    Theorems: the parts concatenate back to the input and [verify_split]
    accepts them ([split_file_roundtrip], [split_then_verify]), with the
    sizes the manifest promises ([split_file_part_sizes]), whenever no
    part is written over the input; an input named like its first part is
    destroyed while [verify_split] still passes
    ([split_in_place_truncates]); a part corrupted without changing its
    size passes ([verify_split_size_only]). *)

From Stdlib Require Import ZArith List Lia.
From stdpp Require Import base list gmap.
From S2P Require Import Prelude Unicode Tei PyFloat Reports.
Import ListNotations.
Open Scope Z_scope.

(** The exceptions the script can raise. *)
Inductive asset_error :=
  | FileNotFoundError
  | JSONDecodeError
  | KeyError (k : pystr)
  | TypeError
  | ZeroDivisionError
  | ValueError.

(** ** Paths as [pathlib] parts *)

Definition path : Type := list pystr.

(** [Path(s)]: a leading [/] is the root part; empty parts and [.] are
    dropped. *)
Definition parse_path (s : pystr) : path :=
  (if startswith s γ"/" then [γ"/"] else []) ++
  List.filter (fun p => negb (bool_decide (p = []) || bool_decide (p = γ"."))) (split_on 47 s).

(** [p.name] *)
Definition path_name (p : path) : pystr :=
  match rev p with
  | n :: _ => if bool_decide (n = γ"/") then [] else n
  | [] => []
  end.

(** [p.parent] *)
Definition path_parent (p : path) : path :=
  if bool_decide (p = [γ"/"]) then p else removelast p.

(** [p / name] for a name without [/]. *)
Definition path_join (p : path) (name : pystr) : path := p ++ [name].

Fixpoint rfind_aux (c : Z) (s : pystr) (i acc : Z) : Z :=
  match s with
  | [] => acc
  | x :: r => rfind_aux c r (i + 1) (if x =? c then i else acc)
  end.

(** [s.rfind(c)] of one character. *)
Definition py_rfind (c : Z) (s : pystr) : Z := rfind_aux c s 0 (-1).

(** [p.stem] of the name [name]. *)
Definition py_stem (name : pystr) : pystr :=
  let i := py_rfind 46 name in
  if (0 <? i) && (i <? Z.of_nat (length name) - 1) then take (Z.to_nat i) name else name.

(** ** Files *)

Inductive content :=
  | Bytes (b : list Z)
  | Json (j : json).

Definition store : Type := gmap path content.

Section Assets.
Variable json_dumps : json -> list Z.
Variable json_parse : list Z -> option json.
Variable sha256 : list Z -> pystr.

Definition bytes_of (c : content) : list Z :=
  match c with Bytes b => b | Json j => json_dumps j end.

(** The bytes of a path; the input file stays open, so it is never missing. *)
Definition file_bytes (fs : store) (p : path) : list Z :=
  match fs !! p with Some c => bytes_of c | None => [] end.

(** [f.read(n)] at offset [pos]: a negative [n] reads to the end. *)
Definition py_read (data : list Z) (pos : nat) (n : Z) : list Z :=
  if n <? 0 then drop pos data else take (Z.to_nat n) (drop pos data).

(** [json.load] *)
Definition json_load (fs : store) (p : path) : asset_error + json :=
  match fs !! p with
  | None => inl FileNotFoundError
  | Some (Json j) => inr j
  | Some (Bytes b) => match json_parse b with Some j => inr j | None => inl JSONDecodeError end
  end.
End Assets.

(** [d[k]] of a decoded JSON value: a [dict] keeps the last of equal keys. *)
Definition py_getitem (j : json) (k : pystr) : asset_error + json :=
  match j with
  | JObj kvs =>
      match fold_left (fun acc kv => if bool_decide (kv.1 = k) then Some kv.2 else acc) kvs None with
      | Some v => inr v
      | None => inl (KeyError k)
      end
  | _ => inl TypeError
  end.

(** [for x in j]: a list, the keys of a dict, the characters of a string. *)
Definition py_iter (j : json) : asset_error + list json :=
  match j with
  | JList l => inr l
  | JObj kvs => inr (map (fun kv => JStr kv.1) kvs)
  | JStr s => inr (map (fun c => JStr [c]) s)
  | _ => inl TypeError
  end.

(** A [str] operand of [Path.__truediv__]. *)
Definition as_str (j : json) : asset_error + pystr :=
  match j with JStr s => inr s | _ => inl TypeError end.

(** [n == j] for an [int] [n]. *)
Definition json_eq_int (j : json) (n : Z) : bool :=
  match j with
  | JInt m => m =? n
  | JFloat x => bool_decide (float_cmp_int x n = Some Eq)
  | _ => false
  end.

(** ** [split_file] *)

Definition chunk_name (stem : pystr) (i : nat) : pystr := stem ++ γ".part" ++ fmt03d (Z.of_nat i + 1).

Definition chunk_entry (name : pystr) (i : nat) (size : Z) : json :=
  JObj [(γ"name", JStr name); (γ"index", JInt (Z.of_nat i)); (γ"size", JInt size)].

Definition manifest_name (stem : pystr) : pystr := stem ++ γ".manifest.json".

Record split_state := SplitState {
  sp_fs : store;
  sp_pos : nat;
  sp_chunks : list json
}.

Section Split.
Variable json_dumps : json -> list Z.
Variable json_parse : list Z -> option json.
Variable sha256 : list Z -> pystr.

(** One iteration of the loop of lines 48-64. *)
Definition split_chunk (input_path output_path : path) (stem : pystr) (chunk_size : Z)
    (st : split_state) (i : nat) : split_state :=
  let name := chunk_name stem i in
  let data := py_read (file_bytes json_dumps (sp_fs st) input_path) (sp_pos st) chunk_size in
  SplitState (<[path_join output_path name := Bytes data]> (sp_fs st))
             (sp_pos st + length data)
             (sp_chunks st ++ [chunk_entry name i (Z.of_nat (length data))]).

(** [output_dir or input_path.parent], lines 24-28. *)
Definition output_of (input_path : path) (output_dir : option pystr) : path :=
  match output_dir with
  | Some d => if nonempty d then parse_path d else path_parent input_path
  | None => path_parent input_path
  end.

(** [total_chunks], line 31: the ceiling of the quotient. *)
Definition split_total (file_size chunk_size : Z) : Z := (file_size + chunk_size - 1) / chunk_size.

(** The manifest of lines 38-44, with the parts the loop appends. *)
Definition split_manifest (name : pystr) (file_size chunk_size total_chunks : Z) (chunks : list json) : json :=
  JObj [(γ"original_file", JStr name); (γ"total_size", JInt file_size); (γ"chunk_size", JInt chunk_size);
        (γ"total_chunks", JInt total_chunks); (γ"chunks", JList chunks)].

(** [split_file(input_file, chunk_size_mb, output_dir)]: the store after
    it, and the value it returns. *)
Definition split_file (fs : store) (input_file : pystr) (chunk_size_mb : Z) (output_dir : option pystr)
    : asset_error + (store * bool) :=
  let chunk_size := chunk_size_mb * 1024 * 1024 in
  let input_path := parse_path input_file in
  match fs !! input_path with
  | None => inr (fs, false)
  | Some f =>
      let output_path := output_of input_path output_dir in
      let file_size := Z.of_nat (length (bytes_of json_dumps f)) in
      if chunk_size =? 0 then inl ZeroDivisionError else
      let total_chunks := split_total file_size chunk_size in
      let stem := py_stem (path_name input_path) in
      let st := fold_left (split_chunk input_path output_path stem chunk_size)
                  (seq 0 (Z.to_nat total_chunks)) (SplitState fs 0 []) in
      let manifest := split_manifest (path_name input_path) file_size chunk_size total_chunks (sp_chunks st) in
      inr (<[path_join output_path (manifest_name stem) := Json manifest]> (sp_fs st), true)
  end.

(** ** [verify_split] *)

(** The loop of lines 104-113: the bytes of the parts in the manifest's
    order, or [None] where it returns [False] on a missing part. *)
Fixpoint verify_chunks (fs : store) (dir : path) (cs : list json) (acc : list Z)
    : asset_error + option (list Z) :=
  match cs with
  | [] => inr (Some acc)
  | ci :: cs =>
      n ←? py_getitem ci γ"name";
      name ←? as_str n;
      match fs !! path_join dir name with
      | None => inr None
      | Some c => verify_chunks fs dir cs (acc ++ bytes_of json_dumps c)
      end
  end.

(** [verify_split(manifest_file)] *)
Definition verify_split (fs : store) (manifest_file : pystr) : asset_error + bool :=
  let manifest_path := parse_path manifest_file in
  manifest ←? json_load json_parse fs manifest_path;
  o ←? py_getitem manifest γ"original_file";
  original ←? as_str o;
  let original_hash :=
    match fs !! path_join (path_parent manifest_path) original with
    | Some c => Some (sha256 (bytes_of json_dumps c))
    | None => None
    end in
  _ ←? py_getitem manifest γ"total_chunks";
  cs ←? py_getitem manifest γ"chunks";
  chunks ←? py_iter cs;
  r ←? verify_chunks fs (path_parent manifest_path) chunks [];
  match r with
  | None => inr false
  | Some data =>
      let reassembled_hash := sha256 data in
      expected ←? py_getitem manifest γ"total_size";
      let hash_ok := match original_hash with
                     | Some h => nonempty h && bool_decide (h = reassembled_hash)
                     | None => false
                     end in
      inr (if hash_ok then true else json_eq_int expected (Z.of_nat (length data)))
  end.

(** ** [main] *)
Context `{UnicodeDB}.

(** [main()] on [sys.argv]: the store it leaves. *)
Definition main (fs : store) (argv : list pystr) : asset_error + store :=
  match argv with
  | _ :: command :: args =>
      if bool_decide (command = γ"split") then
        match args with
        | [] => inr fs
        | input_file :: rest =>
            chunk_size ←? (match rest with
                           | c :: _ => match py_int c with Some n => inr n | None => inl ValueError end
                           | [] => inr 450
                           end);
            let output_dir := match rest with _ :: d :: _ => Some d | _ => None end in
            r ←? split_file fs input_file chunk_size output_dir;
            inr r.1
        end
      else if bool_decide (command = γ"verify") then
        match args with
        | [] => inr fs
        | manifest_file :: _ => _ ←? verify_split fs manifest_file; inr fs
        end
      else inr fs
  | _ => inr fs
  end.
End Split.

(** ** The parts and the paths they go to *)

Definition chunk_path (out : path) (stem : pystr) (i : nat) : path := path_join out (chunk_name stem i).

(** The [i]-th part of [b] when parts have [C] bytes. *)
Definition piece (C : nat) (b : list Z) (i : nat) : list Z := take C (drop (i * C) b).

Definition piece_entry (stem : pystr) (C : nat) (b : list Z) (i : nat) : json :=
  chunk_entry (chunk_name stem i) i (Z.of_nat (length (piece C b i))).

Lemma store_insert_eq (fs : store) p v : <[p := v]> fs !! p = Some v.
Proof. apply lookup_insert_eq. Qed.

Lemma store_insert_ne (fs : store) p q v : p <> q -> <[p := v]> fs !! q = fs !! q.
Proof. apply lookup_insert_ne. Qed.

Lemma fmt03d_inj a b : fmt03d a = fmt03d b -> a = b.
Proof.
  intros E. pose proof (@py_int_fmt03d greek_ucd greek_ucd_laws a) as Ha.
  rewrite E, (@py_int_fmt03d greek_ucd greek_ucd_laws b) in Ha. congruence.
Qed.

Lemma chunk_path_inj out stem i j : chunk_path out stem i = chunk_path out stem j -> i = j.
Proof.
  unfold chunk_path, path_join, chunk_name. intros E.
  apply app_inv_head in E. injection E as E. apply app_inv_head in E.
  change (γ".part" ++ fmt03d (Z.of_nat i + 1) = γ".part" ++ fmt03d (Z.of_nat j + 1)) in E.
  apply app_inv_head, fmt03d_inj in E. lia.
Qed.

Lemma manifest_not_chunk out stem i : path_join out (manifest_name stem) <> chunk_path out stem i.
Proof.
  unfold chunk_path, path_join, manifest_name, chunk_name. intros E.
  apply app_inv_head in E. injection E as E. apply app_inv_head in E.
  apply (f_equal (fun l => nth 1 l 0)) in E. vm_compute in E. discriminate.
Qed.

Lemma path_parent_join p n : n <> γ"/" -> path_parent (path_join p n) = p.
Proof.
  intros Hn. unfold path_parent, path_join. case_bool_decide as E; [|apply removelast_last].
  destruct p as [|x [|y p]]; simplify_eq/=; done.
Qed.

Lemma path_name_join p n : n <> γ"/" -> path_name (path_join p n) = n.
Proof. intros Hn. unfold path_name, path_join. rewrite rev_app_distr. simpl. by case_bool_decide. Qed.

Lemma drop_min {A} (l : list A) k : drop (Nat.min k (length l)) l = drop k l.
Proof.
  destruct (decide (k <= length l)%nat).
  - by rewrite Nat.min_l.
  - rewrite Nat.min_r by lia. rewrite !drop_ge by lia. done.
Qed.

Lemma length_piece C b i : length (piece C b i) = Nat.min C (length b - i * C).
Proof. unfold piece. by rewrite length_take, length_drop. Qed.

Lemma concat_pieces C b n : concat (map (piece C b) (seq 0 n)) = take (n * C) b.
Proof.
  induction n as [|n IH]; [done|].
  rewrite seq_S, map_app, concat_app, IH. simpl. rewrite app_nil_r.
  unfold piece. rewrite take_take_drop. f_equal. lia.
Qed.

(** [(n + c - 1) // c] parts of [c] bytes hold [n] bytes. *)
Lemma ceil_div_enough (L c : Z) : 0 < c -> 0 <= L -> L <= (L + c - 1) / c * c.
Proof.
  intros Hc HL. pose proof (Z.div_mod (L + c - 1) c ltac:(lia)).
  pose proof (Z.mod_pos_bound (L + c - 1) c Hc). lia.
Qed.

Section SplitFacts.
Variable json_dumps : json -> list Z.

Lemma py_read_piece b n c :
  0 < c -> py_read b (Nat.min (n * Z.to_nat c) (length b)) c = piece (Z.to_nat c) b n.
Proof. intros Hc. unfold py_read. rewrite (proj2 (Z.ltb_ge c 0)) by lia. by rewrite drop_min. Qed.

(** The loop of [split_file] when no part is written over the input:
    after [n] iterations the offset is [min(n * C, len b)], the manifest
    lists the first [n] parts, each part path holds its piece of [b], and
    every other path is as before. *)
Lemma split_loop fs inp out stem c f b n :
  0 < c -> fs !! inp = Some f -> bytes_of json_dumps f = b ->
  (forall i, (i < n)%nat -> chunk_path out stem i <> inp) ->
  sp_pos (fold_left (split_chunk json_dumps inp out stem c) (seq 0 n) (SplitState fs 0 []))
    = Nat.min (n * Z.to_nat c) (length b) /\
  sp_chunks (fold_left (split_chunk json_dumps inp out stem c) (seq 0 n) (SplitState fs 0 []))
    = map (piece_entry stem (Z.to_nat c) b) (seq 0 n) /\
  (forall i, (i < n)%nat ->
     sp_fs (fold_left (split_chunk json_dumps inp out stem c) (seq 0 n) (SplitState fs 0 []))
       !! chunk_path out stem i = Some (Bytes (piece (Z.to_nat c) b i))) /\
  (forall p, (forall i, (i < n)%nat -> chunk_path out stem i <> p) ->
     sp_fs (fold_left (split_chunk json_dumps inp out stem c) (seq 0 n) (SplitState fs 0 [])) !! p
       = fs !! p).
Proof.
  intros Hc Hf Hb Hal. induction n as [|n IH].
  { simpl. repeat split; intros; lia. }
  destruct IH as (Hpos & Hch & Hlk & Hfr); [intros i Hi; apply Hal; lia|].
  rewrite seq_S, fold_left_app. cbn [fold_left Nat.add].
  set (st := fold_left _ (seq 0 n) _) in *.
  assert (Hrd : file_bytes json_dumps (sp_fs st) inp = b).
  { unfold file_bytes. rewrite Hfr, Hf by (intros i Hi; apply Hal; lia). done. }
  unfold split_chunk. cbn [sp_fs sp_pos sp_chunks]. rewrite Hrd, Hpos, py_read_piece by done.
  split; [rewrite length_piece; lia|].
  split; [rewrite Hch, map_app; done|].
  split.
  - intros i Hi. destruct (decide (i = n)) as [->|Hne].
    + apply store_insert_eq.
    + rewrite store_insert_ne; [apply Hlk; lia|]. intros E. apply Hne, (chunk_path_inj out stem). done.
  - intros p Hp. rewrite store_insert_ne; [apply Hfr; intros i Hi; apply Hp; lia|].
    apply (Hp n). lia.
Qed.
End SplitFacts.

Lemma rfind_aux_spec c s : forall i acc,
  (rfind_aux c s i acc = acc /\ forall k, s !! k <> Some c) \/
  (exists k, rfind_aux c s i acc = i + Z.of_nat k /\ s !! k = Some c /\
             forall k', (k < k')%nat -> s !! k' <> Some c).
Proof.
  induction s as [|x s IH]; intros i acc; [left; split; [done|by intros []]|]. simpl.
  destruct (IH (i + 1) (if x =? c then i else acc)) as [[-> Hno]|(k & -> & Hk & Hmax)].
  - destruct (Z.eqb_spec x c) as [->|Hx].
    + right. exists 0%nat. split; [lia|]. split; [done|]. intros [|k'] ?; [lia|]. apply Hno.
    + left. split; [done|]. intros [|k]; [simpl; congruence|apply Hno].
  - right. exists (S k). split; [lia|]. split; [done|]. intros [|k'] ?; [lia|]. simpl. apply Hmax. lia.
Qed.

(** The manifest never has the name of the file it describes. *)
Lemma manifest_name_stem name : manifest_name (py_stem name) <> name.
Proof.
  unfold py_stem, py_rfind.
  destruct (rfind_aux_spec 46 name 0 (-1)) as [[Hr _]|(k & Hr & Hk & Hmax)]; rewrite Hr;
    unfold manifest_name; intros E.
  - apply (f_equal length) in E. rewrite length_app in E. simpl in E. lia.
  - destruct (_ && _) eqn:Hc.
    + apply andb_true_iff in Hc as [H1 H2]. apply Z.ltb_lt in H1, H2.
      replace (Z.to_nat (0 + Z.of_nat k)) with k in E by lia. apply (Hmax (k + 9)%nat); [lia|].
      rewrite <- E at 1. rewrite lookup_app_r; rewrite length_take; [|lia].
      replace (k + 9 - Nat.min k (length name))%nat with 9%nat by lia. reflexivity.
    + apply (f_equal length) in E. rewrite length_app in E. simpl in E. lia.
Qed.

Lemma chunk_entry_name name i sz : py_getitem (chunk_entry name i sz) γ"name" = inr (JStr name).
Proof. reflexivity. Qed.

Lemma split_manifest_items name L c t cs :
  py_getitem (split_manifest name L c t cs) γ"original_file" = inr (JStr name) /\
  py_getitem (split_manifest name L c t cs) γ"total_chunks" = inr (JInt t) /\
  py_getitem (split_manifest name L c t cs) γ"chunks" = inr (JList cs) /\
  py_getitem (split_manifest name L c t cs) γ"total_size" = inr (JInt L).
Proof. repeat split. Qed.

Section RoundTrip.
Variable json_dumps : json -> list Z.

(** Reading back parts the store holds concatenates their bytes. *)
Lemma verify_chunks_pieces fs dir stem C b ks acc :
  (forall i, i ∈ ks -> fs !! path_join dir (chunk_name stem i) = Some (Bytes (piece C b i))) ->
  verify_chunks json_dumps fs dir (map (piece_entry stem C b) ks) acc
  = inr (Some (acc ++ concat (map (piece C b) ks))).
Proof.
  revert acc. induction ks as [|i ks IH]; intros acc Hl; cbn [map verify_chunks concat]; [by rewrite app_nil_r|].
  unfold piece_entry. rewrite chunk_entry_name. cbn [sbind as_str]. rewrite Hl by set_solver.
  cbn [bytes_of]. rewrite IH by set_solver. by rewrite app_assoc.
Qed.

Lemma pieces_enough (L : nat) (c : Z) :
  0 < c -> (L <= Z.to_nat ((Z.of_nat L + c - 1) / c) * Z.to_nat c)%nat.
Proof.
  intros Hc. pose proof (ceil_div_enough (Z.of_nat L) c Hc ltac:(lia)).
  assert (0 <= (Z.of_nat L + c - 1) / c) by (apply Z.div_pos; lia). lia.
Qed.

(** [split_file] once its guards pass. *)
Lemma split_file_unfold fs input_file mb output_dir inp out stem f :
  parse_path input_file = inp -> output_of inp output_dir = out -> py_stem (path_name inp) = stem ->
  mb <> 0 -> fs !! inp = Some f ->
  split_file json_dumps fs input_file mb output_dir =
  inr (<[path_join out (manifest_name stem) :=
          Json (split_manifest (path_name inp) (Z.of_nat (length (bytes_of json_dumps f))) (mb * 1024 * 1024)
                 (split_total (Z.of_nat (length (bytes_of json_dumps f))) (mb * 1024 * 1024))
                 (sp_chunks (fold_left (split_chunk json_dumps inp out stem (mb * 1024 * 1024))
                    (seq 0 (Z.to_nat (split_total (Z.of_nat (length (bytes_of json_dumps f))) (mb * 1024 * 1024))))
                    (SplitState fs 0 []))))]>
        (sp_fs (fold_left (split_chunk json_dumps inp out stem (mb * 1024 * 1024))
                  (seq 0 (Z.to_nat (split_total (Z.of_nat (length (bytes_of json_dumps f))) (mb * 1024 * 1024))))
                  (SplitState fs 0 []))), true).
Proof.
  intros <- <- <- Hmb Hf. unfold split_file. rewrite Hf.
  rewrite (proj2 (Z.eqb_neq _ 0)) by lia. reflexivity.
Qed.

Lemma chunk_name_not_root stem i : chunk_name stem i <> γ"/".
Proof. unfold chunk_name. intros E. apply (f_equal length) in E. rewrite !length_app in E. simpl in E. lia. Qed.

Lemma manifest_name_not_root stem : manifest_name stem <> γ"/".
Proof. unfold manifest_name. intros E. apply (f_equal length) in E. rewrite length_app in E. simpl in E. lia. Qed.

(** The last part is not empty: [(total_chunks - 1) * c < size]. *)
Lemma split_total_last (L c : Z) : 0 < c -> 0 < L -> (split_total L c - 1) * c < L.
Proof.
  intros Hc HL. unfold split_total. pose proof (Z.div_mod (L + c - 1) c ltac:(lia)).
  pose proof (Z.mod_pos_bound (L + c - 1) c Hc). lia.
Qed.

(** What [split_file] leaves when no part is written over its input: the
    input, the manifest of the parts, and parts that hold the pieces of
    the input in the manifest's order. *)
Lemma split_file_parts fs input_file mb output_dir inp out stem f :
  parse_path input_file = inp -> output_of inp output_dir = out -> py_stem (path_name inp) = stem ->
  0 < mb -> fs !! inp = Some f -> (forall i, chunk_path out stem i <> inp) ->
  exists fs',
    split_file json_dumps fs input_file mb output_dir = inr (fs', true) /\
    fs' !! inp = Some f /\
    fs' !! path_join out (manifest_name stem) =
      Some (Json (split_manifest (path_name inp) (Z.of_nat (length (bytes_of json_dumps f))) (mb * 1024 * 1024)
             (split_total (Z.of_nat (length (bytes_of json_dumps f))) (mb * 1024 * 1024))
             (map (piece_entry stem (Z.to_nat (mb * 1024 * 1024)) (bytes_of json_dumps f))
                (seq 0 (Z.to_nat (split_total (Z.of_nat (length (bytes_of json_dumps f))) (mb * 1024 * 1024))))))) /\
    (forall i, (i < Z.to_nat (split_total (Z.of_nat (length (bytes_of json_dumps f))) (mb * 1024 * 1024)))%nat ->
       fs' !! chunk_path out stem i =
         Some (Bytes (piece (Z.to_nat (mb * 1024 * 1024)) (bytes_of json_dumps f) i))).
Proof.
  intros Hi Ho Hs Hmb Hf Hal. rewrite (split_file_unfold fs input_file mb output_dir inp out stem f) by (done || lia).
  destruct (split_loop json_dumps fs inp out stem (mb * 1024 * 1024) f (bytes_of json_dumps f)
              (Z.to_nat (split_total (Z.of_nat (length (bytes_of json_dumps f))) (mb * 1024 * 1024))))
    as (_ & Hch & Hlk & Hfr); [lia|done|done|intros i _; apply Hal|].
  eexists. split; [reflexivity|]. split; [|split].
  - rewrite store_insert_ne.
    + rewrite Hfr; [exact Hf|intros i _; apply Hal].
    + intros E. apply (manifest_name_stem (path_name inp)). rewrite Hs, <- E.
      by rewrite path_name_join by apply manifest_name_not_root.
  - rewrite Hch. apply store_insert_eq.
  - intros i Hlt. rewrite store_insert_ne by apply manifest_not_chunk. by apply Hlk.
Qed.

Lemma piece_take_first C b : (C <= length b)%nat -> piece C (take C b) 0 = take C b.
Proof. intros Hl. unfold piece. by rewrite Nat.mul_0_l, drop_0, take_take, Nat.min_id. Qed.

Lemma piece_take_later C b i : (0 < i)%nat -> piece C (take C b) i = [].
Proof.
  intros Hi. unfold piece. rewrite drop_ge; [apply take_nil|]. rewrite length_take.
  pose proof (Nat.le_min_l C (length b)). nia.
Qed.

(** The loop of [split_file] when its input is the path of its first
    part: the first write truncates the input to its first part, and every
    later read is empty, so the parts are those of that first part. *)
Lemma split_loop_in_place fs inp out stem c f b m :
  0 < c -> fs !! inp = Some f -> bytes_of json_dumps f = b -> (Z.to_nat c < length b)%nat ->
  chunk_path out stem 0 = inp ->
  sp_pos (fold_left (split_chunk json_dumps inp out stem c) (seq 0 (S m)) (SplitState fs 0 [])) = Z.to_nat c /\
  sp_chunks (fold_left (split_chunk json_dumps inp out stem c) (seq 0 (S m)) (SplitState fs 0 []))
    = map (piece_entry stem (Z.to_nat c) (take (Z.to_nat c) b)) (seq 0 (S m)) /\
  (forall i, (i < S m)%nat ->
     sp_fs (fold_left (split_chunk json_dumps inp out stem c) (seq 0 (S m)) (SplitState fs 0 []))
       !! chunk_path out stem i = Some (Bytes (piece (Z.to_nat c) (take (Z.to_nat c) b) i))).
Proof.
  intros Hc Hf Hb Hlen Hin. induction m as [|m IH].
  - cbn [seq fold_left]. unfold split_chunk. cbn [sp_fs sp_pos sp_chunks map].
    unfold file_bytes. rewrite Hf, Hb. unfold py_read. rewrite (proj2 (Z.ltb_ge c 0)) by lia. rewrite drop_0.
    split; [rewrite length_take; lia|]. split.
    { unfold piece_entry. rewrite piece_take_first by lia. done. }
    intros i Hi. replace i with 0%nat by lia. rewrite piece_take_first by lia. apply store_insert_eq.
  - destruct IH as (Hpos & Hch & Hlk).
    rewrite seq_S, fold_left_app. cbn [fold_left Nat.add].
    set (st := fold_left _ (seq 0 (S m)) _) in *.
    assert (Hrd : file_bytes json_dumps (sp_fs st) inp = take (Z.to_nat c) b).
    { unfold file_bytes. rewrite <- Hin, Hlk by lia. cbn [bytes_of]. apply piece_take_first. lia. }
    unfold split_chunk. cbn [sp_fs sp_pos sp_chunks]. rewrite Hrd, Hpos.
    unfold py_read. rewrite (proj2 (Z.ltb_ge c 0)) by lia.
    rewrite drop_ge by (rewrite length_take; lia). rewrite take_nil. cbn [length].
    split; [lia|]. split.
    + rewrite Hch, map_app. cbn [map].
      change (piece_entry stem (Z.to_nat c) (take (Z.to_nat c) b) (S m)) with
        (chunk_entry (chunk_name stem (S m)) (S m) (Z.of_nat (length (piece (Z.to_nat c) (take (Z.to_nat c) b) (S m))))).
      by rewrite piece_take_later by lia.
    + intros i Hi. destruct (decide (i = S m)) as [->|Hne].
      * rewrite piece_take_later by lia. apply store_insert_eq.
      * rewrite store_insert_ne; [apply Hlk; lia|]. intros E. apply Hne, (chunk_path_inj out stem). done.
Qed.
End RoundTrip.

Section SplitTheorems.
Variable json_dumps : json -> list Z.
Variable json_parse : list Z -> option json.
Variable sha256 : list Z -> pystr.

(** [verify_split] of a manifest whose parts hold the pieces of [b']. *)
Lemma verify_split_pieces fs' mf out stem name L c t C b' n :
  parse_path mf = path_join out (manifest_name stem) ->
  fs' !! path_join out (manifest_name stem) =
    Some (Json (split_manifest name L c t (map (piece_entry stem C b') (seq 0 n)))) ->
  (forall i, (i < n)%nat -> fs' !! chunk_path out stem i = Some (Bytes (piece C b' i))) ->
  verify_split json_dumps json_parse sha256 fs' mf =
  inr (if match fs' !! path_join out name with
          | Some c => nonempty (sha256 (bytes_of json_dumps c)) &&
                      bool_decide (sha256 (bytes_of json_dumps c) = sha256 (take (n * C) b'))
          | None => false
          end
       then true else L =? Z.of_nat (length (take (n * C) b'))).
Proof.
  intros Hmf Hm Hp. unfold verify_split. rewrite Hmf. unfold json_load. rewrite Hm. cbn [sbind].
  destruct (split_manifest_items name L c t (map (piece_entry stem C b') (seq 0 n))) as (-> & -> & -> & ->).
  cbn [sbind as_str py_iter]. rewrite path_parent_join by apply manifest_name_not_root.
  rewrite verify_chunks_pieces by (intros i Hlt%elem_of_seq; apply Hp; lia).
  cbn [sbind app json_eq_int]. rewrite concat_pieces. by destruct (fs' !! path_join out name).
Qed.

(** C36: Splitting round-trips: when no part is written over the input,
    [split_file] succeeds and returns [True], the input is untouched, and
    the parts its manifest lists, read back in the manifest's order as
    [verify_split] reads them, concatenate to the bytes of the input. *)
Theorem split_file_roundtrip fs input_file mb output_dir inp out stem f :
  parse_path input_file = inp -> output_of inp output_dir = out -> py_stem (path_name inp) = stem ->
  0 < mb -> fs !! inp = Some f -> (forall i, chunk_path out stem i <> inp) ->
  exists fs' m cs,
    split_file json_dumps fs input_file mb output_dir = inr (fs', true) /\
    fs' !! inp = Some f /\
    json_load json_parse fs' (path_join out (manifest_name stem)) = inr m /\
    py_getitem m γ"chunks" = inr (JList cs) /\
    verify_chunks json_dumps fs' out cs [] = inr (Some (bytes_of json_dumps f)).
Proof.
  intros Hi Ho Hs Hmb Hf Hal.
  destruct (split_file_parts json_dumps fs input_file mb output_dir inp out stem f) as (fs' & Hsp & Hin & Hm & Hp);
    try done.
  do 3 eexists. split; [exact Hsp|]. split; [exact Hin|].
  split; [unfold json_load; rewrite Hm; reflexivity|]. split; [reflexivity|].
  rewrite verify_chunks_pieces by (intros i Hlt%elem_of_seq; apply Hp; lia).
  simpl. rewrite concat_pieces, take_ge; [done|]. apply pieces_enough. lia.
Qed.

(** Splitting then verifying succeeds: when no part is written over
    the input, [verify_split] of the manifest [split_file] wrote returns
    [True]. *)
Theorem split_then_verify fs input_file mb output_dir manifest_file inp out stem f :
  parse_path input_file = inp -> output_of inp output_dir = out -> py_stem (path_name inp) = stem ->
  0 < mb -> fs !! inp = Some f -> (forall i, chunk_path out stem i <> inp) ->
  parse_path manifest_file = path_join out (manifest_name stem) ->
  exists fs',
    split_file json_dumps fs input_file mb output_dir = inr (fs', true) /\
    verify_split json_dumps json_parse sha256 fs' manifest_file = inr true.
Proof.
  intros Hi Ho Hs Hmb Hf Hal Hmf.
  destruct (split_file_parts json_dumps fs input_file mb output_dir inp out stem f) as (fs' & Hsp & _ & Hm & Hp);
    try done.
  exists fs'. split; [exact Hsp|].
  rewrite (verify_split_pieces _ _ out stem _ _ _ _ _ _ _ Hmf Hm Hp), take_ge by (apply pieces_enough; lia).
  rewrite Z.eqb_refl. by case_match.
Qed.

(** The parts have the sizes the manifest promises: when no part is
    written over the input, each of the [total_chunks] parts holds at
    least one and at most [chunk_size] bytes, and every part but the last
    holds exactly [chunk_size] bytes. *)
Theorem split_file_part_sizes fs input_file mb output_dir inp out stem f i :
  parse_path input_file = inp -> output_of inp output_dir = out -> py_stem (path_name inp) = stem ->
  0 < mb -> fs !! inp = Some f -> (forall j, chunk_path out stem j <> inp) ->
  (i < Z.to_nat (split_total (Z.of_nat (length (bytes_of json_dumps f))) (mb * 1024 * 1024)))%nat ->
  exists fs' data,
    split_file json_dumps fs input_file mb output_dir = inr (fs', true) /\
    fs' !! chunk_path out stem i = Some (Bytes data) /\
    (0 < length data <= Z.to_nat (mb * 1024 * 1024))%nat /\
    ((S i < Z.to_nat (split_total (Z.of_nat (length (bytes_of json_dumps f))) (mb * 1024 * 1024)))%nat ->
       length data = Z.to_nat (mb * 1024 * 1024)).
Proof.
  intros Hi Ho Hs Hmb Hf Hal Hlt.
  destruct (split_file_parts json_dumps fs input_file mb output_dir inp out stem f) as (fs' & Hsp & _ & _ & Hp);
    try done.
  eexists _, _. split; [exact Hsp|]. split; [apply Hp, Hlt|]. rewrite length_piece.
  set (L := length (bytes_of json_dumps f)) in *. set (c := mb * 1024 * 1024) in *.
  assert (0 <= split_total (Z.of_nat L) c) by (apply Z.div_pos; lia).
  assert (0 < L)%nat.
  { destruct L; [|lia]. exfalso. unfold split_total in Hlt. rewrite Z.div_small in Hlt by lia. simpl in Hlt. lia. }
  pose proof (split_total_last (Z.of_nat L) c ltac:(lia) ltac:(lia)). nia.
Qed.

(** C37: Splitting in place a file named like its first part loses it:
    for [db.part001] split next to itself, the first part is written over
    the input while it is read, every later read is empty, the input is
    left holding only its first [chunk_size] bytes, and [verify_split]
    still returns [True], since the truncated input is now its own
    "original" and its hash matches the parts. *)
Theorem split_in_place_truncates fs input_file mb manifest_file inp stem f :
  parse_path input_file = inp -> py_stem (path_name inp) = stem ->
  chunk_path (path_parent inp) stem 0 = inp ->
  0 < mb -> fs !! inp = Some f -> (Z.to_nat (mb * 1024 * 1024) < length (bytes_of json_dumps f))%nat ->
  parse_path manifest_file = path_join (path_parent inp) (manifest_name stem) ->
  (forall d, length (sha256 d) = 64%nat) ->
  exists fs',
    split_file json_dumps fs input_file mb None = inr (fs', true) /\
    fs' !! inp = Some (Bytes (take (Z.to_nat (mb * 1024 * 1024)) (bytes_of json_dumps f))) /\
    verify_split json_dumps json_parse sha256 fs' manifest_file = inr true.
Proof.
  intros Hi Hs Hin Hmb Hf Hlen Hmf Hsha.
  rewrite (split_file_unfold json_dumps fs input_file mb None inp (path_parent inp) stem f) by (done || lia).
  set (L := length (bytes_of json_dumps f)) in *. set (c := mb * 1024 * 1024) in *.
  assert (1 <= split_total (Z.of_nat L) c) by (apply Z.div_le_lower_bound; lia).
  destruct (Z.to_nat (split_total (Z.of_nat L) c)) as [|m] eqn:En; [lia|].
  destruct (split_loop_in_place json_dumps fs inp (path_parent inp) stem c f (bytes_of json_dumps f) m)
    as (_ & Hch & Hlk); try (done || lia).
  rewrite Hch. eexists. split; [reflexivity|].
  assert (Hinp : <[path_join (path_parent inp) (manifest_name stem) :=
                   Json (split_manifest (path_name inp) (Z.of_nat L) c (split_total (Z.of_nat L) c)
                          (map (piece_entry stem (Z.to_nat c) (take (Z.to_nat c) (bytes_of json_dumps f))) (seq 0 (S m))))]>
                 (sp_fs (fold_left (split_chunk json_dumps inp (path_parent inp) stem c) (seq 0 (S m))
                           {| sp_fs := fs; sp_pos := 0; sp_chunks := [] |})) !! inp
                 = Some (Bytes (take (Z.to_nat c) (bytes_of json_dumps f)))).
  { rewrite store_insert_ne by (intros E; apply (manifest_not_chunk (path_parent inp) stem 0); by rewrite Hin).
    pose proof (Hlk 0%nat ltac:(lia)) as Hl0. rewrite Hin in Hl0. rewrite Hl0, piece_take_first by lia. done. }
  split; [exact Hinp|].
  rewrite (verify_split_pieces _ _ (path_parent inp) stem (path_name inp) _ _ _ _ _ (S m) Hmf (store_insert_eq _ _ _));
    [|intros j Hj; rewrite store_insert_ne by apply manifest_not_chunk; by apply Hlk].
  assert (Hname : path_join (path_parent inp) (path_name inp) = inp).
  { rewrite <- Hin. unfold chunk_path. by rewrite path_parent_join, path_name_join by apply chunk_name_not_root. }
  rewrite Hname, Hinp. cbn [bytes_of]. rewrite take_take, Nat.min_r by nia.
  unfold nonempty. repeat case_bool_decide; simpl; try done.
  all: exfalso; match goal with
       | H : sha256 ?d = [] |- _ => specialize (Hsha d); rewrite H in Hsha; done
       | H : ¬ ?x = ?x |- _ => by apply H
       end.
Qed.
End SplitTheorems.

(** ** Examples *)

(** [db.zip] of three bytes, alone in the working directory. *)
Definition sample_fs : store := <[[γ"db.zip"] := Bytes [1; 2; 3]]> ∅.

(** The original, a part whose last byte is corrupted, and the manifest
    [split_file] wrote for the original. *)
Definition corrupt_fs : store :=
  <[[γ"db.zip"] := Bytes [1; 2; 3]]>
  (<[[γ"db.part001"] := Bytes [1; 2; 4]]>
   (<[[γ"db.manifest.json"] := Json (split_manifest γ"db.zip" 3 1048576 1 [chunk_entry γ"db.part001" 0 3])]> ∅)).

(** [verify_split] accepts a corrupted part of the right size: the hash
    test fails, but the size test that follows it passes, whatever the
    hash function. *)
Example verify_split_size_only json_dumps json_parse sha256 :
  verify_split json_dumps json_parse sha256 corrupt_fs γ"db.manifest.json" = inr true.
Proof. vm_compute. by repeat case_match. Qed.

(** The command line: a chunk size that is not an integer raises
    [ValueError]; a chunk size of 0 raises [ZeroDivisionError] once the
    input exists; for a missing input [split_file] returns first. *)
Example main_chunk_size_errors :
  main (fun _ => []) (fun _ => None) (fun _ => []) sample_fs [γ"split_database_for_assets.py"; γ"split"; γ"db.zip"; γ"450MB"] = inl ValueError /\
  main (fun _ => []) (fun _ => None) (fun _ => []) sample_fs [γ"split_database_for_assets.py"; γ"split"; γ"db.zip"; γ"0"] = inl ZeroDivisionError /\
  main (fun _ => []) (fun _ => None) (fun _ => []) sample_fs [γ"split_database_for_assets.py"; γ"split"; γ"missing.zip"; γ"0"] = inr sample_fs.
Proof. vm_compute. repeat split. Qed.

(** A negative chunk size passes the guards: [total_chunks] is then 0 for
    a non-empty file, no part is written, and [split_file] still reports
    success with a manifest that lists no part. *)
Example split_negative_size :
  split_file (fun _ => []) sample_fs γ"db.zip" (-1) None =
  inr (<[[γ"db.manifest.json"] := Json (split_manifest γ"db.zip" 3 (-1048576) 0 [])]> sample_fs, true).
Proof. vm_compute. reflexivity. Qed.

(** ** Witnesses *)

Lemma db_zip_not_part i : chunk_path [] γ"db" i <> [γ"db.zip"].
Proof.
  unfold chunk_path, path_join, chunk_name. intros E. injection E as E. discriminate E.
Qed.

Lemma split_file_roundtrip_witness :
  exists fs' m cs,
    split_file (fun _ => []) sample_fs γ"db.zip" 1 None = inr (fs', true) /\
    fs' !! [γ"db.zip"] = Some (Bytes [1; 2; 3]) /\
    json_load (fun _ => None) fs' (path_join [] (manifest_name γ"db")) = inr m /\
    py_getitem m γ"chunks" = inr (JList cs) /\
    verify_chunks (fun _ => []) fs' [] cs [] = inr (Some [1; 2; 3]).
Proof.
  apply (split_file_roundtrip (fun _ => []) (fun _ => None) sample_fs γ"db.zip" 1 None [γ"db.zip"] [] γ"db"
           (Bytes [1; 2; 3])); try (vm_compute; reflexivity); try lia.
  apply db_zip_not_part.
Defined.

Lemma split_then_verify_witness :
  exists fs',
    split_file (fun _ => []) sample_fs γ"db.zip" 1 None = inr (fs', true) /\
    verify_split (fun _ => []) (fun _ => None) (fun _ => []) fs' γ"db.manifest.json" = inr true.
Proof.
  apply (split_then_verify (fun _ => []) (fun _ => None) (fun _ => []) sample_fs γ"db.zip" 1 None
           γ"db.manifest.json" [γ"db.zip"] [] γ"db" (Bytes [1; 2; 3])); try (vm_compute; reflexivity); try lia.
  apply db_zip_not_part.
Defined.

Lemma split_file_part_sizes_witness :
  exists fs' data,
    split_file (fun _ => []) sample_fs γ"db.zip" 1 None = inr (fs', true) /\
    fs' !! chunk_path [] γ"db" 0 = Some (Bytes data) /\
    (0 < length data <= Z.to_nat (1 * 1024 * 1024))%nat /\
    ((1 < Z.to_nat (split_total 3 (1 * 1024 * 1024)))%nat -> length data = Z.to_nat (1 * 1024 * 1024)).
Proof.
  apply (split_file_part_sizes (fun _ => []) sample_fs γ"db.zip" 1 None [γ"db.zip"] [] γ"db"
           (Bytes [1; 2; 3]) 0); try (vm_compute; reflexivity); try lia.
  apply db_zip_not_part.
Defined.

(** A file of 1 MB and one byte named like its first part. *)
Definition part_fs : store := <[[γ"db.part001"] := Bytes (repeat 0 (Z.to_nat 1048577))]> ∅.

Lemma split_in_place_truncates_witness :
  exists fs',
    split_file (fun _ => []) part_fs γ"db.part001" 1 None = inr (fs', true) /\
    fs' !! [γ"db.part001"] = Some (Bytes (take (Z.to_nat (1 * 1024 * 1024)) (repeat 0 (Z.to_nat 1048577)))) /\
    verify_split (fun _ => []) (fun _ => None) (fun _ => repeat 48 64) fs' γ"db.manifest.json" = inr true.
Proof.
  apply (split_in_place_truncates (fun _ => []) (fun _ => None) (fun _ => repeat 48 64) part_fs
           γ"db.part001" 1 γ"db.manifest.json" [γ"db.part001"] γ"db" (Bytes (repeat 0 (Z.to_nat 1048577))));
    [vm_compute; reflexivity | vm_compute; reflexivity | vm_compute; reflexivity | lia
    | apply store_insert_eq | cbn [bytes_of]; rewrite repeat_length; lia
    | vm_compute; reflexivity | intros d; apply repeat_length].
Defined.
