(* ===== verification/Batching.v ===== *)
(** * Batched inserts: process_perseus_author_optimized.py

    An optimised variant of the text import: [process_text_with_batching]
    (lines 32-86) buffers the rows of [text_lines] and [word_forms] and
    writes them with [executemany] in batches of 5000 lines and 10000
    words ([batch_insert_text_lines], [batch_insert_word_forms], lines
    9-30); each word carries its position and its character offsets,
    found with [str.find] from just after the previous word.
    [extract_unique_words_streaming] (lines 88-103) counts the distinct
    normal forms, and [generate_lemmatization_in_chunks] (lines 105-142)
    walks them with [LIMIT ? OFFSET ?].

    The two tables are those of the schema the module was written for
    (backup/create_perseus_database_all_authors.py:2544-2569):
    [text_lines] has no key but its row id, [word_forms] has the primary
    key [(book_id, line_number, word_position)] and is written with
    [INSERT OR IGNORE].  A line is the dictionary the caller passes, with
    its [number] and [text] and the optional [xml] and [speaker].

    Theorems: batching does not change the tables, which are those of
    inserting each line and its words in turn
    ([process_text_with_batching_equiv]); the offsets of each word delimit
    it in its line ([line_word_forms_offsets]); the chunk loop ends with
    every distinct word processed when the chunk size is positive
    ([chunks_loop_total]) and never ends when it is negative
    ([chunks_loop_negative_diverges]). *)

From Stdlib Require Import ZArith List Lia.
From stdpp Require Import base list sorting.
From S2P Require Import Prelude Unicode Normalize Tei.
Import ListNotations.
Open Scope Z_scope.

(** A line as the caller passes it: [line['number']], [line['text']],
    [line.get('xml')], [line.get('speaker')]. *)
Record line_in := LineIn {
  li_number : Z; li_text : pystr; li_xml : option pystr; li_speaker : option pystr
}.

(** A row of [text_lines] (its row id apart). *)
Record tl_row := TlRow {
  tl_book_id : pystr; tl_number : Z; tl_text : pystr; tl_xml : option pystr; tl_speaker : option pystr
}.

(** A row of [word_forms]. *)
Record wf_row := WfRow {
  wf_word : pystr; wf_normalized : pystr; wf_book_id : pystr; wf_line : Z;
  wf_position : Z; wf_start : Z; wf_end : Z
}.

Record bdb := BDb { bt_lines : list tl_row; bt_words : list wf_row }.

(** The primary key of [word_forms]. *)
Definition wf_key (r : wf_row) : pystr * Z * Z := (wf_book_id r, wf_line r, wf_position r).

(** [INSERT OR IGNORE INTO word_forms] *)
Definition insert_wf (db : bdb) (r : wf_row) : bdb :=
  if existsb (fun r' => bool_decide (wf_key r' = wf_key r)) (bt_words db) then db
  else BDb (bt_lines db) (bt_words db ++ [r]).

(** [batch_insert_word_forms], lines 9-19: [executemany] inserts the rows
    in order. *)
Definition batch_insert_word_forms (db : bdb) (batch : list wf_row) : bdb :=
  match batch with [] => db | _ => fold_left insert_wf batch db end.

(** [batch_insert_text_lines], lines 21-30. *)
Definition batch_insert_text_lines (db : bdb) (batch : list tl_row) : bdb :=
  match batch with [] => db | _ => BDb (bt_lines db ++ batch) (bt_words db) end.

(** The [word_forms] rows after [INSERT OR IGNORE] of [ws] into [W]. *)
Definition words_after (W ws : list wf_row) : list wf_row :=
  fold_left (fun W r => if existsb (fun r' => bool_decide (wf_key r' = wf_key r)) W then W else W ++ [r]) ws W.

Section Batching.
Context `{UnicodeDB}.

(** One iteration of the word loop, lines 54-73: the position of the word
    from [char_pos], and the next [char_pos] after it. *)
Definition word_step (language : String.string) (book_id : pystr) (line : line_in)
    (st : Z * list wf_row) (pw : nat * pystr) : Z * list wf_row :=
  let '(char_pos, acc) := st in
  let '(word_pos, word) := pw in
  let word_start := py_find (li_text line) word char_pos in
  let word_end := word_start + Z.of_nat (length word) in
  let word_normalized := if String.eqb language "greek" then normalize_greek word else py_lower word in
  (word_end + 1, acc ++ [WfRow word word_normalized book_id (li_number line) (Z.of_nat word_pos) word_start word_end]).

(** The words of a line, lines 51-73: [re.findall(r'\S+', text)] is
    [text.split()], both splitting at [str.isspace]. *)
Definition line_word_forms (language : String.string) (book_id : pystr) (line : line_in) : list wf_row :=
  (fold_left (word_step language book_id line) (imap pair (split_ws (li_text line))) (0, [])).2.

Definition line_row_of (book_id : pystr) (line : line_in) : tl_row :=
  TlRow book_id (li_number line) (li_text line) (li_xml line) (li_speaker line).

Record batch_state := BatchState { bs_db : bdb; bs_lines : list tl_row; bs_words : list wf_row }.

(** One iteration of the line loop, lines 40-82. *)
Definition batching_step (language : String.string) (book_id : pystr) (st : batch_state) (line : line_in)
    : batch_state :=
  let lines := bs_lines st ++ [line_row_of book_id line] in
  let words := bs_words st ++ line_word_forms language book_id line in
  let '(db, lines) := if 5000 <=? Z.of_nat (length lines)
                      then (batch_insert_text_lines (bs_db st) lines, []) else (bs_db st, lines) in
  let '(db, words) := if 10000 <=? Z.of_nat (length words)
                      then (batch_insert_word_forms db words, []) else (db, words) in
  BatchState db lines words.

(** [process_text_with_batching(lines, book_id, language, cursor)] *)
Definition process_text_with_batching (lines : list line_in) (book_id : pystr) (language : String.string)
    (db : bdb) : bdb :=
  let st := fold_left (batching_step language book_id) lines (BatchState db [] []) in
  batch_insert_word_forms (batch_insert_text_lines (bs_db st) (bs_lines st)) (bs_words st).

(** The reference: each line inserted with its words, one after the other. *)
Definition insert_line_words_one (language : String.string) (book_id : pystr) (db : bdb) (line : line_in) : bdb :=
  batch_insert_word_forms (batch_insert_text_lines db [line_row_of book_id line])
    (line_word_forms language book_id line).
End Batching.

(** ** Batching does not change the tables *)

Lemma batch_insert_text_lines_spec db tl :
  batch_insert_text_lines db tl = BDb (bt_lines db ++ tl) (bt_words db).
Proof. destruct db, tl; simpl; [by rewrite app_nil_r|done]. Qed.

Lemma fold_insert_wf db ws : fold_left insert_wf ws db = BDb (bt_lines db) (words_after (bt_words db) ws).
Proof.
  revert db. induction ws as [|r ws IH]; intros [L W]; [done|]. simpl. rewrite IH.
  unfold insert_wf, words_after. simpl. by destruct (existsb _ W).
Qed.

Lemma batch_insert_word_forms_spec db ws :
  batch_insert_word_forms db ws = BDb (bt_lines db) (words_after (bt_words db) ws).
Proof. destruct ws; [by destruct db|]. apply fold_insert_wf. Qed.

Lemma words_after_app W a b : words_after W (a ++ b) = words_after (words_after W a) b.
Proof. unfold words_after. by rewrite fold_left_app. Qed.

Create Rewrite HintDb batching.
#[local] Hint Rewrite batch_insert_text_lines_spec batch_insert_word_forms_spec words_after_app
  app_nil_r : batching.

Section BatchingFacts.
Context `{UnicodeDB}.

(** The tables once the pending batches are written. *)
Definition flush (st : batch_state) : bdb :=
  batch_insert_word_forms (batch_insert_text_lines (bs_db st) (bs_lines st)) (bs_words st).

Lemma flush_step language book_id st line :
  flush (batching_step language book_id st line) = insert_line_words_one language book_id (flush st) line.
Proof.
  destruct st as [[L W] TL WS]. unfold batching_step, flush, insert_line_words_one. cbn [bs_db bs_lines bs_words].
  destruct (5000 <=? _), (10000 <=? _); cbn [bs_db bs_lines bs_words];
    autorewrite with batching; cbn [bt_lines bt_words]; autorewrite with batching; by rewrite ?app_assoc.
Qed.

Lemma flush_fold language book_id lines st :
  flush (fold_left (batching_step language book_id) lines st) =
  fold_left (insert_line_words_one language book_id) lines (flush st).
Proof.
  revert st. induction lines as [|line lines IH]; intros st; [done|]. simpl. by rewrite IH, flush_step.
Qed.

(** C38: Batching is transparent: [process_text_with_batching] leaves the
    same [text_lines] and [word_forms] rows, in the same order, as
    inserting each line and then its words, one line after the other. *)
Theorem process_text_with_batching_equiv lines book_id language db :
  process_text_with_batching lines book_id language db =
  fold_left (insert_line_words_one language book_id) lines db.
Proof.
  unfold process_text_with_batching. fold (flush (fold_left (batching_step language book_id) lines (BatchState db [] []))).
  by rewrite flush_fold.
Qed.
End BatchingFacts.

(** ** The offsets of the words *)

Section Offsets.
Context `{UnicodeDB}.

(** The run of non-space code points a string starts with, and what
    follows it. *)
Fixpoint ws_word (s : pystr) : pystr :=
  match s with [] => [] | c :: s' => if ucd_isspace c then [] else c :: ws_word s' end.

Fixpoint ws_rest (s : pystr) : pystr :=
  match s with [] => [] | c :: s' => if ucd_isspace c then s else ws_rest s' end.

Lemma ws_word_rest s : s = ws_word s ++ ws_rest s.
Proof. induction s as [|c s IH]; [done|]. simpl. destruct (ucd_isspace c); simpl; [done|by f_equal]. Qed.

Lemma ws_rest_head s : ws_rest s = [] \/ exists c r, ws_rest s = c :: r /\ ucd_isspace c = true.
Proof.
  induction s as [|c s IH]; [by left|]. simpl. destruct (ucd_isspace c) eqn:Hc; [right; eauto|done].
Qed.

(** Within a word, [split_ws] reads to the next space. *)
Lemma split_ws_aux_word acc s :
  acc <> [] -> split_ws_aux acc s = (rev acc ++ ws_word s) :: split_ws (drop 1 (ws_rest s)).
Proof.
  revert acc. induction s as [|c s IH]; intros acc Hacc; simpl.
  - destruct acc; [done|]. by rewrite app_nil_r.
  - destruct (ucd_isspace c) eqn:Hc.
    + destruct acc; [done|]. by rewrite app_nil_r.
    + rewrite IH by done. simpl. by rewrite <- app_assoc.
Qed.

(** The first word of [split_ws t] starts after [k] spaces of [t], and
    the other words are those after the space that ends it. *)
Lemma split_ws_first t w ws :
  split_ws t = w :: ws ->
  exists k r, drop k t = w ++ r /\ (forall j c, (j < k)%nat -> t !! j = Some c -> ucd_isspace c = true) /\
    (exists c w', w = c :: w' /\ ucd_isspace c = false) /\
    (r = [] \/ exists c r', r = c :: r' /\ ucd_isspace c = true) /\ split_ws (drop 1 r) = ws.
Proof.
  induction t as [|c t IH]; [done|]. unfold split_ws. simpl. destruct (ucd_isspace c) eqn:Hc.
  - intros Hs. destruct (IH Hs) as (k & r & Hd & Hsp & Hw & Hr & Hws). exists (S k), r.
    split; [done|]. split; [|done]. intros [|j] d Hj Hjd; [by injection Hjd as <-|]. apply (Hsp j); [lia|done].
  - rewrite split_ws_aux_word by done. intros Hs. injection Hs as <- <-. exists 0%nat, (ws_rest t).
    split; [simpl; f_equal; apply ws_word_rest|]. split; [lia|].
    split; [eauto|]. split; [apply ws_rest_head|done].
Qed.

(** [find] of a word that starts with a non-space code point skips the
    spaces in front of it. *)
Lemma find_aux_after_spaces k t w r i c w' :
  drop k t = w ++ r -> (forall j d, (j < k)%nat -> t !! j = Some d -> ucd_isspace d = true) ->
  w = c :: w' -> ucd_isspace c = false ->
  find_aux t w i = Some (i + Z.of_nat k).
Proof.
  revert t i. induction k as [|k IH]; intros t i Hd Hsp -> Hc.
  - rewrite drop_0 in Hd. subst t. simpl. rewrite Z.eqb_refl, startswith_app. f_equal. lia.
  - destruct t as [|d t]; [done|]. simpl.
    assert (Hdc : d <> c) by (intros ->; rewrite (Hsp 0%nat c) in Hc; [done|lia|done]).
    rewrite (proj2 (Z.eqb_neq c d)) by congruence. simpl.
    rewrite (IH t (i + 1)); [f_equal; lia|done| |done|done].
    intros j e Hj Hje. apply (Hsp (S j)); [lia|done].
Qed.

(** A row whose offsets delimit its word in the line. *)
Definition word_ok (text : pystr) (r : wf_row) : Prop :=
  0 <= wf_start r /\ wf_end r = wf_start r + Z.of_nat (length (wf_word r)) /\
  take (length (wf_word r)) (drop (Z.to_nat (wf_start r)) text) = wf_word r.

Lemma word_loop language book_id line ws : forall f cp acc,
  (forall i w, (f i w).2 = w) -> 0 <= cp -> split_ws (drop (Z.to_nat cp) (li_text line)) = ws ->
  exists new, (fold_left (word_step language book_id line) (imap f ws) (cp, acc)).2 = acc ++ new /\
    map wf_word new = ws /\ Forall (word_ok (li_text line)) new.
Proof.
  induction ws as [|w ws IH]; intros f cp acc Hf Hcp Hws.
  { exists []. by rewrite app_nil_r. }
  destruct (split_ws_first _ _ _ Hws) as (k & r & Hd & Hsp & (c & w' & Hw & Hc) & _ & Hrest).
  assert (Hlen : (Z.to_nat cp < length (li_text line))%nat).
  { destruct (decide (Z.to_nat cp < length (li_text line))%nat); [done|].
    rewrite drop_ge in Hws by lia. done. }
  assert (Hfind : py_find (li_text line) w cp = cp + Z.of_nat k).
  { unfold py_find. rewrite (proj2 (Z.ltb_ge _ _)) by lia.
    by rewrite (find_aux_after_spaces k _ w r cp c w'). }
  rewrite imap_cons. simpl. specialize (Hf 0%nat w) as Hf0. destruct (f 0%nat w) as [p w0]. simpl in Hf0. subst w0.
  rewrite Hfind.
  destruct (IH (f ∘ S) (cp + Z.of_nat k + Z.of_nat (length w) + 1)
              (acc ++ [WfRow w (if String.eqb language "greek" then normalize_greek w else py_lower w)
                         book_id (li_number line) (Z.of_nat p) (cp + Z.of_nat k) (cp + Z.of_nat k + Z.of_nat (length w))]))
    as (new & Hnew & Hmap & Hok).
  - intros i x. apply Hf.
  - lia.
  - rewrite <- Hrest. f_equal.
    replace (drop (Z.to_nat (cp + Z.of_nat k + Z.of_nat (length w) + 1)) (li_text line))
      with (drop 1 (drop (length w) (drop k (drop (Z.to_nat cp) (li_text line)))))
      by (rewrite !drop_drop; f_equal; lia).
    by rewrite Hd, drop_app_length.
  - exists (WfRow w (if String.eqb language "greek" then normalize_greek w else py_lower w)
              book_id (li_number line) (Z.of_nat p) (cp + Z.of_nat k) (cp + Z.of_nat k + Z.of_nat (length w)) :: new).
    split; [rewrite Hnew; by rewrite <- app_assoc|]. split; [simpl; by rewrite Hmap|].
    constructor; [|done]. unfold word_ok. cbn [wf_start wf_end wf_word]. split; [lia|]. split; [lia|].
    replace (drop (Z.to_nat (cp + Z.of_nat k)) (li_text line)) with (drop k (drop (Z.to_nat cp) (li_text line)))
      by (rewrite drop_drop; f_equal; lia).
    rewrite Hd. apply take_app_length.
Qed.

(** The offsets of every word: the rows of a line are its words
    [text.split()] in order, and each row's [char_start] and [char_end]
    delimit its word in the line: [text[char_start:char_end] == word]. *)
Theorem line_word_forms_offsets language book_id line :
  map wf_word (line_word_forms language book_id line) = split_ws (li_text line) /\
  Forall (word_ok (li_text line)) (line_word_forms language book_id line).
Proof.
  unfold line_word_forms.
  destruct (word_loop language book_id line (split_ws (li_text line)) pair 0 []) as (new & -> & Hmap & Hok);
    [done|lia|by rewrite drop_0|]. done.
Qed.
End Offsets.

(** ** The unique words and the chunk loop *)

(** [SELECT DISTINCT word_normalized FROM word_forms ORDER BY
    word_normalized] *)
Definition distinct_normalized (db : bdb) : list pystr :=
  merge_sort pystr_le (remove_dups (map wf_normalized (bt_words db))).

(** A row of [word_forms] whose book belongs to a Greek author, through
    the joins of lines 94-98. *)
Definition greek_form (c : corpus) (r : wf_row) : bool :=
  existsb (fun b => bool_decide (b_id b = wf_book_id r) &&
     existsb (fun w => bool_decide (wk_id w = b_work_id b) &&
        existsb (fun a => bool_decide (a_id a = wk_author_id w) && String.eqb (a_language a) "greek")
          (authors c))
       (works c))
    (books c).

(** [extract_unique_words_streaming(cursor, language)], lines 88-103. *)
Definition extract_unique_words_streaming (c : corpus) (db : bdb) (language : String.string) : Z :=
  if String.eqb language "greek"
  then Z.of_nat (length (remove_dups (map wf_normalized (List.filter (greek_form c) (bt_words db)))))
  else Z.of_nat (length (remove_dups (map wf_normalized (bt_words db)))).

(** [LIMIT limit OFFSET offset] in SQLite: a negative limit is no limit, a
    negative offset is 0. *)
Definition sql_limit_offset {A} (rows : list A) (limit offset : Z) : list A :=
  let rows := drop (Z.to_nat offset) rows in
  if limit <? 0 then rows else take (Z.to_nat limit) rows.

(** The [while] loop of lines 119-140 on the sorted distinct words, with
    [fuel] iterations at most: [None] when the fuel runs out, otherwise
    the number [processed] it prints at line 142. *)
Fixpoint chunks_loop (fuel : nat) (words : list pystr) (chunk_size offset processed : Z) : option Z :=
  match fuel with
  | O => None
  | S fuel =>
      if offset <? Z.of_nat (length words) then
        let chunk_words := sql_limit_offset words chunk_size offset in
        match chunk_words with
        | [] => Some processed
        | _ => chunks_loop fuel words chunk_size (offset + chunk_size) (processed + Z.of_nat (length chunk_words))
        end
      else Some processed
  end.

(** [generate_lemmatization_in_chunks(cursor, chunk_size)], lines
    105-142: [total_words] is the count of the distinct words. *)
Definition generate_lemmatization_in_chunks (fuel : nat) (db : bdb) (chunk_size : Z) : option Z :=
  chunks_loop fuel (distinct_normalized db) chunk_size 0 0.

Lemma chunks_loop_positive fuel words c offset :
  0 < c -> 0 <= offset -> (Z.to_nat (Z.of_nat (length words) - offset) < fuel)%nat ->
  chunks_loop fuel words c offset (Z.min offset (Z.of_nat (length words))) = Some (Z.of_nat (length words)).
Proof.
  revert offset. induction fuel as [|fuel IH]; intros offset Hc Ho Hf; [lia|]. simpl.
  destruct (Z.ltb_spec offset (Z.of_nat (length words))) as [Hlt|Hge]; [|f_equal; lia].
  unfold sql_limit_offset. rewrite (proj2 (Z.ltb_ge c 0)) by lia.
  destruct (take (Z.to_nat c) (drop (Z.to_nat offset) words)) as [|x xs] eqn:Ht.
  { apply (f_equal length) in Ht. rewrite length_take, length_drop in Ht. simpl in Ht. lia. }
  rewrite <- Ht, length_take, length_drop.
  replace (Z.min offset (Z.of_nat (length words)) + Z.of_nat (Nat.min (Z.to_nat c) (length words - Z.to_nat offset)))
    with (Z.min (offset + c) (Z.of_nat (length words))) by lia.
  apply IH; lia.
Qed.

(** With a positive chunk size the chunk loop ends, given one
    iteration per distinct word and one more, and reports every distinct
    word processed. *)
Theorem chunks_loop_total fuel db chunk_size :
  0 < chunk_size -> (length (distinct_normalized db) < fuel)%nat ->
  generate_lemmatization_in_chunks fuel db chunk_size = Some (Z.of_nat (length (distinct_normalized db))).
Proof.
  intros Hc Hf. unfold generate_lemmatization_in_chunks.
  rewrite <- (chunks_loop_positive fuel _ chunk_size 0) by lia. f_equal. lia.
Qed.

Lemma chunks_loop_negative fuel words c : forall offset processed,
  c < 0 -> words <> [] -> offset <= 0 -> chunks_loop fuel words c offset processed = None.
Proof.
  induction fuel as [|fuel IH]; intros offset processed Hc Hne Ho; [done|]. simpl.
  destruct words as [|w ws]; [done|].
  rewrite (proj2 (Z.ltb_lt offset _)) by (simpl; lia).
  unfold sql_limit_offset. rewrite (proj2 (Z.ltb_lt c 0)) by done.
  replace (Z.to_nat offset) with 0%nat by lia. rewrite drop_0. apply IH; [done|done|lia].
Qed.

(** C39: With a negative chunk size the chunk loop never ends on a
    database with a word: [LIMIT] reads all the words, [OFFSET] stays at
    or below 0, which SQLite reads as 0, so every iteration reads them all
    again; no amount of fuel suffices. *)
Theorem chunks_loop_negative_diverges fuel db chunk_size :
  chunk_size < 0 -> distinct_normalized db <> [] ->
  generate_lemmatization_in_chunks fuel db chunk_size = None.
Proof. intros Hc Hne. apply chunks_loop_negative; [done|done|lia]. Qed.

(** ** Examples *)

(** The first line of the Iliad. *)
Definition iliad_line : line_in := LineIn 1 γ"μῆνιν ἄειδε θεὰ" None None.

(** The offsets of its words, and their normal forms. *)
Example iliad_line_word_forms :
  map (fun r => (wf_normalized r, wf_start r, wf_end r)) (line_word_forms "greek" γ"b" iliad_line) =
  [(γ"μηνιν", 0, 5); (γ"αειδε", 6, 11); (γ"θεα", 12, 15)].
Proof. vm_compute. reflexivity. Qed.

(** Two lines with the same number: the words of the second share the
    keys [(book_id, line_number, word_position)] of the first and are
    dropped by [INSERT OR IGNORE], while both lines are stored. *)
Example repeated_line_number_drops_words :
  let db := process_text_with_batching [LineIn 1 γ"arma virumque" None None; LineIn 1 γ"cano" None None]
              γ"b" "latin" (BDb [] []) in
  length (bt_lines db) = 2%nat /\ map wf_word (bt_words db) = [γ"arma"; γ"virumque"].
Proof. vm_compute. split; reflexivity. Qed.

(** A chunk size of 0 reads an empty first chunk and stops at once: no
    word is processed. *)
Example chunks_loop_zero :
  generate_lemmatization_in_chunks 10
    (process_text_with_batching [LineIn 1 γ"arma virumque cano" None None] γ"b" "latin" (BDb [] [])) 0
  = Some 0.
Proof. vm_compute. reflexivity. Qed.

(** ** Witnesses *)

Definition aeneid_db : bdb :=
  process_text_with_batching [LineIn 1 γ"arma virumque cano" None None] γ"b" "latin" (BDb [] []).

Lemma chunks_loop_total_witness :
  generate_lemmatization_in_chunks 4 aeneid_db 2 = Some (Z.of_nat (length (distinct_normalized aeneid_db))).
Proof. apply chunks_loop_total; [lia|vm_compute; lia]. Defined.

Lemma chunks_loop_negative_diverges_witness :
  generate_lemmatization_in_chunks 50 aeneid_db (-1) = None.
Proof. apply chunks_loop_negative_diverges; [lia|vm_compute; discriminate]. Defined.
