(* ===== verification/FixedAlignment.v ===== *)
(** * create_perseus_database_fixed.py

    A wrapper meant to repair the translation alignment during the
    import: [create_section_to_line_mapping] (lines 11-61) spreads the
    one-line segments numbered by sections over the lines of a book,
    [fix_translation_alignment] (lines 63-122) applies it to a book whose
    translation reaches less than half of its lines, and [main] (lines
    125-169) patches [process_translations] of create_perseus_database.py
    to run the repair over every translated book after the import.

    The corpus, the segment ids, [UPDATE] and the floats are those of
    Alignment.v, and the section ranges those of [fill_sections] of
    Translations.v.  Unlike fix_alignment_post_import.py, the ranges are
    computed from the number of lines of the book, not from its largest
    line number.

    Theorems: every segment the repair changes is a segment of the book
    placed within its first [COUNT(lines)] lines
    ([fix_translation_alignment_changes]); on a book numbered from 1
    without gaps whose segments are all one-line sections, it does what
    the post-import script does ([fix_translation_alignment_refines]); on
    a book numbered from 11 the segments are moved before its first line
    ([fixed_alignment_count_not_numbers]). *)

From Corelib Require Import Floats.SpecFloat.
From stdpp Require Import sorting.
From S2P Require Import Prelude Unicode Tei PyFloat Translations Lookup Alignment.
Import ListNotations.
Open Scope Z_scope.

(** [create_section_to_line_mapping(cursor, book_id)]: the map, empty for
    a book without lines or without one-line segments. *)
Definition create_section_to_line_mapping (db : corpus) (book_id : pystr) : fix_error + gmap Z (Z * Z) :=
  match book_line_numbers db book_id with
  | [] => inr ∅
  | lines =>
      let total_lines := Z.of_nat (length lines) in
      match sql_max (map (fun ir => sg_start ir.2)
                       (List.filter (fun ir => sg_start ir.2 =? sg_end ir.2) (book_segment_rows db book_id))) with
      | None => inr ∅
      | Some max_section =>
          if max_section =? 0 then inr ∅ else
          match fill_sections total_lines max_section with
          | inl e => inl (FixFloatError e)
          | inr m => inr m
          end
      end
  end.

(** [coverage < 50], with [coverage] the integer 0 when [max_line <= 0]. *)
Definition coverage_low (max_line max_trans : Z) : bool :=
  if 0 <? max_line then py_float_lt_int (py_fmul (py_int_truediv max_trans max_line) (py_float 100)) 50
  else true.

(** [fix_translation_alignment(cursor, book_id)]: the database after its
    [UPDATE]s and the number it returns. *)
Definition fix_translation_alignment (db : corpus) (book_id : pystr) : fix_error + (corpus * Z) :=
  let segs := book_segment_rows db book_id in
  match sql_max (book_line_numbers db book_id), sql_max (map (fun ir => sg_end ir.2) segs) with
  | Some max_line, Some max_trans =>
      let trans_count := Z.of_nat (length segs) in
      if (max_line =? 0) || (max_trans =? 0) || (trans_count =? 0) then inr (db, 0) else
      if coverage_low max_line max_trans && (max_trans =? trans_count) && (max_trans * 2 <? max_line) then
        section_map ←? create_section_to_line_mapping db book_id;
        if bool_decide (section_map = ∅) then inr (db, 0) else
        let updates := omap (fun seg => match section_map !! seg.1.2 with
                                        | Some (a, b) => Some (a, b, seg.1.1)
                                        | None => None
                                        end) (one_line_segments db book_id) in
        inr (fold_left update_segment updates db, Z.of_nat (length updates))
      else inr (db, 0)
  | _, _ => inr (db, 0)
  end.

(** [SELECT DISTINCT book_id FROM translation_segments], in the order of
    the rows. *)
Definition translated_books (db : corpus) : list pystr := sql_distinct (map sg_book_id (segments db)).

(** The repair loop of [process_translations_with_fixes], lines 146-158:
    the database and [total_fixed]. *)
Definition fix_all_books (db : corpus) : fix_error + (corpus * Z) :=
  fold_err (fun st book_id =>
              r ←? fix_translation_alignment st.1 book_id;
              inr (r.1, if 0 <? r.2 then st.2 + r.2 else st.2))
    (translated_books db) (db, 0).

(** [main()], lines 125-169: the module loaded from
    create_perseus_database.py defines no [main] (its entry point is its
    [__main__] block, line 3122), so [original_module.main()] raises
    [AttributeError] once [process_translations] is patched, before any
    database is built.  (Were it reached, the patched function, which
    takes [cursor] alone, would be called by [process_perseus_author] at
    line 1809 with [(work_dir, work_id, cursor)] and raise [TypeError].) *)
Inductive fixed_error := FixedAttributeError.

Definition fixed_main : fixed_error + unit := inl FixedAttributeError.

(** ** Theorems *)

Lemma fold_max_ge (l : list Z) : forall acc,
  acc <= fold_left Z.max l acc /\ forall x, x ∈ l -> x <= fold_left Z.max l acc.
Proof.
  induction l as [|z l IH]; intros acc; simpl; [split; [lia|by intros x ?%elem_of_nil]|].
  destruct (IH (Z.max acc z)) as [H1 H2]. split; [lia|].
  intros x [->|Hx]%elem_of_cons; [lia|auto].
Qed.

Lemma filter_all_true {A} (f : A -> bool) (l : list A) :
  (forall x, x ∈ l -> f x = true) -> List.filter f l = l.
Proof.
  induction l as [|x l IH]; intros Hf; [done|]. simpl. rewrite Hf by set_solver.
  f_equal. apply IH. intros y Hy. apply Hf. set_solver.
Qed.

Lemma fold_left_map_comp {A B C} (f : A -> C -> A) (g : B -> C) l a :
  fold_left f (map g l) a = fold_left (fun x y => f x (g y)) l a.
Proof. revert a. induction l as [|y l IH]; intros a; [done|]. apply IH. Qed.

Lemma sql_max_ge l m x : sql_max l = Some m -> x ∈ l -> x <= m.
Proof.
  destruct l as [|y l]; [done|]. intros [= <-]. destruct (fold_max_ge l y) as [H1 H2].
  intros [->|Hx]%elem_of_cons; [done|auto].
Qed.

(** The entries of the map lie in the first [COUNT(lines)] lines. *)
Lemma section_to_line_bounds db book_id m s a b :
  create_section_to_line_mapping db book_id = inr m -> m !! s = Some (a, b) ->
  1 <= a /\ b <= Z.of_nat (length (book_line_numbers db book_id)).
Proof.
  unfold create_section_to_line_mapping. destruct (book_line_numbers db book_id) as [|l0 ls]; [by intros [= <-]|].
  destruct (sql_max _) as [ms|]; [|by intros [= <-]]. destruct (ms =? 0); [by intros [= <-]|].
  destruct (fill_sections _ ms) as [|m'] eqn:Hf; [discriminate|]. intros [= <-] Hs.
  destruct (decide (1 <= s <= ms)) as [Hr|Hr]; [|by rewrite (proj2 (fill_sections_lookup _ _ _ s Hf) Hr) in Hs].
  destruct (proj1 (fill_sections_lookup _ _ _ s Hf) Hr) as ([a' b'] & He & Hs'). rewrite Hs in Hs'.
  injection Hs' as <- <-. eapply section_entry_bounds; [..|exact He]; lia.
Qed.

(** The rows behind the one-line segments of a book. *)
Lemma one_line_segments_rows db book_id seg :
  seg ∈ one_line_segments db book_id ->
  exists ir, ir ∈ book_segment_rows db book_id /\ seg = (ir.1, sg_start ir.2, sg_end ir.2).
Proof.
  unfold one_line_segments, book_segments. intros Hs. apply list_elem_of_In, filter_In in Hs as [Hs _].
  apply list_elem_of_In in Hs. rewrite merge_sort_Permutation in Hs.
  apply list_elem_of_omap in Hs as ([i sg] & Hin & Hf). simpl in Hf. case_bool_decide; [|discriminate].
  injection Hf as <-. exists (i, sg). split; [|done].
  unfold book_segment_rows. apply list_elem_of_In, filter_In. split; [by apply list_elem_of_In|]. simpl.
  by case_bool_decide.
Qed.

(** C23: [fix_translation_alignment] changes nothing but line ranges of
    translation segments, and only of segments of the book it repairs,
    which it places within the first [COUNT(lines)] lines. *)
Theorem fix_translation_alignment_changes db book_id db' n :
  fix_translation_alignment db book_id = inr (db', n) ->
  segments_changed (fun _ sg => sg_book_id sg = book_id /\ 1 <= sg_start sg /\
                      sg_end sg <= Z.of_nat (length (book_line_numbers db book_id))) db db'.
Proof.
  unfold fix_translation_alignment.
  destruct (sql_max (book_line_numbers db book_id)); [|intros [= <- _]; apply segments_changed_refl].
  destruct (sql_max (map (fun ir => sg_end ir.2) (book_segment_rows db book_id)));
    [|intros [= <- _]; apply segments_changed_refl].
  destruct (_ || _ || _); [intros [= <- _]; apply segments_changed_refl|].
  destruct (_ && _ && _); [|intros [= <- _]; apply segments_changed_refl].
  destruct (create_section_to_line_mapping db book_id) as [|m] eqn:Hm; [discriminate|]. cbn [sbind].
  case_bool_decide; [intros [= <- _]; apply segments_changed_refl|]. intros [= <- _].
  apply fold_update_changed. intros [[a b] sid] Hu i sg Hi Hid. cbn [fst snd] in *.
  apply list_elem_of_omap in Hu as ([[sid' st] en] & Hseg & Hu). cbn [fst snd] in Hu.
  destruct (m !! st) as [[a' b']|] eqn:Hst; [|discriminate]. injection Hu as <- <- <-.
  destruct (one_line_segments_rows _ _ _ Hseg) as ([j sg0] & Hir & [= -> -> ->]).
  unfold book_segment_rows in Hir. apply list_elem_of_In, filter_In in Hir as [Hir Hb].
  simpl in Hb. case_bool_decide as Hb0; [|discriminate]. apply list_elem_of_In, segment_ids_elem in Hir as (k & -> & Hk).
  assert (k = i) as -> by lia. rewrite Hi in Hk. injection Hk as ->.
  cbn [sg_book_id sg_start sg_end]. split; [done|]. eapply section_to_line_bounds; [exact Hm|exact Hst].
Qed.

Lemma segment_end_le_max db book_id ir mt :
  sql_max (map (fun ir => sg_end ir.2) (book_segment_rows db book_id)) = Some mt ->
  ir ∈ book_segment_rows db book_id -> sg_end ir.2 <= mt.
Proof.
  intros Hmt Hir. apply (sql_max_ge _ _ _ Hmt). apply list_elem_of_In, in_map_iff.
  exists ir. split; [done|by apply list_elem_of_In].
Qed.

Lemma create_section_unfold db book_id ms :
  sql_max (map (fun ir => sg_start ir.2)
             (List.filter (fun ir => sg_start ir.2 =? sg_end ir.2) (book_segment_rows db book_id))) = Some ms ->
  ms <> 0 -> book_line_numbers db book_id <> [] ->
  create_section_to_line_mapping db book_id =
  match fill_sections (Z.of_nat (length (book_line_numbers db book_id))) ms with
  | inl e => inl (FixFloatError e) | inr m => inr m end.
Proof.
  intros Hms Hms0 Hl. unfold create_section_to_line_mapping.
  destruct (book_line_numbers db book_id); [done|]. by rewrite Hms, (proj2 (Z.eqb_neq ms 0) Hms0).
Qed.

(** C22: On a book whose lines are numbered from 1 without gaps (its
    [MAX(line_number)] is its number of lines) and whose segments are
    all one-line sections numbered from 1, the repair of
    create_perseus_database_fixed.py refines fix_alignment_post_import.py:
    whenever [fix_translation_alignment] succeeds, [post_import_step] on
    the same book leaves the same database. *)
Theorem fix_translation_alignment_refines db book_id db' n :
  (forall ir, ir ∈ book_segment_rows db book_id -> sg_start ir.2 = sg_end ir.2 /\ 1 <= sg_start ir.2) ->
  sql_max (book_line_numbers db book_id) = Some (Z.of_nat (length (book_line_numbers db book_id))) ->
  fix_translation_alignment db book_id = inr (db', n) ->
  post_import_step db (book_id, sql_max (book_line_numbers db book_id),
                       sql_max (map (fun ir => sg_end ir.2) (book_segment_rows db book_id)),
                       Z.of_nat (length (book_segment_rows db book_id))) = inr db'.
Proof.
  intros Hone Hml. unfold fix_translation_alignment, post_import_step. rewrite Hml.
  set (L := Z.of_nat (length (book_line_numbers db book_id))) in *.
  destruct (sql_max (map (fun ir => sg_end ir.2) (book_segment_rows db book_id))) as [mt|] eqn:Hmt;
    [|by intros [= <- _]].
  assert (Hcnt : (Z.of_nat (length (book_segment_rows db book_id)) =? 0) = false).
  { destruct (book_segment_rows db book_id); [done|]. apply Z.eqb_neq. simpl. lia. }
  rewrite Hcnt, orb_false_r.
  destruct ((L =? 0) || (mt =? 0)) eqn:Hz; [by intros [= <- _]|]. apply orb_false_iff in Hz as [HL Hmt0].
  apply Z.eqb_neq in HL, Hmt0.
  unfold coverage_low. rewrite (proj2 (Z.ltb_lt 0 L)) by lia.
  destruct (_ && _ && _); [|by intros [= <- _]].
  (* the section map of the fixed script is the one of the post-import script *)
  assert (Hms : sql_max (map (fun ir => sg_start ir.2)
                  (List.filter (fun ir => sg_start ir.2 =? sg_end ir.2) (book_segment_rows db book_id))) = Some mt).
  { rewrite <- Hmt. f_equal. rewrite filter_all_true.
    - apply map_ext_in. intros ir Hir. apply Hone. by apply list_elem_of_In.
    - intros ir Hir. apply Z.eqb_eq, Hone, Hir. }
  rewrite (create_section_unfold db book_id mt) by (done || (intros Hn; subst L; rewrite Hn in HL; done)).
  fold L. destruct (fill_sections L mt) as [|m] eqn:Hf; [discriminate|]. cbn [sbind].
  case_bool_decide as Hm0.
  { (* a book with a section has a non-empty map *)
    exfalso. assert (exists ir, ir ∈ book_segment_rows db book_id) as [ir Hir]
      by (destruct (book_segment_rows db book_id) as [|x]; [done|exists x; set_solver]).
    assert (1 <= mt). { pose proof (Hone ir Hir) as [Hse H1].
      pose proof (segment_end_le_max db book_id ir mt Hmt Hir). lia. }
    destruct (proj1 (fill_sections_lookup _ _ _ 1 Hf) ltac:(lia)) as (v & _ & Hv).
    by rewrite Hm0, lookup_empty in Hv. }
  intros [= <- _].
  set (u := fun seg : Z * Z * Z => match section_entry L (py_int_truediv L mt) seg.1.2 with
                                   | inr (a, b) => ((a, b), seg.1.1) | inl _ => ((0, 0), seg.1.1) end).
  assert (Hseg : forall seg, seg ∈ one_line_segments db book_id ->
            section_entry L (py_int_truediv L mt) seg.1.2 = inr ((u seg).1.1, (u seg).1.2) /\
            m !! seg.1.2 = Some ((u seg).1.1, (u seg).1.2)).
  { intros seg Hs. destruct (one_line_segments_rows _ _ _ Hs) as (ir & Hir & ->). cbn [fst snd].
    destruct (Hone ir Hir) as [Hse H1].
    pose proof (segment_end_le_max db book_id ir mt Hmt Hir).
    destruct (proj1 (fill_sections_lookup _ _ _ (sg_start ir.2) Hf) ltac:(lia)) as ([a b] & He & Hv).
    unfold u. cbn [fst snd]. rewrite He. done. }
  rewrite (omap_all_Some _ u); [|intros seg Hs; destruct (Hseg seg Hs) as [_ ->]; unfold u; by destruct (section_entry _ _ _) as [|[]]].
  rewrite (fold_err_fold_left _ (fun db seg => update_segment db (u seg))).
  - by rewrite fold_left_map_comp.
  - intros x seg Hs. unfold post_import_update. destruct (Hseg seg Hs) as [-> _]. cbn [sbind].
    unfold u. by destruct (section_entry _ _ _) as [|[]].
Qed.

(** ** Examples *)

(** A book whose ten lines are numbered 11 to 20, translated in three
    sections stored as lines 1 to 3. *)
Definition late_db : corpus :=
  Corpus [] [] [BookRow γ"b" γ"w" 2 γ"Book 2" 11 20 10]
    (map (fun i => LineRow γ"b" (11 + Z.of_nat i) γ"x" (XmlText []) None) (seq 0 10)) []
    (sections_of γ"b" 3).

Definition late_fixed : corpus :=
  match fix_translation_alignment late_db γ"b" with inr (d, _) => d | inl _ => late_db end.

(** The repair counts lines instead of reading their numbers: the three
    sections are spread over lines 1 to 10, which are not lines of the
    book, and none of its lines 11 to 20 has a translation. *)
Example fixed_alignment_count_not_numbers :
  fix_translation_alignment late_db γ"b" = inr (late_fixed, 3) /\
  map (fun sg => (sg_start sg, sg_end sg)) (segments late_fixed) = [(1, 3); (4, 6); (7, 10)].
Proof. split; vm_compute; reflexivity. Qed.

(** The same book numbered from 1. *)
Definition early_db : corpus :=
  Corpus [] [] [BookRow γ"b" γ"w" 1 γ"Book 1" 1 10 10] (lines_of γ"b" 10) [] (sections_of γ"b" 3).

Definition early_fixed : corpus :=
  match fix_translation_alignment early_db γ"b" with inr (d, _) => d | inl _ => early_db end.

(** ** Witnesses *)

Lemma fix_translation_alignment_changes_witness :
  segments_changed (fun _ sg => sg_book_id sg = γ"b" /\ 1 <= sg_start sg /\
                      sg_end sg <= Z.of_nat (length (book_line_numbers late_db γ"b"))) late_db late_fixed.
Proof. apply (fix_translation_alignment_changes late_db γ"b" late_fixed 3). vm_compute. reflexivity. Defined.

Lemma fix_translation_alignment_refines_witness :
  post_import_step early_db (γ"b", sql_max (book_line_numbers early_db γ"b"),
                             sql_max (map (fun ir => sg_end ir.2) (book_segment_rows early_db γ"b")),
                             Z.of_nat (length (book_segment_rows early_db γ"b"))) = inr early_fixed.
Proof.
  apply (fix_translation_alignment_refines early_db γ"b" early_fixed 3).
  - intros ir Hir.
    assert (Hb : forallb (fun ir => (sg_start ir.2 =? sg_end ir.2) && (1 <=? sg_start ir.2))
                   (book_segment_rows early_db γ"b") = true) by (vm_compute; reflexivity).
    rewrite forallb_forall in Hb. apply list_elem_of_In in Hir.
    specialize (Hb ir Hir). apply andb_true_iff in Hb as [H1 H2]. apply Z.eqb_eq in H1. apply Z.leb_le in H2.
    done.
  - vm_compute. reflexivity.
  - vm_compute. reflexivity.
Defined.
