(* ===== verification/Extract.v ===== *)
(** * wiktionary-processing/extract_inflection_of_template.py

    The extractor that writes [greek_inflection_of_mappings.json], the
    first file the loader of create_perseus_database.py reads (Pipeline.v).
    [extract_inflection_of_mappings] (lines 31-186) walks the [end] events
    of the pages of a Wiktionary dump, keeps the main-namespace pages with
    a Greek heading, finds the [{{inflection of|el|LEMMA|TAGS}}] templates
    with four regular expressions (lines 49-57) and maps the normalized
    title to the normalized lemma; the mappings are deduplicated on
    [(word_form, lemma)] and written with confidence [1.0].

    The dump is the list of [iterparse] events, each with its element
    (Xml.v); the regular expressions are matched by [match_at], which is
    proved to give exactly the decompositions the expression describes
    ([match_at_spec]); [re.sub] of the wiki links is [unlink].

    Theorems: the pattern clause of [has_greek] is dead, since
    [pattern.split('|')[1]] is ["el\"] and never ["el"]
    ([has_greek_headings_only]); the written mappings have distinct keys,
    a non-empty word form and a lemma different from it
    ([extract_output_ok]); loaded by the Wiktionary loader they never
    raise and every row they add has confidence 1 and a word form other
    than its lemma ([extract_then_load]); [max_pages] is not a bound
    ([max_pages_overrun]). *)

From S2P Require Import Prelude Unicode Normalize LemmaMap Pipeline Xml.
Import ListNotations.
Open Scope Z_scope.

Section Extractor.
Context `{UnicodeDB}.

(** [normalize_greek], lines 14-29: the body of create_perseus_database.py
    behind [if not text: return ""]. *)
Definition normalize_greek_inflection (text : pystr) : pystr :=
  match text with
  | [] => []
  | _ => normalize_greek text
  end.

(** ** The regular expressions of lines 49-57 *)

Definition inflection_patterns : list pystr :=
  [ γ"\{\{inflection of\|el\|([^|]+)\|([^}]*)\}\}";
    γ"\{\{inflection of\|grc\|([^|]+)\|([^}]*)\}\}";
    γ"\{\{inflection of\|lang=el\|([^|]+)\|([^}]*)\}\}";
    γ"\{\{inflection of\|lang=grc\|([^|]+)\|([^}]*)\}\}" ].

(** Each pattern is an escaped literal followed by the same two groups
    and [}}]: the literal is the source up to the first [(] with its
    backslashes removed. *)
Fixpoint unescape (s : pystr) : pystr :=
  match s with
  | 92 :: c :: s' => c :: unescape s'
  | c :: s' => c :: unescape s'
  | [] => []
  end.

Fixpoint before_group (s : pystr) : pystr :=
  match s with
  | c :: s' => if c =? 40 then [] else c :: before_group s'
  | [] => []
  end.

Definition template_prefix (pattern : pystr) : pystr := unescape (before_group pattern).

(** A match: [group(0)], [group(1)], [group(2)]. *)
Record template_match := TemplateMatch {
  m_group0 : pystr;
  m_group1 : pystr;
  m_group2 : pystr
}.

(** The longest prefix without the character [c], and the rest. *)
Fixpoint span_not (c : Z) (s : pystr) : pystr * pystr :=
  match s with
  | x :: s' => if x =? c then ([], s) else let '(a, b) := span_not c s' in (x :: a, b)
  | [] => ([], [])
  end.

(** The expression at the start of [s]: the literal, [[^|]+] (greedy; a
    shorter group is followed by a character other than [|]), [|],
    [[^}]] repeated (greedy for the same reason) and [}}]. *)
Definition match_at (prefix s : pystr) : option (template_match * pystr) :=
  if startswith s prefix then
    let '(g1, r1) := span_not 124 (drop (length prefix) s) in
    match g1, r1 with
    | _ :: _, 124 :: r2 =>
        let '(g2, r3) := span_not 125 r2 in
        if startswith r3 [125; 125] then
          Some (TemplateMatch (prefix ++ g1 ++ [124] ++ g2 ++ [125; 125]) g1 g2, drop 2 r3)
        else None
    | _, _ => None
    end
  else None.

(** [re.finditer(pattern, text)]: matches tried at each position from the
    left, the scan resuming after a match. *)
Fixpoint finditer_from (prefix : pystr) (skip : nat) (s : pystr) : list template_match :=
  match skip with
  | S k => match s with [] => [] | _ :: s' => finditer_from prefix k s' end
  | O =>
      match match_at prefix s with
      | Some (m, _) =>
          m :: match s with
               | [] => []
               | _ :: s' => finditer_from prefix (pred (length (m_group0 m))) s'
               end
      | None => match s with [] => [] | _ :: s' => finditer_from prefix 0 s' end
      end
  end.

Definition finditer (pattern text : pystr) : list template_match :=
  finditer_from (template_prefix pattern) 0 text.

(** [re.search(pattern, text)] as a truth value. *)
Definition re_search (pattern text : pystr) : bool :=
  match finditer pattern text with [] => false | _ => true end.

(** [re.sub(r'\[\[([^\]]+)\]\]', r'\1', s)]: a wiki link at the start of
    [s], its target and its length. *)
Definition wiki_link_at (s : pystr) : option (pystr * nat) :=
  match s with
  | 91 :: 91 :: r =>
      let '(g, r') := span_not 93 r in
      match g, r' with
      | _ :: _, 93 :: 93 :: _ => Some (g, (length g + 4)%nat)
      | _, _ => None
      end
  | _ => None
  end.

Fixpoint unlink_from (skip : nat) (s : pystr) : pystr :=
  match s with
  | [] => []
  | c :: s' =>
      match skip with
      | S k => unlink_from k s'
      | O =>
          match wiki_link_at s with
          | Some (g, n) => g ++ unlink_from (pred n) s'
          | None => c :: unlink_from 0 s'
          end
      end
  end.

Definition unlink (s : pystr) : pystr := unlink_from 0 s.

(** [re.sub(r'[{}]', '', s)] *)
Definition remove_braces (s : pystr) : pystr :=
  List.filter (fun c => negb ((c =? 123) || (c =? 125))) s.

(** ** The page loop of lines 59-134 *)

Inductive extract_error :=
  | StopIteration   (** [next(context)] of an empty dump, line 42 *)
  | TypeError       (** [':' in None] for a [<title/>] without text, line 72 *)
  | IndexError.     (** [pattern.split('|')[1]], line 80 *)

Inductive xml_event := EvStart | EvEnd.

(** A mapping of lines 110-117; [confidence] and [source] are constants. *)
Record extracted := Extracted {
  em_word_form : pystr;
  em_lemma : pystr;
  em_tags : pystr;
  em_debug_pattern : pystr
}.

Record ex_state := ExState {
  ex_pages_processed : Z;
  ex_pages_with_inflections : Z;
  ex_all_mappings : list extracted
}.

(** [elem.find('.//{http://www.mediawiki.org/xml/export-0.11/}t')] *)
Definition find_mw (t : String.string) (e : element) : option element :=
  find_first (step_desc ("{http://www.mediawiki.org/xml/export-0.11/}" ++ t) [e]).

(** [pattern.split('|')[1]] *)
Definition pattern_lang (pattern : pystr) : extract_error + pystr :=
  match nth_error (split_on 124 pattern) 1 with Some l => inr l | None => inl IndexError end.

(** [any(pattern.split('|')[1] in ['el', 'grc'] for pattern in
    inflection_patterns if re.search(pattern, text))] *)
Fixpoint any_pattern_lang (ps : list pystr) (text : pystr) : extract_error + bool :=
  match ps with
  | [] => inr false
  | p :: ps' =>
      if re_search p text then
        l ←? pattern_lang p;
        if bool_decide (l ∈ [γ"el"; γ"grc"]) then inr true else any_pattern_lang ps' text
      else any_pattern_lang ps' text
  end.

(** [has_greek], lines 78-81. *)
Definition has_greek (text : pystr) : extract_error + bool :=
  if contains text γ"==Greek==" || contains text γ"==Ancient Greek==" then inr true
  else any_pattern_lang inflection_patterns text.

(** One match, lines 97-118. *)
Definition match_mapping (title title_normalized : pystr) (m : template_match)
    : option extracted :=
  let lemma := py_strip (m_group1 m) in
  let tags := py_strip (m_group2 m) in
  let lemma := py_strip (remove_braces (unlink lemma)) in
  if nonempty lemma && nonempty title_normalized && negb (bool_decide (lemma = title)) then
    let lemma_normalized := normalize_greek_inflection lemma in
    if bool_decide (lemma_normalized = title_normalized) then None
    else Some (Extracted title_normalized lemma_normalized tags (take 100 (m_group0 m)))
  else None.

(** The matches of lines 91-93: pattern by pattern, each from the left. *)
Definition page_matches (text : pystr) : list template_match :=
  concat (map (fun p => finditer p text) inflection_patterns).

(** Lines 93-118: [pages_with_inflections] counts every match. *)
Definition scan_match (title title_normalized : pystr) (st : ex_state) (m : template_match)
    : ex_state :=
  ExState (ex_pages_processed st) (ex_pages_with_inflections st + 1)
    (match match_mapping title title_normalized m with
     | Some x => ex_all_mappings st ++ [x]
     | None => ex_all_mappings st
     end).

(** One [end] event of a page, lines 61-122; [true] when the page ends in
    [continue], which skips the test of [max_pages]. *)
Definition process_page (e : element) (st : ex_state) : extract_error + (ex_state * bool) :=
  let st := ExState (ex_pages_processed st + 1) (ex_pages_with_inflections st) (ex_all_mappings st) in
  match find_mw "title" e, find_mw "text" e with
  | Some title_elem, Some text_elem =>
      match Xml.text title_elem with
      | None => inl TypeError
      | Some title =>
          let text := opt_str (Xml.text text_elem) in
          if contains title [58] then inr (st, true)
          else
            g ←? has_greek text;
            if negb g then inr (st, true)
            else
              let title_normalized := normalize_greek_inflection title in
              inr (fold_left (scan_match title title_normalized) (page_matches text) st, false)
      end
  | _, _ => inr (st, false)
  end.

Definition is_page_end (ev : xml_event) (e : element) : bool :=
  match ev with EvEnd => endswith (utf8 (tag e)) γ"page" | EvStart => false end.

(** The loop of lines 59-134. *)
Fixpoint extract_loop (max_pages : Z) (evs : list (xml_event * element)) (st : ex_state)
    : extract_error + ex_state :=
  match evs with
  | [] => inr st
  | (ev, e) :: evs' =>
      if is_page_end ev e then
        r ←? process_page e st;
        let '(st', continued) := r in
        if continued then extract_loop max_pages evs' st'
        else if max_pages <=? ex_pages_processed st' then inr st'
        else extract_loop max_pages evs' st'
      else extract_loop max_pages evs' st
  end.

(** ** Deduplication and the output file, lines 141-186 *)

Definition mapping_key (m : extracted) : pystr * pystr := (em_word_form m, em_lemma m).

(** [unique_mappings]: the first mapping of each key, in the order of the
    keys' first occurrences. *)
Definition dedup_from (seen : gset (pystr * pystr)) (ms : list extracted) : list extracted :=
  first_by_key mapping_key seen ms.

(** The written JSON: the counters of the metadata and the mappings (the
    other metadata fields are constants). *)
Record inflection_file := InflectionFile {
  if_source_file : pystr;
  if_total_pages_processed : Z;
  if_pages_with_inflection_templates : Z;
  if_mappings : list extracted
}.

(** [extract_inflection_of_mappings], lines 31-186: the return value and
    the file written. *)
Definition extract_inflection_of_mappings (dump_path : pystr) (dump : list (xml_event * element))
    (max_pages : Z) : extract_error + (bool * option inflection_file) :=
  match dump with
  | [] => inl StopIteration
  | _ :: evs =>
      st ←? extract_loop max_pages evs (ExState 0 0 []);
      match ex_all_mappings st with
      | [] => inr (false, None)
      | ms =>
          inr (true, Some (InflectionFile dump_path (ex_pages_processed st)
                             (ex_pages_with_inflections st) (dedup_from ∅ ms)))
      end
  end.

(** Lines 188-199: [None] when the dump does not exist. *)
Definition extract_main (dump : option (list (xml_event * element)))
    : extract_error + option (bool * option inflection_file) :=
  match dump with
  | None => inr None
  | Some evs =>
      r ←? extract_inflection_of_mappings γ"../../data-sources/enwiktionary-latest-pages-articles.xml.bz2" evs 1000000;
      inr (Some r)
  end.

(** What the loader of Pipeline.v reads from the file: the keys it uses
    are [word_form], [lemma], [confidence] and [source]; a file that was
    not written is missing. *)
Definition json_of_extracted (m : extracted) : json_mapping :=
  JsonMapping (JVal (em_word_form m)) (JVal (em_lemma m)) (JVal 1%Q)
    (JVal "wiktionary:inflection_of"%string) JAbsent JAbsent.

Definition written_file (out : option inflection_file) : mapping_file :=
  match out with
  | None => FileMissing
  | Some f => FileLoaded (map json_of_extracted (if_mappings f))
  end.

End Extractor.

(** ** The regular expressions *)

Lemma span_not_spec c s a b :
  span_not c s = (a, b) -> s = a ++ b /\ (c ∉ a) /\ (b = [] \/ exists b', b = c :: b').
Proof.
  revert a b; induction s as [|x s IH]; intros a b; simpl.
  - intros [= <- <-]. split; [done|]. split; [set_solver|by left].
  - destruct (Z.eqb_spec x c) as [->|Hne].
    + intros [= <- <-]. split; [done|]. split; [set_solver|right; eauto].
    + destruct (span_not c s) as [a' b'] eqn:E. intros [= <- <-].
      destruct (IH _ _ eq_refl) as (-> & Ha & Hb). split; [done|]. split; [|done].
      rewrite not_elem_of_cons. auto.
Qed.

Lemma span_not_app c a r : c ∉ a -> span_not c (a ++ c :: r) = (a, c :: r).
Proof.
  induction a as [|x a IH]; simpl; intros Ha; [by rewrite Z.eqb_refl|].
  apply not_elem_of_cons in Ha as [Hne Ha].
  destruct (Z.eqb_spec x c); [congruence|]. by rewrite IH.
Qed.

(** [match_at] is the regular expression: it succeeds exactly on the
    strings made of the literal, a non-empty group without [|], [|], a
    group without [}] and [}}], and then gives these two groups; the
    decomposition is unique, so the backtracking of [re] finds no
    other. *)
Theorem match_at_spec prefix s m rest :
  match_at prefix s = Some (m, rest) <->
  exists g1 g2, s = prefix ++ g1 ++ [124] ++ g2 ++ [125; 125] ++ rest /\
    g1 <> [] /\ (124 ∉ g1) /\ (125 ∉ g2) /\
    m = TemplateMatch (prefix ++ g1 ++ [124] ++ g2 ++ [125; 125]) g1 g2.
Proof.
  unfold match_at. split.
  - destruct (startswith s prefix) eqn:Hs; [|discriminate].
    apply startswith_spec in Hs as [r ->]. rewrite drop_app_length.
    destruct (span_not 124 r) as [g1 r1] eqn:E1.
    apply span_not_spec in E1 as (-> & H1 & [->|[r2 ->]]); [by destruct g1|].
    destruct g1 as [|x g1]; [done|]. cbn iota.
    destruct (span_not 125 r2) as [g2 r3] eqn:E2.
    apply span_not_spec in E2 as (-> & H2 & _).
    destruct (startswith r3 [125; 125]) eqn:E3; [|done].
    apply startswith_spec in E3 as [r' ->]. intros [= <- <-].
    exists (x :: g1), g2. cbn [drop]. rewrite drop_0. by repeat split.
  - intros (g1 & g2 & -> & Hne & H1 & H2 & ->).
    rewrite startswith_app, drop_app_length. cbn [app].
    rewrite span_not_app by done.
    destruct g1 as [|x g1]; [done|]. cbn iota.
    rewrite span_not_app by done. simpl. by rewrite startswith_nil.
Qed.

Lemma finditer_from_sound prefix skip s m :
  m ∈ finditer_from prefix skip s ->
  exists pre suf rest, s = pre ++ suf /\ match_at prefix suf = Some (m, rest).
Proof.
  revert skip; induction s as [|c s IH]; intros [|k]; cbn [finditer_from].
  - destruct (match_at prefix []) as [[m0 r]|] eqn:E; intros Hm; [|inversion Hm].
    apply list_elem_of_singleton in Hm as ->. by exists [], [], r.
  - intros Hm; inversion Hm.
  - assert (forall skip', m ∈ finditer_from prefix skip' s ->
              exists pre suf rest, c :: s = pre ++ suf /\ match_at prefix suf = Some (m, rest))
      as Hs by (intros skip' (pre & suf & rest & -> & Hm)%IH; by exists (c :: pre), suf, rest).
    destruct (match_at prefix (c :: s)) as [[m0 r]|] eqn:E; intros Hm; [|by apply (Hs 0%nat)].
    apply elem_of_cons in Hm as [->|Hm]; [by exists [], (c :: s), r|by eapply Hs].
  - intros (pre & suf & rest & -> & Hm)%IH. by exists (c :: pre), suf, rest.
Qed.

(** Every match [re.finditer] yields is a piece of the text made of
    the pattern's literal, a non-empty lemma group without [|], [|], a
    tags group without [}] and [}}]. *)
Theorem finditer_sound pattern text m :
  m ∈ finditer pattern text ->
  (exists pre rest, text = pre ++ m_group0 m ++ rest) /\
  m_group0 m = template_prefix pattern ++ m_group1 m ++ [124] ++ m_group2 m ++ [125; 125] /\
  m_group1 m <> [] /\ (124 ∉ m_group1 m) /\ (125 ∉ m_group2 m).
Proof.
  intros (pre & suf & rest & -> & Hm)%finditer_from_sound.
  apply match_at_spec in Hm as (g1 & g2 & -> & Hne & H1 & H2 & ->). cbn [m_group0 m_group1 m_group2].
  split; [exists pre, rest; by rewrite <- !app_assoc|done].
Qed.

(** ** Which pages are read *)

Lemma any_pattern_lang_dead ps text :
  forallb (fun p => match pattern_lang p with
                    | inr l => negb (bool_decide (l ∈ [γ"el"; γ"grc"]))
                    | inl _ => false
                    end) ps = true ->
  any_pattern_lang ps text = inr false.
Proof.
  induction ps as [|p ps IH]; simpl; [done|].
  intros [Hp Hps]%andb_true_iff. destruct (pattern_lang p) as [|l]; [done|].
  destruct (re_search p text); simpl; [|by apply IH].
  apply negb_true_iff in Hp. rewrite Hp. by apply IH.
Qed.

(** C27: The pattern clause of [has_greek] (lines 80-81) never holds and
    never raises: [pattern.split('|')[1]] of the raw patterns is
    ["el\"], ["grc\"], ["lang=el\"] or ["lang=grc\"], never ["el"] or
    ["grc"], so a page is read exactly when it has a [==Greek==] or an
    [==Ancient Greek==] heading. *)
Theorem has_greek_headings_only text :
  has_greek text = inr (contains text γ"==Greek==" || contains text γ"==Ancient Greek==").
Proof.
  unfold has_greek. destruct (_ || _); [done|].
  apply any_pattern_lang_dead. vm_compute. reflexivity.
Qed.

(** ** The extractor's invariant *)

Section ExtractorTheorems.
Context `{UnicodeDB}.

(** What every written mapping satisfies. *)
Definition mapping_ok (m : extracted) : Prop :=
  em_word_form m <> [] /\ em_lemma m <> em_word_form m.

(** The state of the loop: its mappings are good and each came from a
    counted match. *)
Definition ex_state_ok (st : ex_state) : Prop :=
  Forall mapping_ok (ex_all_mappings st) /\
  Z.of_nat (length (ex_all_mappings st)) <= ex_pages_with_inflections st.

Definition page_ends (evs : list (xml_event * element)) : nat :=
  length (List.filter (fun '(ev, e) => is_page_end ev e) evs).

Lemma match_mapping_ok title tn m x : match_mapping title tn m = Some x -> mapping_ok x.
Proof.
  unfold match_mapping. cbv zeta.
  destruct (nonempty _ && nonempty tn && _) eqn:E; [|done].
  apply andb_true_iff in E as [[_ Htn]%andb_true_iff _]. apply nonempty_true in Htn.
  case_bool_decide as Hn; [done|]. intros [= <-]. split; simpl; auto.
Qed.

Lemma scan_match_ok title tn st m :
  ex_state_ok st -> ex_state_ok (scan_match title tn st m) /\
  ex_pages_processed (scan_match title tn st m) = ex_pages_processed st.
Proof.
  unfold scan_match, ex_state_ok; simpl. intros [HF Hl]. split; [|done].
  destruct (match_mapping title tn m) as [x|] eqn:E; [|split; [done|lia]].
  apply match_mapping_ok in E. rewrite length_app; simpl.
  split; [apply Forall_app; split; [done|by constructor]|lia].
Qed.

Lemma process_page_ok e st st' b :
  process_page e st = inr (st', b) -> ex_state_ok st ->
  ex_state_ok st' /\ ex_pages_processed st' = ex_pages_processed st + 1.
Proof.
  unfold process_page. intros Hp Hok.
  destruct (find_mw "title" e), (find_mw "text" e); try (injection Hp as <- _; by split).
  destruct (Xml.text e0) as [title|]; [|discriminate].
  destruct (contains title [58]); [injection Hp as <- _; by split|].
  destruct (has_greek _) as [|g]; simpl in Hp; [discriminate|].
  destruct (negb g); [injection Hp as <- _; by split|]. injection Hp as <- _.
  apply (fold_left_inv (fun s => ex_state_ok s /\ ex_pages_processed s = ex_pages_processed st + 1)).
  - intros s m [Hs Hn]. split; [apply (proj1 (scan_match_ok _ _ _ _ Hs))|].
    rewrite (proj2 (scan_match_ok _ _ _ _ Hs)). done.
  - by split.
Qed.

Lemma extract_loop_ok mp evs st st' :
  extract_loop mp evs st = inr st' -> ex_state_ok st ->
  ex_state_ok st' /\
  ex_pages_processed st' <= ex_pages_processed st + Z.of_nat (page_ends evs).
Proof.
  unfold page_ends. revert st; induction evs as [|[ev e] evs IH]; intros st Hl Hok; simpl in *.
  - injection Hl as <-. split; [done|lia].
  - destruct (is_page_end ev e); simpl; [|by apply IH].
    destruct (process_page e st) as [|[st1 b]] eqn:Ep; simpl in Hl; [discriminate|].
    destruct (process_page_ok _ _ _ _ Ep Hok) as [Hok1 Hn1].
    destruct b; [destruct (IH _ Hl Hok1); split; [done|lia]|].
    destruct (mp <=? ex_pages_processed st1);
      [injection Hl as <-; split; [done|lia]|destruct (IH _ Hl Hok1); split; [done|lia]].
Qed.

Lemma dedup_from_spec seen ms :
  NoDup (map mapping_key (dedup_from seen ms)) /\
  (forall m, m ∈ dedup_from seen ms -> m ∈ ms /\ mapping_key m ∉ seen) /\
  (forall k, k ∈ map mapping_key ms -> k ∉ seen -> k ∈ map mapping_key (dedup_from seen ms)).
Proof. apply first_by_key_spec. Qed.

Lemma dedup_from_length seen ms : (length (dedup_from seen ms) <= length ms)%nat.
Proof. apply first_by_key_length. Qed.

Lemma page_ends_cons x evs : (page_ends evs <= page_ends (x :: evs))%nat.
Proof. unfold page_ends. destruct x as [ev e]; simpl. destruct (is_page_end ev e); simpl; lia. Qed.

(** C12: The file the extractor writes holds at least one mapping, no two
    with the same [(word_form, lemma)], each with a non-empty word form
    and a lemma different from it; its metadata counts no more mappings
    than template matches and no more pages than the dump has. *)
Theorem extract_output_ok dump_path dump mp b f :
  extract_inflection_of_mappings dump_path dump mp = inr (b, Some f) ->
  b = true /\ if_mappings f <> [] /\ NoDup (map mapping_key (if_mappings f)) /\
  Forall mapping_ok (if_mappings f) /\
  Z.of_nat (length (if_mappings f)) <= if_pages_with_inflection_templates f /\
  if_total_pages_processed f <= Z.of_nat (page_ends dump).
Proof.
  intros Hx. destruct dump as [|x evs]; [discriminate|]. cbn [extract_inflection_of_mappings] in Hx.
  destruct (extract_loop mp evs (ExState 0 0 [])) as [|st] eqn:El; [discriminate|]. cbn [sbind] in Hx.
  destruct (extract_loop_ok _ _ _ _ El) as [[HF Hl] Hp]; [split; simpl; [done|lia]|].
  pose proof (page_ends_cons x evs). cbn [ex_pages_processed] in Hp.
  destruct (ex_all_mappings st) as [|m ms] eqn:Em; [discriminate|]. injection Hx as <- <-.
  cbn [if_mappings if_pages_with_inflection_templates if_total_pages_processed].
  destruct (dedup_from_spec ∅ (m :: ms)) as (H1 & H2 & _).
  pose proof (dedup_from_length ∅ (m :: ms)) as Hlen. simpl in Hl, Hlen.
  split; [done|]. split; [|split; [done|split; [|split; lia]]].
  - unfold dedup_from. cbn [first_by_key].
    by rewrite bool_decide_false by apply not_elem_of_empty.
  - apply Forall_forall. intros y Hy. apply (proj1 (Forall_forall _ _) HF).
    apply list_elem_of_In. destruct (H2 y) as [Hy' _]; [by apply list_elem_of_In|exact Hy'].
Qed.

(** ** The extractor's file read by the Wiktionary loader *)

Lemma json_of_extracted_complete ms : Forall jm_complete (map json_of_extracted ms).
Proof.
  apply Forall_forall. intros x (e & <- & _)%in_map_iff.
  split; [eauto|]. repeat split; discriminate.
Qed.

(** C11: Read as the first file by [load_wiktionary_mappings] of
    create_perseus_database.py, the extractor's output never raises
    ([KeyError] is impossible: every mapping has [word_form], [lemma],
    [confidence] and [source]), so the file is read to the end with no
    failure; it keeps the primary key, and every row it adds maps a word
    form to a different dictionary headword with confidence 1. *)
Theorem extract_then_load dictionary dump_path dump mp b f t :
  extract_inflection_of_mappings dump_path dump mp = inr (b, Some f) -> pk_ok t ->
  let '(t', c, aborted) :=
    load_mappings (greek_headwords dictionary) (map json_of_extracted (if_mappings f)) t
      (LoadCounts 0 0 0 0) in
  aborted = false /\ failed c = 0%nat /\
  load_wiktionary_mappings dictionary [written_file (Some f)] t = t' /\ pk_ok t' /\
  forall r, r ∈ t' -> r ∈ t \/
    (lemma r ∈ greek_headwords dictionary /\ word_form r <> lemma r /\ confidence r = Some 1%Q).
Proof.
  intros Hx Hpk. destruct (extract_output_ok _ _ _ _ _ Hx) as (_ & Hne & _ & HF & _).
  pose proof (load_mappings_complete (greek_headwords dictionary) _ t
    (LoadCounts 0 0 0 0) (json_of_extracted_complete (if_mappings f))) as Hl.
  destruct (load_mappings _ _ t _) as [[t' c] ab] eqn:El. destruct Hl as [-> Hf].
  destruct (load_mappings_spec _ _ _ _ _ _ _ El Hpk) as [Hpk' Hr].
  split; [done|]. split; [done|]. split; [|split; [done|]].
  - unfold load_wiktionary_mappings, written_file. cbn [fold_left].
    destruct (if_mappings f) as [|m ms]; [done|]. cbn [map load_file ls_total_loaded ls_table Nat.eqb].
    cbn [map] in El. rewrite El. done.
  - intros r Hr'. destruct (Hr r Hr') as [|Hj]; [by left|right].
    destruct Hj as (Hv & m & Hm & Hc & _ & Hlm & Hwm).
    apply list_elem_of_In, in_map_iff in Hm as (e & <- & He).
    destruct (proj1 (Forall_forall _ _) HF e He) as [_ Hok].
    cbn in Hc, Hlm, Hwm. injection Hlm as Hlm. injection Hwm as Hwm.
    split; [done|]. split; [intros Heq; apply Hok; congruence|done].
Qed.

End ExtractorTheorems.

(** ** Pages of a dump *)

Definition mw_elem (t : String.string) (x : option pystr) : element :=
  Element ("{http://www.mediawiki.org/xml/export-0.11/}" ++ t) [] x [] None.

Definition wiki_page (title text : option pystr) : element :=
  Element "{http://www.mediawiki.org/xml/export-0.11/}page" [] None
    [mw_elem "title" title;
     Element "{http://www.mediawiki.org/xml/export-0.11/}revision" [] None
       [mw_elem "text" text] None] None.

Definition dump_root : element :=
  Element "{http://www.mediawiki.org/xml/export-0.11/}mediawiki" [] None [] None.

Definition talk_page : element := wiki_page (Some γ"Talk:μῆνις") (Some γ"").

Definition menin_page : element :=
  wiki_page (Some γ"μῆνιν") (Some γ"==Ancient Greek==
# {{inflection of|grc|[[μῆνις]]|acc|s}}").

Definition menin_dump : list (xml_event * element) :=
  [(EvStart, dump_root); (EvEnd, talk_page); (EvEnd, menin_page)].

Definition menin_file : inflection_file :=
  InflectionFile γ"menin.xml.bz2" 2 1
    [Extracted γ"μηνιν" γ"μηνισ" γ"acc|s" γ"{{inflection of|grc|[[μῆνις]]|acc|s}}"].

Definition menin_dictionary : list dict_entry := [DictEntry γ"μῆνις" γ"μηνισ" "greek"].

Lemma extract_output_ok_witness :
  extract_inflection_of_mappings γ"menin.xml.bz2" menin_dump 1 = inr (true, Some menin_file) /\
  NoDup (map mapping_key (if_mappings menin_file)) /\ Forall mapping_ok (if_mappings menin_file).
Proof.
  assert (E : extract_inflection_of_mappings γ"menin.xml.bz2" menin_dump 1
              = inr (true, Some menin_file)) by (vm_compute; reflexivity).
  destruct (extract_output_ok _ _ _ _ _ E) as (_ & _ & Hnd & Hok & _).
  split; [exact E|]. split; [exact Hnd|exact Hok].
Defined.

Lemma extract_then_load_witness :
  extract_inflection_of_mappings γ"menin.xml.bz2" menin_dump 1 = inr (true, Some menin_file) /\
  pk_ok [] /\
  load_wiktionary_mappings menin_dictionary [written_file (Some menin_file)] [] =
    [Row γ"μηνιν" γ"μηνιν" γ"μηνισ" (Some 1%Q) (Some "wiktionary:inflection_of"%string) None] /\
  γ"μηνιν" <> γ"μηνισ".
Proof.
  assert (E : extract_inflection_of_mappings γ"menin.xml.bz2" menin_dump 1
              = inr (true, Some menin_file)) by (vm_compute; reflexivity).
  assert (Hpk : pk_ok []) by constructor.
  pose proof (extract_then_load menin_dictionary _ _ _ _ _ [] E Hpk) as Hl.
  split; [exact E|]. split; [exact Hpk|].
  revert Hl. destruct (load_mappings _ _ _ _) as [[t' c] ab] eqn:El.
  intros (_ & _ & -> & _ & Hr). vm_compute in El. injection El as <- _ _.
  split; [reflexivity|]. vm_compute. discriminate.
Defined.

(** [max_pages] is not a bound on the pages read: a page that ends in
    [continue] (here a talk page) skips the test of line 133, so with
    [max_pages = 1] the loop reads three pages. *)
Example max_pages_overrun :
  extract_inflection_of_mappings γ"d" [(EvStart, dump_root); (EvEnd, talk_page);
    (EvEnd, talk_page); (EvEnd, menin_page); (EvEnd, menin_page)] 1 =
  inr (true, Some (InflectionFile γ"d" 3 1 (if_mappings menin_file))).
Proof. vm_compute. reflexivity. Qed.

(** A page whose only Greek is an [{{inflection of|grc|...}}]
    template, without a [==Greek==] or [==Ancient Greek==] heading, is
    skipped, although the comment of line 77 and the pattern clause of
    [has_greek] mean to read it. *)
Example template_only_page_skipped :
  extract_inflection_of_mappings γ"d"
    [(EvStart, dump_root);
     (EvEnd, wiki_page (Some γ"μῆνιν") (Some γ"# {{inflection of|grc|μῆνις|acc|s}}"))] 1000000 =
  inr (false, None).
Proof. vm_compute. reflexivity. Qed.

(** A template nested in the lemma argument stops the first group at
    its own [|]: [{{l] is left, which [normalize_greek] maps to the empty
    string, and the mapping is written with an empty lemma. *)
Example nested_template_empty_lemma :
  extract_inflection_of_mappings γ"d"
    [(EvStart, dump_root);
     (EvEnd, wiki_page (Some γ"μῆνιν")
               (Some γ"==Ancient Greek==
{{inflection of|grc|{{l|grc|μῆνις}}|acc}}"))] 1000000 =
  inr (true, Some (InflectionFile γ"d" 1 1
    [Extracted γ"μηνιν" [] γ"grc|μῆνις" γ"{{inflection of|grc|{{l|grc|μῆνις}}"])).
Proof. vm_compute. reflexivity. Qed.

(** A main-namespace page whose [<title/>] has no text stops the
    extraction with a [TypeError] at [':' in title] (line 72). *)
Example empty_title_raises :
  extract_inflection_of_mappings γ"d"
    [(EvStart, dump_root); (EvEnd, wiki_page None (Some γ"")); (EvEnd, menin_page)] 1000000 =
  inl TypeError.
Proof. vm_compute. reflexivity. Qed.

Lemma finditer_sound_witness :
  TemplateMatch γ"{{inflection of|grc|[[μῆνις]]|acc|s}}" γ"[[μῆνις]]" γ"acc|s"
    ∈ finditer (nth 1 inflection_patterns []) γ"# {{inflection of|grc|[[μῆνις]]|acc|s}}" /\
  (125 ∉ γ"acc|s").
Proof.
  assert (Hm : TemplateMatch γ"{{inflection of|grc|[[μῆνις]]|acc|s}}" γ"[[μῆνις]]" γ"acc|s"
    ∈ finditer (nth 1 inflection_patterns []) γ"# {{inflection of|grc|[[μῆνις]]|acc|s}}")
    by (apply list_elem_of_In; vm_compute; left; reflexivity).
  destruct (finditer_sound _ _ _ Hm) as (_ & _ & _ & _ & H2).
  split; [exact Hm|exact H2].
Defined.
