(* ===== verification/AllForms.v ===== *)
(** * wiktionary-processing/extract_all_ancient_greek_forms.py

    The extractor that writes [ancient_greek_all_forms.json], the second
    file the loader of create_perseus_database.py reads (Pipeline.v).
    [extract_all_ancient_greek_forms] (lines 105-220) walks the [end]
    events of the pages of an English Wiktionary dump, cuts the Ancient
    Greek section of each main-namespace page (line 151), collects the
    lemmas of 26 form-of templates ([extract_lemma_from_template], lines
    32-78) and one morphological label for the whole section
    ([extract_morph_info], lines 80-103), and writes one mapping per new
    normalized lemma of the page with confidence 0.95.

    The regular expressions of the templates are compiled by
    [compile_regex] from their source text into a sequence of pieces
    (literal characters, greedy runs of excluded characters, the captured
    group, one character of a class) and matched by [match_pieces]; the
    matcher never backtracks, and [match_pieces_spec] proves it agrees
    with the regular expression whenever every run is followed by a
    character it excludes, which every pattern satisfies.

    Theorems: the matcher's equivalence; the section search never fails
    after the test of line 143; every written mapping has a non-empty
    lemma and no page repeats a lemma; read by the Wiktionary loader the
    file never raises and every row it adds has confidence 0.95.
    Examples show a mapping of a word form to itself, a mapping with an
    empty word form, and a morphological label taken from another
    template of the page. *)

From S2P Require Import Prelude Unicode Normalize LemmaMap Pipeline Xml Extract.
Import ListNotations.
Open Scope Z_scope.

(** ** The regular expressions of lines 39-71 and 99 *)

(** A compiled expression: the subset the patterns use. *)
Inductive regex_piece :=
  | Lit (c : Z)               (** a character, escaped or not *)
  | Run (excl : list Z)       (** [[^...]+], not captured *)
  | Group (excl : list Z)     (** [([^...]+)] *)
  | OneOf (cs : list Z).      (** [[...]] *)

(** The characters of a class up to its [\]]. *)
Fixpoint parse_class (s : pystr) (acc : list Z) : option (list Z * pystr) :=
  match s with
  | [] => None
  | c :: s' => if c =? 93 then Some (rev acc, s') else parse_class s' (c :: acc)
  end.

(** [re.compile] on the subset: [\c], [[^...]+], [([^...]+)], [[...]]
    and plain characters. *)
Fixpoint compile_fuel (fuel : nat) (s : pystr) : option (list regex_piece) :=
  match fuel with
  | O => None
  | S f =>
      match s with
      | [] => Some []
      | 92 :: c :: s' => ps ← compile_fuel f s'; Some (Lit c :: ps)
      | 91 :: 94 :: s' =>
          '(cs, r) ← parse_class s' [];
          match r with
          | 43 :: r' => ps ← compile_fuel f r'; Some (Run cs :: ps)
          | _ => None
          end
      | 91 :: s' =>
          '(cs, r) ← parse_class s' [];
          ps ← compile_fuel f r; Some (OneOf cs :: ps)
      | 40 :: 91 :: 94 :: s' =>
          '(cs, r) ← parse_class s' [];
          match r with
          | 43 :: 41 :: r' => ps ← compile_fuel f r'; Some (Group cs :: ps)
          | _ => None
          end
      | c :: s' => ps ← compile_fuel f s'; Some (Lit c :: ps)
      end
  end.

Definition compile_regex (s : pystr) : option (list regex_piece) := compile_fuel (S (length s)) s.

(** The longest prefix of characters outside [cs], and the rest. *)
Fixpoint span_excl (cs : list Z) (s : pystr) : pystr * pystr :=
  match s with
  | x :: s' =>
      if bool_decide (x ∈ cs) then ([], s)
      else let '(a, b) := span_excl cs s' in (x :: a, b)
  | [] => ([], [])
  end.

(** A match at the start of [s]: the captured groups and the rest.  Each
    run is greedy and never given back. *)
Fixpoint match_pieces (ps : list regex_piece) (s : pystr) : option (list pystr * pystr) :=
  match ps with
  | [] => Some ([], s)
  | Lit c :: ps' =>
      match s with
      | d :: s' => if c =? d then match_pieces ps' s' else None
      | [] => None
      end
  | Run cs :: ps' =>
      let '(a, b) := span_excl cs s in
      match a with [] => None | _ => match_pieces ps' b end
  | Group cs :: ps' =>
      let '(a, b) := span_excl cs s in
      match a with
      | [] => None
      | _ => '(gs, r) ← match_pieces ps' b; Some (a :: gs, r)
      end
  | OneOf cs :: ps' =>
      match s with
      | d :: s' => if bool_decide (d ∈ cs) then match_pieces ps' s' else None
      | [] => None
      end
  end.

(** The matches of [re.finditer] from the left, each resuming after the
    previous one; the length of a match is that of the text it consumes. *)
Fixpoint scan_from (ps : list regex_piece) (skip : nat) (s : pystr) : list (list pystr) :=
  match skip with
  | S k => match s with [] => [] | _ :: s' => scan_from ps k s' end
  | O =>
      match match_pieces ps s with
      | Some (gs, r) =>
          gs :: match s with
                | [] => []
                | _ :: s' => scan_from ps (pred (length s - length r)) s'
                end
      | None => match s with [] => [] | _ :: s' => scan_from ps 0 s' end
      end
  end.

(** [re.findall(pattern, s)] of a pattern with one group: the groups. *)
Definition findall (pattern s : pystr) : list pystr :=
  match compile_regex pattern with
  | Some ps => map (fun gs => hd [] gs) (scan_from ps 0 s)
  | None => []
  end.

(** [re.search(pattern, s).group(1)] *)
Definition search_group (pattern s : pystr) : option pystr :=
  match compile_regex pattern with
  | Some ps => hd_error (map (fun gs => hd [] gs) (scan_from ps 0 s))
  | None => None
  end.

(** What an expression means: the decompositions of a string it
    describes, with the groups it captures. *)
Inductive pieces_match : list regex_piece -> pystr -> list pystr -> pystr -> Prop :=
  | pm_nil s : pieces_match [] s [] s
  | pm_lit c ps s gs r :
      pieces_match ps s gs r -> pieces_match (Lit c :: ps) (c :: s) gs r
  | pm_run cs ps a s gs r :
      a <> [] -> Forall (fun x => x ∉ cs) a -> pieces_match ps s gs r ->
      pieces_match (Run cs :: ps) (a ++ s) gs r
  | pm_group cs ps a s gs r :
      a <> [] -> Forall (fun x => x ∉ cs) a -> pieces_match ps s gs r ->
      pieces_match (Group cs :: ps) (a ++ s) (a :: gs) r
  | pm_oneof cs ps c s gs r :
      c ∈ cs -> pieces_match ps s gs r -> pieces_match (OneOf cs :: ps) (c :: s) gs r.

(** Every run is followed by a character it excludes: a greedy run can
    then only stop where the regular expression needs it to. *)
Definition starts_in (cs : list Z) (ps : list regex_piece) : bool :=
  match ps with
  | Lit c :: _ => bool_decide (c ∈ cs)
  | OneOf ds :: _ => forallb (fun d => bool_decide (d ∈ cs)) ds
  | _ => false
  end.

Fixpoint greedy_ok (ps : list regex_piece) : bool :=
  match ps with
  | [] => true
  | Run cs :: ps' | Group cs :: ps' => starts_in cs ps' && greedy_ok ps'
  | _ :: ps' => greedy_ok ps'
  end.

Lemma span_excl_spec cs s a b :
  span_excl cs s = (a, b) ->
  s = a ++ b /\ Forall (fun x => x ∉ cs) a /\ (b = [] \/ exists x b', b = x :: b' /\ x ∈ cs).
Proof.
  revert a b; induction s as [|x s IH]; intros a b; simpl.
  - intros [= <- <-]. split; [done|]. split; [constructor|by left].
  - case_bool_decide as Hx.
    + intros [= <- <-]. split; [done|]. split; [constructor|right; eauto].
    + destruct (span_excl cs s) as [a' b'] eqn:E. intros [= <- <-].
      destruct (IH _ _ eq_refl) as (-> & Ha & Hb). split; [done|]. split; [by constructor|done].
Qed.

Lemma span_excl_app cs a x s :
  Forall (fun y => y ∉ cs) a -> x ∈ cs -> span_excl cs (a ++ x :: s) = (a, x :: s).
Proof.
  intros Ha Hx. induction Ha as [|y a Hy Ha IH]; simpl.
  - by rewrite bool_decide_true.
  - rewrite bool_decide_false by done. by rewrite IH.
Qed.

Lemma pieces_match_starts cs ps s gs r :
  starts_in cs ps = true -> pieces_match ps s gs r -> exists x s', s = x :: s' /\ x ∈ cs.
Proof.
  intros Hs Hm. destruct Hm as [|c ps s gs r _|? ? ? ? ? ? _ _ _|? ? ? ? ? ? _ _ _|ds ps c s gs r Hc _];
    simpl in Hs; try discriminate.
  - apply bool_decide_eq_true in Hs. eauto.
  - exists c, s. split; [done|]. apply forallb_forall with (x := c) in Hs;
      [by apply bool_decide_eq_true in Hs|by apply list_elem_of_In].
Qed.

Lemma match_pieces_sound ps s gs r :
  match_pieces ps s = Some (gs, r) -> pieces_match ps s gs r.
Proof.
  revert s gs r; induction ps as [|[c|cs|cs|cs] ps IH]; intros s gs r; simpl.
  - intros [= <- <-]. constructor.
  - destruct s as [|d s]; [discriminate|]. destruct (Z.eqb_spec c d) as [->|]; [|discriminate].
    intros Hm. constructor. by apply IH.
  - destruct (span_excl cs s) as [a b] eqn:E. apply span_excl_spec in E as (-> & Ha & _).
    destruct a as [|x a]; [discriminate|]. intros Hm. constructor; [done|done|by apply IH].
  - destruct (span_excl cs s) as [a b] eqn:E. apply span_excl_spec in E as (-> & Ha & _).
    destruct a as [|x a]; [discriminate|].
    destruct (match_pieces ps b) as [[gs' r']|] eqn:Hm; [|discriminate]. intros [= <- <-].
    constructor; [done|done|by apply IH].
  - destruct s as [|d s]; [discriminate|]. case_bool_decide; [|discriminate].
    intros Hm. constructor; [done|by apply IH].
Qed.

Lemma match_pieces_complete ps s gs r :
  greedy_ok ps = true -> pieces_match ps s gs r -> match_pieces ps s = Some (gs, r).
Proof.
  intros Hok Hm. induction Hm as [s|c ps s gs r _ IH|cs ps a s gs r Hne Ha Hm IH
    |cs ps a s gs r Hne Ha Hm IH|cs ps c s gs r Hc _ IH]; simpl in *.
  - done.
  - rewrite Z.eqb_refl. by apply IH.
  - apply andb_true_iff in Hok as [Hs Hok].
    destruct (pieces_match_starts _ _ _ _ _ Hs Hm) as (x & s' & -> & Hx).
    rewrite span_excl_app by done. destruct a; [done|]. by apply IH.
  - apply andb_true_iff in Hok as [Hs Hok].
    destruct (pieces_match_starts _ _ _ _ _ Hs Hm) as (x & s' & -> & Hx).
    rewrite span_excl_app by done. destruct a; [done|]. by rewrite IH.
  - rewrite bool_decide_true by done. by apply IH.
Qed.

(** The matcher is the regular expression: on an expression whose runs
    are each followed by a character they exclude, [match_pieces]
    succeeds exactly on the decompositions the expression describes, so
    the greedy runs that are never given back lose no match of Python's
    backtracking [re]. *)
Theorem match_pieces_spec ps s gs r :
  greedy_ok ps = true ->
  match_pieces ps s = Some (gs, r) <-> pieces_match ps s gs r.
Proof.
  intros Hok. split; [apply match_pieces_sound|by apply match_pieces_complete].
Qed.

(** ** The extractor *)

Section AllFormsExtractor.
Context `{UnicodeDB}.

(** [normalize_greek], lines 15-30: the body of create_perseus_database.py
    behind [if not text: return ""]. *)
Definition normalize_greek_all_forms (text : pystr) : pystr :=
  match text with
  | [] => []
  | _ => normalize_greek text
  end.

(** The patterns of lines 37-72, in their order. *)
Definition lemma_patterns : list pystr :=
  [ γ"\{\{inflection of\|grc\|([^|{}]+)\|";
    γ"\{\{form of\|[^|]+\|grc\|([^|{}]+)\}\}";
    γ"\{\{grc-form of\|([^|{}]+)[|}]";
    γ"\{\{plural of\|grc\|([^|{}]+)\}\}";
    γ"\{\{genitive of\|grc\|([^|{}]+)\}\}";
    γ"\{\{dative of\|grc\|([^|{}]+)\}\}";
    γ"\{\{accusative of\|grc\|([^|{}]+)\}\}";
    γ"\{\{vocative of\|grc\|([^|{}]+)\}\}";
    γ"\{\{nominative plural of\|grc\|([^|{}]+)\}\}";
    γ"\{\{genitive plural of\|grc\|([^|{}]+)\}\}";
    γ"\{\{aorist of\|grc\|([^|{}]+)\}\}";
    γ"\{\{present of\|grc\|([^|{}]+)\}\}";
    γ"\{\{imperfect of\|grc\|([^|{}]+)\}\}";
    γ"\{\{future of\|grc\|([^|{}]+)\}\}";
    γ"\{\{perfect of\|grc\|([^|{}]+)\}\}";
    γ"\{\{epic form of\|grc\|([^|{}]+)\}\}";
    γ"\{\{ionic form of\|grc\|([^|{}]+)\}\}";
    γ"\{\{doric form of\|grc\|([^|{}]+)\}\}";
    γ"\{\{aeolic form of\|grc\|([^|{}]+)\}\}";
    γ"\{\{alternative form of\|grc\|([^|{}]+)\}\}";
    γ"\{\{alternative spelling of\|grc\|([^|{}]+)\}\}";
    γ"\{\{obsolete form of\|grc\|([^|{}]+)\}\}";
    γ"\{\{archaic form of\|grc\|([^|{}]+)\}\}";
    γ"\{\{present participle of\|grc\|([^|{}]+)\}\}";
    γ"\{\{past participle of\|grc\|([^|{}]+)\}\}";
    γ"\{\{participle of\|grc\|([^|{}]+)\}\}" ].

(** [extract_lemma_from_template], lines 32-78. *)
Definition extract_lemma_from_template (template_text : pystr) : list pystr :=
  concat (map (fun p => findall p template_text) lemma_patterns).

Definition inflection_tags_pattern : pystr :=
  γ"\{\{inflection of\|grc\|[^|]+\|([^}]+)\}\}".

(** [extract_morph_info], lines 80-103. *)
Definition extract_morph_info (template_text : pystr) : option pystr :=
  if contains template_text γ"plural of" then Some γ"plural"
  else if contains template_text γ"genitive of" then Some γ"genitive"
  else if contains template_text γ"dative of" then Some γ"dative"
  else if contains template_text γ"accusative of" then Some γ"accusative"
  else if contains template_text γ"aorist of" then Some γ"aorist"
  else if contains template_text γ"perfect of" then Some γ"perfect"
  else if contains template_text γ"participle" then Some γ"participle"
  else if contains template_text γ"inflection of" then
    match search_group inflection_tags_pattern template_text with
    | Some tags => Some (py_strip (py_replace tags γ"|" γ" "))
    | None => None
    end
  else None.

(** [re.search(r'==Ancient Greek==.*?(?=\n==[^=]|$)', text, re.DOTALL)],
    line 151: from the first heading, the shortest extension followed by
    a level-2 heading, the end, or a final newline ([$]). *)
Definition grc_heading : pystr := γ"==Ancient Greek==".

Definition section_stop (s : pystr) : bool :=
  match s with
  | [] => true
  | [10] => true
  | 10 :: 61 :: 61 :: c :: _ => negb (c =? 61)
  | _ => false
  end.

Fixpoint lazy_len (s : pystr) : nat :=
  if section_stop s then O else match s with [] => O | _ :: s' => S (lazy_len s') end.

Definition grc_section (text : pystr) : option pystr :=
  match find_aux text grc_heading 0 with
  | Some i =>
      let t := drop (Z.to_nat i) text in
      Some (take (length grc_heading + lazy_len (drop (length grc_heading) t)) t)
  | None => None
  end.

(** A mapping of lines 174-180. *)
Record form_mapping := FormMapping {
  fm_word_form : pystr;
  fm_lemma : pystr;
  fm_morph_info : option pystr
}.

(** The loop of lines 169-181 over the page's lemmas, with
    [seen_lemmas]. *)
Fixpoint page_mappings (word_form : pystr) (morph_info : option pystr) (seen : gset pystr)
    (lemmas : list pystr) : list form_mapping :=
  match lemmas with
  | [] => []
  | l :: ls =>
      let lemma_norm := normalize_greek_all_forms l in
      if nonempty lemma_norm && negb (bool_decide (lemma_norm ∈ seen)) then
        FormMapping word_form lemma_norm morph_info
          :: page_mappings word_form morph_info ({[lemma_norm]} ∪ seen) ls
      else page_mappings word_form morph_info seen ls
  end.

Record af_state := AfState {
  af_pages_processed : Z;
  af_ancient_greek_pages : Z;
  af_forms_found : Z;
  af_all_mappings : list form_mapping
}.

(** One page, lines 122-185. *)
Definition af_page (e : element) (st : af_state) : af_state :=
  let st := AfState (af_pages_processed st + 1) (af_ancient_greek_pages st)
              (af_forms_found st) (af_all_mappings st) in
  match find_mw "title" e, find_mw "text" e with
  | Some title_elem, Some text_elem =>
      let title := opt_str (Xml.text title_elem) in
      let text := opt_str (Xml.text text_elem) in
      if contains title [58] && negb (startswith title γ"Reconstruction:") then st
      else if negb (contains text grc_heading) then st
      else
        let st := AfState (af_pages_processed st) (af_ancient_greek_pages st + 1)
                    (af_forms_found st) (af_all_mappings st) in
        match grc_section text with
        | None => st
        | Some grc =>
            match extract_lemma_from_template grc with
            | [] => st
            | lemmas =>
                let word_form := normalize_greek_all_forms title in
                let morph_info := extract_morph_info grc in
                AfState (af_pages_processed st) (af_ancient_greek_pages st) (af_forms_found st + 1)
                  (af_all_mappings st ++ page_mappings word_form morph_info ∅ lemmas)
            end
        end
  | _, _ => st
  end.

(** The loop of lines 121-185. *)
Definition af_loop (evs : list (xml_event * element)) (st : af_state) : af_state :=
  fold_left (fun st '(ev, e) => if is_page_end ev e then af_page e st else st) evs st.

(** The written JSON, lines 198-212. *)
Record forms_file := FormsFile {
  ff_pages_processed : Z;
  ff_ancient_greek_pages : Z;
  ff_forms_found : Z;
  ff_total_mappings : Z;
  ff_unique_forms : Z;
  ff_mappings : list form_mapping
}.

(** [extract_all_ancient_greek_forms], lines 105-220. *)
Definition extract_all_ancient_greek_forms (dump : list (xml_event * element))
    : extract_error + forms_file :=
  match dump with
  | [] => inl StopIteration
  | _ :: evs =>
      let st := af_loop evs (AfState 0 0 0 []) in
      let ms := af_all_mappings st in
      let unique_forms := Z.of_nat (size (list_to_set (map fm_word_form ms) : gset pystr)) in
      inr (FormsFile (af_pages_processed st) (af_ancient_greek_pages st) (af_forms_found st)
             (Z.of_nat (length ms)) unique_forms ms)
  end.

(** [json.dump(..., ensure_ascii=False)] into a file opened with
    [encoding='utf-8'], lines 211-212: a string is written as the UTF-8
    bytes of its code points. *)
Definition utf8_char (c : Z) : list Z :=
  if c <? 0x80 then [c]
  else if c <? 0x800 then [0xC0 + c / 64; 0x80 + c mod 64]
  else if c <? 0x10000 then [0xE0 + c / 4096; 0x80 + (c / 64) mod 64; 0x80 + c mod 64]
  else [0xF0 + c / 262144; 0x80 + (c / 4096) mod 64; 0x80 + (c / 64) mod 64; 0x80 + c mod 64].

Definition byte_of (b : Z) : Ascii.ascii := Ascii.ascii_of_N (Z.to_N b).

Fixpoint string_of_bytes (bs : list Z) : String.string :=
  match bs with
  | [] => String.EmptyString
  | b :: bs' => String.String (byte_of b) (string_of_bytes bs')
  end.

Definition utf8_encode (s : pystr) : String.string := string_of_bytes (concat (map utf8_char s)).

(** What the loader of Pipeline.v reads from the file: [morph_info] is
    written as [null] when [extract_morph_info] returns [None]. *)
Definition json_of_form (m : form_mapping) : json_mapping :=
  JsonMapping (JVal (fm_word_form m)) (JVal (fm_lemma m)) (JVal (95 # 100))
    (JVal "enwiktionary:ancient-greek"%string)
    (match fm_morph_info m with Some s => JVal (utf8_encode s) | None => JNull end) JAbsent.

(** The file after the extraction; one that raised is not written. *)
Definition forms_written_file (r : extract_error + forms_file) : mapping_file :=
  match r with
  | inr f => FileLoaded (map json_of_form (ff_mappings f))
  | inl _ => FileMissing
  end.

End AllFormsExtractor.

(** ** The written strings *)

Lemma byte_val_of b : 0 <= b < 256 -> byte_val (byte_of b) = b.
Proof.
  intros Hb. unfold byte_val, byte_of. rewrite Ascii.N_ascii_embedding by lia. lia.
Qed.

Lemma div_mod_64 x : 0 <= x -> x = 64 * (x / 64) + x mod 64 /\ 0 <= x mod 64 < 64 /\ 0 <= x / 64.
Proof.
  intros Hx. split; [apply Z.div_mod; lia|]. split; [apply Z.mod_pos_bound; lia|].
  apply Z.div_pos; lia.
Qed.

Lemma utf8_char_decode c rest :
  0 <= c < 0x110000 ->
  utf8 (string_of_bytes (utf8_char c ++ rest)) = c :: utf8 (string_of_bytes rest).
Proof.
  intros Hc. unfold utf8_char.
  destruct (div_mod_64 c) as (E1 & R1 & Q1); [lia|].
  destruct (div_mod_64 (c / 64)) as (E2 & R2 & Q2); [lia|].
  destruct (div_mod_64 (c / 64 / 64)) as (E3 & R3 & Q3); [lia|].
  repeat rewrite Z.div_div in * by lia.
  try change (64 * 64) with 4096 in *. try change (64 * 4096) with 262144 in *.
  try change (4096 * 64) with 262144 in *.
  destruct (Z.ltb_spec c 0x80); [|destruct (Z.ltb_spec c 0x800); [|destruct (Z.ltb_spec c 0x10000)]].
  - cbn [app string_of_bytes utf8]. rewrite byte_val_of by lia.
    rewrite (proj2 (Z.ltb_lt _ _)) by lia. done.
  - cbn [app string_of_bytes utf8].
    rewrite (byte_val_of (0xC0 + c / 64)), (byte_val_of (0x80 + c mod 64)) by lia.
    rewrite (proj2 (Z.ltb_ge _ _)), (proj2 (Z.ltb_lt (0xC0 + c / 64) 0xE0)) by lia. f_equal. lia.
  - cbn [app string_of_bytes utf8].
    rewrite (byte_val_of (0xE0 + c / 4096)), (byte_val_of (0x80 + (c / 64) mod 64)),
      (byte_val_of (0x80 + c mod 64)) by lia.
    rewrite (proj2 (Z.ltb_ge _ _)), (proj2 (Z.ltb_ge (0xE0 + c / 4096) 0xE0)),
      (proj2 (Z.ltb_lt (0xE0 + c / 4096) 0xF0)) by lia. f_equal. lia.
  - cbn [app string_of_bytes utf8].
    rewrite (byte_val_of (0xF0 + c / 262144)), (byte_val_of (0x80 + (c / 4096) mod 64)),
      (byte_val_of (0x80 + (c / 64) mod 64)), (byte_val_of (0x80 + c mod 64)) by lia.
    rewrite (proj2 (Z.ltb_ge _ _)), (proj2 (Z.ltb_ge (0xF0 + c / 262144) 0xE0)),
      (proj2 (Z.ltb_ge (0xF0 + c / 262144) 0xF0)) by lia. f_equal. lia.
Qed.

(** Strings are written in UTF-8 and read back as the same code points:
    [utf8] (the decoding of a file's bytes) inverts [utf8_encode] on every
    string of Unicode scalar values. *)
Theorem utf8_encode_roundtrip s :
  Forall (fun c => 0 <= c < 0x110000) s -> utf8 (utf8_encode s) = s.
Proof.
  unfold utf8_encode. induction 1 as [|c s Hc Hs IH]; [done|].
  cbn [map concat]. by rewrite utf8_char_decode, IH.
Qed.

(** ** Theorems *)

Section AllFormsTheorems.
Context `{UnicodeDB}.

Lemma page_mappings_fields word_form morph_info seen lemmas m :
  m ∈ page_mappings word_form morph_info seen lemmas ->
  fm_word_form m = word_form /\ fm_morph_info m = morph_info /\ fm_lemma m <> [].
Proof.
  revert seen; induction lemmas as [|l ls IH]; intros seen; simpl; [intros Hm; inversion Hm|].
  destruct (nonempty _ && _) eqn:E; [|apply IH].
  apply andb_true_iff in E as [Hne _]. apply nonempty_true in Hne.
  intros [->|Hm]%elem_of_cons; [done|by eapply IH].
Qed.

Lemma page_mappings_distinct_from word_form morph_info seen acc lemmas :
  (forall x, x ∈ acc <-> x ∈ seen) ->
  acc ++ map fm_lemma (page_mappings word_form morph_info seen lemmas) =
  fold_left (fun acc x => if bool_decide (x ∈ acc) then acc else acc ++ [x])
    (List.filter nonempty (map normalize_greek_all_forms lemmas)) acc.
Proof.
  revert seen acc; induction lemmas as [|l ls IH]; intros seen acc Hacc; simpl; [by rewrite app_nil_r|].
  destruct (nonempty (normalize_greek_all_forms l)) eqn:Hne; simpl; [|by apply IH].
  case_bool_decide as Hin; simpl.
  - rewrite bool_decide_true by (by apply Hacc). by apply IH.
  - rewrite bool_decide_false by (by rewrite Hacc). cbn [map].
    rewrite <- (IH ({[normalize_greek_all_forms l]} ∪ seen)), <- app_assoc; [done|].
    intros x. rewrite elem_of_app, elem_of_union, elem_of_singleton, list_elem_of_singleton, Hacc.
    tauto.
Qed.

(** The mappings of a page are its distinct non-empty normalized lemmas
    in the order of their first template, each with the page's word form
    and morphological label (lines 167-181). *)
Theorem page_mappings_spec word_form morph_info lemmas :
  map fm_lemma (page_mappings word_form morph_info ∅ lemmas) =
    sql_distinct (List.filter nonempty (map normalize_greek_all_forms lemmas)) /\
  Forall (fun m => fm_word_form m = word_form /\ fm_morph_info m = morph_info)
    (page_mappings word_form morph_info ∅ lemmas).
Proof.
  split.
  - apply (page_mappings_distinct_from _ _ ∅ []). intros x. split; [intros Hx; inversion Hx|set_solver].
  - apply Forall_forall. intros m Hm.
    apply list_elem_of_In, page_mappings_fields in Hm as (? & ? & _). done.
Qed.

(** The test of line 152 never fails: once the heading is in the text
    (line 143), the lazy section ends at the latest at the end. *)
Lemma find_aux_contains s sub i :
  contains s sub = true -> exists j, find_aux s sub i = Some j.
Proof.
  revert i; induction s as [|c s IH]; intros i Hc; cbn [contains find_aux] in *.
  - destruct (startswith [] sub); [eauto|discriminate].
  - destruct (startswith (c :: s) sub); [eauto|]. by apply IH.
Qed.

Lemma grc_section_found text :
  contains text grc_heading = true -> exists grc, grc_section text = Some grc.
Proof.
  intros Hc. unfold grc_section. destruct (find_aux_contains text grc_heading 0 Hc) as [j ->]. eauto.
Qed.

Lemma size_list_to_set_le (l : list pystr) : (size (list_to_set l : gset pystr) <= length l)%nat.
Proof.
  induction l as [|x l IH]; [rewrite list_to_set_nil, size_empty; simpl; lia|].
  rewrite list_to_set_cons, size_union_alt, size_singleton. simpl length.
  pose proof (subseteq_size (list_to_set l ∖ {[x]} : gset pystr) (list_to_set l)
    ltac:(intros y Hy; apply elem_of_difference in Hy; tauto)). lia.
Qed.

(** The counters and the mappings of the loop. *)
Definition af_ok (st : af_state) : Prop :=
  0 <= af_forms_found st <= af_ancient_greek_pages st /\
  af_ancient_greek_pages st <= af_pages_processed st /\
  Forall (fun m => fm_lemma m <> []) (af_all_mappings st).

Lemma af_page_ok e st :
  af_ok st -> af_ok (af_page e st) /\ af_pages_processed (af_page e st) = af_pages_processed st + 1.
Proof.
  unfold af_ok; intros (H1 & H2 & HF). unfold af_page; cbv zeta.
  destruct (find_mw "title" e), (find_mw "text" e); cbn [af_forms_found af_ancient_greek_pages af_pages_processed af_all_mappings]; try (split; [repeat split; [lia..|done]|done]).
  destruct (_ && _); cbn [negb af_forms_found af_ancient_greek_pages af_pages_processed af_all_mappings]; [split; [repeat split; [lia..|done]|done]|].
  destruct (contains _ grc_heading); cbn [negb af_forms_found af_ancient_greek_pages af_pages_processed af_all_mappings]; [|split; [repeat split; [lia..|done]|done]].
  destruct (grc_section _) as [grc|]; cbn [af_forms_found af_ancient_greek_pages af_pages_processed af_all_mappings]; [|split; [repeat split; [lia..|done]|done]].
  destruct (extract_lemma_from_template grc) as [|l ls]; cbn [af_forms_found af_ancient_greek_pages af_pages_processed af_all_mappings];
    [split; [repeat split; [lia..|done]|done]|].
  split; [|done]. split; [lia|]. split; [lia|].
  apply Forall_app. split; [done|]. apply Forall_forall. intros m Hm.
  apply list_elem_of_In, page_mappings_fields in Hm as (_ & _ & ?). done.
Qed.

Lemma af_loop_ok evs st :
  af_ok st -> af_ok (af_loop evs st) /\
  af_pages_processed (af_loop evs st) <= af_pages_processed st + Z.of_nat (page_ends evs).
Proof.
  unfold af_loop, page_ends. revert st; induction evs as [|[ev e] evs IH]; intros st Hok; simpl.
  - split; [done|lia].
  - destruct (is_page_end ev e); simpl.
    + destruct (af_page_ok e st Hok) as [Hok' Hn]. destruct (IH _ Hok'). split; [done|lia].
    + destruct (IH _ Hok). split; [done|lia].
Qed.

(** The file the extractor writes: every mapping has a non-empty lemma;
    the counters of its metadata are ordered (pages with a template among
    Ancient Greek pages, among pages read, among the pages of the dump)
    and [unique_forms] is at most [total_mappings], the number of
    mappings. *)
Theorem extract_all_forms_ok dump f :
  extract_all_ancient_greek_forms dump = inr f ->
  Forall (fun m => fm_lemma m <> []) (ff_mappings f) /\
  0 <= ff_forms_found f <= ff_ancient_greek_pages f /\
  ff_ancient_greek_pages f <= ff_pages_processed f <= Z.of_nat (page_ends dump) /\
  0 <= ff_unique_forms f <= ff_total_mappings f /\
  ff_total_mappings f = Z.of_nat (length (ff_mappings f)).
Proof.
  destruct dump as [|x evs]; [discriminate|]. intros [= <-].
  cbn [ff_mappings ff_forms_found ff_ancient_greek_pages ff_pages_processed ff_unique_forms ff_total_mappings].
  destruct (af_loop_ok evs (AfState 0 0 0 [])) as [(H1 & H2 & HF) Hp];
    [split; [cbn; lia|split; [cbn; lia|constructor]]|].
  pose proof (page_ends_cons x evs). cbn [af_pages_processed] in Hp.
  pose proof (size_list_to_set_le (map fm_word_form (af_all_mappings (af_loop evs (AfState 0 0 0 []))))) as Hs.
  rewrite length_map in Hs.
  split; [done|]. split; [lia|]. split; [lia|]. split; [lia|done].
Qed.

(** ** The file read by the Wiktionary loader *)

Lemma json_of_form_complete ms : Forall jm_complete (map json_of_form ms).
Proof.
  apply Forall_forall. intros x (e & <- & _)%in_map_iff.
  split; [eauto|]. repeat split; discriminate.
Qed.

(** C13: Read by [load_wiktionary_mappings], the extractor's file never
    raises and no mapping fails, whatever the set of headwords; every
    row it adds has a non-empty headword lemma and confidence 0.95. *)
Theorem forms_then_load V dump f t c :
  extract_all_ancient_greek_forms dump = inr f -> pk_ok t ->
  let '(t', c', aborted) := load_mappings V (map json_of_form (ff_mappings f)) t c in
  aborted = false /\ failed c' = failed c /\ pk_ok t' /\
  forall r, r ∈ t' -> r ∈ t \/ (lemma r ∈ V /\ lemma r <> [] /\ confidence r = Some (95 # 100)).
Proof.
  intros Hx Hpk. destruct (extract_all_forms_ok _ _ Hx) as (HF & _).
  pose proof (load_mappings_complete V _ t c (json_of_form_complete (ff_mappings f))) as Hl.
  destruct (load_mappings _ _ t _) as [[t' c'] ab] eqn:El. destruct Hl as [-> Hf].
  destruct (load_mappings_spec _ _ _ _ _ _ _ El Hpk) as [Hpk' Hr].
  split; [done|]. split; [done|]. split; [done|].
  intros r Hr'. destruct (Hr r Hr') as [|Hj]; [by left|right].
  destruct Hj as (Hv & m & Hm & Hc & _ & Hlm & _).
  apply list_elem_of_In, in_map_iff in Hm as (e & <- & He).
  pose proof (proj1 (Forall_forall _ _) HF e He) as Hne.
  cbn [json_of_form jm_lemma jm_confidence jget] in Hc, Hlm. injection Hlm as Hlm.
  split; [done|]. split; [congruence|done].
Qed.

End AllFormsTheorems.

(** Every pattern of the extractor compiles, and each run in it is
    followed by a character it excludes, so [match_pieces_spec] applies
    to all of them. *)
Example lemma_patterns_greedy :
  forallb (fun p => match compile_regex p with Some ps => greedy_ok ps | None => false end)
    (inflection_tags_pattern :: lemma_patterns) = true.
Proof. vm_compute. reflexivity. Qed.

Lemma match_pieces_spec_witness :
  compile_regex γ"\{\{grc-form of\|([^|{}]+)[|}]" =
    Some (map Lit γ"{{grc-form of|" ++ [Group [124; 123; 125]; OneOf [124; 125]]) /\
  (match_pieces (map Lit γ"{{grc-form of|" ++ [Group [124; 123; 125]; OneOf [124; 125]])
     γ"{{grc-form of|λόγου|gen}}" = Some ([γ"λόγου"], γ"gen}}") <->
   pieces_match (map Lit γ"{{grc-form of|" ++ [Group [124; 123; 125]; OneOf [124; 125]])
     γ"{{grc-form of|λόγου|gen}}" [γ"λόγου"] γ"gen}}").
Proof.
  split; [vm_compute; reflexivity|].
  apply match_pieces_spec. vm_compute. reflexivity.
Defined.

Lemma utf8_encode_roundtrip_witness : utf8 (utf8_encode γ"ἡμέρα gen s") = γ"ἡμέρα gen s".
Proof.
  apply utf8_encode_roundtrip.
  assert (Hb : forallb (fun c => (0 <=? c) && (c <? 0x110000)) γ"ἡμέρα gen s" = true)
    by (vm_compute; reflexivity).
  apply Forall_forall. intros c Hc.
  apply (proj1 (forallb_forall _ _) Hb), andb_true_iff in Hc as [H1 H2]. lia.
Defined.

(** ** Pages of a dump *)

Definition hemar_page : element :=
  wiki_page (Some γ"ἦμαρ") (Some γ"==Ancient Greek==
===Noun===
{{epic form of|grc|ἧμαρ}} {{inflection of|grc|ἡμέρα||gen|s}}
==Greek==
{{inflection of|grc|λόγος|x}}").

Definition hemar_dump : list (xml_event * element) :=
  [(EvStart, dump_root); (EvEnd, talk_page); (EvEnd, hemar_page)].

Definition hemar_file : forms_file :=
  FormsFile 2 1 1 2 1
    [FormMapping γ"ημαρ" γ"ημερα" (Some γ"gen s"); FormMapping γ"ημαρ" γ"ημαρ" (Some γ"gen s")].

Definition hemar_dictionary : list dict_entry :=
  [DictEntry γ"ἡμέρα" γ"ημερα" "greek"; DictEntry γ"ἦμαρ" γ"ημαρ" "greek"].

Lemma extract_all_forms_ok_witness :
  extract_all_ancient_greek_forms hemar_dump = inr hemar_file /\
  ff_forms_found hemar_file <= ff_ancient_greek_pages hemar_file.
Proof.
  assert (E : extract_all_ancient_greek_forms hemar_dump = inr hemar_file)
    by (vm_compute; reflexivity).
  destruct (extract_all_forms_ok _ _ E) as (_ & [_ Hf] & _).
  split; [exact E|exact Hf].
Defined.

Lemma forms_then_load_witness :
  extract_all_ancient_greek_forms hemar_dump = inr hemar_file /\ pk_ok [] /\
  fst (fst (load_mappings (greek_headwords hemar_dictionary)
              (map json_of_form (ff_mappings hemar_file)) [] (LoadCounts 0 0 0 0))) =
    [Row γ"ημαρ" γ"ημαρ" γ"ημερα" (Some (95 # 100)) (Some "enwiktionary:ancient-greek"%string)
       (Some (utf8_encode γ"gen s"));
     Row γ"ημαρ" γ"ημαρ" γ"ημαρ" (Some (95 # 100)) (Some "enwiktionary:ancient-greek"%string)
       (Some (utf8_encode γ"gen s"))].
Proof.
  assert (E : extract_all_ancient_greek_forms hemar_dump = inr hemar_file)
    by (vm_compute; reflexivity).
  assert (Hpk : pk_ok []) by constructor.
  pose proof (forms_then_load (greek_headwords hemar_dictionary) _ _ [] (LoadCounts 0 0 0 0) E Hpk) as Hl.
  split; [exact E|]. split; [exact Hpk|].
  revert Hl. destruct (load_mappings _ _ _ _) as [[t' c] ab] eqn:El. intros _.
  vm_compute in El. injection El as <- _ _. reflexivity.
Defined.

(** The epic form ἦμαρ of ἧμαρ normalizes to its own lemma, and nothing
    in lines 169-181 compares the two: the file maps [ημαρ] to itself.
    The label [gen s] of the [inflection of] template of the page is
    given to this mapping too, since [extract_morph_info] reads the
    whole section. *)
Example epic_form_maps_to_itself :
  extract_all_ancient_greek_forms hemar_dump = inr hemar_file /\
  FormMapping γ"ημαρ" γ"ημαρ" (Some γ"gen s") ∈ ff_mappings hemar_file.
Proof. split; [vm_compute; reflexivity|]. right. left. Qed.

(** A page titled in Latin letters (a romanization) with an Ancient Greek
    section gets the empty word form, and its mapping is written. *)
Example romanized_title_empty_word_form :
  extract_all_ancient_greek_forms
    [(EvStart, dump_root);
     (EvEnd, wiki_page (Some γ"hemar") (Some γ"==Ancient Greek==
{{form of|romanization|grc|ἦμαρ}}"))] =
  inr (FormsFile 1 1 1 1 1 [FormMapping [] γ"ημαρ" None]).
Proof. vm_compute. reflexivity. Qed.
