(* ===== verification/Declension.v ===== *)
(** * wiktionary-processing/extract_declension_mappings.py

    The extractor that writes [ancient_greek_declension_mappings.json],
    the fourth file the loader of create_perseus_database.py reads
    (Pipeline.v) and the input of add_declension_mappings.py (PostPass.v).
    [GreekDeclensionGenerator] (lines 31-199) holds eleven declension
    patterns keyed by a model word; [extract_declension_mappings] (lines
    201-319) walks the pages of a Greek Wiktionary dump, takes the first
    pattern whose template [{{grc-κλίση-'NAME'] the page uses, generates
    the forms of the page's title with it, and maps each normalized form
    other than the title to the normalized title, deduplicated on
    [(word_form, lemma)].

    Theorems: the written mappings have distinct keys and a word form
    different from the lemma ([decl_output_ok]); for every pattern of the
    table [get_stem] removes the ending of its [nom_sg] or [masc_nom_sg]
    key exactly when the word ends with it ([get_stem_nominative]); no
    generated form keeps a parenthesis of the table's optional letters
    ([generate_forms_no_parentheses]); add_declension_mappings.py run on the file never
    raises and stores every mapping's key ([decl_then_post_pass]).  An
    example shows that an oxytone lemma, whose accented ending does not
    match the pattern's, gets forms built on the whole word. *)

From S2P Require Import Prelude Unicode Normalize LemmaMap Pipeline PostPass Xml Extract AllForms.
Import ListNotations.
Open Scope Z_scope.

Section DeclensionExtractor.
Context `{UnicodeDB}.

(** ** GreekDeclensionGenerator, lines 31-199 *)

(** A pattern: its [type] and its [endings] in the order of the dict. *)
Record decl_pattern := DeclPattern {
  dp_type : String.string;
  dp_endings : list (String.string * pystr)
}.

(** [self.patterns], lines 36-133, in the order of the dict. *)
Definition decl_patterns : list (pystr * decl_pattern) :=
 [
  (γ"θάλασσα", DeclPattern "1st_decl_fem_a"
     [("nom_sg", γ"α"); ("gen_sg", γ"ης"); ("dat_sg", γ"ῃ"); ("acc_sg", γ"αν"); ("voc_sg", γ"α");
      ("nom_pl", γ"αι"); ("gen_pl", γ"ων"); ("dat_pl", γ"αις"); ("acc_pl", γ"ας"); ("voc_pl", γ"αι")]);
  (γ"γνώμη", DeclPattern "1st_decl_fem_h"
     [("nom_sg", γ"η"); ("gen_sg", γ"ης"); ("dat_sg", γ"ῃ"); ("acc_sg", γ"ην"); ("voc_sg", γ"η");
      ("nom_pl", γ"αι"); ("gen_pl", γ"ων"); ("dat_pl", γ"αις"); ("acc_pl", γ"ας"); ("voc_pl", γ"αι")]);
  (γ"χώρα", DeclPattern "1st_decl_fem_a_pure"
     [("nom_sg", γ"α"); ("gen_sg", γ"ας"); ("dat_sg", γ"ᾳ"); ("acc_sg", γ"αν"); ("voc_sg", γ"α");
      ("nom_pl", γ"αι"); ("gen_pl", γ"ων"); ("dat_pl", γ"αις"); ("acc_pl", γ"ας"); ("voc_pl", γ"αι")]);
  (γ"δρόμος", DeclPattern "2nd_decl_masc"
     [("nom_sg", γ"ος"); ("gen_sg", γ"ου"); ("dat_sg", γ"ῳ"); ("acc_sg", γ"ον"); ("voc_sg", γ"ε");
      ("nom_pl", γ"οι"); ("gen_pl", γ"ων"); ("dat_pl", γ"οις"); ("acc_pl", γ"ους"); ("voc_pl", γ"οι")]);
  (γ"πρόσωπον", DeclPattern "2nd_decl_neut"
     [("nom_sg", γ"ον"); ("gen_sg", γ"ου"); ("dat_sg", γ"ῳ"); ("acc_sg", γ"ον"); ("voc_sg", γ"ον");
      ("nom_pl", γ"α"); ("gen_pl", γ"ων"); ("dat_pl", γ"οις"); ("acc_pl", γ"α"); ("voc_pl", γ"α")]);
  (γ"πόλις", DeclPattern "3rd_decl_i"
     [("nom_sg", γ"ις"); ("gen_sg", γ"εως"); ("dat_sg", γ"ει"); ("acc_sg", γ"ιν"); ("voc_sg", γ"ι");
      ("nom_pl", γ"εις"); ("gen_pl", γ"εων"); ("dat_pl", γ"εσι(ν)"); ("acc_pl", γ"εις"); ("voc_pl", γ"εις")]);
  (γ"φύλαξ", DeclPattern "3rd_decl_velar"
     [("nom_sg", γ"ξ"); ("gen_sg", γ"κος"); ("dat_sg", γ"κι"); ("acc_sg", γ"κα"); ("voc_sg", γ"ξ");
      ("nom_pl", γ"κες"); ("gen_pl", γ"κων"); ("dat_pl", γ"ξι(ν)"); ("acc_pl", γ"κας"); ("voc_pl", γ"κες")]);
  (γ"βέλος", DeclPattern "3rd_decl_s_neut"
     [("nom_sg", γ"ος"); ("gen_sg", γ"ους"); ("dat_sg", γ"ει"); ("acc_sg", γ"ος"); ("voc_sg", γ"ος");
      ("nom_pl", γ"η"); ("gen_pl", γ"ων"); ("dat_pl", γ"εσι(ν)"); ("acc_pl", γ"η"); ("voc_pl", γ"η")]);
  (γ"κτήμα", DeclPattern "3rd_decl_ma_neut"
     [("nom_sg", γ"μα"); ("gen_sg", γ"ματος"); ("dat_sg", γ"ματι"); ("acc_sg", γ"μα"); ("voc_sg", γ"μα");
      ("nom_pl", γ"ματα"); ("gen_pl", γ"ματων"); ("dat_pl", γ"μασι(ν)"); ("acc_pl", γ"ματα"); ("voc_pl", γ"ματα")]);
  (γ"καλός", DeclPattern "2-1-2_adj"
     [("masc_nom_sg", γ"ος"); ("masc_gen_sg", γ"ου"); ("masc_dat_sg", γ"ῳ"); ("masc_acc_sg", γ"ον"); ("masc_voc_sg", γ"ε");
      ("masc_nom_pl", γ"οι"); ("masc_gen_pl", γ"ων"); ("masc_dat_pl", γ"οις"); ("masc_acc_pl", γ"ους"); ("masc_voc_pl", γ"οι");
      ("fem_nom_sg", γ"η"); ("fem_gen_sg", γ"ης"); ("fem_dat_sg", γ"ῃ"); ("fem_acc_sg", γ"ην"); ("fem_voc_sg", γ"η");
      ("fem_nom_pl", γ"αι"); ("fem_gen_pl", γ"ων"); ("fem_dat_pl", γ"αις"); ("fem_acc_pl", γ"ας"); ("fem_voc_pl", γ"αι");
      ("neut_nom_sg", γ"ον"); ("neut_gen_sg", γ"ου"); ("neut_dat_sg", γ"ῳ"); ("neut_acc_sg", γ"ον"); ("neut_voc_sg", γ"ον");
      ("neut_nom_pl", γ"α"); ("neut_gen_pl", γ"ων"); ("neut_dat_pl", γ"οις"); ("neut_acc_pl", γ"α"); ("neut_voc_pl", γ"α")]);
  (γ"δύσκολος", DeclPattern "2-1-2_adj_compound"
     [("masc_nom_sg", γ"ος"); ("masc_gen_sg", γ"ου"); ("masc_dat_sg", γ"ῳ"); ("masc_acc_sg", γ"ον"); ("masc_voc_sg", γ"ος");
      ("masc_nom_pl", γ"οι"); ("masc_gen_pl", γ"ων"); ("masc_dat_pl", γ"οις"); ("masc_acc_pl", γ"ους"); ("masc_voc_pl", γ"οι");
      ("fem_nom_sg", γ"ος"); ("fem_gen_sg", γ"ου"); ("fem_dat_sg", γ"ῳ"); ("fem_acc_sg", γ"ον"); ("fem_voc_sg", γ"ος");
      ("fem_nom_pl", γ"οι"); ("fem_gen_pl", γ"ων"); ("fem_dat_pl", γ"οις"); ("fem_acc_pl", γ"ους"); ("fem_voc_pl", γ"οι");
      ("neut_nom_sg", γ"ον"); ("neut_gen_sg", γ"ου"); ("neut_dat_sg", γ"ῳ"); ("neut_acc_sg", γ"ον"); ("neut_voc_sg", γ"ον");
      ("neut_nom_pl", γ"α"); ("neut_gen_pl", γ"ων"); ("neut_dat_pl", γ"οις"); ("neut_acc_pl", γ"α"); ("neut_voc_pl", γ"α")])
 ].

(** [self.patterns.get(name)] *)
Definition pattern_get (name : pystr) : option decl_pattern :=
  snd <$> List.find (fun np => bool_decide (np.1 = name)) decl_patterns.

(** The loop of lines 143-152: the ending of the first key that is a
    plain [nom_sg], or [masc_nom_sg]. *)
Fixpoint nom_ending_of (endings : list (String.string * pystr)) : option pystr :=
  match endings with
  | [] => None
  | (key, ending) :: es =>
      let k := utf8 key in
      if endswith k γ"nom_sg" && negb (startswith_any k [γ"masc_"; γ"fem_"; γ"neut_"]) then Some ending
      else if String.eqb key "nom_sg" then Some ending
      else if String.eqb key "masc_nom_sg" then Some ending
      else nom_ending_of es
  end.

(** [get_stem], lines 135-158. *)
Definition get_stem (word pattern_name : pystr) : option pystr :=
  match pattern_get pattern_name with
  | None => None
  | Some pattern =>
      match nom_ending_of (dp_endings pattern) with
      | Some nom_ending =>
          if nonempty nom_ending && endswith word nom_ending
          then Some (slice_neg word (length nom_ending))
          else Some word
      | None => Some word
      end
  end.

(** A generated form: [form] and [case] (the [pattern] key is the
    pattern name of the call). *)
Record gen_form := GenForm {
  gf_form : pystr;
  gf_case : String.string
}.

(** [ending.replace('(ν)', '').replace('(ι)', '').replace('(ε)', '')] *)
Definition clean_ending (ending : pystr) : pystr :=
  py_replace (py_replace (py_replace ending γ"(ν)" []) γ"(ι)" []) γ"(ε)" [].

(** One ending, lines 172-197. *)
Definition case_forms (lemma stem : pystr) (ce : String.string * pystr) : list gen_form :=
  let '(case_name, ending) := ce in
  let clean := clean_ending ending in
  let form := if nonempty clean then stem ++ clean else stem in
  (if bool_decide (form = lemma) then [] else [GenForm form case_name]) ++
  (if contains ending γ"(ν)" then
     let form_with_n := stem ++ py_replace ending γ"(ν)" γ"ν" in
     if bool_decide (form_with_n = lemma) then []
     else [GenForm form_with_n (case_name ++ "_with_nu")]
   else []).

(** [generate_forms], lines 160-199. *)
Definition generate_forms (lemma pattern_name : pystr) : list gen_form :=
  match pattern_get pattern_name with
  | None => []
  | Some pattern =>
      match get_stem lemma pattern_name with
      | None => []
      | Some stem => concat (map (case_forms lemma stem) (dp_endings pattern))
      end
  end.

(** ** The page loop of lines 218-276 *)

(** A mapping of lines 253-262; [confidence] and [morph_type] are
    constants, [source] is built from [pattern]. *)
Record decl_out := DeclOut {
  do_word_form : pystr;
  do_lemma : pystr;
  do_pattern : pystr;
  do_case : String.string;
  do_debug_title : pystr;
  do_debug_form : pystr
}.

Record dx_state := DxState {
  dx_pages_processed : Z;
  dx_declension_pages : Z;
  dx_all_mappings : list decl_out
}.

(** [f"{{{{grc-κλίση-'{pattern_name}'" in text] for the patterns in
    order, up to the [break] of line 268. *)
Fixpoint first_template (names : list pystr) (text : pystr) : option pystr :=
  match names with
  | [] => None
  | n :: ns =>
      if contains text (γ"{{grc-κλίση-'" ++ n ++ γ"'") then Some n else first_template ns text
  end.

(** The mappings of one page, lines 247-263. *)
Definition form_outs (title pattern_name : pystr) (forms : list gen_form) : list decl_out :=
  let title_normalized := normalize_greek_guarded title in
  omap (fun fd =>
          let form_normalized := normalize_greek_guarded (gf_form fd) in
          if bool_decide (form_normalized = title_normalized) then None
          else Some (DeclOut form_normalized title_normalized pattern_name (gf_case fd)
                       title (gf_form fd)))
    forms.

(** One page, lines 219-272. *)
Definition decl_page (e : element) (st : dx_state) : dx_state :=
  let st := DxState (dx_pages_processed st + 1) (dx_declension_pages st) (dx_all_mappings st) in
  match find_mw "title" e, find_mw "text" e with
  | Some title_elem, Some text_elem =>
      let title := opt_str (Xml.text title_elem) in
      let text := opt_str (Xml.text text_elem) in
      if contains title [58] then st
      else
        match first_template (map fst decl_patterns) text with
        | None => st
        | Some pattern_name =>
            let st := DxState (dx_pages_processed st) (dx_declension_pages st + 1)
                        (dx_all_mappings st) in
            match generate_forms title pattern_name with
            | [] => st
            | forms =>
                DxState (dx_pages_processed st) (dx_declension_pages st)
                  (dx_all_mappings st ++ form_outs title pattern_name forms)
            end
        end
  | _, _ => st
  end.

Definition decl_loop (evs : list (xml_event * element)) (st : dx_state) : dx_state :=
  fold_left (fun st '(ev, e) => if is_page_end ev e then decl_page e st else st) evs st.

Definition decl_key (m : decl_out) : pystr * pystr := (do_word_form m, do_lemma m).

(** The written JSON, lines 297-310. *)
Record decl_file := DeclFile {
  df_total_pages_processed : Z;
  df_declension_pages_found : Z;
  df_total_mappings : Z;
  df_mappings : list decl_out
}.

(** [extract_declension_mappings], lines 201-319: it returns [True]
    whenever it does not raise. *)
Definition extract_declension_mappings (dump : list (xml_event * element))
    : extract_error + decl_file :=
  match dump with
  | [] => inl StopIteration
  | _ :: evs =>
      let st := decl_loop evs (DxState 0 0 []) in
      let final := first_by_key decl_key ∅ (dx_all_mappings st) in
      inr (DeclFile (dx_pages_processed st) (dx_declension_pages st)
             (Z.of_nat (length final)) final)
  end.

(** The source string of line 257. *)
Definition decl_source (m : decl_out) : String.string :=
  ("elwiktionary:declension:" ++ utf8_encode (do_pattern m))%string.

(** The file as the loader of create_perseus_database.py reads it. *)
Definition json_of_decl (m : decl_out) : json_mapping :=
  JsonMapping (JVal (do_word_form m)) (JVal (do_lemma m)) (JVal (9 # 10))
    (JVal (decl_source m)) JAbsent (JVal "generated"%string).

(** The file as add_declension_mappings.py reads it. *)
Definition decl_mapping_of (m : decl_out) : decl_mapping :=
  DeclMapping (JVal (do_word_form m)) (JVal (do_lemma m)) (JVal (do_case m))
    (JVal (decl_source m)) (JVal (9 # 10)).

(** The row add_declension_mappings.py inserts for a mapping of the file
    (lines 51-60). *)
Definition decl_row (m : decl_out) : row :=
  Row (do_word_form m) (do_word_form m) (do_lemma m) (Some (9 # 10)) (Some (decl_source m))
    (Some (do_case m)).

End DeclensionExtractor.

(** ** Theorems *)

Section DeclensionTheorems.
Context `{UnicodeDB}.

Lemma app_if_nonempty (stem e : pystr) : (if nonempty e then stem ++ e else stem) = stem ++ e.
Proof. destruct e; simpl; [by rewrite app_nil_r|done]. Qed.

Lemma case_forms_spec lemma stem ce gf :
  gf ∈ case_forms lemma stem ce ->
  gf_form gf <> lemma /\
  (gf = GenForm (stem ++ clean_ending ce.2) ce.1 \/
   gf = GenForm (stem ++ py_replace ce.2 γ"(ν)" γ"ν") (ce.1 ++ "_with_nu")).
Proof.
  destruct ce as [case_name ending]. unfold case_forms. cbn [fst snd].
  rewrite app_if_nonempty. intros [H1|H2]%elem_of_app.
  - case_bool_decide; [inversion H1|]. apply list_elem_of_singleton in H1 as ->. auto.
  - destruct (contains ending _); [|inversion H2].
    case_bool_decide; [inversion H2|]. apply list_elem_of_singleton in H2 as ->. auto.
Qed.

(** Every generated form differs from the lemma and is the stem followed
    by the ending of a case of the pattern, without its optional
    letters, or with [(ν)] written [ν] for the [_with_nu] case. *)
Theorem generate_forms_spec lemma name gf :
  gf ∈ generate_forms lemma name ->
  gf_form gf <> lemma /\
  exists pat stem case_name ending,
    pattern_get name = Some pat /\ get_stem lemma name = Some stem /\
    (case_name, ending) ∈ dp_endings pat /\
    (gf = GenForm (stem ++ clean_ending ending) case_name \/
     gf = GenForm (stem ++ py_replace ending γ"(ν)" γ"ν") (case_name ++ "_with_nu")).
Proof.
  unfold generate_forms. destruct (pattern_get name) as [pat|] eqn:Hp; [|intros Hg; inversion Hg].
  destruct (get_stem lemma name) as [stem|] eqn:Hs; [|intros Hg; inversion Hg].
  intros Hg. apply list_elem_of_In, in_concat in Hg as (l & Hl & Hg).
  apply in_map_iff in Hl as ([case_name ending] & <- & Hce).
  apply list_elem_of_In, case_forms_spec in Hg as [Hne Hgf].
  split; [done|]. exists pat, stem, case_name, ending.
  split; [done|]. split; [done|]. split; [by apply list_elem_of_In|done].
Qed.
(** [get_stem] cuts the nominative ending exactly when the word ends
    with it: the stem followed by the ending is the word, and otherwise
    the stem is the whole word. *)
Theorem get_stem_spec word name pat ne :
  pattern_get name = Some pat -> nom_ending_of (dp_endings pat) = Some ne -> ne <> [] ->
  exists stem, get_stem word name = Some stem /\
    (if endswith word ne then stem ++ ne = word else stem = word).
Proof.
  intros Hp Hn Hne. unfold get_stem. rewrite Hp, Hn.
  assert (nonempty ne = true) as -> by by apply nonempty_true.
  destruct (endswith word ne) eqn:E; simpl; [|by eexists].
  apply endswith_spec in E as [r ->]. exists r. by rewrite slice_neg_app.
Qed.

(** Every pattern has a non-empty nominative ending. *)
Example nom_endings_nonempty :
  forallb (fun np => match nom_ending_of (dp_endings np.2) with
                     | Some ne => nonempty ne | None => false end) decl_patterns = true.
Proof. vm_compute. reflexivity. Qed.

Lemma pattern_get_in name pat : pattern_get name = Some pat -> (name, pat) ∈ decl_patterns.
Proof.
  unfold pattern_get. destruct (List.find _ _) as [[n p]|] eqn:E; [|discriminate].
  intros [= <-]. apply List.find_some in E as [Hin Hn%bool_decide_eq_true].
  simpl in Hn. subst n. by apply list_elem_of_In.
Qed.

Lemma get_stem_prefix word name stem :
  get_stem word name = Some stem -> exists r, word = stem ++ r.
Proof.
  unfold get_stem. destruct (pattern_get name); [|discriminate].
  destruct (nom_ending_of _) as [ne|]; [|intros [= <-]; exists []; by rewrite app_nil_r].
  destruct (nonempty ne && endswith word ne) eqn:E; [|intros [= <-]; exists []; by rewrite app_nil_r].
  apply andb_true_iff in E as [Hne%nonempty_true Hend%endswith_spec]. destruct Hend as [r ->].
  intros [= <-]. rewrite slice_neg_app by done. by exists ne.
Qed.

(** A string without parentheses. *)
Definition paren_free (s : pystr) : Prop := Forall (fun c => c ∉ γ"()") s.

(** The table of lines 36-133: the keys [nom_sg] and [masc_nom_sg] name
    the ending the loop of lines 143-152 picks, and no ending keeps a
    parenthesis once its optional letters are removed or [(ν)] is written
    [ν]. *)
Lemma decl_patterns_nominative :
  Forall (fun np => Forall (fun ce => ce.1 ∈ ["nom_sg"; "masc_nom_sg"]%string ->
                                      nom_ending_of (dp_endings np.2) = Some ce.2 /\ ce.2 <> [])
                           (dp_endings np.2)) decl_patterns.
Proof. apply (bool_decide_unpack _). vm_compute. reflexivity. Qed.

Lemma decl_patterns_paren_free :
  Forall (fun np => Forall (fun ce => paren_free (clean_ending ce.2) /\
                                      paren_free (py_replace ce.2 γ"(ν)" γ"ν"))
                           (dp_endings np.2)) decl_patterns.
Proof. apply (bool_decide_unpack _). vm_compute. reflexivity. Qed.

(** C29: The stem [get_stem] takes for a pattern of the table is cut at
    the ending of the pattern's [nom_sg] key (nouns) or [masc_nom_sg] key
    (adjectives), which is never empty: the word without that ending when
    the word ends with it, and otherwise the whole word (the oxytone case
    of the findings). *)
Theorem get_stem_nominative word name pat key ne :
  pattern_get name = Some pat -> key ∈ ["nom_sg"; "masc_nom_sg"]%string -> (key, ne) ∈ dp_endings pat ->
  ne <> [] /\ exists stem, get_stem word name = Some stem /\
    (if endswith word ne then stem ++ ne = word else stem = word).
Proof.
  intros Hp Hk Hce. pose proof decl_patterns_nominative as Ht.
  rewrite list.Forall_forall in Ht. specialize (Ht _ (pattern_get_in _ _ Hp)).
  rewrite list.Forall_forall in Ht. destruct (Ht _ Hce Hk) as [Hn Hne]. cbn [fst snd] in *.
  split; [done|]. by apply (get_stem_spec word name pat ne).
Qed.

(** C28: Every form [generate_forms] makes for a lemma without
    parentheses is free of parentheses (the optional [(ν)], [(ι)] and
    [(ε)] of the table's endings are removed, or [(ν)] is written [ν]),
    differs from the lemma, and is a prefix of the lemma followed by an
    ending of a case of the named pattern. *)
Theorem generate_forms_no_parentheses lemma name gf :
  paren_free lemma -> gf ∈ generate_forms lemma name ->
  paren_free (gf_form gf) /\ gf_form gf <> lemma /\
  exists pat stem r case_name ending, pattern_get name = Some pat /\ lemma = stem ++ r /\
    (case_name, ending) ∈ dp_endings pat /\
    (gf = GenForm (stem ++ clean_ending ending) case_name \/
     gf = GenForm (stem ++ py_replace ending γ"(ν)" γ"ν") (case_name ++ "_with_nu")).
Proof.
  intros Hl Hg. destruct (generate_forms_spec _ _ _ Hg)
    as [Hne (pat & stem & case_name & ending & Hp & Hs & Hce & Hgf)].
  destruct (get_stem_prefix _ _ _ Hs) as [r Hr].
  pose proof decl_patterns_paren_free as Ht.
  rewrite list.Forall_forall in Ht. specialize (Ht _ (pattern_get_in _ _ Hp)).
  rewrite list.Forall_forall in Ht. destruct (Ht _ Hce) as [Hc Hn]. cbn [snd] in Hc, Hn.
  assert (paren_free stem) as Hst by (unfold paren_free in *; rewrite Hr in Hl; by apply Forall_app in Hl as [? _]).
  split; [|split; [done|]; exists pat, stem, r, case_name, ending; done].
  destruct Hgf as [-> | ->]; simpl; by apply Forall_app.
Qed.

(** What every written mapping satisfies. *)
Definition decl_out_ok (m : decl_out) : Prop := do_word_form m <> do_lemma m.

Definition dx_ok (st : dx_state) : Prop :=
  0 <= dx_declension_pages st <= dx_pages_processed st /\ Forall decl_out_ok (dx_all_mappings st).

Lemma form_outs_ok title name forms : Forall decl_out_ok (form_outs title name forms).
Proof.
  apply Forall_forall. intros m Hm%list_elem_of_In.
  apply list_elem_of_omap in Hm as (fd & _ & Hfd).
  revert Hfd; cbv zeta; case_bool_decide as Hn; [discriminate|]. intros [= <-]. exact Hn.
Qed.

Lemma decl_page_ok e st :
  dx_ok st -> dx_ok (decl_page e st) /\ dx_pages_processed (decl_page e st) = dx_pages_processed st + 1.
Proof.
  unfold dx_ok; intros (H1 & HF). unfold decl_page; cbv zeta.
  destruct (find_mw "title" e), (find_mw "text" e);
    cbn [dx_declension_pages dx_pages_processed dx_all_mappings]; try (split; [split; [lia|done]|done]).
  destruct (contains _ [58]); cbn [dx_declension_pages dx_pages_processed dx_all_mappings];
    [split; [split; [lia|done]|done]|].
  destruct (first_template _ _) as [name|]; cbn [dx_declension_pages dx_pages_processed dx_all_mappings];
    [|split; [split; [lia|done]|done]].
  destruct (generate_forms _ name) as [|fd fds]; cbn [dx_declension_pages dx_pages_processed dx_all_mappings];
    [split; [split; [lia|done]|done]|].
  split; [|done]. split; [lia|]. apply Forall_app. split; [done|apply form_outs_ok].
Qed.

Lemma decl_loop_ok evs st :
  dx_ok st -> dx_ok (decl_loop evs st) /\
  dx_pages_processed (decl_loop evs st) <= dx_pages_processed st + Z.of_nat (page_ends evs).
Proof.
  unfold decl_loop, page_ends. revert st; induction evs as [|[ev e] evs IH]; intros st Hok; simpl.
  - split; [done|lia].
  - destruct (is_page_end ev e); simpl.
    + destruct (decl_page_ok e st Hok) as [Hok' Hn]. destruct (IH _ Hok'). split; [done|lia].
    + destruct (IH _ Hok). split; [done|lia].
Qed.

(** C15: The file the extractor writes: no two mappings with the same
    [(word_form, lemma)], none mapping a word form to itself,
    [total_mappings] their number, and the declension pages counted
    among the pages read, which are pages of the dump. *)
Theorem decl_output_ok dump f :
  extract_declension_mappings dump = inr f ->
  NoDup (map decl_key (df_mappings f)) /\ Forall decl_out_ok (df_mappings f) /\
  df_total_mappings f = Z.of_nat (length (df_mappings f)) /\
  0 <= df_declension_pages_found f <= df_total_pages_processed f /\
  df_total_pages_processed f <= Z.of_nat (page_ends dump).
Proof.
  destruct dump as [|x evs]; [discriminate|]. intros [= <-].
  cbn [df_mappings df_total_mappings df_declension_pages_found df_total_pages_processed].
  destruct (decl_loop_ok evs (DxState 0 0 [])) as [(H1 & HF) Hp]; [split; [cbn; lia|constructor]|].
  pose proof (page_ends_cons x evs). cbn [dx_pages_processed] in Hp.
  destruct (first_by_key_spec decl_key ∅ (dx_all_mappings (decl_loop evs (DxState 0 0 []))))
    as (Hnd & _ & _).
  split; [exact Hnd|]. split; [by apply first_by_key_Forall|]. split; [done|]. split; [lia|lia].
Qed.

Lemma extract_declension_keys dump f :
  extract_declension_mappings dump = inr f -> NoDup (map decl_key (df_mappings f)).
Proof.
  destruct dump as [|x evs]; [discriminate|]. intros [= <-]. apply first_by_key_spec.
Qed.

Lemma count_key_absent k t : k ∉ map row_key t -> count_key k t = 0%nat.
Proof.
  induction t as [|r t IH]; intros Hk; [done|]. unfold count_key in *; simpl.
  case_bool_decide as E; [exfalso; apply Hk; rewrite <- E; by left|].
  apply IH. intros Hin. apply Hk. by right.
Qed.

(** A mapping whose key is not in the table is inserted as [decl_row]. *)
Lemma decl_step_fresh t added skipped m :
  decl_key m ∉ map row_key t ->
  decl_step (t, added, skipped) (decl_mapping_of m) = inr (t ++ [decl_row m], S added, skipped).
Proof.
  intros Hk. unfold decl_step, decl_mapping_of. cbn [jreq sbind count_key_opt dm_word_form dm_lemma].
  rewrite count_key_absent by exact Hk. cbn [Nat.ltb Nat.leb insert_nullable jget_or dm_confidence dm_source dm_case].
  rewrite insert_fresh by (by apply key_in_false). done.
Qed.

Lemma decl_steps_fresh ms t added skipped :
  NoDup (map decl_key ms) -> Forall (fun m => decl_key m ∉ map row_key t) ms ->
  fold_err decl_step (map decl_mapping_of ms) (t, added, skipped) =
    inr (t ++ map decl_row ms, (added + length ms)%nat, skipped).
Proof.
  revert t added; induction ms as [|m ms IH]; intros t added Hnd Hfresh; cbn [map fold_err].
  - by rewrite app_nil_r, Nat.add_0_r.
  - cbn [map] in Hnd. inversion Hnd as [|? ? Hm Hnd']; subst. apply list.Forall_cons in Hfresh as [Hk Hfresh].
    rewrite decl_step_fresh by done. cbn [sbind]. rewrite IH.
    + cbn [map length]. rewrite <- app_assoc.
      by replace (S added + length ms)%nat with (added + S (length ms))%nat by lia.
    + exact Hnd'.
    + apply Forall_forall. intros m' Hm'. rewrite map_app, elem_of_app. intros [Ht|Hs].
      * by apply (proj1 (Forall_forall _ _) Hfresh m').
      * apply list_elem_of_singleton in Hs. change (row_key (decl_row m)) with (decl_key m) in Hs.
        apply Hm. rewrite <- Hs. by apply list_elem_of_In, in_map.
Qed.

(** C14: add_declension_mappings.py run on the extractor's file over a table
    holding none of the file's keys (the database before the pass) never
    raises, skips nothing and appends exactly one row per mapping, in the
    order of the file, with confidence 0.9, the file's source and the
    case as [morph_info]: the deduplication of lines 285-292 is what
    keeps its plain INSERT from failing. *)
Theorem decl_then_post_pass dump f t :
  extract_declension_mappings dump = inr f ->
  Forall (fun m => decl_key m ∉ map row_key t) (df_mappings f) ->
  add_declension_mappings (map decl_mapping_of (df_mappings f)) t =
    inr (t ++ map decl_row (df_mappings f), length (df_mappings f), 0%nat).
Proof.
  intros Hx Hfresh. unfold add_declension_mappings.
  by apply decl_steps_fresh; [apply (extract_declension_keys dump)|].
Qed.

Lemma decl_json_complete ms : Forall jm_complete (map json_of_decl ms).
Proof.
  apply Forall_forall. intros x (e & <- & _)%in_map_iff.
  split; [eauto|]. repeat split; discriminate.
Qed.

(** Read by [load_wiktionary_mappings], the file never raises and no
    mapping fails; every row it adds maps a word form to a different
    headword with confidence 0.9. *)
Lemma decl_then_load V dump f t c :
  extract_declension_mappings dump = inr f -> pk_ok t ->
  let '(t', c', aborted) := load_mappings V (map json_of_decl (df_mappings f)) t c in
  aborted = false /\ failed c' = failed c /\
  forall r, r ∈ t' -> r ∈ t \/ (lemma r ∈ V /\ word_form r <> lemma r /\ confidence r = Some (9 # 10)).
Proof.
  intros Hx Hpk.
  pose proof (load_mappings_complete V _ t c (decl_json_complete (df_mappings f))) as Hl.
  destruct (load_mappings _ _ t _) as [[t' c'] ab] eqn:El. destruct Hl as [-> Hf].
  split; [done|]. split; [done|]. intros r Hr.
  destruct (load_mappings_row _ _ _ _ _ _ _ r El Hpk Hr) as [|(Hv & m & Hm & Hc & Hlm & Hwm)];
    [by left|right].
  apply list_elem_of_In, in_map_iff in Hm as (e & <- & He).
  assert (Hok : decl_out_ok e).
  { destruct dump as [|x evs]; [discriminate|]. injection Hx as <-.
    apply (proj1 (Forall_forall _ _) (first_by_key_Forall decl_key decl_out_ok ∅ _
      (proj2 (proj1 (decl_loop_ok evs (DxState 0 0 []) ltac:(split; [cbn; lia|constructor])))))).
    exact He. }
  cbn [json_of_decl jm_lemma jm_word_form jm_confidence jget] in Hc, Hlm, Hwm.
  injection Hlm as Hlm. injection Hwm as Hwm.
  split; [done|]. split; [intros Heq; apply Hok; congruence|done].
Qed.

End DeclensionTheorems.

(** ** Pages of a dump *)

Definition drome_dump : list (xml_event * element) :=
  [(EvStart, dump_root); (EvEnd, talk_page);
   (EvEnd, wiki_page (Some γ"λόγος") (Some γ"{{grc-κλίση-'δρόμος'}}"))].

(** The file of [drome_dump], as the extractor computes it. *)
Definition drome_file : decl_file :=
  Eval vm_compute in
    match extract_declension_mappings drome_dump with
    | inr f => f
    | inl _ => DeclFile 0 0 0 []
    end.

Lemma decl_output_ok_witness :
  extract_declension_mappings drome_dump = inr drome_file /\
  NoDup (map decl_key (df_mappings drome_file)) /\ Forall decl_out_ok (df_mappings drome_file).
Proof.
  assert (E : extract_declension_mappings drome_dump = inr drome_file) by (vm_compute; reflexivity).
  destruct (decl_output_ok _ _ E) as (H1 & H2 & _). split; [exact E|]. split; [exact H1|exact H2].
Defined.

Lemma decl_then_post_pass_witness :
  extract_declension_mappings drome_dump = inr drome_file /\
  add_declension_mappings (map decl_mapping_of (df_mappings drome_file)) [] =
    inr (map decl_row (df_mappings drome_file), length (df_mappings drome_file), 0%nat).
Proof.
  assert (E : extract_declension_mappings drome_dump = inr drome_file) by (vm_compute; reflexivity).
  split; [exact E|]. apply (decl_then_post_pass drome_dump drome_file [] E).
  apply Forall_forall. intros m _ Hm. inversion Hm.
Defined.

Lemma get_stem_nominative_witness :
  pattern_get γ"καλός" = Some (default (DeclPattern "" []) (pattern_get γ"καλός")) /\
  ("masc_nom_sg"%string, γ"ος") ∈ dp_endings (default (DeclPattern "" []) (pattern_get γ"καλός")) /\
  get_stem γ"καλός" γ"καλός" = Some γ"καλός".
Proof.
  assert (Hp : pattern_get γ"καλός" = Some (default (DeclPattern "" []) (pattern_get γ"καλός")))
    by (vm_compute; reflexivity).
  assert (Hce : ("masc_nom_sg"%string, γ"ος") ∈ dp_endings (default (DeclPattern "" []) (pattern_get γ"καλός")))
    by (apply list_elem_of_In; vm_compute; left; reflexivity).
  destruct (get_stem_nominative γ"καλός" γ"καλός" _ "masc_nom_sg"%string γ"ος" Hp
              ltac:(apply list_elem_of_In; simpl; right; left; reflexivity) Hce) as (_ & stem & Hs & Hr).
  assert (E : endswith γ"καλός" γ"ος" = false) by (vm_compute; reflexivity).
  rewrite E in Hr. subst stem. split; [exact Hp|]. split; [exact Hce|exact Hs].
Defined.

Lemma generate_forms_no_parentheses_witness :
  paren_free γ"πόλις" /\ GenForm γ"πόλεσιν" "dat_pl_with_nu" ∈ generate_forms γ"πόλις" γ"πόλις" /\
  paren_free γ"πόλεσιν".
Proof.
  assert (Hl : paren_free γ"πόλις") by (apply (bool_decide_unpack _); vm_compute; reflexivity).
  assert (Hin : GenForm γ"πόλεσιν" "dat_pl_with_nu" ∈ generate_forms γ"πόλις" γ"πόλις")
    by (apply list_elem_of_In; vm_compute; repeat (first [left; reflexivity | right])).
  split; [exact Hl|]. split; [exact Hin|].
  exact (proj1 (generate_forms_no_parentheses _ _ _ Hl Hin)).
Defined.

(** An oxytone lemma, whose accented ending [ός] is not the pattern's
    [ος], keeps its whole word as the stem: the page of καλός with the
    template of its own pattern gets the forms [καλόςος], [καλόςου],
    [καλόςῳ], ... and maps their normal forms to [καλοσ]. *)
Example oxytone_lemma_whole_word_stem :
  match extract_declension_mappings
          [(EvStart, dump_root);
           (EvEnd, wiki_page (Some γ"καλός") (Some γ"{{grc-κλίση-'καλός'}}"))] with
  | inr f => take 3 (map (fun m => (do_word_form m, do_lemma m, do_case m)) (df_mappings f))
  | inl _ => []
  end =
  [(γ"καλοσοσ", γ"καλοσ", "masc_nom_sg"%string); (γ"καλοσου", γ"καλοσ", "masc_gen_sg"%string);
   (γ"καλοσω", γ"καλοσ", "masc_dat_sg"%string)].
Proof. vm_compute. reflexivity. Qed.
