(* ===== verification/Build.v ===== *)
(** * The master build: build_database.py

    [main] runs create_perseus_database.py in a subprocess (modelled by
    [Pipeline.create_lemma_index]; a failure exits the build), then three
    passes of its own on [lemma_map]: [add_wiktionary_inflections],
    [add_greek_wiktionary_declensions] and [add_nu_movable_variants], and
    [add_wiktionary_definitions], which only adds dictionary entries.
    Unlike the stand-alone scripts of [PostPass], these passes store the
    form as it comes in [word_form] and its [normalize_greek] in
    [word_normalized], and guard their plain [INSERT] with a query on
    [(word_normalized, lemma)], which is not the key.  Each pass commits
    at its end, so when a pass raises the database keeps what the earlier
    passes committed.  The script's own [normalize_greek] (lines 24-31) is
    the body of [Normalize.normalize_greek]. *)

From S2P Require Import Prelude Unicode Normalize LemmaMap Paradigm Resolver Pipeline PostPass.

Section BuildDatabase.
Context `{UnicodeDB}.

(** ** add_wiktionary_inflections, lines 45-90 *)

(** A value of the morphology field: a list is joined with [', ']. *)
Inductive morph_value :=
  | MList (parts : list String.string)
  | MStr (s : String.string).

(** A value of the JSON object: [isinstance(lemma_data, dict)] or not. *)
Inductive infl_value :=
  | IDict (lemma : jval pystr) (morphology : jval morph_value)
  | IOther.

(** [lemma_data.get('morphology', '')], joined when it is a list. *)
Definition morph_text (v : jval morph_value) : option String.string :=
  match v with
  | JAbsent => Some ""%string
  | JNull => None
  | JVal (MList parts) => Some (String.concat ", " parts)
  | JVal (MStr s) => Some s
  end.

(** The guarded plain [INSERT] of the three passes. *)
Definition guarded_insert (r : row) (st : table * nat) : script_error + (table * nat) :=
  let '(t, count) := st in
  if exists_normalized (word_normalized r) (lemma r) t then inr st
  else t' ←? sql_err (insert r t) ; inr (t', S count).

(** The body of the loop of lines 59-83. *)
Definition bd_infl_step (st : table * nat) (x : pystr * infl_value) : script_error + (table * nat) :=
  let '(word_form, v) := x in
  match v with
  | IOther | IDict JAbsent _ => inr st
  | IDict JNull _ => inl (TypeError "normalize() argument 2 must be str, not None")
  | IDict (JVal lemma) morph =>
      guarded_insert (Row word_form (normalize_greek word_form) (normalize_greek lemma)
                        (Some (9 # 10)) (Some "wiktionary_inflection"%string) (morph_text morph)) st
  end.

(** [None] when the file does not exist. *)
Definition add_wiktionary_inflections (file : option (list (pystr * infl_value))) (t : table)
    : script_error + (table * nat) :=
  match file with
  | None => inr (t, 0%nat)
  | Some members => fold_err bd_infl_step (dict_of_literal members) (t, 0%nat)
  end.

(** ** add_greek_wiktionary_declensions, lines 92-149 *)

Record bd_decl := BdDecl {
  bd_word_form : jval pystr;
  bd_lemma : jval pystr;
  bd_case : jval String.string;
  bd_number : jval String.string;
  bd_gender : jval String.string
}.

(** [mapping.get(k, '')] and its truth value. *)
Definition get_text (v : jval pystr) : pystr := match v with JVal s => s | _ => [] end.

Definition truthy_part (v : jval String.string) : list String.string :=
  match v with JVal s => if String.eqb s "" then [] else [s] | _ => [] end.

(** Lines 117-125: the non-empty parts joined with ['_']. *)
Definition decl_morph (m : bd_decl) : String.string :=
  String.concat "_" (truthy_part (bd_case m) ++ truthy_part (bd_number m) ++ truthy_part (bd_gender m)).

(** The body of the loop of lines 109-142. *)
Definition bd_decl_step (st : table * nat) (m : bd_decl) : script_error + (table * nat) :=
  let word_form := get_text (bd_word_form m) in
  let lemma := get_text (bd_lemma m) in
  match word_form, lemma with
  | _ :: _, _ :: _ =>
      guarded_insert (Row word_form (normalize_greek word_form) (normalize_greek lemma)
                        (Some (17 # 20)) (Some "greek_wiktionary_declension"%string)
                        (Some (decl_morph m))) st
  | _, _ => inr st
  end.

Definition add_greek_wiktionary_declensions (file : option (list bd_decl)) (t : table)
    : script_error + (table * nat) :=
  match file with
  | None => inr (t, 0%nat)
  | Some mappings => fold_err bd_decl_step mappings (t, 0%nat)
  end.

(** ** add_nu_movable_variants, lines 151-194 *)

(** [source != 'nu_movable_variant'], false on [NULL]. *)
Definition not_nu_source (x : option String.string) : bool :=
  match x with Some s => negb (String.eqb s "nu_movable_variant") | None => false end.

(** The [WHERE] clause of lines 162-163. *)
Definition nu_candidate (r : row) : bool :=
  (sql_like γ"%ε" (word_form r) || sql_like γ"%ι" (word_form r) || sql_like γ"%σι" (word_form r)) &&
  not_nu_source (source r).

(** The query of lines 159-164. *)
Definition bd_nu_query (t : table) : list (pystr * pystr * option String.string) :=
  sql_distinct (map (fun r => (word_form r, lemma r, morph_info r)) (List.filter nu_candidate t)).

(** Lines 167-175: [morph_info + '_with_nu' if morph_info else 'with_nu']. *)
Definition nu_morph (m : option String.string) : String.string :=
  match m with
  | Some s => if String.eqb s "" then "with_nu"%string else (s ++ "_with_nu")%string
  | None => "with_nu"%string
  end.

Definition bd_nu_row (x : pystr * pystr * option String.string) : row :=
  let '(w, l, m) := x in
  Row (w ++ γ"ν") (normalize_greek (w ++ γ"ν")) l (Some (19 # 20))
      (Some "nu_movable_variant"%string) (Some (nu_morph m)).

(** The variants are computed from the query first, then inserted
    (lines 177-190). *)
Definition bd_add_nu_movable_variants (t : table) : script_error + (table * nat) :=
  fold_err (fun st x => guarded_insert (bd_nu_row x) st) (bd_nu_query t) (t, 0%nat).

(** ** main, lines 255-283 *)

(** The state of the database after the build, and the exception that
    stopped it, if any: each pass commits at its end. *)
Definition run_pass (pass : table -> script_error + (table * nat))
    (st : table * option script_error) : table * option script_error :=
  match st with
  | (t, Some e) => (t, Some e)
  | (t, None) => match pass t with inl e => (t, Some e) | inr (t', _) => (t', None) end
  end.

Definition build_database (lsj : option (list dict_entry)) (files : list mapping_file)
    (inflections : option (list (pystr * infl_value))) (declensions : option (list bd_decl))
    : build_error + (table * option script_error) :=
  match create_lemma_index lsj files with
  | inl e => inl e
  | inr (_, t) =>
      inr (run_pass bd_add_nu_movable_variants
            (run_pass (add_greek_wiktionary_declensions declensions)
              (run_pass (add_wiktionary_inflections inflections) (t, None))))
  end.

(** The row each body would insert, [None] where it skips the item. *)
Definition bd_infl_row (x : pystr * infl_value) : option row :=
  match x with
  | (word_form, IDict (JVal lemma) morph) =>
      Some (Row word_form (normalize_greek word_form) (normalize_greek lemma)
              (Some (9 # 10)) (Some "wiktionary_inflection"%string) (morph_text morph))
  | _ => None
  end.

Definition bd_decl_row (m : bd_decl) : option row :=
  match get_text (bd_word_form m), get_text (bd_lemma m) with
  | (_ :: _) as word_form, (_ :: _) as lemma =>
      Some (Row word_form (normalize_greek word_form) (normalize_greek lemma)
              (Some (17 # 20)) (Some "greek_wiktionary_declension"%string) (Some (decl_morph m)))
  | _, _ => None
  end.

(** ** Invariants *)

(** A row whose [word_normalized] is the [normalize_greek] of its form:
    every row the three passes insert. *)
Definition norm_row (r : row) : Prop := word_normalized r = normalize_greek (word_form r).

(** Every row of [t] with form [w] carries [normalize_greek w]: then the
    guard on [(word_normalized, lemma)] sees every key with form [w]. *)
Definition agrees (t : table) (w : pystr) : Prop :=
  Forall (fun r => word_form r = w -> word_normalized r = normalize_greek w) t.

(** The rows of [t] whose form ends in [ν] carry the [normalize_greek] of
    their form: then the guard of the nu-movable pass sees every key of a
    variant. *)
Definition nu_final_ok (r : row) : Prop := list.last (word_form r) = Some 957 -> norm_row r.

(** What the inflection pass needs of an item: a lemma that is not
    [null], and a form that agrees with the table. *)
Definition infl_item_ok (t : table) (x : pystr * infl_value) : Prop :=
  (forall m, x.2 <> IDict JNull m) /\ agrees t x.1.

#[export] Instance infl_item_ok_dec t x : Decision (infl_item_ok t x).
Proof.
  unfold infl_item_ok. destruct x as [w [[| |l] m|]]; cbn [fst snd];
    try (apply and_dec; [left; congruence|apply _]).
  right. intros [H' _]. by apply (H' m).
Defined.

#[export] Instance agrees_dec t w : Decision (agrees t w).
Proof. unfold agrees. apply _. Defined.

#[export] Instance nu_final_ok_dec r : Decision (nu_final_ok r).
Proof. unfold nu_final_ok, norm_row. apply _. Defined.

Lemma agrees_elem t w r : agrees t w -> r ∈ t -> word_form r = w -> word_normalized r = normalize_greek w.
Proof. intros Hag Hr. by apply (proj1 (list.Forall_forall _ _) Hag). Qed.

Lemma agrees_nu t w : Forall nu_final_ok t -> agrees t (w ++ γ"ν").
Proof.
  intros Ht. apply list.Forall_forall. intros r Hr Hw.
  rewrite <- Hw. apply (proj1 (list.Forall_forall _ _) Ht r Hr). rewrite Hw. apply list.last_snoc.
Qed.

Lemma exists_normalized_true w l t r :
  r ∈ t -> word_normalized r = w -> lemma r = l -> exists_normalized w l t = true.
Proof.
  intros Hr Hw Hl. apply existsb_exists. exists r.
  split; [by apply list_elem_of_In|]. by apply bool_decide_eq_true.
Qed.

Lemma exists_normalized_prefix w l t t' :
  t `prefix_of` t' -> exists_normalized w l t = true -> exists_normalized w l t' = true.
Proof.
  intros [t'' ->]. unfold exists_normalized. rewrite existsb_app. by intros ->.
Qed.

(** The guarded [INSERT] never raises on a row that agrees with the
    table, and leaves the pair it tested present. *)
Lemma guarded_insert_spec r t n :
  pk_ok t -> norm_row r -> agrees t (word_form r) ->
  exists t' n', guarded_insert r (t, n) = inr (t', n') /\ pk_ok t' /\
    ((t', n') = (t, n) \/ (t', n') = (t ++ [r], S n)) /\
    exists_normalized (word_normalized r) (lemma r) t' = true.
Proof.
  intros Hpk Hr Hag. unfold guarded_insert.
  destruct (exists_normalized (word_normalized r) (lemma r) t) eqn:He.
  { eexists _, _. split; [reflexivity|]. auto. }
  assert (key_in (row_key r) t = false) as Hk.
  { apply key_in_false. intros (r' & Hkey & Hr')%list_elem_of_In%in_map_iff.
    unfold row_key in Hkey. simplify_eq.
    rewrite (exists_normalized_true _ _ _ r') in He; [done|by apply list_elem_of_In|..|done].
    rewrite Hr. apply (agrees_elem t); [done|by apply list_elem_of_In|done]. }
  rewrite insert_fresh by done. cbn [sql_err sbind].
  eexists _, _. split; [reflexivity|]. split; [by apply pk_ok_snoc, key_in_false|].
  split; [by right|]. apply (exists_normalized_true _ _ _ r); [set_solver|done|done].
Qed.

Section GuardedLoop.
Context {X : Type} (f : table * nat -> X -> script_error + (table * nat)).
Context (mk : X -> option row) (ok : X -> Prop) (t0 : table) (Lfull : list X).
Hypothesis f_body : forall st x, ok x ->
  f st x = match mk x with None => inr st | Some r => guarded_insert r st end.
Hypothesis mk_norm : forall x r, mk x = Some r -> norm_row r.
Hypothesis mk_agrees : forall x r, x ∈ Lfull -> mk x = Some r -> agrees t0 (word_form r).

(** The state of the loop: the old rows, then rows the body built, one
    counted per insertion. *)
Definition loop_inv (st : table * nat) : Prop :=
  pk_ok st.1 /\ t0 `prefix_of` st.1 /\ (length st.1 = length t0 + st.2)%nat /\
  forall r, r ∈ st.1 -> r ∈ t0 \/ exists x, x ∈ Lfull /\ mk x = Some r.

Lemma loop_inv_agrees st x r : loop_inv st -> x ∈ Lfull -> mk x = Some r -> agrees st.1 (word_form r).
Proof.
  intros (_ & _ & _ & Hrows) Hx Hr. apply list.Forall_forall. intros r' Hr' Hw.
  destruct (Hrows r' Hr') as [Hin|(x' & _ & Hx')].
  - by apply (agrees_elem t0 _ r' (mk_agrees x r Hx Hr)).
  - rewrite <- Hw. by apply (mk_norm x').
Qed.

Lemma loop_step st x :
  loop_inv st -> x ∈ Lfull -> ok x ->
  exists st', f st x = inr st' /\ loop_inv st' /\ st.1 `prefix_of` st'.1 /\
    forall r, mk x = Some r -> exists_normalized (word_normalized r) (lemma r) st'.1 = true.
Proof.
  intros Hinv Hx Hok. rewrite f_body by done.
  destruct (mk x) as [r|] eqn:Hr; [|exists st; split; [done|]; split; [done|]; split; [done|discriminate]].
  destruct st as [t n]. pose proof (loop_inv_agrees _ _ _ Hinv Hx Hr) as Hag.
  destruct Hinv as (Hpk & Hpre & Hlen & Hrows). cbn [fst snd] in *.
  destruct (guarded_insert_spec r t n Hpk (mk_norm _ _ Hr) Hag) as (t' & n' & -> & Hpk' & Ht' & He).
  exists (t', n'). cbn [fst snd]. destruct Ht' as [[= -> ->]|[= -> ->]].
  - repeat split; auto. by intros ? [= <-].
  - split; [done|]. split; [|split; [by apply prefix_app_r|by intros ? [= <-]]].
    split; [done|]. split; [by apply prefix_app_r|]. cbn [fst snd].
    split; [rewrite length_app; simpl; lia|].
    intros r' [Hr'| ->%list_elem_of_singleton]%elem_of_app; [by apply Hrows|eauto].
Qed.

Lemma guarded_loop L st :
  (forall x, x ∈ L -> x ∈ Lfull) -> Forall ok L -> loop_inv st ->
  exists st', fold_err f L st = inr st' /\ loop_inv st' /\ st.1 `prefix_of` st'.1 /\
    forall x r, x ∈ L -> mk x = Some r -> exists_normalized (word_normalized r) (lemma r) st'.1 = true.
Proof.
  revert st; induction L as [|x L IH]; intros st Hsub HL Hinv; simpl.
  { exists st. split; [done|]. split; [done|]. split; [done|]. intros ?? Hx; by apply elem_of_nil in Hx. }
  apply list.Forall_cons in HL as [Hx HL].
  destruct (loop_step st x Hinv (Hsub x (list_elem_of_here _ _)) Hx) as (st1 & -> & Hinv1 & Hpre1 & He1).
  destruct (IH st1) as (st2 & E2 & Hinv2 & Hpre2 & He2); [set_solver|done|done|].
  exists st2. cbn [sbind]. split; [done|]. split; [done|]. split; [by transitivity st1.1|].
  intros y r [-> | Hy]%elem_of_cons Hr; [|by apply (He2 y)].
  by apply (exists_normalized_prefix _ _ st1.1), He1.
Qed.

(** A loop of guarded [INSERT]s on rows that agree with the table never
    raises; it keeps the key, appends only rows its body built, counts
    them, and leaves every pair it tested present. *)
Lemma guarded_loop_spec :
  Forall ok Lfull -> pk_ok t0 ->
  exists t' n, fold_err f Lfull (t0, 0%nat) = inr (t', n) /\ pk_ok t' /\ t0 `prefix_of` t' /\
    (length t' = length t0 + n)%nat /\
    (forall r, r ∈ t' -> r ∈ t0 \/ exists x, x ∈ Lfull /\ mk x = Some r) /\
    forall x r, x ∈ Lfull -> mk x = Some r -> exists_normalized (word_normalized r) (lemma r) t' = true.
Proof.
  intros HL Hpk. destruct (guarded_loop Lfull (t0, 0%nat)) as ([t' n] & E & (? & ? & ? & ?) & _ & He);
    [done|done|repeat split; [done|done|simpl; lia|auto]|].
  exists t', n. auto 10.
Qed.
End GuardedLoop.

(** ** The three passes *)

Lemma bd_infl_step_body st x :
  (forall m, x.2 <> IDict JNull m) ->
  bd_infl_step st x = match bd_infl_row x with None => inr st | Some r => guarded_insert r st end.
Proof. destruct x as [w [[| |l] m|]]; cbn; try done. intros Hx. by destruct (Hx m). Qed.

Lemma bd_infl_row_some x r :
  bd_infl_row x = Some r -> word_form r = x.1 /\ norm_row r /\ source r = Some "wiktionary_inflection"%string.
Proof. destruct x as [w [[| |l] m|]]; cbn; intros; simplify_eq; done. Qed.

Lemma bd_decl_step_body st m :
  bd_decl_step st m = match bd_decl_row m with None => inr st | Some r => guarded_insert r st end.
Proof. unfold bd_decl_step, bd_decl_row. by destruct (get_text (bd_word_form m)), (get_text (bd_lemma m)). Qed.

Lemma bd_decl_row_some m r :
  bd_decl_row m = Some r ->
  word_form r = get_text (bd_word_form m) /\ norm_row r /\ source r = Some "greek_wiktionary_declension"%string.
Proof. unfold bd_decl_row. destruct (get_text (bd_word_form m)), (get_text (bd_lemma m)); intros; simplify_eq; done. Qed.

(** A [null] lemma stops the inflection pass with a [TypeError], after the
    items before it. *)
Lemma bd_infl_null L1 w m L2 st st1 :
  fold_err bd_infl_step L1 st = inr st1 ->
  fold_err bd_infl_step (L1 ++ (w, IDict JNull m) :: L2) st =
    inl (TypeError "normalize() argument 2 must be str, not None").
Proof. intros E. by rewrite fold_err_app, E. Qed.

Lemma add_wiktionary_inflections_ok ms t :
  pk_ok t -> Forall (infl_item_ok t) (dict_of_literal ms) ->
  exists t' n, add_wiktionary_inflections (Some ms) t = inr (t', n) /\ pk_ok t' /\
    t `prefix_of` t' /\ (forall r, r ∈ t' -> r ∈ t \/ exists x, x ∈ dict_of_literal ms /\ bd_infl_row x = Some r) /\
    forall x r, x ∈ dict_of_literal ms -> bd_infl_row x = Some r ->
      exists_normalized (word_normalized r) (lemma r) t' = true.
Proof.
  intros Hpk Hok.
  destruct (guarded_loop_spec bd_infl_step bd_infl_row (fun x => forall m, x.2 <> IDict JNull m) t
              (dict_of_literal ms) bd_infl_step_body) as (t' & n & E & Hpk' & Hpre & _ & Hrows & He).
  - intros x r Hr. apply (bd_infl_row_some x r Hr).
  - intros x r Hx Hr. rewrite (proj1 (bd_infl_row_some x r Hr)).
    by apply (proj1 (list.Forall_forall _ _) Hok x Hx).
  - eapply list.Forall_impl; [exact Hok|]. by intros x [? _].
  - done.
  - exists t', n. auto.
Qed.

Lemma add_greek_wiktionary_declensions_ok ds t :
  pk_ok t -> Forall (fun m => agrees t (get_text (bd_word_form m))) ds ->
  exists t' n, add_greek_wiktionary_declensions (Some ds) t = inr (t', n) /\ pk_ok t' /\
    t `prefix_of` t' /\ (forall r, r ∈ t' -> r ∈ t \/ exists m, m ∈ ds /\ bd_decl_row m = Some r) /\
    forall m r, m ∈ ds -> bd_decl_row m = Some r ->
      exists_normalized (word_normalized r) (lemma r) t' = true.
Proof.
  intros Hpk Hok.
  destruct (guarded_loop_spec bd_decl_step bd_decl_row (fun _ => True) t ds
              (fun st m _ => bd_decl_step_body st m)) as (t' & n & E & Hpk' & Hpre & _ & Hrows & He).
  - intros m r Hr. apply (bd_decl_row_some m r Hr).
  - intros m r Hm Hr. rewrite (proj1 (bd_decl_row_some m r Hr)).
    by apply (proj1 (list.Forall_forall _ _) Hok m Hm).
  - by apply list.Forall_true.
  - done.
  - exists t', n. auto.
Qed.

Lemma bd_nu_query_elem x t :
  x ∈ bd_nu_query t -> exists r0, r0 ∈ t /\ x = (word_form r0, lemma r0, morph_info r0).
Proof.
  unfold bd_nu_query. rewrite sql_distinct_elem.
  intros (r0 & <- & Hr0)%list_elem_of_In%in_map_iff. apply filter_In in Hr0 as [Hr0 _].
  exists r0. split; [by apply list_elem_of_In|done].
Qed.

(** A row the nu-movable pass adds: the variant of a row of the table. *)
Definition nu_variant_of (t : table) (r : row) : Prop :=
  norm_row r /\ source r = Some "nu_movable_variant"%string /\
  exists r0, r0 ∈ t /\ word_form r = word_form r0 ++ γ"ν" /\ lemma r = lemma r0.

Lemma bd_add_nu_movable_variants_ok t :
  pk_ok t -> Forall nu_final_ok t ->
  exists t' n, bd_add_nu_movable_variants t = inr (t', n) /\ pk_ok t' /\ t `prefix_of` t' /\
    (forall r, r ∈ t' -> r ∈ t \/ nu_variant_of t r) /\
    forall x, x ∈ bd_nu_query t ->
      exists_normalized (normalize_greek (x.1.1 ++ γ"ν")) x.1.2 t' = true.
Proof.
  intros Hpk Hnu.
  destruct (guarded_loop_spec (fun st x => guarded_insert (bd_nu_row x) st) (fun x => Some (bd_nu_row x))
              (fun _ => True) t (bd_nu_query t) (fun _ _ _ => eq_refl))
    as (t' & n & E & Hpk' & Hpre & _ & Hrows & He).
  - intros [[w l] m] r [= <-]. done.
  - intros [[w l] m] r _ [= <-]. by apply agrees_nu.
  - by apply list.Forall_true.
  - done.
  - exists t', n. split; [done|]. split; [done|]. split; [done|]. split.
    + intros r [Hr|(x & Hx & [= <-])]%Hrows; [by left|right].
      destruct (bd_nu_query_elem x t Hx) as (r0 & Hr0 & ->).
      split; [done|]. split; [done|]. by exists r0.
    + intros [[w l] m] Hx. exact (He _ (bd_nu_row (w, l, m)) Hx eq_refl).
Qed.

Lemma bd_nu_query_intro r0 t :
  r0 ∈ t -> nu_candidate r0 = true -> (word_form r0, lemma r0, morph_info r0) ∈ bd_nu_query t.
Proof.
  intros Hr0 Hc. unfold bd_nu_query. rewrite sql_distinct_elem.
  apply list_elem_of_In, in_map_iff. exists r0. split; [done|].
  apply filter_In. split; [by apply list_elem_of_In|done].
Qed.

Lemma nu_variant_not_candidate t r : nu_variant_of t r -> nu_candidate r = false.
Proof. intros (_ & Hs & _). unfold nu_candidate. rewrite Hs. cbn. apply andb_false_r. Qed.

Lemma nu_final_ok_grow t t' (P : row -> Prop) :
  Forall nu_final_ok t -> (forall r, r ∈ t' -> r ∈ t \/ (norm_row r /\ P r)) -> Forall nu_final_ok t'.
Proof.
  intros Ht Hrows. apply list.Forall_forall. intros r [Hr|[Hn _]]%Hrows; [|by intros _].
  by apply (proj1 (list.Forall_forall _ _) Ht r Hr).
Qed.

Lemma agrees_grow t t' w (P : row -> Prop) :
  agrees t w -> (forall r, r ∈ t' -> r ∈ t \/ (norm_row r /\ P r)) -> agrees t' w.
Proof.
  intros Ht Hrows. apply list.Forall_forall. intros r [Hr|[Hn _]]%Hrows Hw.
  - by apply (agrees_elem t w r).
  - rewrite <- Hw. exact Hn.
Qed.

(** Rows that only a pass added carry the [normalize_greek] of their form. *)
Lemma rows_norm {X} (t t' : table) (L : list X) (mk : X -> option row) :
  (forall x r, mk x = Some r -> norm_row r) ->
  (forall r, r ∈ t' -> r ∈ t \/ exists x, x ∈ L /\ mk x = Some r) ->
  forall r, r ∈ t' -> r ∈ t \/ (norm_row r /\ exists x, x ∈ L /\ mk x = Some r).
Proof. intros Hn Hrows r [Hr|(x & Hx & Hr)]%Hrows; [by left|right; eauto]. Qed.

Lemma create_lemma_index_pk lsj files c t :
  create_lemma_index (Some lsj) files = inr (c, t) -> pk_ok t.
Proof.
  rewrite create_lemma_index_some. intros [= _ <-]. apply (lemma_index_spec lsj files).
Qed.

(** The three passes in the order of [main], on a table they agree with. *)
Lemma build_passes_ok ms ds t :
  pk_ok t -> Forall (infl_item_ok t) (dict_of_literal ms) ->
  Forall (fun m => agrees t (get_text (bd_word_form m))) ds -> Forall nu_final_ok t ->
  exists t1 t2 t3,
    run_pass bd_add_nu_movable_variants (run_pass (add_greek_wiktionary_declensions (Some ds))
      (run_pass (add_wiktionary_inflections (Some ms)) (t, None))) = (t3, None) /\
    t `prefix_of` t1 /\ t1 `prefix_of` t2 /\ t2 `prefix_of` t3 /\ pk_ok t3 /\
    (forall r, r ∈ t1 -> r ∈ t \/ exists x, x ∈ dict_of_literal ms /\ bd_infl_row x = Some r) /\
    (forall r, r ∈ t2 -> r ∈ t1 \/ exists m, m ∈ ds /\ bd_decl_row m = Some r) /\
    (forall r, r ∈ t3 -> r ∈ t2 \/ nu_variant_of t2 r) /\
    (forall x r, x ∈ dict_of_literal ms -> bd_infl_row x = Some r ->
       exists_normalized (word_normalized r) (lemma r) t1 = true) /\
    (forall m r, m ∈ ds -> bd_decl_row m = Some r ->
       exists_normalized (word_normalized r) (lemma r) t2 = true) /\
    (forall x, x ∈ bd_nu_query t2 -> exists_normalized (normalize_greek (x.1.1 ++ γ"ν")) x.1.2 t3 = true).
Proof.
  intros Hpk Hi Hd Hn.
  destruct (add_wiktionary_inflections_ok ms t Hpk Hi) as (t1 & n1 & E1 & Hpk1 & Hp1 & Hr1 & He1).
  pose proof (rows_norm _ _ _ _ (fun x r H => proj1 (proj2 (bd_infl_row_some x r H))) Hr1) as Hr1'.
  destruct (add_greek_wiktionary_declensions_ok ds t1 Hpk1) as (t2 & n2 & E2 & Hpk2 & Hp2 & Hr2 & He2).
  { eapply list.Forall_impl; [exact Hd|]. intros m Hm. exact (agrees_grow t t1 _ _ Hm Hr1'). }
  pose proof (rows_norm _ _ _ _ (fun m r H => proj1 (proj2 (bd_decl_row_some m r H))) Hr2) as Hr2'.
  destruct (bd_add_nu_movable_variants_ok t2 Hpk2) as (t3 & n3 & E3 & Hpk3 & Hp3 & Hr3 & He3).
  { exact (nu_final_ok_grow t1 t2 _ (nu_final_ok_grow t t1 _ Hn Hr1') Hr2'). }
  exists t1, t2, t3. cbn [run_pass]. rewrite E1. cbn [run_pass]. rewrite E2. cbn [run_pass].
  rewrite E3. auto 20.
Qed.

Lemma nu_variant_of_prefix t t' r : t `prefix_of` t' -> nu_variant_of t r -> nu_variant_of t' r.
Proof.
  intros Hp (Hn & Hs & r0 & Hr0 & Hw & Hl). split; [done|]. split; [done|].
  exists r0. split; [by eapply elem_of_prefix|done].
Qed.

(** C35: The build, when the files agree with the base table (every row
    of the base with the form of a JSON entry, or with a form ending in
    [ν], carries the [normalize_greek] of its form; no [null] lemma), runs
    to its end without an exception: it keeps the primary key, only adds
    rows to the base index, every added row comes from an inflection
    entry, a declension mapping, or is the [ν] variant of a row, every
    pair [(normalize_greek w, normalize_greek l)] of the two files is
    present, and so is the [ν] variant of every candidate row. *)
Theorem build_database_spec lsj files ms ds c t :
  create_lemma_index (Some lsj) files = inr (c, t) ->
  Forall (infl_item_ok t) (dict_of_literal ms) ->
  Forall (fun m => agrees t (get_text (bd_word_form m))) ds ->
  Forall nu_final_ok t ->
  exists t', build_database (Some lsj) files (Some ms) (Some ds) = inr (t', None) /\
    pk_ok t' /\ t `prefix_of` t' /\
    (forall r, r ∈ t' -> r ∈ t \/ (exists x, x ∈ dict_of_literal ms /\ bd_infl_row x = Some r) \/
       (exists m, m ∈ ds /\ bd_decl_row m = Some r) \/ nu_variant_of t' r) /\
    (forall x r, x ∈ dict_of_literal ms -> bd_infl_row x = Some r ->
       exists_normalized (word_normalized r) (lemma r) t' = true) /\
    (forall m r, m ∈ ds -> bd_decl_row m = Some r ->
       exists_normalized (word_normalized r) (lemma r) t' = true) /\
    (forall r0, r0 ∈ t' -> nu_candidate r0 = true ->
       exists_normalized (normalize_greek (word_form r0 ++ γ"ν")) (lemma r0) t' = true).
Proof.
  intros Hc Hi Hd Hn.
  destruct (build_passes_ok ms ds t (create_lemma_index_pk _ _ _ _ Hc) Hi Hd Hn)
    as (t1 & t2 & t3 & E & Hp1 & Hp2 & Hp3 & Hpk & Hr1 & Hr2 & Hr3 & He1 & He2 & He3).
  exists t3. unfold build_database. rewrite Hc, E.
  split; [done|]. split; [done|]. split; [by transitivity t1; [|transitivity t2]|]. split; [|split; [|split]].
  - intros r [[[Hr|Hr]%Hr1|Hr]%Hr2|Hr]%Hr3; auto.
    by right; right; right; apply (nu_variant_of_prefix t2).
  - intros x r Hx Hr. apply (exists_normalized_prefix _ _ t1); [by transitivity t2|exact (He1 x r Hx Hr)].
  - intros m r Hm Hr. apply (exists_normalized_prefix _ _ t2); [done|exact (He2 m r Hm Hr)].
  - intros r0 [Hr0|Hv]%Hr3 Hcand.
    + exact (He3 _ (bd_nu_query_intro r0 t2 Hr0 Hcand)).
    + by rewrite (nu_variant_not_candidate _ _ Hv) in Hcand.
Qed.
End BuildDatabase.

(** ** The build on the entry [λόγος] *)

Definition logos_lsj : list dict_entry := [DictEntry γ"λόγος" γ"λογοσ" "greek"].

(** The index create_perseus_database.py builds from it: the forms
    [generate_all_forms] makes, among them [λογοσοις], whose final [ς] is
    not folded. *)
Definition logos_base : table :=
  match create_lemma_index (Some logos_lsj) [] with inr (_, t) => t | inl _ => [] end.

Definition logos_inflections : list (pystr * infl_value) :=
  [(γ"λόγοις", IDict (JVal γ"λόγος") (JVal (MList ["dative"; "plural"]%string)));
   (γ"λόγε", IDict (JVal γ"λόγος") (JVal (MStr "vocative")))].

Definition logos_declensions : list bd_decl :=
  [BdDecl (JVal γ"λόγου") (JVal γ"λόγος") (JVal "genitive") (JVal "singular") (JVal "masculine")].

(** The guard of the inflection pass tests [word_normalized] while
    the key is [word_form]: an inflection entry whose form is the form of
    a base row that [normalize_greek] changes (the generated [λογοσοις],
    stored with itself as [word_normalized]) passes the guard, its plain
    [INSERT] raises [IntegrityError], and the build stops with the base
    index, none of the passes committed. *)
Example build_database_unique_violation :
  ~ agrees logos_base γ"λογοσοις" /\
  build_database (Some logos_lsj) [] (Some [(γ"λογοσοις", IDict (JVal γ"λόγος") JAbsent)]) (Some []) =
    inr (logos_base, Some (IntegrityError (UniqueViolation (γ"λογοσοις", γ"λογοσ")))).
Proof. split; [apply (bool_decide_unpack _)|]; vm_compute; reflexivity. Qed.

Lemma build_database_spec_witness :
  exists t', build_database (Some logos_lsj) [] (Some logos_inflections) (Some logos_declensions) =
    inr (t', None) /\ pk_ok t' /\ logos_base `prefix_of` t' /\
    (forall r, r ∈ t' -> r ∈ logos_base \/
       (exists x, x ∈ dict_of_literal logos_inflections /\ bd_infl_row x = Some r) \/
       (exists m, m ∈ logos_declensions /\ bd_decl_row m = Some r) \/ nu_variant_of t' r) /\
    (forall x r, x ∈ dict_of_literal logos_inflections -> bd_infl_row x = Some r ->
       exists_normalized (word_normalized r) (lemma r) t' = true) /\
    (forall m r, m ∈ logos_declensions -> bd_decl_row m = Some r ->
       exists_normalized (word_normalized r) (lemma r) t' = true) /\
    (forall r0, r0 ∈ t' -> nu_candidate r0 = true ->
       exists_normalized (normalize_greek (word_form r0 ++ γ"ν")) (lemma r0) t' = true).
Proof.
  apply (build_database_spec logos_lsj [] logos_inflections logos_declensions logos_lsj logos_base).
  - vm_compute. reflexivity.
  - apply (bool_decide_unpack _). vm_compute. reflexivity.
  - apply (bool_decide_unpack _). vm_compute. reflexivity.
  - apply (bool_decide_unpack _). vm_compute. reflexivity.
Defined.
